(* ===== verification/_CoqProject ===== *)
-Q . S2P
Prelude.v
Errors.v
World.v
Externals.v
JsonOrder.v
Serde.v
TransactionUtil.v
SignatureUtil.v
RemoteUtil.v
Traits.v
Delivery.v
Promises.v
Memory.v
Vault.v
Fireblocks.v
Crossmint.v
Fordefi.v
Retries.v
Utila.v
Turnkey.v
Privy.v
Para.v
Dfns.v
WalletJwt.v
Cdp.v
Openfort.v
Responses.v
Kms.v
LedgerDashboard.v
Ledger.v
LedgerActor.v
LedgerChannel.v
Keychain.v
HonestMessages.v
HonestTransactions.v
HonestSends.v
Rejection.v
FailedJobs.v
NoPanic.v
Effort.v
Availability.v
HonestHealth.v
WellFormed.v
Redaction.v
SdkAdapter.v
BuildScript.v
