(* ===== verification/Prelude.v ===== *)
(** * solana-keychain (Rust): verification library

    The crate signs Solana transactions through interchangeable backends: a key
    in memory, remote custody services reached over HTTP, and a Ledger hardware
    wallet.  This library models the crate's own code under src/rust/src and
    proves what a caller relies on: which signature ends up where, what is
    broadcast and when, what an error says about a transaction that may already
    be on chain, and who may use the hardware device.

    ** Parts and files

    - [Prelude]: results, runs of asynchronous code, machine bytes and fixed
      arrays, the string functions of the standard library the sources use
      (trimming by UTF-8 whitespace, splitting, integer parsing, UTF-8 checks),
      the hint database and the generic lemmas.
    - [Errors]: error.rs.  [SignerError] and its renderings.
    - [World]: the environment of asynchronous code.  A computation is a state
      transformer over a trace of requests and sleeps, the shared
      pending-transaction slots and oracles for what the outside answers (HTTP
      replies, timers, the clock, random ids); it ends with a value, a panic, or
      by being dropped.  Cancellation and timeouts are possible at every request
      and every sleep.  Three judgements describe computations: [returns] (what
      comes back), [sends] (what goes out) and [calm] (no panic, slots kept).
      [Utc::now] panics if the clock is before the Unix epoch.
    - [Externals]: third-party code as classes of functions, with classes of
      laws beside them: codecs, the Solana SDK, JSON, JWT, Ed25519, P-256, RSA
      and HKDF.  [Demo] and its siblings instantiate them with concrete functions.
    - [JsonOrder]: sorting JSON objects by key, and values equal up to the order
      of entries.
    - [TransactionUtil]: transaction_util.rs and the result types of traits.rs.
    - [SignatureUtil]: signature_util.rs.
    - [RemoteUtil]: remote_util.rs and http_client_config.rs.
    - [Traits]: traits.rs as classes with classes of laws, and send.rs, whose
      theorems are proved against the laws.
    - [Memory], [Vault], [Fireblocks], [Crossmint], [Fordefi], [Utila],
      [Turnkey], [Privy], [Para], [Dfns], [Cdp], [Openfort]: one backend each,
      from the directory of that name under src/rust/src.  [Kms] holds aws_kms/
      and gcp_kms/ in its modules [Aws] and [Gcp].
    - [WalletJwt]: wallet_jwt.rs, the token of [Cdp] and [Openfort] requests.
    - [LedgerDashboard]: ledger/dashboard.rs, device selection and APDU framing.
    - [Ledger]: ledger/mod.rs, the envelope, sessions, commands and the signer.
    - [LedgerActor]: the concurrency of ledger/mod.rs, callers and device thread
      as a step relation.  [LedgerChannel]: how the device thread is started.
    - [Keychain]: lib.rs, the [Signer] enum over all the backends.
    - [Serde] and [Responses]: how a derived deserialiser reads a document, and
      the response structs of the types.rs of every backend.
    - [SdkAdapter]: sdk_adapter/, and [BuildScript]: src/rust/build.rs.
    - [Redaction]: the hand-written [Debug] implementations of the signers.

    Five files are about the crate as a whole and add no operations: [Retries]
    (the creates and idempotency keys of any sequence of broadcasting calls),
    [NoPanic] (no operation panics), [Effort] (requests made and time slept),
    [Availability] (what a positive [is_available] rests on)
    and [WellFormed] (the representation invariant of every signer that can be
    made).

    Six files hold the other half of correctness, that the code succeeds when its
    surroundings do what they document.  [Delivery] is a judgement of total
    correctness, [delivers], with a rule per combinator of [World]: in a world
    whose provider is a given oracle, whose timers run out and whose clock is
    after the epoch, the computation returns and its value satisfies the
    postcondition.  [Promises] has the two kinds of promise a provider makes, to
    answer every request of a form ([serves]) or to run a job that is created and
    then polled ([runs_job]), and what code that asks gets from them.
    [HonestMessages], [HonestTransactions], [HonestSends] and [HonestHealth] state
    the promise of each provider, for messages, transactions, broadcasts, and
    probes and set-up, and prove every backend against it.  A promise names the
    endpoint, the credentials and the document of a request and is independent of
    what was exchanged before; it never mentions the code under proof, except to
    name the documents and URLs that code builds.  [Rejection] and [FailedJobs]
    use the same judgement for the opposite cases, a provider that turns every
    request away and one that accepts a job and then gives it up.

    Each backend file proves that its signer keeps the laws of [Traits]
    ([TransactionSignerLaws], [ModifyingSignerLaws], [MessageSignerLaws]) and
    where its requests go ([confined]); [Keychain] combines them.

    ** Correspondence

    Definitions keep the names of the functions they translate.  A method with
    [&mut self] or [&mut tx] returns the changed value beside its result; [?] is
    [try], [.await?] is [try!], and a [?] in a function that holds a transaction
    is [mut!] or [keeping].  A function that can panic returns a [run].  [u8] is
    [byte], a fixed array is [u8array], other machine integers are [Z] with the
    wrap-around written out where the code has it; lengths are [nat].  Where the
    code adds without a check, [u64_add], the outcome depends on the build, a
    parameter ([BuildProfile]): with overflow checks, as in a debug build, an
    overflow is a panic, and without them it wraps around.  A JSON
    request is the [Value] it serialises to.  A typed response is a record of the
    fields the code reads; backends take its deserialiser as a parameter, and
    [Responses] gives the one that the struct declares, over a JSON parser.  A
    copy into a slice is [array_write], which panics out of range.

    ** What the theorems show

    - Sending: [sign_and_send_spec], [modify_and_send_spec],
      [signer_keeps_its_promise], [provider_broadcasts_alone].  A transaction is
      broadcast once, complete, exactly as returned, and identified by its fee
      payer; every backend refines the contract of its trait, and one whose
      provider broadcasts returns the signature the provider's last answer shows.
    - Success: [honest_provider_sends], [honest_provider_signs_message],
      [honest_provider_available], [honest_provider_opens].  With a provider, or
      a device, that keeps its documented promises, signing, broadcasting, probing
      and opening terminate with the right result, for every backend.  So the
      checks of the backends refuse no good answer, the polling loops are long
      enough for a provider that answers late but within the configured attempts,
      and no request is malformed.
    - Refusal: [rejection_reported], [failed_job_reported].  A client error of
      the provider ends any operation after one request, as that error; a job the
      provider accepts and then gives up ends the call at that answer, as the
      state it announces.
    - The unified signer: [signer_messages_verified], [signer_requests_confined],
      [constructed_signer_ready].  No backend returns a message signature it has
      not verified, sends a request outside its base URL, or comes out of a
      constructor without its key or with an HTTP client that would leak.
    - The crate as a whole: [signer_never_panics], [reachable_well_formed],
      [retries_share_key], [sign_and_send_bounded],
      [available_signer_attests], [debug_hides_credentials].  A provider cannot
      crash the caller or keep it busy beyond what is configured; retries of a
      broadcast carry one idempotency key; an available signer has shown its key,
      except where the theorem says that the code compares none.
    - Documents: [responses_contract], [utila_state_polls],
      [resolved_version_spec], [adapters_agree].  Every response struct reads each
      part of its value from the member of that name.
    - Signatures: [add_signature_spec], [all_signers_complete],
      [extract_returned_exact], [fordefi_broadcast_signature],
      [extract_signature_spec] and the decoders' round trips.
    - Requests that authenticate themselves: [cdp_requests_authenticated],
      [openfort_requests_authenticated], [dfns_signature_protocol],
      [privy_rpc_authorizes_request], [compute_req_hash_order_independent],
      [canonicalize_order_independent].  What a token or a signature vouches for
      is the request that is sent.
    - Accounting for accepted requests: [unconfirmed_unless_rejected_spec],
      [pending_ids_exact], the [_failure_classified] and
      [_accepted_id_reported] theorems.  A request a broadcasting provider may
      still execute is never reported as a plain failure, and its id is never
      lost.
    - Idempotency: [idempotency_key_uuid] and the namespace theorems.
    - Bounds and termination: [poll_until_spec], [crossmint_requests_bounded],
      [fireblocks_poll_spec], [utila_poll_spec], [read_body_capped_spec].
    - Availability in detail: [vault_is_available_spec],
      [aws_is_available_spec].
    - Ledger: [device_claim_exclusive], [device_calls_linearised],
      [device_always_freed], [one_device_thread], [with_session_spec], [apdu_framing_roundtrip],
      [ledger_envelope_roundtrip], [select_ledger_spec], [sole_ledger_spec].

    Some theorems record a behaviour a reader may not expect:
    [crossmint_txid_unverified], [fordefi_fee_collision], [utila_poll_spec],
    [para_wallet_id_spec], [reply_precedes_release],
    [sole_ledger_order_dependent], [encode_uri_component_keeps_dots],
    [signer_secret_accepts_plus], [crossmint_available_before_init],
    [utila_ids_may_be_empty], [utc_before_epoch], [unkeyed_panics].

    ** Bounds and fuel

    Polling recurses on the configured number of attempts, which is the loop's
    own bound.  [write_loop] has the length of the APDU plus two as fuel: every
    packet after the first carries at least one byte.  [read_loop] has the
    source's own bound, 65535 chunks.  [reopen_loop] and [retry_connect] count
    the source's retries.  [chunks_of] has the length of its input as fuel: every
    chunk holds at least one byte.  No other recursion needs fuel.

    ** What is not modelled

    Logging and zeroising of secrets; the internals of the cloud SDKs, of TLS, of
    the JSON parser and of the HID library, which are parameters; the re-exports
    of the SDK versions; test code and the ports to other languages.  What is
    left of the sources is imports, feature attributes and tests.

    Several calls on one remote signer at once are not interleaved request by
    request: a remote signer is not changed by its calls, and what they share,
    the pending slots, is modelled with its interleavings in [TransactionUtil]. *)

From Stdlib.Strings Require Export Byte.
From stdpp Require Export base strings gmap pretty option list.
From Stdlib Require Import Lia.

(** ** Results, and runs of asynchronous code *)

(** Rust's [Result<A, E>]. *)
Inductive Result (A E : Type) : Type :=
  | Ok (a : A)
  | Err (e : E).
Arguments Ok {A E} a.
Arguments Err {A E} e.

#[global] Instance Result_eq_dec {A E} `{EqDecision A, EqDecision E} : EqDecision (Result A E).
Proof. solve_decision. Defined.

Definition is_ok {A E} (r : Result A E) : bool :=
  match r with Ok _ => true | Err _ => false end.

Definition map_err {A E F} (f : E -> F) (r : Result A E) : Result A F :=
  match r with Ok a => Ok a | Err e => Err (f e) end.

Definition res_bind {A B E} (r : Result A E) (k : A -> Result B E) : Result B E :=
  match r with Ok a => k a | Err e => Err e end.

Definition ok_or {A E} (e : E) (o : option A) : Result A E :=
  match o with Some a => Ok a | None => Err e end.

Definition res_ok {A E} (r : Result A E) : option A :=
  match r with Ok a => Some a | Err _ => None end.

Declare Scope keychain_scope.
Delimit Scope keychain_scope with keychain.

Notation "'let?' x := r 'in' k" := (res_bind r (fun x => k))
  (at level 10, x pattern, r at level 200, k at level 200) : keychain_scope.

(** Why a future stopped being polled: its owner dropped it, or the
    [tokio::time::timeout] around it fired.  Either way no further code runs. *)
Inductive stop := Cancelled | Elapsed.

#[global] Instance stop_eq_dec : EqDecision stop.
Proof. solve_decision. Defined.

(** How a piece of code ends: with a value, with a panic, or (asynchronous
    code only) by never being polled again. *)
Inductive run (A : Type) : Type :=
  | Returned (a : A)
  | Panicked
  | Dropped (why : stop).
Arguments Returned {A} a.
Arguments Panicked {A}.
Arguments Dropped {A} why.

(** ** Bytes and byte arrays *)

#[global] Instance byte_eq_dec : EqDecision byte := Byte.byte_eq_dec.

(** The value of a [u8], and the truncation [z as u8]. *)
Definition u8_val (b : byte) : Z := Z.of_N (Byte.to_N b).
Definition u8_nat (b : byte) : nat := Byte.to_nat b.
Definition u8_of_Z (z : Z) : byte :=
  match Byte.of_N (Z.to_N (z mod 256)) with Some b => b | None => x00 end.

(** [[u8; n]]: a list of bytes whose length is checked. *)
Record u8array (n : nat) := U8Array {
  arr_bytes : list byte;
  arr_length : bool_decide (length arr_bytes = n)
}.
Arguments U8Array {n} _ _.
Arguments arr_bytes {n} _.
Arguments arr_length {n} _.

(** [<[u8; n]>::try_from(slice)]. *)
Definition array_try_from (n : nat) (l : list byte) : option (u8array n) :=
  match decide (bool_decide (length l = n)) with
  | left H => Some (U8Array l H)
  | right _ => None
  end.

(** [[b; n]]. *)
Program Definition array_repeat (n : nat) (b : byte) : u8array n :=
  U8Array (replicate n b) _.
Next Obligation. intros. apply bool_decide_pack, length_replicate. Qed.

(** [a[start..stop].copy_from_slice(src)] panics unless the range lies in the
    array and is as long as the source; a [usize] that underflows is negative here. *)
Definition array_write {n} (a : u8array n) (start stop : Z) (src : list byte) : run (u8array n) :=
  if ((0 <=? start) && (start <=? stop) && (stop <=? Z.of_nat n) && (Z.of_nat (length src) =? stop - start))%Z then
    match array_try_from n (take (Z.to_nat start) (arr_bytes a) ++ src ++ drop (Z.to_nat stop) (arr_bytes a)) with
    | Some a' => Returned a'
    | None => Panicked
    end
  else Panicked.

Definition Pubkey := u8array 32.
Definition Signature := u8array 64.

(** [Signature::default()]: the all-zero placeholder of an unsigned slot. *)
Definition Signature_default : Signature := array_repeat 64 x00.

(** ** Rust strings: UTF-8 byte sequences *)

Definition as_bytes (s : string) : list byte := String.list_byte_of_string s.
Definition of_bytes (l : list byte) : string := String.string_of_list_byte l.

Definition str_len (s : string) : nat := String.length s.
Definition str_is_empty (s : string) : bool := bool_decide (s = EmptyString).

(** [str::strip_prefix] and [str::starts_with]. *)
Fixpoint strip_prefix (p s : string) : option string :=
  match p, s with
  | EmptyString, _ => Some s
  | String a p', String b s' => if bool_decide (a = b) then strip_prefix p' s' else None
  | String _ _, EmptyString => None
  end.

Definition starts_with (p s : string) : bool :=
  match strip_prefix p s with Some _ => true | None => false end.

(** [vec.join(sep)]. *)
Fixpoint str_join (sep : string) (l : list string) : string :=
  match l with
  | [] => EmptyString
  | [x] => x
  | x :: r => x +:+ sep +:+ str_join sep r
  end.

(** The characters [char::is_whitespace] accepts, as UTF-8: six of one byte,
    U+0085 and U+00A0 of two, and seventeen of three. *)
Definition ws1 (a : byte) : bool := bool_decide (a ∈ [x09; x0a; x0b; x0c; x0d; x20]).
Definition ws2 (a b : byte) : bool := bool_decide (a = xc2 ∧ b ∈ [x85; xa0]).
Definition ws3 (a b c : byte) : bool :=
  bool_decide ([a; b; c] ∈
    [ [xe1; x9a; x80];
      [xe2; x80; x80]; [xe2; x80; x81]; [xe2; x80; x82]; [xe2; x80; x83];
      [xe2; x80; x84]; [xe2; x80; x85]; [xe2; x80; x86]; [xe2; x80; x87];
      [xe2; x80; x88]; [xe2; x80; x89]; [xe2; x80; x8a];
      [xe2; x80; xa8]; [xe2; x80; xa9]; [xe2; x80; xaf];
      [xe2; x81; x9f]; [xe3; x80; x80] ]).

Fixpoint drop_ws (l : list byte) : list byte :=
  match l with
  | a :: r1 =>
      if ws1 a then drop_ws r1 else
      match r1 with
      | b :: r2 =>
          if ws2 a b then drop_ws r2 else
          match r2 with
          | c :: r3 => if ws3 a b c then drop_ws r3 else l
          | [] => l
          end
      | [] => l
      end
  | [] => []
  end.

(** The same on a reversed string, for the trailing end. *)
Fixpoint drop_ws_rev (l : list byte) : list byte :=
  match l with
  | c :: r1 =>
      if ws1 c then drop_ws_rev r1 else
      match r1 with
      | b :: r2 =>
          if ws2 b c then drop_ws_rev r2 else
          match r2 with
          | a :: r3 => if ws3 a b c then drop_ws_rev r3 else l
          | [] => l
          end
      | [] => l
      end
  | [] => []
  end.

(** [str::trim_start], [str::trim_end] and [str::trim]. *)
Definition trim_start (s : string) : string := of_bytes (drop_ws (as_bytes s)).
Definition trim_end (s : string) : string :=
  of_bytes (reverse (drop_ws_rev (reverse (as_bytes s)))).
Definition trim (s : string) : string := trim_end (trim_start s).

(** [str::trim_end_matches(c)] for an ASCII character. *)
Fixpoint drop_while {A} (p : A -> bool) (l : list A) : list A :=
  match l with
  | x :: r => if p x then drop_while p r else l
  | [] => []
  end.

Definition trim_end_matches (c : byte) (s : string) : string :=
  of_bytes (reverse (drop_while (fun b => bool_decide (b = c)) (reverse (as_bytes s)))).

(** [slice.iter().position(p)]. *)
Fixpoint position {A} (p : A -> bool) (l : list A) : option nat :=
  match l with
  | [] => None
  | x :: r => if p x then Some 0 else S <$> position p r
  end.

(** [str::split_once(c)]. *)
Fixpoint split_once (sep : byte) (l : list byte) : option (list byte * list byte) :=
  match l with
  | [] => None
  | b :: r => if bool_decide (b = sep) then Some ([], r)
              else (fun p => (b :: p.1, p.2)) <$> split_once sep r
  end.

(** [str::split(c)]: [cur] is the current piece, reversed. *)
Fixpoint split_from (sep : byte) (cur l : list byte) : list (list byte) :=
  match l with
  | [] => [reverse cur]
  | b :: r => if bool_decide (b = sep) then reverse cur :: split_from sep [] r
              else split_from sep (b :: cur) r
  end.
Definition split_char (sep : byte) (l : list byte) : list (list byte) := split_from sep [] l.

(** [starts_with] and [ends_with] for an ASCII character. *)
Definition first_is (b : byte) (l : list byte) : bool := bool_decide (head l = Some b).
Definition last_is (b : byte) (l : list byte) : bool := bool_decide (last l = Some b).

Definition is_ascii_digit (b : byte) : bool := ((48 <=? u8_val b) && (u8_val b <=? 57))%Z.

(** [str::parse] for an unsigned type with the given maximum: an optional [+],
    then digits with checked arithmetic. *)
Fixpoint parse_digits (max acc : Z) (l : list byte) : option Z :=
  match l with
  | [] => Some acc
  | b :: r =>
      if is_ascii_digit b then
        let acc := (acc * 10 + (u8_val b - 48))%Z in
        if (acc <=? max)%Z then parse_digits max acc r else None
      else None
  end.

Definition parse_uint (max : Z) (l : list byte) : option Z :=
  match l with
  | [] => None
  | b :: r =>
      let digits := if bool_decide (b = x2b) then r else l in
      match digits with [] => None | _ => parse_digits max 0 digits end
  end.

(** [str::contains]. *)
Fixpoint contains (s sub : string) : bool :=
  starts_with sub s || match s with EmptyString => false | String _ r => contains r sub end.

(** [str::replace] for a non-empty pattern, on the bytes: [skip] counts the
    bytes of a match still to be dropped. *)
Fixpoint replace_from (pat to : list byte) (skip : nat) (l : list byte) : list byte :=
  match l with
  | [] => []
  | b :: r =>
      match skip with
      | S k => replace_from pat to k r
      | 0 => if bool_decide (take (length pat) l = pat)
             then to ++ replace_from pat to (length pat - 1) r
             else b :: replace_from pat to 0 r
      end
  end.
Definition str_replace (s pat to : string) : string :=
  of_bytes (replace_from (as_bytes pat) (as_bytes to) 0 (as_bytes s)).

(** [str::rsplit_once]: at the last match of the pattern. *)
Fixpoint rsplit_once (pat l : list byte) : option (list byte * list byte) :=
  match l with
  | [] => None
  | b :: r =>
      match rsplit_once pat r with
      | Some (x, y) => Some (b :: x, y)
      | None => if bool_decide (take (length pat) l = pat) then Some ([], drop (length pat) l) else None
      end
  end.

(** [u8::to_ascii_lowercase] and [str::eq_ignore_ascii_case]. *)
Definition to_ascii_lowercase (b : byte) : byte :=
  if ((65 <=? u8_val b) && (u8_val b <=? 90))%Z then u8_of_Z (u8_val b + 32) else b.
Definition eq_ignore_ascii_case (s t : string) : bool :=
  bool_decide (map to_ascii_lowercase (as_bytes s) = map to_ascii_lowercase (as_bytes t)).

(** [std::str::from_utf8(..).is_ok()]. *)
Definition byte_in (lo hi : Z) (b : byte) : bool := ((lo <=? u8_val b) && (u8_val b <=? hi))%Z.
Definition utf8_cont (b : byte) : bool := byte_in 0x80 0xbf b.

Fixpoint utf8_valid (l : list byte) : bool :=
  match l with
  | [] => true
  | a :: r1 =>
      if byte_in 0 0x7f a then utf8_valid r1 else
      match r1 with
      | [] => false
      | b :: r2 =>
          if byte_in 0xc2 0xdf a then utf8_cont b && utf8_valid r2 else
          match r2 with
          | [] => false
          | c :: r3 =>
              if byte_in 0xe0 0xef a then
                (if bool_decide (a = xe0) then byte_in 0xa0 0xbf b
                 else if bool_decide (a = xed) then byte_in 0x80 0x9f b else utf8_cont b) &&
                utf8_cont c && utf8_valid r3
              else
              match r3 with
              | [] => false
              | d :: r4 =>
                  byte_in 0xf0 0xf4 a &&
                  (if bool_decide (a = xf0) then byte_in 0x90 0xbf b
                   else if bool_decide (a = xf4) then byte_in 0x80 0x8f b else utf8_cont b) &&
                  utf8_cont c && utf8_cont d && utf8_valid r4
              end
          end
      end
  end.

(** [String::from_utf8_lossy]: each maximal ill-formed prefix becomes U+FFFD. *)
Definition utf8_second3 (a b : byte) : bool :=
  if bool_decide (a = xe0) then byte_in 0xa0 0xbf b
  else if bool_decide (a = xed) then byte_in 0x80 0x9f b else utf8_cont b.
Definition utf8_second4 (a b : byte) : bool :=
  if bool_decide (a = xf0) then byte_in 0x90 0xbf b
  else if bool_decide (a = xf4) then byte_in 0x80 0x8f b else utf8_cont b.

Fixpoint lossy (l : list byte) : list byte :=
  let bad := [xef; xbf; xbd] in
  match l with
  | [] => []
  | a :: r1 =>
      if byte_in 0 0x7f a then a :: lossy r1 else
      match r1 with
      | [] => bad
      | b :: r2 =>
          if byte_in 0xc2 0xdf a then if utf8_cont b then a :: b :: lossy r2 else bad ++ lossy r1
          else if byte_in 0xe0 0xef a && utf8_second3 a b then
            match r2 with
            | [] => bad
            | c :: r3 => if utf8_cont c then a :: b :: c :: lossy r3 else bad ++ lossy r2
            end
          else if byte_in 0xf0 0xf4 a && utf8_second4 a b then
            match r2 with
            | [] => bad
            | c :: r3 =>
                if utf8_cont c then
                  match r3 with
                  | [] => bad
                  | d :: r4 => if utf8_cont d then a :: b :: c :: d :: lossy r4 else bad ++ lossy r3
                  end
                else bad ++ lossy r2
            end
          else bad ++ lossy r1
      end
  end.
Definition from_utf8_lossy (l : list byte) : string := of_bytes (lossy l).

(** The [{b:02x}] and [{b:02X}] renderings of a byte. *)
Definition hex_digit (upper : bool) (n : Z) : byte :=
  if (n <? 10)%Z then u8_of_Z (48 + n)
  else if upper then u8_of_Z (55 + n) else u8_of_Z (87 + n).

Definition hex_pair (upper : bool) (b : byte) : list byte :=
  [hex_digit upper (Z.shiftr (u8_val b) 4); hex_digit upper (Z.land (u8_val b) 15)].

(** [u8::is_ascii_hexdigit]. *)
Definition is_ascii_hexdigit (b : byte) : bool :=
  let n := u8_val b in
  ((48 <=? n) && (n <=? 57) || (65 <=? n) && (n <=? 70) || (97 <=? n) && (n <=? 102))%Z.

(** [&l[i..j]] for a range known to be within bounds. *)
Definition slice {A} (i j : nat) (l : list A) : list A := take (j - i) (drop i l).

(** ** Generic lemmas *)

Lemma array_eq {n} (a b : u8array n) : arr_bytes a = arr_bytes b -> a = b.
Proof.
  destruct a as [l Hl], b as [l' Hl']; simpl; intros ->.
  f_equal. apply proof_irrel.
Qed.

#[global] Instance u8array_eq_dec n : EqDecision (u8array n).
Proof.
  intros a b. destruct (decide (arr_bytes a = arr_bytes b)) as [H|H].
  - left. by apply array_eq.
  - right. by intros ->.
Defined.

#[global] Instance Pubkey_eq_dec : EqDecision Pubkey := u8array_eq_dec 32.
#[global] Instance Signature_eq_dec : EqDecision Signature := u8array_eq_dec 64.

Lemma array_length {n} (a : u8array n) : length (arr_bytes a) = n.
Proof. exact (bool_decide_unpack _ (arr_length a)). Qed.

Lemma array_try_from_Some n l a :
  array_try_from n l = Some a <-> arr_bytes a = l /\ length l = n.
Proof.
  unfold array_try_from. destruct (decide _) as [H|H]; split.
  - intros [= <-]. split; [done|]. exact (bool_decide_unpack _ H).
  - intros [Ha _]. f_equal. by apply array_eq.
  - done.
  - intros [Ha Hl]. destruct H. by apply bool_decide_pack.
Qed.

Lemma array_try_from_None n l : array_try_from n l = None <-> length l ≠ n.
Proof.
  unfold array_try_from. destruct (decide _) as [H|H].
  - pose proof (bool_decide_unpack _ H). naive_solver.
  - split; [|done]. intros _ Hl. destruct H. by apply bool_decide_pack.
Qed.

Lemma array_try_from_bytes {n} (a : u8array n) : array_try_from n (arr_bytes a) = Some a.
Proof. apply array_try_from_Some. split; [done|apply array_length]. Qed.

Lemma array_write_inside {n} (a : u8array n) (start stop : Z) (src : list byte) :
  (0 <= start)%Z -> (stop <= Z.of_nat n)%Z -> (Z.of_nat (length src) = stop - start)%Z ->
  exists a', array_write a start stop src = Returned a' /\
    arr_bytes a' = take (Z.to_nat start) (arr_bytes a) ++ src ++ drop (Z.to_nat stop) (arr_bytes a).
Proof.
  intros H1 H2 H3. unfold array_write. pose proof (array_length a) as Ha.
  assert (((0 <=? start) && (start <=? stop) && (stop <=? Z.of_nat n) && (Z.of_nat (length src) =? stop - start))%Z
    = true) as -> by lia.
  destruct (array_try_from n _) as [a'|] eqn:E.
  - apply array_try_from_Some in E as [E _]. eauto.
  - apply array_try_from_None in E. exfalso. apply E. rewrite !length_app, length_take, length_drop. lia.
Qed.

Lemma u8_val_range b : (0 <= u8_val b < 256)%Z.
Proof. unfold u8_val. pose proof (Byte.to_N_bounded b). lia. Qed.

Lemma u8_val_of_Z z : u8_val (u8_of_Z z) = (z mod 256)%Z.
Proof.
  unfold u8_of_Z, u8_val. pose proof (Z.mod_pos_bound z 256 ltac:(lia)).
  destruct (Byte.of_N _) eqn:E.
  - apply Byte.to_of_N in E. rewrite E. lia.
  - apply Byte.of_N_None_iff in E. lia.
Qed.

Lemma u8_of_Z_val b : u8_of_Z (u8_val b) = b.
Proof. by destruct b. Qed.

Lemma u8_val_inj a b : u8_val a = u8_val b -> a = b.
Proof. intros H. by rewrite <- (u8_of_Z_val a), H, u8_of_Z_val. Qed.

Lemma as_bytes_of_bytes l : as_bytes (of_bytes l) = l.
Proof. apply String.list_byte_of_string_of_list_byte. Qed.

Lemma of_bytes_as_bytes s : of_bytes (as_bytes s) = s.
Proof. apply String.string_of_list_byte_of_string. Qed.

Lemma as_bytes_inj s t : as_bytes s = as_bytes t -> s = t.
Proof. intros H. by rewrite <- (of_bytes_as_bytes s), H, of_bytes_as_bytes. Qed.

Lemma as_bytes_cons a s : as_bytes (String a s) = Ascii.byte_of_ascii a :: as_bytes s.
Proof. done. Qed.

Lemma as_bytes_app s t : as_bytes (s +:+ t) = as_bytes s ++ as_bytes t.
Proof.
  induction s as [|a s IH]; [done|].
  change (String a s +:+ t) with (String a (s +:+ t)).
  by rewrite !as_bytes_cons, IH.
Qed.

Lemma length_as_bytes s : length (as_bytes s) = str_len s.
Proof. induction s as [|a s IH]; [done|]. rewrite as_bytes_cons. simpl. by rewrite IH. Qed.

Lemma strip_prefix_Some p s r : strip_prefix p s = Some r <-> s = p +:+ r.
Proof.
  revert s. induction p as [|a p IH]; intros s; simpl; [naive_solver|].
  destruct s as [|b s]; [done|].
  case_bool_decide as Hab; subst.
  - rewrite IH. split; [by intros ->|by intros [= ->]].
  - split; [done|]. by intros [= ?].
Qed.

Lemma position_Some {A} (p : A -> bool) (l : list A) (i : nat) :
  position p l = Some i <->
  exists x, l !! i = Some x /\ p x = true /\
            forall j y, j < i -> l !! j = Some y -> p y = false.
Proof.
  revert i. induction l as [|x l IH]; intros i; simpl.
  { split; [done|]. by intros (? & ? & _). }
  destruct (p x) eqn:Hp.
  - split.
    + intros [= <-]. exists x. split_and!; [done..|]. lia.
    + intros (y & Hy & Hpy & Hall). destruct i as [|i]; [done|].
      specialize (Hall 0 x ltac:(lia) eq_refl). congruence.
  - rewrite fmap_Some. split.
    + intros (k & Hk & ->). apply IH in Hk as (y & Hy & Hpy & Hall).
      exists y. split_and!; [done..|]. intros [|j] z Hj Hz; simpl in *; [congruence|].
      apply (Hall j); [lia|done].
    + intros (y & Hy & Hpy & Hall). destruct i as [|i]; simpl in *; [congruence|].
      exists i. split; [|done]. apply IH. exists y. split_and!; [done..|].
      intros j z Hj Hz. apply (Hall (S j)); [lia|done].
Qed.

Lemma position_None {A} (p : A -> bool) (l : list A) :
  position p l = None <-> forall x, x ∈ l -> p x = false.
Proof.
  induction l as [|x l IH]; simpl.
  - split; [|done]. intros _ x Hx. by apply not_elem_of_nil in Hx.
  - destruct (p x) eqn:Hp.
    + split; [done|]. intros H. specialize (H x (list_elem_of_here _ _)). congruence.
    + rewrite fmap_None, IH. setoid_rewrite elem_of_cons. split; [|auto].
      intros H y [->|Hy]; auto.
Qed.

Lemma position_lt {A} (p : A -> bool) (l : list A) i : position p l = Some i -> i < length l.
Proof. intros (x & Hx & _)%position_Some. by eapply lookup_lt_Some. Qed.

Lemma drop_while_suffix {A} (p : A -> bool) l : exists k, l = k ++ drop_while p l /\ Forall (fun x => p x = true) k.
Proof.
  induction l as [|x l (k & Hk & HF)]; simpl; [by exists []|].
  destruct (p x) eqn:Hp.
  - exists (x :: k). split; [by rewrite Hk at 1|by constructor].
  - by exists [].
Qed.

Lemma drop_while_head {A} (p : A -> bool) l x r : drop_while p l = x :: r -> p x = false.
Proof. induction l as [|y l IH]; simpl; [done|]. destruct (p y) eqn:Hp; [done|]. by intros [= <- _]. Qed.

Lemma drop_while_id {A} (p : A -> bool) l : drop_while p (drop_while p l) = drop_while p l.
Proof.
  destruct (drop_while p l) as [|x r] eqn:E; [done|].
  apply drop_while_head in E. simpl. by rewrite E.
Qed.

Lemma split_once_None sep l : sep ∉ l -> split_once sep l = None.
Proof.
  induction l as [|b l IH]; intros Hn; cbn [split_once]; [done|].
  rewrite bool_decide_eq_false_2 by (intros ->; apply Hn; constructor).
  rewrite IH; [done|]. intros ?; apply Hn; by constructor.
Qed.

Lemma split_once_app sep l r : sep ∉ l -> split_once sep (l ++ sep :: r) = Some (l, r).
Proof.
  induction l as [|b l IH]; intros Hn; cbn [app split_once].
  - by rewrite bool_decide_eq_true_2.
  - rewrite bool_decide_eq_false_2 by (intros ->; apply Hn; constructor).
    rewrite IH; [done|]. intros ?; apply Hn; by constructor.
Qed.

Lemma split_once_Some sep l a b : split_once sep l = Some (a, b) -> l = a ++ sep :: b /\ sep ∉ a.
Proof.
  revert a. induction l as [|x l IH]; intros a; cbn [split_once]; [done|].
  case_bool_decide as Hx.
  - intros [= <- <-]. subst. split; [done|]. apply not_elem_of_nil.
  - intros ([c d] & E & [= -> ->])%fmap_Some. apply IH in E as [-> Hn]. split; [done|].
    intros [?|?]%elem_of_cons; [congruence|done].
Qed.

(** Decimal digits contain no colon. *)
Lemma pretty_digits (n : nat) : x3a ∉ as_bytes (pretty n).
Proof.
  assert (HN : forall (x : N) s, x3a ∉ as_bytes s -> x3a ∉ as_bytes (pretty_N_go x s)).
  { intros x. induction (N.lt_wf_0 x) as [x _ IH]. intros s Hs.
    destruct (decide (0 < x)%N) as [Hx|Hx].
    - rewrite pretty_N_go_step by done. apply IH; [by apply N.div_lt|].
      rewrite as_bytes_cons. intros [Heq|Hin]%elem_of_cons; [|done].
      unfold pretty_N_char in Heq. repeat case_match; done.
    - assert (x = 0%N) as -> by lia. by rewrite pretty_N_go_0. }
  unfold pretty, pretty_nat, pretty, pretty_N. case_decide.
  - intros [Heq|Hin]%elem_of_cons; [done|by apply not_elem_of_nil in Hin].
  - apply HN. apply not_elem_of_nil.
Qed.

Lemma sep_inj (a b r s : list byte) :
  x3a ∉ a -> x3a ∉ b -> a ++ x3a :: r = b ++ x3a :: s -> a = b /\ r = s.
Proof.
  intros Ha Hb E. apply (f_equal (split_once x3a)) in E.
  rewrite !split_once_app in E by done. by injection E as -> ->.
Qed.

Lemma length_hex_pair up b : length (hex_pair up b) = 2.
Proof. done. Qed.

Lemma hex_pair_hexdigits up b : Forall (fun c => is_ascii_hexdigit c = true) (hex_pair up b).
Proof. destruct up, b; vm_compute; repeat constructor. Qed.

Lemma hex_pair_inj up a b : hex_pair up a = hex_pair up b -> a = b.
Proof.
  intros H. apply u8_val_inj.
  assert (Hd : forall n m, (0 <= n < 16)%Z -> (0 <= m < 16)%Z ->
                hex_digit up n = hex_digit up m -> n = m).
  { intros n m Hn Hm E. unfold hex_digit in E.
    destruct (n <? 10)%Z eqn:En, (m <? 10)%Z eqn:Em, up;
      apply (f_equal u8_val) in E; rewrite !u8_val_of_Z, !Z.mod_small in E by lia; lia. }
  pose proof (u8_val_range a) as Ra. pose proof (u8_val_range b) as Rb.
  injection H as H1 H2.
  apply Hd in H1; [|rewrite Z.shiftr_div_pow2 by lia; split; [apply Z.div_pos|apply Z.div_lt_upper_bound]; lia..].
  assert (L : forall z, Z.land z 15 = (z mod 16)%Z) by (intros z; apply (Z.land_ones z 4); lia).
  rewrite !L in H2. apply Hd in H2; [|apply Z.mod_pos_bound; lia..].
  rewrite !Z.shiftr_div_pow2 in H1 by lia. change (2 ^ 4)%Z with 16%Z in H1.
  rewrite (Z.div_mod (u8_val a) 16), (Z.div_mod (u8_val b) 16) by lia. lia.
Qed.

(** ** Automation *)

Create HintDb keychain discriminated.

(** Invert one [Result] equation in the context. *)
Ltac res_inv :=
  repeat match goal with
  | H : Ok _ = Ok _ |- _ => injection H as H
  | H : Err _ = Err _ |- _ => injection H as H
  | H : Ok _ = Err _ |- _ => discriminate H
  | H : Err _ = Ok _ |- _ => discriminate H
  | H : Returned _ = Returned _ |- _ => injection H as H
  | H : Returned _ = Panicked |- _ => discriminate H
  | H : Returned _ = Dropped _ |- _ => discriminate H
  | H : Panicked = Returned _ |- _ => discriminate H
  | H : Dropped _ = Returned _ |- _ => discriminate H
  | H : (_, _) = (_, _) |- _ => injection H as H
  | H : Some _ = Some _ |- _ => injection H as H
  | H : Some _ = None |- _ => discriminate H
  | H : None = Some _ |- _ => discriminate H
  end; subst.

(** Split the innermost scrutinee of the goal or of a hypothesis. *)
Ltac split_match :=
  match goal with
  | |- context [match ?x with _ => _ end] =>
      lazymatch x with context [match _ with _ => _ end] => fail | _ => destruct x eqn:? end
  end.
Ltac split_match_in H :=
  match type of H with
  | context [match ?x with _ => _ end] =>
      lazymatch x with context [match _ with _ => _ end] => fail | _ => destruct x eqn:? end
  end.

Lemma rsplit_once_Some pat l x y : rsplit_once pat l = Some (x, y) -> l = x ++ pat ++ y.
Proof.
  revert x y. induction l as [|b r IH]; intros x y; cbn [rsplit_once]; [done|].
  destruct (rsplit_once pat r) as [[x' y']|] eqn:E.
  - intros [= <- <-]. by rewrite (IH _ _ eq_refl).
  - case_bool_decide as Ht; [|done]. intros [= <- <-]. rewrite <- Ht at 1. cbn [app]. by rewrite take_drop.
Qed.

(** ** Arithmetic *)

(** The build profile: a debug build panics where a release build wraps around. *)
Class BuildProfile := { overflow_checks : bool }.

(** [a + b] on [u64]. *)
Definition u64_add `{BuildProfile} (a b : Z) : run Z :=
  if (2 ^ 64 <=? a + b)%Z then (if overflow_checks then Panicked else Returned ((a + b) mod 2 ^ 64)%Z)
  else Returned (a + b)%Z.

(** A sum of numbers below 2^63 does not overflow. *)
Lemma u64_add_fits `{BuildProfile} a b :
  (overflow_checks = true -> a < 2 ^ 63 /\ b <= 2 ^ 63)%Z -> exists c, u64_add a b = Returned c.
Proof.
  intros Hf. unfold u64_add. destruct (Z.leb_spec (2 ^ 64) (a + b)); [|by eexists]. destruct overflow_checks; [|by eexists].
  destruct Hf; [done|]. lia.
Qed.
