(* ===== verification/Errors.v ===== *)
(** * [SignerError] (src/rust/src/error.rs)

    The error type every operation of the crate returns, its [Display] and
    [Debug] renderings and [detail_string].  The theorems say what the
    renderings may depend on: the error's detail never reaches them. *)

From S2P Require Import Prelude.

Inductive SignerError : Type :=
  | InvalidPrivateKey (detail : string)
  | InvalidPublicKey (detail : string)
  | SigningFailed (detail : string)
  | RemoteApiError (detail : string) (provider_tx_id : option string)
  | HttpError (detail : string)
  | SerializationError (detail : string)
  | ConfigError (detail : string)
  | NotAvailable (detail : string)
  | UserRejected (detail : string)
  | IoError (detail : string)
  | BroadcastUnconfirmed
      (provider_tx_id : option string) (provider_status : option Z)
      (idempotency_key : option string) (transaction_signature : option Signature)
      (detail : string)
  | Other (detail : string).

(** [Result<A, SignerError>]. *)
Notation result A := (Result A SignerError).

#[global] Instance SignerError_eq_dec : EqDecision SignerError.
Proof. solve_decision. Defined.

(** [SignerError::remote_api]. *)
Definition remote_api (detail : string) : SignerError := RemoteApiError detail None.

Definition detail_string (e : SignerError) : string :=
  match e with
  | InvalidPrivateKey detail | InvalidPublicKey detail | SigningFailed detail
  | HttpError detail | SerializationError detail | ConfigError detail
  | NotAvailable detail | UserRejected detail | IoError detail | Other detail => detail
  | RemoteApiError detail _ | BroadcastUnconfirmed _ _ _ _ detail => detail
  end.

(** [impl From<std::io::Error>], [From<serde_json::Error>] and
    [From<reqwest::Error>]: the foreign error is its [to_string()]. *)
Definition from_io_error (err : string) : SignerError := IoError err.
Definition from_serde_error (err : string) : SignerError := SerializationError err.
Definition from_reqwest_error (err : string) : SignerError := HttpError err.

(** [Display], from the [#[error(..)]] attributes. *)
Definition display (e : SignerError) : string :=
  match e with
  | InvalidPrivateKey _ => "Invalid private key format"
  | InvalidPublicKey _ => "Invalid public key"
  | SigningFailed _ => "Signing failed"
  | RemoteApiError _ _ => "Remote API error"
  | HttpError _ => "HTTP request failed"
  | SerializationError _ => "Serialization error"
  | ConfigError _ => "Configuration error"
  | NotAvailable _ => "Signer not available"
  | UserRejected _ => "Request rejected by user"
  | IoError _ => "IO error"
  | BroadcastUnconfirmed provider_tx_id _ _ _ _ =>
      "Broadcast unconfirmed; the provider may have executed the transaction" +:+
      match provider_tx_id with
      | Some id => " (provider transaction id: " +:+ id +:+ ")"
      | None => EmptyString
      end
  | Other _ => "Signer error"
  end.

(** [Debug]. *)
Definition debug (e : SignerError) : string :=
  match e with
  | InvalidPrivateKey _ => "SignerError::InvalidPrivateKey([REDACTED])"
  | InvalidPublicKey _ => "SignerError::InvalidPublicKey([REDACTED])"
  | SigningFailed _ => "SignerError::SigningFailed([REDACTED])"
  | RemoteApiError _ provider_tx_id =>
      match provider_tx_id with
      | Some id => "SignerError::RemoteApiError(provider_tx_id: " +:+ id +:+ ", [REDACTED])"
      | None => "SignerError::RemoteApiError([REDACTED])"
      end
  | HttpError _ => "SignerError::HttpError([REDACTED])"
  | SerializationError _ => "SignerError::SerializationError([REDACTED])"
  | ConfigError _ => "SignerError::ConfigError([REDACTED])"
  | NotAvailable _ => "SignerError::NotAvailable([REDACTED])"
  | UserRejected _ => "SignerError::UserRejected([REDACTED])"
  | IoError _ => "SignerError::IoError([REDACTED])"
  | BroadcastUnconfirmed provider_tx_id _ idempotency_key _ _ =>
      "SignerError::BroadcastUnconfirmed(provider_tx_id: " +:+ default "unknown" provider_tx_id +:+
      ", idempotency_key: " +:+ default "unknown" idempotency_key +:+ ", [REDACTED])"
  | Other _ => "SignerError::Other([REDACTED])"
  end.

(** Whether an error tells the caller that a transaction may be on chain. *)
Definition is_unconfirmed (e : SignerError) : bool :=
  match e with BroadcastUnconfirmed _ _ _ _ _ => true | _ => false end.

(** The provider's transaction id an error carries. *)
Definition error_id (e : SignerError) : option string :=
  match e with
  | RemoteApiError _ id => id
  | BroadcastUnconfirmed id _ _ _ _ => id
  | _ => None
  end.

(** Replace the free-text detail of an error, leaving its kind and its ids. *)
Definition with_detail (d : string) (e : SignerError) : SignerError :=
  match e with
  | InvalidPrivateKey _ => InvalidPrivateKey d
  | InvalidPublicKey _ => InvalidPublicKey d
  | SigningFailed _ => SigningFailed d
  | RemoteApiError _ id => RemoteApiError d id
  | HttpError _ => HttpError d
  | SerializationError _ => SerializationError d
  | ConfigError _ => ConfigError d
  | NotAvailable _ => NotAvailable d
  | UserRejected _ => UserRejected d
  | IoError _ => IoError d
  | BroadcastUnconfirmed id st k sg _ => BroadcastUnconfirmed id st k sg d
  | Other _ => Other d
  end.

Lemma detail_string_with_detail d e : detail_string (with_detail d e) = d.
Proof. by destruct e. Qed.

Lemma with_detail_id e : with_detail (detail_string e) e = e.
Proof. by destruct e. Qed.

(** Neither rendering of an error depends on its detail: replacing
    the detail by any other text leaves [Debug] and [Display] unchanged, while
    [detail_string] reports exactly the text put in. *)
Theorem renderings_redact_detail (e : SignerError) (d : string) :
  debug (with_detail d e) = debug e /\
  display (with_detail d e) = display e /\
  detail_string (with_detail d e) = d.
Proof. split_and!; [by destruct e as [| | | ? []| | | | | | | |]|by destruct e|apply detail_string_with_detail]. Qed.
