(* ===== verification/World.v ===== *)
(** * The asynchronous world: HTTP, timers, clocks, shared slots

    Every backend awaits HTTP replies, timers and device or KMS calls.  Code
    that awaits is modelled as a state-passing function [M A] over a [World]:
    the trace of everything awaited so far, the shared cells of
    [PendingTransactionId], and oracles for what the outside answers.  The
    oracles are arbitrary functions of the trace, so a theorem about all
    worlds is a theorem about every provider, every schedule of replies and
    every point at which the caller drops the future. *)

From S2P Require Import Prelude Errors.

(** ** What is sent and what comes back *)

Record HttpRequest := mkRequest {
  req_method : string;
  req_url : string;
  req_headers : list (string * string);
  req_body : list byte
}.

(** One [response.chunk().await]: data, a transport error, or the future is
    dropped while waiting. *)
Inductive chunk :=
  | Chunk (data : list byte)
  | ChunkErr (err : string)
  | ChunkStop (why : stop).

Record HttpResponse := mkResponse {
  resp_status : Z;
  resp_chunks : list chunk
}.

(** The outcome of awaiting an outside call. *)
Inductive reply (A : Type) :=
  | Reply (a : A)
  | Refused (err : string)
  | Stopped (why : stop).
Arguments Reply {A} a.
Arguments Refused {A} err.
Arguments Stopped {A} why.

Inductive Event :=
  | EvHttp (r : HttpRequest)
  | EvSleep (ms : Z)
  | EvClock
  | EvUuid.

(** A shared cell behind [Arc<Mutex<Vec<String>>>]; a thread that panics with
    the lock held poisons it. *)
Record Slot := mkSlot { slot_poisoned : bool; slot_ids : list string }.

Record World := mkWorld {
  w_trace : list Event;
  w_slots : gmap nat Slot;
  w_http : list Event -> HttpRequest -> reply HttpResponse;
  w_sleep : list Event -> Z -> option stop;
  w_clock_ms : list Event -> Z;
  w_uuid : list Event -> string
}.

Definition push_event (e : Event) (w : World) : World :=
  mkWorld (w_trace w ++ [e]) (w_slots w) (w_http w) (w_sleep w) (w_clock_ms w) (w_uuid w).

Definition set_slots (s : gmap nat Slot) (w : World) : World :=
  mkWorld (w_trace w) s (w_http w) (w_sleep w) (w_clock_ms w) (w_uuid w).

(** ** The monad *)

Definition M (A : Type) : Type := World -> run A * World.

Definition ret {A} (a : A) : M A := fun w => (Returned a, w).

Definition bind {A B} (m : M A) (k : A -> M B) : M B := fun w =>
  match m w with
  | (Returned a, w') => k a w'
  | (Panicked, w') => (Panicked, w')
  | (Dropped why, w') => (Dropped why, w')
  end.

Definition panic {A} : M A := fun w => (Panicked, w).

(** The [?] operator on an awaited [Result]. *)
Definition bind_res {A B E} (m : M (Result A E)) (k : A -> M (Result B E)) : M (Result B E) :=
  bind m (fun r => match r with Ok a => k a | Err e => ret (Err e) end).

(** Run code that may panic but does not await. *)
Definition of_run {A} (r : run A) : M A := fun w => (r, w).

Definition fmap_err {A E F} (f : E -> F) (m : M (Result A E)) : M (Result A F) :=
  bind m (fun r => ret (map_err f r)).

Notation "'let!' x := m 'in' k" := (bind m (fun x => k))
  (at level 10, x pattern, m at level 200, k at level 200) : keychain_scope.
Notation "'try!' x := m 'in' k" := (bind_res m (fun x => k))
  (at level 10, x pattern, m at level 200, k at level 200) : keychain_scope.
(** [let x = r?;] where [r] is already a value. *)
Notation "'try' x := r 'in' k" := (bind_res (ret r) (fun x => k))
  (at level 10, x pattern, r at level 200, k at level 200) : keychain_scope.

(** ** Primitive effects *)

(** [request.send().await]: a reply, reqwest's error, or never. *)
Definition http_send (r : HttpRequest) : M (Result HttpResponse string) := fun w =>
  let w' := push_event (EvHttp r) w in
  match w_http w (w_trace w) r with
  | Reply a => (Returned (Ok a), w')
  | Refused e => (Returned (Err e), w')
  | Stopped why => (Dropped why, w')
  end.

(** [.json(&body)] serialises while the request is built; a failure surfaces
    from [send] without anything going out. *)
Definition http_send_json (r : Result (list byte) string)
    (mk : list byte -> HttpRequest) : M (Result HttpResponse string) :=
  match r with
  | Ok body => http_send (mk body)
  | Err e => ret (Err e)
  end.

(** Requests with a JSON body, and without a body. *)
Definition post_json (url : string) (headers : list (string * string)) (body : Result (list byte) string)
    : M (Result HttpResponse string) :=
  http_send_json body (fun b => mkRequest "POST" url (headers ++ [("Content-Type", "application/json")]) b).
Definition http_get (url : string) (headers : list (string * string)) : M (Result HttpResponse string) :=
  http_send (mkRequest "GET" url headers []).

(** [tokio::time::sleep]. *)
Definition sleep_ms (ms : Z) : M unit := fun w =>
  let w' := push_event (EvSleep ms) w in
  match w_sleep w (w_trace w) ms with
  | None => (Returned tt, w')
  | Some why => (Dropped why, w')
  end.

(** [SystemTime::now().duration_since(UNIX_EPOCH)] in milliseconds; [None] for
    a clock set before the epoch. *)
Definition clock_ms : M (option Z) := fun w =>
  let now := w_clock_ms w (w_trace w) in
  (Returned (if (now <? 0)%Z then None else Some now), push_event EvClock w).

(** [chrono::Utc::now()], in milliseconds: it panics if the clock is set before
    the epoch. *)
Definition utc_now : World -> run Z := fun w =>
  let now := w_clock_ms w (w_trace w) in if (now <? 0)%Z then Panicked else Returned now.

(** [chrono::Utc::now().timestamp()]. *)
Definition utc_timestamp : M Z := fun w =>
  (match utc_now w with Returned now => Returned (now / 1000)%Z | other => other end, push_event EvClock w).

(** [chrono::Utc::now().timestamp_millis()]. *)
Definition utc_timestamp_millis : M Z := fun w => (utc_now w, push_event EvClock w).

(** [Uuid::new_v4().to_string()]. *)
Definition uuid_v4 : M string := fun w =>
  (Returned (w_uuid w (w_trace w)), push_event EvUuid w).

(** [tokio::time::timeout(d, m).await.ok()]. *)
Definition timeout {A} (m : M A) : M (option A) := fun w =>
  match m w with
  | (Returned a, w') => (Returned (Some a), w')
  | (Dropped Elapsed, w') => (Returned None, w')
  | (Panicked, w') => (Panicked, w')
  | (Dropped Cancelled, w') => (Dropped Cancelled, w')
  end.

Definition get_slot (i : nat) : M Slot := fun w =>
  (Returned (default (mkSlot false []) (w_slots w !! i)), w).
Definition put_slot (i : nat) (s : Slot) : M unit := fun w =>
  (Returned tt, set_slots (<[i := s]> (w_slots w)) w).

(** A clock that is set to after the epoch; in a debug build, where sums of
    times are checked, to before 2^63 milliseconds after it. *)
Record sane `{BuildProfile} (w : World) : Prop := {
  sane_clock : forall tr, (0 <= w_clock_ms w tr)%Z;
  sane_sums : overflow_checks = true -> forall tr, (w_clock_ms w tr < 2 ^ 63)%Z
}.

(** ** Hoare triples over [M] *)

Definition triple {A} (P : World -> Prop) (m : M A) (Q : run A -> World -> Prop) : Prop :=
  forall w, P w -> Q (m w).1 (m w).2.

(** [returns m Q]: whatever the world answers, a value [m] returns satisfies [Q]. *)
Definition returns {A} (m : M A) (Q : A -> Prop) : Prop :=
  forall w a w', m w = (Returned a, w') -> Q a.

Lemma returns_ret {A} (a : A) (Q : A -> Prop) : Q a -> returns (ret a) Q.
Proof. intros H w a' w' [= <- _]. done. Qed.

Lemma returns_bind {A B} (m : M A) (k : A -> M B) (R : A -> Prop) (Q : B -> Prop) :
  returns m R -> (forall a, R a -> returns (k a) Q) -> returns (bind m k) Q.
Proof.
  intros Hm Hk w b w'. unfold bind. destruct (m w) as [[a| |why] w1] eqn:E; [|done..].
  intros Hb. eapply Hk; [|exact Hb]. by eapply Hm.
Qed.

Lemma returns_bind_any {A B} (m : M A) (k : A -> M B) (Q : B -> Prop) :
  (forall a, returns (k a) Q) -> returns (bind m k) Q.
Proof. intros H. apply (returns_bind _ _ (fun _ => True)); [done|auto]. Qed.

Lemma returns_weaken {A} (m : M A) (P Q : A -> Prop) :
  returns m P -> (forall a, P a -> Q a) -> returns m Q.
Proof. intros H HPQ w a w' E. apply HPQ. by eapply H. Qed.

(** The postconditions used most: [Q] holds of the value inside [Ok]. *)
Definition on_ok {A E} (Q : A -> Prop) (r : Result A E) : Prop :=
  match r with Ok a => Q a | Err _ => True end.

Lemma on_ok_bind {A B E} (r : Result A E) (k : A -> Result B E) (R : A -> Prop) (Q : B -> Prop) :
  on_ok R r -> (forall a, R a -> on_ok Q (k a)) -> on_ok Q (res_bind r k).
Proof. destruct r; simpl; auto. Qed.

Lemma on_ok_bind_any {A B E} (r : Result A E) (k : A -> Result B E) (Q : B -> Prop) :
  (forall a, on_ok Q (k a)) -> on_ok Q (res_bind r k).
Proof. destruct r; simpl; auto. Qed.

(** Walk through code that fails with [?], using the hints for the steps that matter. *)
Ltac walk_ok :=
  repeat lazymatch goal with
    | |- on_ok _ (res_bind _ _) => first [eapply on_ok_bind; [solve [auto with keychain]|intros ? ?] | apply on_ok_bind_any; intros ?]
    | |- on_ok _ (match ?x with _ => _ end) => destruct x
    | |- on_ok _ (let _ := _ in _) => cbv zeta
    | |- on_ok _ (Err _) => exact I
    end.

Lemma returns_ret_ok {A E} (r : Result A E) : returns (ret r) (on_ok (fun a => r = Ok a)).
Proof. apply returns_ret. by destruct r. Qed.

Lemma returns_bind_res {A B E} (m : M (Result A E)) (k : A -> M (Result B E))
    (R : A -> Prop) (Q : B -> Prop) :
  returns m (on_ok R) -> (forall a, R a -> returns (k a) (on_ok Q)) ->
  returns (bind_res m k) (on_ok Q).
Proof.
  intros Hm Hk. eapply returns_bind; [exact Hm|].
  intros [a|e] Ha; [by apply Hk|by apply returns_ret].
Qed.

Lemma returns_bind_res_any {A B E} (m : M (Result A E)) (k : A -> M (Result B E)) (Q : B -> Prop) :
  (forall a, returns (k a) (on_ok Q)) -> returns (bind_res m k) (on_ok Q).
Proof.
  intros H. apply (returns_bind_res _ _ (fun _ => True)); [|auto].
  by intros w [a|e] w' _.
Qed.

Lemma returns_try {A B E} (r : Result A E) (k : A -> M (Result B E)) (Q : B -> Prop) :
  (forall a, r = Ok a -> returns (k a) (on_ok Q)) -> returns (bind_res (ret r) k) (on_ok Q).
Proof.
  intros H. apply (returns_bind_res _ _ (fun a => r = Ok a)); [|done].
  apply returns_ret. by destruct r.
Qed.

Lemma bind_res_Ok {A B E} (m : M (Result A E)) (k : A -> M (Result B E)) w b w' :
  bind_res m k w = (Returned (Ok b), w') ->
  exists a w1, m w = (Returned (Ok a), w1) /\ k a w1 = (Returned (Ok b), w').
Proof.
  unfold bind_res, bind. destruct (m w) as [[[a|e]| |why] w1] eqn:E0; [eauto|done..].
Qed.

Lemma timeout_Some {A} (m : M A) w a w' :
  timeout m w = (Returned (Some a), w') -> m w = (Returned a, w').
Proof. unfold timeout. destruct (m w) as [[]]; simpl; repeat case_match; naive_solver. Qed.

(** What the outside answers: code of the crate never changes it. *)
Definition outside (w : World) := (w_http w, w_sleep w, w_clock_ms w, w_uuid w).

(** Code that neither touches the shared slots nor panics, in any world. *)
Definition calm {A} (m : M A) : Prop :=
  forall w, w_slots (m w).2 = w_slots w /\ (m w).1 ≠ Panicked /\ outside (m w).2 = outside w.

Lemma calm_ret {A} (a : A) : calm (ret a).
Proof. done. Qed.

Lemma calm_dropped {A} why : calm (fun w => (@Dropped A why, w)).
Proof. done. Qed.

Lemma calm_bind {A B} (m : M A) (k : A -> M B) : calm m -> (forall a, calm (k a)) -> calm (bind m k).
Proof.
  intros Hm Hk w. specialize (Hm w). unfold bind. destruct (m w) as [[a| |why] w1]; simpl in *.
  - destruct (Hk a w1) as (Hs & Hp & Ho), Hm as (Hs1 & _ & Ho1). split_and!; [congruence|done|congruence].
  - by destruct Hm as (_ & Hm & _).
  - by destruct Hm as (? & _ & ?).
Qed.

Lemma calm_bind_res {A B E} (m : M (Result A E)) (k : A -> M (Result B E)) :
  calm m -> (forall a, calm (k a)) -> calm (bind_res m k).
Proof. intros Hm Hk. apply calm_bind; [done|]. intros [a|e]; [apply Hk|apply calm_ret]. Qed.

Lemma calm_http_send r : calm (http_send r).
Proof. intros w. unfold http_send. by case_match. Qed.

Lemma calm_sleep ms : calm (sleep_ms ms).
Proof. intros w. unfold sleep_ms. by case_match. Qed.

Lemma calm_clock : calm clock_ms.
Proof. done. Qed.

Lemma calm_uuid : calm uuid_v4.
Proof. done. Qed.

Lemma calm_fmap_err {A E F} (f : E -> F) (m : M (Result A E)) : calm m -> calm (fmap_err f m).
Proof. intros Hm. apply calm_bind; [done|]. intros a. apply calm_ret. Qed.

Lemma calm_post_json u h b : calm (post_json u h b).
Proof. unfold post_json, http_send_json. case_match; [apply calm_http_send|apply calm_ret]. Qed.

Lemma calm_http_send_json b f : calm (http_send_json b f).
Proof. unfold http_send_json. case_match; [apply calm_http_send|apply calm_ret]. Qed.

#[export] Hint Resolve calm_http_send_json calm_ret calm_dropped calm_bind calm_bind_res calm_http_send calm_sleep
  calm_clock calm_uuid calm_fmap_err calm_post_json : keychain.

#[export] Hint Resolve returns_ret returns_bind_any returns_bind_res_any returns_try : keychain.

(** Walk through monadic code to the [ret]s, keeping the equations of the
    pure results it depends on. *)
Ltac walk :=
  repeat first
    [ apply returns_ret
    | apply returns_try; intros ? ?
    | apply returns_bind_res_any; intros ?
    | apply returns_bind_any; intros ?
    | match goal with |- returns (match ?x with _ => _ end) _ => destruct x eqn:? end
    | match goal with |- returns (let _ := _ in _) _ => cbv zeta end ].

(** ** What goes out *)

(** [sends m Q]: whatever the world answers, [m] only appends to the trace, and
    every HTTP request it appends satisfies [Q]. *)
Definition request_ok (Q : HttpRequest -> Prop) (e : Event) : Prop :=
  match e with EvHttp r => Q r | _ => True end.
Definition sends {A} (m : M A) (Q : HttpRequest -> Prop) : Prop :=
  forall w, exists ext, w_trace (m w).2 = w_trace w ++ ext /\ Forall (request_ok Q) ext.

Lemma sends_still {A} (r : World -> run A) Q : sends (fun w => (r w, w)) Q.
Proof. intros w. exists []. by rewrite app_nil_r. Qed.

Lemma sends_ret {A} (a : A) Q : sends (ret a) Q.
Proof. apply sends_still. Qed.

Lemma sends_of_run {A} (r : run A) Q : sends (of_run r) Q.
Proof. apply (sends_still (fun _ => r)). Qed.

Lemma sends_bind {A B} (m : M A) (k : A -> M B) (R : A -> Prop) Q :
  sends m Q -> returns m R -> (forall a, R a -> sends (k a) Q) -> sends (bind m k) Q.
Proof.
  intros Hm HR Hk w. destruct (Hm w) as (e1 & He1 & HF1). unfold bind.
  destruct (m w) as [[a| |why] w1] eqn:E; simpl in He1; [|by exists e1..].
  destruct (Hk a (HR _ _ _ E) w1) as (e2 & He2 & HF2). exists (e1 ++ e2).
  split; [by rewrite He2, He1, <- (assoc_L (++))|by apply Forall_app].
Qed.

Lemma sends_bind_any {A B} (m : M A) (k : A -> M B) Q :
  sends m Q -> (forall a, sends (k a) Q) -> sends (bind m k) Q.
Proof. intros Hm Hk. apply (sends_bind _ _ (fun _ => True)); auto. by intros w a w' _. Qed.

Lemma sends_bind_res {A B E} (m : M (Result A E)) (k : A -> M (Result B E)) (R : A -> Prop) Q :
  sends m Q -> returns m (on_ok R) -> (forall a, R a -> sends (k a) Q) -> sends (bind_res m k) Q.
Proof.
  intros Hm HR Hk. apply (sends_bind _ _ (on_ok R)); [done..|].
  intros [a|e] Ha; [by apply Hk|apply sends_ret].
Qed.

Lemma sends_bind_res_any {A B E} (m : M (Result A E)) (k : A -> M (Result B E)) Q :
  sends m Q -> (forall a, sends (k a) Q) -> sends (bind_res m k) Q.
Proof. intros Hm Hk. apply sends_bind_any; [done|]. intros [a|e]; [apply Hk|apply sends_ret]. Qed.

Lemma sends_try {A B E} (r : Result A E) (k : A -> M (Result B E)) Q :
  (forall a, r = Ok a -> sends (k a) Q) -> sends (bind_res (ret r) k) Q.
Proof.
  intros Hk. apply (sends_bind_res _ _ (fun a => r = Ok a)); [apply sends_ret|apply returns_ret_ok|done].
Qed.

Lemma sends_fmap_err {A E F} (f : E -> F) (m : M (Result A E)) Q : sends m Q -> sends (fmap_err f m) Q.
Proof. intros Hm. apply sends_bind_any; [done|]. intros r. apply sends_ret. Qed.

Lemma sends_push {A} (e : Event) (r : World -> run A) Q :
  request_ok Q e -> sends (fun w => (r w, push_event e w)) Q.
Proof. intros He w. exists [e]. split; [done|by constructor]. Qed.

Lemma sends_http_send r (Q : HttpRequest -> Prop) : Q r -> sends (http_send r) Q.
Proof. intros Hr w. exists [EvHttp r]. unfold http_send. split; [by case_match|by constructor]. Qed.

Lemma sends_http_send_json body mk (Q : HttpRequest -> Prop) :
  (forall b, body = Ok b -> Q (mk b)) -> sends (http_send_json body mk) Q.
Proof. intros HQ. unfold http_send_json. destruct body; [by apply sends_http_send, HQ|apply sends_ret]. Qed.

Lemma sends_post_json u h body (Q : HttpRequest -> Prop) :
  (forall b, body = Ok b -> Q (mkRequest "POST" u (h ++ [("Content-Type", "application/json")]) b)) ->
  sends (post_json u h body) Q.
Proof. apply sends_http_send_json. Qed.

Lemma sends_http_get u h (Q : HttpRequest -> Prop) : Q (mkRequest "GET" u h []) -> sends (http_get u h) Q.
Proof. apply sends_http_send. Qed.

Lemma sends_sleep ms Q : sends (sleep_ms ms) Q.
Proof. intros w. exists [EvSleep ms]. unfold sleep_ms. split; [by case_match|by constructor]. Qed.

Lemma sends_clock Q : sends clock_ms Q.
Proof. by apply sends_push. Qed.
Lemma sends_utc Q : sends utc_timestamp Q.
Proof. by apply sends_push. Qed.
Lemma sends_utc_millis Q : sends utc_timestamp_millis Q.
Proof. by apply sends_push. Qed.
Lemma sends_uuid Q : sends uuid_v4 Q.
Proof. by apply sends_push. Qed.

Lemma sends_timeout {A} (m : M A) Q : sends m Q -> sends (timeout m) Q.
Proof.
  intros Hm w. destruct (Hm w) as (e & He & HF). exists e. split; [|done].
  unfold timeout. destruct (m w) as [[a| |[]] w1]; exact He.
Qed.

Lemma sends_weaken {A} (m : M A) (P Q : HttpRequest -> Prop) :
  sends m P -> (forall r, P r -> Q r) -> sends m Q.
Proof.
  intros Hm HPQ w. destruct (Hm w) as (e & He & HF). exists e. split; [done|].
  eapply Forall_impl; [exact HF|]. intros []; simpl; auto.
Qed.

#[export] Hint Resolve sends_ret sends_of_run sends_fmap_err sends_sleep sends_clock sends_utc sends_utc_millis
  sends_uuid sends_timeout : keychain.

(** Walk through monadic code to the requests, keeping the equations of the
    pure results they depend on. *)
Ltac walk_sends :=
  repeat first
    [ solve [auto with keychain]
    | lazymatch goal with
      | |- sends (bind_res (ret _) _) _ => apply sends_try; intros ? ?
      | |- sends (bind_res _ _) _ => apply sends_bind_res_any; [|intros ?]
      | |- sends (bind _ _) _ => apply sends_bind_any; [|intros ?]
      | |- sends (fmap_err _ _) _ => apply sends_fmap_err
      | |- sends (timeout _) _ => apply sends_timeout
      | |- sends (match ?x with _ => _ end) _ => destruct x eqn:?
      | |- sends (let _ := _ in _) _ => cbv zeta
      end ].
