(* ===== verification/Externals.v ===== *)
(** * Third-party code: the Solana SDK, codecs, cryptography

    The crate calls code that is not in the repository.  Each such function is
    a field of a class here, an argument of every definition that uses it; what
    the crate relies on is a separate class of laws ([CodecLaws], [SdkLaws]),
    named by the theorems that need it.  [Demo] instantiates all of them with
    concrete functions, for the witnesses and for evaluation. *)

From S2P Require Import Prelude.

(** ** Parameters *)

(** [base64], [hex], [bs58] and [sha2].  A decoder's error is its text. *)
Class Codecs := {
  base64_encode : list byte -> string;
  base64_decode : string -> Result (list byte) string;
  hex_encode : list byte -> string;
  hex_decode : string -> Result (list byte) string;
  bs58_encode : list byte -> string;
  bs58_decode : string -> Result (list byte) string;
  sha256 : list byte -> u8array 32
}.

(** The parts of [solana_sdk] and [ed25519_zebra] the crate uses.  The message
    type is abstract; the crate only reads it through these accessors. *)
Class SolanaSdk := {
  VersionedMessage : Type;
  num_required_signatures : VersionedMessage -> byte;
  static_account_keys : VersionedMessage -> list Pubkey;
  message_serialize : VersionedMessage -> list byte;
  is_v1 : VersionedMessage -> bool;
  lookup_count : VersionedMessage -> option nat;
  wire_serialize : list Signature -> VersionedMessage -> Result (list byte) string;
  wire_deserialize : list byte -> Result (list Signature * VersionedMessage) string;
  pubkey_from_str : string -> Result Pubkey string;
  pubkey_to_string : Pubkey -> string;
  VerificationKey : Type;
  zebra_key : Pubkey -> option VerificationKey;
  zebra_verify : VerificationKey -> Signature -> list byte -> bool;
  Keypair : Type;
  keypair_from_bytes : list byte -> Result Keypair string;
  keypair_from_seed : list byte -> Result Keypair string;
  keypair_pubkey : Keypair -> Pubkey;
  keypair_sign_message : Keypair -> list byte -> Signature
}.

(** [VersionedTransaction]: its two public fields. *)
Record VersionedTransaction `{SolanaSdk} := mkTransaction {
  signatures : list Signature;
  message : VersionedMessage
}.
Arguments mkTransaction {_} _ _.

(** ** Laws *)

Class CodecLaws `{Codecs} := {
  base64_decode_encode : forall b, base64_decode (base64_encode b) = Ok b;
  hex_decode_encode : forall b, hex_decode (hex_encode b) = Ok b;
  bs58_decode_encode : forall b, bs58_decode (bs58_encode b) = Ok b;
  (** The base58 alphabet has no bracket. *)
  bs58_alphabet : forall b, x5b ∉ as_bytes (bs58_encode b);
  (** Hexadecimal has no x. *)
  hex_alphabet : forall b, x78 ∉ as_bytes (hex_encode b)
}.

Class SdkLaws `{SolanaSdk} := {
  (** bincode/wincode: the wire format is decoded back to what was encoded. *)
  wire_roundtrip : forall sigs m b,
    wire_serialize sigs m = Ok b -> wire_deserialize b = Ok (sigs, m);
  (** Ed25519: a key pair's signature verifies under its public key. *)
  keypair_sound : forall kp m,
    exists vk, zebra_key (keypair_pubkey kp) = Some vk /\
               zebra_verify vk (keypair_sign_message kp m) m = true
}.

(** ** A concrete instance *)

Module Demo.

Fixpoint zpad (n : nat) (l : list byte) : list byte :=
  match n with
  | 0 => []
  | S k => match l with [] => x00 :: zpad k [] | b :: r => b :: zpad k r end
  end.

Lemma length_zpad n l : length (zpad n l) = n.
Proof. revert l. induction n as [|n IH]; intros [|b l]; simpl; auto. Qed.

Program Definition mk_array (n : nat) (l : list byte) : u8array n := U8Array (zpad n l) _.
Next Obligation. intros. apply bool_decide_pack, length_zpad. Qed.

(** Codecs that put one tag character before the bytes. *)
Definition tag_encode (c : string) (b : list byte) : string := c +:+ of_bytes b.
Definition tag_decode (c : string) (s : string) : Result (list byte) string :=
  match strip_prefix c s with
  | Some r => Ok (as_bytes r)
  | None => Err "bad prefix"
  end.

(** A hexadecimal codec. *)
Definition all_bytes : list byte := map (fun n => u8_of_Z (Z.of_nat n)) (seq 0 256).
Definition unhex_pair (a b : byte) : option byte :=
  find (fun c => bool_decide (hex_pair false c = [a; b])) all_bytes.

Fixpoint unhex (l : list byte) : option (list byte) :=
  match l with
  | [] => Some []
  | [_] => None
  | a :: b :: r =>
      match unhex_pair a b, unhex r with
      | Some c, Some t => Some (c :: t)
      | _, _ => None
      end
  end.

Definition demo_hex_encode (b : list byte) : string := of_bytes (concat (map (hex_pair false) b)).
Definition demo_hex_decode (s : string) : Result (list byte) string :=
  match unhex (as_bytes s) with Some b => Ok b | None => Err "not hexadecimal" end.

#[export] Instance demo_codecs : Codecs := {
  base64_encode := tag_encode "B";
  base64_decode := tag_decode "B";
  hex_encode := demo_hex_encode;
  hex_decode := demo_hex_decode;
  bs58_encode := demo_hex_encode;
  bs58_decode := demo_hex_decode;
  sha256 := mk_array 32
}.

(** Messages are a required-signature count, the account keys and a payload;
    the signature of [m] by key [k] is the first byte of [k] followed by [m]. *)
Record demo_message := DemoMessage {
  dm_required : byte;
  dm_keys : list Pubkey;
  dm_payload : list byte;
  dm_v1 : bool
}.

Definition demo_sign (k : list byte) (m : list byte) : Signature :=
  mk_array 64 (xff :: take 1 k ++ m).

(** Wire format: signature count, the signatures, required count, key count,
    the keys, version flag, payload. *)
Definition demo_wire_serialize (sigs : list Signature) (m : demo_message) : Result (list byte) string :=
  if bool_decide (length sigs < 256 /\ length (dm_keys m) < 256) then
    Ok (u8_of_Z (Z.of_nat (length sigs)) :: concat (map arr_bytes sigs) ++
        dm_required m :: u8_of_Z (Z.of_nat (length (dm_keys m))) ::
        concat (map arr_bytes (dm_keys m)) ++ (if dm_v1 m then x01 else x00) :: dm_payload m)
  else Err "too long".

Fixpoint read_arrays (n k : nat) (l : list byte) : option (list (u8array k) * list byte) :=
  match n with
  | 0 => Some ([], l)
  | S n' =>
      match array_try_from k (take k l), read_arrays n' k (drop k l) with
      | Some a, Some (r, l') => Some (a :: r, l')
      | _, _ => None
      end
  end.

Definition demo_wire_deserialize (b : list byte) : Result (list Signature * demo_message) string :=
  match b with
  | ns :: b1 =>
      match read_arrays (u8_nat ns) 64 b1 with
      | Some (sigs, req :: nk :: b2) =>
          match read_arrays (u8_nat nk) 32 b2 with
          | Some (keys, v :: payload) =>
              Ok (sigs, DemoMessage req keys payload (bool_decide (v = x01)))
          | _ => Err "bad keys"
          end
      | _ => Err "bad signatures"
      end
  | [] => Err "empty"
  end.

#[export] Instance demo_sdk : SolanaSdk := {
  VersionedMessage := demo_message;
  num_required_signatures := dm_required;
  static_account_keys := dm_keys;
  message_serialize m := dm_payload m;
  is_v1 := dm_v1;
  lookup_count _ := None;
  wire_serialize := demo_wire_serialize;
  wire_deserialize := demo_wire_deserialize;
  pubkey_from_str s := match array_try_from 32 (as_bytes s) with Some k => Ok k | None => Err "bad key" end;
  pubkey_to_string k := of_bytes (arr_bytes k);
  VerificationKey := Pubkey;
  zebra_key k := Some k;
  zebra_verify k s m := bool_decide (s = demo_sign (arr_bytes k) m);
  Keypair := Pubkey;
  keypair_from_bytes b := match array_try_from 32 (drop 32 b) with Some k => Ok k | None => Err "bad key pair" end;
  keypair_from_seed b := match array_try_from 32 b with Some k => Ok k | None => Err "bad seed" end;
  keypair_pubkey k := k;
  keypair_sign_message k m := demo_sign (arr_bytes k) m
}.

Lemma unhex_concat l : unhex (concat (map (hex_pair false) l)) = Some l.
Proof.
  induction l as [|b l IH]; [done|].
  assert (Hb : unhex_pair (hex_digit false (Z.shiftr (u8_val b) 4))
                 (hex_digit false (Z.land (u8_val b) 15)) = Some b) by (destruct b; by vm_compute).
  change (concat (map (hex_pair false) (b :: l))) with
    (hex_digit false (Z.shiftr (u8_val b) 4) :: hex_digit false (Z.land (u8_val b) 15) ::
     concat (map (hex_pair false) l)).
  cbn [unhex]. by rewrite Hb, IH.
Qed.

Lemma demo_hex_roundtrip b : demo_hex_decode (demo_hex_encode b) = Ok b.
Proof. unfold demo_hex_decode, demo_hex_encode. by rewrite as_bytes_of_bytes, unhex_concat. Qed.

Lemma demo_hex_without c b :
  (forall d, bool_decide (c ∈ hex_pair false d) = false) -> c ∉ as_bytes (demo_hex_encode b).
Proof.
  intros Hc. unfold demo_hex_encode. rewrite as_bytes_of_bytes.
  induction b as [|d b IH]; cbn [map concat]; [apply not_elem_of_nil|].
  intros [Hin|Hin]%elem_of_app; [|done]. specialize (Hc d). by apply bool_decide_eq_false in Hc.
Qed.

#[export] Instance demo_codec_laws : CodecLaws.
Proof.
  split; intros b.
  - cbn. unfold tag_decode, tag_encode.
    rewrite (proj2 (strip_prefix_Some _ _ _) eq_refl), as_bytes_of_bytes. done.
  - apply demo_hex_roundtrip.
  - apply demo_hex_roundtrip.
  - apply demo_hex_without. by intros [].
  - apply demo_hex_without. by intros [].
Qed.

Lemma read_arrays_concat {k} (l : list (u8array k)) rest :
  read_arrays (length l) k (concat (map arr_bytes l) ++ rest) = Some (l, rest).
Proof.
  induction l as [|a l IH]; simpl; [done|].
  rewrite <- (assoc_L (++)), take_app_length', drop_app_length' by (symmetry; apply array_length).
  by rewrite array_try_from_bytes, IH.
Qed.

Lemma u8_nat_of_len n : n < 256 -> u8_nat (u8_of_Z (Z.of_nat n)) = n.
Proof.
  intros H. pose proof (u8_val_of_Z (Z.of_nat n)) as E.
  rewrite Z.mod_small in E by lia. unfold u8_val in E.
  unfold u8_nat. rewrite Byte.to_nat_via_N. lia.
Qed.

#[export] Instance demo_sdk_laws : SdkLaws.
Proof.
  split.
  - intros sigs m b. simpl. unfold demo_wire_serialize. case_bool_decide as Hl; [|done].
    intros [= <-]. cbn [wire_deserialize demo_sdk]. unfold demo_wire_deserialize.
    rewrite u8_nat_of_len by lia. rewrite (read_arrays_concat (k:=64) sigs).
    rewrite u8_nat_of_len by lia. rewrite (read_arrays_concat (k:=32) (dm_keys m)).
    by destruct m as [? ? ? []].
  - intros kp m. exists kp. split; [done|]. simpl. by apply bool_decide_eq_true.
Qed.

(** A debug build. *)
#[export] Instance demo_profile : BuildProfile := {| overflow_checks := true |}.

End Demo.

(** ** JSON

    [serde_json::Value], with an object as its entries in order.  Parsing and
    printing are parameters; typed deserialisation is a function argument of
    the code that uses it. *)

Inductive Number := PosInt (n : N) | NegInt (z : Z) | Float (bits : N).

Inductive Value :=
  | JNull
  | JBool (b : bool)
  | JNumber (n : Number)
  | JString (s : string)
  | JArray (l : list Value)
  | JObject (m : list (string * Value)).

Fixpoint assoc_get {A} (m : list (string * A)) (k : string) : option A :=
  match m with
  | [] => None
  | (k', v) :: r => if bool_decide (k' = k) then Some v else assoc_get r k
  end.

(** [value.get(k)], [value[k]] and the [as_*] accessors. *)
Definition value_get (v : Value) (k : string) : option Value :=
  match v with JObject m => assoc_get m k | _ => None end.
Definition value_index (v : Value) (k : string) : Value := default JNull (value_get v k).
Definition as_str (v : Value) : option string := match v with JString s => Some s | _ => None end.
Definition as_bool (v : Value) : option bool := match v with JBool b => Some b | _ => None end.
Definition as_array (v : Value) : option (list Value) :=
  match v with JArray l => Some l | _ => None end.
Definition as_u64 (v : Value) : option N :=
  match v with JNumber (PosInt n) => Some n | _ => None end.

Class Json := {
  value_from_slice : list byte -> Result Value string;
  value_to_vec : Value -> Result (list byte) string;
  (** [serde_json::from_str::<Vec<u8>>]. *)
  vec_u8_from_str : string -> Result (list byte) string
}.

(** A concrete instance that prints only what the witnesses need. *)
Module DemoJson.

#[export] Instance demo_json : Json := {
  value_from_slice b := match b with [] => Err "empty" | _ => Ok (JObject [("id", JString (of_bytes b))]) end;
  value_to_vec v := match as_str v with Some s => Ok (as_bytes s) | None => Ok [] end;
  vec_u8_from_str s := Ok (as_bytes s)
}.

End DemoJson.

(** [Option<String>] fields skipped when absent, and plain ones. *)
Definition opt_field (k : string) (v : option Value) : list (string * Value) :=
  match v with Some v => [(k, v)] | None => [] end.
Definition opt_value (v : option Value) : Value := default JNull v.

(** ** JSON Web Tokens ([jsonwebtoken]) *)

Class Jwt := {
  EncodingKey : Type;
  from_rsa_pem : list byte -> Result EncodingKey string;
  from_ec_pem : list byte -> Result EncodingKey string;
  from_ed_pem : list byte -> Result EncodingKey string;
  (** [encode]: algorithm, further header fields, claims, key. *)
  jwt_encode : string -> list (string * Value) -> Value -> EncodingKey -> Result string string
}.

Module DemoJwt.
#[export] Instance demo_jwt : Jwt := {
  EncodingKey := list byte;
  from_rsa_pem b := Ok b;
  from_ec_pem b := Ok b;
  from_ed_pem b := Ok b;
  jwt_encode alg _ _ _ := Ok ("jwt:" +:+ alg)
}.
End DemoJwt.

(** [serde_json::Value::to_string], which writes the bytes of [to_vec] and
    cannot fail on a [Value]. *)
Definition value_text `{Json} (v : Value) : string :=
  match value_to_vec v with Ok b => of_bytes b | Err _ => EmptyString end.

(** The renderings of [serde_json] of a number and of a quoted string. *)
Class JsonText := {
  number_to_string : Number -> string;
  json_string : string -> Result string string
}.

Module DemoText.
#[export] Instance demo_text : JsonText := {|
  number_to_string := fun n => match n with PosInt n => pretty n | _ => "?" end;
  json_string := fun s => Ok (of_bytes [x22] +:+ s +:+ of_bytes [x22])
|}.
End DemoText.

(** A signed 64-bit JSON number. *)
Definition jint (z : Z) : Value :=
  JNumber (if (z <? 0)%Z then NegInt z else PosInt (Z.to_N z)).

(** ** Ed25519 key pairs and key derivation ([ed25519_dalek], [hkdf]) *)

Class Dalek := {
  SigningKey : Type;
  signing_key_from_bytes : u8array 32 -> SigningKey;
  dalek_sign : SigningKey -> list byte -> Signature;
  verifying_key : SigningKey -> u8array 32;
  (** [Hkdf::<Sha256>::new(Some(salt), ikm).expand(info, &mut [u8; 32])]. *)
  hkdf_expand_32 : list byte -> list byte -> list byte -> Result (u8array 32) string
}.

(** The text of a [Utf8Error]. *)
Class StdText := { utf8_error : list byte -> string }.

Module DemoDalek.
#[export] Instance demo_dalek : Dalek := {
  SigningKey := u8array 32;
  signing_key_from_bytes k := k;
  dalek_sign k m := Demo.demo_sign (arr_bytes k) m;
  verifying_key k := k;
  hkdf_expand_32 salt ikm info := Ok (Demo.mk_array 32 (ikm ++ info))
}.
#[export] Instance demo_text : StdText := { utf8_error _ := "invalid utf-8" }.
End DemoDalek.

(** ** P-256 signing keys ([p256]) and the URL-safe base64 alphabet *)

Class Ecdsa := {
  EcdsaKey : Type;
  ecdsa_from_slice : list byte -> Result EcdsaKey string;
  ecdsa_from_pkcs8_pem : string -> Result EcdsaKey string;
  ecdsa_from_pkcs8_der : list byte -> Result EcdsaKey string;
  (** [key.sign(message).to_der()]. *)
  ecdsa_sign_der : EcdsaKey -> list byte -> list byte;
  base64_url_encode : list byte -> string
}.

Module DemoEcdsa.
#[export] Instance demo_ecdsa : Ecdsa := {
  EcdsaKey := list byte;
  ecdsa_from_slice b := Ok b;
  ecdsa_from_pkcs8_pem s := Ok (as_bytes s);
  ecdsa_from_pkcs8_der b := Ok b;
  ecdsa_sign_der k m := k ++ m;
  base64_url_encode b := of_bytes b
}.
End DemoEcdsa.

(** Private keys in PEM form: PKCS#8 for Ed25519, P-256 and RSA, SEC1 for P-256. *)
Class PemKeys `{Dalek} `{Ecdsa} := {
  dalek_from_pkcs8_pem : string -> Result SigningKey string;
  ecdsa_from_sec1_pem : string -> Result EcdsaKey string;
  RsaKey : Type;
  rsa_from_pkcs8_pem : string -> Result RsaKey string;
  (** [rsa::pkcs1v15::SigningKey::<Sha256>::new(key).sign(data)]. *)
  rsa_sign_sha256 : RsaKey -> list byte -> list byte
}.

(** [str::parse::<HeaderValue>]: whether the text may be a header value. *)
Class HttpHeaders := { header_value_ok : string -> bool }.

Module DemoPem.
#[export] Instance demo_pem : @PemKeys DemoDalek.demo_dalek DemoEcdsa.demo_ecdsa := {
  dalek_from_pkcs8_pem s := Err "not an Ed25519 key";
  ecdsa_from_sec1_pem s := Ok (as_bytes s);
  RsaKey := unit;
  rsa_from_pkcs8_pem _ := Err "not an RSA key";
  rsa_sign_sha256 _ m := m
}.
#[export] Instance demo_headers : HttpHeaders := {| header_value_ok := fun _ => true |}.
End DemoPem.
