(* ===== verification/JsonOrder.v ===== *)
(** * Order of object entries in JSON

    [serde_json] writes an object's entries in the order of its map.  What a
    backend signs or hashes must not depend on it: the code sorts the entries by
    key first (privy/authorization.rs, wallet_jwt.rs).  Here are the order of
    Rust's [String], sorting by key, and the relation between values that differ
    only in the order of entries. *)

From stdpp Require Import sorting.
From S2P Require Import Prelude Externals.

#[local] Open Scope keychain_scope.

(** The order of [String]: by bytes. *)
Fixpoint bytes_leb (a b : list byte) : bool :=
  match a, b with
  | [], _ => true
  | _ :: _, [] => false
  | x :: a', y :: b' => (u8_val x <? u8_val y)%Z || ((u8_val x =? u8_val y)%Z && bytes_leb a' b')
  end.

Definition key_le {A} (x y : string * A) : Prop := Is_true (bytes_leb (as_bytes x.1) (as_bytes y.1)).
#[global] Instance key_le_dec {A} : RelDecision (@key_le A).
Proof. intros x y. unfold key_le. apply _. Defined.

Definition sort_by_key {A} (l : list (string * A)) : list (string * A) := merge_sort key_le l.

(** Values that differ only in the order of object entries, at any depth. *)
Inductive json_perm : Value -> Value -> Prop :=
  | jp_refl v : json_perm v v
  | jp_trans v1 v2 v3 : json_perm v1 v2 -> json_perm v2 v3 -> json_perm v1 v3
  | jp_in_array l v v' r : json_perm v v' -> json_perm (JArray (l ++ v :: r)) (JArray (l ++ v' :: r))
  | jp_in_object l k v v' r :
      json_perm v v' -> json_perm (JObject (l ++ (k, v) :: r)) (JObject (l ++ (k, v') :: r))
  | jp_swap m1 m2 : NoDup m1.*1 -> m1 ≡ₚ m2 -> json_perm (JObject m1) (JObject m2).

(** ** Lemmas *)

Lemma bytes_leb_total a b : bytes_leb a b = true \/ bytes_leb b a = true.
Proof.
  revert b. induction a as [|x a IH]; intros [|y b]; cbn [bytes_leb]; auto.
  destruct (Z.lt_trichotomy (u8_val x) (u8_val y)) as [Hl|[He|Hl]].
  - left. by rewrite (proj2 (Z.ltb_lt _ _) Hl).
  - rewrite He, Z.eqb_refl, Z.ltb_irrefl. simpl. apply IH.
  - right. by rewrite (proj2 (Z.ltb_lt _ _) Hl).
Qed.

Lemma bytes_leb_antisym a b : bytes_leb a b = true -> bytes_leb b a = true -> a = b.
Proof.
  revert b. induction a as [|x a IH]; intros [|y b]; cbn [bytes_leb]; try done.
  intros Hab Hba. assert (u8_val x = u8_val y) as He by lia. rewrite He, Z.eqb_refl, Z.ltb_irrefl in Hab, Hba.
  simpl in Hab, Hba. f_equal; [by apply u8_val_inj|auto].
Qed.

Lemma bytes_leb_trans a b c : bytes_leb a b = true -> bytes_leb b c = true -> bytes_leb a c = true.
Proof.
  revert b c. induction a as [|x a IH]; intros [|y b] [|z c]; cbn [bytes_leb]; try done.
  intros Hab Hba. destruct (Z.ltb_spec (u8_val x) (u8_val z)); [done|].
  destruct (Z.ltb_spec (u8_val x) (u8_val y)), (Z.ltb_spec (u8_val y) (u8_val z)),
    (Z.eqb_spec (u8_val x) (u8_val y)), (Z.eqb_spec (u8_val y) (u8_val z)); simpl in *; try done; try lia.
  rewrite (proj2 (Z.eqb_eq (u8_val x) (u8_val z))) by lia. simpl. eauto.
Qed.

#[local] Instance key_le_total {A} : Total (@key_le A).
Proof. intros x y. unfold key_le. destruct (bytes_leb_total (as_bytes x.1) (as_bytes y.1)) as [->| ->]; auto. Qed.
#[local] Instance key_le_trans {A} : Transitive (@key_le A).
Proof. intros x y z Hab Hba. apply Is_true_true. eapply bytes_leb_trans; by apply Is_true_true. Qed.

(** Sorting by distinct keys forgets the order the entries came in. *)
Lemma sort_by_key_perm {A} (l1 l2 : list (string * A)) :
  NoDup l1.*1 -> l1 ≡ₚ l2 -> sort_by_key l1 = sort_by_key l2.
Proof.
  intros Hnd Hp. apply (Sorted_unique_strong key_le); [|apply Sorted_merge_sort, _..|].
  - intros x y Hx Hy Hab Hba. unfold sort_by_key in *. rewrite merge_sort_Permutation in Hx, Hy.
    rewrite <- Hp in Hy. apply Is_true_true in Hab, Hba.
    pose proof (as_bytes_inj _ _ (bytes_leb_antisym _ _ Hab Hba)) as Hk.
    apply list_elem_of_lookup in Hx as [i Hi], Hy as [j Hj].
    assert (i = j) as ->; [|congruence].
    eapply NoDup_lookup; [exact Hnd|rewrite list_lookup_fmap, Hi; reflexivity|].
    rewrite list_lookup_fmap, Hj. simpl. congruence.
  - unfold sort_by_key. by rewrite !merge_sort_Permutation.
Qed.

Lemma keys_map {A B} (f : A -> B) (m : list (string * A)) : (map (fun e => (e.1, f e.2)) m).*1 = m.*1.
Proof. induction m as [|e m IH]; [done|]. rewrite map_cons, !fmap_cons, IH. done. Qed.

Lemma sort_by_key_length {A} (m : list (string * A)) : length (sort_by_key m) = length m.
Proof. unfold sort_by_key. by rewrite merge_sort_Permutation. Qed.
