(* ===== verification/Serde.v ===== *)
(** * Derived deserialisers

    What [#[derive(Deserialize)]] makes of a struct or an enum declaration, as
    documented by serde, for the attributes the crate uses: [rename],
    [rename_all], [default] and [other].  A document is the tree of the text, an
    object with its members in order and repeated members kept.  A struct is read
    from an object, in which unknown members are ignored and a repeated known
    member is an error, or from an array of its fields in order.  That is the path
    of [from_slice].  [from_value] starts from a [serde_json::Value], whose objects
    are maps: of a repeated member only the last is left.  The text of an error is
    a parameter: it depends on the type and the input only. *)

From S2P Require Import Prelude Externals.

(** [serde_json] as a data format: the tree of a text it accepts, and the text
    of the error for a type and an input it rejects. *)
Class Documents := {
  document : list byte -> option Value;
  de_error : string -> list byte -> string
}.

(** What a struct visitor finds for one field: a value, a member the object does
    not have, or an array that ends before. *)
Inductive slot := Present (v : Value) | Absent | Short.

Definition count_key (k : string) (m : list (string * Value)) : nat :=
  length (filter (fun e => e.1 = k) m).

Definition object_slots (fields : list string) (m : list (string * Value)) : option (list slot) :=
  if forallb (fun k => count_key k m <=? 1) fields
  then Some (map (fun k => match assoc_get m k with Some v => Present v | None => Absent end) fields)
  else None.

Definition array_slots (fields : list string) (l : list Value) : option (list slot) :=
  if length l <=? length fields
  then Some (map Present l ++ replicate (length fields - length l) Short)
  else None.

Definition slots (fields : list string) (v : Value) : option (list slot) :=
  match v with
  | JObject m => object_slots fields m
  | JArray l => array_slots fields l
  | _ => None
  end.

(** ** Field kinds *)

Definition required {A} (d : Value -> option A) (s : slot) : option A :=
  match s with Present v => d v | Absent | Short => None end.

(** [Option<T>]: null and a missing member are [None]. *)
Definition nullable {A} (d : Value -> option A) (v : Value) : option (option A) :=
  match v with JNull => Some None | _ => Some <$> d v end.

Definition optional {A} (d : Value -> option A) (s : slot) : option (option A) :=
  match s with Present v => nullable d v | Absent => Some None | Short => None end.

(** [#[serde(default)]]. *)
Definition defaulted {A} (x : A) (d : Value -> option A) (s : slot) : option A :=
  match s with Present v => d v | Absent | Short => Some x end.

(** ** Leaves *)

Definition de_string : Value -> option string := as_str.
Definition de_bool : Value -> option bool := as_bool.
Definition de_value (v : Value) : option Value := Some v.

(** [i64]. *)
Definition de_i64 (v : Value) : option Z :=
  match v with
  | JNumber (PosInt n) => if (Z.of_N n <? 2 ^ 63)%Z then Some (Z.of_N n) else None
  | JNumber (NegInt z) => Some z
  | _ => None
  end.

Fixpoint de_list {A} (d : Value -> option A) (l : list Value) : option (list A) :=
  match l with
  | [] => Some []
  | v :: r => match d v, de_list d r with Some a, Some l => Some (a :: l) | _, _ => None end
  end.

Definition de_vec {A} (d : Value -> option A) (v : Value) : option (list A) :=
  match v with JArray l => de_list d l | _ => None end.

(** A unit variant: its name, or an object of the name alone with null. *)
Definition de_variant {A} (of_name : string -> option A) (v : Value) : option A :=
  match v with
  | JString s => of_name s
  | JObject [(s, JNull)] => of_name s
  | _ => None
  end.

(** ** Structs *)

(** A struct declaration: the names of its fields in the document, in order, and
    how the fields make the value. *)
Record Struct (A : Type) := mkStruct {
  type_name : string;
  fields : list string;
  build : list slot -> option A
}.
Arguments mkStruct {A} _ _ _.
Arguments type_name {A} _.
Arguments fields {A} _.
Arguments build {A} _ _.

Definition decode {A} (d : Struct A) (v : Value) : option A := slots (fields d) v ≫= build d.

(** [serde_json::from_slice::<A>]: from the text itself. *)
Definition from_slice {A} `{Documents} (d : Struct A) (b : list byte) : Result A string :=
  match document b ≫= decode d with Some a => Ok a | None => Err (de_error (type_name d) b) end.

(** A tree as a [serde_json::Value] holds it: a member given again replaces the
    one before. *)
Fixpoint merge_members (m : list (string * Value)) : list (string * Value) :=
  match m with
  | [] => []
  | (k, v) :: r => if bool_decide (k ∈ r.*1) then merge_members r else (k, v) :: merge_members r
  end.

Fixpoint merged (v : Value) : Value :=
  match v with
  | JArray l => JArray (map merged l)
  | JObject m => JObject (merge_members (map (fun e => (e.1, merged e.2)) m))
  | _ => v
  end.

(** [serde_json::from_value::<A>]. *)
Definition from_value {A} `{Documents} `{Json} (d : Struct A) (v : Value) : Result A string :=
  match decode d (merged v) with
  | Some a => Ok a
  | None => Err (de_error (type_name d) (default [] (res_ok (value_to_vec v))))
  end.

(** One field, and the rest of the fields. *)
Definition next {A B} (read : slot -> option A) (k : A -> list slot -> option B) (l : list slot) : option B :=
  match l with s :: r => match read s with Some a => k a r | None => None end | [] => None end.

Notation "'field' x := r ; k" := (next r (fun x => k)) (at level 100, x name, r at level 99, k at level 200, right associativity).
Definition finish {A} (a : A) (l : list slot) : option A := match l with [] => Some a | _ => None end.

(** ** Lemmas *)

(** The members a struct looks at. *)
Definition known (fields : list string) (m : list (string * Value)) : list (string * Value) :=
  filter (fun e => e.1 ∈ fields) m.

Lemma count_key_known fields m k : k ∈ fields -> count_key k m = count_key k (known fields m).
Proof.
  intros Hk. unfold count_key, known. induction m as [|[k' v] m IH]; [done|].
  rewrite !filter_cons. repeat case_decide; simpl in *; simplify_eq; rewrite ?filter_cons; repeat case_decide;
    simpl in *; simplify_eq; try done; by rewrite IH.
Qed.

Lemma count_key_perm k m m' : m ≡ₚ m' -> count_key k m = count_key k m'.
Proof. intros Hm. unfold count_key. by rewrite Hm. Qed.

Lemma assoc_get_known fields m k : k ∈ fields -> assoc_get m k = assoc_get (known fields m) k.
Proof.
  intros Hk. unfold known. induction m as [|[k' v] m IH]; [done|]. rewrite filter_cons. cbn [assoc_get fst].
  destruct (decide (k' ∈ fields)) as [Hin|Hout]; cbn [assoc_get]; [by rewrite IH|].
  case_bool_decide; [by subst|done].
Qed.

Lemma assoc_get_In (m : list (string * Value)) k v : assoc_get m k = Some v -> (k, v) ∈ m.
Proof.
  induction m as [|[k' v'] m IH]; [done|]. cbn. case_bool_decide; [intros [= ->]; subst; by left|].
  intros Hm. right. auto.
Qed.

Lemma count_key_In (k : string) (v : Value) m : (k, v) ∈ m -> 1 <= count_key k m.
Proof.
  intros Hin. unfold count_key. assert (Hf : (k, v) ∈ filter (fun e : string * Value => e.1 = k) m) by by apply list_elem_of_filter.
  destruct (filter _ m); [by apply not_elem_of_nil in Hf|simpl; lia].
Qed.

Lemma assoc_get_unique m k v : count_key k m <= 1 -> (k, v) ∈ m -> assoc_get m k = Some v.
Proof.
  intros Hc Hin. induction m as [|[k' v'] m IH]; [by apply not_elem_of_nil in Hin|]. cbn.
  unfold count_key in Hc. rewrite filter_cons in Hc. case_bool_decide as Hk; cbn in Hc.
  - subst k'. rewrite decide_True in Hc by done. cbn in Hc. apply elem_of_cons in Hin as [[= ->]|Hin]; [done|].
    apply count_key_In in Hin. unfold count_key in Hin. lia.
  - rewrite decide_False in Hc by done. apply IH; [exact Hc|]. apply elem_of_cons in Hin as [[= -> ->]|Hin]; done.
Qed.

Lemma assoc_get_perm m m' k : m ≡ₚ m' -> count_key k m <= 1 -> assoc_get m k = assoc_get m' k.
Proof.
  intros Hm Hc. destruct (assoc_get m k) as [v|] eqn:E.
  - apply assoc_get_In in E. symmetry. apply assoc_get_unique; [by rewrite <- (count_key_perm _ _ _ Hm)|by rewrite <- Hm].
  - destruct (assoc_get m' k) as [v|] eqn:E'; [|done]. apply assoc_get_In in E'.
    rewrite (assoc_get_unique m k v) in E; [done|done|by rewrite Hm].
Qed.

(** Unknown members and the order of members do not matter. *)
Lemma object_slots_known fs m m' : known fs m ≡ₚ known fs m' -> object_slots fs m = object_slots fs m'.
Proof.
  intros Hm. unfold object_slots.
  assert (Hc : forall k, k ∈ fs -> count_key k m = count_key k m').
  { intros k Hk. rewrite (count_key_known fs m), (count_key_known fs m') by done. by apply count_key_perm. }
  assert (Hb : forallb (fun k => count_key k m <=? 1) fs = forallb (fun k => count_key k m' <=? 1) fs).
  { apply eq_true_iff_eq. rewrite !forallb_forall.
    split; intros HF k Hk; specialize (HF k Hk); apply list_elem_of_In in Hk; specialize (Hc k Hk); congruence. }
  rewrite <- Hb. destruct (forallb _ fs) eqn:Hf; [|done]. f_equal. apply map_ext_in. intros k Hk.
  rewrite forallb_forall in Hf. specialize (Hf k Hk). apply Nat.leb_le in Hf. apply list_elem_of_In in Hk.
  rewrite (assoc_get_known fs m), (assoc_get_known fs m') by done.
  rewrite (assoc_get_perm (known fs m) (known fs m')); [done|done|]. by rewrite <- count_key_known.
Qed.

Lemma decode_known {A} (d : Struct A) m m' :
  known (fields d) m ≡ₚ known (fields d) m' -> decode d (JObject m) = decode d (JObject m').
Proof. intros Hm. unfold decode. cbn [slots]. by rewrite (object_slots_known _ m m'). Qed.

(** A repeated known member is an error. *)
Lemma decode_duplicate {A} (d : Struct A) m k : k ∈ fields d -> 1 < count_key k m -> decode d (JObject m) = None.
Proof.
  intros Hk Hc. unfold decode. cbn [slots]. unfold object_slots.
  assert (forallb (fun k => count_key k m <=? 1) (fields d) = false) as ->; [|done].
  apply not_true_iff_false. rewrite forallb_forall. intros HF. apply list_elem_of_In in Hk. specialize (HF k Hk).
  apply Nat.leb_le in HF. lia.
Qed.

Lemma count_key_0 k m : count_key k m = 0 -> assoc_get m k = None.
Proof.
  intros Hc. destruct (assoc_get m k) as [v|] eqn:E; [|done]. apply assoc_get_In, count_key_In in E. lia.
Qed.

(** A build that fails on an absent member of that position. *)
Lemma decode_missing {A} (d : Struct A) m i k :
  fields d !! i = Some k -> count_key k m = 0 ->
  (forall l, l !! i = Some Absent -> build d l = None) -> decode d (JObject m) = None.
Proof.
  intros Hi Hc Hb. unfold decode. cbn [slots]. unfold object_slots. destruct (forallb _ _); [|done]. cbn.
  apply Hb. rewrite list_lookup_fmap, Hi. cbn. by rewrite count_key_0.
Qed.

Lemma next_here {A B} (d : Value -> option A) (k : A -> list slot -> option B) l :
  l !! 0 = Some Absent -> next (required d) k l = None.
Proof. destruct l as [|s l]; [done|]. by intros [= ->]. Qed.

Lemma next_there {A B} (r : slot -> option A) (k : A -> list slot -> option B) l i :
  (forall a l', l' !! i = Some Absent -> k a l' = None) -> l !! S i = Some Absent -> next r k l = None.
Proof. intros Hk. destruct l as [|s l]; [done|]. cbn. intros Hi. destruct (r s); [by apply Hk|done]. Qed.

(** *** What is read from where *)

Definition member (m : list (string * Value)) (k : string) : slot :=
  match assoc_get m k with Some v => Present v | None => Absent end.

Definition given_once (fields : list string) (m : list (string * Value)) : Prop :=
  Forall (fun k => count_key k m <= 1) fields.

(** The member [k] is a string; is there, and [P] relates it to a value; may be
    missing or null; is a list; may be missing, for the empty list. *)
Definition text (m : list (string * Value)) (k s : string) : Prop := assoc_get m k = Some (JString s).
Definition inside {A} (m : list (string * Value)) (k : string) (P : Value -> A -> Prop) (a : A) : Prop :=
  exists v, assoc_get m k = Some v /\ P v a.
Definition maybe {A} (m : list (string * Value)) (k : string) (P : Value -> A -> Prop) (o : option A) : Prop :=
  match o with
  | None => assoc_get m k = None \/ assoc_get m k = Some JNull
  | Some a => exists v, assoc_get m k = Some v /\ v ≠ JNull /\ P v a
  end.
Definition each {A} (P : Value -> A -> Prop) (v : Value) (l : list A) : Prop := exists vs, v = JArray vs /\ Forall2 P vs l.
Definition listed {A} (m : list (string * Value)) (k : string) (P : Value -> A -> Prop) (l : list A) : Prop :=
  (assoc_get m k = None /\ l = []) \/ inside m k (each P) l.

(** The relations between a value and what is made of it. *)
Definition is_text (v : Value) (s : string) : Prop := v = JString s.
Definition is_bool (v : Value) (b : bool) : Prop := v = JBool b.
Definition is_i64 (v : Value) (z : Z) : Prop :=
  (exists n, v = JNumber (PosInt n) /\ z = Z.of_N n /\ (z < 2 ^ 63)%Z) \/ v = JNumber (NegInt z).
Definition is_itself (v v' : Value) : Prop := v = v'.
Definition by_struct {A} (d : Struct A) (v : Value) (a : A) : Prop := decode d v = Some a.

(** Decoders that compute such a relation. *)
Class Reads {A} (d : Value -> option A) (P : Value -> A -> Prop) : Prop := reads_iff : forall v a, d v = Some a <-> P v a.

#[export] Instance reads_text : Reads de_string is_text.
Proof. intros [] a; unfold is_text; cbn; naive_solver. Qed.
#[export] Instance reads_bool : Reads de_bool is_bool.
Proof. intros [] a; unfold is_bool; cbn; naive_solver. Qed.
#[export] Instance reads_i64 : Reads de_i64 is_i64.
Proof.
  intros [| |[n|z|]| | |] a; unfold is_i64; cbn [de_i64]; try naive_solver. destruct (Z.ltb_spec (Z.of_N n) (2 ^ 63)); naive_solver lia.
Qed.
#[export] Instance reads_itself : Reads de_value is_itself.
Proof. intros v a. unfold de_value, is_itself. naive_solver. Qed.
#[export] Instance reads_struct {A} (d : Struct A) : Reads (decode d) (by_struct d).
Proof. done. Qed.
#[export] Instance reads_each {A} (d : Value -> option A) P : Reads d P -> Reads (de_vec d) (each P).
Proof.
  intros HP v l. unfold each. destruct v as [| | | |vs|]; cbn; try (split; [done|naive_solver]).
  trans (Forall2 P vs l); [|naive_solver]. revert l. induction vs as [|v vs IH]; intros l; cbn.
  - split; [intros [= <-]; constructor|by inversion_clear 1].
  - split.
    + destruct (d v) as [a|] eqn:Hd; [|done]. destruct (de_list d vs) as [r|] eqn:Hr; [|done]. intros [= <-].
      constructor; [by apply HP|by apply IH].
    + inversion_clear 1 as [|? a ? r Ha Hr]. apply HP in Ha as ->. apply IH in Hr as ->. done.
Qed.

Lemma required_reads {A} (d : Value -> option A) P `{!Reads d P} m k a : required d (member m k) = Some a <-> inside m k P a.
Proof. unfold member, inside. destruct (assoc_get m k); cbn; [rewrite (reads_iff (d := d))|]; naive_solver. Qed.

Lemma required_text m k s : required de_string (member m k) = Some s <-> text m k s.
Proof. rewrite (required_reads de_string is_text). unfold inside, is_text, text. naive_solver. Qed.

Lemma nullable_reads {A} (d : Value -> option A) P `{!Reads d P} v o :
  nullable d v = Some o <-> match o with None => v = JNull | Some a => v ≠ JNull /\ P v a end.
Proof.
  destruct o as [a|].
  - rewrite <- (reads_iff (d := d)). destruct v; cbn; try naive_solver; rewrite fmap_Some; naive_solver.
  - destruct v; cbn; try naive_solver; rewrite fmap_Some; naive_solver.
Qed.

Lemma optional_reads {A} (d : Value -> option A) P `{!Reads d P} m k o : optional d (member m k) = Some o <-> maybe m k P o.
Proof.
  unfold member, maybe. destruct (assoc_get m k) as [v|]; cbn; [rewrite nullable_reads by done|]; destruct o; naive_solver.
Qed.

Lemma defaulted_none_reads {A} (d : Value -> option A) P `{!Reads d P} m k o :
  defaulted None (nullable d) (member m k) = Some o <-> maybe m k P o.
Proof.
  unfold member, maybe. destruct (assoc_get m k) as [v|]; cbn; [rewrite nullable_reads by done|]; destruct o; naive_solver.
Qed.

Lemma defaulted_nil_reads {A} (d : Value -> option A) P `{!Reads d P} m k l :
  defaulted [] (de_vec d) (member m k) = Some l <-> listed m k P l.
Proof.
  unfold member, listed, inside. destruct (assoc_get m k) as [v|]; cbn; [rewrite (reads_iff (d := de_vec d))|]; naive_solver.
Qed.

(** A struct is read from an object field by field. *)
Lemma decode_object {A} (d : Struct A) m a :
  decode d (JObject m) = Some a <-> given_once (fields d) m /\ build d (map (member m) (fields d)) = Some a.
Proof.
  unfold decode, given_once. cbn [slots]. unfold object_slots.
  assert (forallb (fun k => count_key k m <=? 1) (fields d) = true <-> Forall (fun k => count_key k m <= 1) (fields d)) as <-.
  { rewrite forallb_forall, Forall_forall. by split; intros HF k Hk; specialize (HF k); rewrite list_elem_of_In, Nat.leb_le in *; apply HF. }
  destruct (forallb _ _); cbn; naive_solver.
Qed.

Lemma next_Some {A B} (r : slot -> option A) (k : A -> list slot -> option B) s l b :
  next r k (s :: l) = Some b <-> exists a, r s = Some a /\ k a l = Some b.
Proof. cbn. destruct (r s); naive_solver. Qed.

Lemma finish_Some {A} (a b : A) : finish a [] = Some b <-> b = a.
Proof. cbn. naive_solver. Qed.

(** A member given again replaces the one before. *)
Lemma merge_members_again m k v :
  merge_members (m ++ [(k, v)]) = merge_members (filter (fun e => e.1 ≠ k) m ++ [(k, v)]).
Proof.
  induction m as [|[k' v'] m IH]; [done|]. cbn [app merge_members]. rewrite filter_cons. case_decide as Hk; cbn [fst] in Hk.
  - cbn [app merge_members]. rewrite IH.
    assert (k' ∈ (m ++ [(k, v)]).*1 <-> k' ∈ (filter (fun e => e.1 ≠ k) m ++ [(k, v)]).*1) as Hin.
    { rewrite !fmap_app, !elem_of_app, !list_elem_of_fmap. setoid_rewrite list_elem_of_filter. naive_solver. }
    by rewrite (bool_decide_ext _ _ Hin).
  - subst k'. rewrite bool_decide_eq_true_2; [done|]. rewrite fmap_app. set_solver.
Qed.

Lemma merged_again m k v :
  merged (JObject (m ++ [(k, v)])) = merged (JObject (filter (fun e => e.1 ≠ k) m ++ [(k, v)])).
Proof.
  cbn [merged]. rewrite !map_app. cbn [map fst snd]. rewrite merge_members_again.
  f_equal. rewrite (merge_members_again (map _ (filter _ m))). do 2 f_equal.
  induction m as [|[k' v'] m IH]; [done|]. cbn [map]. rewrite !filter_cons. cbn [fst].
  case_decide; [|done]. cbn [map]. rewrite filter_cons, decide_True by done. by rewrite IH.
Qed.
