(* ===== verification/TransactionUtil.v ===== *)
(** * Transactions (src/rust/src/transaction_util.rs, traits.rs)

    The signature slots of a transaction, their classification, the wire
    encoding, the idempotency key of a create request, the classification of an
    ambiguous create, and [PendingTransactionId]. *)

From S2P Require Import Prelude Errors World Externals.

#[local] Open Scope keychain_scope.

(** ** Results of signing (traits.rs) *)

Definition SignedTransaction : Type := string * Signature.

Inductive SignTransactionResult :=
  | Complete (tx : SignedTransaction)
  | Partial (tx : SignedTransaction).

Definition into_signed_transaction (r : SignTransactionResult) : SignedTransaction :=
  match r with Complete tx | Partial tx => tx end.

(** ** Transactions *)

Section Transactions.
Context `{Codecs} `{SolanaSdk}.

Definition is_v1_message (transaction : VersionedTransaction) : bool :=
  is_v1 (message transaction).

Definition serialize_wire_transaction (transaction : VersionedTransaction) : result (list byte) :=
  map_err (fun e => SerializationError ("Failed to serialize transaction: " +:+ e))
    (wire_serialize (signatures transaction) (message transaction)).

Definition deserialize_wire_transaction (bytes : list byte) : result VersionedTransaction :=
  match wire_deserialize bytes with
  | Ok (sigs, m) => Ok (mkTransaction sigs m)
  | Err e => Err (SerializationError ("Failed to deserialize transaction: " +:+ e))
  end.

Definition serialize_transaction (transaction : VersionedTransaction) : result string :=
  let? b := serialize_wire_transaction transaction in Ok (base64_encode b).

(** [message.header().num_required_signatures as usize]. *)
Definition required_signatures (transaction : VersionedTransaction) : nat :=
  u8_nat (num_required_signatures (message transaction)).

Definition get_signing_keypair_position (transaction : VersionedTransaction) (pubkey : Pubkey)
    : result nat :=
  let num_required := required_signatures transaction in
  let keys := static_account_keys (message transaction) in
  if length keys <? num_required then
    Err (SigningFailed "Invalid account index: not enough account keys")
  else
    let signed_keys := take num_required keys in
    ok_or (SigningFailed ("Pubkey " +:+ pubkey_to_string pubkey +:+
                          " not found in transaction signers"))
      (position (fun x => bool_decide (x = pubkey)) signed_keys).

(** [transaction.signatures[position] = signature] panics out of range. *)
Definition set_signature (transaction : VersionedTransaction) (i : nat) (sg : Signature)
    : run VersionedTransaction :=
  if i <? length (signatures transaction) then
    Returned (mkTransaction (<[i := sg]> (signatures transaction)) (message transaction))
  else Panicked.

Definition add_signature_to_transaction (transaction : VersionedTransaction)
    (pubkey : Pubkey) (signature : Signature) : run (VersionedTransaction * result unit) :=
  match get_signing_keypair_position transaction pubkey with
  | Err e => Returned (transaction, Err e)
  | Ok i =>
      let num_required := required_signatures transaction in
      let transaction :=
        if length (signatures transaction) <? num_required then
          mkTransaction (resize num_required Signature_default (signatures transaction))
                        (message transaction)
        else transaction in
      match set_signature transaction i signature with
      | Returned transaction => Returned (transaction, Ok tt)
      | Panicked => Panicked
      | Dropped why => Dropped why
      end
  end.

Definition has_all_required_signatures (transaction : VersionedTransaction) : bool :=
  let num_required := required_signatures transaction in
  if length (signatures transaction) <? num_required then false
  else forallb (fun sg => bool_decide (sg ≠ Signature_default))
         (take num_required (signatures transaction)).

Definition classify_signed_transaction (transaction : VersionedTransaction)
    (signed_transaction : SignedTransaction) : SignTransactionResult :=
  if has_all_required_signatures transaction then Complete signed_transaction
  else Partial signed_transaction.

(** The tail every transaction-signing backend shares: attach the signature to
    the caller's transaction, then encode it.  The transaction comes back in
    either case: it stays modified when only the encoding fails. *)
Definition attach_and_serialize (transaction : VersionedTransaction) (pubkey : Pubkey)
    (signature : Signature) : run (VersionedTransaction * result SignedTransaction) :=
  match add_signature_to_transaction transaction pubkey signature with
  | Returned (transaction, Ok _) =>
      Returned (transaction,
                let? encoded := serialize_transaction transaction in Ok (encoded, signature))
  | Returned (transaction, Err e) => Returned (transaction, Err e)
  | Panicked => Panicked
  | Dropped why => Dropped why
  end.

(** ** Idempotency keys *)

Definition idempotency_key_from_message (message_bytes : list byte) : string :=
  let digest := arr_bytes (sha256 message_bytes) in
  let key := take 16 digest in
  let key := <[6 := u8_of_Z (Z.lor (Z.land (u8_val (nth 6 key x00)) 0x0f) 0x40)]> key in
  let key := <[8 := u8_of_Z (Z.lor (Z.land (u8_val (nth 8 key x00)) 0x3f) 0x80)]> key in
  let hex := concat (map (hex_pair false) key) in
  of_bytes (slice 0 8 hex) +:+ "-" +:+ of_bytes (slice 8 12 hex) +:+ "-" +:+
  of_bytes (slice 12 16 hex) +:+ "-" +:+ of_bytes (slice 16 20 hex) +:+ "-" +:+
  of_bytes (slice 20 32 hex).

End Transactions.

Definition unconfirmed_unless_rejected (status : option Z) (provider_tx_id : option string)
    (idempotency_key : option string) (error : SignerError) : SignerError :=
  if match status with
     | Some s => ((400 <=? s) && (s <? 500) && negb (s =? 408))%Z
     | None => false
     end
  then error
  else BroadcastUnconfirmed provider_tx_id
         (match status with
          | Some s => if (400 <=? s)%Z then Some s else None
          | None => None
          end)
         idempotency_key None (detail_string error).

(** ** [PendingTransactionId] *)

Module Pending.

(** The vector operations under the lock. *)
Definition slot_push (id : string) (s : Slot) : Slot :=
  if slot_poisoned s then s else mkSlot false (slot_ids s ++ [id]).

Definition slot_remove (id : string) (s : Slot) : Slot :=
  if slot_poisoned s then s else
  match position (fun x => bool_decide (x = id)) (slot_ids s) with
  | Some i => mkSlot false (delete i (slot_ids s))
  | None => s
  end.

(** [PendingTransactionId::ids] and [get]. *)
Definition slot_all (s : Slot) : list string := if slot_poisoned s then [] else slot_ids s.
Definition slot_get (s : Slot) : option string := last (slot_all s).

Definition ids (cell : nat) : M (list string) := let! s := get_slot cell in ret (slot_all s).
Definition get (cell : nat) : M (option string) := let! s := get_slot cell in ret (slot_get s).

Definition set (cell : nat) (provider_tx_id : string) : M unit :=
  let! s := get_slot cell in put_slot cell (slot_push provider_tx_id s).

Definition clear (cell : nat) (provider_tx_id : string) : M unit :=
  let! s := get_slot cell in put_slot cell (slot_remove provider_tx_id s).

End Pending.

Lemma sends_pending_set cell id Q : sends (Pending.set cell id) Q.
Proof. intros w. exists []. by rewrite app_nil_r. Qed.
Lemma sends_pending_clear cell id Q : sends (Pending.clear cell id) Q.
Proof. intros w. exists []. by rewrite app_nil_r. Qed.
#[export] Hint Resolve sends_pending_set sends_pending_clear : keychain.

(** ** Signature slots: lemmas *)

Section TransactionLemmas.
Context `{Codecs} `{SolanaSdk}.
Implicit Types (tx : VersionedTransaction) (pk : Pubkey) (sg : Signature).

(** The index at which [pk] signs [tx], as a relation. *)
Definition signs_at tx pk (i : nat) : Prop :=
  i < required_signatures tx /\
  required_signatures tx <= length (static_account_keys (message tx)) /\
  static_account_keys (message tx) !! i = Some pk /\
  forall j, j < i -> static_account_keys (message tx) !! j ≠ Some pk.

Lemma get_position_Ok tx pk i :
  get_signing_keypair_position tx pk = Ok i <-> signs_at tx pk i.
Proof.
  unfold get_signing_keypair_position, signs_at.
  destruct (Nat.ltb_spec (length (static_account_keys (message tx))) (required_signatures tx)) as [Hl|Hl].
  { split; [done|]. lia. }
  set (n := required_signatures tx) in *. set (ks := static_account_keys (message tx)) in *.
  assert (Hp : position (fun x => bool_decide (x = pk)) (take n ks) = Some i <->
    i < n /\ ks !! i = Some pk /\ forall j, j < i -> ks !! j ≠ Some pk).
  { rewrite position_Some. split.
    - intros (x & Hx & Hpk%bool_decide_eq_true & Hall); subst.
      apply lookup_take_Some in Hx as [Hx Hi]. split_and!; [done..|].
      intros j Hj Hk. specialize (Hall j pk Hj). rewrite lookup_take_lt in Hall by lia.
      apply Hall in Hk. by apply bool_decide_eq_false in Hk.
    - intros (Hi & Hx & Hall). exists pk. rewrite lookup_take_lt by done.
      split_and!; [done|by apply bool_decide_eq_true|].
      intros j y Hj Hy. rewrite lookup_take_lt in Hy by lia.
      apply bool_decide_eq_false. intros ->. by eapply Hall. }
  destruct (position _ _) as [k|]; simpl; split.
  - intros [= ->]. by destruct (proj1 Hp eq_refl) as (? & ? & ?).
  - intros (? & _ & ? & ?). assert (Some k = Some i) as [= ->] by (by apply Hp). done.
  - done.
  - intros (? & _ & ? & ?). assert (None = Some i) by (by apply Hp). done.
Qed.

Lemma signs_at_inj tx pk i j : signs_at tx pk i -> signs_at tx pk j -> i = j.
Proof. intros Hi%get_position_Ok Hj%get_position_Ok. congruence. Qed.

(** The slot list after [add_signature_to_transaction]. *)
Definition filled_slots (n : nat) (sigs : list Signature) : list Signature :=
  if length sigs <? n then resize n Signature_default sigs else sigs.

Lemma length_filled_slots n sigs : length (filled_slots n sigs) = Nat.max n (length sigs).
Proof. unfold filled_slots. destruct (Nat.ltb_spec (length sigs) n); [rewrite length_resize|]; lia. Qed.

Lemma filled_slots_lookup_old n sigs j sg :
  sigs !! j = Some sg -> filled_slots n sigs !! j = Some sg.
Proof.
  intros Hj. unfold filled_slots. destruct (Nat.ltb_spec (length sigs) n); [|done].
  pose proof (lookup_lt_Some _ _ _ Hj). rewrite lookup_resize; [done|lia|lia].
Qed.

Lemma filled_slots_lookup_new n sigs j :
  length sigs <= j < n -> filled_slots n sigs !! j = Some Signature_default.
Proof.
  intros Hj. unfold filled_slots. rewrite (proj2 (Nat.ltb_lt _ _)) by lia.
  apply lookup_resize_new; lia.
Qed.

Lemma add_signature_Ok tx pk sg i :
  signs_at tx pk i ->
  add_signature_to_transaction tx pk sg =
  Returned (mkTransaction (<[i := sg]> (filled_slots (required_signatures tx) (signatures tx)))
                          (message tx), Ok tt).
Proof.
  intros Hi. unfold add_signature_to_transaction.
  rewrite (proj2 (get_position_Ok tx pk i) Hi). destruct Hi as (Hi & _).
  unfold set_signature. pose proof (length_filled_slots (required_signatures tx) (signatures tx)) as Hl.
  unfold filled_slots in *. destruct (length (signatures tx) <? _); simpl;
    rewrite (proj2 (Nat.ltb_lt _ _)) by lia; done.
Qed.

Lemma add_signature_Err tx pk sg e :
  get_signing_keypair_position tx pk = Err e ->
  add_signature_to_transaction tx pk sg = Returned (tx, Err e).
Proof. intros E. unfold add_signature_to_transaction. by rewrite E. Qed.

Lemma has_all_required_spec tx :
  has_all_required_signatures tx = true <->
  required_signatures tx <= length (signatures tx) /\
  forall j, j < required_signatures tx -> signatures tx !! j ≠ Some Signature_default.
Proof.
  unfold has_all_required_signatures.
  destruct (Nat.ltb_spec (length (signatures tx)) (required_signatures tx)).
  { split; [done|]. lia. }
  rewrite <- Is_true_true, forallb_True, Forall_lookup. split.
  - intros Hall. split; [done|]. intros j Hj E.
    specialize (Hall j Signature_default). rewrite lookup_take_lt in Hall by done.
    apply Hall in E. by apply bool_decide_unpack in E.
  - intros [_ Hall] j sg Hj. apply lookup_take_Some in Hj as [Hj Hlt].
    apply bool_decide_pack. intros ->. by eapply Hall.
Qed.

(** What a successfully signed transaction looks like: the message is the
    caller's, the signer's slot holds [sg], every other slot is as it was, and
    missing slots up to the required number were padded with the placeholder. *)
Record attached tx pk sg tx' : Prop := {
  att_message : message tx' = message tx;
  att_slot : exists i, signs_at tx pk i /\ signatures tx' !! i = Some sg;
  att_other : forall i j s, signs_at tx pk i -> j ≠ i ->
    signatures tx !! j = Some s -> signatures tx' !! j = Some s;
  att_padding : forall i j, signs_at tx pk i -> j ≠ i ->
    length (signatures tx) <= j < required_signatures tx ->
    signatures tx' !! j = Some Signature_default;
  att_length : length (signatures tx') = Nat.max (required_signatures tx) (length (signatures tx))
}.

Lemma add_signature_attached tx pk sg tx' :
  add_signature_to_transaction tx pk sg = Returned (tx', Ok tt) -> attached tx pk sg tx'.
Proof.
  destruct (get_signing_keypair_position tx pk) as [i|e] eqn:E.
  2: { by rewrite (add_signature_Err _ _ _ _ E). }
  apply get_position_Ok in E. rewrite (add_signature_Ok _ _ _ _ E). intros [= <-].
  pose proof (length_filled_slots (required_signatures tx) (signatures tx)) as Hl.
  split; simpl.
  - done.
  - exists i. split; [done|]. apply list_lookup_insert_eq. destruct E. lia.
  - intros k j s Hk Hne Hs. rewrite (signs_at_inj _ _ _ _ Hk E) in Hne.
    rewrite list_lookup_insert_ne by done. by apply filled_slots_lookup_old.
  - intros k j Hk Hne Hr. rewrite (signs_at_inj _ _ _ _ Hk E) in Hne.
    rewrite list_lookup_insert_ne by done. by apply filled_slots_lookup_new.
  - by rewrite length_insert.
Qed.

Lemma add_signature_total tx pk sg :
  exists tx' r, add_signature_to_transaction tx pk sg = Returned (tx', r).
Proof.
  destruct (get_signing_keypair_position tx pk) as [i|e] eqn:E.
  - apply get_position_Ok in E. rewrite (add_signature_Ok _ _ _ _ E). eauto.
  - rewrite (add_signature_Err _ _ _ _ E). eauto.
Qed.

Lemma attach_and_serialize_Ok tx pk sg tx' st :
  attach_and_serialize tx pk sg = Returned (tx', Ok st) ->
  attached tx pk sg tx' /\ st.2 = sg /\ serialize_transaction tx' = Ok st.1.
Proof.
  unfold attach_and_serialize.
  destruct (add_signature_to_transaction tx pk sg) as [[tx1 [[]|e]]| |] eqn:E; [|done..].
  destruct (serialize_transaction tx1) as [enc|e] eqn:Es; simpl; [|done].
  intros [= <- <-]. split_and!; [by apply add_signature_attached|done|done].
Qed.

Lemma attach_and_serialize_total tx pk sg :
  exists tx' r, attach_and_serialize tx pk sg = Returned (tx', r) /\ message tx' = message tx.
Proof.
  unfold attach_and_serialize.
  destruct (get_signing_keypair_position tx pk) as [i|e] eqn:E.
  - apply get_position_Ok in E. rewrite (add_signature_Ok _ _ _ _ E).
    eexists _, _. split; [reflexivity|done].
  - rewrite (add_signature_Err _ _ _ _ E). eauto.
Qed.

End TransactionLemmas.

(** ** Signature slots: theorems *)

Section TransactionTheorems.
Context `{Codecs} `{SolanaSdk}.

(** C21: [add_signature_to_transaction] never panics.  When the key is one
    of the transaction's required signers the signature lands in that signer's
    slot, the message and every other slot are untouched and missing slots are
    padded with the placeholder; otherwise the transaction is returned unchanged
    with a [SigningFailed] error. *)
Theorem add_signature_spec (tx : VersionedTransaction) (pk : Pubkey) (sg : Signature) :
  match get_signing_keypair_position tx pk with
  | Ok i => signs_at tx pk i /\
            exists tx', add_signature_to_transaction tx pk sg = Returned (tx', Ok tt) /\
                        attached tx pk sg tx'
  | Err e => (forall i, ~ signs_at tx pk i) /\
             add_signature_to_transaction tx pk sg = Returned (tx, Err e) /\
             exists d, e = SigningFailed d
  end.
Proof.
  destruct (get_signing_keypair_position tx pk) as [i|e] eqn:E.
  - apply get_position_Ok in E. split; [done|]. eexists. split; [by apply add_signature_Ok|].
    by apply add_signature_attached, add_signature_Ok.
  - split_and!; [|by apply add_signature_Err|].
    + intros i Hi%get_position_Ok. congruence.
    + unfold get_signing_keypair_position in E. case_match; [|destruct (position _ _)];
        simpl in E; res_inv; eauto.
Qed.

Lemma signs_at_same_message (tx tx' : VersionedTransaction) pk i :
  message tx' = message tx -> signs_at tx pk i -> signs_at tx' pk i.
Proof. intros E. unfold signs_at, required_signatures. by rewrite E. Qed.

Lemma filled_slots_stable n sigs i (sg : Signature) :
  filled_slots n (<[i := sg]> (filled_slots n sigs)) = <[i := sg]> (filled_slots n sigs).
Proof.
  unfold filled_slots at 1. rewrite length_insert, length_filled_slots.
  destruct (Nat.ltb_spec (Nat.max n (length sigs)) n); [lia|done].
Qed.

(** Signing for a list of keys in turn, as callers of several signers do. *)
Fixpoint add_signatures (tx : VersionedTransaction) (l : list (Pubkey * Signature))
    : run (VersionedTransaction * result unit) :=
  match l with
  | [] => Returned (tx, Ok tt)
  | (pk, sg) :: r =>
      match add_signature_to_transaction tx pk sg with
      | Returned (tx', Ok _) => add_signatures tx' r
      | other => other
      end
  end.

(** Two signers may sign one transaction in either order: the
    resulting transaction is the same. *)
Theorem add_signature_commutes (tx : VersionedTransaction) (pk1 pk2 : Pubkey)
    (sg1 sg2 : Signature) (i1 i2 : nat) :
  pk1 ≠ pk2 -> signs_at tx pk1 i1 -> signs_at tx pk2 i2 ->
  add_signatures tx [(pk1, sg1); (pk2, sg2)] = add_signatures tx [(pk2, sg2); (pk1, sg1)].
Proof.
  intros Hne H1 H2. assert (i1 ≠ i2) as Hi.
  { intros ->. destruct H1 as (_ & _ & K1 & _), H2 as (_ & _ & K2 & _). congruence. }
  cbn [add_signatures]. rewrite (add_signature_Ok _ _ _ _ H1), (add_signature_Ok _ _ _ _ H2).
  cbn [add_signatures].
  erewrite (add_signature_Ok _ pk2 sg2 i2) by (by eapply signs_at_same_message).
  erewrite (add_signature_Ok _ pk1 sg1 i1) by (by eapply signs_at_same_message).
  do 2 f_equal. cbn [signatures message].
  unfold required_signatures; cbn [message]. rewrite !filled_slots_stable.
  f_equal. by apply list_insert_insert_ne.
Qed.

Lemma add_signatures_fill (l : list (Pubkey * Signature)) (tx : VersionedTransaction) :
  Forall (fun p => p.2 ≠ Signature_default /\ exists i, signs_at tx p.1 i) l ->
  exists tx', add_signatures tx l = Returned (tx', Ok tt) /\ message tx' = message tx /\
    (l ≠ [] -> required_signatures tx <= length (signatures tx')) /\
    (forall j sg, signatures tx !! j = Some sg -> sg ≠ Signature_default ->
       exists sg', signatures tx' !! j = Some sg' /\ sg' ≠ Signature_default) /\
    (forall pk i, pk ∈ l.*1 -> signs_at tx pk i ->
       exists sg', signatures tx' !! i = Some sg' /\ sg' ≠ Signature_default).
Proof.
  revert tx. induction l as [|[pk sg] l IH]; intros tx HF; cbn [add_signatures].
  { exists tx. split_and!; [done..|eauto|]. intros pk i Hpk. by apply not_elem_of_nil in Hpk. }
  inversion HF as [|? ? [Hsg [i Hi]] HF']; subst; simpl in *.
  rewrite (add_signature_Ok _ _ _ _ Hi).
  set (tx1 := mkTransaction _ (message tx)).
  assert (attached tx pk sg tx1) as Hatt by by apply add_signature_attached, add_signature_Ok.
  destruct (IH tx1) as (tx' & Hrun & Hmsg & Hlen & Hkeep & Hnew).
  { eapply Forall_impl; [exact HF'|]. intros p [? [k Hk]]. split; [done|].
    exists k. by eapply signs_at_same_message. }
  assert (Hslot : exists sg', signatures tx' !! i = Some sg' /\ sg' ≠ Signature_default).
  { destruct (att_slot _ _ _ _ Hatt) as (k & Hk & Hs).
    rewrite (signs_at_inj _ _ _ _ Hk Hi) in Hs. by eapply Hkeep. }
  exists tx'. split_and!; [done|by rewrite Hmsg|..].
  - intros _. destruct l as [|p l].
    + simpl in Hrun. injection Hrun as <-. rewrite (att_length _ _ _ _ Hatt). lia.
    + by apply Hlen.
  - intros j s Hj Hs. destruct (decide (j = i)) as [->|Hne]; [done|].
    eapply Hkeep; [|exact Hs]. by eapply att_other.
  - intros pk' k Hpk Hk. apply elem_of_cons in Hpk as [E|Hpk].
    { simpl in E. subst pk'. by rewrite (signs_at_inj _ _ _ _ Hk Hi). }
    eapply Hnew; [done|]. by apply (signs_at_same_message tx tx1).
Qed.

(** Once every required signer has signed with a real signature the
    transaction is classified [Complete], whatever the order of the signers. *)
Theorem all_signers_complete (tx : VersionedTransaction) (l : list (Pubkey * Signature))
    (st : SignedTransaction) :
  l ≠ [] ->
  Forall (fun p => p.2 ≠ Signature_default /\ exists i, signs_at tx p.1 i) l ->
  (forall i, i < required_signatures tx -> exists pk, pk ∈ l.*1 /\ signs_at tx pk i) ->
  exists tx', add_signatures tx l = Returned (tx', Ok tt) /\
              message tx' = message tx /\
              classify_signed_transaction tx' st = Complete st.
Proof.
  intros Hne HF Hall. destruct (add_signatures_fill l tx HF) as (tx' & Hrun & Hmsg & Hlen & _ & Hnew).
  exists tx'. split_and!; [done..|]. unfold classify_signed_transaction.
  rewrite (proj2 (has_all_required_spec tx')); [done|].
  assert (required_signatures tx' = required_signatures tx) as ->
    by (unfold required_signatures; by rewrite Hmsg).
  split; [by apply Hlen|]. intros j Hj E.
  destruct (Hall j Hj) as (pk & Hpk & Hs). destruct (Hnew pk j Hpk Hs) as (sg & Hsg & ?).
  congruence.
Qed.

End TransactionTheorems.

(** ** Idempotency keys: a version-4 UUID of the digest *)

(** [s] is [8-4-4-4-12] over the 32 digits [h], with version nibble 4 and
    variant nibble 8, 9, a or b. *)
Definition uuid_of_digits (h : list byte) (s : string) : Prop :=
  length h = 32 /\ Forall (fun c => is_ascii_hexdigit c = true) h /\
  h !! 12 = Some x34 /\ (exists v, h !! 16 = Some v /\ v ∈ [x38; x39; x61; x62]) /\
  as_bytes s = slice 0 8 h ++ [x2d] ++ slice 8 12 h ++ [x2d] ++ slice 12 16 h ++ [x2d] ++
               slice 16 20 h ++ [x2d] ++ slice 20 32 h.

Lemma length_hex_concat up l : length (concat (map (hex_pair up) l)) = 2 * length l.
Proof. induction l as [|b l IH]; [done|]. cbn. rewrite IH. lia. Qed.

Lemma hex_concat_hexdigits up l :
  Forall (fun c => is_ascii_hexdigit c = true) (concat (map (hex_pair up) l)).
Proof.
  induction l as [|b l IH]; cbn [map concat]; [constructor|].
  apply Forall_app. split; [apply hex_pair_hexdigits|done].
Qed.

Lemma hex_concat_lookup up l i b :
  l !! i = Some b ->
  concat (map (hex_pair up) l) !! (2 * i) = Some (hex_digit up (Z.shiftr (u8_val b) 4)).
Proof.
  revert i. induction l as [|a l IH]; intros [|i] Hi; [done|done|..].
  - by injection Hi as ->.
  - replace (2 * S i) with (S (S (2 * i))) by lia. cbn. by apply IH.
Qed.

Lemma version_nibble b :
  hex_digit false (Z.shiftr (u8_val (u8_of_Z (Z.lor (Z.land (u8_val b) 0x0f) 0x40))) 4) = x34.
Proof. by destruct b. Qed.

Lemma variant_nibble b :
  hex_digit false (Z.shiftr (u8_val (u8_of_Z (Z.lor (Z.land (u8_val b) 0x3f) 0x80))) 4)
    ∈ [x38; x39; x61; x62].
Proof. apply (bool_decide_unpack _). by destruct b. Qed.

(** An idempotency key is a syntactically valid version-4 UUID, a
    function of the message bytes alone: 32 hexadecimal digits of the digest in
    8-4-4-4-12 groups with the version and variant nibbles forced. *)
Theorem idempotency_key_uuid `{Codecs} (message_bytes : list byte) :
  exists h, uuid_of_digits h (idempotency_key_from_message message_bytes).
Proof.
  unfold idempotency_key_from_message.
  set (k0 := take 16 (arr_bytes (sha256 message_bytes))).
  assert (Hlen : length k0 = 16).
  { unfold k0. rewrite length_take, array_length. lia. }
  set (k1 := <[6 := _]> k0). set (k2 := <[8 := _]> k1).
  exists (concat (map (hex_pair false) k2)).
  assert (H2 : length k2 = 16) by (unfold k2, k1; by rewrite !length_insert).
  split_and!.
  - by rewrite length_hex_concat, H2.
  - apply hex_concat_hexdigits.
  - rewrite <- (version_nibble (nth 6 k0 x00)). apply (hex_concat_lookup _ _ 6).
    unfold k2. rewrite list_lookup_insert_ne by done. apply list_lookup_insert_eq. lia.
  - eexists. split; [|apply (variant_nibble (nth 8 k1 x00))]. apply (hex_concat_lookup _ _ 8).
    apply list_lookup_insert_eq. unfold k1. rewrite length_insert. lia.
  - rewrite !as_bytes_app, !as_bytes_of_bytes. reflexivity.
Qed.

(** ** Ambiguous creates *)

(** The statuses under which a provider states that it refused the request. *)
Definition definite_rejection (status : option Z) : Prop :=
  exists s, status = Some s /\ (400 <= s < 500)%Z /\ s ≠ 408%Z.

(** A create that failed is reported as unconfirmed, with the provider
    id, the idempotency key and the detail preserved, unless the provider
    answered with a definite client error (4xx other than 408), in which case
    the error passes through unchanged. *)
Theorem unconfirmed_unless_rejected_spec (status : option Z) (id key : option string) (e : SignerError) :
  (definite_rejection status -> unconfirmed_unless_rejected status id key e = e) /\
  (~ definite_rejection status ->
     exists st, unconfirmed_unless_rejected status id key e =
                BroadcastUnconfirmed id st key None (detail_string e) /\
                (forall s, st = Some s -> status = Some s /\ (s = 408 \/ 500 <= s)%Z)).
Proof.
  unfold unconfirmed_unless_rejected, definite_rejection. split.
  - intros (s & -> & Hs & Hn). rewrite (proj2 (Z.leb_le _ _)), (proj2 (Z.ltb_lt _ _)),
      (proj2 (Z.eqb_neq _ _)) by lia. done.
  - intros Hn. destruct status as [s|]; [|by eexists].
    destruct (Z.leb_spec 400 s), (Z.ltb_spec s 500), (Z.eqb_spec s 408); cbn;
      try (eexists; split; [reflexivity|]; intros ? [= <-]; split; [done|lia]);
      try (eexists; split; [reflexivity|]; done).
    exfalso. apply Hn. eauto with lia.
Qed.

(** ** [PendingTransactionId] under interleaved calls *)

Module PendingFacts.
Import Pending.

(** The lock operations of all calls that share a slot, in the order the lock
    serialises them. *)
Inductive slot_op := OpSet (id : string) | OpClear (id : string).

#[global] Instance slot_op_eq_dec : EqDecision slot_op.
Proof. solve_decision. Defined.

Definition apply_op (s : Slot) (o : slot_op) : Slot :=
  match o with OpSet id => slot_push id s | OpClear id => slot_remove id s end.

Definition run_ops (s : Slot) (l : list slot_op) : Slot := foldl apply_op s l.

Definition occurrences (id : string) (l : list string) : nat :=
  length (filter (fun x => x = id) l).

Definition opens (id : string) (l : list slot_op) : nat :=
  length (filter (fun o => o = OpSet id) l).
Definition closes (id : string) (l : list slot_op) : nat :=
  length (filter (fun o => o = OpClear id) l).

(** Every [clear] follows the [set] of the same call. *)
Definition bracketed (l : list slot_op) : Prop :=
  forall k id, closes id (take k l) <= opens id (take k l).

Lemma occurrences_app id l k : occurrences id (l ++ k) = occurrences id l + occurrences id k.
Proof. unfold occurrences. by rewrite filter_app, length_app. Qed.

Lemma occurrences_cons id x l :
  occurrences id (x :: l) = (if decide (x = id) then 1 else 0) + occurrences id l.
Proof. unfold occurrences. rewrite filter_cons. by case_decide. Qed.

Lemma occurrences_delete id x l i :
  l !! i = Some x ->
  occurrences id l = (if decide (x = id) then 1 else 0) + occurrences id (delete i l).
Proof.
  intros Hi. rewrite <- (take_drop_middle l i x Hi) at 1.
  rewrite (delete_take_drop l i), !occurrences_app, occurrences_cons. lia.
Qed.

Lemma occurrences_0 id l : id ∉ l -> occurrences id l = 0.
Proof.
  induction l as [|x l IH]; [done|]. rewrite elem_of_cons, occurrences_cons.
  intros Hn. rewrite decide_False by naive_solver. apply IH. naive_solver.
Qed.

Lemma slot_remove_occurrences x l :
  0 < occurrences x l ->
  exists l', slot_remove x (mkSlot false l) = mkSlot false l' /\
    forall id, occurrences id l = (if decide (x = id) then 1 else 0) + occurrences id l'.
Proof.
  intros Hpos. unfold slot_remove; cbn [slot_poisoned slot_ids].
  destruct (position _ l) as [i|] eqn:E.
  - apply position_Some in E as (y & Hy & Hyx%bool_decide_eq_true & _). subst y.
    eexists. split; [reflexivity|]. intros id. by apply occurrences_delete.
  - rewrite occurrences_0 in Hpos; [lia|]. intros Hin.
    eapply position_None in E; [|exact Hin]. by apply bool_decide_eq_false in E.
Qed.

Lemma length_filter_cons (f : slot_op -> Prop) `{!forall x, Decision (f x)} o k :
  length (filter f (o :: k)) = length (filter f [o]) + length (filter f k).
Proof. rewrite (filter_app f [o] k : filter f (o :: k) = _), length_app. done. Qed.

Lemma run_ops_count ops l :
  (forall k id, closes id (take k ops) <= occurrences id l + opens id (take k ops)) ->
  exists l', run_ops (mkSlot false l) ops = mkSlot false l' /\
    forall id, occurrences id l' + closes id ops = occurrences id l + opens id ops.
Proof.
  revert l. induction ops as [|o ops IH]; intros l Hb.
  { exists l. split; [done|]. intros id. done. }
  assert (exists l1, apply_op (mkSlot false l) o = mkSlot false l1 /\
    forall id, occurrences id l1 + closes id [o] = occurrences id l + opens id [o])
    as (l1 & Hstep & Hcnt).
  { destruct o as [x|x]; cbn [apply_op].
    - exists (l ++ [x]). split; [done|]. intros id. rewrite occurrences_app, occurrences_cons.
      unfold closes, opens, occurrences. rewrite !filter_cons, !filter_nil.
      repeat case_decide; simplify_eq; simpl; lia.
    - destruct (slot_remove_occurrences x l) as (l1 & H1 & H2).
      { specialize (Hb 1 x). unfold closes, opens in Hb. cbn [take] in Hb.
        rewrite firstn_O, !filter_cons, !filter_nil in Hb.
        repeat case_decide; simplify_eq; simpl in Hb; lia. }
      exists l1. split; [done|]. intros id. specialize (H2 id).
      unfold closes, opens. rewrite !filter_cons, !filter_nil.
      repeat case_decide; simplify_eq; simpl; lia. }
  destruct (IH l1) as (l' & Hrun & Hcnt').
  { intros k id. specialize (Hb (S k) id). specialize (Hcnt id). unfold closes, opens in *.
    cbn [take] in Hb. rewrite !(length_filter_cons _ o (take k ops)) in Hb. lia. }
  exists l'. split.
  { unfold run_ops in *. cbn [foldl]. by rewrite Hstep. }
  intros id. specialize (Hcnt id). specialize (Hcnt' id). unfold closes, opens in *.
  rewrite !(length_filter_cons _ o ops). lia.
Qed.

(** C24: calls that share one slot may interleave in any order: as long
    as each call clears only the id it set, the slot holds exactly the ids that
    are still in flight, with their multiplicities, and the other calls' ids
    are never lost. *)
Theorem pending_ids_exact (ops : list slot_op) :
  bracketed ops ->
  forall id, occurrences id (slot_all (run_ops (mkSlot false []) ops)) = opens id ops - closes id ops.
Proof.
  intros Hb id. destruct (run_ops_count ops []) as (l' & -> & Hcnt).
  { intros k i. apply Hb. }
  cbn [slot_all slot_poisoned slot_ids]. specialize (Hcnt id).
  change (occurrences id []) with 0 in Hcnt. lia.
Qed.

(** Two calls in flight; the first to start finishes first. *)
Lemma pending_ids_exact_witness :
  bracketed [OpSet "a"; OpSet "b"; OpClear "a"] /\
  occurrences "b" (slot_all (run_ops (mkSlot false []) [OpSet "a"; OpSet "b"; OpClear "a"])) = 1.
Proof.
  assert (Hb : bracketed [OpSet "a"; OpSet "b"; OpClear "a"]).
  { intros [|[|[|[|k]]]] id; cbn; unfold closes, opens; rewrite ?filter_cons, ?filter_nil;
      repeat case_decide; simplify_eq; simpl; lia. }
  split; [exact Hb|]. exact (pending_ids_exact _ Hb "b").
Defined.

End PendingFacts.

(** ** The slot around one call *)

(** The registered cell's ids. *)
Definition cell_ids (c : nat) (w : World) : list string :=
  Pending.slot_all (default (mkSlot false []) (w_slots w !! c)).

Definition cell_ok (c : nat) (w : World) : Prop :=
  slot_poisoned (default (mkSlot false []) (w_slots w !! c)) = false.

Lemma pending_set_run c id w :
  cell_ok c w -> exists w', Pending.set c id w = (Returned tt, w') /\ cell_ok c w' /\
    cell_ids c w' = cell_ids c w ++ [id].
Proof.
  intros Hok. eexists. split; [reflexivity|]. unfold cell_ok, cell_ids in *. cbn.
  rewrite lookup_insert_eq. cbn. unfold Pending.slot_push, Pending.slot_all. rewrite Hok. done.
Qed.

Lemma pending_clear_run c id l w :
  cell_ok c w -> cell_ids c w = l ++ [id] ->
  exists w', Pending.clear c id w = (Returned tt, w') /\ cell_ids c w' ≡ₚ l.
Proof.
  intros Hok Hids. eexists. split; [reflexivity|]. unfold cell_ok, cell_ids in *. cbn.
  rewrite lookup_insert_eq. cbn. unfold Pending.slot_remove, Pending.slot_all in *. rewrite Hok in *.
  rewrite Hids. destruct (position _ (l ++ [id])) as [i|] eqn:E.
  - apply position_Some in E as (x & Hx & Hid%bool_decide_eq_true & _). subst x. cbn.
    apply (Permutation.Permutation_cons_inv (a := id)).
    rewrite <- (delete_Permutation _ _ _ Hx). by rewrite Permutation_app_comm.
  - rewrite position_None in E. specialize (E id). rewrite bool_decide_eq_true_2 in E by done.
    discriminate E. apply elem_of_app. right. constructor.
Qed.

Lemma cell_calm {A} c (m : M A) w :
  calm m -> cell_ids c (m w).2 = cell_ids c w /\ (cell_ok c (m w).2 <-> cell_ok c w) /\ (m w).1 ≠ Panicked.
Proof. intros Hm. destruct (Hm w) as (Hs & Hp & _). unfold cell_ids, cell_ok. by rewrite Hs. Qed.

(** What the caller can learn after a create was accepted under [id]. *)
Definition reported (c : nat) (id : string) (key : option string)
    (before : World) (out : run (result Signature) * World) : Prop :=
  match out with
  | (Returned (Ok _), w') => cell_ids c w' ≡ₚ cell_ids c before
  | (Returned (Err e), w') =>
      (exists d, e = BroadcastUnconfirmed (Some id) None key None d) /\
      cell_ids c w' ≡ₚ cell_ids c before
  | (Dropped _, w') => cell_ids c w' = cell_ids c before ++ [id]
  | (Panicked, _) => False
  end.

(** The bracket both sending signers put around the work after the create:
    register the id, finish, take the id out. *)
Lemma bracket_reported (c : nat) (id : string) (key : option string) (m : M (result Signature))
    (w : World) (f : SignerError -> string) :
  cell_ok c w -> calm m ->
  reported c id key w
    (bind (Pending.set c id) (fun _ =>
      bind (fmap_err (fun e => BroadcastUnconfirmed (Some id) None key None (f e)) m) (fun r =>
        bind (Pending.clear c id) (fun _ => ret r))) w).
Proof.
  intros Hok Hm. destruct (pending_set_run c id w Hok) as (w2 & Hset & Hok2 & Hids2).
  unfold bind at 1. rewrite Hset. unfold bind at 1, fmap_err, bind at 1.
  destruct (cell_calm c m w2 Hm) as (Hids3 & Hok3 & Hnp).
  destruct (m w2) as [[r| |why] w3]; cbn [fst snd] in *; [|done|].
  - cbn [ret]. unfold bind.
    destruct (pending_clear_run c id (cell_ids c w) w3) as (w4 & Hcl & Hperm).
    { by apply Hok3. } { by rewrite Hids3, Hids2. }
    rewrite Hcl. destruct r as [sg|e]; cbn; [done|]. split; [by eexists|done].
  - unfold reported. by rewrite Hids3, Hids2.
Qed.

(** What goes in and comes out of the bracket is what goes in and comes out of
    the work, up to the slot. *)
Definition same_but_slots (w w' : World) : Prop := w_trace w' = w_trace w /\ outside w' = outside w.

Lemma bracket_runs (cell : option nat) (id : string) (key : option string) (m : M (result Signature))
    (f : SignerError -> string) w r w' :
  bind (match cell with Some c => Pending.set c id | None => ret tt end) (fun _ =>
    bind (fmap_err (fun e => BroadcastUnconfirmed (Some id) None key None (f e)) m) (fun r =>
      bind (match cell with Some c => Pending.clear c id | None => ret tt end) (fun _ => ret r))) w = (Returned r, w') ->
  exists w1 r1 w2, same_but_slots w w1 /\ m w1 = (Returned r1, w2) /\ same_but_slots w2 w' /\
    r = map_err (fun e => BroadcastUnconfirmed (Some id) None key None (f e)) r1.
Proof.
  assert (Hs : forall (g : nat -> M unit) w0, (forall c, (g c w0).1 = Returned tt /\ same_but_slots w0 (g c w0).2) ->
    exists w1, match cell with Some c => g c | None => ret tt end w0 = (Returned tt, w1) /\ same_but_slots w0 w1).
  { intros g w0 Hg. destruct cell as [c|]; [|by exists w0]. destruct (Hg c) as [Hr Hw]. destruct (g c w0) as [o w1]. cbn in *. subst. by exists w1. }
  destruct (Hs (fun c => Pending.set c id) w) as (w1 & E1 & Hw1); [done|]. unfold bind at 1. rewrite E1.
  unfold bind at 1, fmap_err, bind at 1. destruct (m w1) as [[r1| |] w2] eqn:Em; [|done..]. cbn [ret].
  destruct (Hs (fun c => Pending.clear c id) w2) as (w3 & E3 & Hw3); [done|]. unfold bind. rewrite E3. intros [= <- <-].
  by exists w1, r1, w2.
Qed.

Lemma unconfirmed_key status id key e :
  (exists id' st d, unconfirmed_unless_rejected status id (Some key) e =
                    BroadcastUnconfirmed id' st (Some key) None d) \/
  (unconfirmed_unless_rejected status id (Some key) e = e /\ definite_rejection status).
Proof.
  unfold unconfirmed_unless_rejected, definite_rejection. destruct status as [s|]; [|by left; eauto].
  destruct ((400 <=? s) && (s <? 500) && negb (s =? 408))%Z eqn:E; [right|left; eauto].
  split; [done|]. exists s. split; [done|]. lia.
Qed.


(** ** Concrete transactions *)

Module TransactionDemo.
Import Demo.

Definition alice : Pubkey := array_repeat 32 x01.
Definition bob : Pubkey := array_repeat 32 x02.
Definition two_signers : VersionedTransaction :=
  mkTransaction [] (DemoMessage x02 [alice; bob] (as_bytes "transfer") false).
Definition sg_of (k : Pubkey) : Signature := keypair_sign_message k (as_bytes "transfer").

Lemma alice_first : signs_at two_signers alice 0.
Proof. apply get_position_Ok. vm_compute. reflexivity. Defined.
Lemma bob_second : signs_at two_signers bob 1.
Proof. apply get_position_Ok. vm_compute. reflexivity. Defined.

Lemma add_signature_commutes_witness :
  add_signatures two_signers [(alice, sg_of alice); (bob, sg_of bob)] =
  add_signatures two_signers [(bob, sg_of bob); (alice, sg_of alice)].
Proof.
  apply (add_signature_commutes two_signers alice bob _ _ 0 1); [|exact alice_first|exact bob_second].
  apply (bool_decide_unpack _). vm_compute. exact I.
Defined.

Lemma all_signers_complete_witness :
  exists tx', add_signatures two_signers [(bob, sg_of bob); (alice, sg_of alice)] = Returned (tx', Ok tt) /\
              message tx' = message two_signers /\
              classify_signed_transaction tx' (EmptyString, sg_of alice) = Complete (EmptyString, sg_of alice).
Proof.
  apply (all_signers_complete two_signers [(bob, sg_of bob); (alice, sg_of alice)]).
  - discriminate.
  - repeat constructor; try (apply (bool_decide_unpack _); vm_compute; exact I).
    + exists 1. exact bob_second.
    + exists 0. exact alice_first.
  - intros [|[|i]] Hi.
    + exists alice. split; [|exact alice_first]. right. left.
    + exists bob. split; [|exact bob_second]. left.
    + exfalso. vm_compute in Hi. lia.
Defined.

Lemma unconfirmed_unless_rejected_spec_witness :
  definite_rejection (Some 404%Z) /\
  unconfirmed_unless_rejected (Some 404%Z) None (Some "key") (remote_api "gone") = remote_api "gone".
Proof.
  assert (Hd : definite_rejection (Some 404%Z)) by (exists 404%Z; split; [reflexivity|lia]).
  split; [exact Hd|]. exact (proj1 (unconfirmed_unless_rejected_spec _ None (Some "key") _) Hd).
Defined.

End TransactionDemo.
