(* ===== verification/SignatureUtil.v ===== *)
(** * Decoding and verifying signatures (src/rust/src/signature_util.rs)

    The decoders every backend passes a provider's signature through, the
    verification gate ([verify_or_reject]), the two extractors that read a
    signature out of a transaction a provider returned, and the Ed25519
    SubjectPublicKeyInfo parsers of the KMS backends. *)

From S2P Require Import Prelude Errors Externals TransactionUtil.

#[local] Open Scope keychain_scope.

Definition EXPECTED_SIGNATURE_LENGTH : nat := 64.

Definition signature_from_bytes (bytes : list byte) : result Signature :=
  ok_or (SigningFailed ("Invalid signature length: expected " +:+ pretty EXPECTED_SIGNATURE_LENGTH +:+
                        " bytes, got " +:+ pretty (length bytes)))
    (array_try_from EXPECTED_SIGNATURE_LENGTH bytes).

Section Decoders.
Context `{Codecs}.

Definition signature_from_base58 (encoded : string) : result Signature :=
  let? bytes := map_err (fun _ => SerializationError "Failed to decode base58 signature")
                  (bs58_decode encoded) in
  signature_from_bytes bytes.

Definition signature_from_base64 (encoded : string) : result Signature :=
  let? bytes := map_err (fun _ => SerializationError "Failed to decode base64 signature")
                  (base64_decode encoded) in
  signature_from_bytes bytes.

Definition signature_from_hex (encoded : string) : result Signature :=
  let encoded := default encoded (strip_prefix "0x" encoded) in
  let? bytes := map_err (fun _ => SerializationError "Failed to decode hex signature")
                  (hex_decode encoded) in
  signature_from_bytes bytes.

End Decoders.

Section Verification.
Context `{Codecs} `{SolanaSdk}.

Definition signature_at_signer_position (transaction : VersionedTransaction) (public_key : Pubkey)
    : result Signature :=
  let? i := get_signing_keypair_position transaction public_key in
  ok_or (SigningFailed "Returned signed transaction is missing the signer's signature")
    (match signatures transaction !! i with
     | Some signature => if bool_decide (signature ≠ Signature_default) then Some signature else None
     | None => None
     end).

(** [verifies]: the runtime's ZIP-215 rules. *)
Definition verifies (signature : Signature) (public_key : Pubkey) (message : list byte) : bool :=
  match array_try_from EXPECTED_SIGNATURE_LENGTH (arr_bytes signature) with
  | None => false
  | Some signature =>
      match zebra_key public_key with
      | Some key => zebra_verify key signature message
      | None => false
      end
  end.

Definition verify_or_reject (signature : Signature) (public_key : Pubkey) (message : list byte)
    : result unit :=
  if verifies signature public_key message then Ok tt
  else Err (SigningFailed "Signature verification failed — the returned signature does not match the public key").

Definition extract_and_verify_returned_signature (returned_tx_bytes : list byte)
    (public_key : Pubkey) (original_message_bytes : list byte) : result Signature :=
  let? returned := deserialize_wire_transaction returned_tx_bytes in
  let? signature := signature_at_signer_position returned public_key in
  let? _ := verify_or_reject signature public_key original_message_bytes in
  Ok signature.

Definition extract_and_verify_rewritten_transaction (returned_tx_bytes : list byte)
    (public_key : Pubkey) : result (VersionedTransaction * Signature) :=
  let? returned := deserialize_wire_transaction returned_tx_bytes in
  let? signature := signature_at_signer_position returned public_key in
  let? _ := verify_or_reject signature public_key (message_serialize (message returned)) in
  Ok (returned, signature).

End Verification.

(** ** SubjectPublicKeyInfo *)

Definition ED25519_SPKI_PREFIX : list byte :=
  [x30; x2a; x30; x05; x06; x03; x2b; x65; x70; x03; x21; x00].

Definition ed25519_key_from_spki_der (der : list byte) : option (u8array 32) :=
  if negb (bool_decide (length der = length ED25519_SPKI_PREFIX + 32)) ||
     negb (bool_decide (take (length ED25519_SPKI_PREFIX) der = ED25519_SPKI_PREFIX))
  then None
  else array_try_from 32 (drop (length ED25519_SPKI_PREFIX) der).

(** [str::lines]: pieces end at LF, and a CR before that LF belongs to the
    line end.  [cur] is the current piece, reversed. *)
Definition strip_cr (cur : list byte) : list byte :=
  match cur with x0d :: r => reverse r | _ => reverse cur end.

Fixpoint lines_from (cur l : list byte) : list (list byte) :=
  match l with
  | [] => match cur with [] => [] | _ => [reverse cur] end
  | x0a :: r => strip_cr cur :: lines_from [] r
  | b :: r => lines_from (b :: cur) r
  end.

(** [chars().filter(|c| !c.is_whitespace())]. *)
Fixpoint remove_ws (l : list byte) : list byte :=
  match l with
  | a :: r1 =>
      if ws1 a then remove_ws r1 else
      match r1 with
      | b :: r2 =>
          if ws2 a b then remove_ws r2 else
          match r2 with
          | c :: r3 => if ws3 a b c then remove_ws r3 else a :: remove_ws r1
          | [] => a :: remove_ws r1
          end
      | [] => [a]
      end
  | [] => []
  end.

Definition ed25519_key_from_spki_pem `{Codecs} (pem : string) : option (u8array 32) :=
  let body := concat (map remove_ws
                (filter (fun line => negb (starts_with "-----" (of_bytes line)))
                   (lines_from [] (as_bytes pem)))) in
  match base64_decode (of_bytes body) with
  | Ok der => ed25519_key_from_spki_der der
  | Err _ => None
  end.

(** ** Lemmas *)

Lemma signature_from_bytes_Ok b sg : signature_from_bytes b = Ok sg <-> arr_bytes sg = b.
Proof.
  unfold signature_from_bytes. destruct (array_try_from _ b) as [a|] eqn:E; simpl.
  - pose proof E as [Ha Hl]%array_try_from_Some. split.
    + by intros [= <-].
    + intros Hs. f_equal. apply array_eq. exact (eq_trans Ha (eq_sym Hs)).
  - split; [done|]. intros <-. by rewrite array_try_from_bytes in E.
Qed.

Lemma verify_or_reject_Ok `{SolanaSdk} sg pk m u :
  verify_or_reject sg pk m = Ok u -> verifies sg pk m = true.
Proof. unfold verify_or_reject. by destruct (verifies sg pk m). Qed.

Lemma signature_at_signer_position_Ok `{SolanaSdk} tx pk sg :
  signature_at_signer_position tx pk = Ok sg <->
  exists i, signs_at tx pk i /\ signatures tx !! i = Some sg /\ sg ≠ Signature_default.
Proof.
  unfold signature_at_signer_position.
  destruct (get_signing_keypair_position tx pk) as [i|e] eqn:E; simpl.
  - apply get_position_Ok in E. split.
    + destruct (signatures tx !! i) as [s|] eqn:Hs; simpl; [|done].
      case_bool_decide as Hd; simpl; [|done]. intros [= <-]. eauto.
    + intros (j & Hj & Hs & Hd). rewrite (signs_at_inj _ _ _ _ Hj E) in Hs.
      rewrite Hs, bool_decide_eq_true_2 by done. done.
  - split; [done|]. intros (j & Hj%get_position_Ok & _). congruence.
Qed.

Lemma extract_returned_Ok `{SolanaSdk} bytes pk m sg :
  extract_and_verify_returned_signature bytes pk m = Ok sg -> verifies sg pk m = true.
Proof.
  unfold extract_and_verify_returned_signature.
  destruct (deserialize_wire_transaction bytes) as [tx|]; simpl; [|done].
  destruct (signature_at_signer_position tx pk) as [s|]; simpl; [|done].
  destruct (verify_or_reject s pk m) as [u|] eqn:E; simpl; [|done].
  intros [= <-]. by eapply verify_or_reject_Ok.
Qed.

Lemma extract_rewritten_Ok `{SolanaSdk} bytes pk tx sg :
  extract_and_verify_rewritten_transaction bytes pk = Ok (tx, sg) ->
  deserialize_wire_transaction bytes = Ok tx /\ signature_at_signer_position tx pk = Ok sg /\
  verifies sg pk (message_serialize (message tx)) = true.
Proof.
  unfold extract_and_verify_rewritten_transaction.
  destruct (deserialize_wire_transaction bytes) as [tx1|]; simpl; [|done].
  destruct (signature_at_signer_position tx1 pk) as [s|] eqn:Hs; simpl; [|done].
  destruct (verify_or_reject s pk _) as [u|] eqn:E; simpl; [|done].
  intros [= <- <-]. split_and!; [done..|]. by eapply verify_or_reject_Ok.
Qed.

#[export] Hint Resolve verify_or_reject_Ok extract_returned_Ok : keychain.

(** ** Theorems *)

(** C22: extraction is exact.  It succeeds precisely when the returned
    bytes decode to a transaction in which this key is a required signer whose
    slot holds a non-placeholder signature that verifies over the bytes the
    caller submitted; whatever message the provider returned is irrelevant. *)
Theorem extract_returned_exact `{SolanaSdk} (bytes : list byte) (pk : Pubkey)
    (m : list byte) (sg : Signature) :
  extract_and_verify_returned_signature bytes pk m = Ok sg <->
  exists tx i, deserialize_wire_transaction bytes = Ok tx /\ signs_at tx pk i /\
    signatures tx !! i = Some sg /\ sg ≠ Signature_default /\ verifies sg pk m = true.
Proof.
  split.
  - intros HE. pose proof (extract_returned_Ok _ _ _ _ HE) as Hv. revert HE.
    unfold extract_and_verify_returned_signature.
    destruct (deserialize_wire_transaction bytes) as [tx|]; simpl; [|done].
    destruct (signature_at_signer_position tx pk) as [s|] eqn:Es; simpl; [|done].
    destruct (verify_or_reject s pk m) as [u|]; simpl; [|done]. intros [= ->].
    apply signature_at_signer_position_Ok in Es as (i & ? & ? & ?). eauto 10.
  - intros (tx & i & Hd & Hi & Hs & Hn & Hv). unfold extract_and_verify_returned_signature.
    rewrite Hd. simpl. rewrite (proj2 (signature_at_signer_position_Ok tx pk sg)) by eauto.
    simpl. unfold verify_or_reject. by rewrite Hv.
Qed.

(** The DER parser is the exact inverse of the 44-byte encoding: it
    returns [k] for the fixed header followed by [k], and for nothing else. *)
Theorem spki_der_exact (der : list byte) (k : u8array 32) :
  ed25519_key_from_spki_der der = Some k <-> der = ED25519_SPKI_PREFIX ++ arr_bytes k.
Proof.
  unfold ed25519_key_from_spki_der. split.
  - case_bool_decide as Hl; [|done]. case_bool_decide as Hp; [|done]. cbn [negb orb].
    intros [Hk _]%array_try_from_Some. by rewrite Hk, <- Hp at 1; rewrite take_drop.
  - intros ->. rewrite length_app, array_length.
    rewrite (bool_decide_eq_true_2 (_ = _)) by done.
    rewrite take_app_length, bool_decide_eq_true_2 by done. cbn [negb orb].
    rewrite drop_app_length. apply array_try_from_bytes.
Qed.

(** The three text decoders accept exactly 64-byte payloads and agree
    on them; the hex decoder treats an optional [0x] as absent. *)
Theorem signature_decoders_roundtrip `{CodecLaws} (sg : Signature) (b : list byte) :
  signature_from_base58 (bs58_encode (arr_bytes sg)) = Ok sg /\
  signature_from_base64 (base64_encode (arr_bytes sg)) = Ok sg /\
  signature_from_hex ("0x" +:+ hex_encode (arr_bytes sg)) = Ok sg /\
  (signature_from_base64 (base64_encode b) = Ok sg <-> b = arr_bytes sg) /\
  (signature_from_base58 (bs58_encode b) = Ok sg <-> b = arr_bytes sg).
Proof.
  assert (HS : signature_from_bytes (arr_bytes sg) = Ok sg) by by apply signature_from_bytes_Ok.
  unfold signature_from_base58, signature_from_base64, signature_from_hex.
  rewrite (proj2 (strip_prefix_Some _ _ _) eq_refl). cbn [default from_option id].
  rewrite !bs58_decode_encode, !base64_decode_encode, hex_decode_encode. cbn [map_err res_bind].
  split_and!; try done; rewrite signature_from_bytes_Ok; split; by symmetry.
Qed.

Lemma signature_decoders_roundtrip_witness :
  signature_from_hex (H:=Demo.demo_codecs)
    ("0x" +:+ hex_encode (Codecs:=Demo.demo_codecs) (arr_bytes Signature_default)) = Ok Signature_default.
Proof. exact (proj1 (proj2 (proj2 (signature_decoders_roundtrip (H0:=Demo.demo_codec_laws) Signature_default [])))). Defined.
