(* ===== verification/RemoteUtil.v ===== *)
(** * HTTP plumbing of the remote backends
    (src/rust/src/remote_util.rs, http_client_config.rs)

    Base-URL normalisation, percent-encoding of path segments, the capped body
    reader, API errors, JSON responses, the polling loop, and the client
    configuration. *)

From S2P Require Import Prelude Errors World Externals.

#[local] Open Scope keychain_scope.

(** ** URLs *)

Definition normalize_base_url (base_url : string) : string := trim_end_matches x2f (trim base_url).

(** [reqwest::Url]: the parts the crate reads, and its parser. *)
Record Url := mkUrl {
  url_scheme : string;
  url_as_str : string;
  url_cannot_be_a_base : bool;
  url_host : option string;
  url_port : option Z;
  url_path : string
}.
Class UrlParser := { url_parse : string -> Result Url string }.

Definition validate_https_url `{UrlParser} (url : string) : result unit :=
  let? parsed := map_err (fun _ => ConfigError "api_base_url is not a valid URL") (url_parse url) in
  if bool_decide (url_scheme parsed ≠ "https") then Err (ConfigError "api_base_url must use HTTPS") else Ok tt.

(** The bytes [encode_uri_component] leaves alone. *)
Definition is_unreserved (b : byte) : bool :=
  let n := u8_val b in
  ((65 <=? n) && (n <=? 90) || (97 <=? n) && (n <=? 122) || (48 <=? n) && (n <=? 57))%Z ||
  bool_decide (b ∈ [x2d; x5f; x2e; x21; x7e; x2a; x27; x28; x29]).

Definition encode_byte (b : byte) : list byte :=
  if is_unreserved b then [b] else x25 :: hex_pair true b.

Definition encode_uri_component (input : string) : string :=
  of_bytes (concat (map encode_byte (as_bytes input))).

(** ** Client configuration (durations in milliseconds) *)

Record HttpClientConfig := mkHttpClientConfig {
  request_timeout : option Z;
  connect_timeout : option Z
}.

Definition DEFAULT_REQUEST_TIMEOUT : Z := 30 * 1000.
Definition DEFAULT_CONNECT_TIMEOUT : Z := 5 * 1000.

Definition resolved_request_timeout (c : HttpClientConfig) : Z :=
  default DEFAULT_REQUEST_TIMEOUT (request_timeout c).
Definition resolved_connect_timeout (c : HttpClientConfig) : Z :=
  default DEFAULT_CONNECT_TIMEOUT (connect_timeout c).

(** What a backend asks of [reqwest]: the builder's settings. *)
(** [redirect::Policy]: follow up to [max] redirects (the default is ten), hand
    the redirect back, or fail the request. *)
Inductive RedirectPolicy := RedirectLimited (max : nat) | RedirectNone | RedirectError (msg : string).

Record ClientBuilder := mkClientBuilder {
  cb_timeout : Z;
  cb_connect_timeout : Z;
  cb_https_only : bool;
  cb_redirect : RedirectPolicy;
  cb_user_agent : option string
}.

Definition no_redirect_policy : RedirectPolicy :=
  RedirectError "redirects are not followed: a signer request carries provider credentials".

Definition client_builder (c : HttpClientConfig) : ClientBuilder :=
  mkClientBuilder (resolved_request_timeout c) (resolved_connect_timeout c) true no_redirect_policy None.

(** [reqwest::ClientBuilder::build]: the error, if any. *)
Class ClientBuild := { reqwest_build : ClientBuilder -> Result unit string }.

Definition build_client `{ClientBuild} (c : HttpClientConfig) : result ClientBuilder :=
  let? _ := map_err (fun e => ConfigError ("Failed to build HTTP client: " +:+ e))
              (reqwest_build (client_builder c)) in
  Ok (client_builder c).

(** A client that talks HTTPS only and follows no redirect, so that credentials
    reach no other host. *)
Definition locked_down (c : ClientBuilder) : Prop := cb_https_only c = true /\ cb_redirect c = no_redirect_policy.

Lemma client_builder_locked c : locked_down (client_builder c).
Proof. done. Qed.

Lemma build_client_locked `{ClientBuild} c : on_ok locked_down (build_client c).
Proof. unfold build_client. destruct (reqwest_build _); simpl; [done|exact I]. Qed.
#[export] Hint Resolve build_client_locked client_builder_locked : keychain.

(** ** Polling *)

Inductive PollOutcome (T : Type) := Done (value : T) | Pending.
Arguments Done {T} value.
Arguments Pending {T}.

(** The loop from iteration [i] with [n] iterations left. *)
Fixpoint poll_from {T} (i n : nat) (interval_ms : Z) (timeout_error : SignerError)
    (attempt : M (result (PollOutcome T))) : M (result T) :=
  match n with
  | 0 => ret (Err timeout_error)
  | S n =>
      let! _ := if 0 <? i then sleep_ms interval_ms else ret tt in
      try! outcome := attempt in
      match outcome with
      | Done value => ret (Ok value)
      | Pending => poll_from (S i) n interval_ms timeout_error attempt
      end
  end.

Definition poll_until {T} (max_attempts : nat) (interval_ms : Z) (timeout_error : SignerError)
    (attempt : M (result (PollOutcome T))) : M (result T) :=
  poll_from 0 max_attempts interval_ms timeout_error attempt.

(** ** Responses *)

Definition AVAILABILITY_TIMEOUT : Z := 5 * 1000.
Definition MAX_RESPONSE_BYTES : nat := 1024 * 1024.
#[global] Opaque MAX_RESPONSE_BYTES.

(** [response.status().is_success()]. *)
Definition is_success (status : Z) : bool := ((200 <=? status) && (status <? 300))%Z.

(** [while let Some(chunk) = response.chunk().await?]. *)
Fixpoint read_chunks (body : list byte) (chunks : list chunk) : M (result (list byte)) :=
  match chunks with
  | [] => ret (Ok body)
  | ChunkStop why :: _ => fun w => (Dropped why, w)
  | ChunkErr e :: _ => ret (Err (from_reqwest_error e))
  | Chunk c :: r =>
      if MAX_RESPONSE_BYTES <? length body + length c then
        ret (Err (SerializationError "response exceeded maximum size"))
      else read_chunks (body ++ c) r
  end.

Definition read_body_capped (response : HttpResponse) : M (result (list byte)) :=
  read_chunks [] (resp_chunks response).

(** The build without [unsafe-debug]: the body is dropped unread. *)
Definition extract_api_error (response : HttpResponse) (context : string) : SignerError :=
  remote_api (context +:+ " error " +:+ pretty (resp_status response)).

Definition transaction_id_in_body `{Json} (body : list byte) : option string :=
  match value_from_slice body with
  | Err _ => None
  | Ok v =>
      match value_get v "id" with
      | None => None
      | Some id =>
          match as_str id with
          | None => None
          | Some id => if str_is_empty (trim id) then None else Some id
          end
      end
  end.

Definition extract_api_error_with_body (response : HttpResponse) (context : string)
    : M (SignerError * list byte) :=
  let! body := read_body_capped response in
  ret (remote_api (context +:+ " error " +:+ pretty (resp_status response)),
       match body with Ok b => b | Err _ => [] end).

Definition extract_api_error_with_transaction_id `{Json} (response : HttpResponse)
    (context : string) : M (SignerError * option string) :=
  let! (error, body) := extract_api_error_with_body response context in
  ret (error, transaction_id_in_body body).

(** [from_slice] is [serde_json::from_slice::<T>]. *)
Definition parse_json_response {T} (from_slice : list byte -> Result T string)
    (response : HttpResponse) (context : string) : M (result T) :=
  if negb (is_success (resp_status response)) then
    ret (Err (extract_api_error response context))
  else
    try! body := read_body_capped response in
    ret (map_err (fun _ => SerializationError ("Failed to parse " +:+ context +:+ " response"))
           (from_slice body)).

(** ** Lemmas: the body reader *)

(** The data of the chunks up to and including the first bad one. *)
Fixpoint chunks_data (l : list chunk) : option (list byte) :=
  match l with
  | [] => Some []
  | Chunk c :: r => (c ++.) <$> chunks_data r
  | _ => None
  end.

Lemma read_chunks_spec body l w r w' :
  read_chunks body l w = (Returned r, w') -> w' = w /\
  match r with
  | Ok b => exists d, chunks_data l = Some d /\ b = body ++ d
  | Err _ => True
  end.
Proof.
  revert body. induction l as [|[c|e|why] l IH]; intros body; cbn [read_chunks chunks_data].
  - intros [= <- <-]. split; [done|]. exists []. by rewrite app_nil_r.
  - destruct (Nat.ltb_spec MAX_RESPONSE_BYTES (length body + length c)); [by intros [= <- <-]|]. intros [-> HR]%IH. split; [done|].
    destruct r as [b|]; [|done]. destruct HR as (d & -> & ->).
    exists (c ++ d). by rewrite (assoc_L (++)).
  - intros [= <- <-]; done.
  - done.
Qed.

Lemma read_chunks_capped body l w b w' :
  length body <= MAX_RESPONSE_BYTES ->
  read_chunks body l w = (Returned (Ok b), w') -> length b <= MAX_RESPONSE_BYTES.
Proof.
  revert body. induction l as [|[c|e|why] l IH]; intros body Hb; cbn [read_chunks chunks_data]; [by intros [= <- <-]| |done..].
  destruct (Nat.ltb_spec MAX_RESPONSE_BYTES (length body + length c)); [done|].
  apply IH. rewrite length_app. lia.
Qed.

Lemma read_chunks_complete body l d w :
  chunks_data l = Some d -> length body + length d <= MAX_RESPONSE_BYTES ->
  read_chunks body l w = (Returned (Ok (body ++ d)), w).
Proof.
  revert body d. induction l as [|[c|e|why] l IH]; intros body d; cbn [read_chunks chunks_data]; [| |done..].
  - intros [= <-] _. by rewrite app_nil_r.
  - intros (d' & Hd & ->)%fmap_Some Hl. rewrite length_app in Hl.
    destruct (Nat.ltb_spec MAX_RESPONSE_BYTES (length body + length c)); [lia|].
    rewrite (IH _ d') by (auto; rewrite length_app; lia). by rewrite <- (assoc_L (++)).
Qed.

Lemma read_chunks_over body l d w :
  chunks_data l = Some d -> MAX_RESPONSE_BYTES < length body + length d ->
  length body <= MAX_RESPONSE_BYTES ->
  read_chunks body l w = (Returned (Err (SerializationError "response exceeded maximum size")), w).
Proof.
  revert body d. induction l as [|[c|e|why] l IH]; intros body d; cbn [read_chunks chunks_data]; [| |done..].
  - intros [= <-]. simpl. lia.
  - intros (d' & Hd & ->)%fmap_Some Hl Hb. rewrite length_app in Hl.
    destruct (Nat.ltb_spec MAX_RESPONSE_BYTES (length body + length c)); [done|].
    apply (IH _ d'); [done|rewrite length_app; lia..].
Qed.

(** The body a response carries, if all of it arrives and it is not too long. *)
Definition carries (resp : HttpResponse) (b : list byte) : Prop :=
  chunks_data (resp_chunks resp) = Some b /\ length b <= MAX_RESPONSE_BYTES.

Lemma read_body_carries resp w b w' : read_body_capped resp w = (Returned (Ok b), w') -> w' = w /\ carries resp b.
Proof.
  intros Hr. pose proof (read_chunks_capped [] _ _ _ _ (Nat.le_0_l _) Hr) as Hl.
  apply read_chunks_spec in Hr as (-> & d & Hd & ->). by split.
Qed.

Lemma read_body_still resp w : (read_body_capped resp w).2 = w.
Proof.
  unfold read_body_capped. generalize (@nil byte). induction (resp_chunks resp) as [|[c|e|why] l IH]; intros body; cbn [read_chunks]; try done.
  case_match; [done|apply IH].
Qed.

Lemma carries_read_body resp b w : carries resp b -> read_body_capped resp w = (Returned (Ok b), w).
Proof. intros [Hd Hl]. by apply (read_chunks_complete []). Qed.

Lemma sent_Ok {E} (f : string -> E) req w resp w' :
  fmap_err f (http_send req) w = (Returned (Ok resp), w') -> w' = push_event (EvHttp req) w /\ w_http w (w_trace w) req = Reply resp.
Proof. unfold fmap_err, bind, http_send. destruct (w_http w (w_trace w) req); cbn; [|done..]. by intros [= <- <-]. Qed.

Lemma parsed_Ok {T} (from_slice : list byte -> Result T string) resp ctx w v w' :
  parse_json_response from_slice resp ctx w = (Returned (Ok v), w') ->
  w' = w /\ is_success (resp_status resp) = true /\ exists b, carries resp b /\ from_slice b = Ok v.
Proof.
  unfold parse_json_response. destruct (is_success _); [|done]. cbn [negb]. intros (b & w1 & [-> Hc]%read_body_carries & [= Hv <-])%bind_res_Ok.
  split_and!; [done..|]. exists b. split; [done|]. destruct (from_slice b); cbn in Hv; congruence.
Qed.

(** What the provider says to a request made after the events [tr]. *)
Definition replied {T} (w : World) (tr : list Event) (req : HttpRequest) (decode : list byte -> Result T string) (v : T) : Prop :=
  exists resp b, w_http w tr req = Reply resp /\ is_success (resp_status resp) = true /\ carries resp b /\ decode b = Ok v.

Lemma exchange_Ok {E T} (g : string -> E) (decode : list byte -> Result T string) req ctx w resp w1 v w2 :
  fmap_err g (http_send req) w = (Returned (Ok resp), w1) ->
  parse_json_response decode resp ctx w1 = (Returned (Ok v), w2) ->
  w2 = push_event (EvHttp req) w /\ replied w (w_trace w) req decode v.
Proof.
  intros [-> Hh]%sent_Ok (-> & Hs & b & Hc & Hv)%parsed_Ok. split; [done|]. by exists resp, b.
Qed.

(** C37: a body read returns the concatenation of the chunks when they
    total at most 1 MiB and an error as soon as they exceed it; no run, however
    the transport behaves, ever returns more than 1 MiB. *)
Theorem read_body_capped_spec (resp : HttpResponse) (w : World) :
  (forall d, chunks_data (resp_chunks resp) = Some d -> length d <= MAX_RESPONSE_BYTES ->
     read_body_capped resp w = (Returned (Ok d), w)) /\
  (forall d, chunks_data (resp_chunks resp) = Some d -> MAX_RESPONSE_BYTES < length d ->
     read_body_capped resp w =
       (Returned (Err (SerializationError "response exceeded maximum size")), w)) /\
  (forall b w', read_body_capped resp w = (Returned (Ok b), w') ->
     length b <= MAX_RESPONSE_BYTES).
Proof.
  unfold read_body_capped. split_and!.
  - intros d Hd Hl. by apply (read_chunks_complete []).
  - intros d Hd Hl. apply (read_chunks_over [] _ d); [done..|simpl; lia].
  - intros b w'. apply read_chunks_capped. simpl. lia.
Qed.

(** ** Lemmas: percent-encoding *)

Lemma encode_byte_safe b : Forall (fun c => is_unreserved c = true \/ c = x25) (encode_byte b).
Proof.
  assert (HB : forallb (fun c => is_unreserved c || bool_decide (c = x25)) (encode_byte b) = true)
    by (by destruct b).
  apply Forall_forall. intros c Hc. rewrite forallb_forall in HB.
  specialize (HB c (proj1 (list_elem_of_In _ _) Hc)).
  apply orb_true_iff in HB as [|HB%bool_decide_eq_true]; auto.
Qed.

Lemma encode_byte_inj a b r s :
  encode_byte a ++ r = encode_byte b ++ s -> a = b /\ r = s.
Proof.
  assert (Hp : forall c, is_unreserved c = true -> c ≠ x25) by (by intros [] ? ?).
  unfold encode_byte. destruct (is_unreserved a) eqn:Ea, (is_unreserved b) eqn:Eb; simpl.
  - by intros [= -> ->].
  - intros [= -> _]. by apply Hp in Ea.
  - intros [= <- _]. by apply Hp in Eb.
  - intros [= H1 H2 ->]. split; [|done]. apply (hex_pair_inj true). unfold hex_pair. congruence.
Qed.

Lemma encode_bytes_inj l k :
  concat (map encode_byte l) = concat (map encode_byte k) -> l = k.
Proof.
  revert k. induction l as [|a l IH]; intros [|b k]; cbn [map concat]; [done| | |].
  - unfold encode_byte. destruct (is_unreserved b); done.
  - unfold encode_byte. destruct (is_unreserved a); done.
  - intros [-> E]%encode_byte_inj. by rewrite (IH _ E).
Qed.

(** Percent-encoding is injective and its output consists of unreserved
    characters and [%]: in particular no [/], [?] or [#], so a configured
    identifier can neither retarget a request path nor collide with another
    identifier. *)
Theorem encode_uri_component_safe (s t : string) :
  (encode_uri_component s = encode_uri_component t -> s = t) /\
  Forall (fun c => is_unreserved c = true \/ c = x25) (as_bytes (encode_uri_component s)) /\
  x2f ∉ as_bytes (encode_uri_component s) /\ x3f ∉ as_bytes (encode_uri_component s) /\
  x23 ∉ as_bytes (encode_uri_component s).
Proof.
  unfold encode_uri_component. rewrite !as_bytes_of_bytes.
  assert (HF : Forall (fun c => is_unreserved c = true \/ c = x25)
                 (concat (map encode_byte (as_bytes s)))).
  { induction (as_bytes s) as [|b l IH]; cbn [map concat]; [constructor|].
    apply Forall_app. split; [apply encode_byte_safe|done]. }
  split_and!; [|done|..].
  - intros E%(f_equal as_bytes). rewrite !as_bytes_of_bytes in E.
    by apply as_bytes_inj, encode_bytes_inj.
  - intros Hin. rewrite Forall_forall in HF. by destruct (HF _ Hin).
  - intros Hin. rewrite Forall_forall in HF. by destruct (HF _ Hin).
  - intros Hin. rewrite Forall_forall in HF. by destruct (HF _ Hin).
Qed.

(** A dot is not escaped: a segment made of dots alone comes out of
    [encode_uri_component] as it went in, [..] included. *)
Theorem encode_uri_component_keeps_dots (n : nat) :
  encode_uri_component (of_bytes (replicate n x2e)) = of_bytes (replicate n x2e).
Proof.
  unfold encode_uri_component. rewrite as_bytes_of_bytes. f_equal.
  induction n as [|n IH]; [done|]. cbn [replicate map concat]. by rewrite IH.
Qed.

(** ** Lemmas: base URLs *)

Lemma trim_end_matches_last c s l : as_bytes (trim_end_matches c s) = l ++ [c] -> False.
Proof.
  unfold trim_end_matches. rewrite as_bytes_of_bytes.
  intros E%(f_equal reverse). rewrite reverse_involutive, reverse_app in E.
  apply drop_while_head in E. by apply bool_decide_eq_false in E.
Qed.

Lemma trim_end_matches_prefix c s :
  exists n, s = trim_end_matches c s +:+ of_bytes (replicate n c).
Proof.
  unfold trim_end_matches.
  destruct (drop_while_suffix (fun b => bool_decide (b = c)) (reverse (as_bytes s))) as (k & Hk & HF).
  exists (length k). apply as_bytes_inj. rewrite as_bytes_app, !as_bytes_of_bytes.
  apply (inj reverse). rewrite reverse_app, reverse_involutive, reverse_replicate.
  rewrite Hk at 1. f_equal. clear Hk.
  induction HF as [|x k Hx HF IH]; [done|]. apply bool_decide_eq_true in Hx as ->.
  simpl. by f_equal.
Qed.

(** A normalised base URL never ends in a slash, so that appending a
    path cannot produce a double slash; it is the trimmed URL up to its trailing
    slashes, nothing else is removed. *)
Theorem normalize_base_url_spec (url : string) :
  (forall l, as_bytes (normalize_base_url url) ≠ l ++ [x2f]) /\
  exists n, trim url = normalize_base_url url +:+ of_bytes (replicate n x2f).
Proof.
  split; [|apply trim_end_matches_prefix].
  intros l E. by eapply trim_end_matches_last.
Qed.

(** ** Lemmas: polling *)

(** [n] attempts in a row, iterations [i ..], that all answered [Pending]. *)
Inductive pending_runs {T} (interval_ms : Z) (attempt : M (result (PollOutcome T)))
    : nat -> nat -> World -> World -> Prop :=
  | pending_none i w : pending_runs interval_ms attempt i 0 w w
  | pending_more i n w w1 w2 w3 :
      (if 0 <? i then sleep_ms interval_ms else ret tt) w = (Returned tt, w1) ->
      attempt w1 = (Returned (Ok Pending), w2) ->
      pending_runs interval_ms attempt (S i) n w2 w3 ->
      pending_runs interval_ms attempt i (S n) w w3.

(** The last attempt, after [k] pending ones. *)
Definition last_attempt {T} interval_ms (attempt : M (result (PollOutcome T))) (k : nat)
    (w : World) (r : Result T SignerError) (w' : World) : Prop :=
  exists w1 w2, pending_runs interval_ms attempt 0 k w w1 /\
    (if 0 <? k then sleep_ms interval_ms else ret tt) w1 = (Returned tt, w2) /\
    attempt w2 = (Returned (match r with Ok v => Ok (Done v) | Err e => Err e end), w').

Lemma pending_runs_snoc {T} iv (attempt : M (result (PollOutcome T))) i n w w1 w2 w3 :
  pending_runs iv attempt i n w w1 ->
  (if 0 <? i + n then sleep_ms iv else ret tt) w1 = (Returned tt, w2) ->
  attempt w2 = (Returned (Ok Pending), w3) ->
  pending_runs iv attempt i (S n) w w3.
Proof.
  intros Hr. induction Hr as [i w|i n w a b c Hs Ha Hr IH]; intros H1 H2.
  - rewrite Nat.add_0_r in H1. econstructor; [done..|constructor].
  - econstructor; [done..|]. apply IH; [|done]. by replace (S i + n) with (i + S n) by lia.
Qed.

Lemma poll_from_spec {T} iv te (attempt : M (result (PollOutcome T))) w0 i n w r w' :
  pending_runs iv attempt 0 i w0 w ->
  poll_from i n iv te attempt w = (Returned r, w') ->
  (exists k, k < i + n /\ last_attempt iv attempt k w0 r w') \/
  (r = Err te /\ pending_runs iv attempt 0 (i + n) w0 w').
Proof.
  revert i w. induction n as [|n IH]; intros i w Hp; cbn [poll_from].
  { intros [= <- <-]. right. by rewrite Nat.add_0_r. }
  unfold bind at 1. destruct ((if 0 <? i then sleep_ms iv else ret tt) w) as [[[]| |] w1] eqn:Es; [|done..].
  unfold bind_res, bind. destruct (attempt w1) as [[[[v|]|e]| |] w2] eqn:Ea; [| | |done..].
  - intros [= <- <-]. left. exists i. split; [lia|]. by exists w, w1.
  - intros HR. assert (Hs : pending_runs iv attempt 0 (S i) w0 w2) by by eapply pending_runs_snoc.
    apply (IH _ _ Hs) in HR. by replace (i + S n) with (S i + n) by lia.
  - intros [= <- <-]. left. exists i. split; [lia|]. by exists w, w1.
Qed.

(** The polling loop makes at most [max_attempts] attempts, sleeping
    once between two attempts and never before the first or after the last; it
    returns the first attempt that is not pending, and the timeout error exactly
    when all of them were. *)
Theorem poll_until_spec {T} (max_attempts : nat) (interval_ms : Z) (timeout_error : SignerError)
    (attempt : M (result (PollOutcome T))) (w : World) (r : Result T SignerError) (w' : World) :
  poll_until max_attempts interval_ms timeout_error attempt w = (Returned r, w') ->
  (exists k, k < max_attempts /\ last_attempt interval_ms attempt k w r w') \/
  (r = Err timeout_error /\ pending_runs interval_ms attempt 0 max_attempts w w').
Proof. intros HP. eapply (poll_from_spec _ _ _ _ 0); [constructor|exact HP]. Qed.

(** How many events of a kind a run added to the trace. *)
Definition is_http (e : Event) : bool := match e with EvHttp _ => true | _ => false end.
Definition is_post (e : Event) : bool :=
  match e with EvHttp r => bool_decide (req_method r = "POST") | _ => false end.
Definition is_sleep (e : Event) : bool := match e with EvSleep _ => true | _ => false end.

(** The last thing awaited was a request, and the answer to it is as [P] says. *)
Definition last_answered (w : World) (P : HttpRequest -> HttpResponse -> Prop) : Prop :=
  exists tr req resp, w_trace w = tr ++ [EvHttp req] /\ w_http w tr req = Reply resp /\ P req resp.

(** [req] is the first request between [w] and [w'], made after the events [tr]. *)
Definition first_request (w w' : World) (tr : list Event) (req : HttpRequest) : Prop :=
  exists pre ext, tr = w_trace w ++ pre /\ w_trace w' = tr ++ EvHttp req :: ext /\ Forall (fun e => is_http e = false) pre.

Lemma last_answered_weaken w (P Q : HttpRequest -> HttpResponse -> Prop) :
  last_answered w P -> (forall req resp, P req resp -> Q req resp) -> last_answered w Q.
Proof. intros (tr & req & resp & Ht & Hh & HP) HPQ. exists tr, req, resp. auto. Qed.

Lemma last_answered_world w w' P :
  w_trace w' = w_trace w -> w_http w' = w_http w -> last_answered w P -> last_answered w' P.
Proof. intros Ht Hh (tr & req & resp & ? & ? & ?). exists tr, req, resp. by rewrite Ht, Hh. Qed.

Lemma push_answered w req resp (P : HttpRequest -> HttpResponse -> Prop) :
  w_http w (w_trace w) req = Reply resp -> P req resp -> last_answered (push_event (EvHttp req) w) P.
Proof. intros Hh HP. by exists (w_trace w), req, resp. Qed.

(** Where the first request is known, it is that one. *)
Lemma first_request_is w w' pre req ext tr req' :
  w_trace w' = w_trace w ++ pre ++ EvHttp req :: ext -> Forall (fun e => is_http e = false) pre ->
  first_request w w' tr req' -> tr = w_trace w ++ pre /\ req' = req.
Proof.
  intros He HF (pre' & ext' & -> & He' & HF'). rewrite He, <- (assoc_L (++)) in He'. apply (inj (w_trace w ++.)) in He'.
  clear He. revert pre' HF' He'. induction HF as [|e pre Hn HF IH]; intros [|e' pre'] HF' [=]; subst; try done.
  - by inversion_clear HF'.
  - inversion_clear HF'. destruct (IH pre') as [Hp ->]; [done..|]. by apply (inj (w_trace w ++.)) in Hp as ->.
Qed.

Lemma no_first_request w tr req : ~ first_request w w tr req.
Proof. intros (pre & ext & -> & He & _). apply (f_equal length) in He. rewrite !length_app in He. cbn in He. lia. Qed.
Definition count_events (p : Event -> bool) (w : World) : nat := length (filter p (w_trace w)).

(** [m] adds at most [n] events of the kind [p], however it ends. *)
Definition at_most {A} (p : Event -> bool) (n : nat) (m : M A) : Prop :=
  forall w, count_events p (m w).2 <= count_events p w + n.

Lemma count_events_push p e w :
  count_events p (push_event e w) = count_events p w + (if p e then 1 else 0).
Proof. unfold count_events; simpl. rewrite filter_app, length_app, filter_cons, filter_nil. case_decide as Hp; destruct (p e); simpl; (done || lia). Qed.

Lemma at_most_ret {A} p (a : A) : at_most p 0 (ret a).
Proof. intros w. simpl. lia. Qed.

Lemma at_most_bind {A B} p n k (m : M A) (f : A -> M B) :
  at_most p n m -> (forall a, at_most p k (f a)) -> at_most p (n + k) (bind m f).
Proof.
  intros Hm Hf w. specialize (Hm w). unfold bind. destruct (m w) as [[a| |] w1]; simpl in *; [|lia..].
  specialize (Hf a w1). lia.
Qed.

Lemma at_most_bind_res {A B E} p n k (m : M (Result A E)) (f : A -> M (Result B E)) :
  at_most p n m -> (forall a, at_most p k (f a)) -> at_most p (n + k) (bind_res m f).
Proof.
  intros Hm Hf. apply at_most_bind; [done|]. intros [a|e]; [done|]. intros w. simpl. lia.
Qed.

Lemma at_most_weaken {A} p n k (m : M A) : n <= k -> at_most p n m -> at_most p k m.
Proof. intros Hnk Hm w. specialize (Hm w). lia. Qed.

Lemma at_most_sleep ms p : at_most p (if p (EvSleep ms) then 1 else 0) (sleep_ms ms).
Proof. intros w. unfold sleep_ms. case_match; simpl; rewrite count_events_push; lia. Qed.

Lemma at_most_http_send r p : at_most p (if p (EvHttp r) then 1 else 0) (http_send r).
Proof. intros w. unfold http_send. case_match; simpl; rewrite count_events_push; lia. Qed.

Lemma at_most_try {A B} p n (r : result A) (k : A -> M (result B)) :
  (forall a, at_most p n (k a)) -> at_most p n (bind_res (ret r) k).
Proof. intros Hk. apply (at_most_bind_res p 0 n); [apply at_most_ret|done]. Qed.

Lemma at_most_send_json (p : Event -> bool) n b (f : list byte -> HttpRequest) :
  (forall x, (if p (EvHttp (f x)) then 1 else 0) <= n) -> at_most p n (http_send_json b f).
Proof.
  intros Hn. unfold http_send_json. case_match.
  - eapply at_most_weaken; [apply Hn|apply at_most_http_send].
  - eapply at_most_weaken; [|apply at_most_ret]. lia.
Qed.

Lemma http_get_requests (p : Event -> bool) u h n :
  (if p (EvHttp (mkRequest "GET" u h [])) then 1 else 0) <= n -> at_most p n (http_get u h).
Proof. intros Hn. eapply at_most_weaken; [exact Hn|apply at_most_http_send]. Qed.

Lemma at_most_slot_op p c (f : Slot -> Slot) :
  at_most p 0 (bind (get_slot c) (fun s => put_slot c (f s))).
Proof. intros w. unfold count_events. cbn. lia. Qed.

Lemma at_most_poll_from {T} p c i n iv te (attempt : M (result (PollOutcome T))) :
  p (EvSleep iv) = false -> at_most p c attempt ->
  at_most p (n * c) (poll_from i n iv te attempt).
Proof.
  intros Hsl Ha. revert i. induction n as [|n IH]; intros i; cbn [poll_from]; [apply at_most_ret|].
  apply (at_most_bind p 0).
  { destruct (0 <? i); [|apply at_most_ret]. pose proof (at_most_sleep iv p) as Hs. by rewrite Hsl in Hs. }
  intros _. apply at_most_bind_res; [done|]. intros [v|]; [|apply IH].
  eapply at_most_weaken; [|apply at_most_ret]. lia.
Qed.

Lemma at_most_read_body p r : at_most p 0 (read_body_capped r).
Proof.
  intros w. unfold read_body_capped. generalize (@nil byte).
  induction (resp_chunks r) as [|[c|e|why] l IH]; intros b; cbn [read_chunks]; try (simpl; lia).
  case_match; [simpl; lia|apply IH].
Qed.

Lemma at_most_parse_json {T} p (f : list byte -> Result T string) r c :
  at_most p 0 (parse_json_response f r c).
Proof.
  unfold parse_json_response. case_match; [apply at_most_ret|].
  apply (at_most_bind_res p 0 0); [apply at_most_read_body|]. intros b. apply at_most_ret.
Qed.

Lemma at_most_fmap_err {A E F} p n (f : E -> F) (m : M (Result A E)) :
  at_most p n m -> at_most p n (fmap_err f m).
Proof. intros Hm. rewrite <- (Nat.add_0_r n). apply at_most_bind; [done|]. intros a. apply at_most_ret. Qed.

Lemma calm_read_body r : calm (read_body_capped r).
Proof.
  unfold read_body_capped. generalize (@nil byte).
  induction (resp_chunks r) as [|[c|e|why] l IH]; intros b; cbn [read_chunks]; eauto with keychain.
  case_match; eauto with keychain.
Qed.

Lemma calm_parse_json {T} (f : list byte -> Result T string) r c : calm (parse_json_response f r c).
Proof. unfold parse_json_response. case_match; auto using calm_read_body with keychain. Qed.

#[export] Hint Resolve calm_read_body calm_parse_json : keychain.

Lemma calm_poll_from {T} i n iv te (attempt : M (result (PollOutcome T))) :
  calm attempt -> calm (poll_from i n iv te attempt).
Proof.
  intros Ha. revert i. induction n as [|n IH]; intros i; cbn [poll_from]; [auto with keychain|].
  apply calm_bind; [case_match; auto with keychain|]. intros _.
  apply calm_bind_res; [done|]. intros [v|]; auto with keychain.
Qed.

(** A body read leaves the world as it is. *)
Lemma read_body_world resp w r w' : read_body_capped resp w = (Returned r, w') -> w' = w.
Proof. intros E. by apply read_chunks_spec in E as [-> _]. Qed.

(** However a body read ends, it leaves the world as it is. *)
Lemma read_body_keeps resp w : (read_body_capped resp w).2 = w.
Proof.
  unfold read_body_capped. generalize (@nil byte).
  induction (resp_chunks resp) as [|[c|e|why] l IH]; intros b; cbn [read_chunks]; try done.
  case_match; [done|apply IH].
Qed.

(** Nothing goes out while a body is read, and polling sends what its attempts send. *)
Lemma sends_read_body resp Q : sends (read_body_capped resp) Q.
Proof. intros w. exists []. by rewrite read_body_keeps, app_nil_r. Qed.

Lemma sends_parse_json {T} (f : list byte -> Result T string) r c Q : sends (parse_json_response f r c) Q.
Proof.
  unfold parse_json_response. case_match; [apply sends_ret|].
  apply sends_bind_res_any; [apply sends_read_body|]. intros b. apply sends_ret.
Qed.

Lemma sends_poll_from {T} i n iv te (attempt : M (result (PollOutcome T))) Q :
  sends attempt Q -> sends (poll_from i n iv te attempt) Q.
Proof.
  intros Ha. revert i. induction n as [|n IH]; intros i; cbn [poll_from]; [apply sends_ret|].
  apply sends_bind_any; [case_match; [apply sends_sleep|apply sends_ret]|]. intros _.
  apply sends_bind_res_any; [done|]. intros [v|]; [apply sends_ret|apply IH].
Qed.

#[export] Hint Resolve sends_read_body sends_parse_json sends_poll_from : keychain.

(** A successful exchange: the request that went out, and its parsed answer. *)
Lemma send_json_Ok body mk w resp w' :
  fmap_err from_reqwest_error (http_send_json body mk) w = (Returned (Ok resp), w') ->
  exists b, body = Ok b /\ w' = push_event (EvHttp (mk b)) w.
Proof.
  unfold fmap_err, bind, http_send_json. destruct body as [b|e]; [|by intros [= ]].
  unfold http_send. destruct (w_http _ _ _); cbn; intros [= _ <-]. by exists b.
Qed.

Lemma send_Ok r w resp w' :
  fmap_err from_reqwest_error (http_send r) w = (Returned (Ok resp), w') -> w' = push_event (EvHttp r) w.
Proof.
  intros (b & [= <-] & ->)%(send_json_Ok (Ok []) (fun _ => r)). done.
Qed.

Lemma parse_json_Ok {T} (f : list byte -> Result T string) resp c w v w' :
  parse_json_response f resp c w = (Returned (Ok v), w') -> w' = w.
Proof.
  unfold parse_json_response. case_match; [done|]. intros (b & w1 & Hb & Hv)%bind_res_Ok.
  apply read_body_world in Hb as ->. unfold ret in Hv. congruence.
Qed.

(** A request to a path under a base URL: a slash comes first, so the path cannot
    change the host. *)
Definition slash (path : string) : string := "/" +:+ path.
Definition under (base_url : string) (r : HttpRequest) : Prop := exists path, req_url r = base_url +:+ slash path.

(** Find the slash at the head of the path. *)
Ltac head_slash := eexists; cbn [req_url]; f_equal; unfold slash; cbn; reflexivity.
#[export] Hint Extern 2 (under _ (mkRequest _ _ _ _)) => head_slash : keychain.

(** Results whose error, if any, satisfies [P]. *)
Definition errors_are (P : SignerError -> Prop) {A} (r : result A) : Prop :=
  match r with Err e => P e | Ok _ => True end.

Lemma errors_bind_res P {A B} (m : M (result A)) (k : A -> M (result B)) :
  returns m (errors_are P) -> (forall a, returns (k a) (errors_are P)) ->
  returns (bind_res m k) (errors_are P).
Proof.
  intros Hm Hk. eapply returns_bind; [exact Hm|]. intros [a|e] Ha; [apply Hk|by apply returns_ret].
Qed.

Lemma errors_send P (m : M (Result HttpResponse string)) :
  (forall d, P (from_reqwest_error d)) -> returns (fmap_err from_reqwest_error m) (errors_are P).
Proof. intros HP. apply returns_bind_any. intros a. apply returns_ret. destruct a; simpl; auto. Qed.

Section ResponseErrors.
Context (P : SignerError -> Prop).
Hypothesis P_http : forall d, P (HttpError d).
Hypothesis P_serial : forall d, P (SerializationError d).
Hypothesis P_remote : forall d, P (remote_api d).

Lemma read_body_errors resp : returns (read_body_capped resp) (errors_are P).
Proof.
  unfold read_body_capped. generalize (@nil byte).
  induction (resp_chunks resp) as [|[c|e|why] l IH]; intros b; cbn [read_chunks];
    [by apply returns_ret| |apply returns_ret; simpl; auto|by intros w r w'].
  case_match; [apply returns_ret; simpl; auto|apply IH].
Qed.

Lemma parse_json_errors {T} (f : list byte -> Result T string) resp c :
  returns (parse_json_response f resp c) (errors_are P).
Proof.
  unfold parse_json_response. case_match; [apply returns_ret; simpl; apply P_remote|].
  apply errors_bind_res; [apply read_body_errors|]. intros b. apply returns_ret. destruct (f b); simpl; auto.
Qed.

End ResponseErrors.

(** Results whose error, if any, is not [BroadcastUnconfirmed]. *)
Definition plain_errors {A} (r : result A) : Prop := errors_are (fun e => is_unconfirmed e = false) r.

Lemma plain_bind_res {A B} (m : M (result A)) (k : A -> M (result B)) :
  returns m plain_errors -> (forall a, returns (k a) plain_errors) ->
  returns (bind_res m k) plain_errors.
Proof. apply errors_bind_res. Qed.

Lemma read_body_plain resp : returns (read_body_capped resp) plain_errors.
Proof. by apply read_body_errors. Qed.

Lemma parse_json_plain {T} (f : list byte -> Result T string) resp c :
  returns (parse_json_response f resp c) plain_errors.
Proof. by apply parse_json_errors. Qed.

(** A poll that never answers anything but [Pending], with timers that fire. *)
Definition idle_world : World :=
  mkWorld [] ∅ (fun _ _ => Refused "down") (fun _ _ => None) (fun _ => 0%Z) (fun _ => EmptyString).

(** A provider that answers every request with the same body. *)
Definition answering_world (status : Z) (body : list byte) : World :=
  mkWorld [] ∅ (fun _ _ => Reply (mkResponse status [Chunk body])) (fun _ _ => None)
    (fun _ => 0%Z) (fun _ => "uuid").

Lemma poll_until_spec_witness :
  let attempt : M (result (PollOutcome unit)) := ret (Ok Pending) in
  let r : result unit := Err (remote_api "timeout") in
  exists w', poll_until 3 100 (remote_api "timeout") attempt idle_world = (Returned r, w') /\
    count_events is_sleep w' = 2 /\
    ((exists k, k < 3 /\ last_attempt 100 attempt k idle_world r w') \/
     (r = Err (remote_api "timeout") /\ pending_runs 100 attempt 0 3 idle_world w')).
Proof.
  intros attempt r. eexists. split; [reflexivity|]. split; [reflexivity|].
  by apply (poll_until_spec 3 100 (remote_api "timeout") attempt idle_world r).
Defined.

Lemma read_body_capped_spec_witness :
  let resp := mkResponse 200 [Chunk (as_bytes "ab"); Chunk (as_bytes "c")] in
  chunks_data (resp_chunks resp) = Some (as_bytes "abc") /\
  read_body_capped resp idle_world = (Returned (Ok (as_bytes "abc")), idle_world).
Proof.
  intros resp. split; [reflexivity|].
  apply (proj1 (read_body_capped_spec resp idle_world)); [reflexivity|].
  apply Nat.leb_le. vm_compute. reflexivity.
Defined.

Lemma encode_uri_component_safe_witness :
  encode_uri_component "a/b" = "a%2Fb" /\ x2f ∉ as_bytes (encode_uri_component "a/b").
Proof. split; [reflexivity|]. apply (encode_uri_component_safe "a/b" "a/b"). Defined.
