(* ===== verification/Traits.v ===== *)
(** * Signer interfaces and broadcasting (src/rust/src/traits.rs, send.rs)

    The capability traits as classes, each with a class of laws that says what
    an implementation promises its callers; and [send.rs], whose theorems are
    proved against the laws.  The backend files discharge them. *)

From S2P Require Import Prelude Errors World Externals TransactionUtil SignatureUtil RemoteUtil.

#[local] Open Scope keychain_scope.

(** Code that takes [&mut VersionedTransaction] hands the transaction back
    beside its result; [?] leaves with the transaction as it is at that point. *)
Definition keep_bind `{SolanaSdk} {A B} (tx : VersionedTransaction) (m : M (result A))
    (k : A -> M (VersionedTransaction * result B)) : M (VersionedTransaction * result B) :=
  bind m (fun r => match r with Ok a => k a | Err e => ret (tx, Err e) end).

Notation "'try!' x := m 'keeping' tx 'in' k" := (keep_bind tx m (fun x => k))
  (at level 10, x pattern, m at level 200, tx at level 9, k at level 200) : keychain_scope.

(** [let x = f(tx)?;] for an [f] that takes the transaction. *)
Definition mut_bind `{SolanaSdk} {A B} (m : M (VersionedTransaction * result A))
    (k : VersionedTransaction -> A -> M (VersionedTransaction * result B))
    : M (VersionedTransaction * result B) :=
  bind m (fun p => match p.2 with Ok a => k p.1 a | Err e => ret (p.1, Err e) end).

Notation "'mut!' ( tx , x ) := m 'in' k" := (mut_bind m (fun tx x => k))
  (at level 10, tx name, x pattern, m at level 200, k at level 200) : keychain_scope.

(** ** Traits *)

(** [pubkey] is a [run]: some backends panic when they are not initialised. *)
Class SolanaSigner (S : Type) := {
  pubkey : S -> run Pubkey;
  sign_message : S -> list byte -> M (result Signature);
  is_available : S -> M bool
}.

Class TransactionSigner (S : Type) `{SolanaSdk} := {
  transaction_signer_base :: SolanaSigner S;
  sign_transaction : S -> VersionedTransaction -> M (VersionedTransaction * result SignTransactionResult)
}.

Class ModifyingSigner (S : Type) `{SolanaSdk} := {
  modifying_signer_base :: SolanaSigner S;
  modify_and_sign_transaction :
    S -> VersionedTransaction -> M (VersionedTransaction * result SignTransactionResult)
}.

Class SendingSigner (S : Type) `{SolanaSdk} := {
  sending_signer_base :: SolanaSigner S;
  sign_and_send_transaction : S -> VersionedTransaction -> M (result Signature)
}.

(** ** send.rs *)

Section Send.
Context `{Codecs} `{SolanaSdk}.

Definition broadcast_complete (res : SignTransactionResult)
    (transaction_signature : option Signature) (send : string -> M (result Signature))
    : M (result Signature) :=
  let is_complete := match res with Complete _ => true | Partial _ => false end in
  let encoded_transaction := (into_signed_transaction res).1 in
  if negb is_complete then
    ret (Err (SigningFailed
      "Transaction is still missing signatures after signing and cannot be broadcast"))
  else
    try transaction_signature :=
      ok_or (SigningFailed "Broadcast transaction has no fee payer signature to identify it by")
        (match transaction_signature with
         | Some signature => if bool_decide (signature ≠ Signature_default) then Some signature else None
         | None => None
         end) in
    fmap_err (fun error => BroadcastUnconfirmed None None None (Some transaction_signature)
                             (detail_string error))
      (send encoded_transaction).

Definition sign_and_send {S : Type} `{!TransactionSigner S} (signer : S) (tx : VersionedTransaction)
    (send : string -> M (result Signature)) : M (VersionedTransaction * result Signature) :=
  mut! (tx, res) := sign_transaction signer tx in
  let! r := broadcast_complete res (head (signatures tx)) send in
  ret (tx, r).

Definition modify_and_send {S : Type} `{!ModifyingSigner S} (signer : S) (tx : VersionedTransaction)
    (send : string -> M (result Signature)) : M (VersionedTransaction * result Signature) :=
  mut! (tx, res) := modify_and_sign_transaction signer tx in
  let! r := broadcast_complete res (head (signatures tx)) send in
  ret (tx, r).

Definition require_broadcast_signature (signature : Signature) : result Signature :=
  if bool_decide (signature = Signature_default) then
    Err (SigningFailed "Signer returned no signature for the transaction it broadcast")
  else Ok signature.

End Send.

(** ** What the traits promise *)

Section Laws.
Context `{Codecs} `{SolanaSdk}.

(** A transaction signed as given: the signature sits in the signer's slot of
    the caller's message, covers that message, the encoding is the wire format
    of the transaction handed back, and [Complete] means no slot is missing. *)
Record signed_as_given (pk : Pubkey) (tx tx' : VersionedTransaction)
    (res : SignTransactionResult) : Prop := {
  sag_attached : attached tx pk (into_signed_transaction res).2 tx';
  sag_verifies : verifies (into_signed_transaction res).2 pk
                   (message_serialize (message tx)) = true;
  sag_encoded : serialize_transaction tx' = Ok (into_signed_transaction res).1;
  sag_class : res = classify_signed_transaction tx' (into_signed_transaction res)
}.

Class TransactionSignerLaws (S : Type) `{!TransactionSigner S} : Prop := {
  sign_transaction_sound : forall s tx,
    returns (sign_transaction s tx) (fun p =>
      match p.2 with
      | Ok res => exists pk, pubkey s = Returned pk /\ signed_as_given pk tx p.1 res
      | Err _ => message p.1 = message tx
      end)
}.

(** A message signature covers the message, for the key the signer reports. *)
Class MessageSignerLaws (S : Type) `{!SolanaSigner S} : Prop := {
  sign_message_sound : forall s m,
    returns (sign_message s m) (on_ok (fun sg =>
      exists pk, pubkey s = Returned pk /\ verifies sg pk m = true))
}.

(** A rewritten transaction: the signature covers the message handed back. *)
Record signed_rewritten (pk : Pubkey) (tx' : VersionedTransaction)
    (res : SignTransactionResult) : Prop := {
  srw_slot : exists i, signs_at tx' pk i /\
               signatures tx' !! i = Some (into_signed_transaction res).2 /\
               (into_signed_transaction res).2 ≠ Signature_default;
  srw_verifies : verifies (into_signed_transaction res).2 pk
                   (message_serialize (message tx')) = true;
  srw_encoded : serialize_transaction tx' = Ok (into_signed_transaction res).1;
  srw_class : res = classify_signed_transaction tx' (into_signed_transaction res)
}.

Class ModifyingSignerLaws (S : Type) `{!ModifyingSigner S} : Prop := {
  modify_and_sign_sound : forall s tx,
    returns (modify_and_sign_transaction s tx) (fun p =>
      match p.2 with
      | Ok res => exists pk, pubkey s = Returned pk /\ signed_rewritten pk p.1 res
      | Err _ => p.1 = tx
      end)
}.

(** ** Lemmas *)

Lemma keep_bind_returns {A B} tx (m : M (result A)) (k : A -> M (VersionedTransaction * result B))
    (R : A -> Prop) (Q : VersionedTransaction * result B -> Prop) :
  returns m (on_ok R) -> (forall e, Q (tx, Err e)) -> (forall a, R a -> returns (k a) Q) ->
  returns (keep_bind tx m k) Q.
Proof.
  intros Hm He Hk. eapply returns_bind; [exact Hm|].
  intros [a|e] Ha; [by apply Hk|by apply returns_ret].
Qed.

Lemma keep_bind_returns_any {A B} tx (m : M (result A)) (k : A -> M (VersionedTransaction * result B))
    (Q : VersionedTransaction * result B -> Prop) :
  (forall e, Q (tx, Err e)) -> (forall a, returns (k a) Q) -> returns (keep_bind tx m k) Q.
Proof.
  intros He Hk. apply (keep_bind_returns _ _ _ (fun _ => True)); [|done|auto]. by intros w [] w' _.
Qed.

Lemma mut_bind_returns {A B} (m : M (VersionedTransaction * result A))
    (k : VersionedTransaction -> A -> M (VersionedTransaction * result B))
    (R : VersionedTransaction * result A -> Prop) (Q : VersionedTransaction * result B -> Prop) :
  returns m R -> (forall tx e, R (tx, Err e) -> Q (tx, Err e)) ->
  (forall tx a, R (tx, Ok a) -> returns (k tx a) Q) -> returns (mut_bind m k) Q.
Proof.
  intros Hm He Hk. eapply returns_bind; [exact Hm|].
  intros [tx [a|e]] Ha; simpl; [by apply Hk|apply returns_ret; auto].
Qed.

(** The tail shared by the backends: attach a verified signature, encode and
    classify. *)
Lemma attach_sound pk tx sg tx' st :
  verifies sg pk (message_serialize (message tx)) = true ->
  attach_and_serialize tx pk sg = Returned (tx', Ok st) ->
  signed_as_given pk tx tx' (classify_signed_transaction tx' st).
Proof.
  intros Hv (Hatt & <- & Henc)%attach_and_serialize_Ok.
  assert (Hin : into_signed_transaction (classify_signed_transaction tx' st) = st)
    by (unfold classify_signed_transaction; by case_match).
  split; rewrite Hin; done.
Qed.

(** What [sign_transaction] promises, as a postcondition. *)
Definition signs_as (rpk : run Pubkey) (tx : VersionedTransaction)
    (p : VersionedTransaction * result SignTransactionResult) : Prop :=
  match p.2 with
  | Ok res => exists pk, rpk = Returned pk /\ signed_as_given pk tx p.1 res
  | Err _ => message p.1 = message tx
  end.

(** The same before the result is classified. *)
Definition attaches_as (rpk : run Pubkey) (tx : VersionedTransaction)
    (p : VersionedTransaction * result SignedTransaction) : Prop :=
  match p.2 with
  | Ok st => exists pk, rpk = Returned pk /\ signed_as_given pk tx p.1 (classify_signed_transaction p.1 st)
  | Err _ => message p.1 = message tx
  end.

Lemma attach_returns pk tx sg :
  verifies sg pk (message_serialize (message tx)) = true ->
  returns (of_run (attach_and_serialize tx pk sg)) (attaches_as (Returned pk) tx).
Proof.
  intros Hsg w [tx1 [st|e]] w' [= E ->]; simpl.
  - exists pk. split; [done|]. eapply attach_sound; [exact Hsg|exact E].
  - destruct (attach_and_serialize_total tx pk sg) as (tx2 & r & E2 & Hmsg). unfold attaches_as. cbn. congruence.
Qed.

Lemma classify_returns rpk tx (m : M (VersionedTransaction * result SignedTransaction)) :
  returns m (attaches_as rpk tx) ->
  returns (mut_bind m (fun tx st => ret (tx, Ok (classify_signed_transaction tx st)))) (signs_as rpk tx).
Proof.
  intros Hm. eapply mut_bind_returns; [exact Hm|done|].
  intros tx1 st Hs. by apply returns_ret.
Qed.

(** A backend that obtains a signature which covers the message and attaches it
    keeps the promise. *)
Lemma sign_attach_classify pk tx (m : M (result Signature)) :
  returns m (on_ok (fun sg => verifies sg pk (message_serialize (message tx)) = true)) ->
  returns (mut_bind (keep_bind tx m (fun sg => of_run (attach_and_serialize tx pk sg)))
             (fun tx st => ret (tx, Ok (classify_signed_transaction tx st))))
    (signs_as (Returned pk) tx).
Proof.
  intros Hm. apply classify_returns. eapply keep_bind_returns; [exact Hm|done|]. intros sg. apply attach_returns.
Qed.

(** The [pubkey] of a backend whose key is known only after [init]. *)
Definition expect_pubkey (public_key : option Pubkey) : run Pubkey :=
  match public_key with Some pk => Returned pk | None => Panicked end.

Lemma expect_pubkey_ok {E} (e : E) opk pk : ok_or e opk = Ok pk -> expect_pubkey opk = Returned pk.
Proof. destruct opk; simpl; congruence. Qed.

(** Such a backend may look its key up first, ... *)
Lemma init_attach_classify (opk : option Pubkey) e tx (m : Pubkey -> M (result Signature)) :
  (forall pk, opk = Some pk ->
     returns (m pk) (on_ok (fun sg => verifies sg pk (message_serialize (message tx)) = true))) ->
  returns (mut_bind (keep_bind tx (ret (ok_or e opk)) (fun pk =>
               keep_bind tx (m pk) (fun sg => of_run (attach_and_serialize tx pk sg))))
             (fun tx st => ret (tx, Ok (classify_signed_transaction tx st))))
    (signs_as (expect_pubkey opk) tx).
Proof.
  intros Hm. destruct opk as [pk|]; [by apply (sign_attach_classify pk), Hm|].
  by apply returns_ret.
Qed.

(** ... or only once it has a signature, with an error or a panic if it is missing. *)
Lemma late_attach_classify (opk : option Pubkey) tx (m : M (result Signature))
    (k : Signature -> M (VersionedTransaction * result SignedTransaction)) :
  returns m (on_ok (fun sg => exists pk, opk = Some pk /\ verifies sg pk (message_serialize (message tx)) = true)) ->
  (forall sg pk, opk = Some pk -> k sg = of_run (attach_and_serialize tx pk sg)) ->
  returns (mut_bind (keep_bind tx m k) (fun tx st => ret (tx, Ok (classify_signed_transaction tx st))))
    (signs_as (expect_pubkey opk) tx).
Proof.
  intros Hm Hk. apply classify_returns. eapply keep_bind_returns; [exact Hm|done|].
  intros sg (pk & Hpk & Hv). rewrite (Hk _ _ Hpk), Hpk. by apply attach_returns.
Qed.

(** ** Where requests go *)

Lemma sends_keep_bind {A B} tx (m : M (result A)) (k : A -> M (VersionedTransaction * result B)) Q :
  sends m Q -> (forall a, sends (k a) Q) -> sends (keep_bind tx m k) Q.
Proof. intros Hm Hk. apply sends_bind_any; [done|]. intros [a|e]; [apply Hk|apply sends_ret]. Qed.

Lemma sends_mut_bind {A B} (m : M (VersionedTransaction * result A))
    (k : VersionedTransaction -> A -> M (VersionedTransaction * result B)) Q :
  sends m Q -> (forall tx a, sends (k tx a) Q) -> sends (mut_bind m k) Q.
Proof. intros Hm Hk. apply sends_bind_any; [done|]. intros [tx [a|e]]; [apply Hk|apply sends_ret]. Qed.

(** Signing a message, signing a transaction with [act] and checking availability
    send requests to paths under one base URL only. *)
Record confined {S T : Type} `{!SolanaSigner S} (s : S) (act : VersionedTransaction -> M T)
    (base_url : string) : Prop := {
  confined_message : forall m, sends (sign_message s m) (under base_url);
  confined_transaction : forall tx, sends (act tx) (under base_url);
  confined_availability : sends (is_available s) (under base_url)
}.

(** Sending adds the caller's own requests. *)
Lemma sends_broadcast res fp send (P Q : HttpRequest -> Prop) :
  (forall e, sends (send e) P) -> sends (broadcast_complete res fp send) (fun r => Q r \/ P r).
Proof.
  intros Hs. unfold broadcast_complete. walk_sends. eapply sends_weaken; [apply Hs|auto].
Qed.

Lemma sends_sign_and_send {S : Type} `{!TransactionSigner S} (s : S) tx send (P Q : HttpRequest -> Prop) :
  sends (sign_transaction s tx) Q -> (forall e, sends (send e) P) ->
  sends (sign_and_send s tx send) (fun r => Q r \/ P r).
Proof.
  intros Hq Hs. apply sends_mut_bind; [eapply sends_weaken; [exact Hq|auto]|].
  intros tx' res. walk_sends. by apply sends_broadcast.
Qed.

Lemma sends_modify_and_send {S : Type} `{!ModifyingSigner S} (s : S) tx send (P Q : HttpRequest -> Prop) :
  sends (modify_and_sign_transaction s tx) Q -> (forall e, sends (send e) P) ->
  sends (modify_and_send s tx send) (fun r => Q r \/ P r).
Proof.
  intros Hq Hs. apply sends_mut_bind; [eapply sends_weaken; [exact Hq|auto]|].
  intros tx' res. walk_sends. by apply sends_broadcast.
Qed.

(** A complete transaction with at least one signer carries its identifying
    (fee payer's) signature in the first slot. *)
Lemma complete_fee_payer tx :
  has_all_required_signatures tx = true -> 0 < required_signatures tx ->
  exists fp, head (signatures tx) = Some fp /\ fp ≠ Signature_default.
Proof.
  intros [Hl Hall]%has_all_required_spec Hpos.
  destruct (signatures tx) as [|fp r]; simpl in *; [lia|].
  exists fp. split; [done|]. intros ->. by apply (Hall 0).
Qed.

Lemma classify_complete tx st :
  (exists st', classify_signed_transaction tx st = Complete st') <->
  has_all_required_signatures tx = true.
Proof. unfold classify_signed_transaction. case_match; naive_solver. Qed.

(** The outcome of the broadcast half of [sign_and_send], once the transaction
    is signed. *)
Definition broadcast_outcome (tx' : VersionedTransaction) (enc : string)
    (send : string -> M (result Signature)) (w1 : World) (r : result Signature) (w' : World) : Prop :=
  if has_all_required_signatures tx' then
    exists fp out, head (signatures tx') = Some fp /\ fp ≠ Signature_default /\
      serialize_transaction tx' = Ok enc /\ send enc w1 = (Returned out, w') /\
      r = map_err (fun e => BroadcastUnconfirmed None None None (Some fp) (detail_string e)) out
  else w' = w1 /\ r = Err (SigningFailed
         "Transaction is still missing signatures after signing and cannot be broadcast").

Lemma broadcast_complete_outcome tx' res send w1 r w' :
  res = classify_signed_transaction tx' (into_signed_transaction res) ->
  serialize_transaction tx' = Ok (into_signed_transaction res).1 ->
  0 < required_signatures tx' ->
  broadcast_complete res (head (signatures tx')) send w1 = (Returned r, w') ->
  broadcast_outcome tx' (into_signed_transaction res).1 send w1 r w'.
Proof.
  intros Hres Henc Hpos. unfold broadcast_outcome, broadcast_complete.
  destruct (has_all_required_signatures tx') eqn:Hc;
    unfold classify_signed_transaction in Hres; rewrite Hc in Hres; rewrite Hres; cbn.
  - destruct (complete_fee_payer tx' Hc Hpos) as (fp & Hfp & Hne). rewrite Hfp.
    rewrite bool_decide_eq_true_2 by done. cbn.
    unfold fmap_err, bind. destruct (send _ w1) as [[out| |] w2] eqn:Es; cbn; [|done..].
    intros [= <- <-]. eauto 10.
  - by intros [= <- <-].
Qed.

Lemma attached_required_pos tx pk sg tx' : attached tx pk sg tx' -> 0 < required_signatures tx'.
Proof.
  intros [Hm (i & (Hi & _) & _) _ _ _]. unfold required_signatures in *. rewrite Hm. lia.
Qed.

(** ** Theorems *)

(** C1: with any lawful signer, [sign_and_send] hands a transaction to the
    network only when every required signature is present, hands over the wire
    encoding of exactly the transaction it returns, and does so once; a failure
    of the send is reported as unconfirmed, carrying the fee payer's signature.
    A signer's error and a partially signed transaction never reach [send]. *)
Theorem sign_and_send_spec {S : Type} `{!TransactionSigner S} `{!TransactionSignerLaws S}
    (s : S) (tx : VersionedTransaction) (send : string -> M (result Signature))
    (w : World) (tx' : VersionedTransaction) (r : result Signature) (w' : World) :
  sign_and_send s tx send w = (Returned (tx', r), w') ->
  exists res w1, sign_transaction s tx w = (Returned (tx', res), w1) /\
    match res with
    | Err e => r = Err e /\ w' = w1
    | Ok res => exists pk, pubkey s = Returned pk /\ signed_as_given pk tx tx' res /\
                  broadcast_outcome tx' (into_signed_transaction res).1 send w1 r w'
    end.
Proof.
  unfold sign_and_send, mut_bind, bind at 1.
  destruct (sign_transaction s tx w) as [[[tx1 [res|e]]| |] w1] eqn:Es; [| |done..]; cbn [fst snd].
  - pose proof (sign_transaction_sound s tx _ _ _ Es) as (pk & Hpk & Hs). cbn [fst] in Hs.
    unfold bind. destruct (broadcast_complete _ _ _ w1) as [[r1| |] w2] eqn:Eb; [|done..].
    intros [= <- <- <-]. exists (Ok res), w1. split; [done|]. exists pk. split_and!; [done..|].
    destruct Hs. eapply broadcast_complete_outcome; eauto using attached_required_pos.
  - intros [= <- <- <-]. by exists (Err e), w1.
Qed.

(** C23: the same for a signer that rewrites the transaction: what is
    broadcast is the rewritten transaction, which the caller gets back and which
    the signer's verified signature covers. *)
Theorem modify_and_send_spec {S : Type} `{!ModifyingSigner S} `{!ModifyingSignerLaws S}
    (s : S) (tx : VersionedTransaction) (send : string -> M (result Signature))
    (w : World) (tx' : VersionedTransaction) (r : result Signature) (w' : World) :
  modify_and_send s tx send w = (Returned (tx', r), w') ->
  exists res w1, modify_and_sign_transaction s tx w = (Returned (tx', res), w1) /\
    match res with
    | Err e => r = Err e /\ w' = w1 /\ tx' = tx
    | Ok res => exists pk, pubkey s = Returned pk /\ signed_rewritten pk tx' res /\
                  broadcast_outcome tx' (into_signed_transaction res).1 send w1 r w'
    end.
Proof.
  unfold modify_and_send, mut_bind, bind at 1.
  destruct (modify_and_sign_transaction s tx w) as [[[tx1 [res|e]]| |] w1] eqn:Es; [| |done..]; cbn [fst snd].
  - pose proof (modify_and_sign_sound s tx _ _ _ Es) as (pk & Hpk & Hs). cbn [fst] in Hs.
    unfold bind. destruct (broadcast_complete _ _ _ w1) as [[r1| |] w2] eqn:Eb; [|done..].
    intros [= <- <- <-]. exists (Ok res), w1. split; [done|]. exists pk. split_and!; [done..|].
    destruct Hs as [(i & (Hi & _) & _)]. eapply broadcast_complete_outcome; eauto. lia.
  - pose proof (modify_and_sign_sound s tx _ _ _ Es) as Hs. cbn [fst snd] in Hs.
    intros [= <- <- <-]. by exists (Err e), w1.
Qed.

End Laws.

#[export] Hint Resolve expect_pubkey_ok : keychain.

(** [walk_sends] for code that hands the transaction back, down to the requests. *)
Ltac walk_requests :=
  repeat first
    [ progress walk_sends
    | lazymatch goal with
      | |- sends (keep_bind _ _ _) _ => apply sends_keep_bind; [|intros ?]
      | |- sends (mut_bind _ _) _ => apply sends_mut_bind; [|intros ? ?]
      | |- sends (http_send _) _ => apply sends_http_send
      | |- sends (http_get _ _) _ => apply sends_http_get
      | |- sends (post_json _ _ _) _ => apply sends_post_json; intros ? ?
      | |- sends (http_send_json _ _) _ => apply sends_http_send_json; intros ? ?
      end ].
