(* ===== verification/Delivery.v ===== *)
(** * Total correctness against a provider that answers

    [returns] says what a value is if it comes back.  [delivers] says that one
    comes back: in a world whose provider is the oracle [O], whose timers run
    out and whose clock is after the epoch, and which has seen the events [tr],
    the computation returns, and the value and the events then seen satisfy the
    postcondition.  Its rules follow the combinators of [World]. *)

From S2P Require Import Prelude Errors World Externals TransactionUtil SignatureUtil RemoteUtil Traits.

#[local] Open Scope keychain_scope.

Definition oracle : Type := list Event -> HttpRequest -> reply HttpResponse.

(** The surroundings of a call that nobody cancels. *)
Record fair `{BuildProfile} (O : oracle) (w : World) : Prop := {
  fair_http : w_http w = O;
  fair_sleep : forall tr ms, w_sleep w tr ms = None;
  fair_sane : sane w
}.

Definition delivers `{BuildProfile} {A} (O : oracle) (tr : list Event) (m : M A) (Q : list Event -> A -> Prop) : Prop :=
  forall w, fair O w -> w_trace w = tr ->
    exists a w', m w = (Returned a, w') /\ fair O w' /\ Q (w_trace w') a.

(** The postcondition of code whose only good outcome is [Ok]. *)
Definition yields {A E} (Q : list Event -> A -> Prop) (tr : list Event) (r : Result A E) : Prop :=
  match r with Ok a => Q tr a | Err _ => False end.

(** The postcondition of code that must fail. *)
Definition errs {A E} (Q : list Event -> E -> Prop) (tr : list Event) (r : Result A E) : Prop :=
  match r with Ok _ => False | Err e => Q tr e end.

(** The provider answers [r] with success and the whole body [b]. *)
Definition answers (O : oracle) (tr : list Event) (r : HttpRequest) (b : list byte) : Prop :=
  exists resp, O tr r = Reply resp /\ is_success (resp_status resp) = true /\
    chunks_data (resp_chunks resp) = Some b /\ length b <= MAX_RESPONSE_BYTES.

(** [serde_json] prints every [Value]. *)
Class JsonPrints `{Json} := { value_prints : forall v, exists b, value_to_vec v = Ok b }.

(** ** Rules *)

Lemma fair_push `{BuildProfile} O w e : fair O w -> fair O (push_event e w).
Proof. intros [? ? []]. by split; [..|split]. Qed.
Lemma fair_set_slots `{BuildProfile} O w s : fair O w -> fair O (set_slots s w).
Proof. intros [? ? []]. by split; [..|split]. Qed.
#[export] Hint Resolve fair_push fair_set_slots : keychain.

Section Rules.
Context `{BuildProfile} {O : oracle}.

Lemma delivers_ret {A} tr (a : A) (Q : list Event -> A -> Prop) : Q tr a -> delivers O tr (ret a) Q.
Proof. intros HQ w Hw <-. by exists a, w. Qed.

Lemma delivers_bind {A B} tr (m : M A) (k : A -> M B) R Q :
  delivers O tr m R -> (forall tr' a, R tr' a -> delivers O tr' (k a) Q) -> delivers O tr (bind m k) Q.
Proof.
  intros Hm Hk w Hw Htr. destruct (Hm w Hw Htr) as (a & w1 & E & Hw1 & HR).
  destruct (Hk _ _ HR w1 Hw1 eq_refl) as (b & w2 & E2 & Hw2 & HQ). exists b, w2. unfold bind. by rewrite E.
Qed.

Lemma delivers_weaken {A} tr (m : M A) (R Q : list Event -> A -> Prop) :
  delivers O tr m R -> (forall tr' a, R tr' a -> Q tr' a) -> delivers O tr m Q.
Proof. intros Hm HRQ w Hw Htr. destruct (Hm w Hw Htr) as (a & w' & E & Hw' & HR). exists a, w'. auto. Qed.

Lemma delivers_bind_res {A B E} tr (m : M (Result A E)) (k : A -> M (Result B E)) R Q :
  delivers O tr m (yields R) -> (forall tr' a, R tr' a -> delivers O tr' (k a) Q) -> delivers O tr (bind_res m k) Q.
Proof. intros Hm Hk. eapply delivers_bind; [exact Hm|]. intros tr' [a|e] HR; [by apply Hk|done]. Qed.

Lemma delivers_try {A B E} tr (r : Result A E) a (k : A -> M (Result B E)) Q :
  r = Ok a -> delivers O tr (k a) Q -> delivers O tr (bind_res (ret r) k) Q.
Proof. intros -> Hk. by eapply delivers_bind_res; [apply delivers_ret with (Q := yields (fun t x => t = tr /\ x = a))|intros ? ? [-> ->]]. Qed.

Lemma delivers_assoc {A B C E} tr (m : M (Result A E)) (k1 : A -> M (Result B E)) (k2 : B -> M (Result C E)) Q :
  delivers O tr (bind_res (bind_res m k1) k2) Q -> delivers O tr (bind_res m (fun a => bind_res (k1 a) k2)) Q.
Proof.
  intros Hm w Hw Htr. destruct (Hm w Hw Htr) as (a & w' & E0 & HQ). exists a, w'. split; [|done]. rewrite <- E0.
  unfold bind_res, bind. by destruct (m w) as [[[]| |] w1].
Qed.

Lemma delivers_fmap_err {A E F} tr (f : E -> F) (m : M (Result A E)) (Q : list Event -> A -> Prop) :
  delivers O tr m (yields Q) -> delivers O tr (fmap_err f m) (yields Q).
Proof. intros Hm. eapply delivers_bind; [exact Hm|]. intros tr' [a|e] HQ; by apply delivers_ret. Qed.

Lemma delivers_of_run {A} tr (r : run A) a (Q : list Event -> A -> Prop) :
  r = Returned a -> Q tr a -> delivers O tr (of_run r) Q.
Proof. intros -> HQ w Hw <-. by exists a, w. Qed.

Lemma delivers_keep_bind `{SolanaSdk} {A B} tr tx (m : M (result A)) (k : A -> M (VersionedTransaction * result B)) R Q :
  delivers O tr m (yields R) -> (forall tr' a, R tr' a -> delivers O tr' (k a) Q) ->
  delivers O tr (keep_bind tx m k) Q.
Proof. intros Hm Hk. eapply delivers_bind; [exact Hm|]. intros tr' [a|e] HR; [by apply Hk|done]. Qed.

Lemma delivers_keep_try `{SolanaSdk} {A B} tr tx (r : result A) a (k : A -> M (VersionedTransaction * result B)) Q :
  r = Ok a -> delivers O tr (k a) Q -> delivers O tr (keep_bind tx (ret r) k) Q.
Proof. intros -> Hk. by eapply delivers_keep_bind; [apply delivers_ret with (Q := yields (fun t x => t = tr /\ x = a))|intros ? ? [-> ->]]. Qed.

(** An error ends the code that follows. *)
Lemma errs_bind {A B E} tr (m : M (Result A E)) (k : A -> M (Result B E)) R :
  delivers O tr m (errs R) -> delivers O tr (bind_res m k) (errs R).
Proof. intros Hm. eapply delivers_bind; [exact Hm|]. intros t [a|e] Hr; [done|by apply delivers_ret]. Qed.

Lemma errs_fmap {A E F} tr (f : E -> F) (m : M (Result A E)) (R : list Event -> E -> Prop) (R' : list Event -> F -> Prop) :
  delivers O tr m (errs R) -> (forall t e, R t e -> R' t (f e)) -> delivers O tr (fmap_err f m) (errs R').
Proof. intros Hm Hf. eapply delivers_bind; [exact Hm|]. intros t [a|e] Hr; [done|apply delivers_ret; by apply Hf]. Qed.

(** ... and leaves the caller's transaction as it was. *)
Definition unchanged_errs `{SolanaSdk} {A} (tx : VersionedTransaction) (R : list Event -> SignerError -> Prop)
    (t : list Event) (p : VersionedTransaction * result A) : Prop := p.1 = tx /\ errs R t p.2.

Lemma errs_keeping `{SolanaSdk} {A B} tr tx (m : M (result A)) (k : A -> M (VersionedTransaction * result B)) R :
  delivers O tr m (errs R) -> delivers O tr (keep_bind tx m k) (unchanged_errs tx R).
Proof. intros Hm. eapply delivers_bind; [exact Hm|]. intros t [a|e] Hr; [done|by apply delivers_ret]. Qed.

Lemma errs_mut `{SolanaSdk} {A B} tr tx (m : M (VersionedTransaction * result A))
    (k : VersionedTransaction -> A -> M (VersionedTransaction * result B)) R :
  delivers O tr m (unchanged_errs tx R) -> delivers O tr (mut_bind m k) (unchanged_errs tx R).
Proof. intros Hm. eapply delivers_bind; [exact Hm|]. intros t [tx' [a|e]] [Htx Hr]; [done|by apply delivers_ret]. Qed.

(** Sending stops where signing fails. *)
Lemma errs_send `{Codecs} `{SolanaSdk} {S : Type} `{!TransactionSigner S} (s : S) tx send tr R
    (m : M (VersionedTransaction * result SignedTransaction)) :
  Traits.sign_transaction s tx = mut_bind m (fun tx st => ret (tx, Ok (classify_signed_transaction tx st))) ->
  delivers O tr m (unchanged_errs tx R) -> delivers O tr (Traits.sign_and_send s tx send) (unchanged_errs tx R).
Proof. intros E Hm. unfold Traits.sign_and_send. rewrite E. by apply errs_mut, errs_mut. Qed.

Lemma delivers_timeout {A} tr (m : M A) (Q : list Event -> option A -> Prop) :
  delivers O tr m (fun t a => Q t (Some a)) -> delivers O tr (timeout m) Q.
Proof. intros Hm w Hw Htr. destruct (Hm w Hw Htr) as (a & w' & E & Hw' & HQ). exists (Some a), w'. unfold timeout. by rewrite E. Qed.

(** *** Steps *)

Lemma delivers_http_send tr r resp (Q : list Event -> Result HttpResponse string -> Prop) :
  O tr r = Reply resp -> Q (tr ++ [EvHttp r]) (Ok resp) -> delivers O tr (http_send r) Q.
Proof.
  intros HO HQ w Hw <-. exists (Ok resp), (push_event (EvHttp r) w). unfold http_send.
  rewrite (fair_http _ _ Hw), HO. auto with keychain.
Qed.

Lemma delivers_sleep tr ms (Q : list Event -> unit -> Prop) :
  Q (tr ++ [EvSleep ms]) tt -> delivers O tr (sleep_ms ms) Q.
Proof.
  intros HQ w Hw <-. exists tt, (push_event (EvSleep ms) w). unfold sleep_ms. rewrite (fair_sleep _ _ Hw).
  auto with keychain.
Qed.

Lemma delivers_clock tr (Q : list Event -> option Z -> Prop) :
  (forall now, (0 <= now)%Z -> (overflow_checks = true -> now < 2 ^ 63)%Z -> Q (tr ++ [EvClock]) (Some now)) -> delivers O tr clock_ms Q.
Proof.
  intros HQ w Hw <-. destruct (fair_sane _ _ Hw) as [Hc Hf]. exists (Some (w_clock_ms w (w_trace w))), (push_event EvClock w).
  unfold clock_ms. pose proof (Hc (w_trace w)). destruct (Z.ltb_spec (w_clock_ms w (w_trace w)) 0); [lia|]. auto with keychain.
Qed.

Lemma fair_utc w : fair O w -> utc_now w = Returned (w_clock_ms w (w_trace w)).
Proof.
  intros Hw. unfold utc_now. pose proof (sane_clock _ (fair_sane _ _ Hw) (w_trace w)).
  by destruct (Z.ltb_spec (w_clock_ms w (w_trace w)) 0); [lia|].
Qed.

Lemma delivers_utc tr (Q : list Event -> Z -> Prop) :
  (forall now, Q (tr ++ [EvClock]) now) -> delivers O tr utc_timestamp Q.
Proof.
  intros HQ w Hw <-. eexists _, (push_event EvClock w). unfold utc_timestamp. rewrite (fair_utc w Hw). split; [done|]. auto with keychain.
Qed.

Lemma delivers_utc_millis tr (Q : list Event -> Z -> Prop) :
  (forall now, Q (tr ++ [EvClock]) now) -> delivers O tr utc_timestamp_millis Q.
Proof.
  intros HQ w Hw <-. eexists _, (push_event EvClock w). unfold utc_timestamp_millis. rewrite (fair_utc w Hw). split; [done|]. auto with keychain.
Qed.

Lemma delivers_uuid tr (Q : list Event -> string -> Prop) :
  (forall id, Q (tr ++ [EvUuid]) id) -> delivers O tr uuid_v4 Q.
Proof. intros HQ w Hw <-. eexists _, (push_event EvUuid w). split; [done|]. auto with keychain. Qed.

Lemma delivers_pending_set tr c id (Q : list Event -> unit -> Prop) : Q tr tt -> delivers O tr (Pending.set c id) Q.
Proof. intros HQ w Hw <-. eexists tt, _. split; [done|]. by split; [apply fair_set_slots|]. Qed.
Lemma delivers_pending_clear tr c id (Q : list Event -> unit -> Prop) : Q tr tt -> delivers O tr (Pending.clear c id) Q.
Proof. intros HQ w Hw <-. eexists tt, _. split; [done|]. by split; [apply fair_set_slots|]. Qed.

(** *** Bodies and exchanges *)

Lemma read_chunks_whole l body d w :
  chunks_data l = Some d -> length (body ++ d) <= MAX_RESPONSE_BYTES ->
  read_chunks body l w = (Returned (Ok (body ++ d)), w).
Proof.
  revert body d. induction l as [|[c|e|why] l IH]; intros body d; cbn [chunks_data read_chunks]; [|..|done|done].
  - intros [= <-] _. by rewrite app_nil_r.
  - destruct (chunks_data l) as [d'|]; [|done]. intros [= <-]. rewrite !length_app. intros Hl.
    destruct (Nat.ltb_spec MAX_RESPONSE_BYTES (length body + length c)); [lia|].
    rewrite (IH (body ++ c) d' eq_refl) by (rewrite !length_app; lia). by rewrite <- (assoc_L (++)).
Qed.

Lemma delivers_read_body tr resp b Q :
  chunks_data (resp_chunks resp) = Some b -> length b <= MAX_RESPONSE_BYTES -> Q tr (Ok b) ->
  delivers O tr (read_body_capped resp) Q.
Proof. intros Hb Hl HQ w Hw <-. exists (Ok b), w. split; [by apply (read_chunks_whole _ [] b)|done]. Qed.

(** The reply itself, and the body itself. *)
Lemma delivers_reply {E} tr r resp (g : string -> E) :
  O tr r = Reply resp ->
  delivers O tr (fmap_err g (http_send r)) (yields (fun t x => t = tr ++ [EvHttp r] /\ x = resp)).
Proof. intros HO. by eapply delivers_fmap_err, delivers_http_send. Qed.

Lemma delivers_body tr resp b :
  chunks_data (resp_chunks resp) = Some b -> length b <= MAX_RESPONSE_BYTES ->
  delivers O tr (read_body_capped resp) (yields (fun t x => t = tr /\ x = b)).
Proof. intros Hb Hl. by eapply delivers_read_body. Qed.

Lemma delivers_parse {T} tr (f : list byte -> Result T string) resp c b v Q :
  is_success (resp_status resp) = true -> chunks_data (resp_chunks resp) = Some b -> length b <= MAX_RESPONSE_BYTES ->
  f b = Ok v -> Q tr (Ok v) -> delivers O tr (parse_json_response f resp c) Q.
Proof.
  intros Hs Hb Hl Hf HQ. unfold parse_json_response. rewrite Hs. cbn [negb].
  eapply delivers_bind_res; [by apply delivers_body|].
  intros ? ? [-> ->]. apply delivers_ret. by rewrite Hf.
Qed.

(** Ask, and parse the answer. *)
Lemma delivers_exchange {T B} tr (f : list byte -> Result T string) g c r b v (k : T -> M (result B)) Q :
  answers O tr r b -> f b = Ok v -> delivers O (tr ++ [EvHttp r]) (k v) Q ->
  delivers O tr (try! response := fmap_err g (http_send r) in try! v := parse_json_response f response c in k v) Q.
Proof.
  intros (resp & HO & Hs & Hb & Hl) Hf Hk.
  eapply delivers_bind_res; [by apply delivers_reply|]. intros ? ? [-> ->].
  eapply delivers_bind_res; [by eapply delivers_parse with (Q := yields (fun t x => t = tr ++ [EvHttp r] /\ x = v))|].
  by intros ? ? [-> ->].
Qed.

(** The same where the answer is the result. *)
Lemma delivers_ask {T} tr (f : list byte -> Result T string) g c r b v Q :
  answers O tr r b -> f b = Ok v -> Q (tr ++ [EvHttp r]) v ->
  delivers O tr (try! response := fmap_err g (http_send r) in parse_json_response f response c) (yields Q).
Proof.
  intros (resp & HO & Hs & Hb & Hl) Hf HQ.
  eapply delivers_bind_res; [by apply delivers_reply|]. intros ? ? [-> ->]. by eapply delivers_parse.
Qed.

(** *** Polling *)

(** How a loop that stops at the outcome [o] of an attempt ends. *)
Definition decides {T} (o : result (PollOutcome T)) (r : result T) : Prop :=
  match o, r with Ok (Done v), Ok v' => v = v' | Err e, Err e' => e = e' | _, _ => False end.

(** [n] attempts are enough if each either decides or uses up some of the
    provider's patience, of which less than [n] is left. *)
Lemma delivers_poll_from {T} (I : nat -> list Event -> Prop) i n p ms te (attempt : M (result (PollOutcome T))) tr
    (Q : list Event -> result T -> Prop) :
  p < n -> I p tr ->
  (forall q t ms', I q t -> I q (t ++ [EvSleep ms'])) ->
  (forall q t, I q t -> delivers O t attempt (fun t' o =>
     (o = Ok Pending /\ 0 < q /\ I (q - 1) t') \/ (o ≠ Ok Pending /\ forall r, decides o r -> Q t' r))) ->
  delivers O tr (poll_from i n ms te attempt) Q.
Proof.
  intros Hp HI HS Ha. revert i p tr Hp HI. induction n as [|n IH]; intros i p tr Hp HI; [lia|]. cbn [poll_from].
  eapply (delivers_bind _ _ _ (fun t _ => I p t)).
  { destruct (0 <? i); [apply delivers_sleep; auto|by apply delivers_ret]. }
  intros t _ Ht. eapply delivers_bind; [by apply Ha|]. intros t' o [(-> & Hq & HI')|[Hne Ho]].
  - cbn. apply (IH (S i) (p - 1)); [lia|done].
  - destruct o as [[v|]|e]; [..|by apply delivers_ret, Ho]; [by apply delivers_ret, Ho|done].
Qed.

End Rules.
