(* ===== verification/Promises.v ===== *)
(** * What a provider promises

    Requests of a documented form, the answers a provider promises to them, and
    how code that asks fares with a provider that keeps its promises: one
    exchange ([serves]) or a job that is created and then polled ([runs_job]). *)

From S2P Require Import Prelude Errors World Externals TransactionUtil SignatureUtil RemoteUtil Traits Delivery.

#[local] Open Scope keychain_scope.

(** ** Requests and promises *)

Section Promises.
Context `{Json}.

Definition bears (k v : string) (r : HttpRequest) : Prop := assoc_get (req_headers r) k = Some v.
Definition gets (url : string) (r : HttpRequest) : Prop := req_method r = "GET" /\ req_url r = url.
(** A POST of the JSON text of a document. *)
Definition posts (url : string) (doc : Value) (r : HttpRequest) : Prop :=
  req_method r = "POST" /\ req_url r = url /\ value_to_vec doc = Ok (req_body r).

(** Every request of a kind is answered by a body that decodes to a good value. *)
Definition serves {T} (O : oracle) (asks : HttpRequest -> Prop) (decode : list byte -> Result T string)
    (good : T -> Prop) : Prop :=
  forall tr r, asks r -> exists b v, answers O tr r b /\ decode b = Ok v /\ good v.

End Promises.

(** A signature of the key over the message, and its text forms. *)
Definition signs `{SolanaSdk} (pk : Pubkey) (m : list byte) (sg : Signature) : Prop := verifies sg pk m = true.

Section Texts.
Context `{Codecs} `{SolanaSdk}.

Definition base64_signs (pk : Pubkey) (m : list byte) (enc : string) : Prop :=
  exists sg, enc = base64_encode (arr_bytes sg) /\ signs pk m sg.
Definition base58_signs (pk : Pubkey) (m : list byte) (enc : string) : Prop :=
  exists sg, enc = bs58_encode (arr_bytes sg) /\ signs pk m sg.
(** Hexadecimal, with or without the prefix. *)
Definition hex_signs (pk : Pubkey) (m : list byte) (enc : string) : Prop :=
  exists sg, (enc = hex_encode (arr_bytes sg) \/ enc = "0x" +:+ hex_encode (arr_bytes sg)) /\ signs pk m sg.

Context `{!CodecLaws}.

Lemma signs_accepted pk m sg : signs pk m sg -> verify_or_reject sg pk m = Ok tt.
Proof. unfold signs, verify_or_reject. by intros ->. Qed.

Lemma base64_accepted pk m enc : base64_signs pk m enc ->
  exists sg, signature_from_base64 enc = Ok sg /\ signs pk m sg.
Proof. intros (sg & -> & Hs). exists sg. split; [|done]. apply (signature_decoders_roundtrip sg []). Qed.
Lemma base58_accepted pk m enc : base58_signs pk m enc ->
  exists sg, signature_from_base58 enc = Ok sg /\ signs pk m sg.
Proof. intros (sg & -> & Hs). exists sg. split; [|done]. apply (signature_decoders_roundtrip sg []). Qed.

Lemma hex_unprefixed b : strip_prefix "0x" (hex_encode b) = None.
Proof.
  destruct (strip_prefix "0x" (hex_encode b)) as [r|] eqn:E; [|done]. apply strip_prefix_Some in E.
  destruct (hex_alphabet b). rewrite E, as_bytes_app. set_solver.
Qed.

Lemma hex_accepted pk m enc : hex_signs pk m enc -> exists sg, signature_from_hex enc = Ok sg /\ signs pk m sg.
Proof.
  intros (sg & Henc & Hs). exists sg. split; [|done]. destruct Henc as [->| ->]; [|apply (signature_decoders_roundtrip sg [])].
  unfold signature_from_hex. rewrite hex_unprefixed. cbn [default from_option]. unfold id. rewrite hex_decode_encode.
  cbn. by apply signature_from_bytes_Ok.
Qed.

End Texts.

(** ** Asking a provider that keeps a promise *)

Section Asking.
Context `{BuildProfile} `{Json} `{!JsonPrints} {O : oracle}.

Lemma delivers_served {T B} tr asks (f : list byte -> Result T string) good g c r (k : T -> M (result B)) Q :
  serves O asks f good -> asks r -> (forall v, good v -> delivers O (tr ++ [EvHttp r]) (k v) Q) ->
  delivers O tr (try! response := fmap_err g (http_send r) in try! v := parse_json_response f response c in k v) Q.
Proof. intros HS Hr Hk. destruct (HS tr r Hr) as (b & v & Ha & Hv & Hg). by eapply delivers_exchange; [..|apply Hk]. Qed.

Lemma delivers_served_json {T B} tr asks (f : list byte -> Result T string) good g c doc mk (k : T -> M (result B)) Q :
  serves O asks f good -> (forall b, value_to_vec doc = Ok b -> asks (mk b)) ->
  (forall b v, good v -> delivers O (tr ++ [EvHttp (mk b)]) (k v) Q) ->
  delivers O tr (try! response := fmap_err g (http_send_json (value_to_vec doc) mk) in
                 try! v := parse_json_response f response c in k v) Q.
Proof.
  intros HS Hr Hk. destruct (value_prints doc) as [b Hb]. rewrite Hb. cbn [http_send_json].
  eapply delivers_served; [exact HS|by apply Hr|auto].
Qed.

Lemma delivers_asked {T} tr asks (f : list byte -> Result T string) (good : T -> Prop) g c r :
  serves O asks f good -> asks r ->
  delivers O tr (try! response := fmap_err g (http_send r) in parse_json_response f response c)
    (yields (fun t v => t = tr ++ [EvHttp r] /\ good v)).
Proof. intros HS Hr. destruct (HS tr r Hr) as (b & v & Ha & Hv & Hg). by eapply delivers_ask. Qed.

Lemma delivers_asked_json {T} tr asks (f : list byte -> Result T string) (good : T -> Prop) g c doc mk :
  serves O asks f good -> (forall b, value_to_vec doc = Ok b -> asks (mk b)) ->
  delivers O tr (try! response := fmap_err g (http_send_json (value_to_vec doc) mk) in
                 parse_json_response f response c) (yields (fun t v => exists b, t = tr ++ [EvHttp (mk b)] /\ good v)).
Proof.
  intros HS Hr. destruct (value_prints doc) as [b Hb]. rewrite Hb. cbn [http_send_json].
  eapply delivers_weaken; [eapply delivers_asked; [exact HS|by apply Hr]|]. intros t [v|e]; [|done]. by exists b.
Qed.

(** What is known of the value anyway. *)
Lemma delivers_returns {A} tr (m : M (result A)) R Q :
  delivers O tr m (yields R) -> returns m (on_ok Q) -> delivers O tr m (yields (fun t a => R t a /\ Q a)).
Proof.
  intros Hm Hr w Hw Htr. destruct (Hm w Hw Htr) as ([a|e] & w' & E & Hw' & HR); [|done].
  exists (Ok a), w'. split_and!; [done..|]. split; [exact HR|]. exact (Hr _ _ _ E).
Qed.

Lemma delivers_some {A} tr (m : M (result A)) (R : list Event -> A -> Prop) (Q : A -> Prop) :
  delivers O tr m (yields R) -> returns m (on_ok Q) -> delivers O tr m (yields (fun _ => Q)).
Proof.
  intros Hm Hr. eapply delivers_weaken; [by apply delivers_returns|]. intros t [a|e]; [by intros []|done].
Qed.

End Asking.

(** ** Jobs: create, then poll until done *)

Definition is_poll (url : string) (e : Event) : bool :=
  match e with EvHttp q => bool_decide (req_method q = "GET") && bool_decide (req_url q = url) | _ => false end.
Definition polls (url : string) (evs : list Event) : nat := length (List.filter (is_poll url) evs).
Definition quiet (e : Event) : Prop := match e with EvHttp _ => False | _ => True end.

Lemma polls_app url a b : polls url (a ++ b) = polls url a + polls url b.
Proof. unfold polls. by rewrite List.filter_app, length_app. Qed.
Lemma polls_quiet url evs : Forall quiet evs -> polls url evs = 0.
Proof. induction 1 as [|[] l He _ IH]; [done..|exact IH|exact IH|exact IH]. Qed.
Lemma polls_one url r : gets url r -> polls url [EvHttp r] = 1.
Proof. intros [Hm Hu]. unfold polls. cbn. rewrite Hm, Hu, !bool_decide_eq_true_2 by done. done. Qed.

(** A create is answered with a receipt.  From then on each status request for
    the receipt is answered, with a pending status at most [patience] times. *)
Definition runs_job {C T} (O : oracle) (asks : HttpRequest -> Prop) (decode_receipt : list byte -> Result C string)
    (receipt : C -> Prop) (status_url : C -> string) (status : C -> HttpRequest -> Prop) (decode : list byte -> Result T string)
    (pending done : C -> T -> Prop) (patience : nat) : Prop :=
  forall tr r, asks r -> exists b c, answers O tr r b /\ decode_receipt b = Ok c /\ receipt c /\
    forall ext r', gets (status_url c) r' -> status c r' ->
      exists b' v, answers O (tr ++ EvHttp r :: ext) r' b' /\ decode b' = Ok v /\
        (done c v \/ (pending c v /\ polls (status_url c) ext < patience)).

(** The last event is a request of a kind, and [v] what its answer says. *)
Definition told {T} (O : oracle) (asks : HttpRequest -> Prop) (decode : list byte -> Result T string)
    (t : list Event) (v : T) : Prop :=
  exists t0 r b, t = t0 ++ [EvHttp r] /\ asks r /\ answers O t0 r b /\ decode b = Ok v.

(** The loop is long enough for the provider's patience: it ends with what the
    provider says when the job is over. *)
Lemma delivers_job_poll `{BuildProfile} {O : oracle} {C T} (status_url : C -> string) (status : C -> HttpRequest -> Prop)
    (decode : list byte -> Result T string) (pending done : C -> T -> Prop) (classify : T -> result (PollOutcome T))
    (patience n : nat) c tr i ms te attempt :
  patience < n -> (forall v, done c v -> classify v ≠ Ok Pending) -> (forall v, pending c v -> classify v = Ok Pending) ->
  (forall ext r', gets (status_url c) r' -> status c r' ->
      exists b' v, answers O (tr ++ ext) r' b' /\ decode b' = Ok v /\
        (done c v \/ (pending c v /\ polls (status_url c) ext < patience))) ->
  (forall t (R : list Event -> T -> Prop),
     (forall evs r', Forall quiet evs -> gets (status_url c) r' -> status c r' ->
        exists b v, answers O (t ++ evs) r' b /\ decode b = Ok v /\ R (t ++ evs ++ [EvHttp r']) v) ->
     delivers O t attempt (fun t' o => exists v, R t' v /\ o = classify v)) ->
  delivers O tr (poll_from i n ms te attempt)
    (fun t r => exists v, done c v /\ told O (gets (status_url c)) decode t v /\ decides (classify v) r).
Proof.
  intros Hn Hdone Hpend HJ Ha.
  apply (delivers_poll_from (fun q t => exists ext, t = tr ++ ext /\ patience <= q + polls (status_url c) ext) _ _ patience); [done| | |].
  - exists []. rewrite app_nil_r. split; [done|]. lia.
  - intros q t ms' (ext & -> & Hq). exists (ext ++ [EvSleep ms']). split; [by rewrite (assoc_L (++))|]. rewrite polls_app. lia.
  - intros q t (ext & -> & Hq). eapply delivers_weaken.
    + apply (Ha _ (fun t' v => told O (gets (status_url c)) decode t' v /\
               exists ext', t' = tr ++ ext' /\ polls (status_url c) ext' = S (polls (status_url c) ext) /\
               (done c v \/ (pending c v /\ polls (status_url c) ext < patience)))).
      intros evs r' Hev Hg Hs. destruct (HJ (ext ++ evs) r' Hg Hs) as (b & v & Hans & Hv & Hd).
      rewrite polls_app, (polls_quiet _ evs Hev), Nat.add_0_r in Hd. rewrite (assoc_L (++)) in Hans. exists b, v.
      split_and!; [done..|rewrite (assoc_L (++)); by eexists _, r', b|].
      exists (ext ++ evs ++ [EvHttp r']). rewrite <- (assoc_L (++)). split; [done|]. split; [|done].
      rewrite !polls_app, (polls_quiet _ evs Hev), (polls_one _ _ Hg). lia.
    + intros t' o (v & (Ht & ext' & -> & Hp & Hd) & ->). destruct Hd as [Hd|[Hd Hlt]].
      * right. split; [by apply Hdone|]. intros r Hr. by exists v.
      * left. split; [by apply Hpend|]. split; [lia|]. exists ext'. split; [done|]. lia.
Qed.

(** Check a signature that verifies, and return it. *)
Lemma delivers_checked `{BuildProfile} `{Codecs} `{SolanaSdk} {O} tr (sg : Signature) pk m (Q : list Event -> Signature -> Prop) :
  signs pk m sg -> Q tr sg ->
  delivers O tr (try _ := verify_or_reject sg pk m in ret (Ok sg)) (yields Q).
Proof. intros Hs HQ. eapply delivers_try; [by apply signs_accepted|]. by apply delivers_ret. Qed.
