(* ===== verification/Memory.v ===== *)
(** * The in-memory signer (src/rust/src/memory/mod.rs, memory/keypair_util.rs)

    Private-key parsing in its three formats and the local key-pair signer. *)

From S2P Require Import Prelude Errors World Externals TransactionUtil SignatureUtil Traits.

#[local] Open Scope keychain_scope.

(** [fs::read_to_string]. *)
Class FileSystem := { read_to_string : string -> Result string string }.

(** ** keypair_util.rs *)

Definition PRIVATE_KEY_LENGTH : nat := 64.

(** [str::parse::<u8>]. *)
Definition parse_u8 (l : list byte) : option byte := u8_of_Z <$> parse_uint 255 l.

Section KeypairUtil.
Context `{Codecs} `{SolanaSdk} `{Json} `{FileSystem}.

Definition keypair_or_invalid (bytes : list byte) : result Keypair :=
  map_err (fun _ => InvalidPrivateKey "Invalid private key bytes") (keypair_from_bytes bytes).

Definition from_u8_array_string (array_str : string) : run (result Keypair) :=
  let trimmed := as_bytes (trim array_str) in
  if negb (first_is x5b trimmed) || negb (last_is x5d trimmed) then
    Returned (Err (InvalidPrivateKey "U8Array string must start with '[' and end with ']'"))
  else if length trimmed - 1 <? 1 then
    (* &trimmed[1..trimmed.len() - 1] *) Panicked
  else
    let inner := slice 1 (length trimmed - 1) trimmed in
    if str_is_empty (trim (of_bytes inner)) then
      Returned (Err (InvalidPrivateKey "U8Array string cannot be empty"))
    else
      let bytes := mapM (fun s => parse_u8 (as_bytes (trim (of_bytes s)))) (split_char x2c inner) in
      match bytes with
      | Some byte_array =>
          if negb (length byte_array =? PRIVATE_KEY_LENGTH) then
            Returned (Err (InvalidPrivateKey ("Private key must be exactly " +:+
              pretty PRIVATE_KEY_LENGTH +:+ " bytes, got " +:+ pretty (length byte_array))))
          else Returned (keypair_or_invalid byte_array)
      | None => Returned (Err (InvalidPrivateKey "Invalid U8Array private key format"))
      end.

Definition from_base58_safe (private_key : string) : result Keypair :=
  let? decoded := map_err (fun _ => InvalidPrivateKey "Invalid private key format")
                    (bs58_decode private_key) in
  if negb (length decoded =? PRIVATE_KEY_LENGTH) then
    Err (InvalidPrivateKey ("Invalid private key length: expected " +:+ pretty PRIVATE_KEY_LENGTH +:+
                            " bytes, got " +:+ pretty (length decoded)))
  else keypair_or_invalid decoded.

Definition from_json_keypair (json_content : string) : result Keypair :=
  match vec_u8_from_str json_content with
  | Ok byte_array =>
      if negb (length byte_array =? PRIVATE_KEY_LENGTH) then
        Err (InvalidPrivateKey ("JSON keypair must be exactly " +:+ pretty PRIVATE_KEY_LENGTH +:+
                                " bytes, got " +:+ pretty (length byte_array)))
      else keypair_or_invalid byte_array
  | Err _ => Err (InvalidPrivateKey "Invalid JSON keypair format. Expected a JSON array of 64 bytes")
  end.

Definition from_private_key_string (private_key : string) : run (result Keypair) :=
  if first_is x5b (as_bytes (trim private_key)) && last_is x5d (as_bytes (trim private_key)) then
    from_u8_array_string private_key
  else Returned (from_base58_safe private_key).

Definition from_private_key_file (path : string) : result Keypair :=
  let? file_content := map_err (fun _ => IoError "Failed to read private key file")
                         (read_to_string path) in
  from_json_keypair file_content.

End KeypairUtil.

(** ** mod.rs *)

Record MemorySigner `{SolanaSdk} := mkMemorySigner { keypair : Keypair }.
Arguments mkMemorySigner {_} _.

Record MemorySignerConfig `{SolanaSdk} := mkMemorySignerConfig { cfg_keypair : Keypair }.
Arguments mkMemorySignerConfig {_} _.

Module MemorySigner.
Section Signer.
Context `{Codecs} `{SolanaSdk} `{Json} `{FileSystem}.

Definition from_config (config : MemorySignerConfig) : MemorySigner := mkMemorySigner (cfg_keypair config).

Definition new (keypair : Keypair) : MemorySigner := from_config (mkMemorySignerConfig keypair).

Definition from_bytes (private_key : list byte) : result MemorySigner :=
  let? keypair := map_err (fun _ => InvalidPrivateKey "Invalid private key bytes")
                    (keypair_from_bytes private_key) in
  Ok (mkMemorySigner keypair).

Definition from_private_key_string (private_key : string) : run (result MemorySigner) :=
  match Memory.from_private_key_string private_key with
  | Returned (Ok keypair) => Returned (Ok (new keypair))
  | Returned (Err e) => Returned (Err e)
  | Panicked => Panicked
  | Dropped why => Dropped why
  end.

Definition from_private_key_file (path : string) : result MemorySigner :=
  let? keypair := Memory.from_private_key_file path in Ok (new keypair).

Definition sign_bytes (self : MemorySigner) (serialized : list byte) : Signature :=
  keypair_sign_message (keypair self) serialized.

Definition pubkey (self : MemorySigner) : Pubkey := keypair_pubkey (keypair self).

Definition sign_transaction (self : MemorySigner) (tx : VersionedTransaction)
    : M (VersionedTransaction * result SignTransactionResult) :=
  let signature := sign_bytes self (message_serialize (message tx)) in
  mut! (tx, signed_transaction) := of_run (attach_and_serialize tx (pubkey self) signature) in
  ret (tx, Ok (classify_signed_transaction tx signed_transaction)).

#[global] Instance solana_signer : SolanaSigner MemorySigner := {
  Traits.pubkey self := Returned (pubkey self);
  Traits.sign_message self message := ret (Ok (sign_bytes self message));
  Traits.is_available _ := ret true
}.

#[global] Instance transaction_signer : TransactionSigner MemorySigner := {
  transaction_signer_base := solana_signer;
  Traits.sign_transaction := sign_transaction
}.

End Signer.
End MemorySigner.

(** ** Lemmas: the array format *)

(** Decimal rendering of a byte, and of a key as callers write it. *)
Definition dec_byte (b : byte) : list byte := as_bytes (pretty (u8_nat b)).

Fixpoint render_rest (l : list byte) : list byte :=
  match l with
  | [] => []
  | b :: r => x2c :: x20 :: dec_byte b ++ render_rest r
  end.

Definition render_u8_array (l : list byte) : string :=
  match l with
  | [] => "[]"
  | b :: r => of_bytes (x5b :: dec_byte b ++ render_rest r ++ [x5d])
  end.

Definition no_comma (b : byte) : bool := negb (bool_decide (x2c ∈ dec_byte b)).

Lemma dec_byte_no_comma b : x2c ∉ dec_byte b.
Proof.
  assert (H : no_comma b = true) by (destruct b; vm_compute; done).
  apply negb_true_iff, bool_decide_eq_false in H. done.
Qed.

Lemma parse_dec b : parse_u8 (as_bytes (trim (of_bytes (dec_byte b)))) = Some b.
Proof. destruct b; vm_compute; done. Qed.

Lemma parse_space_dec b : parse_u8 (as_bytes (trim (of_bytes (x20 :: dec_byte b)))) = Some b.
Proof. destruct b; vm_compute; done. Qed.

Lemma split_from_plain sep cur l r :
  sep ∉ l -> split_from sep cur (l ++ r) = split_from sep (reverse l ++ cur) r.
Proof.
  revert cur. induction l as [|b l IH]; intros cur Hn; [done|]. cbn [app split_from].
  rewrite bool_decide_eq_false_2 by (intros ->; apply Hn; constructor).
  rewrite IH by (intros ?; apply Hn; by constructor).
  by rewrite reverse_cons, <- (assoc_L (++)).
Qed.

Lemma split_render p l :
  x2c ∉ p -> split_char x2c (p ++ render_rest l) = p :: map (fun b => x20 :: dec_byte b) l.
Proof.
  unfold split_char. revert p. induction l as [|b l IH]; intros p Hp; cbn [render_rest map].
  - rewrite (split_from_plain _ _ p []) by done. cbn. by rewrite app_nil_r, reverse_involutive.
  - rewrite split_from_plain by done. rewrite app_nil_r. cbn [split_from].
    rewrite bool_decide_eq_true_2, reverse_involutive by done. f_equal.
    apply (IH (x20 :: dec_byte b)). intros [Heq|Hin]%elem_of_cons; [done|]. by apply dec_byte_no_comma in Hin.
Qed.

Lemma parse_rest l :
  mapM (fun s => parse_u8 (as_bytes (trim (of_bytes s)))) (map (fun b => x20 :: dec_byte b) l) = Some l.
Proof.
  induction l as [|b l IH]; [done|]. cbn [map mapM]. rewrite parse_space_dec. simpl. by rewrite IH.
Qed.

(** A string between brackets is its own trimming. *)
Lemma drop_ws_bracket r : drop_ws (x5b :: r) = x5b :: r.
Proof. destruct r as [|b [|c r]]; reflexivity. Qed.

Lemma drop_ws_rev_bracket r : drop_ws_rev (x5d :: r) = x5d :: r.
Proof.
  destruct r as [|b [|c r]]; cbn [drop_ws_rev]; try reflexivity.
  all: assert (H2 : ws2 b x5d = false) by (by destruct b); cbn; rewrite ?H2; try done.
  assert (H3 : ws3 c b x5d = false); [|by rewrite H3].
  apply bool_decide_eq_false. intros Hin. repeat (apply elem_of_cons in Hin as [Hin|Hin]; [done|]).
  by apply not_elem_of_nil in Hin.
Qed.

Lemma trim_bracketed m : trim (of_bytes (x5b :: m ++ [x5d])) = of_bytes (x5b :: m ++ [x5d]).
Proof.
  unfold trim, trim_start, trim_end. rewrite !as_bytes_of_bytes, drop_ws_bracket.
  by rewrite app_comm_cons, reverse_snoc, drop_ws_rev_bracket, reverse_cons, reverse_involutive.
Qed.

(** A byte that starts no whitespace character and ends none. *)
Definition plain (d : byte) : bool := bool_decide (d ∈ [x30; x31; x32; x33; x34; x35; x36; x37; x38; x39]).

Lemma plain_ws1 d : plain d = true -> ws1 d = false.
Proof. by destruct d. Qed.
Lemma plain_ws2 d x : plain d = true -> ws2 d x = false /\ ws2 x d = false.
Proof. destruct d; try done; by destruct x. Qed.
Lemma plain_ws3 d x y : plain d = true -> ws3 d x y = false.
Proof.
  intros Hd. apply bool_decide_eq_false. intros Hin.
  repeat (apply elem_of_cons in Hin as [[= -> -> ->]|Hin]; [done|]). by apply not_elem_of_nil in Hin.
Qed.

Lemma drop_ws_plain d l : plain d = true -> drop_ws (d :: l) = d :: l.
Proof.
  intros Hd. cbn [drop_ws]. rewrite (plain_ws1 d Hd). destruct l as [|x [|y z]]; [done|..].
  - by rewrite (proj1 (plain_ws2 d x Hd)).
  - by rewrite (proj1 (plain_ws2 d x Hd)), (plain_ws3 d x y Hd).
Qed.

Lemma drop_ws_rev_plain n l d : plain d = true -> length l < n -> drop_ws_rev (l ++ [d]) ≠ [].
Proof.
  intros Hd. revert l. induction n as [|n IH]; intros l Hl; [lia|].
  destruct l as [|c [|b [|a l]]]; cbn [app drop_ws_rev length] in *.
  - by rewrite (plain_ws1 d Hd).
  - case_match; [apply (IH []); simpl; lia|]. by rewrite (proj1 (plain_ws2 d c Hd)).
  - case_match; [apply (IH [b]); simpl; lia|]. case_match; [apply (IH []); simpl; lia|].
    by rewrite (plain_ws3 d b c Hd).
  - case_match; [apply (IH (b :: a :: l)); simpl; lia|].
    case_match; [apply (IH (a :: l)); simpl; lia|]. case_match; [apply (IH l); lia|done].
Qed.

(** The inside of the brackets is not blank. *)
Lemma digit_not_blank b r : str_is_empty (trim (of_bytes (dec_byte b ++ r))) = false.
Proof.
  assert (Hd : exists d t, dec_byte b = d :: t /\ plain d = true)
    by (destruct b; do 2 eexists; (split; [vm_compute; reflexivity|reflexivity])).
  destruct Hd as (d & t & -> & Hd). cbn [app].
  apply bool_decide_eq_false. intros E%(f_equal as_bytes). revert E.
  unfold trim, trim_start, trim_end. rewrite !as_bytes_of_bytes, (drop_ws_plain d _ Hd), reverse_cons.
  intros E%(f_equal reverse). rewrite reverse_involutive in E.
  by eapply (drop_ws_rev_plain (S (length (reverse (t ++ r))))) in E; [|done|lia].
Qed.

Section Theorems.
Context `{Codecs} `{SolanaSdk} `{Json} `{FileSystem}.

Lemma from_u8_array_render b l :
  from_u8_array_string (render_u8_array (b :: l)) =
  Returned (if negb (length (b :: l) =? PRIVATE_KEY_LENGTH) then
      Err (InvalidPrivateKey ("Private key must be exactly " +:+
              pretty PRIVATE_KEY_LENGTH +:+ " bytes, got " +:+ pretty (length (b :: l))))
    else keypair_or_invalid (b :: l)).
Proof.
  unfold from_u8_array_string, render_u8_array. rewrite (assoc_L (++)), trim_bracketed, as_bytes_of_bytes.
  set (m := dec_byte b ++ render_rest l).
  assert (Hl : length (x5b :: m ++ [x5d]) - 1 = S (length m)) by (simpl; rewrite length_app; simpl; lia).
  assert (Hlast : last_is x5d (x5b :: m ++ [x5d]) = true)
    by (apply bool_decide_eq_true; by rewrite app_comm_cons, last_snoc).
  rewrite Hlast. change (first_is x5b (x5b :: m ++ [x5d])) with true. cbn [negb orb].
  rewrite Hl. change (S (length m) <? 1) with false. cbn iota.
  assert (Hs : slice 1 (S (length m)) (x5b :: m ++ [x5d]) = m).
  { unfold slice. cbn [drop]. replace (S (length m) - 1) with (length m) by lia. apply take_app_length. }
  rewrite Hs. unfold m at 1. rewrite digit_not_blank. unfold m.
  rewrite split_render by apply dec_byte_no_comma. cbn [mapM]. rewrite parse_dec, parse_rest. simpl.
  by case_match.
Qed.

Lemma from_u8_array_render_64 b l :
  length (b :: l) = 64 ->
  from_u8_array_string (render_u8_array (b :: l)) = Returned (keypair_or_invalid (b :: l)).
Proof. intros Hl. rewrite from_u8_array_render. by rewrite Hl. Qed.

(** By strong induction, following the one, two or three bytes consumed. *)
Ltac ws_suffix f :=
  intros l; assert (HG : forall n l, length l < n -> f l `suffix_of` l);
    [|apply (HG (S (length l))); lia];
  clear; let m := fresh in intros m; induction m as [|m IH]; intros l Hl; [lia|];
  destruct l as [|a r1]; [reflexivity|]; cbn [f]; simpl in Hl;
  case_match; [apply suffix_cons_r, IH; lia|];
  destruct r1 as [|b r2]; [reflexivity|]; simpl in Hl;
  case_match; [do 2 apply suffix_cons_r; apply IH; lia|];
  destruct r2 as [|c r3]; [reflexivity|]; simpl in Hl;
  case_match; [do 3 apply suffix_cons_r; apply IH; lia|reflexivity].

Lemma drop_ws_suffix : forall l, drop_ws l `suffix_of` l.
Proof. ws_suffix drop_ws. Qed.

Lemma drop_ws_rev_suffix : forall l, drop_ws_rev l `suffix_of` l.
Proof. ws_suffix drop_ws_rev. Qed.

Lemma suffix_elem {A} (l k : list A) x : l `suffix_of` k -> x ∈ l -> x ∈ k.
Proof. intros [p ->] Hx. apply elem_of_app. by right. Qed.

Lemma trim_subset s x : x ∈ as_bytes (trim s) -> x ∈ as_bytes s.
Proof.
  unfold trim, trim_start, trim_end. rewrite !as_bytes_of_bytes, elem_of_reverse.
  intros Hx%(suffix_elem _ _ _ (drop_ws_rev_suffix _)). rewrite elem_of_reverse in Hx.
  by apply (suffix_elem _ _ _ (drop_ws_suffix _)).
Qed.

Lemma first_is_subset b l : first_is b l = true -> b ∈ l.
Proof. intros Hb%bool_decide_eq_true. destruct l; [done|]. injection Hb as ->. constructor. Qed.

(** C38: parsing a private key never panics on any input, and the accepted
    formats agree: the 64 key bytes written as a base58 string, as a [[1, 2, ..]]
    array or in a JSON key file give the same key pair or the same error. *)
Theorem private_key_formats_agree `{!CodecLaws} (s : string) (k : list byte) (path json : string) :
  (exists r, from_private_key_string s = Returned r) /\
  (length k = 64 -> read_to_string path = Ok json -> vec_u8_from_str json = Ok k ->
   from_private_key_string (bs58_encode k) = Returned (keypair_or_invalid k) /\
   from_private_key_string (render_u8_array k) = Returned (keypair_or_invalid k) /\
   from_private_key_file path = keypair_or_invalid k).
Proof.
  split.
  - unfold from_private_key_string, from_u8_array_string.
    destruct (first_is x5b _) eqn:Hf; cbn [negb andb orb]; [|eauto].
    destruct (last_is x5d _) eqn:Hl; cbn [negb andb orb]; [|eauto].
    destruct (as_bytes (trim s)) as [|a [|b r]]; [done| |change (length (a :: b :: r) - 1 <? 1) with false; repeat case_match; eauto; done].
    apply bool_decide_eq_true in Hf, Hl. by injection Hf as ->.
  - intros Hk Hp Hj. split_and!.
    + unfold from_private_key_string. destruct (first_is x5b _) eqn:Hf; cbn [andb].
      { by apply first_is_subset, trim_subset, bs58_alphabet in Hf. }
      unfold from_base58_safe. rewrite bs58_decode_encode. cbn [map_err res_bind]. by rewrite Hk.
    + destruct k as [|b k]; [done|]. rewrite <- (from_u8_array_render_64 b k Hk).
      unfold from_private_key_string.
      unfold render_u8_array. rewrite (assoc_L (++)), trim_bracketed, as_bytes_of_bytes.
      change (first_is x5b (x5b :: _)) with true.
      assert (last_is x5d (x5b :: (dec_byte b ++ render_rest k) ++ [x5d]) = true) as ->
        by (apply bool_decide_eq_true; by rewrite app_comm_cons, last_snoc). done.
    + unfold from_private_key_file. rewrite Hp. cbn. unfold from_json_keypair. by rewrite Hj, Hk.
Qed.

End Theorems.

(** A key of 64 equal bytes, in a file system with one file. *)
Lemma private_key_formats_agree_witness :
  let k := replicate 64 x07 in
  let fs := {| read_to_string := fun _ => Ok (of_bytes k) |} in
  length k = 64 /\
  from_private_key_string (H:=Demo.demo_codecs) (H0:=Demo.demo_sdk) (render_u8_array k) =
  Returned (keypair_or_invalid (H0:=Demo.demo_sdk) k).
Proof.
  intros k fs. split; [reflexivity|].
  refine (proj1 (proj2 (proj2 (private_key_formats_agree (H:=Demo.demo_codecs) (H0:=Demo.demo_sdk)
    (H1:=DemoJson.demo_json) (H2:=fs) (H3:=Demo.demo_codec_laws) EmptyString k "id.json" (of_bytes k))
    eq_refl eq_refl _))).
  vm_compute. reflexivity.
Defined.

Lemma memory_signature_verifies `{SdkLaws} s m :
  verifies (MemorySigner.sign_bytes s m) (MemorySigner.pubkey s) m = true.
Proof.
  unfold verifies, MemorySigner.sign_bytes, MemorySigner.pubkey. rewrite array_try_from_bytes.
  destruct (keypair_sound (keypair s) m) as (vk & -> & Hv). exact Hv.
Qed.

#[global] Instance memory_signer_laws `{SdkLaws} `{Codecs} : TransactionSignerLaws MemorySigner.
Proof.
  split. intros s tx. change (sign_transaction s tx) with (MemorySigner.sign_transaction s tx).
  assert (Heq : MemorySigner.sign_transaction s tx =
    mut_bind (keep_bind tx (ret (Ok (MemorySigner.sign_bytes s (message_serialize (message tx)))))
        (fun sg => of_run (attach_and_serialize tx (MemorySigner.pubkey s) sg)))
      (fun tx st => ret (tx, Ok (classify_signed_transaction tx st)))) by done.
  rewrite Heq. apply (sign_attach_classify (MemorySigner.pubkey s)). apply returns_ret, memory_signature_verifies.
Qed.

#[global] Instance memory_message_laws `{SdkLaws} : MessageSignerLaws MemorySigner.
Proof.
  split. intros s m. apply returns_ret. exists (MemorySigner.pubkey s).
  split; [done|]. apply memory_signature_verifies.
Qed.

(** A transaction of one signer, sent to a network that drops the answer. *)
Module MemoryDemo.
Import Demo.

Definition demo_signer : MemorySigner := mkMemorySigner (array_repeat 32 x01).
Definition demo_tx : VersionedTransaction :=
  mkTransaction [] (DemoMessage x01 [array_repeat 32 x01] (as_bytes "transfer") false).
Definition lost_answer (encoded : string) : M (result Signature) := ret (Err (HttpError "reset")).
Definition demo_world : World :=
  mkWorld [] ∅ (fun _ _ => Refused "down") (fun _ _ => None) (fun _ => 0%Z) (fun _ => EmptyString).

(** What the run returns. *)
Definition demo_sent : VersionedTransaction * result Signature :=
  match (sign_and_send demo_signer demo_tx lost_answer demo_world).1 with
  | Returned p => p
  | _ => (demo_tx, Err (Other "no run"))
  end.

Lemma sign_and_send_spec_witness :
  has_all_required_signatures demo_sent.1 = true /\
  exists res w1, sign_transaction demo_signer demo_tx demo_world = (Returned (demo_sent.1, res), w1) /\
    match res with
    | Err e => demo_sent.2 = Err e /\ demo_world = w1
    | Ok res => exists pk, pubkey demo_signer = Returned pk /\ signed_as_given pk demo_tx demo_sent.1 res /\
                  broadcast_outcome demo_sent.1 (into_signed_transaction res).1 lost_answer w1 demo_sent.2 demo_world
    end.
Proof.
  split; [vm_compute; reflexivity|].
  refine (sign_and_send_spec demo_signer demo_tx lost_answer demo_world demo_sent.1 demo_sent.2 demo_world _).
  vm_compute. reflexivity.
Defined.

End MemoryDemo.
