(* ===== verification/Vault.v ===== *)
(** * HashiCorp Vault signer (src/rust/src/vault/mod.rs) *)

From S2P Require Import Prelude Errors World Externals TransactionUtil SignatureUtil RemoteUtil Traits.

#[local] Open Scope keychain_scope.

Record VaultSigner := mkVaultSigner {
  client : ClientBuilder;
  api_base_url : string;
  token : string;
  key_name : string;
  public_key : Pubkey
}.

Record VaultSignerConfig := mkVaultSignerConfig {
  cfg_api_base_url : string;
  cfg_token : string;
  cfg_key_name : string;
  cfg_public_key : string;
  cfg_http_client_config : option HttpClientConfig
}.

Definition strip_vault_signature_prefix (signature : string) : string :=
  match strip_prefix "vault:v" signature with
  | None => signature
  | Some rest =>
      match split_once x3a (as_bytes rest) with
      | None => signature
      | Some (version, encoded_signature) =>
          if bool_decide (version = []) || negb (forallb is_ascii_digit version) then signature
          else of_bytes encoded_signature
      end
  end.

Section Vault.
Context `{Codecs} `{SolanaSdk} `{Json} `{ClientBuild}.

(** [client_builder.redirect(..)] replaces the caller's redirect policy. *)
Definition with_redirect (p : RedirectPolicy) (b : ClientBuilder) : ClientBuilder :=
  mkClientBuilder (cb_timeout b) (cb_connect_timeout b) (cb_https_only b) p (cb_user_agent b).

Definition with_client_builder (client_builder : ClientBuilder)
    (api_base_url token key_name public_key : string) : result VaultSigner :=
  let client := with_redirect no_redirect_policy client_builder in
  let? _ := map_err (fun e => ConfigError ("Failed to build HTTP client: " +:+ e)) (reqwest_build client) in
  let? public_key := map_err (fun _ => InvalidPublicKey "Invalid public key") (pubkey_from_str public_key) in
  Ok (mkVaultSigner client (normalize_base_url api_base_url) token key_name public_key).

Definition from_config (config : VaultSignerConfig) : result VaultSigner :=
  let http_client_config := default (mkHttpClientConfig None None) (cfg_http_client_config config) in
  with_client_builder (client_builder http_client_config) (cfg_api_base_url config)
    (cfg_token config) (cfg_key_name config) (cfg_public_key config).

Definition new (api_base_url token key_name public_key : string) : result VaultSigner :=
  from_config (mkVaultSignerConfig api_base_url token key_name public_key None).

Definition sign_bytes (self : VaultSigner) (serialized : list byte) : M (result Signature) :=
  let url := api_base_url self +:+ "/v1/transit/sign/" +:+ key_name self in
  let payload := JObject [("input", JString (base64_encode serialized))] in
  try! response := fmap_err (fun e => remote_api ("Failed to send request to Vault: " +:+ e))
                     (post_json url [("X-Vault-Token", token self)] (value_to_vec payload)) in
  try! body := parse_json_response value_from_slice response "Vault API" in
  try signature_b64 := ok_or (remote_api "No signature in Vault response")
                         (as_str (value_index (value_index body "data") "signature")) in
  let signature_b64 := strip_vault_signature_prefix signature_b64 in
  try sig := signature_from_base64 signature_b64 in
  try _ := verify_or_reject sig (public_key self) serialized in
  ret (Ok sig).

Definition sign_and_serialize (self : VaultSigner) (transaction : VersionedTransaction)
    : M (VersionedTransaction * result SignedTransaction) :=
  try! signature := sign_bytes self (message_serialize (message transaction)) keeping transaction in
  of_run (attach_and_serialize transaction (public_key self) signature).

Definition latest_key_matches_public_key (self : VaultSigner) (body : Value) : bool :=
  match as_u64 (value_index (value_index body "data") "latest_version") with
  | None => false
  | Some latest_version =>
      match as_str (value_index (value_index (value_index (value_index body "data") "keys")
                                   (pretty latest_version)) "public_key") with
      | None => false
      | Some encoded =>
          match base64_decode encoded with
          | Ok key => bool_decide (key = arr_bytes (public_key self))
          | Err _ => false
          end
      end
  end.

Definition is_available (self : VaultSigner) : M bool :=
  let url := api_base_url self +:+ "/v1/transit/keys/" +:+ key_name self in
  let! response := http_get url [("X-Vault-Token", token self)] in
  match response with
  | Err _ => ret false
  | Ok response =>
      if negb (is_success (resp_status response)) then ret false else
      let! body := read_body_capped response in
      match body with
      | Err _ => ret false
      | Ok body =>
          match value_from_slice body with
          | Err _ => ret false
          | Ok body =>
              let supports_signing :=
                bool_decide (as_bool (value_index (value_index body "data") "supports_signing") = Some true) in
              let key_type_is_ed25519 :=
                bool_decide (as_str (value_index (value_index body "data") "type") = Some "ed25519") in
              ret (supports_signing && key_type_is_ed25519 && latest_key_matches_public_key self body)
          end
      end
  end.

Definition sign_transaction (self : VaultSigner) (tx : VersionedTransaction)
    : M (VersionedTransaction * result SignTransactionResult) :=
  mut! (tx, signed_transaction) := sign_and_serialize self tx in
  ret (tx, Ok (classify_signed_transaction tx signed_transaction)).

#[global] Instance vault_solana_signer : SolanaSigner VaultSigner := {
  Traits.pubkey self := Returned (public_key self);
  Traits.sign_message self message := sign_bytes self message;
  Traits.is_available := is_available
}.

#[global] Instance vault_transaction_signer : TransactionSigner VaultSigner := {
  transaction_signer_base := vault_solana_signer;
  Traits.sign_transaction := sign_transaction
}.

(** ** Lemmas and theorems *)

Lemma vault_sign_bytes_verified self b :
  returns (sign_bytes self b) (on_ok (fun sg => verifies sg (public_key self) b = true)).
Proof. unfold sign_bytes. walk. simpl. eauto with keychain. Qed.

#[global] Instance vault_laws : TransactionSignerLaws VaultSigner.
Proof.
  split. intros s tx. apply (sign_attach_classify (public_key s)), vault_sign_bytes_verified.
Qed.

#[global] Instance vault_message_laws : MessageSignerLaws VaultSigner.
Proof.
  split. intros s m. eapply returns_weaken; [apply vault_sign_bytes_verified|].
  intros [sg|e] Hv; [by exists (public_key s)|done].
Qed.

Lemma vault_confined s : confined s (sign_transaction s) (api_base_url s).
Proof.
  split; [change Traits.sign_message with sign_bytes| |change Traits.is_available with is_available].
  - intros m. unfold sign_bytes. walk_requests.
  - intros tx. unfold sign_transaction, sign_and_serialize, sign_bytes. walk_requests.
  - unfold is_available. walk_requests.
Qed.

(** A transit prefix [vault:v<digits>:] of any key version is removed
    and nothing else is: the result is either what follows such a prefix or the
    signature as it came. *)
Theorem strip_vault_signature_prefix_spec (v : list byte) (enc s : string) :
  (v ≠ [] -> forallb is_ascii_digit v = true ->
   strip_vault_signature_prefix ("vault:v" +:+ of_bytes v +:+ ":" +:+ enc) = enc) /\
  (strip_vault_signature_prefix s = s \/
   exists v, v ≠ [] /\ forallb is_ascii_digit v = true /\
     s = "vault:v" +:+ of_bytes v +:+ ":" +:+ strip_vault_signature_prefix s).
Proof.
  split.
  - intros Hne Hd. unfold strip_vault_signature_prefix.
    rewrite (proj2 (strip_prefix_Some _ _ _) eq_refl), !as_bytes_app, as_bytes_of_bytes.
    change (as_bytes ":" ++ as_bytes enc) with (x3a :: as_bytes enc).
    rewrite split_once_app.
    2: { intros Hin. rewrite forallb_forall in Hd.
         specialize (Hd x3a (proj1 (list_elem_of_In _ _) Hin)). done. }
    rewrite Hd, bool_decide_eq_false_2 by done. cbn. apply of_bytes_as_bytes.
  - unfold strip_vault_signature_prefix.
    destruct (strip_prefix "vault:v" s) as [rest|] eqn:Hp; [|by left].
    destruct (split_once x3a (as_bytes rest)) as [[ver enc']|] eqn:Hs; [|by left].
    destruct (bool_decide (ver = [])) eqn:Hv; [by left|].
    destruct (forallb is_ascii_digit ver) eqn:Hd; [|by left]. right. cbn [negb orb].
    apply strip_prefix_Some in Hp. apply split_once_Some in Hs as [Hs _].
    apply bool_decide_eq_false in Hv. exists ver. split_and!; [done..|]. rewrite Hp. f_equal.
    apply as_bytes_inj. by rewrite Hs, !as_bytes_app, !as_bytes_of_bytes.
Qed.

(** Vault reports available only after one metadata request whose
    answer describes an Ed25519 signing key whose latest version, the one
    signing uses, is the configured public key. *)
Theorem vault_is_available_spec (self : VaultSigner) (w w' : World) :
  is_available self w = (Returned true, w') ->
  exists resp body v ver enc,
    w_http w (w_trace w) (mkRequest "GET" (api_base_url self +:+ "/v1/transit/keys/" +:+ key_name self)
        [("X-Vault-Token", token self)] []) = Reply resp /\
    is_success (resp_status resp) = true /\ length body <= MAX_RESPONSE_BYTES /\
    value_from_slice body = Ok v /\
    as_bool (value_index (value_index v "data") "supports_signing") = Some true /\
    as_str (value_index (value_index v "data") "type") = Some "ed25519" /\
    as_u64 (value_index (value_index v "data") "latest_version") = Some ver /\
    as_str (value_index (value_index (value_index (value_index v "data") "keys") (pretty ver))
              "public_key") = Some enc /\
    base64_decode enc = Ok (arr_bytes (public_key self)).
Proof.
  unfold is_available, http_get, http_send, bind at 1.
  destruct (w_http _ _ _) as [resp|e|why] eqn:Hh; [|done..].
  destruct (is_success (resp_status resp)) eqn:Hst; [|done]. cbn [negb]. unfold bind.
  destruct (read_body_capped resp _) as [[[body|e]| |] w1] eqn:Hb; [|done..].
  destruct (value_from_slice body) as [v|e] eqn:Hv; [|done].
  intros [= HR _]. apply andb_true_iff in HR as [[Hs%bool_decide_eq_true Ht%bool_decide_eq_true]%andb_true_iff Hk].
  unfold latest_key_matches_public_key in Hk.
  destruct (as_u64 _) as [ver|] eqn:Hver; [|done].
  destruct (as_str (value_index (value_index (value_index _ _) _) _)) as [enc|] eqn:Henc; [|done].
  destruct (base64_decode enc) as [key|] eqn:Hd; [|done]. apply bool_decide_eq_true in Hk as ->.
  exists resp, body, v, ver, enc. split_and!; try done.
  by eapply read_chunks_capped; [|exact Hb]; simpl; lia.
Qed.

End Vault.

(** A Vault that serves a signing key. *)
Module VaultDemo.
Import Demo.

#[export] Instance demo_build : ClientBuild := {| reqwest_build := fun _ => Ok tt |}.
Definition key : Pubkey := array_repeat 32 x41.
Definition key_info : Value :=
  JObject [("data", JObject [("supports_signing", JBool true); ("type", JString "ed25519");
    ("latest_version", JNumber (PosInt 1));
    ("keys", JObject [("1", JObject [("public_key", JString (base64_encode (arr_bytes key)))])])])].
#[export] Instance demo_json : Json := {|
  value_from_slice := fun _ => Ok key_info;
  value_to_vec := fun _ => Ok [];
  vec_u8_from_str := fun _ => Err "unused"
|}.
Definition demo_signer : VaultSigner :=
  mkVaultSigner (client_builder (mkHttpClientConfig None None)) "https://vault" "token" "key" key.

Lemma vault_is_available_spec_witness :
  exists w', is_available demo_signer (answering_world 200 []) = (Returned true, w') /\
    exists resp body v ver enc,
      w_http (answering_world 200 []) [] (mkRequest "GET" "https://vault/v1/transit/keys/key"
          [("X-Vault-Token", "token")] []) = Reply resp /\
      is_success (resp_status resp) = true /\ length body <= MAX_RESPONSE_BYTES /\
      value_from_slice body = Ok v /\
      as_bool (value_index (value_index v "data") "supports_signing") = Some true /\
      as_str (value_index (value_index v "data") "type") = Some "ed25519" /\
      as_u64 (value_index (value_index v "data") "latest_version") = Some ver /\
      as_str (value_index (value_index (value_index (value_index v "data") "keys") (pretty ver))
                "public_key") = Some enc /\
      base64_decode enc = Ok (arr_bytes key).
Proof.
  eexists.
  match goal with |- ?A = ?B /\ _ => assert (E : A = B) by (vm_compute; reflexivity) end.
  split; [exact E|]. exact (vault_is_available_spec demo_signer _ _ E).
Defined.

Lemma strip_vault_signature_prefix_spec_witness :
  as_bytes "12" ≠ [] /\ strip_vault_signature_prefix "vault:v12:abc" = "abc".
Proof.
  split; [discriminate|].
  refine (proj1 (strip_vault_signature_prefix_spec (as_bytes "12") "abc" EmptyString) _ _);
    [discriminate|vm_compute; reflexivity].
Defined.

End VaultDemo.
