(* ===== verification/Fireblocks.v ===== *)
(** * Fireblocks signer
    (src/rust/src/fireblocks/mod.rs, fireblocks/types.rs, fireblocks/jwt.rs)

    RAW and PROGRAM_CALL signing through a create/poll protocol. *)

From S2P Require Import Prelude Errors World Externals TransactionUtil SignatureUtil RemoteUtil Traits.

#[local] Open Scope keychain_scope.

(** ** types.rs *)

Record TransactionSource := mkSource { source_type : string; source_id : string }.

Inductive ExtraParameters :=
  | Raw (contents : list string)
  | ProgramCall (program_call_data : string) (sign_only use_durable_nonce : bool).

Record CreateTransactionRequest := mkCreateRequest {
  req_asset_id : string;
  req_operation : string;
  req_source : TransactionSource;
  req_extra_parameters : option ExtraParameters
}.

(** The [Serialize] derivations, camel case. *)
Definition extra_parameters_value (e : ExtraParameters) : Value :=
  match e with
  | Raw contents =>
      JObject [("rawMessageData",
        JObject [("messages", JArray (map (fun c => JObject [("content", JString c)]) contents))])]
  | ProgramCall data sign_only use_durable_nonce =>
      JObject [("programCallData", JString data); ("signOnly", JBool sign_only);
               ("useDurableNonce", JBool use_durable_nonce)]
  end.

Definition create_request_value (r : CreateTransactionRequest) : Value :=
  JObject ([("assetId", JString (req_asset_id r)); ("operation", JString (req_operation r));
            ("source", JObject [("type", JString (source_type (req_source r)));
                                ("id", JString (source_id (req_source r)))])] ++
           opt_field "extraParameters" (extra_parameters_value <$> req_extra_parameters r)).

Record CreateTransactionResponse := mkCreateResponse { created_id : string; created_status : string }.

Record TransactionResponse := mkTransactionResponse {
  tr_id : string;
  tr_status : string;
  tr_sub_status : option string;
  tr_signed_messages : list string;
  tr_tx_hash : option string
}.

Record VaultAddress := mkVaultAddress { address : string; asset_id_of : option string }.

(** The [Deserialize] derivations. *)
Class FireblocksCodec := {
  create_response_from_slice : list byte -> Result CreateTransactionResponse string;
  transaction_response_from_slice : list byte -> Result TransactionResponse string;
  vault_addresses_from_slice : list byte -> Result (list VaultAddress) string
}.

(** ** jwt.rs *)

Definition JWT_TTL_SECS : Z := 120.
Definition JWT_SKEW_LEEWAY_SECS : Z := 60.

Section Fireblocks.
Context `{Codecs} `{SolanaSdk} `{Json} `{ClientBuild} `{Jwt} `{FireblocksCodec}.

Definition create_jwt (api_key : string) (encoding_key : EncodingKey) (uri body : string)
    : M (result string) :=
  let! now := utc_timestamp in
  let issued_at := (now - JWT_SKEW_LEEWAY_SECS)%Z in
  let body_hash := hex_encode (arr_bytes (sha256 (as_bytes body))) in
  let! nonce := uuid_v4 in
  let claims := JObject [("uri", JString uri); ("nonce", JString nonce); ("iat", jint issued_at);
    ("nbf", jint issued_at); ("exp", jint (now + JWT_TTL_SECS)%Z); ("sub", JString api_key);
    ("bodyHash", JString body_hash)] in
  ret (map_err (fun _ => SigningFailed "Failed to create JWT") (jwt_encode "RS256" [] claims encoding_key)).

Definition parse_encoding_key (private_key_pem : string) : result EncodingKey :=
  map_err (fun _ => InvalidPrivateKey "Failed to parse RSA key") (from_rsa_pem (as_bytes private_key_pem)).

(** ** mod.rs *)

Definition DEFAULT_POLL_INTERVAL_MS : Z := 1000.
Definition DEFAULT_MAX_POLL_ATTEMPTS : nat := 300.

Inductive SigningMode := ModeRaw | ModeProgramCall.

Record FireblocksSigner := mkFireblocksSigner {
  api_key : string;
  signing_key : EncodingKey;
  vault_account_id : string;
  asset_id : string;
  public_key : option Pubkey;
  api_base_url : string;
  client : ClientBuilder;
  poll_interval_ms : Z;
  max_poll_attempts : nat;
  use_program_call : bool
}.

Record FireblocksSignerConfig := mkFireblocksSignerConfig {
  cfg_api_key : string;
  cfg_private_key_pem : string;
  cfg_vault_account_id : string;
  cfg_asset_id : option string;
  cfg_api_base_url : option string;
  cfg_poll_interval_ms : option Z;
  cfg_max_poll_attempts : option nat;
  cfg_use_program_call : option bool;
  cfg_http_client_config : option HttpClientConfig
}.

Definition from_config (config : FireblocksSignerConfig) : result FireblocksSigner :=
  let http_client_config := default (mkHttpClientConfig None None) (cfg_http_client_config config) in
  let? client := build_client http_client_config in
  let? signing_key := parse_encoding_key (cfg_private_key_pem config) in
  let poll_interval_ms := default DEFAULT_POLL_INTERVAL_MS (cfg_poll_interval_ms config) in
  if (poll_interval_ms =? 0)%Z then Err (ConfigError "poll_interval_ms must be greater than 0") else
  let max_poll_attempts := default DEFAULT_MAX_POLL_ATTEMPTS (cfg_max_poll_attempts config) in
  if max_poll_attempts =? 0 then Err (ConfigError "max_poll_attempts must be greater than 0") else
  Ok (mkFireblocksSigner (cfg_api_key config) signing_key (cfg_vault_account_id config)
        (default "SOL" (cfg_asset_id config)) None
        (normalize_base_url (default "https://api.fireblocks.io" (cfg_api_base_url config)))
        client poll_interval_ms max_poll_attempts (default false (cfg_use_program_call config))).

Definition new (config : FireblocksSignerConfig) : result FireblocksSigner := from_config config.

Definition initialized_pubkey (self : FireblocksSigner) : result Pubkey :=
  ok_or (ConfigError "FireblocksSigner is not initialized; call init() before signing") (public_key self).

Definition create_auth_token (self : FireblocksSigner) (uri body : string) : M (result string) :=
  create_jwt (api_key self) (signing_key self) uri body.

(** [for entry in addresses]: the distinct addresses that match the asset. *)
Fixpoint collect_addresses (self : FireblocksSigner) (unique : list string)
    (addresses : list VaultAddress) : list string :=
  match addresses with
  | [] => unique
  | entry :: r =>
      if str_is_empty (address entry) then collect_addresses self unique r else
      if match asset_id_of entry with
         | Some a => negb (str_is_empty a) && bool_decide (a ≠ asset_id self)
         | None => false
         end
      then collect_addresses self unique r
      else if bool_decide (address entry ∈ unique) then collect_addresses self unique r
      else collect_addresses self (unique ++ [address entry]) r
  end.

Definition select_vault_address (self : FireblocksSigner) (addresses : list VaultAddress)
    : result string :=
  let unique := collect_addresses self [] addresses in
  match unique with
  | [address] => Ok address
  | [] => Err (InvalidPublicKey ("Fireblocks returned no address for vault account " +:+
            vault_account_id self +:+ " asset " +:+ asset_id self))
  | _ => Err (InvalidPublicKey ("Fireblocks returned " +:+ pretty (length unique) +:+
            " addresses for vault account " +:+ vault_account_id self +:+ " asset " +:+ asset_id self +:+
            "; cannot choose a signing identity"))
  end.

Definition auth_headers (self : FireblocksSigner) (token : string) : list (string * string) :=
  [("X-API-Key", api_key self); ("Authorization", "Bearer " +:+ token)].

Definition fetch_public_key (self : FireblocksSigner) : M (result Pubkey) :=
  let uri := "/v1/vault/accounts/" +:+ vault_account_id self +:+ "/" +:+ asset_id self +:+
             "/addresses_paginated" in
  try! token := create_auth_token self uri EmptyString in
  let url := api_base_url self +:+ uri in
  try! response := fmap_err from_reqwest_error (http_get url (auth_headers self token)) in
  try! addresses := parse_json_response vault_addresses_from_slice response "Fireblocks API fetch_public_key" in
  try address := select_vault_address self addresses in
  ret (map_err (fun _ => InvalidPublicKey "Invalid public key from Fireblocks") (pubkey_from_str address)).

Definition with_public_key (self : FireblocksSigner) (pk : Pubkey) : FireblocksSigner :=
  mkFireblocksSigner (api_key self) (signing_key self) (vault_account_id self) (asset_id self) (Some pk)
    (api_base_url self) (client self) (poll_interval_ms self) (max_poll_attempts self) (use_program_call self).

(** [&mut self]: the signer comes back beside the result. *)
Definition init (self : FireblocksSigner) : M (FireblocksSigner * result unit) :=
  let! pubkey := fetch_public_key self in
  match pubkey with
  | Ok pubkey => ret (with_public_key self pubkey, Ok tt)
  | Err e => ret (self, Err e)
  end.

Definition create_transaction (self : FireblocksSigner) (request : CreateTransactionRequest)
    : M (result CreateTransactionResponse) :=
  let uri := "/v1/transactions" in
  try body := map_err from_serde_error (value_to_vec (create_request_value request)) in
  try! token := create_auth_token self uri (of_bytes body) in
  let url := api_base_url self +:+ uri in
  try! response := fmap_err from_reqwest_error
    (http_send (mkRequest "POST" url (("Content-Type", "application/json") :: auth_headers self token) body)) in
  try! created := parse_json_response create_response_from_slice response "Fireblocks API create_transaction" in
  if str_is_empty (trim (created_id created)) then
    ret (Err (SerializationError "Fireblocks create response did not include a transaction id"))
  else ret (Ok created).

Definition get_transaction (self : FireblocksSigner) (tx_id : string) : M (result TransactionResponse) :=
  let uri := "/v1/transactions/" +:+ tx_id in
  try! token := create_auth_token self uri EmptyString in
  let url := api_base_url self +:+ uri in
  try! response := fmap_err from_reqwest_error (http_get url (auth_headers self token)) in
  parse_json_response transaction_response_from_slice response "Fireblocks API get_transaction".

(** The match on [(mode, response.status)]. *)
Definition classify_status (mode : SigningMode) (tx_id : string) (response : TransactionResponse)
    : result (PollOutcome TransactionResponse) :=
  let status := tr_status response in
  let broadcast := bool_decide (status ∈ ["BROADCASTING"; "CONFIRMING"; "COMPLETED"]) in
  let failed := bool_decide (status ∈ ["FAILED"; "CANCELLED"; "REJECTED"; "BLOCKED"]) in
  match mode with
  | ModeProgramCall =>
      if bool_decide (status = "SIGNED") then Ok (Done response)
      else if broadcast then
        Err (BroadcastUnconfirmed (Some tx_id) None None None
          ("Fireblocks broadcast the PROGRAM_CALL despite signOnly (status " +:+ status +:+
           "); the transaction may already be executing"))
      else if failed then Err (SigningFailed ("Transaction " +:+ status +:+ ": " +:+ tx_id))
      else Ok Pending
  | ModeRaw =>
      if bool_decide (status = "COMPLETED") then Ok (Done response)
      else if failed then Err (SigningFailed ("Transaction " +:+ status +:+ ": " +:+ tx_id))
      else Ok Pending
  end.

Definition poll_timeout_error (self : FireblocksSigner) (tx_id : string) : SignerError :=
  RemoteApiError ("Transaction polling timeout after " +:+ pretty (max_poll_attempts self) +:+
                  " attempts - signing request may still complete") (Some tx_id).

Definition poll_attempt (self : FireblocksSigner) (tx_id : string) (mode : SigningMode)
    : M (result (PollOutcome TransactionResponse)) :=
  try! response := get_transaction self tx_id in
  ret (classify_status mode tx_id response).

Definition poll_for_completion (self : FireblocksSigner) (tx_id : string) (mode : SigningMode)
    : M (result TransactionResponse) :=
  poll_until (max_poll_attempts self) (poll_interval_ms self) (poll_timeout_error self tx_id)
    (poll_attempt self tx_id mode).

Definition signature_from_signed_messages (response : TransactionResponse) : result Signature :=
  match tr_signed_messages response with
  | full_sig :: _ => signature_from_hex full_sig
  | [] => Err (SigningFailed "No reusable signature found in response (no signed_messages)")
  end.

Definition raw_request (self : FireblocksSigner) (message : list byte) : CreateTransactionRequest :=
  mkCreateRequest (asset_id self) "RAW" (mkSource "VAULT_ACCOUNT" (vault_account_id self))
    (Some (Raw [hex_encode message])).

Definition sign_raw_bytes (self : FireblocksSigner) (message : list byte) : M (result Signature) :=
  try public_key := initialized_pubkey self in
  try! create_response := create_transaction self (raw_request self message) in
  try! tx_response := poll_for_completion self (created_id create_response) ModeRaw in
  try sig := signature_from_signed_messages tx_response in
  try _ := verify_or_reject sig public_key message in
  ret (Ok sig).

Definition program_call_request (self : FireblocksSigner) (data : string) : CreateTransactionRequest :=
  mkCreateRequest (asset_id self) "PROGRAM_CALL" (mkSource "VAULT_ACCOUNT" (vault_account_id self))
    (Some (ProgramCall data true false)).

Definition sign_program_call (self : FireblocksSigner) (transaction : VersionedTransaction)
    (message_bytes : list byte) : M (result Signature) :=
  try public_key := initialized_pubkey self in
  if is_v1_message transaction then
    ret (Err (SigningFailed "Fireblocks PROGRAM_CALL accepts legacy and v0 messages only; a v1 message cannot be signed in this mode"))
  else
    try data := serialize_transaction transaction in
    try! create_response := create_transaction self (program_call_request self data) in
    try! tx_response := poll_for_completion self (created_id create_response) ModeProgramCall in
    try sig := match signature_from_signed_messages tx_response with
               | Ok sig => Ok sig
               | Err no_signed_messages =>
                   match tr_tx_hash tx_response with
                   | Some tx_hash => signature_from_base58 tx_hash
                   | None => Err no_signed_messages
                   end
               end in
    if negb (verifies sig public_key message_bytes) then
      ret (Err (SigningFailed "Signature verification failed — the signature returned for the PROGRAM_CALL does not match the vault public key over the submitted message"))
    else ret (Ok sig).

Definition sign_and_serialize (self : FireblocksSigner) (transaction : VersionedTransaction)
    : M (VersionedTransaction * result SignedTransaction) :=
  try! public_key := ret (initialized_pubkey self) keeping transaction in
  let message_bytes := message_serialize (message transaction) in
  try! signature := (if use_program_call self then sign_program_call self transaction message_bytes
                     else sign_raw_bytes self message_bytes) keeping transaction in
  of_run (attach_and_serialize transaction public_key signature).

Definition check_availability (self : FireblocksSigner) : M bool :=
  match public_key self with
  | None => ret false
  | Some _ =>
      let uri := "/v1/vault/accounts/" +:+ vault_account_id self in
      let! token := create_auth_token self uri EmptyString in
      match token with
      | Err _ => ret false
      | Ok token =>
          let! response := http_get (api_base_url self +:+ uri) (auth_headers self token) in
          ret (match response with Ok resp => is_success (resp_status resp) | Err _ => false end)
      end
  end.

Definition is_available (self : FireblocksSigner) : M bool :=
  let! r := timeout (check_availability self) in ret (default false r).

Definition pubkey (self : FireblocksSigner) : run Pubkey :=
  expect_pubkey (public_key self).

Definition sign_transaction (self : FireblocksSigner) (tx : VersionedTransaction)
    : M (VersionedTransaction * result SignTransactionResult) :=
  mut! (tx, signed_transaction) := sign_and_serialize self tx in
  ret (tx, Ok (classify_signed_transaction tx signed_transaction)).

#[global] Instance fireblocks_solana_signer : SolanaSigner FireblocksSigner := {
  Traits.pubkey := pubkey;
  Traits.sign_message := sign_raw_bytes;
  Traits.is_available := is_available
}.

#[global] Instance fireblocks_transaction_signer : TransactionSigner FireblocksSigner := {
  transaction_signer_base := fireblocks_solana_signer;
  Traits.sign_transaction := sign_transaction
}.

(** ** Lemmas *)

Lemma fireblocks_raw_verified self b pk :
  public_key self = Some pk ->
  returns (sign_raw_bytes self b) (on_ok (fun sg => verifies sg pk b = true)).
Proof.
  intros Hpk. unfold sign_raw_bytes, initialized_pubkey. rewrite Hpk. walk. res_inv. simpl.
  simplify_eq/=. eauto with keychain.
Qed.

Lemma fireblocks_program_call_verified self tx b pk :
  public_key self = Some pk ->
  returns (sign_program_call self tx b) (on_ok (fun sg => verifies sg pk b = true)).
Proof.
  intros Hpk. unfold sign_program_call, initialized_pubkey. rewrite Hpk. walk; simplify_eq/=; try done.
  by apply negb_false_iff.
Qed.

#[global] Instance fireblocks_laws : TransactionSignerLaws FireblocksSigner.
Proof.
  split. intros s tx. apply (init_attach_classify (public_key s) _ tx (fun _ => if use_program_call s then _ else _)).
  intros pk Hpk. case_match; [by apply fireblocks_program_call_verified|by apply fireblocks_raw_verified].
Qed.

#[global] Instance fireblocks_message_laws : MessageSignerLaws FireblocksSigner.
Proof. split. intros s m. cbn. unfold sign_raw_bytes, initialized_pubkey. walk; simpl; eauto with keychain. Qed.

Lemma auth_token_silent self uri body Q : sends (create_auth_token self uri body) Q.
Proof. unfold create_auth_token, create_jwt. walk_sends. Qed.
#[local] Hint Resolve auth_token_silent : keychain.

Lemma fireblocks_create_under self request : sends (create_transaction self request) (under (api_base_url self)).
Proof. unfold create_transaction. walk_requests. Qed.

Lemma fireblocks_poll_under self id mode : sends (poll_for_completion self id mode) (under (api_base_url self)).
Proof. apply sends_poll_from. unfold poll_attempt, get_transaction. walk_requests. Qed.
#[local] Hint Resolve fireblocks_create_under fireblocks_poll_under : keychain.

Lemma fireblocks_confined s : confined s (sign_transaction s) (api_base_url s).
Proof.
  split; [change Traits.sign_message with sign_raw_bytes| |change Traits.is_available with is_available].
  - intros m. unfold sign_raw_bytes. walk_requests.
  - intros tx. unfold sign_transaction, sign_and_serialize, sign_program_call, sign_raw_bytes. walk_requests.
  - unfold is_available, check_availability. walk_requests.
Qed.

Lemma fireblocks_init_under s : sends (init s) (under (api_base_url s)).
Proof. unfold init, fetch_public_key. walk_requests. Qed.

(** *** Choosing the vault address *)

(** An entry that names an address for the configured asset. *)
Definition eligible (self : FireblocksSigner) (e : VaultAddress) : Prop :=
  address e ≠ EmptyString /\
  (asset_id_of e = None \/ asset_id_of e = Some EmptyString \/ asset_id_of e = Some (asset_id self)).

Lemma eligible_guard self e :
  (str_is_empty (address e) = false /\
   match asset_id_of e with
   | Some a => negb (str_is_empty a) && bool_decide (a ≠ asset_id self)
   | None => false
   end = false) <-> eligible self e.
Proof.
  unfold eligible, str_is_empty. rewrite bool_decide_eq_false.
  destruct (asset_id_of e) as [a|]; [|naive_solver].
  rewrite andb_false_iff, negb_false_iff, bool_decide_eq_true, bool_decide_eq_false.
  split; intros [Ha Hb]; (split; [done|]).
  - destruct Hb as [->|Hb]; [auto|]. right. right. f_equal. by apply dec_stable.
  - destruct Hb as [|[|]]; naive_solver.
Qed.

Lemma collect_addresses_spec self l unique x :
  x ∈ collect_addresses self unique l <->
  x ∈ unique \/ exists e, e ∈ l /\ eligible self e /\ address e = x.
Proof.
  revert unique. induction l as [|e l IH]; intros unique; cbn [collect_addresses].
  { split; [auto|]. intros [|(e & Hin & _)]; [done|]. by apply not_elem_of_nil in Hin. }
  assert (Hskip : ~ eligible self e ->
    (x ∈ unique \/ (exists e0, e0 ∈ l /\ eligible self e0 /\ address e0 = x)) <->
    (x ∈ unique \/ exists e0, e0 ∈ e :: l /\ eligible self e0 /\ address e0 = x)).
  { setoid_rewrite elem_of_cons. naive_solver. }
  pose proof (eligible_guard self e) as HG. setoid_rewrite elem_of_cons.
  destruct (str_is_empty (address e)) eqn:E1.
  { cbn iota. rewrite IH. rewrite Hskip by naive_solver. setoid_rewrite elem_of_cons. done. }
  destruct (match asset_id_of e with
            | Some a => negb (str_is_empty a) && bool_decide (a ≠ asset_id self)
            | None => false end) eqn:E2.
  { cbn iota. rewrite IH. rewrite Hskip by naive_solver. setoid_rewrite elem_of_cons. done. }
  assert (He : eligible self e) by by apply HG.
  case_bool_decide as Hin; cbn iota; rewrite IH, ?elem_of_app, ?list_elem_of_singleton; naive_solver.
Qed.

Lemma collect_addresses_NoDup self l unique :
  NoDup unique -> NoDup (collect_addresses self unique l).
Proof.
  revert unique. induction l as [|e l IH]; intros unique Hn; cbn [collect_addresses]; [done|].
  case_match; [by apply IH|].
  destruct (match asset_id_of e with Some _ => _ | None => _ end); [by apply IH|].
  case_bool_decide as Hin; [by apply IH|]. apply IH, NoDup_app. split_and!; [done| |apply NoDup_singleton].
  intros x Hx Hs%list_elem_of_singleton. by subst.
Qed.

(** The signing identity is chosen exactly when it is unambiguous:
    an address is returned if and only if some entry of the configured asset (or
    of no stated asset) names it and no entry names a different one. *)
Theorem select_vault_address_spec (self : FireblocksSigner) (l : list VaultAddress) (a : string) :
  select_vault_address self l = Ok a <->
  (exists e, e ∈ l /\ eligible self e /\ address e = a) /\
  (forall e, e ∈ l -> eligible self e -> address e = a).
Proof.
  unfold select_vault_address.
  pose proof (collect_addresses_spec self l []) as HS.
  pose proof (collect_addresses_NoDup self l [] (NoDup_nil_2)) as HN.
  assert (HE : forall x, x ∈ collect_addresses self [] l <->
    exists e, e ∈ l /\ eligible self e /\ address e = x).
  { intros x. rewrite HS. split; [|auto]. intros [Hx|]; [by apply not_elem_of_nil in Hx|done]. }
  clear HS. destruct (collect_addresses self [] l) as [|b [|c r]] eqn:EL.
  - split; [done|]. intros [Hx _]. by apply HE, not_elem_of_nil in Hx.
  - split.
    + intros [= ->]. split; [apply HE; constructor|]. intros e He Hel.
      apply list_elem_of_singleton, HE. eauto.
    + intros [Hx _]. apply HE, list_elem_of_singleton in Hx. by subst.
  - split; [done|]. intros [_ Hall].
    assert (b = a) by (destruct (proj1 (HE b)) as (e & ? & ? & <-); [constructor|auto]).
    assert (c = a) by (destruct (proj1 (HE c)) as (e & ? & ? & <-); [constructor; constructor|auto]).
    subst. apply NoDup_cons in HN as [Hn _]. destruct Hn. constructor.
Qed.

(** *** Polling *)

Lemma at_most_create_jwt p k u b c :
  p EvClock = false -> p EvUuid = false -> at_most p 0 (create_jwt k c u b).
Proof.
  intros Hc Hu. unfold create_jwt. apply (at_most_bind p 0 0).
  { intros w. unfold utc_timestamp. cbn [snd]. rewrite count_events_push, Hc. lia. }
  intros now. apply (at_most_bind p 0 0); [|intros id; apply at_most_ret].
  intros w. unfold uuid_v4. cbn [snd]. rewrite count_events_push, Hu. lia.
Qed.

Lemma at_most_get_transaction self id : at_most is_http 1 (get_transaction self id).
Proof.
  unfold get_transaction. apply (at_most_bind_res is_http 0 1); [by apply at_most_create_jwt|].
  intros token. apply (at_most_bind_res is_http 1 0); [apply at_most_fmap_err, at_most_http_send|].
  intros r. apply at_most_parse_json.
Qed.

Lemma poll_attempt_requests self id mode : at_most is_http 1 (poll_attempt self id mode).
Proof.
  apply (at_most_bind_res is_http 1 0); [apply at_most_get_transaction|]. intros r. apply at_most_ret.
Qed.

(** The status on which a mode hands a response to the signature extractor. *)
Definition final_status (mode : SigningMode) : string :=
  match mode with ModeRaw => "COMPLETED" | ModeProgramCall => "SIGNED" end.

Lemma classify_status_done mode id r r' :
  classify_status mode id r = Ok (Done r') -> r' = r /\ tr_status r = final_status mode.
Proof.
  unfold classify_status. destruct mode; repeat case_bool_decide; cbn; naive_solver.
Qed.

Lemma classify_status_unconfirmed mode id r i st k sg d :
  classify_status mode id r = Err (BroadcastUnconfirmed i st k sg d) ->
  mode = ModeProgramCall /\ i = Some id.
Proof.
  unfold classify_status. destruct mode; repeat case_bool_decide; cbn; naive_solver.
Qed.

(** The only errors [get_transaction] reports are transport, parsing and
    authentication ones. *)
Lemma get_transaction_not_unconfirmed self id : returns (get_transaction self id) plain_errors.
Proof.
  unfold get_transaction. apply plain_bind_res.
  { walk. by destruct (jwt_encode _ _ _ _). }
  intros token. apply plain_bind_res; [|intros r; apply parse_json_plain].
  unfold fmap_err. walk. by destruct a.
Qed.

(** Polling a Fireblocks transaction makes at most
    [max_poll_attempts] requests.  It hands over a response only in the one
    status that carries a usable signature for the mode ([COMPLETED] for RAW,
    [SIGNED] for PROGRAM_CALL); a PROGRAM_CALL that Fireblocks broadcast against
    [signOnly] is the only outcome reported as unconfirmed, and it carries the
    provider's transaction id. *)
Theorem fireblocks_poll_spec (self : FireblocksSigner) (tx_id : string) (mode : SigningMode)
    (w : World) (r : Result TransactionResponse SignerError) (w' : World) :
  poll_for_completion self tx_id mode w = (Returned r, w') ->
  count_events is_http w' <= count_events is_http w + max_poll_attempts self /\
  match r with
  | Ok resp => tr_status resp = final_status mode
  | Err (BroadcastUnconfirmed id _ _ _ _) => mode = ModeProgramCall /\ id = Some tx_id
  | Err _ => True
  end.
Proof.
  unfold poll_for_completion. intros HP. split.
  { pose proof (at_most_poll_from is_http 1 0 (max_poll_attempts self) (poll_interval_ms self)
      (poll_timeout_error self tx_id) _ eq_refl (poll_attempt_requests self tx_id mode) w) as HA.
    unfold poll_until in HP. rewrite HP in HA. simpl in HA. lia. }
  apply (poll_from_spec _ _ _ w 0) in HP; [|constructor].
  destruct HP as [(k & _ & w1 & w2 & _ & _ & Ha)|[-> _]]; [|done].
  unfold poll_attempt, bind_res, bind in Ha.
  destruct (get_transaction self tx_id w2) as [[[resp|e]| |] w3] eqn:Eg; [| |done..].
  - injection Ha as Ha _. destruct r as [resp'|e].
    + by apply classify_status_done in Ha as [-> ?].
    + destruct e; try done. by eapply classify_status_unconfirmed.
  - injection Ha as Ha _. destruct r as [resp'|e']; [done|]. injection Ha as ->.
    apply get_transaction_not_unconfirmed in Eg. by destruct e'.
Qed.

End Fireblocks.

(** A provider that reports a PROGRAM_CALL as already broadcast. *)
Module FireblocksDemo.
Import Demo DemoJson DemoJwt.

#[export] Instance demo_build : ClientBuild := {| reqwest_build := fun _ => Ok tt |}.
#[export] Instance demo_codec : FireblocksCodec := {|
  create_response_from_slice := fun _ => Ok (mkCreateResponse "tx-1" "SUBMITTED");
  transaction_response_from_slice := fun b => Ok (mkTransactionResponse "tx-1" (of_bytes b) None [] None);
  vault_addresses_from_slice := fun _ => Ok []
|}.

Definition demo_signer : FireblocksSigner :=
  mkFireblocksSigner "key" [] "0" "SOL" (Some (array_repeat 32 x01)) "https://api" 
    (client_builder (mkHttpClientConfig None None)) 1000 3 true.

Lemma fireblocks_poll_spec_witness :
  exists d w', poll_for_completion demo_signer "tx-1" ModeProgramCall
                 (answering_world 200 (as_bytes "BROADCASTING")) =
               (Returned (Err (BroadcastUnconfirmed (Some "tx-1") None None None d)), w') /\
    (count_events is_http w' <= 0 + 3 /\ ModeProgramCall = ModeProgramCall /\ Some "tx-1" = Some "tx-1").
Proof.
  eexists _, _.
  match goal with |- ?A = ?B /\ _ => assert (E : A = B) by (vm_compute; reflexivity) end.
  split; [exact E|]. exact (fireblocks_poll_spec demo_signer "tx-1" ModeProgramCall _ _ _ E).
Defined.

End FireblocksDemo.
