(* ===== verification/Crossmint.v ===== *)
(** * Crossmint signer (src/rust/src/crossmint/mod.rs, crossmint/types.rs)

    A sending signer: Crossmint signs and broadcasts; the crate creates the
    transaction, approves it once when asked to, polls it and classifies every
    failure.  The theorems say what a failure or a cancellation leaves the
    caller with, and how many requests a call can make. *)

From S2P Require Import Prelude Errors World Externals TransactionUtil SignatureUtil RemoteUtil Traits.

#[local] Open Scope keychain_scope.

(** ** types.rs *)

Record WalletResponse := mkWallet { chain_type : string; wallet_type : string; wallet_address : string }.

Record CreateTransactionRequest := mkCreateRequest { params_transaction : string; params_signer : option string }.

Definition create_request_value (r : CreateTransactionRequest) : Value :=
  JObject [("params", JObject (("transaction", JString (params_transaction r)) ::
                               opt_field "signer" (JString <$> params_signer r)))].

Record OnChainData := mkOnChain { oc_transaction : option string; oc_tx_id : option string }.

Record PendingApproval := mkApproval {
  pa_message : option string;
  (** [signer: Option<ApprovalSigner>], whose only field is [locator]. *)
  pa_signer : option (option string)
}.

Record TransactionResponse := mkTransactionResponse {
  tr_id : string;
  tr_status : string;
  tr_on_chain : option OnChainData;
  tr_approvals : option (list PendingApproval);
  tr_error : option Value
}.

(** [serde_json::from_value] for the two response types. *)
Class CrossmintCodec := {
  wallet_from_value : Value -> Result WalletResponse string;
  transaction_from_value : Value -> Result TransactionResponse string
}.

(** ** mod.rs *)

Definition DEFAULT_BASE_URL : string := "https://www.crossmint.com/api".
Definition CLIENT_TIMEOUT : Z := 60 * 1000.
Definition DEFAULT_POLL_INTERVAL_MS : Z := 1000.
Definition DEFAULT_MAX_POLL_ATTEMPTS : nat := 60.

Record CrossmintSignerConfig := mkConfig {
  cfg_api_key : string;
  cfg_wallet_locator : string;
  cfg_signer_secret : option string;
  cfg_signer : option string;
  cfg_api_base_url : option string;
  cfg_poll_interval_ms : option Z;
  cfg_max_poll_attempts : option nat
}.

Section Crossmint.
Context `{Codecs} `{SolanaSdk} `{Json} `{ClientBuild} `{UrlParser} `{Dalek} `{StdText} `{CrossmintCodec}.

Record CrossmintSigner := mkCrossmintSigner {
  api_key : string;
  wallet_locator : string;
  signer : option string;
  api_base_url : string;
  client : ClientBuilder;
  public_key : option Pubkey;
  poll_interval_ms : Z;
  max_poll_attempts : nat;
  signing_key : option SigningKey;
  (** The shared cell of a registered [PendingTransactionId]. *)
  pending_transaction_id : option nat
}.

Definition parse_api_key (api_key : string) : result (string * string) :=
  match split_once x5f (as_bytes api_key) with
  | None => Err (ConfigError "Invalid API key format")
  | Some (_, rest) =>
      match split_once x5f rest with
      | None => Err (ConfigError "Invalid API key format")
      | Some (environment, base58_data) =>
          let? decoded := map_err (fun e => ConfigError ("Failed to decode API key data: " +:+ e))
                            (bs58_decode (of_bytes base58_data)) in
          if negb (utf8_valid decoded) then
            Err (ConfigError ("API key data is not valid UTF-8: " +:+ utf8_error decoded))
          else
            let project_id := match split_once x3a decoded with Some (p, _) => p | None => decoded end in
            Ok (of_bytes project_id, of_bytes environment)
      end
  end.

(** [u8::from_str_radix(pair, 16)] on two bytes: a leading [+] is a sign. *)
Definition hex_value (b : byte) : option Z :=
  let n := u8_val b in
  if ((48 <=? n) && (n <=? 57))%Z then Some (n - 48)%Z
  else if ((65 <=? n) && (n <=? 70))%Z then Some (n - 55)%Z
  else if ((97 <=? n) && (n <=? 102))%Z then Some (n - 87)%Z else None.

Definition u8_from_hex_pair (a b : byte) : option byte :=
  if bool_decide (a = x2b) then u8_of_Z <$> hex_value b
  else match hex_value a, hex_value b with
       | Some x, Some y => Some (u8_of_Z (x * 16 + y))
       | _, _ => None
       end.

(** [as_chunks::<2>().0] and the collected conversions. *)
Fixpoint hex_pairs (l : list byte) : option (list byte) :=
  match l with
  | a :: b :: r =>
      match u8_from_hex_pair a b, hex_pairs r with
      | Some c, Some t => Some (c :: t)
      | _, _ => None
      end
  | _ => Some []
  end.

Definition derive_signing_key (secret api_key : string) : result SigningKey :=
  let? (project_id, environment) := parse_api_key api_key in
  let raw_secret := default secret (strip_prefix "xmsk1_" secret) in
  if negb (str_len raw_secret =? 64) then
    Err (ConfigError ("signer_secret must be a 64-char hex string (got " +:+ pretty (str_len raw_secret) +:+ ")"))
  else
    let? ikm := ok_or (ConfigError "signer_secret is not valid hex") (hex_pairs (as_bytes raw_secret)) in
    let info := project_id +:+ ":" +:+ environment +:+ ":solana-ed25519" in
    let? key_bytes := map_err (fun e => ConfigError ("HKDF expand failed: " +:+ e))
                        (hkdf_expand_32 (as_bytes "crossmint") ikm (as_bytes info)) in
    Ok (signing_key_from_bytes key_bytes).

Definition new (config : CrossmintSignerConfig) : result CrossmintSigner :=
  if str_is_empty (cfg_api_key config) then Err (ConfigError "api_key must not be empty") else
  if str_is_empty (cfg_wallet_locator config) then Err (ConfigError "wallet_locator must not be empty") else
  let api_base_url := normalize_base_url (default DEFAULT_BASE_URL (cfg_api_base_url config)) in
  let? _ := validate_https_url api_base_url in
  let poll_interval_ms := default DEFAULT_POLL_INTERVAL_MS (cfg_poll_interval_ms config) in
  if (poll_interval_ms =? 0)%Z then Err (ConfigError "poll_interval_ms must be greater than 0") else
  let max_poll_attempts := default DEFAULT_MAX_POLL_ATTEMPTS (cfg_max_poll_attempts config) in
  if max_poll_attempts =? 0 then Err (ConfigError "max_poll_attempts must be greater than 0") else
  let? client := build_client (mkHttpClientConfig (Some CLIENT_TIMEOUT) None) in
  let? (signing_key, signer) :=
    match cfg_signer_secret config with
    | Some secret =>
        let? key := derive_signing_key secret (cfg_api_key config) in
        let pubkey_b58 := bs58_encode (arr_bytes (verifying_key key)) in
        let locator := default ("server:" +:+ pubkey_b58) (cfg_signer config) in
        Ok (Some key, Some locator)
    | None => Ok (None, cfg_signer config)
    end in
  Ok (mkCrossmintSigner (cfg_api_key config) (cfg_wallet_locator config) signer api_base_url client
        None poll_interval_ms max_poll_attempts signing_key None).

Definition with_pending_transaction_id (self : CrossmintSigner) (pending : nat) : CrossmintSigner :=
  mkCrossmintSigner (api_key self) (wallet_locator self) (signer self) (api_base_url self) (client self)
    (public_key self) (poll_interval_ms self) (max_poll_attempts self) (signing_key self) (Some pending).

Definition initialized_pubkey (self : CrossmintSigner) : result Pubkey :=
  ok_or (ConfigError "CrossmintSigner is not initialized; call init() before signing") (public_key self).

Definition build_wallets_api_url (self : CrossmintSigner) (segments : list string) : result string :=
  let? base := map_err (fun e => ConfigError ("Invalid api_base_url: " +:+ e)) (url_parse (api_base_url self)) in
  if url_cannot_be_a_base base then Err (ConfigError "api_base_url cannot be used as a base URL") else
  let url := trim_end_matches x2f (url_as_str base) +:+ "/2025-06-09/wallets/" +:+
             encode_uri_component (wallet_locator self) in
  Ok (foldl (fun url segment => url +:+ "/" +:+ encode_uri_component segment) url segments).

Definition extract_error_message (value : Value) : option string :=
  match value_get value "message" ≫= as_str with
  | Some message => Some message
  | None =>
      match value_get value "error" ≫= as_str with
      | Some error_str => Some error_str
      | None =>
          match value_get value "error" with
          | Some (JObject error_obj) => assoc_get error_obj "message" ≫= as_str
          | _ => None
          end
      end
  end.

Definition read_json_value (response : HttpResponse) : M (result Value) :=
  try! body := read_body_capped response in
  ret (Ok (match value_from_slice body with Ok v => v | Err _ => JNull end)).

Definition value_to_typed {T} (from_value : Value -> Result T string) (status : Z) (value : Value)
    (required_field context : string) : result T :=
  if (400 <=? status)%Z then
    let message := default ("Crossmint API error " +:+ pretty status) (extract_error_message value) in
    Err (remote_api (context +:+ ": " +:+ message))
  else
    let field := value_get value required_field in
    if match field with
       | None => true
       | Some f => match as_str f with Some id => str_is_empty (trim id) | None => false end
       end
    then
      match extract_error_message value with
      | Some message => Err (remote_api (context +:+ ": " +:+ message))
      | None => Err (SerializationError
                  (context +:+ ": missing expected field '" +:+ required_field +:+ "' in response"))
      end
    else
      map_err (fun e => SerializationError (context +:+ ": failed to parse JSON response: " +:+ e))
        (from_value value).

Definition parse_response_with_required_field {T} (from_value : Value -> Result T string)
    (response : HttpResponse) (required_field context : string) : M (result T) :=
  let status := resp_status response in
  try! value := read_json_value response in
  ret (value_to_typed from_value status value required_field context).

Definition fetch_wallet (self : CrossmintSigner) : M (result WalletResponse) :=
  try url := build_wallets_api_url self [] in
  try! response := fmap_err from_reqwest_error (http_get url [("X-API-KEY", api_key self)]) in
  parse_response_with_required_field wallet_from_value response "address" "fetch_wallet".

Definition with_public_key (self : CrossmintSigner) (pk : Pubkey) : CrossmintSigner :=
  mkCrossmintSigner (api_key self) (wallet_locator self) (signer self) (api_base_url self) (client self)
    (Some pk) (poll_interval_ms self) (max_poll_attempts self) (signing_key self) (pending_transaction_id self).

(** [&mut self]: the signer comes back beside the result. *)
Definition init (self : CrossmintSigner) : M (CrossmintSigner * result unit) :=
  let! wallet := fetch_wallet self in
  match wallet with
  | Err e => ret (self, Err e)
  | Ok wallet =>
      if negb (eq_ignore_ascii_case (chain_type wallet) "solana") then
        ret (self, Err (ConfigError ("Expected Solana wallet, got chainType=" +:+ chain_type wallet)))
      else if negb (eq_ignore_ascii_case (wallet_type wallet) "smart") &&
              negb (eq_ignore_ascii_case (wallet_type wallet) "mpc") then
        ret (self, Err (ConfigError ("Unsupported Crossmint wallet type: " +:+ wallet_type wallet)))
      else
        match pubkey_from_str (wallet_address wallet) with
        | Ok pk => ret (with_public_key self pk, Ok tt)
        | Err _ => ret (self, Err (InvalidPublicKey "Invalid Solana public key returned by Crossmint wallet"))
        end
  end.

Definition create_transaction (self : CrossmintSigner) (transaction idempotency_key : string)
    : M (result TransactionResponse) :=
  try url := build_wallets_api_url self ["transactions"] in
  let request := mkCreateRequest transaction (signer self) in
  try! response :=
    fmap_err (fun error => unconfirmed_unless_rejected None None (Some idempotency_key) (from_reqwest_error error))
      (http_send_json (value_to_vec (create_request_value request))
         (mkRequest "POST" url [("Content-Type", "application/json"); ("X-API-KEY", api_key self);
                                ("x-idempotency-key", idempotency_key)])) in
  let status := resp_status response in
  try! value := fmap_err (unconfirmed_unless_rejected (Some status) None (Some idempotency_key))
                  (read_json_value response) in
  let provider_tx_id :=
    match value_get value "id" ≫= as_str with
    | Some id => if str_is_empty (trim id) then None else Some id
    | None => None
    end in
  ret (map_err (unconfirmed_unless_rejected (Some status) provider_tx_id (Some idempotency_key))
         (value_to_typed transaction_from_value status value "id" "create_transaction")).

Definition get_transaction (self : CrossmintSigner) (transaction_id : string) : M (result TransactionResponse) :=
  try url := build_wallets_api_url self ["transactions"; transaction_id] in
  try! response := fmap_err from_reqwest_error (http_get url [("X-API-KEY", api_key self)]) in
  parse_response_with_required_field transaction_from_value response "id" "get_transaction".

Definition transaction_failure (response : TransactionResponse) : SignerError :=
  let detail := default "unknown error" (value_text <$> tr_error response) in
  SigningFailed ("Crossmint transaction failed: " +:+ detail).

(** [json!] builds a [BTreeMap]: entries come in key order. *)
Definition submit_approval (self : CrossmintSigner) (transaction_id signer_locator message : string)
    (signing_key : SigningKey) : M (result TransactionResponse) :=
  try message_bytes := map_err (fun e => SigningFailed ("Failed to decode approval message as base58: " +:+ e))
                         (bs58_decode message) in
  let signature := dalek_sign signing_key message_bytes in
  let signature_b58 := bs58_encode (arr_bytes signature) in
  try url := build_wallets_api_url self ["transactions"; transaction_id; "approvals"] in
  let body := JObject [("approvals", JArray [JObject [("signature", JString signature_b58);
                                                      ("signer", JString signer_locator)]])] in
  try! response := fmap_err from_reqwest_error
    (http_send_json (value_to_vec body)
       (mkRequest "POST" url [("Content-Type", "application/json"); ("X-API-KEY", api_key self)])) in
  parse_response_with_required_field transaction_from_value response "id" "submit_approval".

Definition handle_awaiting_approval (self : CrossmintSigner) (response : TransactionResponse)
    : M (result TransactionResponse) :=
  match signing_key self, signer self with
  | Some signing_key, Some signer_locator =>
      try pending :=
        ok_or (SigningFailed "Crossmint transaction is awaiting approval; additional signer approvals are required")
          (tr_approvals response ≫= find (fun p =>
             bool_decide ((pa_signer p ≫= id) = Some signer_locator))) in
      try message :=
        ok_or (SigningFailed "Crossmint transaction awaiting approval but no pending message found")
          (pa_message pending) in
      submit_approval self (tr_id response) signer_locator message signing_key
  | _, _ =>
      ret (Err (SigningFailed "Crossmint transaction is awaiting approval; additional signer approvals are required"))
  end.

(** The loop with [n] iterations left, then the final match. *)
Fixpoint poll_loop (self : CrossmintSigner) (n : nat) (approval_submitted : bool)
    (response : TransactionResponse) : M (result TransactionResponse) :=
  match n with
  | S n =>
      if bool_decide (tr_status response = "success") then ret (Ok response)
      else if bool_decide (tr_status response = "failed") then ret (Err (transaction_failure response))
      else if bool_decide (tr_status response = "awaiting-approval") && negb approval_submitted then
        try! response := handle_awaiting_approval self response in
        poll_loop self n true response
      else
        let! _ := sleep_ms (poll_interval_ms self) in
        try! response := get_transaction self (tr_id response) in
        poll_loop self n approval_submitted response
  | 0 =>
      ret (if bool_decide (tr_status response = "success") then Ok response
           else if bool_decide (tr_status response = "failed") then Err (transaction_failure response)
           else if bool_decide (tr_status response = "awaiting-approval") && negb approval_submitted then
             Err (SigningFailed "Crossmint transaction is awaiting approval; additional signer approvals are required")
           else Err (remote_api ("Crossmint transaction polling timed out after " +:+
                                 pretty (max_poll_attempts self) +:+ " attempts")))
  end.

Definition poll_transaction (self : CrossmintSigner) (response : TransactionResponse)
    : M (result TransactionResponse) :=
  poll_loop self (max_poll_attempts self) false response.

Definition namespaced_key_input (self : CrossmintSigner) (message_bytes : list byte) : list byte :=
  let locator := default EmptyString (signer self) in
  as_bytes ("crossmint:solana:" +:+ pretty (str_len locator) +:+ ":" +:+ locator +:+ ":") ++ message_bytes.

Definition fee_payer_signature_from_serialized_transaction (serialized_transaction : string)
    : result (Signature * Pubkey * list byte) :=
  let? bytes := map_err (fun e => SerializationError
                  ("Failed to decode Crossmint onChain.transaction as base58: " +:+ e))
                  (bs58_decode serialized_transaction) in
  let? transaction := map_err (fun e => SerializationError
                        ("Failed to deserialize Crossmint onChain.transaction: " +:+ display e))
                        (deserialize_wire_transaction bytes) in
  let required_signers := u8_nat (num_required_signatures (message transaction)) in
  let signer_keys := static_account_keys (message transaction) in
  if length signer_keys <? required_signers then
    Err (SigningFailed "Invalid account index: not enough account keys")
  else
    let? fee_payer := ok_or (SigningFailed "Crossmint transaction carries no account keys") (head signer_keys) in
    let? signature := ok_or (SigningFailed "Crossmint transaction carries no signer signature")
      (match head (signatures transaction) with
       | Some signature => if bool_decide (signature ≠ Signature_default) then Some signature else None
       | None => None
       end) in
    Ok (signature, fee_payer, message_serialize (message transaction)).

Definition extract_signature_from_response (response : TransactionResponse) : result Signature :=
  let from_tx_id on_chain :=
    match oc_tx_id on_chain with
    | Some tx_id =>
        map_err (fun _ => SigningFailed "Crossmint onChain.txId was not a valid Solana signature")
          (signature_from_base58 tx_id)
    | None => Err (SigningFailed "Unable to extract signature from Crossmint transaction response")
    end in
  match tr_on_chain response with
  | None => Err (SigningFailed "Unable to extract signature from Crossmint transaction response")
  | Some on_chain =>
      match oc_transaction on_chain with
      | Some serialized_transaction =>
          match fee_payer_signature_from_serialized_transaction serialized_transaction with
          | Ok (signature, fee_payer, message) =>
              let? _ := verify_or_reject signature fee_payer message in Ok signature
          | Err error =>
              match oc_tx_id on_chain with None => Err error | Some _ => from_tx_id on_chain end
          end
      | None => from_tx_id on_chain
      end
  end.

Definition finish_managed_transaction (self : CrossmintSigner) (create_response : TransactionResponse)
    : M (result Signature) :=
  try! final_response := poll_transaction self create_response in
  ret (extract_signature_from_response final_response).

(** The idempotency key of a call. *)
Definition call_key (self : CrossmintSigner) (transaction : VersionedTransaction) : string :=
  idempotency_key_from_message (namespaced_key_input self (message_serialize (message transaction))).

Definition execute_managed_transaction (self : CrossmintSigner) (transaction : VersionedTransaction)
    : M (result Signature) :=
  try _ := initialized_pubkey self in
  try serialized := serialize_wire_transaction transaction in
  let transaction_b58 := bs58_encode serialized in
  let idempotency_key := call_key self transaction in
  try! create_response := create_transaction self transaction_b58 idempotency_key in
  let provider_tx_id := tr_id create_response in
  let! _ := match pending_transaction_id self with
            | Some pending => Pending.set pending provider_tx_id
            | None => ret tt
            end in
  let! result :=
    fmap_err (fun error => BroadcastUnconfirmed (Some provider_tx_id) None (Some idempotency_key) None
                             (detail_string error))
      (finish_managed_transaction self create_response) in
  let! _ := match pending_transaction_id self with
            | Some pending => Pending.clear pending provider_tx_id
            | None => ret tt
            end in
  ret result.

Definition pubkey (self : CrossmintSigner) : run Pubkey :=
  expect_pubkey (public_key self).

Definition sign_message (self : CrossmintSigner) (message : list byte) : M (result Signature) :=
  ret (Err (SigningFailed "Crossmint sign_message is not supported for Solana wallets in this signer")).

Definition is_available (self : CrossmintSigner) : M bool :=
  let! r := timeout (fetch_wallet self) in
  ret (match r with Some (Ok _) => true | _ => false end).

#[global] Instance crossmint_solana_signer : SolanaSigner CrossmintSigner := {
  Traits.pubkey := pubkey;
  Traits.sign_message := sign_message;
  Traits.is_available := is_available
}.

#[global] Instance crossmint_sending_signer : SendingSigner CrossmintSigner := {
  sending_signer_base := crossmint_solana_signer;
  Traits.sign_and_send_transaction := execute_managed_transaction
}.

#[global] Instance crossmint_message_laws : MessageSignerLaws CrossmintSigner.
Proof. split. intros s m. cbn. unfold sign_message. by walk. Qed.

(** ** Where requests go *)

(** The base URL as [reqwest::Url] renders it, without its trailing slash. *)
Definition rendered_base_url (self : CrossmintSigner) : string :=
  match url_parse (api_base_url self) with
  | Ok base => trim_end_matches x2f (url_as_str base)
  | Err _ => EmptyString
  end.

Lemma append_segments_under base (segments : list string) path :
  exists path', foldl (fun url segment => url +:+ "/" +:+ encode_uri_component segment) (base +:+ slash path) segments =
                base +:+ slash path'.
Proof.
  revert path. induction segments as [|x r IH]; intros path; [by exists path|]. cbn [foldl].
  destruct (IH (path +:+ "/" +:+ encode_uri_component x)) as [p Hp]. exists p. rewrite <- Hp. f_equal.
  apply as_bytes_inj. unfold slash. by rewrite !as_bytes_app, <- !(assoc_L (++)).
Qed.

Lemma wallets_url_under self segments url :
  build_wallets_api_url self segments = Ok url ->
  forall m h b, under (rendered_base_url self) (mkRequest m url h b).
Proof.
  unfold build_wallets_api_url, rendered_base_url, under.
  destruct (url_parse _) as [base|e]; cbn [map_err res_bind]; [|done]. case_match; [done|].
  intros [= <-] m h b. cbn [req_url].
  exact (append_segments_under _ segments ("2025-06-09/wallets/" +:+ encode_uri_component (wallet_locator self))).
Qed.
#[local] Hint Resolve wallets_url_under : keychain.

Lemma read_json_value_silent resp Q : sends (read_json_value resp) Q.
Proof. unfold read_json_value. walk_sends. Qed.
#[local] Hint Resolve read_json_value_silent : keychain.

Lemma required_field_silent {T} (f : Value -> Result T string) resp field ctx Q :
  sends (parse_response_with_required_field f resp field ctx) Q.
Proof. unfold parse_response_with_required_field. walk_sends. Qed.
#[local] Hint Resolve required_field_silent : keychain.

Ltac wallet_requests := walk_requests; eauto using wallets_url_under with keychain.

Lemma create_under self tx key : sends (create_transaction self tx key) (under (rendered_base_url self)).
Proof. unfold create_transaction. wallet_requests. Qed.

Lemma poll_loop_under self n sub resp : sends (poll_loop self n sub resp) (under (rendered_base_url self)).
Proof.
  revert sub resp. induction n as [|n IH]; intros sub resp; cbn [poll_loop]; [apply sends_ret|].
  unfold handle_awaiting_approval, submit_approval, get_transaction. wallet_requests.
Qed.
#[local] Hint Resolve create_under poll_loop_under : keychain.

Lemma crossmint_confined s : confined s (execute_managed_transaction s) (rendered_base_url s).
Proof.
  split; [change Traits.sign_message with sign_message| |change Traits.is_available with is_available].
  - intros m. apply sends_ret.
  - intros tx. unfold execute_managed_transaction, finish_managed_transaction, poll_transaction. walk_requests.
  - unfold is_available, fetch_wallet. wallet_requests.
Qed.

Lemma crossmint_init_under s : sends (init s) (under (rendered_base_url s)).
Proof. unfold init, fetch_wallet. wallet_requests. Qed.

(** ** Lemmas *)

Lemma read_json_value_returns resp w r w' :
  read_json_value resp w = (Returned r, w') -> w' = w.
Proof.
  unfold read_json_value, bind_res, bind.
  destruct (read_body_capped resp w) as [[[b|e]| |] w1] eqn:E; [| |done..];
    apply read_body_world in E as ->; by intros [= _ <-].
Qed.

Lemma calm_parse_required {T} (f : Value -> Result T string) resp a b :
  calm (parse_response_with_required_field f resp a b).
Proof.
  unfold parse_response_with_required_field, read_json_value. auto with keychain.
Qed.

Lemma calm_get_transaction self id : calm (get_transaction self id).
Proof. unfold get_transaction, http_get. auto using calm_parse_required with keychain. Qed.

Lemma calm_handle_awaiting self r : calm (handle_awaiting_approval self r).
Proof.
  unfold handle_awaiting_approval, submit_approval. repeat case_match; auto with keychain.
  do 5 (apply calm_bind_res; [auto using calm_http_send_json with keychain|intros ?]).
  apply calm_parse_required.
Qed.

Lemma calm_poll_loop self n sub r : calm (poll_loop self n sub r).
Proof.
  revert sub r. induction n as [|n IH]; intros sub r; cbn [poll_loop]; [apply calm_ret|].
  repeat case_match; auto using calm_handle_awaiting, calm_get_transaction with keychain.
Qed.

Lemma calm_finish self r : calm (finish_managed_transaction self r).
Proof. apply calm_bind_res; [apply calm_poll_loop|]. intros x. apply calm_ret. Qed.

(** Requests per helper. *)
Lemma at_most_parse_required {T} p (f : Value -> Result T string) resp a b :
  at_most p 0 (parse_response_with_required_field f resp a b).
Proof.
  apply (at_most_bind_res p 0 0); [|intros v; apply at_most_ret].
  apply (at_most_bind_res p 0 0); [apply at_most_read_body|intros v; apply at_most_ret].
Qed.

Lemma get_transaction_requests self id :
  at_most is_http 1 (get_transaction self id) /\ at_most is_post 0 (get_transaction self id).
Proof.
  split; apply at_most_try; intros url;
    [apply (at_most_bind_res is_http 1 0)|apply (at_most_bind_res is_post 0 0)];
    try (intros r; apply at_most_parse_required); apply at_most_fmap_err, http_get_requests; done.
Qed.

Lemma handle_awaiting_requests p self r :
  p = is_http \/ p = is_post -> at_most p 1 (handle_awaiting_approval self r).
Proof.
  intros Hp. unfold handle_awaiting_approval, submit_approval.
  assert (Hret : forall e : SignerError, at_most p 1 (ret (Err e : result TransactionResponse)))
    by (intros e; eapply at_most_weaken; [|apply at_most_ret]; lia).
  repeat case_match; try apply Hret.
  repeat (apply at_most_try; intros ?).
  apply (at_most_bind_res p 1 0); [|intros resp; apply at_most_parse_required].
  apply at_most_fmap_err, at_most_send_json. intros x. case_match; lia.
Qed.

Lemma poll_loop_requests self n sub r :
  at_most is_http n (poll_loop self n sub r) /\
  at_most is_post (if sub then 0 else 1) (poll_loop self n sub r).
Proof.
  revert sub r. induction n as [|n IH]; intros sub r; cbn [poll_loop].
  { split; eapply at_most_weaken; try apply at_most_ret; lia. }
  case_bool_decide; [split; eapply at_most_weaken; try apply at_most_ret; lia|].
  case_bool_decide; [split; eapply at_most_weaken; try apply at_most_ret; lia|].
  destruct (bool_decide (tr_status r = "awaiting-approval") && negb sub) eqn:Ea.
  - apply andb_true_iff in Ea as [_ ->%negb_true_iff]. split.
    + apply (at_most_bind_res is_http 1 n); [apply handle_awaiting_requests; auto|]. intros r'. apply IH.
    + apply (at_most_bind_res is_post 1 0); [apply handle_awaiting_requests; auto|]. intros r'. apply (IH true).
  - split.
    + apply (at_most_bind is_http 0 (1 + n)); [apply at_most_sleep|]. intros _.
      apply (at_most_bind_res is_http 1 n); [apply get_transaction_requests|]. intros r'. apply IH.
    + apply (at_most_bind is_post 0); [apply at_most_sleep|]. intros _.
      apply (at_most_bind_res is_post 0); [apply get_transaction_requests|]. intros r'. apply IH.
Qed.

Lemma create_transaction_requests p self t k :
  p = is_http \/ p = is_post -> at_most p 1 (create_transaction self t k).
Proof.
  intros Hp. apply at_most_try. intros url. apply (at_most_bind_res p 1 0).
  { apply at_most_fmap_err, at_most_send_json. intros x. case_match; lia. }
  intros resp. apply (at_most_bind_res p 0 0); [|intros v; apply at_most_ret].
  apply at_most_fmap_err. apply (at_most_bind_res p 0 0); [apply at_most_read_body|intros v; apply at_most_ret].
Qed.

Lemma execute_requests p n self tx :
  p = is_http \/ p = is_post ->
  (forall r, at_most p n (poll_transaction self r)) ->
  at_most p (1 + n) (execute_managed_transaction self tx).
Proof.
  intros Hp Hpoll. unfold execute_managed_transaction.
  apply at_most_try. intros _. apply at_most_try. intros ser.
  apply (at_most_bind_res p 1 n); [by apply create_transaction_requests|]. intros cr.
  apply (at_most_bind p 0 n); [case_match; [apply at_most_slot_op|apply at_most_ret]|]. intros _.
  rewrite <- (Nat.add_0_r n). apply (at_most_bind p n 0).
  - apply at_most_fmap_err. rewrite <- (Nat.add_0_r n).
    apply (at_most_bind_res p n 0); [apply Hpoll|]. intros r. apply at_most_ret.
  - intros r. apply (at_most_bind p 0 0); [case_match; [apply at_most_slot_op|apply at_most_ret]|].
    intros _. apply at_most_ret.
Qed.

(** ** Theorems *)

(** One call makes at most [1 + max_poll_attempts] requests however
    Crossmint answers, of which at most two are POSTs: the create, never
    repeated, and at most one approval. *)
Theorem crossmint_requests_bounded (self : CrossmintSigner) (tx : VersionedTransaction) (w : World) :
  let w' := (execute_managed_transaction self tx w).2 in
  count_events is_http w' <= count_events is_http w + (1 + max_poll_attempts self) /\
  count_events is_post w' <= count_events is_post w + 2.
Proof.
  split; apply execute_requests; auto; intros r; apply (poll_loop_requests self _ false r).
Qed.

Lemma value_to_typed_plain {T} (f : Value -> Result T string) st v a b :
  plain_errors (value_to_typed f st v a b).
Proof.
  unfold value_to_typed. case_match; [done|].
  destruct (match value_get v a with Some _ => _ | None => _ end); [by case_match|by destruct (f v)].
Qed.

Lemma read_json_value_plain resp : returns (read_json_value resp) plain_errors.
Proof.
  apply plain_bind_res; [apply read_body_plain|]. intros b. by apply returns_ret.
Qed.

(** How a create can fail. *)
Lemma create_transaction_Err self t key w e w' :
  create_transaction self t key w = (Returned (Err e), w') ->
  (exists id st d, e = BroadcastUnconfirmed id st (Some key) None d) \/
  w' = w \/
  (exists req resp, w_http w (w_trace w) req = Reply resp /\ definite_rejection (Some (resp_status resp)) /\
     w' = push_event (EvHttp req) w /\ is_unconfirmed e = false).
Proof.
  unfold create_transaction, bind_res at 1, bind at 1, ret at 1.
  destruct (build_wallets_api_url self _) as [url|eu]; [|intros [= <- <-]; auto].
  unfold bind_res at 1, fmap_err at 1, bind, http_send_json.
  destruct (value_to_vec _) as [body|ev]; cbn [ret map_err].
  2: { intros [= <- <-]. left. eexists _, _, _. reflexivity. }
  set (req := mkRequest _ _ _ _). unfold http_send.
  destruct (w_http w (w_trace w) req) as [resp|eh|why] eqn:Hh; cbn [ret map_err].
  2: { intros [= <- <-]. left. eexists _, _, _. reflexivity. }
  2: done.
  unfold bind_res, fmap_err, bind.
  destruct (read_json_value resp _) as [[[v|ej]| |] w1] eqn:Ej; [| |done..]; cbn [ret map_err];
    pose proof (read_json_value_plain _ _ _ _ Ej) as Hplain;
    apply read_json_value_returns in Ej as ->; intros [= HE <-].
  - pose proof (value_to_typed_plain transaction_from_value (resp_status resp) v "id" "create_transaction") as HP.
    destruct (value_to_typed _ _ _ _ _) as [x|et]; [done|]. cbn in HE. injection HE as <-.
    edestruct unconfirmed_key as [?|[-> Hr]]; [left; eassumption|].
    right. right. exists req, resp. split_and!; done.
  - subst e. edestruct unconfirmed_key as [?|[-> Hr]]; [left; eassumption|].
    right. right. exists req, resp. split_and!; done.
Qed.

(** C18: a failed call leaves no doubt unreported.  Either the error is
    [BroadcastUnconfirmed] carrying the idempotency key of the create, or nothing
    was sent to Crossmint at all, or Crossmint answered the create, the only
    request made, with a definite rejection (4xx other than 408). *)
Theorem crossmint_failure_classified (self : CrossmintSigner) (tx : VersionedTransaction)
    (w : World) (e : SignerError) (w' : World) :
  execute_managed_transaction self tx w = (Returned (Err e), w') ->
  (exists id st d, e = BroadcastUnconfirmed id st (Some (call_key self tx)) None d) \/
  w' = w \/
  (exists req resp, w_http w (w_trace w) req = Reply resp /\ definite_rejection (Some (resp_status resp)) /\
     w' = push_event (EvHttp req) w /\ is_unconfirmed e = false).
Proof.
  unfold execute_managed_transaction, bind_res at 1, bind at 1, ret at 1.
  destruct (initialized_pubkey self) as [pk|e1]; [|intros [= _ <-]; auto].
  unfold bind_res at 1, bind at 1, ret at 1.
  destruct (serialize_wire_transaction tx) as [ser|e1]; [|intros [= _ <-]; auto].
  unfold bind_res, bind at 1.
  destruct (create_transaction self _ _ w) as [[[cr|e1]| |] w1] eqn:Ec; [| |done..].
  - intros HE. left. revert HE. unfold bind at 1. destruct (match pending_transaction_id self with _ => _ end w1) as [[[]| |] w2]; [|done..].
    unfold bind at 1, fmap_err, bind at 1.
    destruct (finish_managed_transaction self cr w2) as [[r| |] w3]; [|done..]. cbn [ret].
    unfold bind. destruct (match pending_transaction_id self with _ => _ end w3) as [[[]| |] w4]; [|done..].
    destruct r as [sg|e2]; cbn [map_err ret]; [done|]. intros [= <- _]. eauto.
  - intros [= <- <-]. by eapply create_transaction_Err.
Qed.

(** C19: once Crossmint accepted the create, its transaction id always
    reaches the caller: a failure carries it together with the idempotency key,
    and a cancelled or timed-out call, which returns nothing, leaves it in the
    registered slot.  A call that returns takes its id out again and keeps the
    ids of the other calls. *)
Theorem crossmint_accepted_id_reported (self : CrossmintSigner) (tx : VersionedTransaction)
    (pk : Pubkey) (ser : list byte) (c : nat) (w w1 : World) (created : TransactionResponse) :
  public_key self = Some pk -> serialize_wire_transaction tx = Ok ser ->
  pending_transaction_id self = Some c -> cell_ok c w1 ->
  create_transaction self (bs58_encode ser) (call_key self tx) w = (Returned (Ok created), w1) ->
  reported c (tr_id created) (Some (call_key self tx)) w1 (execute_managed_transaction self tx w).
Proof.
  intros Hpk Hser Hc Hok Hcr. unfold execute_managed_transaction, initialized_pubkey.
  rewrite Hpk, Hser, Hc. unfold bind_res, bind at 1, ret at 1; cbn [ok_or]. unfold bind at 1, ret at 1.
  unfold bind at 1. rewrite Hcr. apply bracket_reported; [done|apply calm_finish].
Qed.

(** *** Idempotency namespaces *)

(** The input of the idempotency key determines the signer locator and
    the message: two calls share a key input only when they approve as the same
    locator (an absent one counting as empty) and submit the same message. *)
Theorem namespaced_key_input_injective (s1 s2 : CrossmintSigner) (m1 m2 : list byte) :
  namespaced_key_input s1 m1 = namespaced_key_input s2 m2 ->
  default EmptyString (signer s1) = default EmptyString (signer s2) /\ m1 = m2.
Proof.
  unfold namespaced_key_input. set (l1 := default _ (signer s1)). set (l2 := default _ (signer s2)).
  rewrite !as_bytes_app. rewrite <- !(assoc_L (++)). intros E%(inj (as_bytes "crossmint:solana:" ++.)).
  apply sep_inj in E as [Hlen E]; [|apply pretty_digits..].
  apply as_bytes_inj in Hlen. apply (inj pretty) in Hlen.
  rewrite <- !length_as_bytes in Hlen. apply app_inj_1 in E as [El E]; [|done].
  apply as_bytes_inj in El. by injection E as ->.
Qed.

(** *** The returned signature *)

(** The transaction a response comes with, in base58. *)
Definition encodes_transaction (enc : string) (tx : VersionedTransaction) : Prop :=
  exists bytes, bs58_decode enc = Ok bytes /\ deserialize_wire_transaction bytes = Ok tx.

(** The first signature of a transaction and its first key, where the transaction
    names a key for every signature it requires and the first slot is filled. *)
Definition identified_by (tx : VersionedTransaction) (sg : Signature) (fee_payer : Pubkey) : Prop :=
  u8_nat (num_required_signatures (message tx)) <= length (static_account_keys (message tx)) /\
  (exists keys, static_account_keys (message tx) = fee_payer :: keys) /\
  (exists sigs, signatures tx = sg :: sigs) /\ sg ≠ Signature_default.

(** The signature of what landed: the fee payer's, valid over the message of the
    transaction that came with the response, or else the transaction's id. *)
Inductive on_chain_signature (oc : OnChainData) (sg : Signature) : Prop :=
  | landed_with enc tx fee_payer :
      oc_transaction oc = Some enc -> encodes_transaction enc tx -> identified_by tx sg fee_payer ->
      verifies sg fee_payer (message_serialize (message tx)) = true -> on_chain_signature oc sg
  | landed_as id :
      oc_tx_id oc = Some id -> bs58_decode id = Ok (arr_bytes sg) ->
      (forall enc tx sg' fp, oc_transaction oc = Some enc -> encodes_transaction enc tx -> ~ identified_by tx sg' fp) ->
      on_chain_signature oc sg.

Lemma fee_payer_signature_Ok enc sg fp msg :
  fee_payer_signature_from_serialized_transaction enc = Ok (sg, fp, msg) <->
  exists tx, encodes_transaction enc tx /\ identified_by tx sg fp /\ msg = message_serialize (message tx).
Proof.
  unfold fee_payer_signature_from_serialized_transaction, encodes_transaction, identified_by. split.
  - destruct (bs58_decode enc) as [b|]; [|done]. cbn [map_err res_bind].
    destruct (deserialize_wire_transaction b) as [tx|] eqn:Hd; [|done]. cbn [map_err res_bind]. cbv zeta.
    destruct (Nat.ltb_spec (length (static_account_keys (message tx))) (u8_nat (num_required_signatures (message tx)))); [done|].
    destruct (static_account_keys (message tx)) as [|k keys] eqn:Hk; [done|]. cbn [head ok_or res_bind].
    destruct (signatures tx) as [|s sigs] eqn:Hs; [done|]. cbn [head]. case_bool_decide; [|done]. intros [= <- <- <-].
    exists tx. rewrite Hk, Hs. split_and!; eauto.
  - intros (tx & (b & -> & Hd) & (Hl & (keys & Hk) & (sigs & Hs) & Hne) & ->). cbn [map_err res_bind]. rewrite Hd. cbn [map_err res_bind]. cbv zeta.
    destruct (Nat.ltb_spec (length (static_account_keys (message tx))) (u8_nat (num_required_signatures (message tx)))); [lia|].
    rewrite Hk, Hs. cbn [head ok_or res_bind]. by rewrite bool_decide_eq_true_2.
Qed.

Lemma signature_from_base58_Ok id sg : signature_from_base58 id = Ok sg <-> bs58_decode id = Ok (arr_bytes sg).
Proof.
  unfold signature_from_base58. destruct (bs58_decode id) as [b|]; cbn [map_err res_bind]; [|done].
  rewrite signature_from_bytes_Ok. naive_solver.
Qed.

Lemma extract_signature_Ok (r : TransactionResponse) (sg : Signature) :
  extract_signature_from_response r = Ok sg <-> exists oc, tr_on_chain r = Some oc /\ on_chain_signature oc sg.
Proof.
  unfold extract_signature_from_response. destruct (tr_on_chain r) as [oc|]; [|naive_solver].
  set (from_id := match oc_tx_id oc with Some _ => _ | None => _ end).
  assert (Hid : from_id = Ok sg <-> exists id, oc_tx_id oc = Some id /\ bs58_decode id = Ok (arr_bytes sg)).
  { unfold from_id. destruct (oc_tx_id oc) as [id|]; [|naive_solver].
    pose proof (signature_from_base58_Ok id sg). destruct (signature_from_base58 id); cbn [map_err]; naive_solver. }
  trans (on_chain_signature oc sg); [|naive_solver].
  destruct (oc_transaction oc) as [enc|] eqn:Ht.
  - pose proof (fee_payer_signature_Ok enc) as Hf. destruct (fee_payer_signature_from_serialized_transaction enc) as [[[s fp] msg]|e].
    + destruct (proj1 (Hf s fp msg) eq_refl) as (tx & Hd & Hi & ->). split.
      * destruct (verify_or_reject s fp _) as [u|] eqn:Hv; [|done]. intros [= <-]. econstructor; [done..|]. by eapply verify_or_reject_Ok.
      * intros [enc' tx' fp' Ht' Hd' Hi' Hv|id _ _ Hno]; [|by destruct (Hno enc tx s fp)].
        assert (enc' = enc) as -> by congruence.
        assert (Ok (s, fp, message_serialize (message tx)) = Ok (sg, fp', message_serialize (message tx')) :> result _) as [= -> -> ->]
          by (apply Hf; by exists tx').
        unfold verify_or_reject. by rewrite Hv.
    + assert (Hno : forall enc' tx s fp, Some enc = Some enc' -> encodes_transaction enc' tx -> ~ identified_by tx s fp).
      { intros enc' tx s fp [= <-] Hd Hi. assert (Err e = Ok (s, fp, message_serialize (message tx)) :> result _) as [=]. apply Hf. by exists tx. }
      assert (match oc_tx_id oc with None => Err e | Some _ => from_id end = Ok sg <-> from_id = Ok sg) as ->
        by (unfold from_id; by destruct (oc_tx_id oc)).
      rewrite Hid. split; [intros (id & ? & ?); econstructor 2; [done..|by rewrite Ht]|].
      intros [enc' tx' fp' Ht' Hd' Hi' Hv|id ? ? _]; [|by exists id]. rewrite Ht in Ht'. by destruct (Hno _ _ _ _ Ht' Hd' Hi').
  - rewrite Hid. split; [intros (id & ? & ?); econstructor 2; [done..|by rewrite Ht]|].
    intros [enc' tx' fp' Ht' _ _ _|id ? ? _]; [congruence|by exists id].
Qed.

(** C40: the signature handed to the caller is exactly this.  If the response
    comes with a transaction that can be read, names a key for each required
    signature and has its first slot filled, it is the signature in that first
    slot, and only if it verifies over the transaction's message under the
    transaction's first key; a signature that does not verify is an error even if
    the response also has a [txId].  Otherwise it is the 64 bytes of the
    provider's [txId], which nothing verifies. *)
Theorem extract_signature_spec (r : TransactionResponse) (sg : Signature) :
  extract_signature_from_response r = Ok sg <->
  exists oc, tr_on_chain r = Some oc /\ on_chain_signature oc sg.
Proof. exact (extract_signature_Ok r sg). Qed.

(** *** What the provider said *)

(** An answer that describes a transaction and names it. *)
Definition tells (resp : HttpResponse) (v : TransactionResponse) : Prop :=
  (resp_status resp < 400)%Z /\ exists b doc, carries resp b /\ value_from_slice b = Ok doc /\
    transaction_from_value doc = Ok v /\
    exists f, value_get doc "id" = Some f /\ forall id, as_str f = Some id -> str_is_empty (trim id) = false.

(** The provider took the transaction on under an id, ... *)
Definition crossmint_accepts (id : string) (resp : HttpResponse) : Prop := exists v, tells resp v /\ tr_id v = id.

(** ... or says, of a transaction of the wallet, that it landed with a signature. *)
Definition crossmint_reports (self : CrossmintSigner) (sg : Signature) (req : HttpRequest) (resp : HttpResponse) : Prop :=
  (exists segments, build_wallets_api_url self ("transactions" :: segments) = Ok (req_url req)) /\
  exists v oc, tells resp v /\ tr_status v = "success" /\ tr_on_chain v = Some oc /\ on_chain_signature oc sg.

(** The create of a transaction: the wire encoding, under its idempotency key. *)
Definition crossmint_creates (self : CrossmintSigner) (tx : VersionedTransaction) (req : HttpRequest) : Prop :=
  req_method req = "POST" /\ build_wallets_api_url self ["transactions"] = Ok (req_url req) /\
  assoc_get (req_headers req) "X-API-KEY" = Some (api_key self) /\
  assoc_get (req_headers req) "x-idempotency-key" = Some (call_key self tx) /\
  exists wire, serialize_wire_transaction tx = Ok wire /\
    value_to_vec (create_request_value (mkCreateRequest (bs58_encode wire) (signer self))) = Ok (req_body req).

Definition of_wallet (self : CrossmintSigner) (v : TransactionResponse) (req : HttpRequest) (resp : HttpResponse) : Prop :=
  (exists segments, build_wallets_api_url self ("transactions" :: segments) = Ok (req_url req)) /\ tells resp v.

Lemma typed_told resp b doc ctx v :
  carries resp b -> value_from_slice b = Ok doc ->
  value_to_typed transaction_from_value (resp_status resp) doc "id" ctx = Ok v -> tells resp v.
Proof.
  intros Hc Hd. unfold value_to_typed. destruct (Z.leb_spec 400 (resp_status resp)); [done|]. cbv zeta.
  destruct (value_get doc "id") as [f|] eqn:Hf; [|by repeat case_match].
  intros Hv. split; [done|]. exists b, doc. split_and!; [done..| |].
  - destruct (transaction_from_value doc); cbn in Hv; repeat case_match; naive_solver.
  - exists f. split; [done|]. intros id Hid. rewrite Hid in Hv. destruct (str_is_empty (trim id)); [|done]. by repeat case_match.
Qed.

Lemma told_typed resp v ctx : tells resp v -> exists b doc, carries resp b /\ value_from_slice b = Ok doc /\
  value_to_typed transaction_from_value (resp_status resp) doc "id" ctx = Ok v.
Proof.
  intros (Hs & b & doc & Hc & Hd & Hv & f & Hf & Hne). exists b, doc. split_and!; [done..|]. unfold value_to_typed.
  destruct (Z.leb_spec 400 (resp_status resp)); [lia|]. cbv zeta. rewrite Hf, Hv. destruct (as_str f) as [id|]; [|done].
  by rewrite (Hne id).
Qed.

Lemma read_json_Ok resp w doc w' :
  read_json_value resp w = (Returned (Ok doc), w') ->
  w' = w /\ (doc = JNull \/ exists b, carries resp b /\ value_from_slice b = Ok doc).
Proof.
  unfold read_json_value. intros (b & w1 & Hb & [= Hd ->])%bind_res_Ok. apply read_body_carries in Hb as [-> Hc]. split; [done|].
  destruct (value_from_slice b) as [v|] eqn:Hv; [right; exists b; by rewrite <- Hd|by left].
Qed.

Lemma typed_null {T} (f : Value -> Result T string) st a ctx v : value_to_typed f st JNull a ctx ≠ Ok v.
Proof. unfold value_to_typed. cbn. by case_match. Qed.

Lemma required_told resp ctx w v w' :
  parse_response_with_required_field transaction_from_value resp "id" ctx w = (Returned (Ok v), w') -> w' = w /\ tells resp v.
Proof.
  unfold parse_response_with_required_field. intros (doc & w1 & Hd & [= Hv ->])%bind_res_Ok.
  apply read_json_Ok in Hd as [-> [->|(b & Hc & Hd)]]; [by apply typed_null in Hv|]. split; [done|]. by eapply typed_told.
Qed.

Lemma get_told self id w v w' :
  get_transaction self id w = (Returned (Ok v), w') -> last_answered w' (of_wallet self v).
Proof.
  unfold get_transaction. intros (url & ? & [= Hu <-] & (resp & w1 & [-> Hh]%sent_Ok & [-> Ht]%required_told)%bind_res_Ok)%bind_res_Ok.
  eapply push_answered; [done|]. split; [by eexists|done].
Qed.

Lemma approval_told self r w v w' :
  handle_awaiting_approval self r w = (Returned (Ok v), w') -> last_answered w' (of_wallet self v).
Proof.
  unfold handle_awaiting_approval. destruct (signing_key self); [|done]. destruct (signer self); [|done].
  intros (p & ? & [= _ <-] & (m & ? & [= _ <-] & Hs)%bind_res_Ok)%bind_res_Ok. revert Hs. unfold submit_approval.
  intros (mb & ? & [= _ <-] & (url & ? & [= Hu <-] & (resp & w1 & Hr & [-> Ht]%required_told)%bind_res_Ok)%bind_res_Ok)%bind_res_Ok.
  unfold http_send_json in Hr. destruct (value_to_vec _); [|done]. apply sent_Ok in Hr as [-> Hh].
  eapply push_answered; [done|]. split; [by eexists|done].
Qed.

(** The loop ends with what the last answer says. *)
Lemma poll_loop_told self n sub r w v w' :
  last_answered w (of_wallet self r) -> poll_loop self n sub r w = (Returned (Ok v), w') ->
  tr_status v = "success" /\ last_answered w' (of_wallet self v).
Proof.
  revert sub r w. induction n as [|n IH]; intros sub r w Hr; cbn [poll_loop].
  - intros [= Hv <-]. repeat case_bool_decide; repeat case_match; by simplify_eq.
  - case_bool_decide; [by intros [= <- <-]|]. case_bool_decide; [done|]. case_match.
    + intros (r' & w1 & Ha & Hl)%bind_res_Ok. eapply IH; [|exact Hl]. by eapply approval_told.
    + unfold bind at 1. destruct (sleep_ms (poll_interval_ms self) w) as [[[]| |] w1]; [|done..].
      intros (r' & w2 & Hg & Hl)%bind_res_Ok. eapply IH; [|exact Hl]. by eapply get_told.
Qed.

(** A create that was not sent, and one that was: it ends as the answer says. *)
Definition create_outcome (self : CrossmintSigner) (tx : VersionedTransaction) (w : World)
    (out : run (result TransactionResponse) * World) : Prop :=
  (out.2 = w /\ forall v, out.1 ≠ Returned (Ok v)) \/
  exists req, crossmint_creates self tx req /\ out.2 = push_event (EvHttp req) w /\
    (forall v, out.1 = Returned (Ok v) -> exists resp, w_http w (w_trace w) req = Reply resp /\ tells resp v) /\
    (forall resp v, w_http w (w_trace w) req = Reply resp -> tells resp v -> out.1 = Returned (Ok v)).

Lemma create_runs self tx wire w :
  serialize_wire_transaction tx = Ok wire ->
  create_outcome self tx w (create_transaction self (bs58_encode wire) (call_key self tx) w).
Proof.
  intros Hw. unfold create_transaction, bind_res at 1, bind at 1, ret at 1.
  destruct (build_wallets_api_url self ["transactions"]) as [url|] eqn:Hu; [|by left]. cbv zeta.
  destruct (value_to_vec (create_request_value _)) as [body|] eqn:Hb; [|by left]. cbn [http_send_json].
  set (req := mkRequest _ _ _ _). unfold bind_res at 1, bind at 1, fmap_err at 1, bind at 1, http_send.
  assert (Hreq : crossmint_creates self tx req) by (by repeat split; eauto).
  destruct (w_http w (w_trace w) req) as [resp|e|why] eqn:Hh; cbn [ret map_err];
    [|right; exists req; rewrite Hh; by split_and!..].
  set (w1 := push_event (EvHttp req) w).
  assert (Hread : forall v, tells resp v -> exists b doc, read_body_capped resp w1 = (Returned (Ok b), w1) /\
      value_from_slice b = Ok doc /\ value_to_typed transaction_from_value (resp_status resp) doc "id" "create_transaction" = Ok v).
  { intros v (b & doc & Hc & Hv & Ht)%(told_typed _ _ "create_transaction"). exists b, doc. by rewrite (carries_read_body _ _ _ Hc). }
  pose proof (read_body_still resp w1) as Hstill. unfold bind_res, fmap_err, bind, read_json_value, bind_res, bind.
  destruct (read_body_capped resp w1) as [[[b|e]| |] w2] eqn:Hd; cbn [ret map_err fst snd] in *; subst w2.
  2-4: right; exists req; rewrite Hh; split_and!; [done..|]; intros resp' v [= <-] (b & doc & [=] & _)%Hread.
  apply read_body_carries in Hd as [_ Hc]. right. exists req. rewrite Hh. do 2 (split; [done|]). split.
  - intros v [= Hv]. exists resp. split; [done|]. destruct (value_to_typed _ _ _ _ _) as [v'|] eqn:Ht; [|done]. injection Hv as ->.
    destruct (value_from_slice b) eqn:Hvs; [by eapply typed_told|by apply typed_null in Ht].
  - intros resp' v [= <-] (b' & doc & [= <-] & -> & Ht)%Hread. by rewrite Ht.
Qed.

Lemma execute_runs self tx w r w' :
  execute_managed_transaction self tx w = (Returned r, w') ->
  (w' = w /\ is_ok r = false) \/
  exists wire, serialize_wire_transaction tx = Ok wire /\
    match create_transaction self (bs58_encode wire) (call_key self tx) w with
    | (Returned (Ok v), w1) => exists w2 r1 w3, same_but_slots w1 w2 /\ finish_managed_transaction self v w2 = (Returned r1, w3) /\
        same_but_slots w3 w' /\ r = map_err (fun e => BroadcastUnconfirmed (Some (tr_id v)) None (Some (call_key self tx)) None (detail_string e)) r1
    | (Returned (Err e), w1) => r = Err e /\ w' = w1
    | _ => False
    end.
Proof.
  unfold execute_managed_transaction, bind_res at 1, bind at 1, ret at 1.
  destruct (initialized_pubkey self); [|intros [= <- <-]; by left]. unfold bind_res at 1, bind at 1, ret at 1.
  destruct (serialize_wire_transaction tx) as [wire|]; [|intros [= <- <-]; by left]. cbv zeta. unfold bind_res, bind at 1.
  intros HE. right. exists wire. split; [done|]. revert HE.
  destruct (create_transaction _ _ _ w) as [[[v|e]| |] w1]; [|by intros [= <- <-]|done..].
  intros (w2 & r1 & w3 & Hw2 & Hf & Hw3 & ->)%bracket_runs. by exists w2, r1, w3.
Qed.

(** The signature a call returns is the one the provider's last answer reports. *)
Lemma crossmint_landed_reported self tx w sg w' :
  execute_managed_transaction self tx w = (Returned (Ok sg), w') -> last_answered w' (crossmint_reports self sg).
Proof.
  intros [[_ [=]]|(wire & Hw & HE)]%execute_runs. pose proof (create_runs self tx wire w Hw) as Hc.
  destruct (create_transaction _ _ _ w) as [[[v|e]| |] w1]; [|by destruct HE as [[=] _]|done..].
  destruct Hc as [[_ Hno]|(req & Hreq & Hw1 & Hans & _)]; [by destruct (Hno v)|]. cbn in Hw1. subst w1.
  destruct (Hans v eq_refl) as (resp & Hh & Ht). destruct HE as (w2 & [sg'|] & w3 & [Ht2 [=]] & Hf & [Ht3 [=]] & [= <-]).
  revert Hf. unfold finish_managed_transaction. intros (fin & w4 & Hp & [= Hx <-])%bind_res_Ok.
  apply extract_signature_Ok in Hx as (oc & Hoc & Hsg). apply (poll_loop_told self _ _ _ w2) in Hp as [Hst Hl].
  2: { eapply last_answered_world; [exact Ht2|done|]. eapply push_answered; [exact Hh|]. split; [exists []; apply Hreq|done]. }
  eapply last_answered_world; [exact Ht3|done|]. eapply last_answered_weaken; [exact Hl|]. intros q rp [Hu Hv].
  split; [done|]. by exists fin, oc.
Qed.


(** A call that is no further than its create, or goes on from it. *)
Definition goes_on_from_create (self : CrossmintSigner) (tx : VersionedTransaction) (w w' : World) : Prop :=
  w' = w \/
  exists wire req ext, serialize_wire_transaction tx = Ok wire /\ crossmint_creates self tx req /\
    (create_transaction self (bs58_encode wire) (call_key self tx) w).2 = push_event (EvHttp req) w /\
    w_trace w' = w_trace w ++ EvHttp req :: ext.

Lemma execute_sends self tx w : goes_on_from_create self tx w (execute_managed_transaction self tx w).2.
Proof.
  unfold execute_managed_transaction, bind_res at 1, bind at 1, ret at 1.
  destruct (initialized_pubkey self); [|by left]. unfold bind_res at 1, bind at 1, ret at 1.
  destruct (serialize_wire_transaction tx) as [wire|] eqn:Hw; [|by left]. cbv zeta. unfold bind_res, bind at 1.
  pose proof (create_runs self tx wire w Hw) as Hc.
  destruct (create_transaction _ _ _ w) as [[[v|e]| |] w1] eqn:Ec; destruct Hc as [[Hw1 Hno]|(req & Hreq & Hw1 & _)]; cbn [fst snd] in *; subst w1;
    try (by left); try (right; exists wire, req, []; by rewrite ?Ec); try (by destruct (Hno v)).
  right. exists wire, req. match goal with |- context [w_trace (?m (push_event _ _)).2] => assert (sends m (fun _ => True)) as Hs end.
  { unfold finish_managed_transaction, poll_transaction. walk_requests.
    eapply sends_weaken; [apply poll_loop_under|done]. }
  destruct (Hs (push_event (EvHttp req) w)) as (ext & He & _). exists ext. rewrite ?Ec, He. cbn. by rewrite <- (assoc_L (++)).
Qed.

(** The first request of a call is the create; if it is accepted and the call
    fails all the same, the error has the id. *)
Lemma crossmint_create_reported self tx w o w' tr req :
  execute_managed_transaction self tx w = (o, w') -> first_request w w' tr req ->
  crossmint_creates self tx req /\
  forall resp id e, w_http w tr req = Reply resp -> crossmint_accepts id resp -> o = Returned (Err e) ->
    exists d, e = BroadcastUnconfirmed (Some id) None (Some (call_key self tx)) None d.
Proof.
  intros HE Hfirst. pose proof (execute_sends self tx w) as Hs. rewrite HE in Hs. cbn [snd] in Hs.
  destruct Hs as [->|(wire & req' & ext & Hw & Hreq & Hw1 & Ht)]; [by apply no_first_request in Hfirst|].
  apply (first_request_is _ _ [] req' ext) in Hfirst as [-> ->]; [|done..]. rewrite app_nil_r. split; [done|].
  intros resp id e Hh (v & Hv & <-) ->. apply execute_runs in HE as [[-> _]|(wire' & Hw' & HE)].
  { apply (f_equal length) in Ht. rewrite length_app in Ht. cbn in Ht. lia. }
  rewrite Hw in Hw'. injection Hw' as <-. pose proof (create_runs self tx wire w Hw) as Hc.
  destruct (create_transaction _ _ _ w) as [o w1]. cbn in Hw1. subst w1.
  destruct Hc as [[Hw2 _]|(req & _ & Hw2 & _ & Hgo)]; cbn [fst snd] in *.
  { apply (f_equal (fun x => length (w_trace x))) in Hw2. cbn in Hw2. rewrite length_app in Hw2. cbn in Hw2. lia. }
  assert (req = req') as -> by (apply (f_equal w_trace) in Hw2; cbn in Hw2; apply (inj (w_trace w ++.)) in Hw2; congruence).
  rewrite (Hgo _ _ Hh Hv) in HE. destruct HE as (w2 & [sg|e1] & w3 & _ & _ & _ & [= ->]). by eexists.
Qed.

(** With no readable transaction in the response, any 64-byte [txId]
    is returned as the signature: nothing ties it to a key or a message. *)
Theorem crossmint_txid_unverified `{!CodecLaws} (r : TransactionResponse) (oc : OnChainData) (sg : Signature) :
  tr_on_chain r = Some oc -> oc_transaction oc = None ->
  oc_tx_id oc = Some (bs58_encode (arr_bytes sg)) ->
  extract_signature_from_response r = Ok sg.
Proof.
  intros Hr Ht Hi. unfold extract_signature_from_response. rewrite Hr, Ht, Hi.
  unfold signature_from_base58. rewrite bs58_decode_encode. cbn.
  by rewrite (proj2 (signature_from_bytes_Ok _ sg) eq_refl).
Qed.

(** The secret's hex check accepts a sign: replacing a leading [0] of a
    byte by [+] leaves the decoded key material unchanged. *)
Theorem signer_secret_accepts_plus (pre post : list byte) (d : byte) (k : nat) :
  length pre = 2 * k -> is_ascii_hexdigit d = true ->
  hex_pairs (pre ++ x2b :: d :: post) = hex_pairs (pre ++ x30 :: d :: post).
Proof.
  intros Hlen Hd. revert pre Hlen. induction k as [|k IH]; intros pre Hlen.
  - destruct pre; [|done]. cbn [app hex_pairs].
    assert (u8_from_hex_pair x2b d = u8_from_hex_pair x30 d) as -> by (by destruct d). done.
  - destruct pre as [|a [|b pre]]; [simpl in Hlen; lia..|]. cbn [app hex_pairs].
    rewrite IH; [done|]. simpl in Hlen. lia.
Qed.

End Crossmint.

(** ** Concrete runs *)

Module CrossmintDemo.
Import Demo DemoJson DemoDalek.

#[export] Instance demo_build : ClientBuild := {| reqwest_build := fun _ => Ok tt |}.
#[export] Instance demo_url : UrlParser := {| url_parse := fun s => Ok (mkUrl "https" s false (Some "h") None "/") |}.

Definition landed : Signature := array_repeat 64 x05.

(** Responses name the body as the id; a body of [stuck] stays pending. *)
#[export] Instance demo_codec : CrossmintCodec := {|
  wallet_from_value := fun _ => Ok (mkWallet "solana" "smart" (of_bytes (replicate 32 x01)));
  transaction_from_value := fun v =>
    let id := default EmptyString (as_str (value_index v "id")) in
    Ok (mkTransactionResponse id (if bool_decide (id = "stuck") then "pending" else "success")
          (Some (mkOnChain None (Some (bs58_encode (arr_bytes landed))))) None None)
|}.

Definition demo_signer : CrossmintSigner :=
  mkCrossmintSigner "key" "wallet" None "https://api" (client_builder (mkHttpClientConfig None None))
    (Some (array_repeat 32 x01)) 1000 2 None (Some 0).

Definition demo_tx : VersionedTransaction :=
  mkTransaction [Signature_default] (DemoMessage x01 [array_repeat 32 x01] (as_bytes "payload") false).

(** The provider is down: the create is unconfirmed. *)
Lemma crossmint_failure_classified_witness :
  exists e w', execute_managed_transaction demo_signer demo_tx idle_world = (Returned (Err e), w') /\
    ((exists id st d, e = BroadcastUnconfirmed id st (Some (call_key demo_signer demo_tx)) None d) \/
     w' = idle_world \/
     (exists req resp, w_http idle_world (w_trace idle_world) req = Reply resp /\
        definite_rejection (Some (resp_status resp)) /\
        w' = push_event (EvHttp req) idle_world /\ is_unconfirmed e = false)).
Proof.
  eexists _, _.
  match goal with |- ?A = ?B /\ _ => assert (E : A = B) by (vm_compute; reflexivity) end.
  split; [exact E|]. exact (crossmint_failure_classified demo_signer demo_tx idle_world _ _ E).
Defined.

(** A create that is accepted and stays pending: the poll times out. *)
Lemma crossmint_accepted_id_reported_witness :
  let w := answering_world 200 (as_bytes "stuck") in
  exists created w1,
    create_transaction demo_signer
      (bs58_encode (match serialize_wire_transaction demo_tx with Ok b => b | Err _ => [] end))
      (call_key demo_signer demo_tx) w = (Returned (Ok created), w1) /\
    tr_id created = "stuck" /\
    reported 0 (tr_id created) (Some (call_key demo_signer demo_tx)) w1 (execute_managed_transaction demo_signer demo_tx w).
Proof.
  intros w. eexists _, _.
  match goal with |- ?A = ?B /\ _ => assert (E : A = B) by (vm_compute; reflexivity) end.
  split; [exact E|]. split; [reflexivity|].
  refine (crossmint_accepted_id_reported demo_signer demo_tx (array_repeat 32 x01) _ 0 w _ _ eq_refl _ eq_refl _ E);
    vm_compute; reflexivity.
Defined.

Lemma namespaced_key_input_injective_witness :
  namespaced_key_input demo_signer (as_bytes "m") = namespaced_key_input demo_signer (as_bytes "m") /\
  (default EmptyString (signer demo_signer) = default EmptyString (signer demo_signer) /\
   as_bytes "m" = as_bytes "m").
Proof.
  split; [reflexivity|]. exact (namespaced_key_input_injective demo_signer demo_signer _ _ eq_refl).
Defined.

Definition demo_response : TransactionResponse :=
  mkTransactionResponse "tx-1" "success" (Some (mkOnChain None (Some (bs58_encode (arr_bytes landed))))) None None.

Lemma crossmint_txid_unverified_witness : extract_signature_from_response demo_response = Ok landed.
Proof.
  exact (crossmint_txid_unverified demo_response (mkOnChain None (Some (bs58_encode (arr_bytes landed)))) landed
    eq_refl eq_refl eq_refl).
Defined.

(** A response with the transaction itself, and a [txId] that is not used. *)
Definition onchain_tx : VersionedTransaction :=
  let msg := DemoMessage x01 [array_repeat 32 x01] (as_bytes "payload") false in
  mkTransaction [demo_sign (replicate 32 x01) (message_serialize msg)] msg.
Definition onchain_response : TransactionResponse :=
  mkTransactionResponse "tx-2" "success"
    (Some (mkOnChain (Some (bs58_encode (match serialize_wire_transaction onchain_tx with Ok b => b | Err _ => [] end)))
             (Some (bs58_encode (arr_bytes landed))))) None None.

Lemma extract_signature_spec_witness :
  (exists oc, tr_on_chain demo_response = Some oc /\ on_chain_signature oc landed) /\
  (exists sg, signatures onchain_tx = [sg] /\ sg ≠ landed /\
     exists oc, tr_on_chain onchain_response = Some oc /\ on_chain_signature oc sg).
Proof.
  assert (same : forall r (a sg : Signature), r = Ok a :> result _ -> arr_bytes a = arr_bytes sg -> r = Ok sg)
    by (intros r a sg -> E; f_equal; exact (array_eq _ _ E)).
  split; [apply extract_signature_spec; eapply same; vm_compute; reflexivity|].
  eexists. split; [reflexivity|]. split; [by apply (bool_decide_unpack _)|].
  apply extract_signature_spec. eapply same; vm_compute; reflexivity.
Defined.

Lemma signer_secret_accepts_plus_witness :
  hex_pairs (as_bytes "+f") = hex_pairs (as_bytes "0f").
Proof. exact (signer_secret_accepts_plus [] [] x66 0 eq_refl eq_refl). Defined.

End CrossmintDemo.
