(* ===== verification/Fordefi.v ===== *)
(** * Fordefi signers
    (src/rust/src/fordefi/mod.rs, fordefi/types.rs, fordefi/request_signer.rs)

    [FordefiCore], shared by three signers: [BlackBox] signs the caller's
    message, [NativeAuto] has Fordefi rewrite, sign and broadcast it, and
    [NativeManual] has Fordefi rewrite and sign it. *)

From S2P Require Import Prelude Errors World Externals TransactionUtil SignatureUtil RemoteUtil Traits.

#[local] Open Scope keychain_scope.

(** ** types.rs *)

Inductive SolanaChainUniqueId := SolanaDevnet | SolanaMainnet.

Definition chain_as_str (c : SolanaChainUniqueId) : string :=
  match c with SolanaDevnet => "solana_devnet" | SolanaMainnet => "solana_mainnet" end.

Inductive FordefiPushMode := Auto | Manual.

#[global] Instance push_mode_eq_dec : EqDecision FordefiPushMode.
Proof. solve_decision. Defined.

Definition push_mode_str (m : FordefiPushMode) : string :=
  match m with Auto => "auto" | Manual => "manual" end.

Inductive FordefiPriorityLevel := Low | Medium | High.

Definition priority_str (l : FordefiPriorityLevel) : string :=
  match l with Low => "low" | Medium => "medium" | High => "high" end.

Inductive FordefiSolanaFee :=
  | Custom (unit_price priority_fee : option string)
  | Priority (priority_level : FordefiPriorityLevel).

Definition fee_value (fee : FordefiSolanaFee) : Value :=
  match fee with
  | Custom unit_price priority_fee =>
      JObject ([("type", JString "custom")] ++ opt_field "unit_price" (JString <$> unit_price) ++
               opt_field "priority_fee" (JString <$> priority_fee))
  | Priority level => JObject [("type", JString "priority"); ("priority_level", JString (priority_str level))]
  end.

(** The three request bodies. *)
Definition request_value (vault_id tx_type : string) (details : Value) : Value :=
  JObject [("vault_id", JString vault_id); ("signer_type", JString "api_signer");
           ("sign_mode", JString "auto"); ("type", JString tx_type); ("details", details)].

Definition black_box_details (hash_binary : string) : Value :=
  JObject [("format", JString "hash_binary"); ("hash_binary", JString hash_binary)].

Definition solana_transaction_details (chain : SolanaChainUniqueId) (data : string)
    (push_mode : FordefiPushMode) (fee : option FordefiSolanaFee) : Value :=
  JObject ([("type", JString "solana_serialized_transaction_message");
            ("chain", JString (chain_as_str chain)); ("data", JString data);
            ("push_mode", JString (push_mode_str push_mode))] ++ opt_field "fee" (fee_value <$> fee)).

Definition solana_message_details (chain : SolanaChainUniqueId) (raw_data : string) : Value :=
  JObject [("type", JString "personal_message_type"); ("chain", JString (chain_as_str chain));
           ("raw_data", JString raw_data)].

Record TransactionStatusResponse := mkStatus {
  st_state : string;
  st_signatures : option (list string);
  st_raw_transaction : option string
}.

Record VaultResponse := mkVault {
  vault_address : option string;
  vault_public_key_compressed : option string
}.

(** The [Deserialize] derivations ([CreateTransactionResponse] has one field). *)
Class FordefiCodec := {
  create_response_from_slice : list byte -> Result string string;
  status_from_slice : list byte -> Result TransactionStatusResponse string;
  vault_from_slice : list byte -> Result VaultResponse string
}.

(** ** request_signer.rs *)

(** [p256::ecdsa]. *)
Class P256 := {
  P256Key : Type;
  from_pkcs8_pem : string -> option P256Key;
  from_sec1_pem : string -> option P256Key;
  p256_sign_der : P256Key -> list byte -> list byte
}.

(** [dyn FordefiRequestSigner]: the built-in signer or the caller's own. *)
Inductive RequestSigner `{P256} :=
  | PemRequestSigner (signing_key : P256Key)
  | CallerSigner (sign : list byte -> M (result string)).

Definition pem_from_pem `{P256} (pem : string) : result RequestSigner :=
  match from_pkcs8_pem pem with
  | Some signing_key => Ok (PemRequestSigner signing_key)
  | None =>
      match from_sec1_pem pem with
      | Some secret => Ok (PemRequestSigner secret)
      | None => Err (InvalidPrivateKey "Failed to parse PEM as ECDSA P-256 key (tried PKCS#8 and SEC1)")
      end
  end.

Definition request_signer_sign `{Codecs} `{P256} (s : RequestSigner) (payload : list byte) : M (result string) :=
  match s with
  | PemRequestSigner signing_key => ret (Ok (base64_encode (p256_sign_der signing_key payload)))
  | CallerSigner sign => sign payload
  end.

(** ** Configuration and core *)

Definition DEFAULT_BASE_URL : string := "https://api.fordefi.com".
Definition DEFAULT_POLL_INTERVAL_MS : Z := 2000.
Definition DEFAULT_MAX_POLL_ATTEMPTS : nat := 50.

Definition canonical_fee (fee : option FordefiSolanaFee) : string :=
  match fee with
  | None => EmptyString
  | Some (Custom unit_price priority_fee) =>
      "custom||" +:+ default EmptyString unit_price +:+ "|" +:+ default EmptyString priority_fee
  | Some (Priority level) => "priority|" +:+ priority_str level +:+ "||"
  end.

Record FordefiSignerConfig `{P256} := mkConfig {
  cfg_access_token : string;
  cfg_vault_id : string;
  cfg_private_key_pem : option string;
  cfg_request_signer : option RequestSigner;
  cfg_public_key : string;
  cfg_api_base_url : option string;
  cfg_poll_interval_ms : option Z;
  cfg_max_poll_attempts : option nat;
  cfg_http_client_config : option HttpClientConfig;
  cfg_chain : option SolanaChainUniqueId;
  cfg_fee : option FordefiSolanaFee;
  cfg_push_mode : option FordefiPushMode
}.

Record FordefiCore `{P256} := mkCore {
  access_token : string;
  vault_id : string;
  request_signer : RequestSigner;
  api_base_url : string;
  client : ClientBuilder;
  public_key : Pubkey;
  poll_interval_ms : Z;
  max_poll_attempts : nat
}.

Arguments mkConfig {_} _ _ _ _ _ _ _ _ _ _ _ _.
Arguments mkCore {_} _ _ _ _ _ _ _ _.

Section Core.
Context `{Codecs} `{SolanaSdk} `{Json} `{ClientBuild} `{UrlParser} `{P256} `{FordefiCodec}.

(** The release build: no loopback exception. *)
Definition build (config : FordefiSignerConfig) : result FordefiCore :=
  if str_is_empty (cfg_access_token config) then Err (ConfigError "access_token must not be empty") else
  if str_is_empty (cfg_vault_id config) then Err (ConfigError "vault_id must not be empty") else
  if str_is_empty (cfg_public_key config) then Err (ConfigError "public_key must not be empty") else
  let? request_signer :=
    match cfg_private_key_pem config, cfg_request_signer config with
    | Some _, Some _ => Err (ConfigError "provide exactly one of private_key_pem or request_signer, not both")
    | None, None => Err (ConfigError "one of private_key_pem or request_signer must be provided")
    | Some private_key_pem, None => pem_from_pem private_key_pem
    | None, Some request_signer => Ok request_signer
    end in
  let api_base_url := normalize_base_url (default DEFAULT_BASE_URL (cfg_api_base_url config)) in
  let? parsed := map_err (fun _ => ConfigError "api_base_url must be a valid URL") (url_parse api_base_url) in
  if bool_decide (url_scheme parsed ≠ "https") then Err (ConfigError "api_base_url must use HTTPS") else
  let poll_interval_ms := default DEFAULT_POLL_INTERVAL_MS (cfg_poll_interval_ms config) in
  if (poll_interval_ms =? 0)%Z then Err (ConfigError "poll_interval_ms must be greater than zero") else
  let max_poll_attempts := default DEFAULT_MAX_POLL_ATTEMPTS (cfg_max_poll_attempts config) in
  if max_poll_attempts =? 0 then Err (ConfigError "max_poll_attempts must be greater than zero") else
  let? public_key := map_err (fun _ => InvalidPublicKey "Invalid Solana public key")
                       (pubkey_from_str (cfg_public_key config)) in
  let? client := build_client (default (mkHttpClientConfig None None) (cfg_http_client_config config)) in
  Ok (mkCore (cfg_access_token config) (cfg_vault_id config) request_signer api_base_url client public_key
        poll_interval_ms max_poll_attempts).

(** [SystemTime::now().duration_since(UNIX_EPOCH)?.as_millis() as u64]. *)
Definition timestamp_ms : M (result Z) :=
  let! now := clock_ms in
  ret (match now with
       | Some ms => Ok (ms mod 2 ^ 64)%Z
       | None => Err (Other "System time error: second time provided was later than self")
       end).

Definition sign_request (self : FordefiCore) (path : string) (timestamp : Z) (body : string) : M (result string) :=
  let payload := path +:+ "|" +:+ pretty timestamp +:+ "|" +:+ body in
  request_signer_sign (request_signer self) (as_bytes payload).

(** The [classify] closure of [submit_request]. *)
Definition classify_submit (broadcast_managed : bool) (idempotence_id : option string) (status : option Z)
    (provider_tx_id : option string) (error : SignerError) : SignerError :=
  if broadcast_managed then unconfirmed_unless_rejected status provider_tx_id idempotence_id error else error.

Definition submit_request (self : FordefiCore) (request : Value) (idempotence_id : option string)
    (broadcast_managed : bool) : M (result string) :=
  let path := "/api/v1/transactions" in
  try body := map_err from_serde_error (value_to_vec request) in
  try! timestamp := timestamp_ms in
  try! signature := sign_request self path timestamp (of_bytes body) in
  let url := api_base_url self +:+ path in
  let headers :=
    [("Authorization", "Bearer " +:+ access_token self); ("x-signature", signature);
     ("x-timestamp", pretty timestamp); ("Content-Type", "application/json")] ++
    match idempotence_id with Some id => [("x-idempotence-id", id)] | None => [] end in
  let classify := classify_submit broadcast_managed idempotence_id in
  try! response := fmap_err (fun error => classify None None (from_reqwest_error error))
                     (http_send (mkRequest "POST" url headers body)) in
  let status := resp_status response in
  if negb (is_success status) then
    let! (error, provider_tx_id) :=
      extract_api_error_with_transaction_id response "Fordefi API submit_request" in
    ret (Err (classify (Some status) provider_tx_id error))
  else
    try! body := fmap_err (classify (Some status) None) (read_body_capped response) in
    let provider_tx_id := transaction_id_in_body body in
    try id := map_err (fun error => classify (Some status) provider_tx_id (from_serde_error error))
                (create_response_from_slice body) in
    if str_is_empty (trim id) then
      ret (Err (classify (Some status) provider_tx_id
                  (SerializationError "Fordefi API submit_request returned no transaction id")))
    else ret (Ok id).

(** The classification of one poll response. *)
Definition error_states : list string :=
  ["aborted"; "cancelled"; "dropped"; "completed_reverted"; "error_pushing_to_blockchain";
   "error_signing"; "insufficient_funds"; "mined_reverted"].

Definition classify_state (tx_id : string) (pushable : bool) (tx_data : TransactionStatusResponse)
    : result (PollOutcome TransactionStatusResponse) :=
  let is_success :=
    if pushable then bool_decide (st_state tx_data = "completed")
    else bool_decide (st_state tx_data ∈ ["signed"; "completed"]) in
  if is_success then Ok (Done tx_data)
  else if bool_decide (st_state tx_data ∈ error_states) then
    Err (SigningFailed ("Transaction " +:+ tx_id +:+ " reached terminal state: " +:+ st_state tx_data))
  else Ok Pending.

Definition poll_attempt (self : FordefiCore) (tx_id : string) (pushable : bool)
    : M (result (PollOutcome TransactionStatusResponse)) :=
  let url := api_base_url self +:+ "/api/v1/transactions/" +:+ tx_id in
  try! response := fmap_err from_reqwest_error
                     (http_get url [("Authorization", "Bearer " +:+ access_token self)]) in
  try! tx_data := parse_json_response status_from_slice response "Fordefi API poll_result" in
  ret (classify_state tx_id pushable tx_data).

Definition poll_for_result (self : FordefiCore) (tx_id : string) (pushable : bool)
    : M (result TransactionStatusResponse) :=
  poll_until (max_poll_attempts self) (poll_interval_ms self)
    (RemoteApiError ("Polling timeout after " +:+ pretty (max_poll_attempts self) +:+ " attempts") (Some tx_id))
    (poll_attempt self tx_id pushable).

Definition extract_signature_from_result (res : TransactionStatusResponse) : result Signature :=
  let? entry := ok_or (SigningFailed "Transaction signed but no signatures in response")
                  (st_signatures res ≫= head) in
  signature_from_base64 entry.

Definition poll_for_signature (self : FordefiCore) (tx_id : string) : M (result Signature) :=
  try! res := poll_for_result self tx_id false in
  ret (extract_signature_from_result res).

Definition sign_black_box (self : FordefiCore) (data_bytes : list byte) : M (result Signature) :=
  let request := request_value (vault_id self) "black_box_signature"
                   (black_box_details (base64_encode data_bytes)) in
  try! tx_id := submit_request self request None false in
  poll_for_signature self tx_id.

(** The bytes the idempotency key is derived from. *)
Definition namespaced (self : FordefiCore) (chain : SolanaChainUniqueId) (fee : option FordefiSolanaFee)
    (push_mode : FordefiPushMode) (data_bytes : list byte) : list byte :=
  as_bytes ("fordefi:solana:" +:+ push_mode_str push_mode +:+ ":" +:+ chain_as_str chain +:+ ":" +:+
            vault_id self +:+ ":" +:+ canonical_fee fee +:+ ":") ++ data_bytes.

Definition submit_solana_transaction (self : FordefiCore) (chain : SolanaChainUniqueId)
    (fee : option FordefiSolanaFee) (push_mode : FordefiPushMode) (data_bytes : list byte) : M (result string) :=
  let request := request_value (vault_id self) "solana_transaction"
                   (solana_transaction_details chain (base64_encode data_bytes) push_mode fee) in
  let idempotency_key := idempotency_key_from_message (namespaced self chain fee push_mode data_bytes) in
  submit_request self request (Some idempotency_key) (bool_decide (push_mode = Auto)).

Definition submit_solana_message (self : FordefiCore) (chain : SolanaChainUniqueId) (message_bytes : list byte)
    : M (result string) :=
  let request := request_value (vault_id self) "solana_message"
                   (solana_message_details chain (base64_encode message_bytes)) in
  submit_request self request None false.

Definition decode_raw_transaction (res : TransactionStatusResponse) : result (list byte) :=
  let? raw_tx_b64 := ok_or (SigningFailed "Fordefi solana_transaction response missing raw_transaction")
                       (st_raw_transaction res) in
  map_err (fun e => SerializationError ("Failed to decode raw_transaction base64: " +:+ e))
    (base64_decode raw_tx_b64).

Definition verify_signature (self : FordefiCore) (signature : Signature) (message : list byte) : result unit :=
  if negb (verifies signature (public_key self) message)
  then Err (SigningFailed "Signature verification failed") else Ok tt.

Definition fetch_vault (self : FordefiCore) : M (result VaultResponse) :=
  let url := api_base_url self +:+ "/api/v1/vaults/" +:+ vault_id self in
  try! response := fmap_err from_reqwest_error
                     (http_get url [("Authorization", "Bearer " +:+ access_token self)]) in
  parse_json_response vault_from_slice response "Fordefi API fetch_vault".

Definition vault_matches_public_key (self : FordefiCore) (vault : VaultResponse) : bool :=
  match vault_address vault with
  | Some address =>
      match bs58_decode address with
      | Ok key => bool_decide (key = arr_bytes (public_key self))
      | Err _ => false
      end
  | None =>
      match vault_public_key_compressed vault with
      | Some encoded =>
          match base64_decode encoded with
          | Ok key => bool_decide (key = arr_bytes (public_key self))
          | Err _ => false
          end
      | None => false
      end
  end.

Definition readiness_check (self : FordefiCore) : M (result unit) :=
  try! vault := fetch_vault self in
  if negb (vault_matches_public_key self vault) then
    ret (Err (InvalidPublicKey "Configured public key does not belong to the Fordefi vault"))
  else
    try! timestamp := timestamp_ms in
    try! _ := sign_request self "/api/v1/vaults" timestamp EmptyString in
    ret (Ok tt).

Definition core_is_available (self : FordefiCore) : M bool :=
  let! r := timeout (readiness_check self) in
  ret (match r with Some (Ok _) => true | _ => false end).

(** [sign_message] of the two native signers. *)
Definition native_sign_message (self : FordefiCore) (chain : SolanaChainUniqueId) (message : list byte)
    : M (result Signature) :=
  try! tx_id := submit_solana_message self chain message in
  try! signature := poll_for_signature self tx_id in
  try _ := verify_signature self signature message in
  ret (Ok signature).

End Core.

(** ** Black-box signer *)

Record FordefiBlackBoxSigner `{P256} := mkBlackBox { bb_core : FordefiCore }.
Arguments mkBlackBox {_} _.

Module BlackBox.
Section Signer.
Context `{Codecs} `{SolanaSdk} `{Json} `{ClientBuild} `{UrlParser} `{P256} `{FordefiCodec}.

Definition from_config (config : FordefiSignerConfig) : result FordefiBlackBoxSigner :=
  if match cfg_chain config with Some _ => true | None => false end ||
     match cfg_fee config with Some _ => true | None => false end
  then Err (ConfigError "chain and fee select native Solana mode; use FordefiNativeAutoSigner")
  else match cfg_push_mode config with
       | Some _ => Err (ConfigError "push_mode applies to native Solana mode only; it requires chain")
       | None => let? core := build config in Ok (mkBlackBox core)
       end.

Definition sign_and_serialize (self : FordefiBlackBoxSigner) (transaction : VersionedTransaction)
    : M (VersionedTransaction * result SignedTransaction) :=
  let message_data := message_serialize (message transaction) in
  try! signature := (try! signature := sign_black_box (bb_core self) message_data in
                     try _ := verify_signature (bb_core self) signature message_data in
                     ret (Ok signature)) keeping transaction in
  of_run (attach_and_serialize transaction (public_key (bb_core self)) signature).

Definition sign_message (self : FordefiBlackBoxSigner) (message : list byte) : M (result Signature) :=
  try! signature := sign_black_box (bb_core self) message in
  try _ := verify_signature (bb_core self) signature message in
  ret (Ok signature).

Definition sign_transaction (self : FordefiBlackBoxSigner) (tx : VersionedTransaction)
    : M (VersionedTransaction * result SignTransactionResult) :=
  mut! (tx, signed_transaction) := sign_and_serialize self tx in
  ret (tx, Ok (classify_signed_transaction tx signed_transaction)).

#[global] Instance solana_signer : SolanaSigner FordefiBlackBoxSigner := {
  Traits.pubkey self := Returned (public_key (bb_core self));
  Traits.sign_message := sign_message;
  Traits.is_available self := core_is_available (bb_core self)
}.

#[global] Instance transaction_signer : TransactionSigner FordefiBlackBoxSigner := {
  transaction_signer_base := solana_signer;
  Traits.sign_transaction := sign_transaction
}.

End Signer.
End BlackBox.

(** ** Native signer, Fordefi broadcasts *)

Record FordefiNativeAutoSigner `{P256} := mkNativeAuto {
  na_core : FordefiCore;
  na_chain : SolanaChainUniqueId;
  na_fee : option FordefiSolanaFee;
  na_pending_transaction_id : option nat
}.
Arguments mkNativeAuto {_} _ _ _ _.

Module NativeAuto.
Section Signer.
Context `{Codecs} `{SolanaSdk} `{Json} `{ClientBuild} `{UrlParser} `{P256} `{FordefiCodec}.

Definition from_config (config : FordefiSignerConfig) : result FordefiNativeAutoSigner :=
  match cfg_chain config with
  | None => Err (ConfigError "chain must be set for native Solana mode; use FordefiBlackBoxSigner without it")
  | Some chain =>
      if bool_decide (cfg_push_mode config = Some Manual) then
        Err (ConfigError "manual push_mode does not broadcast; use FordefiNativeManualSigner")
      else let? core := build config in Ok (mkNativeAuto core chain (cfg_fee config) None)
  end.

Definition with_pending_transaction_id (self : FordefiNativeAutoSigner) (pending : nat) : FordefiNativeAutoSigner :=
  mkNativeAuto (na_core self) (na_chain self) (na_fee self) (Some pending).

Definition validate_transaction (self : FordefiNativeAutoSigner) (transaction : VersionedTransaction) : result unit :=
  let required_signatures := u8_nat (num_required_signatures (message transaction)) in
  if negb (required_signatures =? 1) ||
     bool_decide (head (static_account_keys (message transaction)) ≠ Some (public_key (na_core self)))
  then Err (SigningFailed "Fordefi native auto-broadcast currently supports only transactions whose sole required signer is the configured vault")
  else if existsb (fun signature => bool_decide (signature ≠ Signature_default)) (signatures transaction) then
    Err (SigningFailed "Fordefi native auto-broadcast must run before any transaction signatures are applied")
  else Ok tt.

Definition missing_fee_payer_signature : SignerError :=
  SigningFailed "Fordefi wire transaction carries no fee-payer signature to identify the broadcast by".

(** The tail of [finish_broadcast], once the poll has its result. *)
Definition identify_broadcast (self : FordefiNativeAutoSigner) (res : TransactionStatusResponse) : result Signature :=
  let? wire_bytes := decode_raw_transaction res in
  let? (returned, _) := extract_and_verify_rewritten_transaction wire_bytes (public_key (na_core self)) in
  let? signature := ok_or missing_fee_payer_signature
    (match head (signatures returned) with
     | Some signature => if bool_decide (signature ≠ Signature_default) then Some signature else None
     | None => None
     end) in
  let? fee_payer := ok_or missing_fee_payer_signature (head (static_account_keys (message returned))) in
  let? _ := verify_or_reject signature fee_payer (message_serialize (message returned)) in
  Ok signature.

Definition finish_broadcast (self : FordefiNativeAutoSigner) (tx_id : string) : M (result Signature) :=
  try! res := poll_for_result (na_core self) tx_id true in
  ret (identify_broadcast self res).

Definition sign_and_broadcast (self : FordefiNativeAutoSigner) (transaction : VersionedTransaction)
    : M (result Signature) :=
  try _ := validate_transaction self transaction in
  let message_data := message_serialize (message transaction) in
  try! tx_id := submit_solana_transaction (na_core self) (na_chain self) (na_fee self) Auto message_data in
  let! _ := match na_pending_transaction_id self with
            | Some pending => Pending.set pending tx_id
            | None => ret tt
            end in
  let! result :=
    fmap_err (fun error => BroadcastUnconfirmed (Some tx_id) None None None (detail_string error))
      (finish_broadcast self tx_id) in
  let! _ := match na_pending_transaction_id self with
            | Some pending => Pending.clear pending tx_id
            | None => ret tt
            end in
  ret result.

#[global] Instance solana_signer : SolanaSigner FordefiNativeAutoSigner := {
  Traits.pubkey self := Returned (public_key (na_core self));
  Traits.sign_message self message := native_sign_message (na_core self) (na_chain self) message;
  Traits.is_available self := core_is_available (na_core self)
}.

#[global] Instance sending_signer : SendingSigner FordefiNativeAutoSigner := {
  sending_signer_base := solana_signer;
  Traits.sign_and_send_transaction := sign_and_broadcast
}.

End Signer.
End NativeAuto.

(** ** Native signer, the caller broadcasts *)

Record FordefiNativeManualSigner `{P256} := mkNativeManual {
  nm_core : FordefiCore;
  nm_chain : SolanaChainUniqueId;
  nm_fee : option FordefiSolanaFee
}.
Arguments mkNativeManual {_} _ _ _.

Module NativeManual.
Section Signer.
Context `{Codecs} `{SolanaSdk} `{Json} `{ClientBuild} `{UrlParser} `{P256} `{FordefiCodec}.

Definition from_config (config : FordefiSignerConfig) : result FordefiNativeManualSigner :=
  match cfg_chain config with
  | None => Err (ConfigError "manual push_mode requires chain to be set (native Solana mode)")
  | Some chain =>
      if bool_decide (cfg_push_mode config ≠ Some Manual) then
        Err (ConfigError "manual push_mode must be set explicitly; use FordefiNativeAutoSigner to broadcast")
      else let? core := build config in Ok (mkNativeManual core chain (cfg_fee config))
  end.

Definition validate_transaction (self : FordefiNativeManualSigner) (transaction : VersionedTransaction) : result unit :=
  if bool_decide (head (static_account_keys (message transaction)) ≠ Some (public_key (nm_core self)))
  then Err (SigningFailed "Fordefi native manual signing requires the configured vault to be the transaction fee payer")
  else Ok tt.

Definition modify_and_serialize (self : FordefiNativeManualSigner) (transaction : VersionedTransaction)
    : M (VersionedTransaction * result SignedTransaction) :=
  try! _ := ret (validate_transaction self transaction) keeping transaction in
  let message_data := message_serialize (message transaction) in
  try! tx_id := submit_solana_transaction (nm_core self) (nm_chain self) (nm_fee self) Manual message_data
    keeping transaction in
  try! res := poll_for_result (nm_core self) tx_id false keeping transaction in
  try! wire_bytes := ret (decode_raw_transaction res) keeping transaction in
  try! (returned_tx, signature) :=
    ret (extract_and_verify_rewritten_transaction wire_bytes (public_key (nm_core self))) keeping transaction in
  try! encoded := ret (serialize_transaction returned_tx) keeping transaction in
  ret (returned_tx, Ok (encoded, signature)).

Definition modify_and_sign_transaction (self : FordefiNativeManualSigner) (tx : VersionedTransaction)
    : M (VersionedTransaction * result SignTransactionResult) :=
  mut! (tx, signed_transaction) := modify_and_serialize self tx in
  ret (tx, Ok (classify_signed_transaction tx signed_transaction)).

#[global] Instance solana_signer : SolanaSigner FordefiNativeManualSigner := {
  Traits.pubkey self := Returned (public_key (nm_core self));
  Traits.sign_message self message := native_sign_message (nm_core self) (nm_chain self) message;
  Traits.is_available self := core_is_available (nm_core self)
}.

#[global] Instance modifying_signer : ModifyingSigner FordefiNativeManualSigner := {
  modifying_signer_base := solana_signer;
  Traits.modify_and_sign_transaction := modify_and_sign_transaction
}.

End Signer.
End NativeManual.

(** ** Lemmas *)

Section Facts.
Context `{Codecs} `{SolanaSdk} `{Json} `{ClientBuild} `{UrlParser} `{P256} `{FordefiCodec}.

Lemma verify_signature_Ok core sg m u : verify_signature core sg m = Ok u -> verifies sg (public_key core) m = true.
Proof. unfold verify_signature. by destruct (verifies _ _ _). Qed.

#[global] Instance black_box_laws : TransactionSignerLaws FordefiBlackBoxSigner.
Proof.
  split. intros s tx. apply (sign_attach_classify (public_key (bb_core s))).
  walk. by eapply verify_signature_Ok.
Qed.

#[global] Instance black_box_message_laws : MessageSignerLaws FordefiBlackBoxSigner.
Proof.
  split. intros s m. cbn. unfold BlackBox.sign_message. walk. exists (public_key (bb_core s)).
  split; [done|]. by eapply verify_signature_Ok.
Qed.

Lemma native_message_verified core chain m :
  returns (native_sign_message core chain m) (on_ok (fun sg =>
    exists pk, Returned (public_key core) = Returned pk /\ verifies sg pk m = true)).
Proof.
  unfold native_sign_message. walk. exists (public_key core). split; [done|]. by eapply verify_signature_Ok.
Qed.

#[global] Instance native_auto_message_laws : MessageSignerLaws FordefiNativeAutoSigner.
Proof. split. intros s m. apply native_message_verified. Qed.

#[global] Instance native_manual_message_laws : MessageSignerLaws FordefiNativeManualSigner.
Proof. split. intros s m. apply native_message_verified. Qed.

(** Where the requests go, if the built-in request signer is used: the caller's
    own may do anything. *)
Definition signs_locally (core : FordefiCore) : Prop :=
  match request_signer core with PemRequestSigner _ => True | CallerSigner _ => False end.

Section Requests.
Context (core : FordefiCore).
Hypothesis local : signs_locally core.

Lemma timestamp_silent Q : sends timestamp_ms Q.
Proof. unfold timestamp_ms. walk_sends. Qed.

Lemma sign_request_silent path t body Q : sends (sign_request core path t body) Q.
Proof.
  unfold sign_request, request_signer_sign. cbv zeta. unfold signs_locally in local.
  destruct (request_signer core); [apply sends_ret|done].
Qed.
#[local] Hint Resolve timestamp_silent sign_request_silent : keychain.

Lemma submit_under request id managed : sends (submit_request core request id managed) (under (api_base_url core)).
Proof.
  unfold submit_request, extract_api_error_with_transaction_id, extract_api_error_with_body. walk_requests.
Qed.

Lemma poll_under id pushable : sends (poll_for_result core id pushable) (under (api_base_url core)).
Proof. apply sends_poll_from. unfold poll_attempt. walk_requests. Qed.

Lemma readiness_under : sends (core_is_available core) (under (api_base_url core)).
Proof. unfold core_is_available, readiness_check, fetch_vault. walk_requests. Qed.

#[local] Hint Resolve submit_under poll_under : keychain.

Lemma native_message_under chain m : sends (native_sign_message core chain m) (under (api_base_url core)).
Proof. unfold native_sign_message, submit_solana_message, poll_for_signature. walk_requests. Qed.

Lemma submit_solana_under chain fee mode b :
  sends (submit_solana_transaction core chain fee mode b) (under (api_base_url core)).
Proof. apply submit_under. Qed.

Lemma black_box_under b : sends (sign_black_box core b) (under (api_base_url core)).
Proof. unfold sign_black_box, poll_for_signature. walk_requests. Qed.

End Requests.

#[local] Hint Resolve submit_solana_under poll_under black_box_under native_message_under readiness_under : keychain.

Lemma black_box_confined s :
  signs_locally (bb_core s) -> confined s (BlackBox.sign_transaction s) (api_base_url (bb_core s)).
Proof.
  intros local. split; [|intros tx|by apply readiness_under].
  - intros m. change (Traits.sign_message s m) with (BlackBox.sign_message s m).
    unfold BlackBox.sign_message. walk_requests.
  - unfold BlackBox.sign_transaction, BlackBox.sign_and_serialize. walk_requests.
Qed.

Lemma native_auto_confined s :
  signs_locally (na_core s) -> confined s (NativeAuto.sign_and_broadcast s) (api_base_url (na_core s)).
Proof.
  intros local. split; [intros m; by apply native_message_under|intros tx|by apply readiness_under].
  unfold NativeAuto.sign_and_broadcast, NativeAuto.finish_broadcast. walk_requests.
Qed.

Lemma native_manual_confined s :
  signs_locally (nm_core s) -> confined s (NativeManual.modify_and_sign_transaction s) (api_base_url (nm_core s)).
Proof.
  intros local. split; [intros m; by apply native_message_under|intros tx|by apply readiness_under].
  unfold NativeManual.modify_and_sign_transaction, NativeManual.modify_and_serialize. walk_requests.
Qed.

(** What [modify_and_serialize] hands back. *)
Lemma modify_and_serialize_returns s tx :
  returns (NativeManual.modify_and_serialize s tx) (fun p =>
    match p.2 with
    | Ok st => signature_at_signer_position p.1 (public_key (nm_core s)) = Ok st.2 /\
               verifies st.2 (public_key (nm_core s)) (message_serialize (message p.1)) = true /\
               serialize_transaction p.1 = Ok st.1
    | Err _ => p.1 = tx
    end).
Proof.
  unfold NativeManual.modify_and_serialize.
  do 3 (apply keep_bind_returns_any; [done|intros ?]). apply keep_bind_returns_any; [done|intros wire].
  apply (keep_bind_returns _ _ _ (fun p =>
    extract_and_verify_rewritten_transaction wire (public_key (nm_core s)) = Ok p));
    [apply returns_ret_ok|done|].
  intros [tx' sg] (_ & Hsg & Hv)%extract_rewritten_Ok.
  apply (keep_bind_returns _ _ _ (fun enc => serialize_transaction tx' = Ok enc));
    [apply returns_ret_ok|done|].
  intros enc Henc. by apply returns_ret.
Qed.

#[global] Instance native_manual_laws : ModifyingSignerLaws FordefiNativeManualSigner.
Proof.
  split. intros s tx. eapply mut_bind_returns; [apply modify_and_serialize_returns|done|].
  intros tx' st (Hsg & Hv & Henc). apply returns_ret. cbn [fst snd] in *.
  exists (public_key (nm_core s)). split; [done|].
  assert (Hin : into_signed_transaction (classify_signed_transaction tx' st) = st)
    by (unfold classify_signed_transaction; by case_match).
  split; rewrite Hin; [by apply signature_at_signer_position_Ok|done..].
Qed.

Lemma calm_poll core id p : calm (poll_for_result core id p).
Proof.
  apply calm_poll_from. unfold poll_attempt, http_get. auto with keychain.
Qed.

Lemma calm_finish_broadcast s id : calm (NativeAuto.finish_broadcast s id).
Proof. apply calm_bind_res; [apply calm_poll|]. intros r. apply calm_ret. Qed.

(** C20: once Fordefi accepted an auto-broadcast submit, its transaction id
    always reaches the caller: in the [BroadcastUnconfirmed] of any later
    failure, or in the registered slot when the call is cancelled or timed out.
    That error carries no idempotency key. *)
Theorem fordefi_accepted_id_reported (s : FordefiNativeAutoSigner) (tx : VersionedTransaction)
    (c : nat) (w w1 : World) (id : string) :
  NativeAuto.validate_transaction s tx = Ok tt ->
  na_pending_transaction_id s = Some c -> cell_ok c w1 ->
  submit_solana_transaction (na_core s) (na_chain s) (na_fee s) Auto
    (message_serialize (message tx)) w = (Returned (Ok id), w1) ->
  reported c id None w1 (NativeAuto.sign_and_broadcast s tx w).
Proof.
  intros Hv Hc Hok Hs. unfold NativeAuto.sign_and_broadcast. rewrite Hv, Hc.
  unfold bind_res, bind at 1, ret at 1. unfold bind at 1. rewrite Hs.
  apply bracket_reported; [done|apply calm_finish_broadcast].
Qed.

(** C32: the signature returned for an auto-broadcast is the first signature
    of the transaction Fordefi landed and verifies under that transaction's fee
    payer over its message; the vault's own signature in it verifies too. *)
Theorem fordefi_broadcast_signature (s : FordefiNativeAutoSigner) (res : TransactionStatusResponse)
    (sg : Signature) :
  NativeAuto.identify_broadcast s res = Ok sg ->
  exists bytes tx fp vsg, decode_raw_transaction res = Ok bytes /\
    deserialize_wire_transaction bytes = Ok tx /\
    head (signatures tx) = Some sg /\ sg ≠ Signature_default /\
    head (static_account_keys (message tx)) = Some fp /\
    verifies sg fp (message_serialize (message tx)) = true /\
    signature_at_signer_position tx (public_key (na_core s)) = Ok vsg /\
    verifies vsg (public_key (na_core s)) (message_serialize (message tx)) = true.
Proof.
  unfold NativeAuto.identify_broadcast.
  destruct (decode_raw_transaction res) as [bytes|]; [|done]. cbn [res_bind].
  destruct (extract_and_verify_rewritten_transaction _ _) as [[tx vsg]|] eqn:Ex; [|done]. cbn [res_bind].
  apply extract_rewritten_Ok in Ex as (Hd & Hs & Hv).
  destruct (head (signatures tx)) as [sg'|] eqn:?; [|done]. case_bool_decide as Hne; [|done]. cbn.
  destruct (head (static_account_keys (message tx))) as [fp|] eqn:?; [|done]. cbn.
  destruct (verify_or_reject _ _ _) as [u|] eqn:Hr; [|done]. cbn. intros [= <-].
  exists bytes, tx, fp, vsg. split_and!; try done. by eapply verify_or_reject_Ok.
Qed.

(** *** What the provider said *)

(** It took the transaction on under an id, ... *)
Definition fordefi_accepts (id : string) (resp : HttpResponse) : Prop :=
  is_success (resp_status resp) = true /\ str_is_empty (trim id) = false /\
  exists b, carries resp b /\ create_response_from_slice b = Ok id.

(** ... or says, of a transaction it was asked about, that it completed, and shows
    it: [sg] is its first signature, valid under its first key, and the vault has
    signed it too. *)
Definition fordefi_landed (self : FordefiNativeAutoSigner) (sg : Signature) (res : TransactionStatusResponse) : Prop :=
  exists enc bytes tx fee_payer keys sigs i vsg, st_raw_transaction res = Some enc /\ base64_decode enc = Ok bytes /\
    deserialize_wire_transaction bytes = Ok tx /\
    static_account_keys (message tx) = fee_payer :: keys /\ signatures tx = sg :: sigs /\ sg ≠ Signature_default /\
    verifies sg fee_payer (message_serialize (message tx)) = true /\
    signs_at tx (public_key (na_core self)) i /\ signatures tx !! i = Some vsg /\
    verifies vsg (public_key (na_core self)) (message_serialize (message tx)) = true.

Definition fordefi_reports (self : FordefiNativeAutoSigner) (sg : Signature) (req : HttpRequest) (resp : HttpResponse) : Prop :=
  (exists id, req_url req = api_base_url (na_core self) +:+ "/api/v1/transactions/" +:+ id) /\
  is_success (resp_status resp) = true /\
  exists b res, carries resp b /\ status_from_slice b = Ok res /\ st_state res = "completed" /\ fordefi_landed self sg res.

(** The idempotency key of a call, and its create: the message, under that key. *)
Definition fordefi_key (s : FordefiNativeAutoSigner) (tx : VersionedTransaction) : string :=
  idempotency_key_from_message
    (namespaced (na_core s) (na_chain s) (na_fee s) Auto (message_serialize (message tx))).

Definition fordefi_creates (s : FordefiNativeAutoSigner) (tx : VersionedTransaction) (req : HttpRequest) : Prop :=
  req_method req = "POST" /\ req_url req = api_base_url (na_core s) +:+ "/api/v1/transactions" /\
  assoc_get (req_headers req) "Authorization" = Some ("Bearer " +:+ access_token (na_core s)) /\
  assoc_get (req_headers req) "x-idempotence-id" = Some (fordefi_key s tx) /\
  value_to_vec (request_value (vault_id (na_core s)) "solana_transaction"
    (solana_transaction_details (na_chain s) (base64_encode (message_serialize (message tx))) Auto (na_fee s))) = Ok (req_body req).

Lemma identify_landed s res sg : NativeAuto.identify_broadcast s res = Ok sg -> fordefi_landed s sg res.
Proof.
  unfold NativeAuto.identify_broadcast, decode_raw_transaction.
  destruct (st_raw_transaction res) as [enc|] eqn:Hraw; [|done]. cbn [ok_or res_bind]. destruct (base64_decode enc) as [bytes|] eqn:Hb; [|done]. cbn [map_err res_bind].
  destruct (extract_and_verify_rewritten_transaction _ _) as [[tx vsg]|] eqn:Ex; [|done]. cbn [res_bind].
  apply extract_rewritten_Ok in Ex as (Hd & Hs & Hv). apply signature_at_signer_position_Ok in Hs as (i & Hi & Hvs & _).
  destruct (signatures tx) as [|sg' sigs] eqn:Hsg; [done|]. cbn [head]. case_bool_decide; [|done]. cbn [ok_or res_bind].
  destruct (static_account_keys (message tx)) as [|fp keys] eqn:Hk; [done|]. cbn [head ok_or res_bind].
  destruct (verify_or_reject _ _ _) as [u|] eqn:Hr; [|done]. cbn. intros [= <-].
  exists enc, bytes, tx, fp, keys, sigs, i, vsg. rewrite Hsg. split_and!; try done. by eapply verify_or_reject_Ok.
Qed.

Lemma attempt_told core id w res w' :
  poll_attempt core id true w = (Returned (Ok (Done res)), w') ->
  st_state res = "completed" /\ last_answered w' (fun req resp => req_url req = api_base_url core +:+ "/api/v1/transactions/" +:+ id /\
    is_success (resp_status resp) = true /\ exists b, carries resp b /\ status_from_slice b = Ok res).
Proof.
  unfold poll_attempt. intros (resp & w1 & [-> Hh]%sent_Ok & (v & w2 & (-> & Hs & Hb)%parsed_Ok & [= Hc <-])%bind_res_Ok)%bind_res_Ok.
  unfold classify_state in Hc. case_bool_decide; [|by case_bool_decide]. injection Hc as ->. split; [done|].
  by eapply push_answered.
Qed.

Lemma poll_told core id w res w' :
  poll_for_result core id true w = (Returned (Ok res), w') -> exists w1, poll_attempt core id true w1 = (Returned (Ok (Done res)), w').
Proof.
  intros HP. apply (poll_from_spec _ _ _ w 0) in HP as [(k & _ & w1 & w2 & _ & _ & Ha)|[[=] _]]; [eauto|constructor].
Qed.

(** The signature a call returns is the one the provider's last answer shows. *)
Lemma fordefi_landed_reported s tx w sg w' :
  NativeAuto.sign_and_broadcast s tx w = (Returned (Ok sg), w') -> last_answered w' (fordefi_reports s sg).
Proof.
  unfold NativeAuto.sign_and_broadcast.
  intros (u & ? & [= _ <-] & (id & w1 & _ & (w2 & [sg'|] & w3 & _ & Hf & [Ht3 [=]] & [= <-])%bracket_runs)%bind_res_Ok)%bind_res_Ok.
  revert Hf. unfold NativeAuto.finish_broadcast. intros (res & w4 & (w5 & [Hst Hl]%attempt_told)%poll_told & [= Hi%identify_landed <-])%bind_res_Ok.
  eapply last_answered_world; [exact Ht3|done|]. eapply last_answered_weaken; [exact Hl|]. intros req resp (Hu & Hs & b & Hc & Hb).
  split_and!; [by eexists|done|]. by exists b, res.
Qed.

(** A submit that asks the clock only, and one that is sent: if it is accepted, it
    ends with the id. *)
Definition submit_outcome (s : FordefiNativeAutoSigner) (tx : VersionedTransaction) (w : World)
    (out : run (result string) * World) : Prop :=
  ((out.2 = w \/ out.2 = push_event EvClock w) /\ forall id, out.1 ≠ Returned (Ok id)) \/
  exists req, fordefi_creates s tx req /\ out.2 = push_event (EvHttp req) (push_event EvClock w) /\
    forall resp id, w_http w (w_trace w ++ [EvClock]) req = Reply resp -> fordefi_accepts id resp -> out.1 = Returned (Ok id).

Lemma api_error_with_id_still resp ctx w : (extract_api_error_with_transaction_id resp ctx w).2 = w.
Proof.
  unfold extract_api_error_with_transaction_id, extract_api_error_with_body, bind. pose proof (read_body_still resp w) as Hw.
  by destruct (read_body_capped resp w) as [[r| |] w1].
Qed.

Lemma submit_runs s tx w :
  signs_locally (na_core s) ->
  submit_outcome s tx w (submit_solana_transaction (na_core s) (na_chain s) (na_fee s) Auto (message_serialize (message tx)) w).
Proof.
  unfold signs_locally. destruct (request_signer (na_core s)) as [k|] eqn:Hk; [intros _|done].
  unfold submit_solana_transaction. cbv zeta. unfold submit_request. cbv zeta. unfold bind_res at 1, bind at 1, ret at 1.
  destruct (value_to_vec _) as [body|] eqn:Hb; cbn [map_err]; [|left; split; auto; done].
  unfold bind_res at 1, bind at 1, timestamp_ms, bind at 1, clock_ms. cbn [ret].
  set (w1 := push_event EvClock w). destruct (if (_ <? 0)%Z then _ else _) as [ms|]; cbn [ret]; [|left; split; auto; done].
  unfold bind_res at 1, bind at 1, sign_request, request_signer_sign. rewrite Hk. cbn [ret].
  unfold bind_res at 1, bind at 1, fmap_err at 1, bind at 1, http_send. set (req := mkRequest _ _ _ _).
  assert (fordefi_creates s tx req) as Hreq by (by repeat split).
  change (w_http w1 (w_trace w1) req) with (w_http w (w_trace w ++ [EvClock]) req).
  destruct (w_http w (w_trace w ++ [EvClock]) req) as [resp|e|why] eqn:Hh; cbn [ret map_err];
    [|right; exists req; rewrite Hh; by split_and!..].
  set (w2 := push_event (EvHttp req) w1).
  destruct (is_success (resp_status resp)) eqn:Hs; cbn [negb].
  - pose proof (read_body_still resp w2) as Hstill. pose proof (fun b => carries_read_body resp b w2) as Hread.
    unfold bind_res, fmap_err, bind. destruct (read_body_capped resp w2) as [[[b|e]| |] w3] eqn:Hd; cbn [ret map_err fst snd] in *; subst w3.
    2-4: right; exists req; rewrite Hh; split_and!; [done..|]; intros resp' id [= <-] (_ & _ & b' & Hc & _); by specialize (Hread _ Hc).
    right. exists req. rewrite Hh. split_and!; [done|by repeat case_match|].
    intros resp' id [= <-] (_ & Hne & b' & Hc & Hid). assert (b' = b) as -> by (specialize (Hread _ Hc); congruence).
    rewrite Hid. cbn [map_err ret]. by rewrite Hne.
  - pose proof (api_error_with_id_still resp "Fordefi API submit_request" w2) as Hstill. unfold bind.
    destruct (extract_api_error_with_transaction_id _ _ _) as [[[e id]| |] w3]; cbn [fst snd] in *; subst w3;
      right; exists req; rewrite Hh; (split_and!; [done..|intros resp' id' [= <-] [Hs' _]; congruence]).
Qed.

(** The first request of a call is the create; if it is accepted and the call
    fails all the same, the error has the id. *)
Lemma fordefi_create_reported s tx w o w' tr req :
  signs_locally (na_core s) ->
  NativeAuto.sign_and_broadcast s tx w = (o, w') -> first_request w w' tr req ->
  fordefi_creates s tx req /\
  forall resp id e, w_http w tr req = Reply resp -> fordefi_accepts id resp -> o = Returned (Err e) ->
    exists d, e = BroadcastUnconfirmed (Some id) None None None d.
Proof.
  intros Hloc. unfold NativeAuto.sign_and_broadcast, bind_res at 1, bind at 1, ret at 1.
  destruct (NativeAuto.validate_transaction s tx); [|intros [= _ <-] []%no_first_request]. cbv zeta.
  pose proof (submit_runs s tx w Hloc) as Hsub. unfold bind_res, bind at 1.
  destruct (submit_solana_transaction _ _ _ _ _ w) as [o1 w1]. destruct Hsub as [[Hw1 Hno]|(req' & Hreq & Hw1 & Hgo)]; cbn [fst snd] in *.
  - intros HE Hfirst. assert (w' = w1) as -> by (destruct o1 as [[id|]| |]; [by destruct (Hno id)|by injection HE..]).
    destruct Hw1 as [->| ->]; [by apply no_first_request in Hfirst|]. exfalso. destruct Hfirst as (pre & ext & -> & He & _). cbn in He.
    rewrite <- (assoc_L (++)) in He. apply (inj (w_trace w ++.)) in He. by destruct pre as [|? []].
  - subst w1. intros HE Hfirst.
    assert (exists ext, w_trace w' = w_trace w ++ [EvClock] ++ EvHttp req' :: ext) as [ext Ht].
    { destruct o1 as [[id|e]| |]; try (injection HE as _ <-; exists []; cbn; by rewrite <- (assoc_L (++))).
      match type of HE with ?m ?w0 = _ => assert (sends m (fun _ => True)) as Hs; [|destruct (Hs w0) as (ext & He & _)] end.
      { unfold NativeAuto.finish_broadcast. walk_requests. eapply sends_weaken; [by apply poll_under|done]. }
      rewrite HE in He. exists ext. cbn in *. by rewrite He, <- !(assoc_L (++)). }
    apply (first_request_is _ _ [EvClock] req' ext) in Hfirst as [-> ->]; [|done|by repeat constructor]. split; [done|].
    intros resp id e Hh Hacc ->. rewrite (Hgo _ _ Hh Hacc) in HE. apply bracket_runs in HE as (w2 & [sg|e1] & w3 & _ & _ & _ & [= ->]). by eexists.
Qed.

Lemma api_error_with_id_run resp ctx w e w' :
  extract_api_error_with_transaction_id resp ctx w = (Returned e, w') -> w' = w.
Proof.
  unfold extract_api_error_with_transaction_id, extract_api_error_with_body, bind.
  destruct (read_body_capped resp w) as [[r| |] w1] eqn:E; cbn; [|done..].
  apply read_body_world in E as ->. by intros [= _ <-].
Qed.

Lemma not_success_plain resp ctx w e i w' :
  extract_api_error_with_transaction_id resp ctx w = (Returned (e, i), w') -> is_unconfirmed e = false.
Proof.
  unfold extract_api_error_with_transaction_id, extract_api_error_with_body, bind.
  destruct (read_body_capped resp w) as [[r| |] w1] eqn:E; cbn; [|done..]. by intros [= <- _ _].
Qed.

(** Nothing but the clock was consulted. *)
Definition no_request (w w' : World) : Prop := count_events is_http w' = count_events is_http w.

(** The one request was refused by the provider in so many words. *)
Definition refused (w w' : World) (e : SignerError) : Prop :=
  exists w1 req resp, no_request w w1 /\ w_http w1 (w_trace w1) req = Reply resp /\
    definite_rejection (Some (resp_status resp)) /\ w' = push_event (EvHttp req) w1 /\
    is_unconfirmed e = false.

Lemma submit_request_Err core req key k w e w' :
  request_signer core = PemRequestSigner k ->
  submit_request core req (Some key) true w = (Returned (Err e), w') ->
  (exists id st d, e = BroadcastUnconfirmed id st (Some key) None d) \/ no_request w w' \/ refused w w' e.
Proof.
  intros Hk. unfold submit_request, bind_res at 1, bind at 1, ret at 1.
  destruct (value_to_vec req) as [body|es]; cbn [map_err]; [|intros [= _ <-]; right; left; reflexivity].
  unfold bind_res at 1, bind at 1, timestamp_ms, bind at 1, clock_ms; cbn [ret].
  assert (Hck : no_request w (push_event EvClock w))
    by (unfold no_request; rewrite count_events_push; simpl; lia).
  set (w1 := push_event EvClock w) in *.
  destruct (if (_ <? 0)%Z then _ else _) as [ms|]; cbn [ret]; [|intros [= _ <-]; auto].
  unfold bind_res at 1, bind at 1, sign_request, request_signer_sign. rewrite Hk. cbn [ret].
  unfold bind_res at 1, fmap_err at 1, bind, http_send. set (hreq := mkRequest _ _ _ _).
  destruct (w_http w1 (w_trace w1) hreq) as [resp|eh|why] eqn:Hh; cbn [ret map_err].
  2: { intros [= <- _]. left. eexists _, _, _. reflexivity. }
  2: done.
  assert (Hcls : forall id e', is_unconfirmed e' = false ->
    e = classify_submit true (Some key) (Some (resp_status resp)) id e' -> w' = push_event (EvHttp hreq) w1 ->
    (exists id st d, e = BroadcastUnconfirmed id st (Some key) None d) \/ no_request w w' \/ refused w w' e).
  { intros id e' Hpl -> ->. cbn. edestruct unconfirmed_key as [?|[-> Hr]]; [left; eassumption|].
    right; right. exists w1, hreq, resp. split_and!; done. }
  destruct (is_success (resp_status resp)); cbn [negb].
  - unfold bind_res, fmap_err, bind.
    destruct (read_body_capped resp _) as [[[b|er]| |] w2] eqn:Eb; [| |done..]; cbn [ret map_err];
      pose proof (read_body_plain _ _ _ _ Eb) as Hpl; apply read_body_world in Eb as ->.
    + destruct (create_response_from_slice b) as [id|ep]; cbn [ret map_err].
      * case_match; cbn; [|done]. intros [= <- <-]. eapply Hcls; [|reflexivity|reflexivity]; done.
      * intros [= <- <-]. eapply Hcls; [|reflexivity|reflexivity]; done.
    + intros [= <- <-]. eapply Hcls; [|reflexivity|reflexivity]; done.
  - destruct (extract_api_error_with_transaction_id resp _ _) as [[[er id]| |] w2] eqn:Ee; [|done..].
    pose proof (not_success_plain _ _ _ _ _ _ Ee). apply api_error_with_id_run in Ee as ->.
    intros [= <- <-]. eapply Hcls; [|reflexivity|reflexivity]; done.
Qed.

(** C31: a failed auto-broadcast leaves no doubt unreported.  With the
    built-in request signer, either the error is [BroadcastUnconfirmed], or no
    request left the process, or the submit was the only request and Fordefi
    rejected it definitely (4xx other than 408). *)
Theorem fordefi_failure_classified (s : FordefiNativeAutoSigner) (k : P256Key) (tx : VersionedTransaction)
    (w : World) (e : SignerError) (w' : World) :
  request_signer (na_core s) = PemRequestSigner k ->
  NativeAuto.sign_and_broadcast s tx w = (Returned (Err e), w') ->
  is_unconfirmed e = true \/ no_request w w' \/ refused w w' e.
Proof.
  intros Hk. unfold NativeAuto.sign_and_broadcast, bind_res at 1, bind at 1, ret at 1.
  destruct (NativeAuto.validate_transaction s tx) as [u|ev]; [|intros [= _ <-]; by right; left].
  unfold bind_res, bind at 1.
  destruct (submit_solana_transaction _ _ _ _ _ w) as [[[id|es]| |] w1] eqn:Es; [| |done..].
  - intros HE. left. revert HE. unfold bind at 1.
    destruct (match na_pending_transaction_id s with _ => _ end w1) as [[[]| |] w2]; [|done..].
    unfold bind at 1, fmap_err, bind at 1.
    destruct (NativeAuto.finish_broadcast s id w2) as [[r| |] w3]; [|done..]. cbn [ret].
    unfold bind. destruct (match na_pending_transaction_id s with _ => _ end w3) as [[[]| |] w4]; [|done..].
    destruct r as [sg|e2]; cbn [map_err ret]; [done|]. by intros [= <- _].
  - intros [= -> ->]. unfold submit_solana_transaction in Es. rewrite bool_decide_eq_true_2 in Es by done.
    eapply submit_request_Err in Es; [|done].
    destruct Es as [(id & st & d & ->)|[?|?]]; auto.
Qed.

(** *** Idempotency namespaces *)

Definition plain_text (c : byte) (s : string) : Prop := c ∉ as_bytes s.

(** The terms a fee stands for: an absent custom field and an empty one are the
    same request parameter to the key. *)
Definition fee_terms (fee : option FordefiSolanaFee) : option FordefiSolanaFee :=
  match fee with
  | Some (Custom u p) => Some (Custom (Some (default EmptyString u)) (Some (default EmptyString p)))
  | other => other
  end.

Definition fee_plain (fee : option FordefiSolanaFee) : Prop :=
  match fee with
  | Some (Custom u p) =>
      plain_text x3a (default EmptyString u) /\ plain_text x3a (default EmptyString p) /\
      plain_text x7c (default EmptyString u)
  | _ => True
  end.

Lemma sep_inj_on (c : byte) (a b r s : list byte) :
  c ∉ a -> c ∉ b -> a ++ c :: r = b ++ c :: s -> a = b /\ r = s.
Proof.
  intros Ha Hb E. apply (f_equal (split_once c)) in E.
  rewrite !split_once_app in E by done. by injection E as -> ->.
Qed.

Lemma canonical_fee_no_colon fee : fee_plain fee -> x3a ∉ as_bytes (canonical_fee fee).
Proof.
  destruct fee as [[u p|[]]|]; cbn [canonical_fee fee_plain]; [|intros _; by apply (bool_decide_unpack _)..].
  intros (Hu & Hp & _). rewrite !as_bytes_app, !not_elem_of_app.
  split_and!; [by apply (bool_decide_unpack _)|done|by apply (bool_decide_unpack _)|done].
Qed.

Lemma canonical_fee_inj f1 f2 :
  fee_plain f1 -> fee_plain f2 -> canonical_fee f1 = canonical_fee f2 -> fee_terms f1 = fee_terms f2.
Proof.
  destruct f1 as [[u1 p1|l1]|], f2 as [[u2 p2|l2]|]; cbn [canonical_fee fee_terms fee_plain]; try done.
  - intros (_ & _ & Hu1) (_ & _ & Hu2) E%(f_equal as_bytes). rewrite !as_bytes_app in E.
    apply (inj (as_bytes "custom||" ++.)) in E. apply sep_inj_on in E as [Eu Ep]; [|done..].
    apply as_bytes_inj in Eu, Ep. by rewrite Eu, Ep.
  - by destruct l1, l2.
Qed.

(** The create's idempotency input separates push mode, chain, vault, fee
    terms and message, provided vault ids hold no colon and custom fees neither
    colon nor bar. *)
Theorem fordefi_namespace_injective (c1 c2 : FordefiCore) (ch1 ch2 : SolanaChainUniqueId)
    (f1 f2 : option FordefiSolanaFee) (m1 m2 : FordefiPushMode) (d1 d2 : list byte) :
  plain_text x3a (vault_id c1) -> plain_text x3a (vault_id c2) -> fee_plain f1 -> fee_plain f2 ->
  namespaced c1 ch1 f1 m1 d1 = namespaced c2 ch2 f2 m2 d2 ->
  m1 = m2 /\ ch1 = ch2 /\ vault_id c1 = vault_id c2 /\ fee_terms f1 = fee_terms f2 /\ d1 = d2.
Proof.
  intros Hv1 Hv2 Hf1 Hf2. unfold namespaced. rewrite !as_bytes_app, <- !(assoc_L (++)).
  intros E%(inj (as_bytes "fordefi:solana:" ++.)).
  assert (Hm : forall m, x3a ∉ as_bytes (push_mode_str m)) by (intros []; by apply (bool_decide_unpack _)).
  assert (Hc : forall c, x3a ∉ as_bytes (chain_as_str c)) by (intros []; by apply (bool_decide_unpack _)).
  apply sep_inj_on in E as [Em E]; [|done..]. apply sep_inj_on in E as [Ec E]; [|done..].
  apply sep_inj_on in E as [Ev E]; [|done..].
  apply sep_inj_on in E as [Ef E]; [|by apply canonical_fee_no_colon..].
  split_and!; [by destruct m1, m2|by destruct ch1, ch2|by apply as_bytes_inj| |done].
  apply as_bytes_inj in Ef. by apply canonical_fee_inj.
Qed.

(** Without that proviso the terms do collide: the same message
    submitted under two different custom fees has one and the same key input,
    hence one and the same idempotency key, in every vault, chain and mode. *)
Theorem fordefi_fee_collision (c : FordefiCore) (ch : SolanaChainUniqueId) (m : FordefiPushMode) (d : list byte) :
  let f1 := Some (Custom (Some "1|2") (Some "3")) in
  let f2 := Some (Custom (Some "1") (Some "2|3")) in
  fee_terms f1 ≠ fee_terms f2 /\
  namespaced c ch f1 m d = namespaced c ch f2 m d.
Proof. split; [done|]. unfold namespaced. do 6 f_equal. Qed.

End Facts.

(** ** Concrete runs *)

Module FordefiDemo.
Import Demo DemoJson.

#[export] Instance demo_build : ClientBuild := {| reqwest_build := fun _ => Ok tt |}.
#[export] Instance demo_url : UrlParser := {| url_parse := fun s => Ok (mkUrl "https" s false (Some "h") None "/") |}.
#[export] Instance demo_p256 : P256 := {|
  P256Key := unit; from_pkcs8_pem := fun _ => Some tt; from_sec1_pem := fun _ => None;
  p256_sign_der := fun _ b => b
|}.

Definition vault_key : Pubkey := array_repeat 32 x01.
Definition demo_message_of (payload : string) : VersionedMessage :=
  DemoMessage x01 [vault_key] (as_bytes payload) false.
Definition demo_tx : VersionedTransaction := mkTransaction [Signature_default] (demo_message_of "payload").

(** What Fordefi lands: a rewritten message, signed by the vault. *)
Definition landed_signature : Signature := demo_sign (arr_bytes vault_key) (as_bytes "rewritten").
Definition landed_bytes : list byte :=
  match wire_serialize [landed_signature] (demo_message_of "rewritten") with Ok b => b | Err _ => [] end.

#[export] Instance demo_codec : FordefiCodec := {|
  create_response_from_slice := fun b => Ok (of_bytes b);
  status_from_slice := fun b =>
    Ok (mkStatus "completed" None (Some (base64_encode landed_bytes)));
  vault_from_slice := fun _ => Ok (mkVault None None)
|}.

Definition demo_core : FordefiCore :=
  mkCore "token" "vault" (PemRequestSigner tt) "https://api" (client_builder (mkHttpClientConfig None None))
    vault_key 1000 2.
Definition demo_signer : FordefiNativeAutoSigner := mkNativeAuto demo_core SolanaDevnet None (Some 0).

Lemma fordefi_accepted_id_reported_witness :
  let w := answering_world 200 (as_bytes "tx-1") in
  exists w1,
    submit_solana_transaction demo_core SolanaDevnet None Auto (message_serialize (message demo_tx)) w =
      (Returned (Ok "tx-1"), w1) /\
    reported 0 "tx-1" None w1 (NativeAuto.sign_and_broadcast demo_signer demo_tx w).
Proof.
  intros w. eexists.
  match goal with |- ?A = ?B /\ _ => assert (E : A = B) by (vm_compute; reflexivity) end.
  split; [exact E|].
  refine (fordefi_accepted_id_reported demo_signer demo_tx 0 w _ _ _ eq_refl _ E); vm_compute; reflexivity.
Defined.

Definition demo_status : TransactionStatusResponse :=
  mkStatus "completed" None (Some (base64_encode landed_bytes)).

Lemma fordefi_broadcast_signature_witness :
  exists sg, NativeAuto.identify_broadcast demo_signer demo_status = Ok sg /\
    arr_bytes sg = arr_bytes landed_signature /\
    exists bytes, decode_raw_transaction demo_status = Ok bytes.
Proof.
  eexists.
  match goal with |- ?A = ?B /\ _ => assert (E : A = B) by (vm_compute; reflexivity) end.
  split; [exact E|]. split; [vm_compute; reflexivity|].
  destruct (fordefi_broadcast_signature demo_signer demo_status _ E) as (bytes & tx & fp & vsg & Hb & _).
  exists bytes. exact Hb.
Defined.

Lemma fordefi_failure_classified_witness :
  exists e w', NativeAuto.sign_and_broadcast demo_signer demo_tx idle_world = (Returned (Err e), w') /\
    (is_unconfirmed e = true \/ no_request idle_world w' \/ refused idle_world w' e).
Proof.
  eexists _, _.
  match goal with |- ?A = ?B /\ _ => assert (E : A = B) by (vm_compute; reflexivity) end.
  split; [exact E|]. exact (fordefi_failure_classified demo_signer tt demo_tx idle_world _ _ eq_refl E).
Defined.

Lemma fordefi_namespace_injective_witness :
  plain_text x3a (vault_id demo_core) /\
  (Auto = Auto /\ SolanaDevnet = SolanaDevnet /\ vault_id demo_core = vault_id demo_core /\
   fee_terms (Some (Priority High)) = fee_terms (Some (Priority High)) /\ as_bytes "m" = as_bytes "m").
Proof.
  assert (Hv : plain_text x3a (vault_id demo_core)) by (by apply (bool_decide_unpack _)).
  split; [exact Hv|].
  exact (fordefi_namespace_injective demo_core demo_core SolanaDevnet SolanaDevnet (Some (Priority High))
    (Some (Priority High)) Auto Auto (as_bytes "m") (as_bytes "m") Hv Hv I I eq_refl).
Defined.

(** A rewritten transaction, broadcast to a network that drops the answer. *)
Definition manual_signer : FordefiNativeManualSigner := mkNativeManual demo_core SolanaDevnet None.
Definition lost_answer (encoded : string) : M (result Signature) := ret (Err (HttpError "reset")).

Definition manual_world : World := answering_world 200 (as_bytes "tx-1").
Definition manual_run := modify_and_send manual_signer demo_tx lost_answer manual_world.
Definition manual_sent : VersionedTransaction * result Signature :=
  match manual_run.1 with Returned p => p | _ => (demo_tx, Err (Other "no run")) end.

Lemma modify_and_send_spec_witness :
  has_all_required_signatures manual_sent.1 = true /\
  exists res w1, Traits.modify_and_sign_transaction manual_signer demo_tx manual_world =
      (Returned (manual_sent.1, res), w1) /\
    match res with
    | Err e => manual_sent.2 = Err e /\ manual_run.2 = w1 /\ manual_sent.1 = demo_tx
    | Ok res => exists pk, Traits.pubkey manual_signer = Returned pk /\ signed_rewritten pk manual_sent.1 res /\
                  broadcast_outcome manual_sent.1 (into_signed_transaction res).1 lost_answer w1
                    manual_sent.2 manual_run.2
    end.
Proof.
  split; [vm_compute; reflexivity|].
  refine (modify_and_send_spec manual_signer demo_tx lost_answer manual_world manual_sent.1 manual_sent.2
            manual_run.2 _).
  vm_compute. reflexivity.
Defined.

End FordefiDemo.
