(* ===== verification/Retries.v ===== *)
(** * Retried broadcasts

    A caller that got [BroadcastUnconfirmed], or whose future was dropped, calls
    again.  What makes this safe is the idempotency key: a provider that honours
    it creates at most one transaction per key.  The crate's part is stated here,
    of Crossmint and of Fordefi's auto-broadcast: over any sequence of calls,
    every create that goes out is the create of one of the transactions under the
    key of its message, no call sends more than one, and however often a message
    is tried, its creates carry one and the same key. *)

From S2P Require Import Prelude Errors World Externals TransactionUtil SignatureUtil RemoteUtil Traits.
From S2P Require Import Crossmint Fordefi.

#[local] Open Scope keychain_scope.

(** The requests of a trace, in order. *)
Definition requests (evs : list Event) : list HttpRequest :=
  omap (fun e => match e with EvHttp r => Some r | _ => None end) evs.

(** Calls one after the other; each may fail or be dropped, and the next starts
    in the world it left. *)
Fixpoint run_calls {A} (calls : list (M A)) (w : World) : list (run A) * World :=
  match calls with
  | [] => ([], w)
  | m :: r => let (o, w1) := m w in let (os, w2) := run_calls r w1 in (o :: os, w2)
  end.

(** ** Any backend *)

Section Sequences.
Context `{SolanaSdk} {A : Type} (call : VersionedTransaction -> M A) (key_header : string).
Context (is_create : HttpRequest -> bool) (creates : VersionedTransaction -> HttpRequest -> Prop).

Definition key_of (r : HttpRequest) : option string := assoc_get (req_headers r) key_header.

(** In any sequence of calls, every create is the create of one of the
    transactions, there are no more of them than calls, and no more keys than
    messages. *)
Definition retry_safe : Prop :=
  forall txs w, exists ext, w_trace (run_calls (map call txs) w).2 = w_trace w ++ ext /\
    let sent := filter (fun r => is_create r = true) (requests ext) in
    Forall (fun r => exists tx, tx ∈ txs /\ creates tx r) sent /\ length sent <= length txs /\
    length (remove_dups (map key_of sent)) <= length (remove_dups (map (fun tx => message_serialize (message tx)) txs)).

(** The creates in a trace. *)
Definition create_event (e : Event) : bool := match e with EvHttp r => is_create r | _ => false end.

Lemma requests_app a b : requests (a ++ b) = requests a ++ requests b.
Proof. apply omap_app. Qed.

Lemma sent_count evs : length (filter (fun r => is_create r = true) (requests evs)) = length (filter create_event evs).
Proof.
  induction evs as [|[r| | |] evs IH]; [done| |done..].
  change (requests (EvHttp r :: evs)) with (r :: requests evs). rewrite !filter_cons. cbn [create_event].
  destruct (is_create r); repeat case_decide; cbn [length]; try done. congruence.
Qed.

Lemma sent_Forall (Q : HttpRequest -> Prop) evs :
  Forall (request_ok (fun r => is_create r = true -> Q r)) evs -> Forall Q (filter (fun r => is_create r = true) (requests evs)).
Proof.
  induction 1 as [|[r| | |] evs Hr HF IH]; [done| |done..]. change (requests (EvHttp r :: evs)) with (r :: requests evs).
  rewrite filter_cons. case_decide; [constructor; [by apply Hr|done]|done].
Qed.

(** Code that sends no create. *)
Lemma at_most_quiet {B} (m : M B) : sends m (fun r => is_create r = false) -> at_most create_event 0 m.
Proof.
  intros Hm w. destruct (Hm w) as (ext & He & HF). unfold count_events. rewrite He, filter_app, length_app.
  assert (filter create_event ext = []) as ->; [|cbn; lia].
  clear He. induction HF as [|[r| | |] ext Hr HF IH]; [done| |done..]. rewrite filter_cons. cbn [create_event]. by rewrite Hr.
Qed.

Context (key : list byte -> string).
Hypothesis call_sends : forall tx, sends (call tx) (fun r => is_create r = true -> creates tx r).
Hypothesis call_once : forall tx, at_most create_event 1 (call tx).
Hypothesis creates_keyed : forall tx r, creates tx r -> key_of r = Some (key (message_serialize (message tx))).

Lemma calls_send txs w : exists ext, w_trace (run_calls (map call txs) w).2 = w_trace w ++ ext /\
  Forall (fun r => exists tx, tx ∈ txs /\ creates tx r) (filter (fun r => is_create r = true) (requests ext)) /\
  length (filter (fun r => is_create r = true) (requests ext)) <= length txs.
Proof.
  revert w. induction txs as [|tx txs IH]; intros w; cbn [map run_calls].
  { exists []. by rewrite app_nil_r. }
  destruct (call_sends tx w) as (e1 & H1 & HF1). pose proof (call_once tx w) as Hone. destruct (call tx w) as [o w1]. cbn [snd] in *.
  destruct (IH w1) as (e2 & H2 & HF2 & Hl). destruct (run_calls (map call txs) w1) as [os w2]. cbn [snd] in *.
  exists (e1 ++ e2). split; [by rewrite H2, H1, <- (assoc_L (++))|]. rewrite requests_app, filter_app. split.
  - apply Forall_app. split.
    + eapply Forall_impl; [by apply sent_Forall|]. intros r Hr. exists tx. split; [constructor|exact Hr].
    + eapply Forall_impl; [exact HF2|]. intros r (tx' & Htx & Hr). exists tx'. split; [by constructor|done].
  - rewrite length_app, (sent_count e1). unfold count_events in Hone. rewrite H1, filter_app, length_app in Hone. cbn [length]. lia.
Qed.

Lemma calls_retry_safe : retry_safe.
Proof.
  intros txs w. destruct (calls_send txs w) as (ext & He & HF & Hl). exists ext. split; [done|]. cbv zeta. split_and!; [done..|].
  set (ms := remove_dups (map _ txs)). rewrite <- (length_fmap (fun m => Some (key m)) ms).
  apply submseteq_length, NoDup_submseteq; [apply NoDup_remove_dups|].
  intros k (r & -> & Hr)%elem_of_remove_dups%list_elem_of_fmap. rewrite Forall_forall in HF.
  destruct (HF r Hr) as (tx & Htx & Hc). rewrite (creates_keyed _ _ Hc). apply list_elem_of_fmap.
  exists (message_serialize (message tx)). split; [done|]. apply elem_of_remove_dups, list_elem_of_fmap. by exists tx.
Qed.

End Sequences.

(** ** Crossmint and Fordefi *)

Section Backends.
Context `{Codecs} `{SolanaSdk} `{Json} `{ClientBuild} `{UrlParser} `{Dalek} `{StdText} `{CrossmintCodec}.
Context `{P256} `{FordefiCodec}.

(** POST .../wallets/{locator}/transactions. *)
Definition crossmint_is_create (self : CrossmintSigner) (r : HttpRequest) : bool :=
  bool_decide (req_method r = "POST") &&
  match build_wallets_api_url self ["transactions"] with
  | Ok url => bool_decide (req_url r = url)
  | Err _ => false
  end.

(** POST /api/v1/transactions. *)
Definition fordefi_is_create (s : FordefiNativeAutoSigner) (r : HttpRequest) : bool :=
  bool_decide (req_method r = "POST") &&
  bool_decide (req_url r = Fordefi.api_base_url (na_core s) +:+ "/api/v1/transactions").

#[local] Hint Resolve read_json_value_silent required_field_silent : keychain.

(** The other requests of a call are no creates. *)
Lemma crossmint_approval_no_create self id url h b :
  build_wallets_api_url self ["transactions"; id; "approvals"] = Ok url ->
  crossmint_is_create self (mkRequest "POST" url h b) = false.
Proof.
  unfold crossmint_is_create, build_wallets_api_url. cbn [req_method req_url]. destruct (url_parse _); cbn [map_err res_bind]; [|done].
  case_match; [done|]. intros [= <-]. cbn [foldl]. apply andb_false_iff. right. apply bool_decide_eq_false.
  intros E%(f_equal (fun s => length (as_bytes s))). rewrite !as_bytes_app, !length_app in E. cbn in E. lia.
Qed.

Lemma crossmint_poll_no_create self n sub resp :
  sends (Crossmint.poll_loop self n sub resp) (fun r => crossmint_is_create self r = false).
Proof.
  revert sub resp. induction n as [|n IH]; intros sub resp; cbn [Crossmint.poll_loop]; [apply sends_ret|].
  unfold handle_awaiting_approval, submit_approval, Crossmint.get_transaction. walk_requests.
  by eapply crossmint_approval_no_create.
Qed.

Lemma crossmint_finish_no_create self created :
  sends (finish_managed_transaction self created) (fun r => crossmint_is_create self r = false).
Proof. unfold finish_managed_transaction, poll_transaction. walk_requests. apply crossmint_poll_no_create. Qed.

Lemma crossmint_sends_keyed self tx :
  sends (execute_managed_transaction self tx) (fun r => crossmint_is_create self r = true -> crossmint_creates self tx r).
Proof.
  unfold execute_managed_transaction. apply sends_try. intros pk _. apply sends_try. intros wire Hw. cbv zeta.
  apply sends_bind_res_any.
  - unfold Crossmint.create_transaction. walk_requests. intros _. repeat split; eauto.
  - intros created. walk_requests. eapply sends_weaken; [apply crossmint_finish_no_create|]. intros r Hr. by rewrite Hr.
Qed.

Lemma crossmint_creates_once self tx : at_most (create_event (crossmint_is_create self)) 1 (execute_managed_transaction self tx).
Proof.
  unfold execute_managed_transaction. apply at_most_try. intros pk. apply at_most_try. intros wire. cbv zeta.
  apply (at_most_bind_res _ 1 0).
  - unfold Crossmint.create_transaction. apply at_most_try. intros url. cbv zeta. apply (at_most_bind_res _ 1 0).
    + apply at_most_fmap_err, at_most_send_json. intros x. case_match; lia.
    + intros resp. apply at_most_quiet. walk_requests.
  - intros created. apply at_most_quiet. walk_requests. apply crossmint_finish_no_create.
Qed.

Lemma fordefi_poll_no_create s id pushable :
  sends (poll_for_result (na_core s) id pushable) (fun r => fordefi_is_create s r = false).
Proof. apply sends_poll_from. unfold poll_attempt. walk_requests. Qed.

Lemma fordefi_sends_keyed s tx :
  signs_locally (na_core s) ->
  sends (NativeAuto.sign_and_broadcast s tx) (fun r => fordefi_is_create s r = true -> fordefi_creates s tx r).
Proof.
  intros Hs. unfold NativeAuto.sign_and_broadcast, NativeAuto.finish_broadcast, submit_solana_transaction, submit_request,
    extract_api_error_with_transaction_id, extract_api_error_with_body.
  walk_requests; [apply timestamp_silent|by apply sign_request_silent| |].
  - intros _. repeat split. destruct (value_to_vec _); simpl in *; congruence.
  - eapply sends_weaken; [apply fordefi_poll_no_create|]. intros r Hr. by rewrite Hr.
Qed.

Lemma fordefi_creates_once s tx :
  signs_locally (na_core s) -> at_most (create_event (fordefi_is_create s)) 1 (NativeAuto.sign_and_broadcast s tx).
Proof.
  intros Hs. unfold NativeAuto.sign_and_broadcast, submit_solana_transaction, submit_request. apply at_most_try. intros _. cbv zeta.
  apply (at_most_bind_res _ 1 0).
  - apply at_most_try. intros body. apply (at_most_bind_res _ 0 1); [apply at_most_quiet, timestamp_silent|]. intros t.
    apply (at_most_bind_res _ 0 1); [apply at_most_quiet; by apply sign_request_silent|]. intros sg. cbv zeta. apply (at_most_bind_res _ 1 0).
    + apply at_most_fmap_err. eapply at_most_weaken; [|apply at_most_http_send]. case_match; lia.
    + intros resp. apply at_most_quiet. unfold extract_api_error_with_transaction_id, extract_api_error_with_body. walk_requests.
  - intros id. apply at_most_quiet. unfold NativeAuto.finish_broadcast. walk_requests. apply fordefi_poll_no_create.
Qed.

(** C10: broadcasts may be retried.  Take any sequence of calls of one Crossmint
    signer, or of one Fordefi auto-broadcasting signer with the built-in request
    signer, each of which may succeed, fail or be dropped at any point.  Every
    create that goes out is the POST of one of the transactions as it is, with the
    idempotency header set to the key of that transaction's message; no call sends
    more than one; and the creates of all the calls together use no more keys than
    there are different messages, so that the retries of one message all carry the
    same key. *)
Theorem retries_share_key :
  (forall s : CrossmintSigner,
     retry_safe (execute_managed_transaction s) "x-idempotency-key" (crossmint_is_create s) (crossmint_creates s)) /\
  (forall s : FordefiNativeAutoSigner, signs_locally (na_core s) ->
     retry_safe (NativeAuto.sign_and_broadcast s) "x-idempotence-id" (fordefi_is_create s) (fordefi_creates s)).
Proof.
  split.
  - intros s. apply (calls_retry_safe _ _ _ _ (fun m => idempotency_key_from_message (namespaced_key_input s m))).
    + apply crossmint_sends_keyed.
    + apply crossmint_creates_once.
    + by intros tx r (_ & _ & _ & Hk & _).
  - intros s Hs. apply (calls_retry_safe _ _ _ _
      (fun m => idempotency_key_from_message (namespaced (na_core s) (na_chain s) (na_fee s) Auto m))).
    + intros tx. by apply fordefi_sends_keyed.
    + intros tx. by apply fordefi_creates_once.
    + by intros tx r (_ & _ & _ & Hk & _).
Qed.

End Backends.

Module RetriesDemo.
Import Demo DemoJson DemoDalek CrossmintDemo FordefiDemo.

(** The answer to the first create is lost; everything later is answered. *)
Definition lossy_world (quiet : nat) : World :=
  mkWorld [] ∅ (fun tr _ => if length tr <=? quiet then Stopped Cancelled else Reply (mkResponse 200 [Chunk (as_bytes "tx-1")]))
    (fun _ _ => None) (fun _ => 0%Z) (fun _ => "uuid").

Definition crossmint_twice :=
  run_calls (map (execute_managed_transaction CrossmintDemo.demo_signer) [CrossmintDemo.demo_tx; CrossmintDemo.demo_tx]) (lossy_world 0).
Definition fordefi_twice :=
  run_calls (map (NativeAuto.sign_and_broadcast FordefiDemo.demo_signer) [FordefiDemo.demo_tx; FordefiDemo.demo_tx]) (lossy_world 1).

(** Two creates go out in either case, with one key. *)
Lemma retries_share_key_witness :
  (let sent := filter (fun r => crossmint_is_create CrossmintDemo.demo_signer r = true) (requests (w_trace crossmint_twice.2)) in
   length sent = 2 /\ length (remove_dups (map (key_of "x-idempotency-key") sent)) <= 1) /\
  (let sent := filter (fun r => fordefi_is_create FordefiDemo.demo_signer r = true) (requests (w_trace fordefi_twice.2)) in
   length sent = 2 /\ length (remove_dups (map (key_of "x-idempotence-id") sent)) <= 1).
Proof.
  split; cbv zeta.
  - split; [vm_compute; reflexivity|].
    destruct (proj1 retries_share_key CrossmintDemo.demo_signer [CrossmintDemo.demo_tx; CrossmintDemo.demo_tx] (lossy_world 0))
      as (ext & He & _ & _ & Hk). change (w_trace crossmint_twice.2 = ext) in He. rewrite He. exact Hk.
  - split; [vm_compute; reflexivity|].
    destruct (proj2 retries_share_key FordefiDemo.demo_signer I [FordefiDemo.demo_tx; FordefiDemo.demo_tx] (lossy_world 1))
      as (ext & He & _ & _ & Hk). change (w_trace fordefi_twice.2 = ext) in He. rewrite He. exact Hk.
Defined.

End RetriesDemo.
