(* ===== verification/Utila.v ===== *)
(** * Utila signer (src/rust/src/utila/mod.rs, utila/types.rs)

    An initiate/poll protocol: Utila returns the whole transaction with the
    wallet's signature in it, without publishing it. *)

From S2P Require Import Prelude Errors World Externals TransactionUtil SignatureUtil RemoteUtil Traits.

#[local] Open Scope keychain_scope.

(** ** types.rs *)

Inductive TransactionState :=
  | AwaitingApproval | AwaitingAmlPolicyCheck | DeclinedByAmlPolicy | AwaitingPolicyCheck
  | AwaitingSignature | Signed | AwaitingPublish | Published | Mined | MinedFailed | Failed
  | Declined | Replaced | Canceled | StateDropped | Confirmed | Expired | Unknown.

#[global] Instance transaction_state_eq_dec : EqDecision TransactionState.
Proof. solve_decision. Defined.

Definition is_terminal_failure (s : TransactionState) : bool :=
  match s with
  | DeclinedByAmlPolicy | MinedFailed | Failed | Declined | Replaced | Canceled | StateDropped | Expired => true
  | _ => false
  end.

(** [{state:?}]. *)
Definition state_debug (s : TransactionState) : string :=
  match s with
  | AwaitingApproval => "AwaitingApproval" | AwaitingAmlPolicyCheck => "AwaitingAmlPolicyCheck"
  | DeclinedByAmlPolicy => "DeclinedByAmlPolicy" | AwaitingPolicyCheck => "AwaitingPolicyCheck"
  | AwaitingSignature => "AwaitingSignature" | Signed => "Signed" | AwaitingPublish => "AwaitingPublish"
  | Published => "Published" | Mined => "Mined" | MinedFailed => "MinedFailed" | Failed => "Failed"
  | Declined => "Declined" | Replaced => "Replaced" | Canceled => "Canceled" | StateDropped => "Dropped"
  | Confirmed => "Confirmed" | Expired => "Expired" | Unknown => "Unknown"
  end.

(** [solana_transaction] is its optional [raw_transaction], present or not. *)
Record UtilaTransaction := mkUtilaTransaction {
  ut_name : string;
  ut_state : TransactionState;
  ut_solana_transaction : option (option string)
}.

Record InitiateTransactionRequest := mkInitiate {
  ir_network : string;
  ir_raw_transaction : string;
  ir_publish : bool;
  ir_replace_blockhash : bool;
  ir_try_replace_blockhash : bool;
  ir_designated_signers : list string
}.

Definition initiate_request_value (r : InitiateTransactionRequest) : Value :=
  JObject (("details", JObject [("solanaSerializedTransaction",
      JObject [("network", JString (ir_network r)); ("rawTransaction", JString (ir_raw_transaction r));
               ("publish", JBool (ir_publish r)); ("replaceBlockhash", JBool (ir_replace_blockhash r));
               ("tryReplaceBlockhash", JBool (ir_try_replace_blockhash r))])]) ::
    (if bool_decide (ir_designated_signers r = []) then []
     else [("designatedSigners", JArray (map JString (ir_designated_signers r)))])).

(** The [Deserialize] derivations.  A wallet is its [solana_details.address]. *)
Class UtilaCodec := {
  utila_wallet_from_slice : list byte -> Result (option string) string;
  utila_envelope_from_slice : list byte -> Result UtilaTransaction string
}.

(** ** mod.rs *)

Definition DEFAULT_API_BASE_URL : string := "https://api.utila.io".
Definition UTILA_API_AUDIENCE : string := "https://api.utila.io/".
Definition DEFAULT_POLL_INTERVAL_MS : Z := 1000.
Definition DEFAULT_MAX_POLL_ATTEMPTS : nat := 60.
Definition TOKEN_TTL_MINUTES : Z := 55.

Record UtilaSignerConfig := mkUtilaSignerConfig {
  cfg_service_account_email : string;
  cfg_service_account_private_key_pem : string;
  cfg_vault_id : string;
  cfg_wallet_id : string;
  cfg_network : string;
  cfg_api_base_url : option string;
  cfg_poll_interval_ms : option Z;
  cfg_max_poll_attempts : option nat;
  cfg_designated_signers : option (list string);
  cfg_http_client_config : option HttpClientConfig
}.

Definition validate_required (field value : string) : result unit :=
  if str_is_empty (trim value) then Err (ConfigError (field +:+ " must not be empty")) else Ok tt.

Definition normalize_api_base_url `{UrlParser} (value : option string) : result string :=
  let api_base_url := normalize_base_url (default DEFAULT_API_BASE_URL value) in
  let? parsed := map_err (fun e => ConfigError ("Invalid api_base_url: " +:+ e)) (url_parse api_base_url) in
  if bool_decide (url_scheme parsed ≠ "https") then Err (ConfigError "api_base_url must use HTTPS")
  else Ok api_base_url.

Definition extract_transaction_id (name : string) : result string :=
  ok_or (SerializationError "Utila transaction response missing transaction id")
    (match last (split_char x2f (as_bytes name)) with
     | Some [] | None => None
     | Some value => Some (of_bytes value)
     end).

Definition trim_resource_prefix (value prefix : string) : string := default value (strip_prefix prefix value).

Definition trim_wallet_id (value vault_id : string) : result string :=
  match rsplit_once (as_bytes "/wallets/") (as_bytes value) with
  | None => Ok value
  | Some (parent, wallet_id) =>
      if bool_decide (parent ≠ as_bytes ("vaults/" +:+ vault_id)) || bool_decide (x2f ∈ wallet_id) then
        Err (ConfigError "wallet_id resource name must belong to the configured vault_id")
      else Ok (of_bytes wallet_id)
  end.

Section Utila.
Context `{Codecs} `{SolanaSdk} `{Json} `{ClientBuild} `{UrlParser} `{Jwt} `{UtilaCodec}.

Record UtilaSigner := mkUtilaSigner {
  service_account_email : string;
  signing_key : EncodingKey;
  vault_id : string;
  wallet_id : string;
  network : string;
  api_base_url : string;
  client : ClientBuilder;
  public_key : option Pubkey;
  poll_interval_ms : Z;
  max_poll_attempts : nat;
  designated_signers : list string
}.

Definition new (config : UtilaSignerConfig) : result UtilaSigner :=
  let? _ := validate_required "service_account_email" (cfg_service_account_email config) in
  let? _ := validate_required "service_account_private_key_pem" (cfg_service_account_private_key_pem config) in
  let? _ := validate_required "vault_id" (cfg_vault_id config) in
  let? _ := validate_required "wallet_id" (cfg_wallet_id config) in
  let? _ := validate_required "network" (cfg_network config) in
  let? api_base_url := normalize_api_base_url (cfg_api_base_url config) in
  let poll_interval_ms := default DEFAULT_POLL_INTERVAL_MS (cfg_poll_interval_ms config) in
  if (poll_interval_ms =? 0)%Z then Err (ConfigError "poll_interval_ms must be greater than 0") else
  let max_poll_attempts := default DEFAULT_MAX_POLL_ATTEMPTS (cfg_max_poll_attempts config) in
  if max_poll_attempts =? 0 then Err (ConfigError "max_poll_attempts must be greater than 0") else
  let pem := str_replace (str_replace (cfg_service_account_private_key_pem config)
               (of_bytes [x5c; x6e]) (of_bytes [x0a])) (of_bytes [x0d]) EmptyString in
  let? signing_key := map_err (fun _ => InvalidPrivateKey "Failed to parse Utila service account RSA private key")
                        (from_rsa_pem (as_bytes (trim pem))) in
  let? client := build_client (default (mkHttpClientConfig None None) (cfg_http_client_config config)) in
  let designated_signers :=
    default ["users/" +:+ cfg_service_account_email config] (cfg_designated_signers config) in
  let vault_id := trim_resource_prefix (cfg_vault_id config) "vaults/" in
  let? wallet_id := trim_wallet_id (cfg_wallet_id config) vault_id in
  Ok (mkUtilaSigner (cfg_service_account_email config) signing_key vault_id wallet_id (cfg_network config)
        api_base_url client None poll_interval_ms max_poll_attempts designated_signers).

Definition initialized_pubkey (self : UtilaSigner) : result Pubkey :=
  ok_or (ConfigError "UtilaSigner is not initialized; call init() before signing") (public_key self).

(** [(Utc::now() + Duration::minutes(55)).timestamp()]. *)
Definition create_access_token (self : UtilaSigner) : M (result string) :=
  let! now := utc_timestamp in
  let claims := JObject [("sub", JString (service_account_email self)); ("aud", JString UTILA_API_AUDIENCE);
                         ("exp", jint (now + TOKEN_TTL_MINUTES * 60)%Z)] in
  ret (map_err (fun _ => SigningFailed "Failed to create Utila access token")
         (jwt_encode "RS256" [] claims (signing_key self))).

Definition build_url (self : UtilaSigner) (path : string) : string := api_base_url self +:+ path.

Definition get_json {T} (from_slice : list byte -> Result T string) (self : UtilaSigner) (path context : string)
    : M (result T) :=
  try! token := create_access_token self in
  try! response := fmap_err from_reqwest_error
    (http_get (build_url self path) [("Authorization", "Bearer " +:+ token)]) in
  parse_json_response from_slice response ("Utila API " +:+ context).

Definition utila_post_json {T} (from_slice : list byte -> Result T string) (self : UtilaSigner) (path : string)
    (body : Value) (context : string) : M (result T) :=
  try! token := create_access_token self in
  try! response := fmap_err from_reqwest_error
    (post_json (build_url self path) [("Authorization", "Bearer " +:+ token)] (value_to_vec body)) in
  parse_json_response from_slice response ("Utila API " +:+ context).

Definition fetch_wallet_address (self : UtilaSigner) : M (result string) :=
  let path := "/v2/vaults/" +:+ encode_uri_component (vault_id self) +:+ "/wallets/" +:+
              encode_uri_component (wallet_id self) in
  try! wallet := get_json utila_wallet_from_slice self path "fetch_wallet" in
  ret (ok_or (InvalidPublicKey "Utila wallet response did not include solanaDetails") wallet).

Definition with_public_key (self : UtilaSigner) (pk : Pubkey) : UtilaSigner :=
  mkUtilaSigner (service_account_email self) (signing_key self) (vault_id self) (wallet_id self) (network self)
    (api_base_url self) (client self) (Some pk) (poll_interval_ms self) (max_poll_attempts self)
    (designated_signers self).

(** [&mut self]: the signer comes back beside the result. *)
Definition init (self : UtilaSigner) : M (UtilaSigner * result unit) :=
  let! address := fetch_wallet_address self in
  match address with
  | Err e => ret (self, Err e)
  | Ok address =>
      match pubkey_from_str address with
      | Ok pubkey => ret (with_public_key self pubkey, Ok tt)
      | Err _ => ret (self, Err (InvalidPublicKey "Invalid Solana address returned by Utila wallet"))
      end
  end.

Definition initiate_transaction (self : UtilaSigner) (raw_transaction : string) : M (result UtilaTransaction) :=
  let path := "/v2/vaults/" +:+ encode_uri_component (vault_id self) +:+ "/transactions:initiate" in
  let request := mkInitiate (network self) raw_transaction false false false (designated_signers self) in
  utila_post_json utila_envelope_from_slice self path (initiate_request_value request) "initiate_transaction".

Definition get_transaction (self : UtilaSigner) (transaction_id : string) : M (result UtilaTransaction) :=
  let path := "/v2/vaults/" +:+ encode_uri_component (vault_id self) +:+ "/transactions/" +:+
              encode_uri_component transaction_id +:+ "?view=FULL" in
  get_json utila_envelope_from_slice self path "get_transaction".

Definition poll_timeout_error (self : UtilaSigner) : SignerError :=
  remote_api ("Utila transaction polling timed out after " +:+ pretty (max_poll_attempts self) +:+ " attempts").

(** [for attempt in 0..=self.max_poll_attempts], [n] iterations left. *)
Fixpoint poll_loop (self : UtilaSigner) (transaction_id : string) (n attempt : nat)
    (transaction : UtilaTransaction) : M (result UtilaTransaction) :=
  match n with
  | 0 => ret (Err (poll_timeout_error self))
  | S n =>
      try! transaction :=
        (if 0 <? attempt then
           let! _ := sleep_ms (poll_interval_ms self) in get_transaction self transaction_id
         else ret (Ok transaction)) in
      if bool_decide (ut_state transaction = Signed) then ret (Ok transaction)
      else if is_terminal_failure (ut_state transaction) then
        ret (Err (SigningFailed ("Utila transaction reached terminal state " +:+ state_debug (ut_state transaction))))
      else poll_loop self transaction_id n (S attempt) transaction
  end.

Definition poll_signed_transaction (self : UtilaSigner) (transaction : UtilaTransaction)
    : M (result UtilaTransaction) :=
  try transaction_id := extract_transaction_id (ut_name transaction) in
  poll_loop self transaction_id (S (max_poll_attempts self)) 0 transaction.

Definition extract_signature_from_raw_transaction (self : UtilaSigner) (raw_transaction : string)
    (expected_message : list byte) : result Signature :=
  let? public_key := initialized_pubkey self in
  let? bytes := map_err (fun _ => SerializationError "Failed to decode Utila rawTransaction as base64")
                  (base64_decode raw_transaction) in
  extract_and_verify_returned_signature bytes public_key expected_message.

(** [sign_and_serialize] up to the signature. *)
Definition obtain_signature (self : UtilaSigner) (transaction : VersionedTransaction) : M (result Signature) :=
  let expected_message := message_serialize (message transaction) in
  try wire := serialize_wire_transaction transaction in
  let raw_transaction := base64_encode wire in
  try! initiated := initiate_transaction self raw_transaction in
  try! signed := poll_signed_transaction self initiated in
  try raw_signed_transaction :=
    ok_or (SigningFailed "Utila signed transaction response missing solanaTransaction.rawTransaction")
      (ut_solana_transaction signed ≫= id) in
  ret (extract_signature_from_raw_transaction self raw_signed_transaction expected_message).

Definition sign_and_serialize (self : UtilaSigner) (transaction : VersionedTransaction)
    : M (VersionedTransaction * result SignedTransaction) :=
  try! public_key := ret (initialized_pubkey self) keeping transaction in
  try! signature := obtain_signature self transaction keeping transaction in
  of_run (attach_and_serialize transaction public_key signature).

Definition pubkey (self : UtilaSigner) : run Pubkey :=
  expect_pubkey (public_key self).

Definition sign_message (self : UtilaSigner) (_message : list byte) : M (result Signature) :=
  ret (Err (SigningFailed "Utila sign_message is not supported for Solana wallets in this signer")).

Definition is_available (self : UtilaSigner) : M bool :=
  match initialized_pubkey self with
  | Err _ => ret false
  | Ok public_key =>
      let! r := timeout (fetch_wallet_address self) in
      ret (match r with
           | Some (Ok address) =>
               match pubkey_from_str address with
               | Ok fetched => bool_decide (fetched = public_key)
               | Err _ => false
               end
           | _ => false
           end)
  end.

Definition sign_transaction (self : UtilaSigner) (tx : VersionedTransaction)
    : M (VersionedTransaction * result SignTransactionResult) :=
  mut! (tx, signed_transaction) := sign_and_serialize self tx in
  ret (tx, Ok (classify_signed_transaction tx signed_transaction)).

#[global] Instance utila_solana_signer : SolanaSigner UtilaSigner := {
  Traits.pubkey := pubkey;
  Traits.sign_message := sign_message;
  Traits.is_available := is_available
}.

#[global] Instance utila_transaction_signer : TransactionSigner UtilaSigner := {
  transaction_signer_base := utila_solana_signer;
  Traits.sign_transaction := sign_transaction
}.

(** ** Lemmas *)

Lemma utila_signature_verified self tx pk :
  public_key self = Some pk ->
  returns (obtain_signature self tx) (on_ok (fun sg => verifies sg pk (message_serialize (message tx)) = true)).
Proof.
  intros Hpk. unfold obtain_signature. walk.
  unfold extract_signature_from_raw_transaction, initialized_pubkey. rewrite Hpk. simpl.
  destruct (map_err _ _) as [bytes|]; simpl; [|done].
  destruct (extract_and_verify_returned_signature _ _ _) eqn:E; simpl; eauto with keychain.
Qed.

#[global] Instance utila_laws : TransactionSignerLaws UtilaSigner.
Proof.
  split. intros s tx. apply (init_attach_classify (public_key s) _ tx (fun _ => obtain_signature s tx)).
  intros pk. apply utila_signature_verified.
Qed.

#[global] Instance utila_message_laws : MessageSignerLaws UtilaSigner.
Proof. split. intros s m. cbn. unfold sign_message. by walk. Qed.

Lemma access_token_silent self Q : sends (create_access_token self) Q.
Proof. unfold create_access_token. walk_sends. Qed.
#[local] Hint Resolve access_token_silent : keychain.

Lemma get_json_under {T} (f : list byte -> Result T string) self path context :
  sends (get_json f self (slash path) context) (under (api_base_url self)).
Proof. unfold get_json, build_url. walk_requests. Qed.

Lemma post_json_under {T} (f : list byte -> Result T string) self path body context :
  sends (utila_post_json f self (slash path) body context) (under (api_base_url self)).
Proof. unfold utila_post_json, build_url. walk_requests. Qed.
#[local] Hint Extern 1 (sends (get_json _ _ _ _) _) => apply get_json_under : keychain.
#[local] Hint Extern 1 (sends (utila_post_json _ _ _ _ _) _) => apply post_json_under : keychain.

Lemma utila_poll_under self id n attempt t : sends (poll_loop self id n attempt t) (under (api_base_url self)).
Proof.
  revert attempt t. induction n as [|n IH]; intros attempt t; cbn [poll_loop]; [apply sends_ret|].
  unfold get_transaction. walk_requests.
Qed.
#[local] Hint Resolve utila_poll_under : keychain.

Lemma utila_confined s : confined s (sign_transaction s) (api_base_url s).
Proof.
  split; [change Traits.sign_message with sign_message| |change Traits.is_available with is_available].
  - intros m. apply sends_ret.
  - intros tx. unfold sign_transaction, sign_and_serialize, obtain_signature, initiate_transaction,
      poll_signed_transaction. walk_requests.
  - unfold is_available, fetch_wallet_address. walk_requests.
Qed.

Lemma utila_init_under s : sends (init s) (under (api_base_url s)).
Proof. unfold init, fetch_wallet_address. walk_requests. Qed.

Lemma at_most_access_token p self : p EvClock = false -> at_most p 0 (create_access_token self).
Proof.
  intros Hc. apply (at_most_bind p 0 0); [|intros now; apply at_most_ret].
  intros w. unfold utc_timestamp. cbn [snd]. rewrite count_events_push, Hc. lia.
Qed.

Lemma utila_get_requests p self id :
  p EvClock = false -> at_most p 1 (get_transaction self id).
Proof.
  intros Hc. apply (at_most_bind_res p 0 1); [by apply at_most_access_token|]. intros token.
  apply (at_most_bind_res p 1 0); [|intros r; apply at_most_parse_json].
  apply at_most_fmap_err, http_get_requests. case_match; lia.
Qed.

Lemma access_token_nameless self : returns (create_access_token self) (errors_are (fun e => error_id e = None)).
Proof. unfold create_access_token. walk. by destruct (jwt_encode _ _ _ _). Qed.

Lemma get_transaction_nameless self id :
  returns (get_transaction self id) (errors_are (fun e => error_id e = None)).
Proof.
  apply errors_bind_res; [apply access_token_nameless|]. intros token.
  apply errors_bind_res; [by apply errors_send|]. intros r. by apply parse_json_errors.
Qed.

Lemma utila_poll_requests p self id n attempt t :
  p EvClock = false -> p (EvSleep (poll_interval_ms self)) = false ->
  at_most p (match attempt with 0 => n - 1 | S _ => n end) (poll_loop self id n attempt t).
Proof.
  intros Hc Hs. revert attempt t. induction n as [|n IH]; intros attempt t; cbn [poll_loop].
  { eapply at_most_weaken; [|apply at_most_ret]. lia. }
  apply (at_most_weaken p ((match attempt with 0 => 0 | S _ => 1 end) + n)); [destruct attempt; lia|].
  apply at_most_bind_res.
  - destruct attempt; cbn; [apply at_most_ret|].
    apply (at_most_bind p 0 1); [|intros _; by apply utila_get_requests].
    pose proof (at_most_sleep (poll_interval_ms self) p) as Hsl. by rewrite Hs in Hsl.
  - intros t'. case_bool_decide; [eapply at_most_weaken; [|apply at_most_ret]; lia|].
    case_match; [eapply at_most_weaken; [|apply at_most_ret]; lia|]. apply (IH (S attempt)).
Qed.

Lemma poll_loop_outcome self id n attempt t :
  returns (poll_loop self id n attempt t) (fun r => match r with
    | Ok t' => ut_state t' = Signed
    | Err e => error_id e = None
    end).
Proof.
  revert attempt t. induction n as [|n IH]; intros attempt t; cbn [poll_loop]; [by apply returns_ret|].
  apply (returns_bind _ _ (errors_are (fun e => error_id e = None))).
  - case_match; [|by apply returns_ret]. apply returns_bind_any. intros _. apply get_transaction_nameless.
  - intros [t'|e] He; [|by apply returns_ret].
    case_bool_decide; [by apply returns_ret|]. case_match; [by apply returns_ret|apply IH].
Qed.

(** ** Theorems *)

(** C33: polling a Utila transaction makes at most [max_poll_attempts]
    requests and succeeds only on a transaction Utila reports as signed; but no
    error it ends with names the transaction, the timeout after an accepted
    request included. *)
Theorem utila_poll_spec (self : UtilaSigner) (t : UtilaTransaction) (w w' : World) (r : result UtilaTransaction) :
  poll_signed_transaction self t w = (Returned r, w') ->
  count_events is_http w' <= count_events is_http w + max_poll_attempts self /\
  match r with
  | Ok t' => ut_state t' = Signed
  | Err e => error_id e = None
  end.
Proof.
  unfold poll_signed_transaction, bind_res, bind, ret.
  destruct (extract_transaction_id (ut_name t)) as [id|e] eqn:E.
  - intros HP. split; [|by eapply poll_loop_outcome].
    pose proof (utila_poll_requests is_http self id (S (max_poll_attempts self)) 0 t eq_refl eq_refl w) as HR.
    rewrite HP in HR. simpl in HR. lia.
  - intros [= <- <-]. split; [lia|]. revert E. unfold extract_transaction_id, ok_or.
    destruct (last _) as [[]|]; naive_solver.
Qed.

(** A wallet resource name is accepted only if it belongs to the
    configured vault, and then reduces to a plain id without a slash; a name that
    is no resource name is used as it stands. *)
Theorem trim_wallet_id_spec (value vault_id id : string) :
  trim_wallet_id value vault_id = Ok id ->
  id = value \/ (value = "vaults/" +:+ vault_id +:+ "/wallets/" +:+ id /\ x2f ∉ as_bytes id).
Proof.
  unfold trim_wallet_id. destruct (rsplit_once _ _) as [[parent wid]|] eqn:E; [|intros [= <-]; auto].
  destruct (bool_decide _) eqn:Hp; [done|]. destruct (bool_decide (x2f ∈ wid)) eqn:Hw; [done|].
  intros [= <-]. right. apply bool_decide_eq_false, dec_stable in Hp. apply bool_decide_eq_false in Hw.
  rewrite as_bytes_of_bytes. split; [|done]. apply as_bytes_inj.
  rewrite !as_bytes_app, as_bytes_of_bytes. apply rsplit_once_Some in E. rewrite E, Hp.
  by rewrite !as_bytes_app, <- !(assoc_L (++)).
Qed.

End Utila.

(** ** A concrete run *)

Module UtilaDemo.
Import Demo DemoJson DemoJwt.

#[export] Instance demo_codec : UtilaCodec := {|
  utila_wallet_from_slice := fun b => Ok (Some (of_bytes b));
  utila_envelope_from_slice := fun b => Ok (mkUtilaTransaction (of_bytes b) AwaitingApproval None)
|}.

Definition demo_signer : UtilaSigner :=
  mkUtilaSigner "svc@vault" [] "vault" "wallet" "networks/solana-devnet" "https://api"
    (client_builder (mkHttpClientConfig None None)) (Some (array_repeat 32 x01)) 1000 2 [].

(** An accepted request that stays pending: the timeout does not name it. *)
Lemma utila_poll_spec_witness :
  exists e w', poll_signed_transaction demo_signer (mkUtilaTransaction "vaults/v/transactions/tx-1" AwaitingApproval None)
                 (answering_world 200 (as_bytes "tx-1")) = (Returned (Err e), w') /\
    (count_events is_http w' <= 0 + 2 /\ error_id e = None).
Proof.
  eexists _, _.
  match goal with |- ?A = ?B /\ _ => assert (E : A = B) by (vm_compute; reflexivity) end.
  split; [exact E|]. exact (utila_poll_spec demo_signer _ _ _ _ E).
Defined.

Lemma trim_wallet_id_spec_witness :
  trim_wallet_id "vaults/v/wallets/w" "v" = Ok "w" /\
  ("w" = "vaults/v/wallets/w" \/ ("vaults/v/wallets/w" = "vaults/" +:+ "v" +:+ "/wallets/" +:+ "w" /\ x2f ∉ as_bytes "w")).
Proof.
  assert (E : trim_wallet_id "vaults/v/wallets/w" "v" = Ok "w") by (vm_compute; reflexivity).
  split; [exact E|]. exact (trim_wallet_id_spec _ _ _ E).
Defined.

End UtilaDemo.
