(* ===== verification/Turnkey.v ===== *)
(** * Turnkey signer (src/rust/src/turnkey/mod.rs, turnkey/types.rs)

    Stamped activities: raw payloads come back as the two signature halves,
    transactions as signed wire bytes. *)

From S2P Require Import Prelude Errors World Externals TransactionUtil SignatureUtil RemoteUtil Traits.

#[local] Open Scope keychain_scope.

(** ** types.rs *)

Record SignParameters := mkSignParameters {
  sp_sign_with : string; sp_payload : string; sp_encoding : string; sp_hash_function : string }.

Definition sign_request_value (activity_type timestamp_ms organization_id : string) (p : SignParameters) : Value :=
  JObject [("type", JString activity_type); ("timestampMs", JString timestamp_ms);
           ("organizationId", JString organization_id);
           ("parameters", JObject [("signWith", JString (sp_sign_with p)); ("payload", JString (sp_payload p));
              ("encoding", JString (sp_encoding p)); ("hashFunction", JString (sp_hash_function p))])].

Record SignTransactionParameters := mkSignTransactionParameters {
  stp_sign_with : string; stp_transaction_type : string; stp_unsigned_transaction : string }.

Definition sign_transaction_request_value (activity_type timestamp_ms organization_id : string)
    (p : SignTransactionParameters) : Value :=
  JObject [("type", JString activity_type); ("timestampMs", JString timestamp_ms);
           ("organizationId", JString organization_id);
           ("parameters", JObject [("signWith", JString (stp_sign_with p));
              ("type", JString (stp_transaction_type p));
              ("unsignedTransaction", JString (stp_unsigned_transaction p))])].

Record SignResult := mkSignResult { sr_r : string; sr_s : string }.

Record ActivityResult := mkActivityResult {
  sign_raw_payload_result : option SignResult;
  sign_transaction_result : option string
}.

(** [ActivityResponse] is its [activity]. *)
Record Activity := mkActivity { act_status : option string; act_result : option ActivityResult }.

Record PrivateKeyAddress := mkPrivateKeyAddress { pka_format : option string; pka_address : option string }.
Record PrivateKeyInfo := mkPrivateKeyInfo { pki_public_key : option string; pki_addresses : list PrivateKeyAddress }.

Class TurnkeyCodec := {
  activity_from_slice : list byte -> Result Activity string;
  private_key_from_slice : list byte -> Result PrivateKeyInfo string
}.

(** ** mod.rs *)

Definition TURNKEY_SOLANA_ADDRESS_FORMAT : string := "ADDRESS_FORMAT_SOLANA".

(** [sig_bytes[32 - r.len()..32]] and [sig_bytes[64 - s.len()..]] over zeroes. *)
Definition assemble (r_bytes s_bytes : list byte) : run Signature :=
  match array_write (array_repeat 64 x00) (32 - Z.of_nat (length r_bytes)) 32 r_bytes with
  | Returned sig_bytes => array_write sig_bytes (64 - Z.of_nat (length s_bytes)) 64 s_bytes
  | other => other
  end.

Record TurnkeySignerConfig := mkTurnkeySignerConfig {
  cfg_api_public_key : string;
  cfg_api_private_key : string;
  cfg_organization_id : string;
  cfg_private_key_id : string;
  cfg_public_key : string;
  cfg_api_base_url : option string;
  cfg_http_client_config : option HttpClientConfig
}.

Section Turnkey.
Context `{Codecs} `{SolanaSdk} `{Json} `{ClientBuild} `{Ecdsa} `{TurnkeyCodec}.

Record TurnkeySigner := mkTurnkeySigner {
  organization_id : string;
  private_key_id : string;
  api_public_key : string;
  api_signing_key : EcdsaKey;
  public_key : Pubkey;
  api_base_url : string;
  client : ClientBuilder
}.

Definition parse_api_private_key (hex_key : string) : result EcdsaKey :=
  let? private_key_bytes := map_err (fun e => InvalidPrivateKey ("Failed to decode private key: " +:+ e))
                              (hex_decode hex_key) in
  map_err (fun e => InvalidPrivateKey ("Invalid signing key: " +:+ e)) (ecdsa_from_slice private_key_bytes).

Definition from_config (config : TurnkeySignerConfig) : result TurnkeySigner :=
  let http_client_config := default (mkHttpClientConfig None None) (cfg_http_client_config config) in
  let? pubkey := map_err (fun e => InvalidPublicKey ("Invalid public key: " +:+ e))
                   (pubkey_from_str (cfg_public_key config)) in
  let? client := build_client http_client_config in
  let? api_signing_key := parse_api_private_key (cfg_api_private_key config) in
  Ok (mkTurnkeySigner (cfg_organization_id config) (cfg_private_key_id config) (cfg_api_public_key config)
        api_signing_key pubkey
        (normalize_base_url (default "https://api.turnkey.com" (cfg_api_base_url config))) client).

Definition new (api_public_key api_private_key organization_id private_key_id public_key : string)
    : result TurnkeySigner :=
  from_config (mkTurnkeySignerConfig api_public_key api_private_key organization_id private_key_id public_key
                 None None).

(** [json!] builds a [BTreeMap]: entries come in key order. *)
Definition create_stamp (self : TurnkeySigner) (body : list byte) : result string :=
  let signature_hex := hex_encode (ecdsa_sign_der (api_signing_key self) body) in
  let stamp := JObject [("publicKey", JString (api_public_key self));
                        ("scheme", JString "SIGNATURE_SCHEME_TK_API_P256"); ("signature", JString signature_hex)] in
  let? json_stamp := map_err from_serde_error (value_to_vec stamp) in
  Ok (base64_url_encode json_stamp).

Definition stamped (self : TurnkeySigner) (path stamp : string) (body : list byte) : HttpRequest :=
  mkRequest "POST" (api_base_url self +:+ path)
    [("Content-Type", "application/json"); ("X-Stamp", stamp)] body.

Definition post_activity (self : TurnkeySigner) (path : string) (body : list byte) : M (result Activity) :=
  try stamp := create_stamp self body in
  try! response := fmap_err from_reqwest_error (http_send (stamped self path stamp body)) in
  try! response := parse_json_response activity_from_slice response "Turnkey API" in
  let status := default "<missing>" (act_status response) in
  if bool_decide (status ≠ "ACTIVITY_STATUS_COMPLETED") then
    ret (Err (SigningFailed ("Turnkey activity is not completed (status: " +:+ status +:+ ")")))
  else ret (Ok response).

(** From the two hex halves to the signature. *)
Definition signature_from_halves (sign_result : SignResult) : M (result Signature) :=
  try r_bytes := map_err (fun e => SerializationError ("Failed to decode r: " +:+ e)) (hex_decode (sr_r sign_result)) in
  try s_bytes := map_err (fun e => SerializationError ("Failed to decode s: " +:+ e)) (hex_decode (sr_s sign_result)) in
  if (32 <? length r_bytes) || (32 <? length s_bytes) then
    ret (Err (SigningFailed "Invalid signature component length"))
  else
    let! sig_bytes := of_run (assemble r_bytes s_bytes) in
    ret (Ok sig_bytes).

Definition sign_bytes (self : TurnkeySigner) (message : list byte) : M (result Signature) :=
  let hex_message := hex_encode message in
  let! now := utc_timestamp_millis in
  let request := sign_request_value "ACTIVITY_TYPE_SIGN_RAW_PAYLOAD_V2" (pretty now) (organization_id self)
    (mkSignParameters (private_key_id self) hex_message "PAYLOAD_ENCODING_HEXADECIMAL" "HASH_FUNCTION_NOT_APPLICABLE") in
  try body := map_err from_serde_error (value_to_vec request) in
  try! response := post_activity self "/public/v1/submit/sign_raw_payload" body in
  match act_result response ≫= sign_raw_payload_result with
  | Some sign_result =>
      try! sig := signature_from_halves sign_result in
      try _ := verify_or_reject sig (public_key self) message in
      ret (Ok sig)
  | None => ret (Err (SigningFailed "Invalid response from Turnkey API"))
  end.

(** [sign_and_serialize] up to the signature. *)
Definition obtain_signature (self : TurnkeySigner) (transaction : VersionedTransaction) : M (result Signature) :=
  try unsigned_wire := serialize_wire_transaction transaction in
  let! now := utc_timestamp_millis in
  let request := sign_transaction_request_value "ACTIVITY_TYPE_SIGN_TRANSACTION_V2" (pretty now) (organization_id self)
    (mkSignTransactionParameters (private_key_id self) "TRANSACTION_TYPE_SOLANA" (hex_encode unsigned_wire)) in
  try body := map_err from_serde_error (value_to_vec request) in
  try! response := post_activity self "/public/v1/submit/sign_transaction" body in
  try signed_hex := ok_or (SigningFailed "Invalid response from Turnkey API")
                      (act_result response ≫= sign_transaction_result) in
  try signed_wire := map_err (fun e => SerializationError ("Failed to decode signed transaction returned by Turnkey: " +:+ e))
                       (hex_decode signed_hex) in
  ret (extract_and_verify_returned_signature signed_wire (public_key self) (message_serialize (message transaction))).

Definition sign_and_serialize (self : TurnkeySigner) (transaction : VersionedTransaction)
    : M (VersionedTransaction * result SignedTransaction) :=
  try! signature := obtain_signature self transaction keeping transaction in
  of_run (attach_and_serialize transaction (public_key self) signature).

Definition post_query (self : TurnkeySigner) (path : string) (body : list byte) : M (option HttpResponse) :=
  match create_stamp self body with
  | Err _ => ret None
  | Ok stamp =>
      let! response := http_send (stamped self path stamp body) in
      ret (match response with
           | Ok response => if is_success (resp_status response) then Some response else None
           | Err _ => None
           end)
  end.

Definition sign_with_matches_public_key (self : TurnkeySigner) : M bool :=
  let expected := pubkey_to_string (public_key self) in
  if bool_decide (private_key_id self = expected) then ret true else
  match value_to_vec (JObject [("organizationId", JString (organization_id self));
                               ("privateKeyId", JString (private_key_id self))]) with
  | Err _ => ret false
  | Ok body =>
      let! response := post_query self "/public/v1/query/get_private_key" body in
      match response with
      | None => ret false
      | Some response =>
          let! response := parse_json_response private_key_from_slice response "Turnkey API" in
          ret (match response with
               | Err _ => false
               | Ok info =>
                   if existsb (fun entry => bool_decide (pka_format entry = Some TURNKEY_SOLANA_ADDRESS_FORMAT) &&
                                            bool_decide (pka_address entry = Some expected)) (pki_addresses info)
                   then true
                   else match pki_public_key info ≫= (fun encoded => res_ok (hex_decode encoded)) with
                        | Some key => bool_decide (key = arr_bytes (public_key self))
                        | None => false
                        end
               end)
      end
  end.

Definition is_available (self : TurnkeySigner) : M bool :=
  match value_to_vec (JObject [("organizationId", JString (organization_id self))]) with
  | Err _ => ret false
  | Ok body =>
      let! response := post_query self "/public/v1/query/whoami" body in
      match response with
      | None => ret false
      | Some _ => sign_with_matches_public_key self
      end
  end.

Definition sign_transaction (self : TurnkeySigner) (tx : VersionedTransaction)
    : M (VersionedTransaction * result SignTransactionResult) :=
  mut! (tx, signed_transaction) := sign_and_serialize self tx in
  ret (tx, Ok (classify_signed_transaction tx signed_transaction)).

#[global] Instance turnkey_solana_signer : SolanaSigner TurnkeySigner := {
  Traits.pubkey self := Returned (public_key self);
  Traits.sign_message := sign_bytes;
  Traits.is_available := is_available
}.

#[global] Instance turnkey_transaction_signer : TransactionSigner TurnkeySigner := {
  transaction_signer_base := turnkey_solana_signer;
  Traits.sign_transaction := sign_transaction
}.

#[global] Instance turnkey_laws : TransactionSignerLaws TurnkeySigner.
Proof.
  split. intros s tx. apply (sign_attach_classify (public_key s)).
  unfold obtain_signature. walk.
  destruct (extract_and_verify_returned_signature _ _ _) eqn:E; simpl; eauto with keychain.
Qed.

#[global] Instance turnkey_message_laws : MessageSignerLaws TurnkeySigner.
Proof. split. intros s m. cbn. unfold sign_bytes. walk; simpl; eauto with keychain. Qed.

Lemma turnkey_confined s : confined s (sign_transaction s) (api_base_url s).
Proof.
  split; [change Traits.sign_message with sign_bytes| |change Traits.is_available with is_available].
  - intros m. unfold sign_bytes, post_activity, stamped, signature_from_halves. walk_requests.
  - intros tx. unfold sign_transaction, sign_and_serialize, obtain_signature, post_activity, stamped. walk_requests.
  - unfold is_available, sign_with_matches_public_key, post_query, stamped. walk_requests.
Qed.

(** ** The two halves *)

Lemma assemble_halves r s : length r <= 32 -> length s <= 32 ->
  exists sg, assemble r s = Returned sg /\
    arr_bytes sg = (replicate (32 - length r) x00 ++ r) ++ replicate (32 - length s) x00 ++ s.
Proof.
  intros Hr Hs. unfold assemble.
  destruct (array_write_inside (array_repeat 64 x00) (32 - Z.of_nat (length r)) 32 r) as (a & -> & Ha); [lia..|].
  destruct (array_write_inside a (64 - Z.of_nat (length s)) 64 s) as (b & -> & Hb); [lia..|].
  exists b. split; [done|]. rewrite Hb. change (arr_bytes (array_repeat 64 x00)) with (replicate 64 x00) in Ha.
  replace (Z.to_nat (32 - Z.of_nat (length r))) with (32 - length r) in Ha by lia.
  replace (Z.to_nat (64 - Z.of_nat (length s))) with (64 - length s) by lia.
  change (Z.to_nat 32) with 32 in Ha. change (Z.to_nat 64) with 64.
  rewrite take_replicate, drop_replicate in Ha. replace ((32 - length r) `min` 64) with (32 - length r) in Ha by lia.
  rewrite (drop_ge (arr_bytes a)), app_nil_r by (by rewrite array_length).
  rewrite Ha, (assoc_L (++)). rewrite take_app_ge by (rewrite length_app, length_replicate; lia).
  rewrite length_app, length_replicate, take_replicate, <- (assoc_L (++)).
  do 3 f_equal. lia.
Qed.

(** The halves Turnkey returns in hexadecimal, up to 32 bytes each
    with their leading zeroes dropped, make a signature exactly when neither is
    longer: its two halves are the two numbers, right-aligned in 32 bytes. *)
Theorem signature_from_halves_spec `{!CodecLaws} (r s : list byte) (w : World) :
  exists res, signature_from_halves (mkSignResult (hex_encode r) (hex_encode s)) w = (Returned res, w) /\
  match res with
  | Ok sg => length r <= 32 /\ length s <= 32 /\
             arr_bytes sg = (replicate (32 - length r) x00 ++ r) ++ replicate (32 - length s) x00 ++ s
  | Err e => e = SigningFailed "Invalid signature component length" /\ (32 < length r \/ 32 < length s)
  end.
Proof.
  unfold signature_from_halves. cbn [sr_r sr_s]. rewrite !hex_decode_encode.
  unfold bind_res, bind, ret, of_run. cbn [map_err].
  destruct (Nat.ltb_spec 32 (length r)), (Nat.ltb_spec 32 (length s)); cbn [orb];
    try (eexists; split; [reflexivity|]; split; [done|lia]).
  destruct (assemble_halves r s) as (sg & -> & Hsg); [done..|]. eexists. split; [reflexivity|]. done.
Qed.

End Turnkey.

Module TurnkeyDemo.
Import Demo DemoJson DemoEcdsa.

Lemma signature_from_halves_spec_witness :
  exists sg, signature_from_halves (mkSignResult (hex_encode [x01]) (hex_encode [x02; x03])) idle_world
      = (Returned (Ok sg), idle_world) /\
    arr_bytes sg = (replicate 31 x00 ++ [x01]) ++ replicate 30 x00 ++ [x02; x03].
Proof.
  destruct (signature_from_halves_spec [x01] [x02; x03] idle_world) as ([sg|e] & HE & HS).
  - exists sg. split; [exact HE|]. exact (proj2 (proj2 HS)).
  - exfalso. destruct HS as [_ [H|H]]; simpl in H; lia.
Defined.

End TurnkeyDemo.
