(* ===== verification/Privy.v ===== *)
(** * Privy signer
    (src/rust/src/privy/mod.rs, privy/authorization.rs, privy/types.rs)

    Wallet RPCs with optional authorization signatures over a canonical form of
    the request. *)

From stdpp Require Import sorting.
From S2P Require Import Prelude Errors World Externals JsonOrder TransactionUtil SignatureUtil RemoteUtil Traits.

#[local] Open Scope keychain_scope.

(** ** authorization.rs *)

(** [iter().map(f).collect::<Option<Vec<_>>>()] over results already computed. *)
Fixpoint collect_options {A} (l : list (option A)) : option (list A) :=
  match l with
  | [] => Some []
  | o :: r => match o, collect_options r with Some a, Some t => Some (a :: t) | _, _ => None end
  end.

Definition lbrace : string := of_bytes [x7b].
Definition rbrace : string := of_bytes [x7d].

Section Canonical.
Context `{JsonText}.

Definition canonical_entry (e : string * option string) : option string :=
  match json_string e.1, e.2 with
  | Ok key, Some value => Some (key +:+ ":" +:+ value)
  | _, _ => None
  end.

Fixpoint canonicalize_json (value : Value) : option string :=
  match value with
  | JNull => Some "null"
  | JBool b => Some (if b then "true" else "false")
  | JNumber n => Some (number_to_string n)
  | JString s => res_ok (json_string s)
  | JArray l =>
      (fun o => match o with Some values => Some ("[" +:+ str_join "," values +:+ "]") | None => None end)
        (collect_options (map canonicalize_json l))
  | JObject m =>
      match collect_options (map canonical_entry
              (sort_by_key (map (fun e => (e.1, canonicalize_json e.2)) m))) with
      | Some entries => Some (lbrace +:+ str_join "," entries +:+ rbrace)
      | None => None
      end
  end.

End Canonical.

Record PrivyAuthorizationContext := mkAuthorizationContext {
  authorization_private_keys : list string;
  ctx_signatures : list string;
  sign_fns : list (list byte -> result string)
}.

(** [headers] is a [BTreeMap]: its entries in key order. *)
Record PrivyAuthorizationRequestInput := mkRequestInput {
  ri_version : Z;
  ri_method : string;
  ri_url : string;
  ri_body : Value;
  ri_headers : list (string * string)
}.

Inductive PrivyAuthorizationConfig :=
  | Context (context : PrivyAuthorizationContext)
  | Provider (provider : PrivyAuthorizationRequestInput -> result (option PrivyAuthorizationContext)).

Inductive PrivyAuthorizationRequestExpiry := ExpiryDefault | Milliseconds (ms : Z) | Omit.

Record PrivyAuthorizationHeaders := mkAuthorizationHeaders {
  authorization_signature : option string;
  request_expiry : option string
}.

Definition no_headers : PrivyAuthorizationHeaders := mkAuthorizationHeaders None None.

Definition DEFAULT_PRIVY_AUTHORIZATION_REQUEST_EXPIRY_MS : Z := 15 * 60 * 1000.
Definition default_privy_authorization_request_expiry_ms : Z := DEFAULT_PRIVY_AUTHORIZATION_REQUEST_EXPIRY_MS.

(** [serde_json::to_value(request)]. *)
Definition request_input_value (request : PrivyAuthorizationRequestInput) : Value :=
  JObject [("version", jint (ri_version request)); ("method", JString (ri_method request));
           ("url", JString (ri_url request)); ("body", ri_body request);
           ("headers", JObject (map (fun e => (e.1, JString e.2)) (ri_headers request)))].

(** An empty body object is signed as the empty string. *)
Definition blank_empty_body (request : PrivyAuthorizationRequestInput) : PrivyAuthorizationRequestInput :=
  match ri_body request with
  | JObject [] => mkRequestInput (ri_version request) (ri_method request) (ri_url request) (JString EmptyString)
                    (ri_headers request)
  | _ => request
  end.

Definition format_privy_authorization_signature_payload `{JsonText} (request : PrivyAuthorizationRequestInput)
    : result (list byte) :=
  let value := request_input_value (blank_empty_body request) in
  ok_or (SerializationError "Failed to serialize Privy authorization request")
    (as_bytes <$> canonicalize_json value).

(** [str::split_whitespace().collect::<String>()]: the text without whitespace. *)
Definition without_whitespace (s : string) : string := of_bytes (remove_ws (as_bytes s)).

Definition parse_p256_private_key `{Codecs} `{Ecdsa} (authorization_private_key : string) : result EcdsaKey :=
  let normalized := trim (match strip_prefix "wallet-auth:" authorization_private_key with
                          | Some r => r
                          | None => default authorization_private_key
                                      (strip_prefix "wallet-api:" authorization_private_key)
                          end) in
  if contains normalized "-----BEGIN" then
    let pem := str_replace normalized (of_bytes [x5c; x6e]) (of_bytes [x0a]) in
    map_err (fun _ => InvalidPrivateKey "Invalid Privy authorization private key") (ecdsa_from_pkcs8_pem pem)
  else
    let compact := without_whitespace normalized in
    let? der := map_err (fun _ => InvalidPrivateKey "Invalid Privy authorization private key encoding")
                  (base64_decode compact) in
    map_err (fun _ => InvalidPrivateKey "Invalid Privy authorization private key") (ecdsa_from_pkcs8_der der).

Definition generate_privy_authorization_signature `{Codecs} `{Ecdsa} (authorization_private_key : string)
    (payload : list byte) : result string :=
  let? signing_key := parse_p256_private_key authorization_private_key in
  Ok (base64_encode (ecdsa_sign_der signing_key payload)).

(** [for x in xs { out.push(f(x)?) }]. *)
Fixpoint push_all {A} (f : A -> result string) (out : list string) (l : list A) : result (list string) :=
  match l with
  | [] => Ok out
  | x :: r => let? s := f x in push_all f (out ++ [s]) r
  end.

Definition generate_privy_authorization_signatures `{Codecs} `{Ecdsa} `{JsonText}
    (request : PrivyAuthorizationRequestInput) (authorization_context : PrivyAuthorizationContext)
    : result (list string) :=
  let? payload := format_privy_authorization_signature_payload request in
  let signatures := ctx_signatures authorization_context in
  let? signatures := push_all (fun k => generate_privy_authorization_signature k payload) signatures
                       (authorization_private_keys authorization_context) in
  push_all (fun sign_fn => sign_fn payload) signatures (sign_fns authorization_context).

Definition current_time_millis : M (result Z) :=
  let! now := clock_ms in
  ret (match now with
       | Some ms => Ok (ms mod 2 ^ 64)%Z
       | None => Err (SigningFailed "Failed to compute Privy request expiry: second time provided was later than self")
       end).

Definition prepare_privy_authorization_headers `{BuildProfile} `{Codecs} `{Ecdsa} `{JsonText} (app_id : string)
    (authorization_config : option PrivyAuthorizationConfig) (method url : string) (body : Value)
    (request_expiry_ms : option Z) : M (result PrivyAuthorizationHeaders) :=
  match authorization_config with
  | None => ret (Ok no_headers)
  | Some authorization_config =>
      try! request_expiry :=
        match request_expiry_ms with
        | None => ret (Ok None)
        | Some expiry_ms =>
            try! now := current_time_millis in
            let! expiry := of_run (u64_add now expiry_ms) in ret (Ok (Some (pretty expiry)))
        end in
      let headers := ("privy-app-id", app_id) ::
        match request_expiry with Some e => [("privy-request-expiry", e)] | None => [] end in
      let request := mkRequestInput 1 method url body headers in
      try context := match authorization_config with
                     | Context context => Ok (Some context)
                     | Provider provider => provider request
                     end in
      match context with
      | None => ret (Ok no_headers)
      | Some context =>
          try signatures := generate_privy_authorization_signatures request context in
          if bool_decide (signatures = []) then
            ret (Err (ConfigError "authorization_context must include authorization_private_keys, signatures, or sign_fns"))
          else ret (Ok (mkAuthorizationHeaders (Some (str_join "," signatures)) request_expiry))
      end
  end.

(** ** types.rs *)

Definition sign_message_request (message : string) : Value :=
  JObject [("method", JString "signMessage"); ("chain_type", JString "solana");
           ("params", JObject [("message", JString message); ("encoding", JString "base64")])].

Definition sign_transaction_request (transaction : string) : Value :=
  JObject [("method", JString "signTransaction"); ("chain_type", JString "solana");
           ("params", JObject [("transaction", JString transaction); ("encoding", JString "base64")])].

(** The [Deserialize] derivations, down to the fields the code reads. *)
Class PrivyCodec := {
  privy_wallet_from_slice : list byte -> Result string string;
  sign_message_response_from_str : string -> Result string string;
  sign_transaction_response_from_str : string -> Result string string
}.

(** ** mod.rs *)

Record PrivySigner := mkPrivySigner {
  app_id : string;
  app_secret : string;
  wallet_id : string;
  api_base_url : string;
  client : ClientBuilder;
  public_key : option Pubkey;
  authorization_context : option PrivyAuthorizationConfig;
  authorization_request_expiry_ms : option Z
}.

Record PrivySignerConfig := mkPrivySignerConfig {
  cfg_app_id : string;
  cfg_app_secret : string;
  cfg_wallet_id : string;
  cfg_api_base_url : option string;
  cfg_http_client_config : option HttpClientConfig;
  cfg_authorization_context : option PrivyAuthorizationConfig;
  cfg_authorization_request_expiry : PrivyAuthorizationRequestExpiry
}.

Section Privy.
Context `{BuildProfile} `{Codecs} `{SolanaSdk} `{Json} `{ClientBuild} `{Ecdsa} `{JsonText} `{PrivyCodec}.

Definition from_config (config : PrivySignerConfig) : result PrivySigner :=
  let http_client_config := default (mkHttpClientConfig None None) (cfg_http_client_config config) in
  let? client := build_client http_client_config in
  let authorization_request_expiry_ms :=
    match cfg_authorization_request_expiry config with
    | ExpiryDefault => Some default_privy_authorization_request_expiry_ms
    | Milliseconds request_expiry_ms => Some request_expiry_ms
    | Omit => None
    end in
  Ok (mkPrivySigner (cfg_app_id config) (cfg_app_secret config) (cfg_wallet_id config)
        (normalize_base_url (default "https://api.privy.io/v1" (cfg_api_base_url config)))
        client None (cfg_authorization_context config) authorization_request_expiry_ms).

Definition new (app_id app_secret wallet_id : string) : result PrivySigner :=
  from_config (mkPrivySignerConfig app_id app_secret wallet_id None None None ExpiryDefault).

(** The configured expiry, where it is added to the time at all, is small enough
    that a build with overflow checks does not panic on the sum. *)
Definition expiry_fits (self : PrivySigner) : Prop :=
  overflow_checks = true -> authorization_context self ≠ None ->
  forall ms, authorization_request_expiry_ms self = Some ms -> (ms <= 2 ^ 63)%Z.

Definition with_fields (self : PrivySigner) (pk : option Pubkey) (ctx : option PrivyAuthorizationConfig)
    (expiry : option Z) : PrivySigner :=
  mkPrivySigner (app_id self) (app_secret self) (wallet_id self) (api_base_url self) (client self) pk ctx expiry.

Definition with_authorization_context (self : PrivySigner) (ctx : PrivyAuthorizationConfig) : PrivySigner :=
  with_fields self (public_key self) (Some ctx) (authorization_request_expiry_ms self).
Definition with_authorization_request_expiry_ms (self : PrivySigner) (request_expiry_ms : Z) : PrivySigner :=
  with_fields self (public_key self) (authorization_context self) (Some request_expiry_ms).
Definition without_authorization_request_expiry (self : PrivySigner) : PrivySigner :=
  with_fields self (public_key self) (authorization_context self) None.

Definition initialized_pubkey (self : PrivySigner) : result Pubkey :=
  ok_or (ConfigError "PrivySigner is not initialized; call init() before signing") (public_key self).

Definition get_privy_auth_header (self : PrivySigner) : string :=
  "Basic " +:+ base64_encode (as_bytes (app_id self +:+ ":" +:+ app_secret self)).

Definition fetch_public_key (self : PrivySigner) : M (result Pubkey) :=
  let url := api_base_url self +:+ "/wallets/" +:+ encode_uri_component (wallet_id self) in
  try! response := fmap_err from_reqwest_error
    (http_get url [("Authorization", get_privy_auth_header self); ("privy-app-id", app_id self)]) in
  try! address := parse_json_response privy_wallet_from_slice response "Privy API fetch_public_key" in
  ret (map_err (fun _ => InvalidPublicKey "Invalid public key from Privy API") (pubkey_from_str address)).

(** [&mut self]: the signer comes back beside the result. *)
Definition init (self : PrivySigner) : M (PrivySigner * result unit) :=
  let! pubkey := fetch_public_key self in
  match pubkey with
  | Ok pubkey => ret (with_fields self (Some pubkey) (authorization_context self) (authorization_request_expiry_ms self), Ok tt)
  | Err e => ret (self, Err e)
  end.

Definition post_rpc (self : PrivySigner) (request : Value) : M (result string) :=
  let url := api_base_url self +:+ "/wallets/" +:+ encode_uri_component (wallet_id self) +:+ "/rpc" in
  try! authorization_headers :=
    prepare_privy_authorization_headers (app_id self) (authorization_context self) "POST" url request
      (authorization_request_expiry_ms self) in
  let headers :=
    [("Authorization", get_privy_auth_header self); ("privy-app-id", app_id self); ("Content-Type", "application/json")] ++
    match authorization_signature authorization_headers with
    | Some s => [("privy-authorization-signature", s)] | None => [] end ++
    match request_expiry authorization_headers with
    | Some e => [("privy-request-expiry", e)] | None => [] end in
  try! response := fmap_err from_reqwest_error (http_send_json (value_to_vec request) (mkRequest "POST" url headers)) in
  if negb (is_success (resp_status response)) then ret (Err (extract_api_error response "Privy API rpc")) else
  try! body := read_body_capped response in
  ret (Ok (from_utf8_lossy body)).

Definition sign_bytes (self : PrivySigner) (serialized : list byte) : M (result Signature) :=
  try public_key := initialized_pubkey self in
  let request := sign_message_request (base64_encode serialized) in
  try! response_text := post_rpc self request in
  try signature := map_err from_serde_error (sign_message_response_from_str response_text) in
  try sig := signature_from_base64 signature in
  try _ := verify_or_reject sig public_key serialized in
  ret (Ok sig).

(** [sign_and_serialize] up to the signature. *)
Definition obtain_signature (self : PrivySigner) (public_key : Pubkey) (transaction : VersionedTransaction)
    : M (result Signature) :=
  try unsigned_wire := serialize_wire_transaction transaction in
  let request := sign_transaction_request (base64_encode unsigned_wire) in
  try! response_text := post_rpc self request in
  try signed_transaction := map_err from_serde_error (sign_transaction_response_from_str response_text) in
  try signed_wire := map_err (fun _ => SerializationError "Failed to decode signed transaction returned by Privy")
                       (base64_decode signed_transaction) in
  ret (extract_and_verify_returned_signature signed_wire public_key (message_serialize (message transaction))).

Definition sign_and_serialize (self : PrivySigner) (transaction : VersionedTransaction)
    : M (VersionedTransaction * result SignedTransaction) :=
  try! public_key := ret (initialized_pubkey self) keeping transaction in
  try! signature := obtain_signature self public_key transaction keeping transaction in
  of_run (attach_and_serialize transaction public_key signature).

Definition pubkey (self : PrivySigner) : run Pubkey :=
  expect_pubkey (public_key self).

Definition is_available (self : PrivySigner) : M bool :=
  match public_key self with
  | None => ret false
  | Some public_key =>
      let! fetched := fetch_public_key self in
      ret (match fetched with Ok pubkey => bool_decide (pubkey = public_key) | Err _ => false end)
  end.

Definition sign_transaction (self : PrivySigner) (tx : VersionedTransaction)
    : M (VersionedTransaction * result SignTransactionResult) :=
  mut! (tx, signed_transaction) := sign_and_serialize self tx in
  ret (tx, Ok (classify_signed_transaction tx signed_transaction)).

#[global] Instance privy_solana_signer : SolanaSigner PrivySigner := {
  Traits.pubkey := pubkey;
  Traits.sign_message := sign_bytes;
  Traits.is_available := is_available
}.

#[global] Instance privy_transaction_signer : TransactionSigner PrivySigner := {
  transaction_signer_base := privy_solana_signer;
  Traits.sign_transaction := sign_transaction
}.

#[global] Instance privy_laws : TransactionSignerLaws PrivySigner.
Proof.
  split. intros s tx. apply (init_attach_classify (public_key s) _ tx (fun pk => obtain_signature s pk tx)).
  intros pk _. unfold obtain_signature. walk.
  destruct (extract_and_verify_returned_signature _ _ _) eqn:E; simpl; eauto with keychain.
Qed.

#[global] Instance privy_message_laws : MessageSignerLaws PrivySigner.
Proof. split. intros s m. cbn. unfold sign_bytes, initialized_pubkey. walk; simpl; eauto with keychain. Qed.

Lemma prepare_headers_silent app cfg method url body expiry_ms Q :
  sends (prepare_privy_authorization_headers app cfg method url body expiry_ms) Q.
Proof. unfold prepare_privy_authorization_headers, current_time_millis. walk_sends. Qed.
#[local] Hint Resolve prepare_headers_silent : keychain.

Lemma privy_confined s : confined s (sign_transaction s) (api_base_url s).
Proof.
  split; [change Traits.sign_message with sign_bytes| |change Traits.is_available with is_available].
  - intros m. unfold sign_bytes, post_rpc. walk_requests.
  - intros tx. unfold sign_transaction, sign_and_serialize, obtain_signature, post_rpc. walk_requests.
  - unfold is_available, fetch_public_key. walk_requests.
Qed.

Lemma privy_init_under s : sends (init s) (under (api_base_url s)).
Proof. unfold init, fetch_public_key. walk_requests. Qed.

(** ** Authorization signatures *)

(** The payload an authorization key signs does not depend on the
    order of object entries, at any depth: values that differ only in it have the
    same canonical form. *)
Theorem canonicalize_order_independent (v1 v2 : Value) :
  json_perm v1 v2 -> canonicalize_json v1 = canonicalize_json v2.
Proof.
  induction 1 as [v|v1 v2 v3 _ IH1 _ IH2|l v v' r _ IH|l k v v' r _ IH|m1 m2 Hnd Hp].
  - done.
  - congruence.
  - cbn [canonicalize_json]. by rewrite !map_app, !map_cons, IH.
  - cbn [canonicalize_json]. rewrite !map_app, !map_cons. cbn [fst snd]. by rewrite IH.
  - cbn [canonicalize_json]. rewrite (sort_by_key_perm _ (map (fun e => (e.1, canonicalize_json e.2)) m2)); [done| |].
    + by rewrite keys_map.
    + by apply Permutation_map.
Qed.

(** The canonical text of a value: no white space, objects with their entries
    in key order. *)
Inductive canonical : Value -> string -> Prop :=
  | canonical_null : canonical JNull "null"
  | canonical_bool (b : bool) : canonical (JBool b) (if b then "true" else "false")
  | canonical_number n : canonical (JNumber n) (number_to_string n)
  | canonical_string s t : json_string s = Ok t -> canonical (JString s) t
  | canonical_array l ts : Forall2 canonical l ts -> canonical (JArray l) ("[" +:+ str_join "," ts +:+ "]")
  | canonical_object m sorted ts :
      m ≡ₚ sorted -> Sorted key_le sorted ->
      Forall2 (fun e t => exists key value, json_string e.1 = Ok key /\ canonical e.2 value /\ t = key +:+ ":" +:+ value) sorted ts ->
      canonical (JObject m) (lbrace +:+ str_join "," ts +:+ rbrace).

Lemma collect_options_Some {A} (l : list (option A)) r : collect_options l = Some r -> l = map Some r.
Proof.
  revert r. induction l as [|[a|] l IH]; intros r; cbn; [by intros [= <-]| |done].
  destruct (collect_options l) as [t|]; [|done]. intros [= <-]. cbn. by rewrite (IH t).
Qed.

Lemma sorted_keys {A B} (f : A -> B) (m : list (string * A)) :
  Sorted key_le (map (fun e => (e.1, f e.2)) m) -> Sorted key_le m.
Proof.
  induction m as [|e m IH]; cbn; intros Hs; [constructor|]. apply Sorted_inv in Hs as [Hs Hh]. constructor; [by apply IH|].
  destruct m; cbn in Hh; [constructor|]. apply HdRel_inv in Hh. by constructor.
Qed.

Fixpoint canonicalize_canonical (v : Value) : forall t, canonicalize_json v = Some t -> canonical v t.
Proof.
  destruct v as [|b|n|s|l|m]; cbn [canonicalize_json]; intros t.
  1-3: intros [= <-]; constructor.
  - destruct (json_string s) eqn:E; intros [= <-]. by constructor.
  - assert (Forall (fun v => forall t, canonicalize_json v = Some t -> canonical v t) l) as Hl.
    { induction l as [|v l IH]; constructor; [apply canonicalize_canonical|exact IH]. }
    destruct (collect_options _) as [ts|] eqn:E; [|done]. intros [= <-]. constructor. apply collect_options_Some in E. clear -Hl E.
    revert ts E. induction Hl as [|v l Hv _ IH]; intros [|x ts]; cbn; intros E; try (done || by constructor).
    injection E as Ex E. constructor; auto.
  - assert (Forall (fun e => forall t, canonicalize_json e.2 = Some t -> canonical e.2 t) m) as Hm.
    { induction m as [|[k v] m IH]; constructor; [apply canonicalize_canonical|exact IH]. }
    destruct (collect_options _) as [ts|] eqn:E; [|done]. intros [= <-]. apply collect_options_Some in E.
    destruct (Permutation_map_inv _ _ (merge_sort_Permutation key_le (map (fun e => (e.1, canonicalize_json e.2)) m)))
      as (sorted & Hs & Hp).
    apply (canonical_object _ sorted); [done| |].
    + apply (sorted_keys canonicalize_json). rewrite <- Hs. apply Sorted_merge_sort, key_le_total.
    + unfold sort_by_key in E. rewrite Hs, map_map in E. rewrite Hp in Hm. clear -Hm E. revert ts E.
      induction Hm as [|e l He _ IH]; intros [|x ts]; cbn; intros E; try (done || by constructor). injection E as Ex E.
      constructor; [|auto]. unfold canonical_entry in Ex. cbn in Ex.
      destruct (json_string e.1) as [key|]; [|done]. destruct (canonicalize_json e.2) as [value|] eqn:Ev; [|done].
      injection Ex as <-. exists key, value. auto.
Qed.

Definition expiry_header (h : PrivyAuthorizationHeaders) : list (string * string) :=
  match request_expiry h with Some e => [("privy-request-expiry", e)] | None => [] end.

(** What is signed for a request: its method, URL and body and the two Privy
    headers, and nothing else.  An empty object stands for an empty body. *)
Definition signed_document (method url : string) (body : Value) (headers : list (string * string)) : Value :=
  JObject [("version", jint 1); ("method", JString method); ("url", JString url);
           ("body", match body with JObject [] => JString EmptyString | _ => body end);
           ("headers", JObject (map (fun e => (e.1, JString e.2)) headers))].

(** The signatures of a context over some bytes: those it came with, one by each
    of its keys, one by each of its functions. *)
Definition context_signs (ctx : PrivyAuthorizationContext) (payload : list byte) (sigs : list string) : Prop :=
  exists by_keys by_fns, sigs = ctx_signatures ctx ++ by_keys ++ by_fns /\
    Forall2 (fun k sg => exists key, parse_p256_private_key k = Ok key /\ sg = base64_encode (ecdsa_sign_der key payload))
      (authorization_private_keys ctx) by_keys /\
    Forall2 (fun f sg => f payload = Ok sg) (sign_fns ctx) by_fns.

Lemma push_all_Ok {A} (f : A -> result string) out l r :
  push_all f out l = Ok r -> exists ts, r = out ++ ts /\ Forall2 (fun x t => f x = Ok t) l ts.
Proof.
  revert out. induction l as [|x l IH]; intros out; cbn; [intros [= <-]; exists []; by rewrite app_nil_r|].
  destruct (f x) as [t|] eqn:E; cbn; [|done]. intros (ts & -> & HF)%IH. exists (t :: ts). rewrite <- (assoc_L (++)). auto.
Qed.

Lemma generate_signs method url body headers ctx sigs :
  generate_privy_authorization_signatures (mkRequestInput 1 method url body headers) ctx = Ok sigs ->
  exists payload, canonical (signed_document method url body headers) payload /\ context_signs ctx (as_bytes payload) sigs.
Proof.
  unfold generate_privy_authorization_signatures, format_privy_authorization_signature_payload. cbv zeta.
  assert (request_input_value (blank_empty_body (mkRequestInput 1 method url body headers)) = signed_document method url body headers) as ->.
  { unfold signed_document, blank_empty_body. cbn. by destruct body as [| | | | |[]]. }
  destruct (canonicalize_json _) as [payload|] eqn:Ep; cbn; [|done].
  destruct (push_all _ _ (authorization_private_keys ctx)) as [mid|] eqn:E1; cbn; [|done]. intros E2.
  apply push_all_Ok in E1 as (by_keys & -> & H1s), E2 as (by_fns & -> & H2s).
  exists payload. split; [by apply canonicalize_canonical|]. exists by_keys, by_fns.
  split_and!; [by rewrite (assoc_L (++))| |done]. eapply Forall2_impl; [exact H1s|]. intros k sg. cbn.
  unfold generate_privy_authorization_signature. destruct (parse_p256_private_key k) as [key|] eqn:Ek; cbn; [|done].
  intros [= <-]. by exists key.
Qed.

(** The headers a fixed context prepares sign what they were prepared for. *)
Definition authorizes (app : string) (ctx : PrivyAuthorizationContext) (method url : string) (body : Value)
    (h : PrivyAuthorizationHeaders) : Prop :=
  exists payload sigs, canonical (signed_document method url body (("privy-app-id", app) :: expiry_header h)) payload /\
    context_signs ctx (as_bytes payload) sigs /\ sigs ≠ [] /\ authorization_signature h = Some (str_join "," sigs).

Lemma prepare_headers_authorize app ctx method url body expiry_ms :
  returns (prepare_privy_authorization_headers app (Some (Context ctx)) method url body expiry_ms)
    (on_ok (authorizes app ctx method url body)).
Proof.
  unfold prepare_privy_authorization_headers. apply returns_bind_res_any. intros e. cbv zeta.
  cbn [bind_res]. apply returns_try. intros c [= <-]. apply returns_try. intros sigs Hgen.
  case_bool_decide; apply returns_ret; [done|]. destruct (generate_signs _ _ _ _ _ _ Hgen) as (payload & Hp & Hs).
  by exists payload, sigs.
Qed.

(** C30: a wallet RPC is authorized as sent.  Whatever request a signer that has a
    fixed authorization context sends carries the signatures of that context
    over the canonical text of a document that holds exactly the request's
    method, its URL, the value it serialises as its body, and the two Privy
    headers it has; so a request that differs in any of them carries signatures
    over another text.  (A signer without a context sends no such signatures, and
    a context provider is the caller's code.) *)
Theorem privy_rpc_authorizes_request (self : PrivySigner) (ctx : PrivyAuthorizationContext) (request : Value) :
  authorization_context self = Some (Context ctx) ->
  sends (post_rpc self request) (fun req => exists headers payload sigs,
    canonical (signed_document (req_method req) (req_url req) request headers) payload /\
    context_signs ctx (as_bytes payload) sigs /\ sigs ≠ [] /\
    value_to_vec request = Ok (req_body req) /\
    assoc_get (req_headers req) "privy-authorization-signature" = Some (str_join "," sigs) /\
    headers.*1 = "privy-app-id" ::
      match assoc_get (req_headers req) "privy-request-expiry" with Some _ => ["privy-request-expiry"] | None => [] end /\
    assoc_get headers "privy-app-id" = Some (app_id self) /\
    forall k, k ∈ headers.*1 -> assoc_get headers k = assoc_get (req_headers req) k).
Proof.
  intros Hctx. unfold post_rpc. rewrite Hctx. cbv zeta.
  eapply sends_bind_res; [apply prepare_headers_silent|apply prepare_headers_authorize|].
  intros h (payload & sigs & Hp & Hs & Hne & Hsig). apply sends_bind_res_any.
  - apply sends_fmap_err, sends_http_send_json. intros body Hbody. exists (("privy-app-id", app_id self) :: expiry_header h), payload, sigs.
    unfold expiry_header in *. rewrite Hsig. destruct (request_expiry h); cbn; split_and!; try done;
      intros k Hk; apply list_elem_of_In in Hk; cbn in Hk; destruct_or! Hk; try done; by subst k.
  - intros resp. walk_sends.
Qed.
End Privy.

(** ** Concrete requests *)

Module PrivyDemo.
Import Demo DemoJson DemoEcdsa DemoText.

#[export] Instance demo_codec : PrivyCodec := {|
  privy_wallet_from_slice := fun b => Ok (of_bytes b);
  sign_message_response_from_str := fun s => Ok s;
  sign_transaction_response_from_str := fun s => Ok s
|}.

Lemma canonicalize_order_independent_witness :
  let v1 := JArray [JObject [("url", JString "u"); ("body", JNull)]] in
  let v2 := JArray [JObject [("body", JNull); ("url", JString "u")]] in
  canonicalize_json v1 = canonicalize_json v2 /\ v1 ≠ v2.
Proof.
  intros v1 v2. split; [|discriminate]. apply canonicalize_order_independent.
  apply (jp_in_array [] _ _ []), jp_swap.
  - apply (bool_decide_unpack _). vm_compute. exact I.
  - apply Permutation_swap.
Defined.

(** A context with a key, a signature it came with and a function. *)
Definition demo_context : PrivyAuthorizationContext :=
  mkAuthorizationContext [base64_encode (as_bytes "key")] ["precomputed"] [fun b => Ok "from-function"].
Definition demo_signer : PrivySigner :=
  mkPrivySigner "app" "secret" "wallet" "https://api" (client_builder (mkHttpClientConfig None None))
    (Some (array_repeat 32 x01)) (Some (Context demo_context)) (Some 1000%Z).
Definition demo_run := post_rpc demo_signer (JString "body") (answering_world 200 []).

Lemma privy_rpc_authorizes_request_witness :
  exists req, w_trace demo_run.2 = [EvClock; EvHttp req] /\
    exists headers payload sigs,
      canonical (signed_document (req_method req) (req_url req) (JString "body") headers) payload /\
      context_signs demo_context (as_bytes payload) sigs /\ length sigs = 3 /\
      assoc_get (req_headers req) "privy-authorization-signature" = Some (str_join "," sigs).
Proof.
  destruct (privy_rpc_authorizes_request demo_signer demo_context (JString "body") eq_refl (answering_world 200 []))
    as (ext & Hext & HF). fold demo_run in Hext.
  remember (w_trace demo_run.2) as tr eqn:Htr. vm_compute in Htr. simpl in Hext. subst tr ext.
  apply Forall_inv_tail, Forall_inv in HF. destruct HF as (headers & payload & sigs & Hp & Hs & _ & _ & Hsig & _).
  eexists. split; [reflexivity|]. exists headers, payload, sigs. split_and!; [exact Hp|exact Hs| |exact Hsig].
  destruct Hs as (by_keys & by_fns & -> & H1s & H2s). rewrite !length_app, <- (Forall2_length _ _ _ H1s), <- (Forall2_length _ _ _ H2s).
  reflexivity.
Defined.

End PrivyDemo.
