(* ===== verification/Para.v ===== *)
(** * Para signer (src/rust/src/para/mod.rs, para/types.rs)

    Raw signing over an API key; the key is learnt from the wallet by [init]. *)

From S2P Require Import Prelude Errors World Externals TransactionUtil SignatureUtil RemoteUtil Traits.

#[local] Open Scope keychain_scope.

(** ** types.rs *)

Record WalletResponse := mkWalletResponse {
  wr_address : option string;
  wr_wallet_type : string;
  wr_status : string
}.

Definition sign_raw_request (data : string) : Value :=
  JObject [("data", JString data); ("encoding", JString "hex")].

(** The [Deserialize] derivations; a sign response is its [signature]. *)
Class ParaCodec := {
  para_wallet_from_slice : list byte -> Result WalletResponse string;
  sign_raw_response_from_slice : list byte -> Result (option string) string
}.

(** ** mod.rs *)

Definition DEFAULT_BASE_URL : string := "https://api.getpara.com".

Record ParaSignerConfig := mkParaSignerConfig {
  cfg_api_key : string;
  cfg_wallet_id : string;
  cfg_api_base_url : option string
}.

(** [bytes[i] == b'-']. *)
Definition dash_at (i : nat) (bytes : list byte) : bool := bool_decide (bytes !! i = Some x2d).

Definition is_valid_uuid (s : string) : bool :=
  if negb (str_len s =? 36) then false
  else
    let bytes := as_bytes s in
    dash_at 8 bytes && dash_at 13 bytes && dash_at 18 bytes && dash_at 23 bytes &&
    forallb is_ascii_hexdigit (as_bytes (str_replace s "-" EmptyString)).

Section Para.
Context `{Codecs} `{SolanaSdk} `{Json} `{ClientBuild} `{UrlParser} `{ParaCodec}.

Record ParaSigner := mkParaSigner {
  api_key : string;
  wallet_id : string;
  api_base_url : string;
  client : ClientBuilder;
  public_key : option Pubkey
}.

Definition from_config (config : ParaSignerConfig) : result ParaSigner :=
  if str_is_empty (cfg_api_key config) || str_is_empty (cfg_wallet_id config) then
    Err (ConfigError "apiKey and walletId must not be empty")
  else if negb (starts_with "sk_" (cfg_api_key config)) then
    Err (ConfigError "apiKey must be a Para secret key (starts with sk_)")
  else if negb (is_valid_uuid (cfg_wallet_id config)) then
    Err (ConfigError "walletId must be a valid UUID")
  else
    let? _ := match cfg_api_base_url config with
              | Some url => validate_https_url url
              | None => Ok tt
              end in
    let? client := build_client (mkHttpClientConfig None None) in
    Ok (mkParaSigner (cfg_api_key config) (cfg_wallet_id config)
          (normalize_base_url (default DEFAULT_BASE_URL (cfg_api_base_url config))) client None).

Definition new (api_key wallet_id : string) (api_base_url : option string) : result ParaSigner :=
  from_config (mkParaSignerConfig api_key wallet_id api_base_url).

Definition fetch_wallet (self : ParaSigner) : M (result WalletResponse) :=
  try! response := fmap_err from_reqwest_error (http_get (api_base_url self +:+ "/v1/wallets/" +:+ wallet_id self) [("X-API-Key", api_key self)]) in
  parse_json_response para_wallet_from_slice response "Para API fetch_wallet".

Definition with_public_key (self : ParaSigner) (pk : Pubkey) : ParaSigner :=
  mkParaSigner (api_key self) (wallet_id self) (api_base_url self) (client self) (Some pk).

(** The checks of [init] on the wallet; an unexpected status is only logged. *)
Definition wallet_pubkey (wallet : WalletResponse) : result Pubkey :=
  if negb (eq_ignore_ascii_case (wr_wallet_type wallet) "SOLANA") then
    Err (ConfigError ("Expected SOLANA wallet, got: " +:+ wr_wallet_type wallet))
  else
    let? address := ok_or (ConfigError "Wallet does not have an address (may still be creating)")
                      (wr_address wallet) in
    map_err (fun _ => InvalidPublicKey "Invalid Solana public key from Para API") (pubkey_from_str address).

(** [&mut self]: the signer comes back beside the result. *)
Definition init (self : ParaSigner) : M (ParaSigner * result unit) :=
  let! wallet := fetch_wallet self in
  match wallet with
  | Err e => ret (self, Err e)
  | Ok wallet =>
      match wallet_pubkey wallet with
      | Err e => ret (self, Err e)
      | Ok pubkey => ret (with_public_key self pubkey, Ok tt)
      end
  end.

Definition initialized_pubkey (self : ParaSigner) : result Pubkey :=
  ok_or (ConfigError "ParaSigner is not initialized; call init() before signing") (public_key self).

Definition sign_bytes (self : ParaSigner) (data : list byte) : M (result Signature) :=
  try public_key := initialized_pubkey self in
  let url := api_base_url self +:+ "/v1/wallets/" +:+ wallet_id self +:+ "/sign-raw" in
  let request := sign_raw_request (hex_encode data) in
  try! response := fmap_err from_reqwest_error
    (post_json url [("X-API-Key", api_key self)] (value_to_vec request)) in
  try! signature := parse_json_response sign_raw_response_from_slice response "Para API sign_bytes" in
  try hex_sig := ok_or (SigningFailed "Missing signature in response") signature in
  try sig := signature_from_hex hex_sig in
  try _ := verify_or_reject sig public_key data in
  ret (Ok sig).

Definition pubkey (self : ParaSigner) : run Pubkey := expect_pubkey (public_key self).

(** [&self.pubkey()] is evaluated once the signature is there. *)
Definition sign_and_serialize (self : ParaSigner) (transaction : VersionedTransaction)
    : M (VersionedTransaction * result SignedTransaction) :=
  try! signature := sign_bytes self (message_serialize (message transaction)) keeping transaction in
  let! public_key := of_run (pubkey self) in
  of_run (attach_and_serialize transaction public_key signature).

Definition is_available (self : ParaSigner) : M bool :=
  let! r := timeout (fetch_wallet self) in
  ret (match r with
       | Some (Ok wallet) =>
           eq_ignore_ascii_case (wr_wallet_type wallet) "SOLANA" &&
           (eq_ignore_ascii_case (wr_status wallet) "ACTIVE" || eq_ignore_ascii_case (wr_status wallet) "READY")
       | _ => false
       end).

Definition sign_transaction (self : ParaSigner) (tx : VersionedTransaction)
    : M (VersionedTransaction * result SignTransactionResult) :=
  mut! (tx, signed_transaction) := sign_and_serialize self tx in
  ret (tx, Ok (classify_signed_transaction tx signed_transaction)).

#[global] Instance para_solana_signer : SolanaSigner ParaSigner := {
  Traits.pubkey := pubkey;
  Traits.sign_message := sign_bytes;
  Traits.is_available := is_available
}.

#[global] Instance para_transaction_signer : TransactionSigner ParaSigner := {
  transaction_signer_base := para_solana_signer;
  Traits.sign_transaction := sign_transaction
}.

(** ** Lemmas *)

Lemma para_sign_bytes_verified self data :
  returns (sign_bytes self data) (on_ok (fun sg =>
    exists pk, public_key self = Some pk /\ verifies sg pk data = true)).
Proof.
  unfold sign_bytes, initialized_pubkey. destruct (public_key self) as [pk|]; [|by apply returns_ret].
  walk. simpl in *. simplify_eq. eauto with keychain.
Qed.

#[global] Instance para_laws : TransactionSignerLaws ParaSigner.
Proof.
  split. intros s tx. apply (late_attach_classify (public_key s)); [apply para_sign_bytes_verified|].
  intros sg pk Hpk. unfold pubkey. by rewrite Hpk.
Qed.

#[global] Instance para_message_laws : MessageSignerLaws ParaSigner.
Proof.
  split. intros s m. eapply returns_weaken; [apply para_sign_bytes_verified|].
  intros [sg|e]; [|done]. intros (pk & Hpk & Hv). exists pk. cbn. unfold pubkey. by rewrite Hpk.
Qed.

Lemma para_confined s : confined s (sign_transaction s) (api_base_url s).
Proof.
  split; [change Traits.sign_message with sign_bytes| |change Traits.is_available with is_available].
  - intros m. unfold sign_bytes. walk_requests.
  - intros tx. unfold sign_transaction, sign_and_serialize, sign_bytes. walk_requests.
  - unfold is_available, fetch_wallet. walk_requests.
Qed.

Lemma para_init_under s : sends (init s) (under (api_base_url s)).
Proof. unfold init, fetch_wallet. walk_requests. Qed.

End Para.

(** ** The wallet id *)

(** [s.replace('-', "")] drops the dashes. *)
Lemma replace_dash l : replace_from [x2d] [] 0 l = filter (fun b => b ≠ x2d) l.
Proof.
  induction l as [|b l IH]; [done|]. rewrite filter_cons. cbn.
  destruct (decide (b = x2d)) as [->|Hb]; cbn.
  - rewrite decide_False by auto. exact IH.
  - rewrite decide_True by done. rewrite bool_decide_eq_false_2 by congruence. by rewrite IH.
Qed.

Definition uuid_byte (b : byte) : bool := is_ascii_hexdigit b || bool_decide (b = x2d).

Lemma without_dashes l :
  forallb is_ascii_hexdigit (filter (fun b => b ≠ x2d) l) = true <-> Forall (fun b => uuid_byte b = true) l.
Proof.
  induction l as [|b l IH]; [done|]. rewrite filter_cons, Forall_cons, <- IH. unfold uuid_byte at 1.
  destruct (decide (b = x2d)) as [->|Hb].
  - rewrite decide_False by auto. rewrite bool_decide_eq_true_2, orb_true_r by done. naive_solver.
  - rewrite decide_True by done. rewrite bool_decide_eq_false_2, orb_false_r by done.
    cbn [forallb]. by rewrite andb_true_iff.
Qed.

Lemma uuid_bytes_unescaped l :
  Forall (fun b => uuid_byte b = true) l -> concat (map encode_byte l) = l.
Proof.
  induction 1 as [|b l Hb _ IH]; [done|]. cbn [map concat]. rewrite IH. by destruct b.
Qed.

(** What [is_valid_uuid] accepts is exactly the texts of 36 hexadecimal
    digits and dashes with a dash at each of the four places.  Such an id needs no
    percent-encoding, so the unescaped wallet path of the requests is the escaped
    one; but dashes may stand anywhere, and 36 dashes pass for a UUID. *)
Theorem para_wallet_id_spec (s : string) :
  (is_valid_uuid s = true <->
     str_len s = 36 /\ Forall (fun i => as_bytes s !! i = Some x2d) [8; 13; 18; 23] /\
     Forall (fun b => uuid_byte b = true) (as_bytes s)) /\
  (is_valid_uuid s = true -> encode_uri_component s = s) /\
  is_valid_uuid (of_bytes (replicate 36 x2d)) = true.
Proof.
  assert (Hspec : is_valid_uuid s = true <->
     str_len s = 36 /\ Forall (fun i => as_bytes s !! i = Some x2d) [8; 13; 18; 23] /\
     Forall (fun b => uuid_byte b = true) (as_bytes s)).
  { unfold is_valid_uuid, dash_at, str_replace. rewrite as_bytes_of_bytes.
    change (as_bytes "-") with [x2d]. change (as_bytes EmptyString) with (@nil byte).
    rewrite replace_dash, <- without_dashes, !Forall_cons.
    destruct (Nat.eqb_spec (str_len s) 36); cbn [negb]; [|naive_solver].
    rewrite !andb_true_iff, !bool_decide_eq_true. naive_solver. }
  split_and!; [exact Hspec| |by vm_compute].
  intros (_ & _ & HF)%Hspec. unfold encode_uri_component. by rewrite uuid_bytes_unescaped, of_bytes_as_bytes.
Qed.

Module ParaDemo.

Lemma para_wallet_id_spec_witness :
  let id := "12345678-1234-1234-1234-123456789abc" in
  is_valid_uuid id = true /\ encode_uri_component id = id.
Proof.
  intros id. assert (E : is_valid_uuid id = true) by (vm_compute; reflexivity).
  split; [exact E|]. exact (proj1 (proj2 (para_wallet_id_spec id)) E).
Defined.

End ParaDemo.
