(* ===== verification/Dfns.v ===== *)
(** * Dfns signer (src/rust/src/dfns/mod.rs, dfns/auth.rs, dfns/types.rs)

    Each signature request is first announced, its challenge signed with the
    credential's key, and sent with the token that answers. *)

From S2P Require Import Prelude Errors World Externals TransactionUtil SignatureUtil RemoteUtil Traits.

#[local] Open Scope keychain_scope.

(** ** types.rs *)

Record SigningKeyInfo := mkSigningKey {
  sk_id : string; sk_scheme : string; sk_curve : string; sk_public_key : string }.
Record GetWalletResponse := mkWallet { gw_status : string; gw_signing_key : SigningKeyInfo }.

Inductive GenerateSignatureRequest :=
  | Message (message : string)
  | Transaction (transaction blockchain_kind : string).

(** [#[serde(tag = "kind")]]. *)
Definition signature_request_value (r : GenerateSignatureRequest) : Value :=
  match r with
  | Message m => JObject [("kind", JString "Message"); ("message", JString m)]
  | Transaction t k =>
      JObject [("kind", JString "Transaction"); ("transaction", JString t); ("blockchainKind", JString k)]
  end.

Record SignatureComponents := mkComponents { sc_r : string; sc_s : string }.
Record GenerateSignatureResponse := mkGenerated {
  gs_status : string; gs_signature : option SignatureComponents }.

Definition user_action_init_value (payload http_method http_path server_kind : string) : Value :=
  JObject [("userActionPayload", JString payload); ("userActionHttpMethod", JString http_method);
           ("userActionHttpPath", JString http_path); ("userActionServerKind", JString server_kind)].

(** [allow_credentials.key] is the list of their ids. *)
Record UserActionInitResponse := mkInitResponse {
  ui_challenge : string; ui_challenge_identifier : string; ui_allow_credentials : list string }.

Definition user_action_sign_value (challenge_identifier cred_id client_data signature : string) : Value :=
  JObject [("challengeIdentifier", JString challenge_identifier);
           ("firstFactor", JObject [("kind", JString "Key");
              ("credentialAssertion", JObject [("credId", JString cred_id);
                 ("clientData", JString client_data); ("signature", JString signature)])])].

(** The [Deserialize] derivations; the answer to an assertion is its [user_action]. *)
Class DfnsCodec := {
  dfns_wallet_from_slice : list byte -> Result GetWalletResponse string;
  generated_from_slice : list byte -> Result GenerateSignatureResponse string;
  init_response_from_slice : list byte -> Result UserActionInitResponse string;
  user_action_from_slice : list byte -> Result string string
}.

Record DfnsSignerConfig := mkDfnsSignerConfig {
  cfg_auth_token : string;
  cfg_cred_id : string;
  cfg_private_key_pem : string;
  cfg_wallet_id : string;
  cfg_api_base_url : option string;
  cfg_http_client_config : option HttpClientConfig
}.

Record DfnsSigner := mkDfnsSigner {
  auth_token : string;
  cred_id : string;
  private_key_pem : string;
  wallet_id : string;
  key_id : string;
  public_key : option Pubkey;
  api_base_url : string;
  client : ClientBuilder
}.

Section Dfns.
Context `{Codecs} `{SolanaSdk} `{Json} `{ClientBuild} `{PEM : PemKeys} `{DfnsCodec}.

(** ** auth.rs *)

Definition sign_challenge (private_key_pem : string) (data : list byte) : result (list byte) :=
  match dalek_from_pkcs8_pem private_key_pem with
  | Ok key => Ok (arr_bytes (dalek_sign key data))
  | Err _ =>
  match ecdsa_from_pkcs8_pem private_key_pem with
  | Ok key => Ok (ecdsa_sign_der key data)
  | Err _ =>
  match ecdsa_from_sec1_pem private_key_pem with
  | Ok key => Ok (ecdsa_sign_der key data)
  | Err _ =>
  match rsa_from_pkcs8_pem private_key_pem with
  | Ok rsa_key => Ok (rsa_sign_sha256 rsa_key data)
  | Err _ => Err (InvalidPrivateKey "Unsupported PEM key type (expected Ed25519, P256, or RSA)")
  end end end end.

(** [json!] builds a [BTreeMap]: entries come in key order. *)
Definition client_data_bytes (challenge : string) : list byte :=
  as_bytes (value_text (JObject [("challenge", JString challenge); ("type", JString "key.get")])).

Definition json_headers (auth_token : string) : list (string * string) :=
  [("Authorization", "Bearer " +:+ auth_token); ("Content-Type", "application/json")].

Definition sign_user_action (api_base_url auth_token cred_id private_key_pem http_method http_path body : string)
    : M (result string) :=
  let init_url := api_base_url +:+ "/auth/action/init" in
  let init_request := user_action_init_value body http_method http_path "Api" in
  try! response := fmap_err from_reqwest_error
    (http_send_json (value_to_vec init_request) (mkRequest "POST" init_url (json_headers auth_token))) in
  try! challenge := parse_json_response init_response_from_slice response "Dfns auth/action/init" in
  let allowed := existsb (fun c => bool_decide (c = cred_id)) (ui_allow_credentials challenge) in
  if negb allowed then
    ret (Err (ConfigError ("Credential " +:+ cred_id +:+ " not in allowed credentials")))
  else
    let client_data_bytes := client_data_bytes (ui_challenge challenge) in
    try signature_bytes := sign_challenge private_key_pem client_data_bytes in
    let client_data_b64 := base64_url_encode client_data_bytes in
    let signature_b64 := base64_url_encode signature_bytes in
    let sign_url := api_base_url +:+ "/auth/action" in
    let sign_request := user_action_sign_value (ui_challenge_identifier challenge) cred_id client_data_b64
                          signature_b64 in
    try! response := fmap_err from_reqwest_error
      (http_send_json (value_to_vec sign_request) (mkRequest "POST" sign_url (json_headers auth_token))) in
    parse_json_response user_action_from_slice response "Dfns auth/action".

(** ** mod.rs *)

Definition with_user_agent (b : ClientBuilder) (agent : string) : ClientBuilder :=
  mkClientBuilder (cb_timeout b) (cb_connect_timeout b) (cb_https_only b) (cb_redirect b) (Some agent).

Definition from_config (config : DfnsSignerConfig) : result DfnsSigner :=
  let http_client_config := default (mkHttpClientConfig None None) (cfg_http_client_config config) in
  let builder := with_user_agent (client_builder http_client_config) "solana-keychain" in
  let? _ := map_err (fun e => ConfigError ("Failed to build HTTP client: " +:+ e)) (reqwest_build builder) in
  Ok (mkDfnsSigner (cfg_auth_token config) (cfg_cred_id config) (cfg_private_key_pem config) (cfg_wallet_id config)
        EmptyString None (normalize_base_url (default "https://api.dfns.io" (cfg_api_base_url config))) builder).

Definition new (config : DfnsSignerConfig) : result DfnsSigner := from_config config.

Definition initialized_pubkey (self : DfnsSigner) : result Pubkey :=
  ok_or (ConfigError "DfnsSigner is not initialized; call init() before signing") (public_key self).

Definition get_wallet (self : DfnsSigner) : M (result GetWalletResponse) :=
  let url := api_base_url self +:+ "/wallets/" +:+ encode_uri_component (wallet_id self) in
  try! response := fmap_err from_reqwest_error (http_get url [("Authorization", "Bearer " +:+ auth_token self)]) in
  parse_json_response dfns_wallet_from_slice response "Dfns get_wallet".

(** The checks of [init] on the wallet. *)
Definition wallet_pubkey (wallet : GetWalletResponse) : result Pubkey :=
  let key := gw_signing_key wallet in
  if bool_decide (gw_status wallet ≠ "Active") then
    Err (ConfigError ("Wallet is not active: " +:+ gw_status wallet))
  else if bool_decide (sk_scheme key ≠ "EdDSA") then
    Err (ConfigError ("Unsupported key scheme: " +:+ sk_scheme key +:+ " (expected EdDSA)"))
  else if bool_decide (sk_curve key ≠ "ed25519") then
    Err (ConfigError ("Unsupported key curve: " +:+ sk_curve key +:+ " (expected ed25519)"))
  else
    let? pubkey_bytes := map_err (fun e => InvalidPublicKey ("Failed to decode hex public key: " +:+ e))
                           (hex_decode (sk_public_key key)) in
    ok_or (InvalidPublicKey "Invalid public key length (expected 32 bytes)") (array_try_from 32 pubkey_bytes).

Definition with_key (self : DfnsSigner) (pk : Pubkey) (id : string) : DfnsSigner :=
  mkDfnsSigner (auth_token self) (cred_id self) (private_key_pem self) (wallet_id self) id (Some pk)
    (api_base_url self) (client self).

(** [&mut self]: the signer comes back beside the result. *)
Definition init (self : DfnsSigner) : M (DfnsSigner * result unit) :=
  let! wallet := get_wallet self in
  match wallet with
  | Err e => ret (self, Err e)
  | Ok wallet =>
      match wallet_pubkey wallet with
      | Err e => ret (self, Err e)
      | Ok pubkey => ret (with_key self pubkey (sk_id (gw_signing_key wallet)), Ok tt)
      end
  end.

Definition combine_signature (r s : string) : result Signature :=
  let? r_bytes := map_err (fun e => SerializationError ("Failed to decode signature r: " +:+ e))
                    (hex_decode (default r (strip_prefix "0x" r))) in
  let? s_bytes := map_err (fun e => SerializationError ("Failed to decode signature s: " +:+ e))
                    (hex_decode (default s (strip_prefix "0x" s))) in
  signature_from_bytes (r_bytes ++ s_bytes).

(** From the parsed answer to the signature. *)
Definition accept_signature (sig_response : GenerateSignatureResponse) : result Signature :=
  if bool_decide (gs_status sig_response = "Failed") then Err (SigningFailed "Dfns signing failed")
  else if bool_decide (gs_status sig_response ≠ "Signed") then
    Err (SigningFailed ("Unexpected signature status: " +:+ gs_status sig_response +:+ " (may require policy approval)"))
  else
    let? components := ok_or (SigningFailed "Signature components missing from response")
                         (gs_signature sig_response) in
    combine_signature (sc_r components) (sc_s components).

Definition signatures_path (self : DfnsSigner) : string :=
  "/keys/" +:+ encode_uri_component (key_id self) +:+ "/signatures".

Definition send_signature_request (self : DfnsSigner) (request_body : GenerateSignatureRequest)
    : M (result Signature) :=
  let http_path := signatures_path self in
  try body_json := map_err from_serde_error (value_to_vec (signature_request_value request_body)) in
  try! user_action := sign_user_action (api_base_url self) (auth_token self) (cred_id self) (private_key_pem self)
                        "POST" http_path (of_bytes body_json) in
  let url := api_base_url self +:+ http_path in
  try! response := fmap_err from_reqwest_error
    (http_send (mkRequest "POST" url (json_headers (auth_token self) ++ [("x-dfns-useraction", user_action)])
                  body_json)) in
  try! sig_response := parse_json_response generated_from_slice response "Dfns generate_signature" in
  ret (accept_signature sig_response).

Definition sign_bytes (self : DfnsSigner) (message : list byte) : M (result Signature) :=
  let request := Message ("0x" +:+ hex_encode message) in
  try public_key := initialized_pubkey self in
  try! sig := send_signature_request self request in
  try _ := verify_or_reject sig public_key message in
  ret (Ok sig).

Definition sign_transaction_bytes (self : DfnsSigner) (transaction : VersionedTransaction) : M (result Signature) :=
  try tx_bytes := serialize_wire_transaction transaction in
  let request := Transaction ("0x" +:+ hex_encode tx_bytes) "Solana" in
  try public_key := initialized_pubkey self in
  try! sig := send_signature_request self request in
  try _ := verify_or_reject sig public_key (message_serialize (message transaction)) in
  ret (Ok sig).

(** The key is looked up again once the signature is there. *)
Definition sign_and_serialize (self : DfnsSigner) (transaction : VersionedTransaction)
    : M (VersionedTransaction * result SignedTransaction) :=
  try! signature := sign_transaction_bytes self transaction keeping transaction in
  try! public_key := ret (initialized_pubkey self) keeping transaction in
  of_run (attach_and_serialize transaction public_key signature).

Definition pubkey (self : DfnsSigner) : run Pubkey := expect_pubkey (public_key self).

Definition is_available (self : DfnsSigner) : M bool :=
  let! wallet := get_wallet self in
  ret (match wallet with
       | Ok wallet => bool_decide (gw_status wallet = "Active") &&
                      bool_decide (sk_scheme (gw_signing_key wallet) = "EdDSA") &&
                      bool_decide (sk_curve (gw_signing_key wallet) = "ed25519")
       | Err _ => false
       end).

Definition sign_transaction (self : DfnsSigner) (tx : VersionedTransaction)
    : M (VersionedTransaction * result SignTransactionResult) :=
  mut! (tx, signed_transaction) := sign_and_serialize self tx in
  ret (tx, Ok (classify_signed_transaction tx signed_transaction)).

#[global] Instance dfns_solana_signer : SolanaSigner DfnsSigner := {
  Traits.pubkey := pubkey;
  Traits.sign_message := sign_bytes;
  Traits.is_available := is_available
}.

#[global] Instance dfns_transaction_signer : TransactionSigner DfnsSigner := {
  transaction_signer_base := dfns_solana_signer;
  Traits.sign_transaction := sign_transaction
}.

(** ** Lemmas *)

#[global] Instance dfns_laws : TransactionSignerLaws DfnsSigner.
Proof.
  split. intros s tx. apply (late_attach_classify (public_key s)).
  - unfold sign_transaction_bytes, initialized_pubkey. destruct (public_key s) as [pk|]; [|by walk].
    walk. simpl in *. simplify_eq. eauto with keychain.
  - intros sg pk Hpk. unfold initialized_pubkey. by rewrite Hpk.
Qed.

#[global] Instance dfns_message_laws : MessageSignerLaws DfnsSigner.
Proof.
  split. intros s m. change Traits.sign_message with sign_bytes. unfold sign_bytes, initialized_pubkey.
  walk; simpl; eauto with keychain.
Qed.

Lemma dfns_request_under self r : sends (send_signature_request self r) (under (api_base_url self)).
Proof. unfold send_signature_request, sign_user_action. walk_requests. Qed.
#[local] Hint Resolve dfns_request_under : keychain.

Lemma dfns_confined s : confined s (sign_transaction s) (api_base_url s).
Proof.
  split; [change Traits.sign_message with sign_bytes| |change Traits.is_available with is_available].
  - intros m. unfold sign_bytes. walk_requests.
  - intros tx. unfold sign_transaction, sign_and_serialize, sign_transaction_bytes. walk_requests.
  - unfold is_available, get_wallet. walk_requests.
Qed.

Lemma dfns_init_under s : sends (init s) (under (api_base_url s)).
Proof. unfold init, get_wallet. walk_requests. Qed.

(** ** The user action *)

(** The three requests of a signature: the announcement of the request, the
    signed challenge, and the request itself. *)
Definition announcement (self : DfnsSigner) (b : list byte) : HttpRequest :=
  mkRequest "POST" (api_base_url self +:+ "/auth/action/init") (json_headers (auth_token self)) b.

Definition assertion (self : DfnsSigner) (b : list byte) : HttpRequest :=
  mkRequest "POST" (api_base_url self +:+ "/auth/action") (json_headers (auth_token self)) b.

Definition authorised (self : DfnsSigner) (token : string) (body : list byte) : HttpRequest :=
  mkRequest "POST" (api_base_url self +:+ signatures_path self)
    (json_headers (auth_token self) ++ [("x-dfns-useraction", token)]) body.

(** The documents of the first two. *)
Definition announces (self : DfnsSigner) (body b : list byte) : Prop :=
  value_to_vec (JObject [("userActionPayload", JString (of_bytes body)); ("userActionHttpMethod", JString "POST");
    ("userActionHttpPath", JString (signatures_path self)); ("userActionServerKind", JString "Api")]) = Ok b.

Definition asserts (self : DfnsSigner) (challenge : UserActionInitResponse) (client_data sig b : list byte) : Prop :=
  client_data = as_bytes (value_text (JObject [("challenge", JString (ui_challenge challenge)); ("type", JString "key.get")])) /\
  value_to_vec (JObject [("challengeIdentifier", JString (ui_challenge_identifier challenge));
    ("firstFactor", JObject [("kind", JString "Key");
       ("credentialAssertion", JObject [("credId", JString (cred_id self));
          ("clientData", JString (base64_url_encode client_data)); ("signature", JString (base64_url_encode sig))])])]) = Ok b.

(** A signature by the configured key, whichever of the three kinds it is. *)
Definition credential_signs (self : DfnsSigner) (data sig : list byte) : Prop :=
  (exists key, dalek_from_pkcs8_pem (private_key_pem self) = Ok key /\ sig = arr_bytes (dalek_sign key data)) \/
  (exists key, (ecdsa_from_pkcs8_pem (private_key_pem self) = Ok key \/ ecdsa_from_sec1_pem (private_key_pem self) = Ok key) /\
     sig = ecdsa_sign_der key data) \/
  (exists key, rsa_from_pkcs8_pem (private_key_pem self) = Ok key /\ sig = rsa_sign_sha256 key data).

(** The answer that carries the signature, in two halves. *)
Definition signed_as (sg : Signature) (gen : GenerateSignatureResponse) : Prop :=
  gs_status gen = "Signed" /\ exists r s rb sb, gs_signature gen = Some (mkComponents r s) /\
    hex_decode (default r (strip_prefix "0x" r)) = Ok rb /\ hex_decode (default s (strip_prefix "0x" s)) = Ok sb /\
    arr_bytes sg = rb ++ sb.

Lemma sign_challenge_Ok self data sig : sign_challenge (private_key_pem self) data = Ok sig -> credential_signs self data sig.
Proof. unfold sign_challenge, credential_signs. intros HE. repeat case_match; simplify_eq; eauto 8. Qed.

Lemma accept_signature_Ok gen sg : accept_signature gen = Ok sg -> signed_as sg gen.
Proof.
  unfold accept_signature. case_bool_decide; [done|]. case_bool_decide as Hst; [done|].
  destruct gen as [status [[r s]|]]; [|done]. cbn [gs_signature ok_or res_bind sc_r sc_s]. unfold combine_signature.
  destruct (hex_decode (default r _)) as [rb|] eqn:Hr; [|done]. cbn [map_err res_bind].
  destruct (hex_decode (default s _)) as [sb|] eqn:Hs; [|done]. cbn [map_err res_bind]. intros Hsg%signature_from_bytes_Ok.
  split; [exact Hst|]. by exists r, s, rb, sb.
Qed.

(** Announcing a request and answering the challenge. *)
Definition authorises (self : DfnsSigner) (body : list byte) (w : World) (token : string) (w' : World) : Prop :=
  exists challenge b1 client_data sig b2,
    announces self body b1 /\ replied w (w_trace w) (announcement self b1) init_response_from_slice challenge /\
    cred_id self ∈ ui_allow_credentials challenge /\
    asserts self challenge client_data sig b2 /\ credential_signs self client_data sig /\
    replied w (w_trace w ++ [EvHttp (announcement self b1)]) (assertion self b2) user_action_from_slice token /\
    w' = push_event (EvHttp (assertion self b2)) (push_event (EvHttp (announcement self b1)) w).

Lemma sign_user_action_Ok self body w token w' :
  sign_user_action (api_base_url self) (auth_token self) (cred_id self) (private_key_pem self) "POST" (signatures_path self)
    (of_bytes body) w = (Returned (Ok token), w') -> authorises self body w token w'.
Proof.
  unfold sign_user_action. cbv zeta. intros (r1 & w1 & HS1 & HR)%bind_res_Ok.
  unfold http_send_json in HS1. destruct (value_to_vec (user_action_init_value _ _ _ _)) as [b1|] eqn:Hb1; [|done].
  apply bind_res_Ok in HR as (challenge & w2 & HS2 & HR). destruct (exchange_Ok _ _ _ _ _ _ _ _ _ HS1 HS2) as [-> Hr1].
  destruct (existsb _ _) eqn:Hallow; [|done]. cbn [negb] in HR.
  apply bind_res_Ok in HR as (sig & w3 & HS3 & HR). unfold ret in HS3. injection HS3 as Hsig <-.
  apply bind_res_Ok in HR as (r2 & w4 & HS4 & HR). unfold http_send_json in HS4.
  destruct (value_to_vec (user_action_sign_value _ _ _ _)) as [b2|] eqn:Hb2; [|done].
  destruct (exchange_Ok _ _ _ _ _ _ _ _ _ HS4 HR) as [-> Hr2].
  exists challenge, b1, (client_data_bytes (ui_challenge challenge)), sig, b2. split_and!; try done.
  - apply existsb_exists in Hallow as (c & Hin & ->%bool_decide_eq_true). by apply list_elem_of_In.
  - by apply sign_challenge_Ok.
Qed.

(** C29: a Dfns signature takes exactly three requests, in order, each built on
    the provider's answer to the one before.  The request is announced with its
    method, its path and the very bytes of its body; the provider's answer is a
    challenge, which must allow the configured credential; the challenge it poses
    is signed with the configured key and sent back under the identifier it came
    with; the provider answers with a token; and the request goes out with that
    body and that token.  The signature returned is the two halves of the
    provider's last answer, whose status is [Signed]. *)
Theorem dfns_signature_protocol (self : DfnsSigner) (request : GenerateSignatureRequest) (w w' : World)
    (sg : Signature) :
  send_signature_request self request w = (Returned (Ok sg), w') ->
  exists body challenge b1 client_data sig b2 token gen,
    let r1 := announcement self b1 in let r2 := assertion self b2 in let r3 := authorised self token body in
    w_trace w' = w_trace w ++ [EvHttp r1; EvHttp r2; EvHttp r3] /\
    value_to_vec (signature_request_value request) = Ok body /\
    announces self body b1 /\ replied w (w_trace w) r1 init_response_from_slice challenge /\
    cred_id self ∈ ui_allow_credentials challenge /\
    asserts self challenge client_data sig b2 /\ credential_signs self client_data sig /\
    replied w (w_trace w ++ [EvHttp r1]) r2 user_action_from_slice token /\
    replied w (w_trace w ++ [EvHttp r1; EvHttp r2]) r3 generated_from_slice gen /\ signed_as sg gen.
Proof.
  unfold send_signature_request. cbv zeta. intros (body & w1 & HS1 & HR)%bind_res_Ok.
  unfold ret in HS1. injection HS1 as Hbody <-.
  apply bind_res_Ok in HR as (token & w2 & HS2 & HR).
  apply sign_user_action_Ok in HS2 as (challenge & b1 & cd & sig & b2 & Hb1 & Hr1 & Hin & Has & Hsig & Hr2 & ->).
  apply bind_res_Ok in HR as (resp & w3 & HS3 & HR). apply bind_res_Ok in HR as (gen & w4 & HS4 & HR).
  destruct (exchange_Ok _ _ _ _ _ _ _ _ _ HS3 HS4) as [-> Hr3]. unfold ret in HR. injection HR as Hsg%accept_signature_Ok <-.
  exists body, challenge, b1, cd, sig, b2, token, gen. cbn [w_trace push_event] in *. rewrite <- !(assoc_L (++)) in *.
  split_and!; try done. by destruct (value_to_vec (signature_request_value request)); simplify_eq/=.
Qed.

End Dfns.

Module DfnsDemo.
Import Demo DemoJson DemoDalek DemoEcdsa DemoPem.

#[export] Instance demo_codec : DfnsCodec := {|
  dfns_wallet_from_slice := fun _ => Err "no wallet";
  generated_from_slice := fun _ => Ok (mkGenerated "Signed" (Some (mkComponents
    (hex_encode (replicate 32 x01)) ("0x" +:+ hex_encode (replicate 32 x02)))));
  init_response_from_slice := fun _ => Ok (mkInitResponse "challenge" "id" ["other"; "cred"]);
  user_action_from_slice := fun _ => Ok "token"
|}.

Definition demo_signer : DfnsSigner :=
  mkDfnsSigner "auth" "cred" "pem" "wallet" "key" (Some (array_repeat 32 x01)) "https://api"
    (client_builder (mkHttpClientConfig None None)).

Lemma dfns_signature_protocol_witness :
  exists sg w' body b1 b2 token, send_signature_request demo_signer (Message "0x00") (answering_world 200 []) =
      (Returned (Ok sg), w') /\
    w_trace w' = [EvHttp (announcement demo_signer b1); EvHttp (assertion demo_signer b2);
                  EvHttp (authorised demo_signer token body)] /\ token = "token".
Proof.
  destruct (send_signature_request demo_signer (Message "0x00") (answering_world 200 [])) as [r w'] eqn:E.
  assert (Hr : match r with Returned (Ok _) => True | _ => False end).
  { change r with (fst (r, w')). rewrite <- E. vm_compute. exact I. }
  destruct r as [[sg|e]| |why]; [|destruct Hr..].
  destruct (dfns_signature_protocol _ _ _ _ _ E) as
    (body & c & b1 & cd & sig & b2 & token & gen & Ht & _ & _ & _ & _ & _ & _ & (resp & b & _ & _ & _ & Hd) & _).
  exists sg, w', body, b1, b2, token. split; [reflexivity|]. split; [exact Ht|]. injection Hd as <-. reflexivity.
Defined.

End DfnsDemo.
