(* ===== verification/WalletJwt.v ===== *)
(** * Wallet-authentication tokens (src/rust/src/wallet_jwt.rs)

    The ES256 token that CDP and Openfort requests carry: it names the method,
    host and path of the request and holds a hash of its body. *)

From S2P Require Import Prelude Errors World Externals JsonOrder RemoteUtil.

#[local] Open Scope keychain_scope.

Record WalletClaims := mkWalletClaims {
  uris : list string;
  iat : Z;
  nbf : Z;
  exp : Z;
  jti : string;
  req_hash : option string
}.

Definition wallet_claims_value (c : WalletClaims) : Value :=
  JObject ([("uris", JArray (map JString (uris c))); ("iat", jint (iat c)); ("nbf", jint (nbf c));
            ("exp", jint (exp c)); ("jti", JString (jti c))] ++ opt_field "reqHash" (JString <$> req_hash c)).

Definition jwt_uri (host method path : string) : string := method +:+ " " +:+ host +:+ path.

Definition extract_host `{UrlParser} (base_url provider : string) : result string :=
  let? url := map_err (fun _ => ConfigError ("Invalid " +:+ provider +:+ " base URL: " +:+ base_url))
                (url_parse base_url) in
  let? host := ok_or (ConfigError ("Missing host in " +:+ provider +:+ " base URL: " +:+ base_url)) (url_host url) in
  Ok (match url_port url with
      | Some port => host +:+ ":" +:+ pretty port
      | None => host
      end).

(** A map has each key once; [sorted] gets its entries in key order. *)
Fixpoint sort_json (value : Value) : Value :=
  match value with
  | JObject map => JObject (sort_by_key (List.map (fun e => (e.1, sort_json e.2)) map))
  | JArray values => JArray (List.map sort_json values)
  | _ => value
  end.

Section WalletJwt.
Context `{Codecs} `{Json} `{Jwt}.

(** [serde_json::to_string] writes the bytes of [to_vec]. *)
Definition compute_req_hash (body : option Value) : result (option string) :=
  match body with
  | None => Ok None
  | Some JNull => Ok None
  | Some (JObject []) => Ok None
  | Some body =>
      let sorted := sort_json body in
      let? json := map_err (fun e => SerializationError ("Failed to serialize request body: " +:+ e))
                     (value_to_vec sorted) in
      Ok (Some (hex_encode (arr_bytes (sha256 json))))
  end.

Definition create_wallet_jwt (provider : string) (key : EncodingKey) (host method path : string)
    (request_body : option Value) (lifetime_secs : Z) : M (result string) :=
  let! now := utc_timestamp in
  let! jti := uuid_v4 in
  try req_hash := compute_req_hash request_body in
  let claims := mkWalletClaims [jwt_uri host method path] now now (now + lifetime_secs)%Z jti req_hash in
  ret (map_err (fun _ => SigningFailed ("Failed to create " +:+ provider +:+ " wallet JWT"))
         (jwt_encode "ES256" [("typ", JString "JWT")] (wallet_claims_value claims) key)).

(** ** What a token vouches for *)

(** [token] is a wallet token for this request, valid for [lifetime] seconds. *)
Definition wallet_token_for (key : EncodingKey) (host method path : string) (body : Value) (lifetime : Z)
    (token : string) : Prop :=
  exists now jti hash, compute_req_hash (Some body) = Ok hash /\
    jwt_encode "ES256" [("typ", JString "JWT")]
      (wallet_claims_value (mkWalletClaims [jwt_uri host method path] now now (now + lifetime)%Z jti hash)) key
    = Ok token.

Lemma create_wallet_jwt_silent provider key host method path body life Q :
  sends (create_wallet_jwt provider key host method path body life) Q.
Proof. unfold create_wallet_jwt. walk_sends. Qed.

Lemma create_wallet_jwt_returns provider key host method path body life :
  returns (create_wallet_jwt provider key host method path (Some body) life)
    (on_ok (wallet_token_for key host method path body life)).
Proof.
  unfold create_wallet_jwt. walk. destruct (jwt_encode _ _ _ _) as [token|] eqn:E; [|done].
  by eexists _, _, _.
Qed.

(** ** The body hash *)

Lemma sort_json_perm v1 v2 : json_perm v1 v2 -> sort_json v1 = sort_json v2.
Proof.
  induction 1 as [v|v1 v2 v3 _ IH1 _ IH2|l v v' r _ IH|l k v v' r _ IH|m1 m2 Hnd Hp].
  - done.
  - congruence.
  - cbn [sort_json]. by rewrite !map_app, !map_cons, IH.
  - cbn [sort_json]. rewrite !map_app, !map_cons. cbn [fst snd]. by rewrite IH.
  - cbn [sort_json]. f_equal. apply sort_by_key_perm; [by rewrite keys_map|by apply Permutation_map].
Qed.

(** What is hashed is decided by the sorted value alone. *)
Lemma compute_req_hash_sorted body :
  compute_req_hash (Some body) =
  match sort_json body with
  | JNull => Ok None
  | JObject [] => Ok None
  | sorted => let? json := map_err (fun e => SerializationError ("Failed to serialize request body: " +:+ e))
                             (value_to_vec sorted) in
              Ok (Some (hex_encode (arr_bytes (sha256 json))))
  end.
Proof.
  destruct body as [|b|n|s|l|[|e m]]; try done. cbn [compute_req_hash].
  destruct (sort_json (JObject (e :: m))) as [|b|n|s|l|[|e' m']] eqn:E; try done.
  exfalso. cbn [sort_json] in E. injection E as E. apply (f_equal length) in E.
  rewrite sort_by_key_length in E. done.
Qed.

(** The body hash of a wallet token does not depend on the order in
    which the entries of the body's objects come, at any depth; and a body other
    than [null] and the empty object always has one. *)
Theorem compute_req_hash_order_independent (v1 v2 : Value) :
  json_perm v1 v2 ->
  compute_req_hash (Some v1) = compute_req_hash (Some v2) /\
  (v1 ≠ JNull -> v1 ≠ JObject [] -> compute_req_hash (Some v1) ≠ Ok None).
Proof.
  intros Hp. split; [by rewrite !compute_req_hash_sorted, (sort_json_perm _ _ Hp)|].
  intros Hn He. destruct v1 as [|b|n|s|l|[|e m]]; try done; cbn [compute_req_hash];
    destruct (value_to_vec _); done.
Qed.

End WalletJwt.

Module WalletJwtDemo.
Import Demo DemoJson.

Lemma compute_req_hash_order_independent_witness :
  let v1 := JObject [("transaction", JString "t"); ("network", JString "n")] in
  let v2 := JObject [("network", JString "n"); ("transaction", JString "t")] in
  compute_req_hash (Some v1) = compute_req_hash (Some v2) /\ v1 ≠ v2.
Proof.
  intros v1 v2. split; [|discriminate].
  refine (proj1 (compute_req_hash_order_independent v1 v2 _)). apply jp_swap.
  - apply (bool_decide_unpack _). vm_compute. exact I.
  - apply Permutation_swap.
Defined.

End WalletJwtDemo.
