(* ===== verification/Responses.v ===== *)
(** * The responses of the providers

    The [Deserialize] types of every backend (the types.rs files), as struct
    declarations, and with them the deserialisers the backends are parameterised
    by.  A field no code reads is still required to be there and of its type. *)

From S2P Require Import Prelude Errors World Externals Serde TransactionUtil SignatureUtil RemoteUtil Traits.
From S2P Require Import Privy Turnkey Fireblocks Cdp Dfns Openfort Para Crossmint Utila Fordefi.

(** ** cdp/types.rs, openfort/types.rs *)

Definition cdp_sign_transaction_response : Struct string :=
  mkStruct "SignTransactionResponse" ["signedTransaction"]
    (field signed_transaction := required de_string; finish signed_transaction).

Definition cdp_sign_message_response : Struct string :=
  mkStruct "SignMessageResponse" ["signature"] (field signature := required de_string; finish signature).

Definition openfort_sign_response : Struct string :=
  mkStruct "SignResponse" ["object"; "account"; "signature"]
    (field _object := required de_string; field _account := required de_string;
     field signature := required de_string; finish signature).

Definition openfort_account_info : Struct string :=
  mkStruct "AccountInfo" ["address"] (field address := required de_string; finish address).

(** ** privy/types.rs *)

Definition privy_sign_message_data : Struct string :=
  mkStruct "SignMessageData" ["signature"; "encoding"]
    (field signature := required de_string; field _encoding := required de_string; finish signature).

Definition privy_sign_message_response : Struct string :=
  mkStruct "SignMessageResponse" ["method"; "data"]
    (field _method := required de_string; field data := required (decode privy_sign_message_data); finish data).

Definition privy_sign_transaction_data : Struct string :=
  mkStruct "SignTransactionData" ["signed_transaction"; "encoding"]
    (field signed_transaction := required de_string; field _encoding := required de_string; finish signed_transaction).

Definition privy_sign_transaction_response : Struct string :=
  mkStruct "SignTransactionResponse" ["method"; "data"]
    (field _method := required de_string; field data := required (decode privy_sign_transaction_data); finish data).

Definition privy_additional_signer : Struct unit :=
  mkStruct "AdditionalSigner" ["signer_id"; "override_policy_ids"]
    (field _signer_id := required de_string; field _ids := optional (de_vec de_string); finish tt).

Definition privy_wallet_response : Struct string :=
  mkStruct "WalletResponse"
    ["id"; "address"; "chain_type"; "wallet_client_type"; "connector_type"; "imported"; "delegated"; "hd_path";
     "public_key"; "owner_id"; "policy_ids"; "additional_signers"; "exported_at"; "created_at"]
    (field _id := required de_string; field address := required de_string; field _chain_type := required de_string;
     field _client := optional de_string; field _connector := optional de_string; field _imported := optional de_bool;
     field _delegated := optional de_bool; field _hd_path := optional de_string; field _key := optional de_string;
     field _owner := optional de_string; field _policies := optional (de_vec de_string);
     field _signers := optional (de_vec (decode privy_additional_signer));
     field _exported_at := optional de_i64; field _created_at := optional de_i64; finish address).

(** ** utila/types.rs *)

Definition utila_state (name : string) : option TransactionState :=
  Some (match assoc_get
          [("AWAITING_APPROVAL", AwaitingApproval); ("AWAITING_AML_POLICY_CHECK", AwaitingAmlPolicyCheck);
           ("DECLINED_BY_AML_POLICY", DeclinedByAmlPolicy); ("AWAITING_POLICY_CHECK", AwaitingPolicyCheck);
           ("AWAITING_SIGNATURE", AwaitingSignature); ("SIGNED", Signed); ("AWAITING_PUBLISH", AwaitingPublish);
           ("PUBLISHED", Published); ("MINED", Mined); ("MINED_FAILED", MinedFailed); ("FAILED", Failed);
           ("DECLINED", Declined); ("REPLACED", Replaced); ("CANCELED", Canceled); ("DROPPED", StateDropped);
           ("CONFIRMED", Confirmed); ("EXPIRED", Expired); ("UNKNOWN", Unknown)] name with
        | Some s => s
        | None => Unknown
        end).

Definition utila_solana_details : Struct string :=
  mkStruct "SolanaDetails" ["address"] (field address := required de_string; finish address).

Definition utila_wallet : Struct (option string) :=
  mkStruct "Wallet" ["solanaDetails"] (field details := optional (decode utila_solana_details); finish details).

Definition utila_wallet_response : Struct (option string) :=
  mkStruct "WalletResponse" ["wallet"] (field wallet := required (decode utila_wallet); finish wallet).

Definition utila_solana_transaction : Struct (option string) :=
  mkStruct "UtilaSolanaTransaction" ["rawTransaction"] (field raw := optional de_string; finish raw).

Definition utila_transaction : Struct UtilaTransaction :=
  mkStruct "UtilaTransaction" ["name"; "state"; "solanaTransaction"]
    (field name := required de_string; field state := required (de_variant utila_state);
     field solana_transaction := optional (decode utila_solana_transaction);
     finish (mkUtilaTransaction name state solana_transaction)).

Definition utila_transaction_envelope : Struct UtilaTransaction :=
  mkStruct "TransactionEnvelope" ["transaction"]
    (field transaction := required (decode utila_transaction); finish transaction).

(** ** turnkey/types.rs *)

Definition turnkey_sign_transaction_result : Struct string :=
  mkStruct "SignTransactionResult" ["signedTransaction"]
    (field signed_transaction := required de_string; finish signed_transaction).

Definition turnkey_sign_result : Struct SignResult :=
  mkStruct "SignResult" ["r"; "s"]
    (field r := required de_string; field s := required de_string; finish (mkSignResult r s)).

Definition turnkey_activity_result : Struct ActivityResult :=
  mkStruct "ActivityResult" ["signRawPayloadResult"; "signTransactionResult"]
    (field raw := optional (decode turnkey_sign_result);
     field tx := optional (decode turnkey_sign_transaction_result); finish (mkActivityResult raw tx)).

Definition turnkey_activity : Struct Activity :=
  mkStruct "Activity" ["status"; "result"]
    (field status := optional de_string; field res := optional (decode turnkey_activity_result);
     finish (mkActivity status res)).

Definition turnkey_activity_response : Struct Activity :=
  mkStruct "ActivityResponse" ["activity"] (field activity := required (decode turnkey_activity); finish activity).

Definition turnkey_address : Struct PrivateKeyAddress :=
  mkStruct "PrivateKeyAddress" ["format"; "address"]
    (field format := optional de_string; field address := optional de_string;
     finish (mkPrivateKeyAddress format address)).

Definition turnkey_private_key_info : Struct PrivateKeyInfo :=
  mkStruct "PrivateKeyInfo" ["publicKey"; "addresses"]
    (field public_key := optional de_string; field addresses := defaulted [] (de_vec (decode turnkey_address));
     finish (mkPrivateKeyInfo public_key addresses)).

Definition turnkey_private_key_response : Struct PrivateKeyInfo :=
  mkStruct "GetPrivateKeyResponse" ["privateKey"]
    (field private_key := required (decode turnkey_private_key_info); finish private_key).

(** ** para/types.rs *)

Definition para_wallet_response : Struct Para.WalletResponse :=
  mkStruct "WalletResponse" ["id"; "address"; "type"; "status"]
    (field _id := required de_string; field address := optional de_string; field wallet_type := required de_string;
     field status := required de_string; finish (mkWalletResponse address wallet_type status)).

Definition para_sign_raw_response : Struct (option string) :=
  mkStruct "SignRawResponse" ["signature"] (field signature := optional de_string; finish signature).

(** ** dfns/types.rs *)

Definition dfns_signing_key : Struct SigningKeyInfo :=
  mkStruct "SigningKey" ["id"; "scheme"; "curve"; "publicKey"]
    (field id := required de_string; field scheme := required de_string; field curve := required de_string;
     field public_key := required de_string; finish (Dfns.mkSigningKey id scheme curve public_key)).

Definition dfns_get_wallet_response : Struct GetWalletResponse :=
  mkStruct "GetWalletResponse" ["id"; "status"; "signingKey"]
    (field _id := required de_string; field status := required de_string;
     field signing_key := required (decode dfns_signing_key); finish (Dfns.mkWallet status signing_key)).

Definition dfns_signature_components : Struct SignatureComponents :=
  mkStruct "SignatureComponents" ["r"; "s"]
    (field r := required de_string; field s := required de_string; finish (mkComponents r s)).

Definition dfns_generate_signature_response : Struct GenerateSignatureResponse :=
  mkStruct "GenerateSignatureResponse" ["id"; "status"; "signature"; "signedData"]
    (field _id := required de_string; field status := required de_string;
     field signature := optional (decode dfns_signature_components); field _signed_data := optional de_string;
     finish (mkGenerated status signature)).

Definition dfns_allow_credential : Struct string :=
  mkStruct "AllowCredential" ["id"] (field id := required de_string; finish id).

Definition dfns_allow_credentials : Struct (list string) :=
  mkStruct "AllowCredentials" ["key"] (field key := required (de_vec (decode dfns_allow_credential)); finish key).

Definition dfns_user_action_init_response : Struct UserActionInitResponse :=
  mkStruct "UserActionInitResponse" ["challenge"; "challengeIdentifier"; "allowCredentials"]
    (field challenge := required de_string; field challenge_identifier := required de_string;
     field allow_credentials := required (decode dfns_allow_credentials);
     finish (mkInitResponse challenge challenge_identifier allow_credentials)).

Definition dfns_user_action_response : Struct string :=
  mkStruct "UserActionResponse" ["userAction"] (field user_action := required de_string; finish user_action).

(** ** fireblocks/types.rs *)

Definition fireblocks_create_response : Struct Fireblocks.CreateTransactionResponse :=
  mkStruct "CreateTransactionResponse" ["id"; "status"]
    (field id := required de_string; field status := required de_string; finish (mkCreateResponse id status)).

Definition fireblocks_signature_data : Struct string :=
  mkStruct "SignatureData" ["fullSig"] (field full_sig := required de_string; finish full_sig).

Definition fireblocks_signed_message : Struct string :=
  mkStruct "SignedMessage" ["signature"]
    (field signature := required (decode fireblocks_signature_data); finish signature).

Definition fireblocks_transaction_response : Struct Fireblocks.TransactionResponse :=
  mkStruct "TransactionResponse" ["id"; "status"; "subStatus"; "signedMessages"; "txHash"]
    (field id := required de_string; field status := required de_string;
     field sub_status := defaulted None (nullable de_string);
     field signed_messages := defaulted [] (de_vec (decode fireblocks_signed_message));
     field tx_hash := defaulted None (nullable de_string);
     finish (Fireblocks.mkTransactionResponse id status sub_status signed_messages tx_hash)).

Definition fireblocks_vault_address : Struct VaultAddress :=
  mkStruct "VaultAddress" ["address"; "assetId"]
    (field address := required de_string; field asset_id := optional de_string; finish (mkVaultAddress address asset_id)).

Definition fireblocks_vault_addresses_response : Struct (list VaultAddress) :=
  mkStruct "VaultAddressesResponse" ["addresses"]
    (field addresses := required (de_vec (decode fireblocks_vault_address)); finish addresses).

(** ** crossmint/types.rs *)

Definition crossmint_wallet_response : Struct Crossmint.WalletResponse :=
  mkStruct "WalletResponse" ["chainType"; "type"; "address"]
    (field chain_type := required de_string; field wallet_type := required de_string;
     field address := required de_string; finish (Crossmint.mkWallet chain_type wallet_type address)).

Definition crossmint_on_chain_data : Struct OnChainData :=
  mkStruct "OnChainData" ["transaction"; "txId"]
    (field transaction := defaulted None (nullable de_string); field tx_id := defaulted None (nullable de_string);
     finish (mkOnChain transaction tx_id)).

Definition crossmint_approval_signer : Struct (option string) :=
  mkStruct "ApprovalSigner" ["locator"] (field locator := defaulted None (nullable de_string); finish locator).

Definition crossmint_pending_approval : Struct PendingApproval :=
  mkStruct "PendingApproval" ["message"; "signer"]
    (field message := defaulted None (nullable de_string);
     field signer := defaulted None (nullable (decode crossmint_approval_signer));
     finish (mkApproval message signer)).

Definition crossmint_approvals : Struct (list PendingApproval) :=
  mkStruct "Approvals" ["pending"]
    (field pending := defaulted [] (de_vec (decode crossmint_pending_approval)); finish pending).

Definition crossmint_transaction_response : Struct Crossmint.TransactionResponse :=
  mkStruct "TransactionResponse" ["id"; "status"; "onChain"; "approvals"; "error"]
    (field id := required de_string; field status := required de_string;
     field on_chain := defaulted None (nullable (decode crossmint_on_chain_data));
     field approvals := defaulted None (nullable (decode crossmint_approvals));
     field error := defaulted None (nullable de_value);
     finish (Crossmint.mkTransactionResponse id status on_chain approvals error)).

(** ** fordefi/types.rs *)

Definition fordefi_create_response : Struct string :=
  mkStruct "CreateTransactionResponse" ["id"] (field id := required de_string; finish id).

Definition fordefi_signature_entry : Struct string :=
  mkStruct "FordefiSignatureEntry" ["data"] (field data := required de_string; finish data).

Definition fordefi_status_response : Struct TransactionStatusResponse :=
  mkStruct "TransactionStatusResponse" ["state"; "signatures"; "raw_transaction"]
    (field state := required de_string; field signatures := optional (de_vec (decode fordefi_signature_entry));
     field raw_transaction := optional de_string; finish (mkStatus state signatures raw_transaction)).

Definition fordefi_vault_response : Struct VaultResponse :=
  mkStruct "VaultResponse" ["id"; "address"; "public_key_compressed"]
    (field _id := required de_string; field address := optional de_string;
     field public_key_compressed := optional de_string; finish (mkVault address public_key_compressed)).

(** ** The deserialisers of the backends *)

Section Codecs.
Context `{Documents} `{Json}.

#[export] Instance cdp_codec : CdpCodec := {|
  Cdp.sign_transaction_response_from_slice := from_slice cdp_sign_transaction_response;
  Cdp.sign_message_response_from_slice := from_slice cdp_sign_message_response |}.

#[export] Instance openfort_codec : OpenfortCodec := {|
  sign_response_from_slice := from_slice openfort_sign_response;
  account_info_from_slice := from_slice openfort_account_info |}.

#[export] Instance privy_codec : PrivyCodec := {|
  privy_wallet_from_slice := from_slice privy_wallet_response;
  sign_message_response_from_str s := from_slice privy_sign_message_response (as_bytes s);
  sign_transaction_response_from_str s := from_slice privy_sign_transaction_response (as_bytes s) |}.

#[export] Instance utila_codec : UtilaCodec := {|
  utila_wallet_from_slice := from_slice utila_wallet_response;
  utila_envelope_from_slice := from_slice utila_transaction_envelope |}.

#[export] Instance turnkey_codec : TurnkeyCodec := {|
  activity_from_slice := from_slice turnkey_activity_response;
  private_key_from_slice := from_slice turnkey_private_key_response |}.

#[export] Instance para_codec : ParaCodec := {|
  para_wallet_from_slice := from_slice para_wallet_response;
  sign_raw_response_from_slice := from_slice para_sign_raw_response |}.

#[export] Instance dfns_codec : DfnsCodec := {|
  dfns_wallet_from_slice := from_slice dfns_get_wallet_response;
  generated_from_slice := from_slice dfns_generate_signature_response;
  init_response_from_slice := from_slice dfns_user_action_init_response;
  user_action_from_slice := from_slice dfns_user_action_response |}.

#[export] Instance fireblocks_codec : FireblocksCodec := {|
  Fireblocks.create_response_from_slice := from_slice fireblocks_create_response;
  transaction_response_from_slice := from_slice fireblocks_transaction_response;
  vault_addresses_from_slice := from_slice fireblocks_vault_addresses_response |}.

#[export] Instance crossmint_codec : CrossmintCodec := {|
  wallet_from_value := from_value crossmint_wallet_response;
  transaction_from_value := from_value crossmint_transaction_response |}.

#[export] Instance fordefi_codec : FordefiCodec := {|
  Fordefi.create_response_from_slice := from_slice fordefi_create_response;
  status_from_slice := from_slice fordefi_status_response;
  vault_from_slice := from_slice fordefi_vault_response |}.

End Codecs.

(** ** What the decoders accept *)

(** Crossmint's responses are read from a [serde_json::Value], all others from the
    text. *)
Inductive source := OfText | OfValue.

(** A response type, its smallest document, of the members it cannot do without,
    and what is read from which member: the part of the code's value that every
    member of an object becomes. *)
Record Response := mkResponse {
  rt_source : source;
  rt_type : Type;
  rt_struct : Struct rt_type;
  rt_smallest : list (string * Value);
  rt_reads : list (string * Value) -> rt_type -> Prop
}.
Arguments mkResponse _ {_} _ _ _.

(** Members that are checked and not kept: one that must be a string, and one that
    may be missing or null and must otherwise be of its type. *)
Definition some_text (m : list (string * Value)) (k : string) : Prop := exists s, text m k s.
Definition may_be {A} (m : list (string * Value)) (k : string) (P : Value -> A -> Prop) : Prop := exists o, maybe m k P o.

(** A state by its name, written as a string or as an object of that name. *)
Definition is_state (v : Value) (st : TransactionState) : Prop :=
  exists name, (v = JString name \/ v = JObject [(name, JNull)]) /\ utila_state name = Some st.

#[local] Notation x := (JString "x").

(** Every type a response body is read as, and the types inside them. *)
Definition responses : list Response :=
  [ mkResponse OfText cdp_sign_transaction_response [("signedTransaction", x)]
      (fun m a => text m "signedTransaction" a);
    mkResponse OfText cdp_sign_message_response [("signature", x)]
      (fun m a => text m "signature" a);
    mkResponse OfText openfort_sign_response [("object", x); ("account", x); ("signature", x)]
      (fun m a => some_text m "object" /\ some_text m "account" /\ text m "signature" a);
    mkResponse OfText openfort_account_info [("address", x)]
      (fun m a => text m "address" a);
    mkResponse OfText privy_sign_message_data [("signature", x); ("encoding", x)]
      (fun m a => text m "signature" a /\ some_text m "encoding");
    mkResponse OfText privy_sign_message_response [("method", x); ("data", JObject [("signature", x); ("encoding", x)])]
      (fun m a => some_text m "method" /\ inside m "data" (by_struct privy_sign_message_data) a);
    mkResponse OfText privy_sign_transaction_data [("signed_transaction", x); ("encoding", x)]
      (fun m a => text m "signed_transaction" a /\ some_text m "encoding");
    mkResponse OfText privy_sign_transaction_response [("method", x); ("data", JObject [("signed_transaction", x); ("encoding", x)])]
      (fun m a => some_text m "method" /\ inside m "data" (by_struct privy_sign_transaction_data) a);
    mkResponse OfText privy_additional_signer [("signer_id", x)]
      (fun m _ => some_text m "signer_id" /\ may_be m "override_policy_ids" (each is_text));
    mkResponse OfText privy_wallet_response [("id", x); ("address", x); ("chain_type", x)]
      (fun m a => some_text m "id" /\ text m "address" a /\ some_text m "chain_type" /\
       may_be m "wallet_client_type" is_text /\ may_be m "connector_type" is_text /\ may_be m "imported" is_bool /\
       may_be m "delegated" is_bool /\ may_be m "hd_path" is_text /\ may_be m "public_key" is_text /\
       may_be m "owner_id" is_text /\ may_be m "policy_ids" (each is_text) /\
       may_be m "additional_signers" (each (by_struct privy_additional_signer)) /\
       may_be m "exported_at" is_i64 /\ may_be m "created_at" is_i64);
    mkResponse OfText utila_solana_details [("address", x)]
      (fun m a => text m "address" a);
    mkResponse OfText utila_wallet []
      (fun m a => maybe m "solanaDetails" (by_struct utila_solana_details) a);
    mkResponse OfText utila_wallet_response [("wallet", JObject [])]
      (fun m a => inside m "wallet" (by_struct utila_wallet) a);
    mkResponse OfText utila_solana_transaction []
      (fun m a => maybe m "rawTransaction" is_text a);
    mkResponse OfText utila_transaction [("name", x); ("state", x)]
      (fun m a => text m "name" (ut_name a) /\ inside m "state" is_state (ut_state a) /\
       maybe m "solanaTransaction" (by_struct utila_solana_transaction) (ut_solana_transaction a));
    mkResponse OfText utila_transaction_envelope [("transaction", JObject [("name", x); ("state", x)])]
      (fun m a => inside m "transaction" (by_struct utila_transaction) a);
    mkResponse OfText turnkey_sign_transaction_result [("signedTransaction", x)]
      (fun m a => text m "signedTransaction" a);
    mkResponse OfText turnkey_sign_result [("r", x); ("s", x)]
      (fun m a => text m "r" (sr_r a) /\ text m "s" (sr_s a));
    mkResponse OfText turnkey_activity_result []
      (fun m a => maybe m "signRawPayloadResult" (by_struct turnkey_sign_result) (sign_raw_payload_result a) /\
       maybe m "signTransactionResult" (by_struct turnkey_sign_transaction_result) (sign_transaction_result a));
    mkResponse OfText turnkey_activity []
      (fun m a => maybe m "status" is_text (act_status a) /\
       maybe m "result" (by_struct turnkey_activity_result) (act_result a));
    mkResponse OfText turnkey_activity_response [("activity", JObject [])]
      (fun m a => inside m "activity" (by_struct turnkey_activity) a);
    mkResponse OfText turnkey_address []
      (fun m a => maybe m "format" is_text (pka_format a) /\ maybe m "address" is_text (pka_address a));
    mkResponse OfText turnkey_private_key_info []
      (fun m a => maybe m "publicKey" is_text (pki_public_key a) /\
       listed m "addresses" (by_struct turnkey_address) (pki_addresses a));
    mkResponse OfText turnkey_private_key_response [("privateKey", JObject [])]
      (fun m a => inside m "privateKey" (by_struct turnkey_private_key_info) a);
    mkResponse OfText para_wallet_response [("id", x); ("type", x); ("status", x)]
      (fun m a => some_text m "id" /\ maybe m "address" is_text (wr_address a) /\
       text m "type" (wr_wallet_type a) /\ text m "status" (wr_status a));
    mkResponse OfText para_sign_raw_response []
      (fun m a => maybe m "signature" is_text a);
    mkResponse OfText dfns_signing_key [("id", x); ("scheme", x); ("curve", x); ("publicKey", x)]
      (fun m a => text m "id" (sk_id a) /\ text m "scheme" (sk_scheme a) /\
       text m "curve" (sk_curve a) /\ text m "publicKey" (sk_public_key a));
    mkResponse OfText dfns_get_wallet_response [("id", x); ("status", x); ("signingKey", JObject [("id", x); ("scheme", x); ("curve", x); ("publicKey", x)])]
      (fun m a => some_text m "id" /\ text m "status" (gw_status a) /\
       inside m "signingKey" (by_struct dfns_signing_key) (gw_signing_key a));
    mkResponse OfText dfns_signature_components [("r", x); ("s", x)]
      (fun m a => text m "r" (sc_r a) /\ text m "s" (sc_s a));
    mkResponse OfText dfns_generate_signature_response [("id", x); ("status", x)]
      (fun m a => some_text m "id" /\ text m "status" (gs_status a) /\
       maybe m "signature" (by_struct dfns_signature_components) (gs_signature a) /\ may_be m "signedData" is_text);
    mkResponse OfText dfns_allow_credential [("id", x)]
      (fun m a => text m "id" a);
    mkResponse OfText dfns_allow_credentials [("key", JArray [])]
      (fun m a => inside m "key" (each (by_struct dfns_allow_credential)) a);
    mkResponse OfText dfns_user_action_init_response [("challenge", x); ("challengeIdentifier", x); ("allowCredentials", JObject [("key", JArray [])])]
      (fun m a => text m "challenge" (ui_challenge a) /\
       text m "challengeIdentifier" (ui_challenge_identifier a) /\
       inside m "allowCredentials" (by_struct dfns_allow_credentials) (ui_allow_credentials a));
    mkResponse OfText dfns_user_action_response [("userAction", x)]
      (fun m a => text m "userAction" a);
    mkResponse OfText fireblocks_create_response [("id", x); ("status", x)]
      (fun m a => text m "id" (created_id a) /\ text m "status" (created_status a));
    mkResponse OfText fireblocks_signature_data [("fullSig", x)]
      (fun m a => text m "fullSig" a);
    mkResponse OfText fireblocks_signed_message [("signature", JObject [("fullSig", x)])]
      (fun m a => inside m "signature" (by_struct fireblocks_signature_data) a);
    mkResponse OfText fireblocks_transaction_response [("id", x); ("status", x)]
      (fun m a => text m "id" (Fireblocks.tr_id a) /\ text m "status" (Fireblocks.tr_status a) /\
       maybe m "subStatus" is_text (tr_sub_status a) /\
       listed m "signedMessages" (by_struct fireblocks_signed_message) (tr_signed_messages a) /\
       maybe m "txHash" is_text (tr_tx_hash a));
    mkResponse OfText fireblocks_vault_address [("address", x)]
      (fun m a => text m "address" (Fireblocks.address a) /\ maybe m "assetId" is_text (asset_id_of a));
    mkResponse OfText fireblocks_vault_addresses_response [("addresses", JArray [])]
      (fun m a => inside m "addresses" (each (by_struct fireblocks_vault_address)) a);
    mkResponse OfValue crossmint_wallet_response [("chainType", x); ("type", x); ("address", x)]
      (fun m a => text m "chainType" (chain_type a) /\ text m "type" (wallet_type a) /\
       text m "address" (wallet_address a));
    mkResponse OfValue crossmint_on_chain_data []
      (fun m a => maybe m "transaction" is_text (oc_transaction a) /\ maybe m "txId" is_text (oc_tx_id a));
    mkResponse OfValue crossmint_approval_signer []
      (fun m a => maybe m "locator" is_text a);
    mkResponse OfValue crossmint_pending_approval []
      (fun m a => maybe m "message" is_text (pa_message a) /\
       maybe m "signer" (by_struct crossmint_approval_signer) (pa_signer a));
    mkResponse OfValue crossmint_approvals []
      (fun m a => listed m "pending" (by_struct crossmint_pending_approval) a);
    mkResponse OfValue crossmint_transaction_response [("id", x); ("status", x)]
      (fun m a => text m "id" (Crossmint.tr_id a) /\ text m "status" (Crossmint.tr_status a) /\
       maybe m "onChain" (by_struct crossmint_on_chain_data) (tr_on_chain a) /\
       maybe m "approvals" (by_struct crossmint_approvals) (tr_approvals a) /\
       maybe m "error" is_itself (tr_error a));
    mkResponse OfText fordefi_create_response [("id", x)]
      (fun m a => text m "id" a);
    mkResponse OfText fordefi_signature_entry [("data", x)]
      (fun m a => text m "data" a);
    mkResponse OfText fordefi_status_response [("state", x)]
      (fun m a => text m "state" (st_state a) /\
       maybe m "signatures" (each (by_struct fordefi_signature_entry)) (st_signatures a) /\
       maybe m "raw_transaction" is_text (st_raw_transaction a));
    mkResponse OfText fordefi_vault_response [("id", x)]
      (fun m a => some_text m "id" /\ maybe m "address" is_text (vault_address a) /\
       maybe m "public_key_compressed" is_text (vault_public_key_compressed a)) ].

(** What a provider may do to a response without breaking it, and what it may not. *)
Record contract (r : Response) : Prop := {
  (** An object is accepted exactly if no known member is given twice and the
      members are as declared; the value is what they say. *)
  ct_reads : forall m a, decode (rt_struct r) (JObject m) = Some a <-> given_once (fields (rt_struct r)) m /\ rt_reads r m a;
  (** Members it does not know, and the order of members, are ignored. *)
  ct_tolerant : forall m m', known (fields (rt_struct r)) m ≡ₚ known (fields (rt_struct r)) m' ->
    decode (rt_struct r) (JObject m) = decode (rt_struct r) (JObject m');
  (** Where the text is read, a known member given twice is refused; where a value
      is, the last one counts. *)
  ct_repeated : match rt_source r with
    | OfText => forall m k, k ∈ fields (rt_struct r) -> 1 < count_key k m -> decode (rt_struct r) (JObject m) = None
    | OfValue => forall m k v, decode (rt_struct r) (merged (JObject (m ++ [(k, v)]))) =
                               decode (rt_struct r) (merged (JObject (filter (fun e => e.1 ≠ k) m ++ [(k, v)])))
    end;
  (** A needed member cannot be left out ... *)
  ct_complete : forall m k, k ∈ map fst (rt_smallest r) -> count_key k m = 0 -> decode (rt_struct r) (JObject m) = None;
  (** ... and nothing else is needed. *)
  ct_minimal : exists a, decode (rt_struct r) (JObject (rt_smallest r)) = Some a
}.

#[local] Instance reads_state : Reads (de_variant utila_state) is_state.
Proof.
  intros v st. unfold is_state. split.
  - destruct v as [| | |s| |[|[k []] []]]; cbn; try done; intros Hs; eauto.
  - intros (name & [-> | ->] & Hs); done.
Qed.

(** Turn what the decoders of the fields say into what the members are, and back. *)
Ltac read_field H :=
  first [ apply required_text in H
        | apply (defaulted_nil_reads _ _) in H
        | apply (defaulted_none_reads _ _) in H
        | apply (required_reads _ _) in H
        | apply (optional_reads _ _) in H ].
Ltac write_field :=
  first [ apply required_text; eassumption
        | apply (defaulted_nil_reads _ _); eassumption
        | apply (defaulted_none_reads _ _); eassumption
        | apply (required_reads _ _); eassumption
        | apply (optional_reads _ _); eassumption ].

Ltac open_struct := match goal with |- context [Serde.build ?d _] => unfold d end; cbn [Serde.build fields map].
Ltac destruct_exists := repeat match goal with H : exists _, text _ _ _ |- _ => destruct H | H : exists _, maybe _ _ _ _ |- _ => destruct H end.
Ltac write_all a :=
  repeat (rewrite next_Some; eexists; split; [write_field|cbv beta]); apply finish_Some; first [reflexivity | by destruct a].

Ltac read_all Hb :=
  repeat (let H := fresh "Hf" in let Hr := fresh "Hr" in apply next_Some in Hb as (? & H & Hr); read_field H; cbv beta in Hr; rename Hr into Hb);
  apply finish_Some in Hb as ->.

(** Walk to the field that is missing. *)
Ltac missing := intros ? Hl; cbn [Serde.build];
  repeat first [exact (next_here _ _ _ Hl) | refine (next_there _ _ _ _ _ Hl); clear Hl; intros ? ? Hl].

Ltac lacks m Hc :=
  first [ eapply (decode_missing _ m 0); [reflexivity|exact Hc|solve [missing]]
        | eapply (decode_missing _ m 1); [reflexivity|exact Hc|solve [missing]]
        | eapply (decode_missing _ m 2); [reflexivity|exact Hc|solve [missing]]
        | eapply (decode_missing _ m 3); [reflexivity|exact Hc|solve [missing]] ].

(** C39: every response type of every backend reads what its provider documents
    and nothing else.  The value handed on is made of the members named here, each
    part from its own: [r] from "r" and not from "s", the signature from
    "signature" and not from "account", a missing or null optional member as
    [None].  Members the crate does not know and the order of members are ignored,
    so a provider may add fields.  A known member given twice is refused, so two
    parsers cannot disagree about it, except for Crossmint, whose responses are
    first parsed into a map in which the last one counts.  The members of the
    smallest document, no others, must be there. *)
Theorem responses_contract : Forall contract responses.
Proof.
  unfold responses. repeat (apply Forall_cons; split); [..|apply Forall_nil; exact I].
  all: split; cbn [rt_struct rt_smallest rt_source rt_reads map fst];
    [ intros m a; rewrite decode_object; apply and_iff_compat_l; open_struct; split;
      [ intros Hb; read_all Hb; unfold some_text, may_be; cbn; eauto 30
      | unfold some_text, may_be; intros; destruct_and?; destruct_exists; write_all a ]
    | intros m m'; apply decode_known
    | first [intros m k v; by rewrite merged_again | intros m k; apply decode_duplicate]
    | intros m k Hk Hc; repeat (apply elem_of_cons in Hk as [->|Hk]; [lacks m Hc|]); by apply not_elem_of_nil in Hk
    | eexists; vm_compute; reflexivity ].
Qed.

(** ** Utila states *)

Definition failure_names : list string :=
  ["DECLINED_BY_AML_POLICY"; "MINED_FAILED"; "FAILED"; "DECLINED"; "REPLACED"; "CANCELED"; "DROPPED"; "EXPIRED"].

Lemma utila_state_cases name :
  exists st, utila_state name = Some st /\ (st = Signed <-> name = "SIGNED") /\
    (is_terminal_failure st = true <-> name ∈ failure_names).
Proof.
  eexists. split; [reflexivity|]. cbn [assoc_get]. unfold failure_names. rewrite !elem_of_cons, elem_of_nil.
  repeat (case_bool_decide; [subst name; cbn [is_terminal_failure]; split; (split; intros Hx; destruct_or? Hx;
    first [done | congruence | repeat first [left; reflexivity | right]])|]).
  cbn [is_terminal_failure]. split; (split; intros Hx; destruct_or? Hx; first [done | congruence]).
Qed.

Section UtilaStates.
Context `{Codecs} `{SolanaSdk} `{Json} `{ClientBuild} `{UrlParser} `{Jwt} `{UtilaCodec}.

(** A Utila state is final only by its exact name.  Polling ends with
    success on SIGNED alone and with failure on the eight failure names alone; a
    state of any other name, also one the crate has never heard of, is polled
    again. *)
Theorem utila_state_polls (self : UtilaSigner) (id name : string) (n : nat) (t : UtilaTransaction) (w : World) :
  utila_state name = Some (ut_state t) ->
  Utila.poll_loop self id (S n) 0 t w =
    (if bool_decide (name = "SIGNED") then ret (Ok t)
     else if bool_decide (name ∈ failure_names) then
       ret (Err (SigningFailed ("Utila transaction reached terminal state " +:+ state_debug (ut_state t))))
     else Utila.poll_loop self id n 1 t) w.
Proof.
  intros Hst. destruct (utila_state_cases name) as (st & Hst' & HS & HF). rewrite Hst in Hst'. injection Hst' as <-.
  cbn [Utila.poll_loop Nat.ltb Nat.leb]. unfold bind_res, bind, ret at 1.
  rewrite (bool_decide_ext _ _ HS). case_bool_decide as Hn; [done|].
  destruct (is_terminal_failure (ut_state t)) eqn:Ht.
  - rewrite bool_decide_eq_true_2 by by apply HF. done.
  - rewrite bool_decide_eq_false_2; [done|]. intros Hin%HF. congruence.
Qed.

End UtilaStates.

Module ResponsesDemo.
Import Demo DemoJson DemoJwt UtilaDemo.

(** A state nobody has heard of, as Utila would send it. *)
Definition demo_document : Value :=
  JObject [("transaction", JObject [("etag", JNull); ("state", JString "AWAITING_MOON"); ("name", JString "t/1")])].

Lemma demo_decoded :
  decode utila_transaction_envelope demo_document = Some (mkUtilaTransaction "t/1" Unknown None).
Proof. vm_compute. reflexivity. Qed.

Lemma utila_state_polls_witness :
  Utila.poll_loop demo_signer "1" 3 0 (mkUtilaTransaction "t/1" Unknown None) idle_world =
  Utila.poll_loop demo_signer "1" 2 1 (mkUtilaTransaction "t/1" Unknown None) idle_world.
Proof.
  exact (utila_state_polls demo_signer "1" "AWAITING_MOON" 2 (mkUtilaTransaction "t/1" Unknown None) idle_world eq_refl).
Defined.

End ResponsesDemo.
