(* ===== verification/Kms.v ===== *)
(** * Cloud key-management signers
    (src/rust/src/aws_kms/mod.rs, gcp_kms/mod.rs)

    Raw Ed25519 signing by a cloud key.  The two cloud SDKs are parameters: a
    client type and one awaited operation per call the code makes. *)

From S2P Require Import Prelude Errors World Externals TransactionUtil SignatureUtil RemoteUtil Traits.

#[local] Open Scope keychain_scope.

(** ** AWS KMS *)

Record KeyMetadata := mkKeyMetadata {
  km_key_spec : option string;
  km_enabled : bool;
  km_key_usage : option string
}.

(** [aws_config] and [aws_sdk_kms]: the fields the code reads of each response. *)
Class AwsSdk := {
  KmsClient : Type;
  (** [defaults(..).http_client(..).region(region).load()], then [Client::new]. *)
  load_client : option string -> M KmsClient;
  (** key id, message, message type, signing algorithm; the response's signature. *)
  aws_sign : KmsClient -> string -> list byte -> string -> string -> M (Result (option (list byte)) string);
  aws_get_public_key : KmsClient -> string -> M (Result (option (list byte)) string);
  aws_describe_key : KmsClient -> string -> M (Result (option KeyMetadata) string)
}.

Module Aws.
Section Signer.
Context `{Codecs} `{SolanaSdk} `{AwsSdk}.

Definition AWS_KMS_SIGNING_ALGORITHM : string := "ED25519_SHA_512".
Definition AWS_KMS_KEY_SPEC : string := "ECC_NIST_EDWARDS25519".
Definition AWS_KMS_KEY_USAGE : string := "SIGN_VERIFY".

Record AwsKmsSigner := mkAwsKmsSigner { client : KmsClient; key_id : string; public_key : Pubkey }.
Record AwsKmsSignerConfig := mkAwsKmsSignerConfig {
  cfg_key_id : string; cfg_public_key : string; cfg_region : option string }.

Definition with_client (client : KmsClient) (key_id public_key : string) : result AwsKmsSigner :=
  let? pubkey := map_err (fun e => InvalidPublicKey ("Invalid public key: " +:+ e)) (pubkey_from_str public_key) in
  Ok (mkAwsKmsSigner client key_id pubkey).

Definition from_config (config : AwsKmsSignerConfig) : M (result AwsKmsSigner) :=
  try pubkey := map_err (fun e => InvalidPublicKey ("Invalid public key: " +:+ e))
                  (pubkey_from_str (cfg_public_key config)) in
  let! client := load_client (cfg_region config) in
  ret (Ok (mkAwsKmsSigner client (cfg_key_id config) pubkey)).

Definition new (key_id public_key : string) (region : option string) : M (result AwsKmsSigner) :=
  from_config (mkAwsKmsSignerConfig key_id public_key region).

Definition sign_bytes (self : AwsKmsSigner) (message : list byte) : M (result Signature) :=
  try! signature := fmap_err (fun _ => remote_api "AWS KMS Sign operation failed")
    (aws_sign (client self) (key_id self) message "RAW" AWS_KMS_SIGNING_ALGORITHM) in
  try signature_blob := ok_or (SigningFailed "No signature in AWS KMS response") signature in
  try sig := signature_from_bytes signature_blob in
  try _ := verify_or_reject sig (public_key self) message in
  ret (Ok sig).

Definition sign_and_serialize (self : AwsKmsSigner) (transaction : VersionedTransaction)
    : M (VersionedTransaction * result SignedTransaction) :=
  try! signature := sign_bytes self (message_serialize (message transaction)) keeping transaction in
  of_run (attach_and_serialize transaction (public_key self) signature).

Definition key_matches_configured_public_key (self : AwsKmsSigner) : M bool :=
  let! response := aws_get_public_key (client self) (key_id self) in
  ret (match response with
       | Ok (Some der) => bool_decide (ed25519_key_from_spki_der der = Some (public_key self))
       | _ => false
       end).

Definition is_available (self : AwsKmsSigner) : M bool :=
  let! response := aws_describe_key (client self) (key_id self) in
  match response with
  | Err _ => ret false
  | Ok None => ret false
  | Ok (Some key_metadata) =>
      match km_key_spec key_metadata with
      | None => ret false
      | Some key_spec =>
          if bool_decide (key_spec ≠ AWS_KMS_KEY_SPEC) then ret false else
          if negb (km_enabled key_metadata) then ret false else
          match km_key_usage key_metadata with
          | None => ret false
          | Some key_usage =>
              if bool_decide (key_usage ≠ AWS_KMS_KEY_USAGE) then ret false
              else key_matches_configured_public_key self
          end
      end
  end.

Definition sign_transaction (self : AwsKmsSigner) (tx : VersionedTransaction)
    : M (VersionedTransaction * result SignTransactionResult) :=
  mut! (tx, signed_transaction) := sign_and_serialize self tx in
  ret (tx, Ok (classify_signed_transaction tx signed_transaction)).

#[global] Instance solana_signer : SolanaSigner AwsKmsSigner := {
  Traits.pubkey self := Returned (public_key self);
  Traits.sign_message := sign_bytes;
  Traits.is_available := is_available
}.

#[global] Instance transaction_signer : TransactionSigner AwsKmsSigner := {
  transaction_signer_base := solana_signer;
  Traits.sign_transaction := sign_transaction
}.

Lemma sign_bytes_verified self m :
  returns (sign_bytes self m) (on_ok (fun sg => verifies sg (public_key self) m = true)).
Proof. unfold sign_bytes. walk. simpl. eauto with keychain. Qed.

#[global] Instance aws_laws : TransactionSignerLaws AwsKmsSigner.
Proof. split. intros s tx. apply (sign_attach_classify (public_key s)), sign_bytes_verified. Qed.

#[global] Instance aws_message_laws : MessageSignerLaws AwsKmsSigner.
Proof.
  split. intros s m. eapply returns_weaken; [apply sign_bytes_verified|].
  intros [sg|e] Hv; [by exists (public_key s)|done].
Qed.

(** An AWS key is reported available exactly when its description shows an
    enabled Ed25519 signing key and the public key AWS holds for it is, as the
    44-byte SubjectPublicKeyInfo, the configured Solana key. *)
Theorem aws_is_available_spec (self : AwsKmsSigner) (w w' : World) (b : bool) :
  is_available self w = (Returned b, w') ->
  b = true <->
  exists md w1 der, aws_describe_key (client self) (key_id self) w = (Returned (Ok (Some md)), w1) /\
    km_key_spec md = Some AWS_KMS_KEY_SPEC /\ km_enabled md = true /\ km_key_usage md = Some AWS_KMS_KEY_USAGE /\
    aws_get_public_key (client self) (key_id self) w1 = (Returned (Ok (Some der)), w') /\
    der = ED25519_SPKI_PREFIX ++ arr_bytes (public_key self).
Proof.
  unfold is_available, bind. destruct (aws_describe_key _ _ w) as [[[[md|]|e]| |why] w1];
    [|intros [= <- <-]; split; [done|]; by intros (? & ? & ? & [=] & _)..|done|done].
  destruct md as [[spec|] [] [usage|]]; cbn [km_key_spec km_enabled km_key_usage negb];
    repeat case_bool_decide; try (intros [= <- <-]; split; [done|];
      intros (? & ? & ? & [= <- <-] & Hs & He & Hu & _); cbn in *; congruence).
  unfold key_matches_configured_public_key, bind.
  destruct (aws_get_public_key _ _ w1) as [[[[der|]|e]| |why] w2] eqn:E; [|..|done|done]; intros [= <- <-];
    [|split; [done|]; intros (? & ? & ? & [= <- <-] & _ & _ & _ & HE & _); congruence..].
  rewrite bool_decide_eq_true, spki_der_exact. split.
  - intros ->. eexists _, w1, _. split_and!; [reflexivity|..|exact E|done]; cbn; congruence.
  - intros (? & ? & ? & [= <- <-] & _ & _ & _ & HE & Hd). rewrite E in HE. by injection HE as <-.
Qed.

End Signer.
End Aws.

(** ** Google Cloud KMS *)

(** [google_cloud_kms_v1]: a public key is its algorithm and its PEM text. *)
Record GcpPublicKey := mkGcpPublicKey { gk_is_ec_sign_ed25519 : bool; gk_pem : string }.

Class GcpSdk := {
  KeyManagementService : Type;
  (** [KeyManagementService::builder().build()]. *)
  build_service : M (Result KeyManagementService string);
  gcp_asymmetric_sign : KeyManagementService -> string -> list byte -> M (Result (list byte) string);
  gcp_get_public_key : KeyManagementService -> string -> M (Result GcpPublicKey string)
}.

Module Gcp.
Section Signer.
Context `{Codecs} `{SolanaSdk} `{GcpSdk}.

Record GcpKmsSigner := mkGcpKmsSigner { client : KeyManagementService; key_name : string; public_key : Pubkey }.
Record GcpKmsSignerConfig := mkGcpKmsSignerConfig { cfg_key_name : string; cfg_public_key : string }.

Definition with_client (client : KeyManagementService) (key_name public_key : string) : result GcpKmsSigner :=
  let? pubkey := map_err (fun e => InvalidPublicKey ("Invalid public key: " +:+ e)) (pubkey_from_str public_key) in
  Ok (mkGcpKmsSigner client key_name pubkey).

(** Installing the process-wide crypto provider has no effect here. *)
Definition from_config (config : GcpKmsSignerConfig) : M (result GcpKmsSigner) :=
  try! client := fmap_err (fun e => remote_api ("Failed to create KMS client: " +:+ e)) build_service in
  ret (with_client client (cfg_key_name config) (cfg_public_key config)).

Definition new (key_name public_key : string) : M (result GcpKmsSigner) :=
  from_config (mkGcpKmsSignerConfig key_name public_key).

Definition sign_bytes (self : GcpKmsSigner) (message : list byte) : M (result Signature) :=
  try! signature := fmap_err (fun _ => remote_api "GCP KMS Sign operation failed")
    (gcp_asymmetric_sign (client self) (key_name self) message) in
  try sig := signature_from_bytes signature in
  try _ := verify_or_reject sig (public_key self) message in
  ret (Ok sig).

Definition sign_and_serialize (self : GcpKmsSigner) (transaction : VersionedTransaction)
    : M (VersionedTransaction * result SignedTransaction) :=
  try! signature := sign_bytes self (message_serialize (message transaction)) keeping transaction in
  of_run (attach_and_serialize transaction (public_key self) signature).

Definition is_available (self : GcpKmsSigner) : M bool :=
  let! result := gcp_get_public_key (client self) (key_name self) in
  ret (match result with
       | Ok key => gk_is_ec_sign_ed25519 key &&
                   bool_decide (ed25519_key_from_spki_pem (gk_pem key) = Some (public_key self))
       | Err _ => false
       end).

Definition sign_transaction (self : GcpKmsSigner) (tx : VersionedTransaction)
    : M (VersionedTransaction * result SignTransactionResult) :=
  mut! (tx, signed_transaction) := sign_and_serialize self tx in
  ret (tx, Ok (classify_signed_transaction tx signed_transaction)).

#[global] Instance solana_signer : SolanaSigner GcpKmsSigner := {
  Traits.pubkey self := Returned (public_key self);
  Traits.sign_message := sign_bytes;
  Traits.is_available := is_available
}.

#[global] Instance transaction_signer : TransactionSigner GcpKmsSigner := {
  transaction_signer_base := solana_signer;
  Traits.sign_transaction := sign_transaction
}.

Lemma gcp_sign_bytes_verified self m :
  returns (sign_bytes self m) (on_ok (fun sg => verifies sg (public_key self) m = true)).
Proof. unfold sign_bytes. walk. simpl. eauto with keychain. Qed.

#[global] Instance gcp_laws : TransactionSignerLaws GcpKmsSigner.
Proof. split. intros s tx. apply (sign_attach_classify (public_key s)), gcp_sign_bytes_verified. Qed.

#[global] Instance gcp_message_laws : MessageSignerLaws GcpKmsSigner.
Proof.
  split. intros s m. eapply returns_weaken; [apply gcp_sign_bytes_verified|].
  intros [sg|e] Hv; [by exists (public_key s)|done].
Qed.

End Signer.
End Gcp.

(** ** A concrete KMS *)

Module KmsDemo.
Import Demo.

Definition demo_key : Pubkey := array_repeat 32 x01.

(** A service that holds one enabled Ed25519 key. *)
#[export] Instance demo_aws : AwsSdk := {|
  KmsClient := unit;
  load_client := fun _ => ret tt;
  aws_sign := fun _ _ m _ _ => ret (Ok (Some (arr_bytes (demo_sign (arr_bytes demo_key) m))));
  aws_get_public_key := fun _ _ => ret (Ok (Some (ED25519_SPKI_PREFIX ++ arr_bytes demo_key)));
  aws_describe_key := fun _ _ => ret (Ok (Some (mkKeyMetadata (Some "ECC_NIST_EDWARDS25519") true (Some "SIGN_VERIFY"))))
|}.
#[export] Instance demo_gcp : GcpSdk := {|
  KeyManagementService := unit;
  build_service := ret (Ok tt);
  gcp_asymmetric_sign := fun _ _ m => ret (Ok (arr_bytes (demo_sign (arr_bytes demo_key) m)));
  gcp_get_public_key := fun _ _ => ret (Ok (mkGcpPublicKey true (base64_encode (ED25519_SPKI_PREFIX ++ arr_bytes demo_key))))
|}.

Definition demo_signer : Aws.AwsKmsSigner := Aws.mkAwsKmsSigner tt "key" demo_key.

Lemma aws_is_available_spec_witness :
  Aws.is_available demo_signer idle_world = (Returned true, idle_world) /\
  exists md w1 der, aws_describe_key tt "key" idle_world = (Returned (Ok (Some md)), w1) /\
    aws_get_public_key tt "key" w1 = (Returned (Ok (Some der)), idle_world) /\
    der = ED25519_SPKI_PREFIX ++ arr_bytes demo_key.
Proof.
  assert (E : Aws.is_available demo_signer idle_world = (Returned true, idle_world)) by (vm_compute; reflexivity).
  split; [exact E|].
  destruct (proj1 (Aws.aws_is_available_spec demo_signer idle_world idle_world true E) eq_refl)
    as (md & w1 & der & Hd & _ & _ & _ & Hk & Hder).
  exists md, w1, der. split; [exact Hd|]. split; [exact Hk|exact Hder].
Defined.

End KmsDemo.
