(* ===== verification/LedgerDashboard.v ===== *)
(** * Ledger dashboard (src/rust/src/ledger/dashboard.rs)

    Choosing one HID interface among those attached, the APDU-over-HID framing,
    and launching the Solana app.  [hidapi] is a parameter ([Hid]): a state the
    calls read and change.  The theorems cover the selection rules and the
    framing, which is proved to be a round trip. *)

From S2P Require Import Prelude Errors.

#[local] Open Scope keychain_scope.

(** ** The HID layer *)

Record DeviceInfo := mkDeviceInfo {
  vendor_id : Z;
  product_id : Z;
  usage_page : Z;
  interface_number : Z;
  (** [path().to_string_lossy()]. *)
  info_path : string;
  serial_number : option string
}.

(** [Dev] is everything outside the process: the devices, the user, the clock. *)
Class Hid := {
  Dev : Type;
  HidDevice : Type;
  (** [HidApi::new()], with the [device_list()] it took. *)
  hid_api_new : Dev -> option (list DeviceInfo) * Dev;
  hid_open : DeviceInfo -> Dev -> option HidDevice * Dev;
  (** Whether the write was accepted. *)
  hid_write : HidDevice -> list byte -> Dev -> bool * Dev;
  (** [read_timeout]: the bytes read (none on a timeout), or an error. *)
  hid_read : HidDevice -> Dev -> option (list byte) * Dev;
  thread_sleep : Z -> Dev -> Dev
}.

(** Blocking code on the device thread. *)
Definition D `{Hid} (A : Type) : Type := Dev -> A * Dev.
Definition dret `{Hid} {A} (a : A) : D A := fun d => (a, d).
Definition dbind `{Hid} {A B} (m : D A) (k : A -> D B) : D B := fun d => let '(a, d') := m d in k a d'.
Definition dtry `{Hid} {A B} (m : D (result A)) (k : A -> D (result B)) : D (result B) :=
  dbind m (fun r => match r with Ok a => k a | Err e => dret (Err e) end).

Notation "'let%' x := m 'in' k" := (dbind m (fun x => k))
  (at level 10, x pattern, m at level 200, k at level 200) : keychain_scope.
Notation "'try%' x := m 'in' k" := (dtry m (fun x => k))
  (at level 10, x pattern, m at level 200, k at level 200) : keychain_scope.

(** ** Constants *)

Definition LEDGER_VID : Z := 0x2c97.

Definition APDU_TAG : byte := x05.
Definition HID_TRANSPORT_HEADER_LEN : nat := 5.
Definition HID_PACKET_SIZE : nat := 64.
Definition HID_GLOBAL_USAGE_PAGE : Z := 0xff00.
Definition HID_USB_DEVICE_CLASS : Z := 0.

Definition is_apdu_interface (d : DeviceInfo) : bool :=
  ((usage_page d =? HID_GLOBAL_USAGE_PAGE) || (interface_number d =? HID_USB_DEVICE_CLASS))%Z.

Definition CLA_DASHBOARD : byte := xb0.
Definition CLA_BOLOS : byte := xe0.
Definition INS_GET_APP_AND_VERSION : byte := x01.
Definition INS_OPEN_APP : byte := xd8.
Definition INS_QUIT_APP : byte := xa7.
Definition APDU_SUCCESS : Z := 0x9000.
Definition APDU_DEVICE_LOCKED : Z := 0x5515.
Definition SOLANA_APP_NAME : string := "Solana".

(** ** Selecting a device *)

(** [zip(..).take_while(|(x, y)| x == y).count()]. *)
Fixpoint common_len (a b : list byte) : nat :=
  match a, b with
  | x :: a, y :: b => if bool_decide (x = y) then S (common_len a b) else 0
  | _, _ => 0
  end.

Definition DELIMS : list byte := [x2f; x3a; x40; x5c].

(** [iter().rposition(|byte| DELIMS.contains(byte)).map_or(0, |i| i + 1)]. *)
Fixpoint last_delim (l : list byte) : nat :=
  match l with
  | [] => 0
  | b :: r =>
      match last_delim r with
      | 0 => if bool_decide (b ∈ DELIMS) then 1 else 0
      | S n => S (S n)
      end
  end.

Definition shared_prefix_len (a b : string) : nat :=
  let a := as_bytes a in
  let b := as_bytes b in
  let common := common_len a b in
  last_delim (take common a).

Definition meets_sibling_threshold (len : nat) (path : string) : bool :=
  str_len path * 4 <=? len * 5.

Definition is_sibling_interface (a b : string) : bool :=
  let shared := shared_prefix_len a b in
  meets_sibling_threshold shared a && meets_sibling_threshold shared b.

(** The indices from [i] on whose path shares [best] with [want]. *)
Fixpoint matching_from (i : nat) (available : list string) (want : string) (best : nat) : list nat :=
  match available with
  | [] => []
  | p :: r => if shared_prefix_len p want =? best then i :: matching_from (S i) r want best
              else matching_from (S i) r want best
  end.

Definition select_ledger (available : list string) (want : string) : option nat :=
  match position (fun p => bool_decide (p = want)) available with
  | Some exact => Some exact
  | None =>
      let best := foldr Nat.max 0 (map (fun p => shared_prefix_len p want) available) in
      if negb (meets_sibling_threshold best want) then None else
      match matching_from 0 available want best with
      | [idx] => Some idx
      | _ => None
      end
  end.

Record Candidate := mkCandidate { path : string; serial : option string }.

Definition same_device (a b : Candidate) : bool :=
  if match serial a, serial b with
     | Some x, Some y => negb (str_is_empty x) && negb (str_is_empty y) && bool_decide (x ≠ y)
     | _, _ => false
     end
  then false
  else is_sibling_interface (path a) (path b).

(** The [for] loop: [devices] as (index, candidate) pairs. *)
Fixpoint group_devices (i : nat) (devices : list (nat * Candidate)) (candidates : list Candidate)
    : list (nat * Candidate) :=
  match candidates with
  | [] => devices
  | c :: r =>
      if existsb (fun d => same_device c d.2) devices then group_devices (S i) devices r
      else group_devices (S i) (devices ++ [(i, c)]) r
  end.

Definition multiple_devices_error (count : nat) : SignerError :=
  NotAvailable (pretty count +:+ " Ledger devices connected; pass host_device_path to select one. Run `just rust-ledger-diagnose` to list them.").

Definition sole_ledger (candidates : list Candidate) : result nat :=
  match candidates with
  | [] => Err (NotAvailable "no Ledger device found (plug in and unlock)")
  | _ =>
      match group_devices 0 [] candidates with
      | [(i, _)] => Ok i
      | devices => Err (multiple_devices_error (length devices))
      end
  end.

(** ** The APDU transport *)

(** [status_to_err]. *)
Definition hex4 (status : Z) : string :=
  "0x" +:+ of_bytes (hex_pair false (u8_of_Z (Z.shiftr status 8)) ++ hex_pair false (u8_of_Z status)).

Definition status_to_err (status : Z) (what : string) : SignerError :=
  if (status =? 0x6985)%Z then UserRejected (what +:+ ": rejected on device")
  else if ((status =? 0x6807) || (status =? 0x6a83))%Z then NotAvailable (what +:+ ": app not installed")
  else Other (what +:+ ": device returned status " +:+ hex4 status).

(** The byte buffer of one packet: header, the total length on the first one,
    [n] bytes of the APDU, zero padding. *)
Definition packet (seq : Z) (total : nat) (body : list byte) : list byte :=
  let header := [x01; x01; APDU_TAG; u8_of_Z (Z.shiftr seq 8); u8_of_Z (Z.land seq 0xff)] in
  let len := if (seq =? 0)%Z then [u8_of_Z (Z.shiftr (Z.of_nat total) 8); u8_of_Z (Z.land (Z.of_nat total) 0xff)]
             else [] in
  let used := header ++ len ++ body in
  used ++ replicate (HID_PACKET_SIZE - length used) x00.

(** How many APDU bytes the packet [seq] can carry. *)
Definition capacity (seq : Z) : nat :=
  HID_PACKET_SIZE - (HID_TRANSPORT_HEADER_LEN + if (seq =? 0)%Z then 2 else 0).

Section Transport.
Context `{Hid}.

Definition write_error : SignerError :=
  NotAvailable "writing to the Ledger failed. Either it was disconnected, or another application is holding the device.".
Definition read_error : SignerError :=
  NotAvailable "reading from the Ledger failed. Either it was disconnected, or another application is holding the device.".

(** [while seq == 0 || offset < total]: [rest] is [apdu[offset..]].  [fuel]
    bounds the iterations; [write_apdu] supplies more than are ever used. *)
Fixpoint write_loop (fuel : nat) (device : HidDevice) (total : nat) (seq : Z) (rest : list byte)
    : D (result unit) :=
  match fuel with
  | 0 => dret (Err (Other "loop bound exceeded"))
  | S fuel =>
      if negb (seq =? 0)%Z && bool_decide (rest = []) then dret (Ok tt) else
      let n := Nat.min (capacity seq) (length rest) in
      let% written := hid_write device (packet seq total (take n rest)) in
      if negb written then dret (Err write_error) else
      let seq := (seq + 1)%Z in
      if (seq =? 0xffff)%Z then dret (Err (Other "APDU too large"))
      else write_loop fuel device total seq (drop n rest)
  end.

(** [CLA INS P1 P2 Lc data], the length truncated to a byte. *)
Definition apdu_bytes (cla ins p1 p2 : byte) (data : list byte) : list byte :=
  [cla; ins; p1; p2; u8_of_Z (Z.of_nat (length data))] ++ data.

Definition write_apdu (device : HidDevice) (cla ins p1 p2 : byte) (data : list byte) : D (result unit) :=
  let apdu := apdu_bytes cla ins p1 p2 data in
  write_loop (S (S (length apdu))) device (length apdu) 0 apdu.

(** The loop over [chunk_index], with [n] iterations left. *)
Fixpoint read_loop (n : nat) (device : HidDevice) (chunk_index : Z) (message_size : nat) (message : list byte)
    : D (result (list byte)) :=
  match n with
  | 0 => dret (Ok message)
  | S n =>
      let% r := hid_read device in
      match r with
      | None => dret (Err read_error)
      | Some chunk =>
          let size := length chunk in
          if size =? 0 then dret (Err (NotAvailable "Ledger HID read timed out")) else
          if (size <? HID_TRANSPORT_HEADER_LEN) || negb (bool_decide (take 3 chunk = [x01; x01; APDU_TAG]))
          then dret (Err (Other "unexpected Ledger HID chunk")) else
          let seq := Z.lor (Z.shiftl (u8_val (nth 3 chunk x00)) 8) (u8_val (nth 4 chunk x00)) in
          if negb (seq =? chunk_index)%Z then dret (Err (Other "out-of-order Ledger HID chunk")) else
          if (seq =? 0)%Z && (size <? 7) then dret (Err (Other "short Ledger HID chunk")) else
          let message_size :=
            if (seq =? 0)%Z
            then Z.to_nat (Z.lor (Z.shiftl (u8_val (nth 5 chunk x00)) 8) (u8_val (nth 6 chunk x00)))
            else message_size in
          let off := HID_TRANSPORT_HEADER_LEN + (if (seq =? 0)%Z then 2 else 0) in
          let message := message ++ drop off chunk in
          if message_size <=? length message then dret (Ok (take message_size message))
          else read_loop n device (chunk_index + 1) message_size message
      end
  end.

(** The status word at the end of a reassembled message. *)
Definition split_status (message : list byte) : result (list byte * Z) :=
  if length message <? 2 then Err (Other "no APDU status word") else
  let n := length message in
  let status := Z.lor (Z.shiftl (u8_val (nth (n - 2) message x00)) 8) (u8_val (nth (n - 1) message x00)) in
  Ok (take (n - 2) message, status).

Definition MAX_CHUNKS : nat := Z.to_nat 0xffff.

Definition read_apdu (device : HidDevice) : D (result (list byte * Z)) :=
  try% message := read_loop MAX_CHUNKS device 0 0 [] in
  dret (split_status message).

Definition exchange (device : HidDevice) (cla ins p1 p2 : byte) (data : list byte) : D (result (list byte * Z)) :=
  try% _ := write_apdu device cla ins p1 p2 data in
  read_apdu device.

(** ** Dashboard commands *)

Definition current_app (device : HidDevice) : D (result (option string)) :=
  try% (payload, status) := exchange device CLA_DASHBOARD INS_GET_APP_AND_VERSION x00 x00 [] in
  dret (
    if (status =? APDU_DEVICE_LOCKED)%Z then
      Err (NotAvailable "the Ledger is locked. Enter your PIN on the device, then retry.")
    else if negb (status =? APDU_SUCCESS)%Z || (length payload <? 2) then Ok None
    else
      let name_len := u8_nat (nth 1 payload x00) in
      if 2 + name_len <=? length payload
      then Ok (Some (from_utf8_lossy (slice 2 (2 + name_len) payload)))
      else Ok None).

Definition open_app (device : HidDevice) (name : string) : D (result unit) :=
  try% _ := write_apdu device CLA_BOLOS INS_OPEN_APP x00 x00 (as_bytes name) in
  let% r := read_apdu device in
  dret (match r with
        | Ok (_, status) => if (status =? APDU_SUCCESS)%Z then Ok tt else Err (status_to_err status "open Solana app")
        | Err _ => Ok tt
        end).

Definition quit_app (device : HidDevice) : D (result unit) :=
  let% _ := exchange device CLA_DASHBOARD INS_QUIT_APP x00 x00 [] in dret (Ok tt).

Definition open_ledger (api : list DeviceInfo) (host_device_path : option string) : D (result HidDevice) :=
  let ledgers := filter (fun d => ((vendor_id d =? LEDGER_VID)%Z && is_apdu_interface d : Prop)) api in
  let paths := map info_path ledgers in
  let idx :=
    match host_device_path with
    | Some want =>
        ok_or (NotAvailable ("no Ledger device at the requested host path; " +:+ pretty (length paths) +:+
                 " Ledger interface(s) attached. Run `just rust-ledger-diagnose` to list them."))
          (select_ledger paths want)
    | None => sole_ledger (map (fun d => mkCandidate (info_path d) (serial_number d)) ledgers)
    end in
  match idx with
  | Err e => dret (Err e)
  | Ok idx =>
      match ledgers !! idx with
      | None => dret (Err (Other "index out of range"))
      | Some d =>
          let% r := hid_open d in
          dret (ok_or (NotAvailable "cannot open the Ledger. Another application may be holding it -- quit Ledger Live and any other wallet software, then retry.") r)
      end
  end.

(** [for _ in 0..20]. *)
Fixpoint reopen_loop (n : nat) (host_device_path : option string) : D (result HidDevice) :=
  match n with
  | 0 => dret (Err (NotAvailable "Ledger did not re-enumerate after app switch"))
  | S n =>
      let% _ := (fun d => (tt, thread_sleep 250 d)) in
      let% api := hid_api_new in
      match api with
      | None => reopen_loop n host_device_path
      | Some api =>
          let% device := open_ledger api host_device_path in
          match device with
          | Ok device => dret (Ok device)
          | Err _ => reopen_loop n host_device_path
          end
      end
  end.

Definition reopen_after_reenumerate (host_device_path : option string) : D (result HidDevice) :=
  reopen_loop 20 host_device_path.

Definition hid_unavailable : SignerError :=
  NotAvailable "the Ledger HID subsystem is unavailable. On Linux this is usually missing udev rules; otherwise no HID backend could be initialised.".

Definition ensure_solana_app_open (host_device_path : option string) : D (result bool) :=
  let% api := hid_api_new in
  match api with
  | None => dret (Err hid_unavailable)
  | Some api =>
      try% device := open_ledger api host_device_path in
      try% app := current_app device in
      match app with
      | Some app =>
          if bool_decide (app = SOLANA_APP_NAME) then dret (Ok false)
          else if bool_decide (app = "BOLOS") || str_is_empty app then
            try% _ := open_app device SOLANA_APP_NAME in dret (Ok true)
          else
            try% _ := quit_app device in
            try% device := reopen_after_reenumerate host_device_path in
            try% _ := open_app device SOLANA_APP_NAME in dret (Ok true)
      | None => try% _ := open_app device SOLANA_APP_NAME in dret (Ok true)
      end
  end.

End Transport.

(** ** Lemmas: selection *)

Lemma common_len_comm a b : common_len a b = common_len b a.
Proof.
  revert b. induction a as [|x a IH]; intros [|y b]; try done. cbn [common_len].
  do 2 case_bool_decide; subst; try done. by rewrite IH.
Qed.

Lemma common_len_take a b : take (common_len a b) a = take (common_len a b) b.
Proof.
  revert b. induction a as [|x a IH]; intros [|y b]; try done. cbn [common_len].
  case_bool_decide; [|done]. subst. cbn [take]. by rewrite IH.
Qed.

Lemma shared_prefix_len_comm a b : shared_prefix_len a b = shared_prefix_len b a.
Proof. unfold shared_prefix_len. by rewrite common_len_take, common_len_comm. Qed.

Lemma same_device_comm a b : same_device a b = same_device b a.
Proof.
  unfold same_device, is_sibling_interface. rewrite (shared_prefix_len_comm (path b)), (andb_comm (meets_sibling_threshold _ (path b))).
  destruct (serial a) as [x|], (serial b) as [y|]; try done.
  rewrite (andb_comm (negb (str_is_empty y))).
  by rewrite (bool_decide_ext (y ≠ x) (x ≠ y)) by naive_solver.
Qed.

Lemma matching_from_elem i l want best k :
  k ∈ matching_from i l want best <->
  exists j p, k = i + j /\ l !! j = Some p /\ shared_prefix_len p want = best.
Proof.
  revert i. induction l as [|p l IH]; intros i; cbn [matching_from].
  { split; [by intros ?%not_elem_of_nil|]. by intros (j & p & _ & ? & _). }
  destruct (Nat.eqb_spec (shared_prefix_len p want) best) as [Hb|Hb].
  - rewrite elem_of_cons, IH. split.
    + intros [->|(j & q & -> & Hj & Hq)]; [exists 0, p; split_and!; [lia|done..]|].
      exists (S j), q. split_and!; [lia|done..].
    + intros ([|j] & q & -> & Hj & Hq); [left; lia|right]. exists j, q. split_and!; [lia|done..].
  - rewrite IH. split.
    + intros (j & q & -> & Hj & Hq). exists (S j), q. split_and!; [lia|done..].
    + intros ([|j] & q & -> & Hj & Hq); [by injection Hj as ->|]. exists j, q. split_and!; [lia|done..].
Qed.

Lemma foldr_max_le l x : x ∈ l -> x <= foldr Nat.max 0 l.
Proof.
  induction l as [|y l IH]; [by intros ?%not_elem_of_nil|]. intros [->|Hx]%elem_of_cons; simpl; [lia|].
  apply IH in Hx. lia.
Qed.

(** Naming a device never picks an arbitrary one.  The interface
    chosen is the one at exactly the named path, or, when there is none, the only
    one that comes closest to it, and that only if it shares at least four fifths
    of the named path. *)
Theorem select_ledger_spec (available : list string) (want : string) (i : nat) :
  select_ledger available want = Some i ->
  exists p, available !! i = Some p /\
    (p = want \/
     (want ∉ available /\ str_len want * 4 <= shared_prefix_len p want * 5 /\
      forall j q, available !! j = Some q -> j ≠ i -> shared_prefix_len q want < shared_prefix_len p want)).
Proof.
  unfold select_ledger. destruct (position _ available) as [k|] eqn:Hp.
  { intros [= <-]. apply position_Some in Hp as (p & Hp & Heq%bool_decide_eq_true & _). eauto. }
  set (best := foldr Nat.max 0 _).
  destruct (meets_sibling_threshold best want) eqn:Ht; [|done]. cbn [negb].
  destruct (matching_from 0 available want best) as [|k [|]] eqn:Em; [done| |done].
  intros [= <-]. pose proof (matching_from_elem 0 available want best) as HM. rewrite Em in HM.
  destruct (proj1 (HM k)) as (j & p & -> & Hj & Hb); [constructor|]. cbn in *.
  exists p. split; [done|]. right. split_and!.
  - intros Hin. eapply position_None in Hp; [|exact Hin]. by apply bool_decide_eq_false in Hp.
  - unfold meets_sibling_threshold in Ht. rewrite Hb. by apply Nat.leb_le.
  - intros j' q Hq Hne. assert (shared_prefix_len q want <= best).
    { apply foldr_max_le. apply list_elem_of_fmap. exists q. split; [done|]. by eapply list_elem_of_lookup_2. }
    destruct (decide (shared_prefix_len q want = best)) as [Heq|]; [|lia].
    destruct Hne. assert (j' ∈ [j]) as Hin%list_elem_of_singleton; [|done].
    apply HM. exists j', q. done.
Qed.

Lemma group_devices_cons i d0 ds l :
  exists rest, group_devices i (d0 :: ds) l = d0 :: rest.
Proof.
  revert i ds. induction l as [|c l IH]; intros i ds; cbn [group_devices]; [eauto|].
  case_match; apply IH.
Qed.

Lemma group_devices_single i d l :
  group_devices i [d] l = [d] -> forall c, c ∈ l -> same_device c d.2 = true.
Proof.
  revert i. induction l as [|c l IH]; intros i; cbn [group_devices existsb].
  { intros _ c. by intros ?%not_elem_of_nil. }
  rewrite orb_false_r. destruct (same_device c d.2) eqn:Es.
  - intros Hg x [->|Hx]%elem_of_cons; [done|]. by eapply IH.
  - cbn [app]. intros Hg. exfalso.
    assert (Hlen : forall j ds, 2 <= length ds -> 2 <= length (group_devices j ds l)).
    { clear. induction l as [|c l IH]; intros j ds Hl; cbn [group_devices]; [done|].
      case_match; apply IH; [done|]. rewrite length_app. simpl. lia. }
    specialize (Hlen (S i) [d; (i, c)]). rewrite Hg in Hlen. simpl in Hlen. lia.
Qed.

(** With no device named, one is used only when every attached
    interface passes for an interface of the first one: none of them shows a
    serial number that contradicts it and all their paths are adjacent to its
    path.  Otherwise the call fails. *)
Theorem sole_ledger_spec (l : list Candidate) (i : nat) :
  sole_ledger l = Ok i ->
  i = 0 /\ exists c0 r, l = c0 :: r /\
    forall c, c ∈ r -> is_sibling_interface (path c) (path c0) = true /\
      forall x y, serial c = Some x -> serial c0 = Some y -> x ≠ EmptyString -> y ≠ EmptyString -> x = y.
Proof.
  unfold sole_ledger. destruct l as [|c0 r]; [done|]. cbn [group_devices existsb app].
  destruct (group_devices_cons 1 (0, c0) [] r) as [rest Hg]. rewrite Hg.
  destruct rest; [|done]. intros [= <-]. split; [done|]. exists c0, r. split; [done|].
  intros c Hc. pose proof (group_devices_single _ _ _ Hg c Hc) as Hs. cbn in Hs.
  unfold same_device in Hs.
  destruct (match serial c, serial c0 with Some _, Some _ => _ | _, _ => _ end) eqn:E; [done|].
  split; [done|]. intros x y Hx Hy Nx Ny. rewrite Hx, Hy in E.
  unfold str_is_empty in E. rewrite !bool_decide_eq_false_2 in E by done. cbn in E.
  apply bool_decide_eq_false in E. by apply dec_stable.
Qed.

Definition usb_path (k : string) : string := "IOService:/IOUSBHostDevice@00100000/IOUSBHostInterface@" +:+ k.

(** The answer depends on the order of enumeration: three interfaces,
    one without a serial number and two with different ones, are taken for one
    device in one order and for two devices in another. *)
Theorem sole_ledger_order_dependent :
  let a := mkCandidate (usb_path "0") None in
  let b := mkCandidate (usb_path "1") (Some "A") in
  let c := mkCandidate (usb_path "2") (Some "B") in
  sole_ledger [a; b; c] = Ok 0 /\ sole_ledger [b; c; a] = Err (multiple_devices_error 2) /\
  [a; b; c] ≡ₚ [b; c; a].
Proof.
  split_and!; [vm_compute; reflexivity|vm_compute; reflexivity|].
  apply (Permutation_cons_append [mkCandidate (usb_path "1") (Some "A"); mkCandidate (usb_path "2") (Some "B")]).
Qed.

(** ** Lemmas: framing *)

Lemma capacity_range seq : 57 <= capacity seq <= 59.
Proof. unfold capacity, HID_PACKET_SIZE, HID_TRANSPORT_HEADER_LEN. case_match; lia. Qed.

Lemma length_packet seq total body :
  length body <= capacity seq -> length (packet seq total body) = HID_PACKET_SIZE.
Proof.
  unfold packet, capacity, HID_PACKET_SIZE, HID_TRANSPORT_HEADER_LEN. intros Hb.
  rewrite !length_app, length_replicate. case_match; simpl in *; lia.
Qed.

Lemma u16_bytes z :
  (0 <= z < 65536)%Z ->
  Z.lor (Z.shiftl (u8_val (u8_of_Z (Z.shiftr z 8))) 8) (u8_val (u8_of_Z (Z.land z 0xff))) = z.
Proof.
  intros Hz. rewrite !u8_val_of_Z. change 0xff%Z with (Z.ones 8).
  rewrite (Z.land_ones z 8), Z.shiftr_div_pow2, Z.shiftl_mul_pow2 by lia. change (2 ^ 8)%Z with 256%Z.
  assert (Hq : (0 <= z / 256 < 256)%Z) by (split; [apply Z.div_pos|apply Z.div_lt_upper_bound]; lia).
  rewrite Z.mod_mod by lia. rewrite (Z.mod_small (z / 256) 256) by lia.
  rewrite Z.lor_comm. assert (Hd : Z.land (z mod 2 ^ 8) (z / 256 * 2 ^ 8) = 0%Z).
  { apply Z.bits_inj'. intros k Hk. rewrite Z.land_spec, Z.bits_0.
    destruct (Z.ltb_spec k 8).
    - rewrite (Z.mul_pow2_bits_low (z / 256)) by lia. by rewrite andb_false_r.
    - by rewrite Z.mod_pow2_bits_high by lia. }
  change (2 ^ 8)%Z with 256%Z in Hd.
  rewrite <- Z.lxor_lor, <- Z.add_nocarry_lxor by done.
  pose proof (Z.div_mod z 256). lia.
Qed.

(** The packets an APDU is cut into. *)
Fixpoint frames (fuel total : nat) (seq : Z) (rest : list byte) : list (list byte) :=
  match fuel with
  | 0 => []
  | S fuel =>
      if negb (seq =? 0)%Z && bool_decide (rest = []) then [] else
      let n := Nat.min (capacity seq) (length rest) in
      packet seq total (take n rest) :: frames fuel total (seq + 1) (drop n rest)
  end.

Lemma frames_packets fuel total seq rest :
  Forall (fun p => length p = HID_PACKET_SIZE) (frames fuel total seq rest).
Proof.
  revert seq rest. induction fuel as [|fuel IH]; intros seq rest; cbn [frames]; [constructor|].
  case_match; [constructor|]. constructor; [|apply IH]. apply length_packet. rewrite length_take. lia.
Qed.

Definition frame (m : list byte) : list (list byte) := frames (S (S (length m))) (length m) 0 m.

(** The fields of a packet, as the reader sees them. *)
Lemma packet_fields seq total body :
  (0 <= seq < 65536)%Z -> (Z.of_nat total < 65536)%Z -> length body <= capacity seq ->
  let p := packet seq total body in
  take 3 p = [x01; x01; APDU_TAG] /\
  Z.lor (Z.shiftl (u8_val (nth 3 p x00)) 8) (u8_val (nth 4 p x00)) = seq /\
  (seq = 0%Z ->
   Z.to_nat (Z.lor (Z.shiftl (u8_val (nth 5 p x00)) 8) (u8_val (nth 6 p x00))) = total) /\
  exists pad, drop (HID_TRANSPORT_HEADER_LEN + (if (seq =? 0)%Z then 2 else 0)) p = body ++ pad /\
    length pad = capacity seq - length body.
Proof.
  intros Hs Ht Hb p. unfold p, packet. split_and!.
  - done.
  - by apply u16_bytes.
  - intros ->. transitivity (Z.to_nat (Z.of_nat total)); [|apply Nat2Z.id].
    f_equal. apply (u16_bytes (Z.of_nat total)). lia.
  - exists (replicate (capacity seq - length body) x00). split; [|apply length_replicate].
    unfold capacity, HID_TRANSPORT_HEADER_LEN, HID_PACKET_SIZE.
    destruct (seq =? 0)%Z; cbn [app length drop Nat.add]; f_equal; f_equal; lia.
Qed.

(** A device that records what is written and answers with queued packets. *)
Module Loopback.

Record state := mkState { written : list (list byte); queued : list (list byte) }.

#[export] Instance loopback : Hid := {|
  Dev := state;
  HidDevice := unit;
  hid_api_new := fun d => (Some [], d);
  hid_open := fun _ d => (Some tt, d);
  hid_write := fun _ p d => (true, mkState (written d ++ [p]) (queued d));
  hid_read := fun _ d =>
    match queued d with
    | [] => (Some [], d)
    | p :: r => (Some p, mkState (written d) r)
    end;
  thread_sleep := fun _ d => d
|}.

Lemma write_loop_frames fuel total seq rest d :
  (0 <= seq)%Z -> (2 * seq + Z.of_nat (length rest) <= 65536)%Z ->
  length rest < fuel -> (seq = 0%Z -> 2 <= fuel) ->
  write_loop fuel tt total seq rest d = (Ok tt, mkState (written d ++ frames fuel total seq rest) (queued d)).
Proof.
  revert seq rest d. induction fuel as [|fuel IH]; intros seq rest d Hs Hb Hf H2; [lia|].
  cbn [write_loop frames]. destruct (negb (seq =? 0)%Z && bool_decide (rest = [])) eqn:Ec.
  { by rewrite app_nil_r; destruct d. }
  assert (Hne : seq ≠ 0%Z -> rest ≠ []).
  { intros Hz ->. apply andb_false_iff in Ec as [Ec|Ec]; [|done]. lia. }
  unfold dbind. cbn [hid_write loopback negb].
  destruct (Z.eqb_spec (seq + 1) 0xffff) as [Hbad|_]; [lia|].
  pose proof (capacity_range seq) as Hcap.
  assert (Hlen : length rest ≠ 0 \/ seq = 0%Z).
  { destruct (decide (seq = 0%Z)) as [|Hz]; [auto|]. left. specialize (Hne Hz). by destruct rest. }
  rewrite IH; [..|lia].
  - cbn [written queued]. by rewrite <- (assoc_L (++)).
  - lia.
  - rewrite length_drop. lia.
  - rewrite length_drop. lia.
Qed.

Lemma read_loop_frames fuel total n seq msize message rest q d :
  (0 <= seq)%Z -> (57 * seq + Z.of_nat (length rest) <= 65535)%Z -> (Z.of_nat total <= 65535)%Z ->
  length message + length rest = total -> (seq = 0%Z -> message = []) ->
  (seq ≠ 0%Z -> msize = total /\ rest ≠ []) ->
  length rest < fuel -> 1 <= n -> length rest <= 57 * n ->
  queued d = frames fuel total seq rest ++ q ->
  exists q', read_loop n tt seq msize message d = (Ok (message ++ rest), mkState (written d) q').
Proof.
  revert n seq msize message rest d. induction fuel as [|fuel IH]; intros n seq msize message rest d Hs Hb Ht Hl H0 Hn Hf H1 Hn57 Hq; [lia|].
  destruct n as [|n]; [lia|]. cbn [read_loop frames] in *.
  assert (Hcont : negb (seq =? 0)%Z && bool_decide (rest = []) = false).
  { destruct (Z.eqb_spec seq 0); [done|]. cbn. apply bool_decide_eq_false. by apply Hn. }
  rewrite Hcont in Hq. unfold dbind at 1. cbn [hid_read loopback]. rewrite Hq. cbn [app].
  pose proof (capacity_range seq) as Hcap.
  set (k := Nat.min (capacity seq) (length rest)) in *.
  assert (Hbody : length (take k rest) = k) by (rewrite length_take; lia).
  pose proof (length_packet seq total (take k rest)) as Hp64. rewrite Hp64 by lia.
  destruct (packet_fields seq total (take k rest)) as (F1 & F2 & F3 & pad & F4 & F5); [lia..|]. cbv zeta in *.
  rewrite F1, F2. change (HID_PACKET_SIZE =? 0) with false. change (HID_PACKET_SIZE <? HID_TRANSPORT_HEADER_LEN) with false.
  rewrite bool_decide_eq_true_2 by done. cbn [negb orb]. rewrite Z.eqb_refl. cbn [negb].
  change (HID_PACKET_SIZE <? 7) with false. rewrite andb_false_r.
  assert (Hms : (if (seq =? 0)%Z then
      Z.to_nat (Z.lor (Z.shiftl (u8_val (nth 5 (packet seq total (take k rest)) x00)) 8)
                      (u8_val (nth 6 (packet seq total (take k rest)) x00))) else msize) = total).
  { destruct (Z.eqb_spec seq 0); [by apply F3|by apply Hn]. }
  rewrite Hms, F4. rewrite !length_app, F5, Hbody.
  destruct (decide (length rest <= capacity seq)) as [Hlast|Hmore].
  - assert (k = length rest) as Hk by lia. rewrite Hk in *. rewrite (take_ge rest) by lia.
    rewrite (proj2 (Nat.leb_le total _)) by lia. rewrite (assoc_L (++)).
    rewrite take_app_length' by (rewrite length_app; lia). by eexists.
  - assert (k = capacity seq) as Hk by lia. rewrite Hk in *.
    assert (pad = []) as -> by (apply nil_length_inv; lia). rewrite app_nil_r.
    rewrite (proj2 (Nat.leb_gt total _)) by lia.
    edestruct (IH n (seq + 1)%Z total (message ++ take (capacity seq) rest) (drop (capacity seq) rest)
      (mkState (written d) (frames fuel total (seq + 1) (drop (capacity seq) rest) ++ q))) as [q' E].
    + lia.
    + rewrite length_drop. lia.
    + lia.
    + rewrite length_app, length_take, length_drop. lia.
    + lia.
    + intros _. split; [done|]. intros E%(f_equal length). rewrite length_drop in E. simpl in E. lia.
    + rewrite length_drop. lia.
    + lia.
    + rewrite length_drop. lia.
    + done.
    + rewrite E. exists q'. by rewrite <- (assoc_L (++)), take_drop.
Qed.

Lemma MAX_CHUNKS_big : 1 <= MAX_CHUNKS /\ (65535 <= 57 * Z.of_nat MAX_CHUNKS)%Z.
Proof. unfold MAX_CHUNKS. lia. Qed.

#[local] Opaque MAX_CHUNKS.

(** C34: the APDU framing is a round trip.  Writing a command puts it on
    the wire in 64-byte packets, and a reader with those packets in front of it
    gets back exactly the command; a reply framed the same way is read as its
    payload and its status word. *)
Theorem apdu_framing_roundtrip (cla ins p1 p2 : byte) (data payload : list byte) (hi lo : byte) :
  (Z.of_nat (length data) <= 65530)%Z -> (Z.of_nat (length payload) <= 65533)%Z ->
  (exists ps, write_apdu tt cla ins p1 p2 data (mkState [] []) = (Ok tt, mkState ps []) /\
     Forall (fun p => length p = HID_PACKET_SIZE) ps /\
     exists q, read_loop MAX_CHUNKS tt 0 0 [] (mkState [] ps) =
               (Ok (apdu_bytes cla ins p1 p2 data), mkState [] q)) /\
  exists q, read_apdu tt (mkState [] (frame (payload ++ [hi; lo]))) =
            (Ok (payload, Z.lor (Z.shiftl (u8_val hi) 8) (u8_val lo)), mkState [] q).
Proof.
  intros Hd Hp. destruct MAX_CHUNKS_big as [Hm1 Hm2].
  assert (Hread : forall m, (Z.of_nat (length m) <= 65535)%Z ->
    exists q, read_loop MAX_CHUNKS tt 0 0 [] (mkState [] (frame m)) = (Ok m, mkState [] q)).
  { intros m Hm. apply (read_loop_frames (S (S (length m))) (length m) MAX_CHUNKS 0 0 [] m []);
      cbn [length queued]; try lia; try done. by rewrite app_nil_r. }
  split.
  - set (m := apdu_bytes cla ins p1 p2 data).
    assert (Hm : (Z.of_nat (length m) <= 65535)%Z) by (unfold m; simpl; lia).
    exists (frame m). split_and!; [| |by apply Hread].
    + unfold write_apdu. fold m.
      by rewrite write_loop_frames by lia.
    + apply frames_packets.
  - destruct (Hread (payload ++ [hi; lo])) as [q E]; [rewrite length_app; simpl; lia|].
    exists q. unfold read_apdu, dtry, dbind. rewrite E. cbn [dret]. f_equal.
    unfold split_status. rewrite !length_app. cbn [length].
    rewrite (proj2 (Nat.ltb_ge (length payload + 2) 2)) by lia.
    replace (length payload + 2 - 2) with (length payload) by lia.
    rewrite take_app_length. rewrite !app_nth2 by lia.
    replace (length payload - length payload) with 0 by lia.
    replace (length payload + 2 - 1 - length payload) with 1 by lia. done.
Qed.

Lemma apdu_framing_roundtrip_witness :
  exists q, read_apdu tt (mkState [] (frame (as_bytes "Solana" ++ [x90; x00]))) =
            (Ok (as_bytes "Solana", Z.lor (Z.shiftl (u8_val x90) 8) (u8_val x00)), mkState [] q).
Proof.
  refine (proj2 (apdu_framing_roundtrip CLA_BOLOS INS_OPEN_APP x00 x00 [] (as_bytes "Solana") x90 x00 _ _));
    vm_compute; discriminate.
Defined.

End Loopback.

Lemma select_ledger_spec_witness :
  select_ledger [usb_path "1"; "/dev/hidraw3"] (usb_path "0") = Some 0 /\
  exists p, [usb_path "1"; "/dev/hidraw3"] !! 0 = Some p.
Proof.
  assert (E : select_ledger [usb_path "1"; "/dev/hidraw3"] (usb_path "0") = Some 0) by (vm_compute; reflexivity).
  split; [exact E|]. destruct (select_ledger_spec _ _ _ E) as (p & Hp & _). exists p. exact Hp.
Defined.

Lemma sole_ledger_spec_witness :
  sole_ledger [mkCandidate (usb_path "0") None; mkCandidate (usb_path "1") None] = Ok 0 /\ 0 = 0.
Proof.
  assert (E : sole_ledger [mkCandidate (usb_path "0") None; mkCandidate (usb_path "1") None] = Ok 0)
    by (vm_compute; reflexivity).
  split; [exact E|]. exact (proj1 (sole_ledger_spec _ _ E)).
Defined.
