(* ===== verification/Ledger.v ===== *)
(** * Ledger signer (src/rust/src/ledger/mod.rs)

    The off-chain message envelope, the error mapping, the device thread's
    session handling and commands, and the signer itself.  The device side is
    blocking code in [D] over [hidapi] and [solana-remote-wallet]; the signer is
    asynchronous code in [M] that exchanges commands with the device thread.
    [LedgerActor] models the claim that serialises those exchanges. *)

From stdpp Require Import sorting.
From S2P Require Import Prelude Errors World Externals TransactionUtil SignatureUtil Traits LedgerDashboard.

#[local] Open Scope keychain_scope.

(** ** Third-party code *)

(** [solana_remote_wallet]'s errors, as far as the crate tells them apart. *)
Inductive LedgerError := LedgerUserCancel | SdkNotSupported | LedgerOther (code : Z).
Inductive RemoteWalletError :=
  | UserCancel
  | LedgerErr (e : LedgerError)
  | NoDeviceFound
  | HidErr (detail : string)
  | Protocol (detail : string)
  | RwOther (detail : string).

Class RemoteWallets `{Hid} := {
  DerivationPath : Type;
  from_absolute_path_str : string -> Result DerivationPath string;
  LedgerWallet : Type;
  (** Whether [initialize_wallet_manager] succeeded. *)
  initialize_wallet_manager : Dev -> bool * Dev;
  update_devices : Dev -> Result nat RemoteWalletError * Dev;
  (** [list_devices], [None] for a wallet that is not a Ledger. *)
  list_devices : Dev -> list (option LedgerWallet) * Dev;
  (** [wallet.device.get_device_info()] and its path as UTF-8. *)
  device_info_path : LedgerWallet -> Dev -> option string;
  get_pubkey : LedgerWallet -> DerivationPath -> bool -> Dev -> Result (u8array 32) RemoteWalletError * Dev;
  rw_sign_message : LedgerWallet -> DerivationPath -> list byte -> Dev -> Result (list byte) RemoteWalletError * Dev;
  rw_sign_offchain_message :
    LedgerWallet -> DerivationPath -> list byte -> Dev -> Result (list byte) RemoteWalletError * Dev;
  (** [env!("SOLANA_REMOTE_WALLET_VERSION")]. *)
  RESOLVED_REMOTE_WALLET : string
}.

(** [solana_offchain_message::OffchainMessage::SIGNING_DOMAIN]. *)
Class OffchainCrate := { SIGNING_DOMAIN : u8array 16 }.

(** ** Constants *)

Definition DEFAULT_DERIVATION_PATH : string := "m/44'/501'/0'".
Definition OPS_TIMEOUT : Z := 10 * 1000.
Definition DEFAULT_SIGN_TIMEOUT : Z := 120 * 1000.

Record LedgerConfig := mkLedgerConfig {
  derivation_path : option string;
  confirm_pubkey_on_device : bool;
  cfg_host_device_path : option string;
  cfg_signing_timeout : Z;
  auto_open_app : bool
}.

Definition LedgerConfig_default : LedgerConfig := mkLedgerConfig None false None DEFAULT_SIGN_TIMEOUT true.

Definition BUSY_DETAIL : string :=
  "Ledger is busy with another operation or awaiting on-device confirmation".
Definition NO_DEVICE_DETAIL : string := "no Ledger device found (plug in, unlock, and open the Solana app)".
Definition busy_error : SignerError := NotAvailable BUSY_DETAIL.

Definition quote : string := of_bytes [x22].

(** The Linux build. *)
Definition LINUX_UDEV_HINT : string :=
  " On Linux this is most often missing udev rules: without them the device node is not readable by your user. See the " +:+
  quote +:+ "Linux: udev rules" +:+ quote +:+ " section of the Ledger backend documentation.".

(** ** The off-chain message envelope *)

Definition OFFCHAIN_HEADER_LEN_ONE_SIGNER : nat := 16 + 1 + 32 + 1 + 1 + 32 + 2.
Definition MAX_OFFCHAIN_PAYLOAD_LEN : nat := 1215 - OFFCHAIN_HEADER_LEN_ONE_SIGNER.

(** [(n as u16).to_le_bytes()]. *)
Definition u16_le (n : nat) : list byte :=
  let z := (Z.of_nat n mod 65536)%Z in [u8_of_Z z; u8_of_Z (Z.shiftr z 8)].

Definition printable (b : byte) : bool := byte_in 0x20 0x7e b.

Definition ledger_offchain_envelope `{OffchainCrate} (signer : Pubkey) (payload : list byte) : result (list byte) :=
  if bool_decide (payload = []) then
    Err (ConfigError "off-chain message payload is empty; a Ledger will not sign it")
  else if MAX_OFFCHAIN_PAYLOAD_LEN <? length payload then
    Err (ConfigError ("off-chain message payload is " +:+ pretty (length payload) +:+
                      " bytes; a Ledger accepts at most " +:+ pretty MAX_OFFCHAIN_PAYLOAD_LEN))
  else
    let? format :=
      if forallb printable payload then Ok x00
      else if utf8_valid payload then Ok x01
      else Err (ConfigError "off-chain message payload is not valid UTF-8; a Ledger will not sign it") in
    Ok (arr_bytes SIGNING_DOMAIN ++ [x00] ++ replicate 32 x00 ++ [format] ++ [x01] ++ arr_bytes signer ++
        u16_le (length payload) ++ payload).

(** ** Errors and diagnostics *)

Definition map_rw_err (e : RemoteWalletError) : SignerError :=
  match e with
  | UserCancel | LedgerErr LedgerUserCancel => UserRejected "request rejected on Ledger device"
  | NoDeviceFound => NotAvailable "no Ledger device found"
  | HidErr _ => NotAvailable ("Ledger is not reachable. Either it was disconnected, or another application is holding the device — quit Ledger Live and any other wallet software, then retry." +:+ LINUX_UDEV_HINT)
  | Protocol detail =>
      if contains detail "Version packet" then
        NotAvailable "the Ledger's Solana app speaks a configuration format this build of solana-remote-wallet cannot parse, so it will not enumerate the device. The device is not at fault. This needs a newer solana-remote-wallet (or an older Solana app); see the backend README."
      else
        NotAvailable "Ledger did not answer. It is either locked — unlock it and open the Solana app — or another application is holding the device, so quit Ledger Live and any other wallet software. Then retry."
  | LedgerErr SdkNotSupported =>
      SigningFailed ("the Ledger could not clear-sign this, and blind signing is disabled in the Solana app's settings. The device shows " +:+
        quote +:+ "This transaction cannot be clear-signed" +:+ quote +:+ " with a " +:+ quote +:+ "Go to settings" +:+ quote +:+
        " prompt, which has to be dismissed before it will answer anything else. Blind signing is required for off-chain messages that are not printable ASCII, and for transactions the app cannot decode.")
  | LedgerErr (LedgerOther _) | RwOther _ =>
      SigningFailed "the Ledger reported an error while signing. Nothing was signed. Run `just rust-ledger-diagnose` to capture what the device says about itself."
  end.

Definition signature_bytes (raw : list byte) : result (u8array 64) :=
  ok_or (SigningFailed "the Ledger returned a signature of the wrong length, so the response was truncated in transit. Nothing was signed. Retry, and if it persists run `just rust-ledger-diagnose`.")
    (array_try_from 64 raw).

Inductive SessionAction := Keep | DropSession.

#[global] Instance session_action_eq_dec : EqDecision SessionAction.
Proof. solve_decision. Defined.

Definition session_action (error : SignerError) : SessionAction :=
  match error with
  | NotAvailable _ | SigningFailed _ => DropSession
  | _ => Keep
  end.

Inductive Gen5Support := Absent | Present | Unknown.

Definition gen5_support (resolved : string) : Gen5Support :=
  match split_char x2e (as_bytes resolved) with
  | major :: minor :: _ =>
      match parse_uint (2 ^ 32 - 1) major, parse_uint (2 ^ 32 - 1) minor with
      | Some major, Some minor =>
          if (major <=? 3)%Z then Absent
          else if ((major =? 4) && (minor =? 0))%Z then Absent
          else Present
      | _, _ => Unknown
      end
  | _ => Unknown
  end.

Definition GEN5_PIDS : list Z := 0x0008%Z :: map (fun n => (0x8000 + Z.of_nat n)%Z) (seq 0 32).

Definition OTHER_CAUSES : string :=
  "the Solana app's configuration format -- app 1.16.0 answers GET_APP_CONFIGURATION with seven bytes where solana-remote-wallet requires exactly five, which is https://github.com/anza-xyz/agave/pull/15100 and needs that fix or an older app; or another application holding the device, in which case quit Ledger Live and any other wallet software".

Definition unenumerated_detail (attached : list Z) (resolved : string) : string :=
  let pid_list := str_join ", " (map hex4 attached) in
  let gen5 := existsb (fun p => bool_decide (p ∈ GEN5_PIDS)) attached in
  let cause :=
    match gen5, gen5_support resolved with
    | true, Absent => "This is a Nano Gen5, and this build resolved solana-remote-wallet " +:+ resolved +:+
        ", which predates the Gen5 product ids added in 4.1 and therefore cannot see the device at all. 4.0.x is what the Solana 3.x crate line selects."
    | true, Present => "This is a Nano Gen5, and this build resolved solana-remote-wallet " +:+ resolved +:+
        ", which does carry the Gen5 product ids, so the crate version is not the cause. Two causes remain and this layer cannot tell them apart: " +:+ OTHER_CAUSES +:+ "."
    | true, Unknown => "This is a Nano Gen5, and this build's solana-remote-wallet version could not be determined (" +:+ resolved +:+
        "), so the version cannot be ruled out. Check it with `just rust-which-remote-wallet`, or `cargo tree -i solana-remote-wallet` outside this repository. If it is 4.0.x it cannot see this device at all and that is the whole problem. If it is 4.1 or later, two causes remain: " +:+ OTHER_CAUSES +:+ "."
    | false, Unknown => "This build's solana-remote-wallet version could not be determined (" +:+ resolved +:+
        "), and whichever one it is did not recognise that product id, so it never enumerated the device. A newer solana-remote-wallet may be required; check which one you have with `just rust-which-remote-wallet`."
    | false, _ => "This build resolved solana-remote-wallet " +:+ resolved +:+
        ", which does not recognise that product id, so it never enumerated the device. A newer solana-remote-wallet may be required."
    end in
  "a Ledger device is attached (product id " +:+ pid_list +:+ ") but this build did not enumerate it. " +:+ cause +:+
  " Run `just rust-ledger-diagnose` to separate them: an app-configuration mismatch leaves the BOLOS dashboard answering normally and only enumeration failing, while a process holding the device fails even a raw HID open." +:+ LINUX_UDEV_HINT.

(** [Vec::dedup]. *)
Fixpoint dedup (l : list Z) : list Z :=
  match l with
  | x :: ((y :: _) as r) => if (x =? y)%Z then dedup r else x :: dedup r
  | _ => l
  end.

(** ** The device thread *)

Section Device.
Context `{HID : Hid} `{!RemoteWallets}.

Definition attached_ledger_pids : D (list Z) :=
  let% api := hid_api_new in
  dret (match api with
        | None => []
        | Some infos =>
            dedup (merge_sort Z.le (map product_id (filter (fun d => vendor_id d = LEDGER_VID) infos)))
        end).

Definition no_ledger_enumerated_error : D SignerError :=
  let% attached := attached_ledger_pids in
  dret (match attached with
        | [] => NotAvailable NO_DEVICE_DETAIL
        | _ => NotAvailable (unenumerated_detail attached RESOLVED_REMOTE_WALLET)
        end).

(** [hid_path]. *)
Definition hid_path (wallet : LedgerWallet) : D (option string) := fun d => (device_info_path wallet d, d).

(** [ledgers.into_iter().find(|w| hid_path(w) == Some(want))]. *)
Fixpoint find_at (want : string) (ledgers : list LedgerWallet) : D (option LedgerWallet) :=
  match ledgers with
  | [] => dret None
  | w :: r =>
      let% p := hid_path w in
      if bool_decide (p = Some want) then dret (Some w) else find_at want r
  end.

Definition establish_session (path : DerivationPath) (confirm : bool) (host_device_path : option string)
    : D (result (LedgerWallet * u8array 32)) :=
  let% manager := initialize_wallet_manager in
  if negb manager then dret (Err hid_unavailable) else
  let% count := update_devices in
  match count with
  | Err e => dret (Err (map_rw_err e))
  | Ok 0 => let% e := no_ledger_enumerated_error in dret (Err e)
  | Ok _ =>
      let% devices := list_devices in
      let ledgers := omap id devices in
      try% ledger :=
        match host_device_path with
        | Some want =>
            let% found := find_at want ledgers in
            dret (ok_or (NotAvailable ("no Ledger device at host path `" +:+ want +:+ "`")) found)
        | None =>
            match ledgers with
            | [] => let% e := no_ledger_enumerated_error in dret (Err e)
            | [w] => dret (Ok w)
            | _ => dret (Err (multiple_devices_error (length ledgers)))
            end
        end in
      let% pubkey := get_pubkey ledger path confirm in
      dret (let? pubkey := map_err map_rw_err pubkey in Ok (ledger, pubkey))
  end.

Record Session := mkSession { wallet : LedgerWallet; session_host : option string }.

Definition parse_path (path_str : string) : result DerivationPath :=
  map_err (fun e => ConfigError ("invalid derivation path: " +:+ e)) (from_absolute_path_str path_str).

(** [f] gets the session's wallet; [&mut session] comes back beside the result. *)
Definition with_session {T} (session : option Session) (path_str : string) (host_device_path : option string)
    (f : LedgerWallet -> DerivationPath -> D (result T)) : D (option Session * result T) :=
  match parse_path path_str with
  | Err e => dret (session, Err e)
  | Ok path =>
      let session :=
        match session with
        | Some active => if bool_decide (session_host active ≠ host_device_path) then None else session
        | None => None
        end in
      let% established :=
        match session with
        | Some active => dret (Ok active)
        | None =>
            let% r := establish_session path false host_device_path in
            dret (let? (w, _) := r in Ok (mkSession w host_device_path))
        end in
      match established with
      | Err e => dret (None, Err e)
      | Ok active =>
          let% res := f (wallet active) path in
          dret (match res with
                | Err error => if bool_decide (session_action error = DropSession)
                               then (None, res) else (Some active, res)
                | Ok _ => (Some active, res)
                end)
      end
  end.

(** [for _ in 0..20] after the app was launched. *)
Fixpoint retry_connect (n : nat) (attempt : D (result (LedgerWallet * u8array 32)))
    (connected : result (LedgerWallet * u8array 32)) : D (result (LedgerWallet * u8array 32)) :=
  match n with
  | 0 => dret connected
  | S n =>
      let% _ := (fun d => (tt, thread_sleep 250 d)) in
      let% connected := attempt in
      match connected with
      | Ok _ => dret connected
      | Err _ => retry_connect n attempt connected
      end
  end.

(** The [Connect] arm, after the derivation path parsed. *)
Definition connect_body (session : option Session) (path : DerivationPath) (confirm auto_open : bool)
    (host_device_path : option string) : D (option Session * result (u8array 32)) :=
  let reusable :=
    match session with
    | Some s => if bool_decide (session_host s = host_device_path) && negb confirm then Some s else None
    | None => None
    end in
  let% reused :=
    match reusable with
    | Some existing => let% r := get_pubkey (wallet existing) path false in dret (res_ok r)
    | None => dret None
    end in
  match reused with
  | Some pubkey => dret (session, Ok pubkey)
  | None =>
      let attempt := establish_session path confirm host_device_path in
      let% connected := attempt in
      let% outcome :=
        if negb (is_ok connected) && auto_open then
          let% launched := ensure_solana_app_open host_device_path in
          match launched with
          | Ok _ => let% c := retry_connect 20 attempt connected in dret (Ok c)
          | Err (NotAvailable d as e) => dret (if contains d "is locked" then Err e else Ok connected)
          | Err (UserRejected _ as e) => dret (Err e)
          | Err _ => dret (Ok connected)
          end
        else dret (Ok connected) in
      dret (match outcome with
            | Err e => (None, Err e)
            | Ok (Err e) => (None, Err e)
            | Ok (Ok (w, pubkey_bytes)) => (Some (mkSession w host_device_path), Ok pubkey_bytes)
            end)
  end.

(** [DeviceCommand], without the claim and the reply channel, and the replies. *)
Inductive DeviceCommand :=
  | Connect (path_str : string) (confirm : bool) (host : option string) (auto_open : bool)
  | SignTransactionMessage (path_str : string) (message : list byte) (host : option string)
  | SignOffchainMessage (path_str : string) (message : list byte) (host : option string)
  | IsAvailable (path_str : string) (host : option string)
  | IsAttached.

Inductive DeviceReply :=
  | PubkeyReply (r : result (u8array 32))
  | SignatureReply (r : result (u8array 64))
  | BoolReply (b : bool).

Definition sign_with (sign : LedgerWallet -> DerivationPath -> list byte -> Dev -> Result (list byte) RemoteWalletError * Dev)
    (message : list byte) (w : LedgerWallet) (path : DerivationPath) : D (result (u8array 64)) :=
  let% r := sign w path message in
  dret (let? raw := map_err map_rw_err r in signature_bytes raw).

(** One iteration of [device_thread]'s loop. *)
Definition handle_command (session : option Session) (cmd : DeviceCommand) : D (option Session * DeviceReply) :=
  match cmd with
  | Connect path_str confirm host auto_open =>
      match parse_path path_str with
      | Err e => dret (session, PubkeyReply (Err e))
      | Ok path =>
          let% p := connect_body session path confirm auto_open host in
          dret (p.1, PubkeyReply p.2)
      end
  | SignTransactionMessage path_str message host =>
      let% p := with_session session path_str host (sign_with rw_sign_message message) in
      dret (p.1, SignatureReply p.2)
  | SignOffchainMessage path_str message host =>
      let% p := with_session session path_str host (sign_with rw_sign_offchain_message message) in
      dret (p.1, SignatureReply p.2)
  | IsAvailable path_str host =>
      let% p := with_session session path_str host (fun w path =>
        let% r := get_pubkey w path false in dret (map_err map_rw_err r)) in
      dret (p.1, BoolReply (is_ok p.2))
  | IsAttached =>
      let% api := hid_api_new in
      dret (session, BoolReply (match api with
                                | Some infos => existsb (fun d => (vendor_id d =? LEDGER_VID)%Z) infos
                                | None => false
                                end))
  end.

(** [device_thread]: the commands in the order the channel delivers them. *)
Fixpoint device_thread (session : option Session) (cmds : list DeviceCommand)
    : D (option Session * list DeviceReply) :=
  match cmds with
  | [] => dret (session, [])
  | cmd :: r =>
      let% p := handle_command session cmd in
      let% q := device_thread p.1 r in
      dret (q.1, p.2 :: q.2)
  end.

End Device.

(** ** The signer *)

(** What a caller sees of one exchange with the device thread: the blocking task
    did not finish, the channel was closed, no reply within the timeout, the
    thread went away, or a reply. *)
Inductive channel_outcome (A : Type) :=
  | JoinFailed (e : string)
  | SendFailed
  | TimedOut
  | Disconnected
  | Replied (a : A).
Arguments JoinFailed {A} e.
Arguments SendFailed {A}.
Arguments TimedOut {A}.
Arguments Disconnected {A}.
Arguments Replied {A} a.

(** The process-wide device thread as a caller reaches it. *)
Class DeviceThread := {
  (** The [compare_exchange] on [DEVICE_BUSY]; whether it succeeded. *)
  claim_device : M bool;
  device_is_busy : M bool;
  exchange_pubkey : DeviceCommand -> Z -> M (channel_outcome (result (u8array 32)));
  exchange_signature : DeviceCommand -> Z -> M (channel_outcome (result (u8array 64)));
  exchange_bool : DeviceCommand -> Z -> M (channel_outcome bool)
}.

Record LedgerSigner := mkLedgerSigner {
  pubkey : Pubkey;
  path_str : string;
  host_device_path : option string;
  signing_timeout : Z
}.

Section Signer.
Context `{Codecs} `{SolanaSdk} `{OffchainCrate} `{HID : Hid} `{!RemoteWallets} `{DeviceThread}.

(** [DeviceClaim::acquire]. *)
Definition acquire : M (result unit) :=
  let! won := claim_device in ret (if (won : bool) then Ok tt else Err busy_error).

(** [request_on]: what each channel outcome is reported as. *)
Definition request_on {A} (outcome : channel_outcome (result A)) : result A :=
  match outcome with
  | Replied r => r
  | JoinFailed e => Err (Other ("Ledger signing task failed: " +:+ e))
  | SendFailed => Err (NotAvailable "Ledger device thread is not running")
  | TimedOut => Err busy_error
  | Disconnected => Err (NotAvailable "Ledger device thread stopped")
  end.

Definition connect_with (config : LedgerConfig) : M (result LedgerSigner) :=
  let path_str := default DEFAULT_DERIVATION_PATH (derivation_path config) in
  try _ := parse_path path_str in
  let timeout := if confirm_pubkey_on_device config || auto_open_app config
                 then cfg_signing_timeout config else OPS_TIMEOUT in
  try! _ := acquire in
  let! outcome := exchange_pubkey
    (Connect path_str (confirm_pubkey_on_device config) (cfg_host_device_path config) (auto_open_app config)) timeout in
  try pubkey_bytes := request_on outcome in
  ret (Ok (mkLedgerSigner pubkey_bytes path_str (cfg_host_device_path config) (cfg_signing_timeout config))).

Definition connect (derivation_path : option string) (confirm : bool) (host : option string) : M (result LedgerSigner) :=
  connect_with (mkLedgerConfig derivation_path confirm host
                  (cfg_signing_timeout LedgerConfig_default) (auto_open_app LedgerConfig_default)).

Definition is_attached : M bool :=
  let! busy := device_is_busy in
  if (busy : bool) then ret false else
  let! outcome := exchange_bool IsAttached OPS_TIMEOUT in
  ret (match outcome with Replied attached => attached | _ => false end).

Definition sign_message (self : LedgerSigner) (message : list byte) : M (result Signature) :=
  try serialized := ledger_offchain_envelope (pubkey self) message in
  try! _ := acquire in
  let! outcome := exchange_signature (SignOffchainMessage (path_str self) serialized (host_device_path self))
                    (signing_timeout self) in
  try signature := request_on outcome in
  try _ := verify_or_reject signature (pubkey self) serialized in
  ret (Ok signature).

Definition is_available (self : LedgerSigner) : M bool :=
  let! won := claim_device in
  if negb won then ret false else
  let! outcome := exchange_bool (IsAvailable (path_str self) (host_device_path self)) OPS_TIMEOUT in
  ret (match outcome with Replied available => available | _ => false end).

(** The part of [sign_transaction] up to the verification. *)
Definition sign_on_device (self : LedgerSigner) (message : list byte) : M (result Signature) :=
  try! _ := acquire in
  let! outcome := exchange_signature (SignTransactionMessage (path_str self) message (host_device_path self))
                    (signing_timeout self) in
  try signature := request_on outcome in
  try _ := verify_or_reject signature (pubkey self) message in
  ret (Ok signature).

Definition sign_transaction (self : LedgerSigner) (tx : VersionedTransaction)
    : M (VersionedTransaction * result SignTransactionResult) :=
  mut! (tx, signed_transaction) :=
    (try! signature := sign_on_device self (message_serialize (message tx)) keeping tx in
     of_run (attach_and_serialize tx (pubkey self) signature)) in
  ret (tx, Ok (classify_signed_transaction tx signed_transaction)).

#[global] Instance ledger_solana_signer : SolanaSigner LedgerSigner := {
  Traits.pubkey self := Returned (pubkey self);
  Traits.sign_message := sign_message;
  Traits.is_available := is_available
}.

#[global] Instance ledger_transaction_signer : TransactionSigner LedgerSigner := {
  transaction_signer_base := ledger_solana_signer;
  Traits.sign_transaction := sign_transaction
}.

#[global] Instance ledger_laws : TransactionSignerLaws LedgerSigner.
Proof.
  split. intros s tx. apply (sign_attach_classify (pubkey s)).
  unfold sign_on_device. walk. simpl. eauto with keychain.
Qed.

(** A message signature from a Ledger covers the off-chain envelope of
    the message for the signer's key, never the bare message: whatever the
    device answers, a signature is returned only if the envelope exists and the
    signature verifies over it. *)
Theorem ledger_message_verified (self : LedgerSigner) (message : list byte) :
  returns (sign_message self message) (on_ok (fun sg =>
    exists env, ledger_offchain_envelope (pubkey self) message = Ok env /\
                verifies sg (pubkey self) env = true)).
Proof. unfold sign_message. walk. simpl. eauto with keychain. Qed.

End Signer.

(** ** The envelope *)

(** The layout the Solana app parses for one signer: the signing domain, the header
    version, the application domain, the format, the number of signers, the
    signer's key and the length, then the payload and nothing else. *)
Record Envelope := mkEnvelope {
  env_domain : list byte; env_version : byte; env_application : list byte; env_format : byte;
  env_signers : byte; env_key : list byte; env_length : nat; env_payload : list byte
}.

Definition parse_envelope (env : list byte) : option Envelope :=
  let len := Z.to_nat (u8_val (nth 83 env x00) + 256 * u8_val (nth 84 env x00)) in
  if bool_decide (length env = 85 + len) then
    Some (mkEnvelope (take 16 env) (nth 16 env x00) (slice 17 49 env) (nth 49 env x00) (nth 50 env x00) (slice 51 83 env)
            len (drop 85 env))
  else None.

(** Printable ASCII. *)
Definition all_printable (payload : list byte) : Prop := Forall (fun b => 32 <= u8_val b <= 126)%Z payload.

Lemma u16_le_value n :
  (Z.of_nat n < 65536)%Z ->
  exists lo hi, u16_le n = [lo; hi] /\ (u8_val lo + 256 * u8_val hi)%Z = Z.of_nat n.
Proof.
  intros Hn. unfold u16_le. do 2 eexists. split; [reflexivity|].
  rewrite !u8_val_of_Z, (Z.mod_small (Z.of_nat n) 65536), Z.shiftr_div_pow2 by lia.
  change (2 ^ 8)%Z with 256%Z. rewrite (Z.mod_small (Z.of_nat n / 256)).
  - pose proof (Z.div_mod (Z.of_nat n) 256). lia.
  - split; [apply Z.div_pos; lia|apply Z.div_lt_upper_bound; lia].
Qed.

Section EnvelopeFacts.
Context `{OffchainCrate}.

Lemma envelope_Ok pk payload env :
  ledger_offchain_envelope pk payload = Ok env <->
  payload ≠ [] /\ length payload <= MAX_OFFCHAIN_PAYLOAD_LEN /\ utf8_valid payload = true /\
  env = arr_bytes SIGNING_DOMAIN ++ [x00] ++ replicate 32 x00 ++
        [if forallb printable payload then x00 else x01] ++ [x01] ++ arr_bytes pk ++
        u16_le (length payload) ++ payload.
Proof.
  assert (Hascii : forallb printable payload = true -> utf8_valid payload = true).
  { clear. induction payload as [|b l IH]; cbn [forallb utf8_valid]; [done|].
    intros [Hb Hl]%andb_true_iff. assert (byte_in 0 0x7f b = true) as -> by (by destruct b). auto. }
  unfold ledger_offchain_envelope. case_bool_decide as Hne; [naive_solver|].
  destruct (Nat.ltb_spec MAX_OFFCHAIN_PAYLOAD_LEN (length payload)); [naive_solver lia|].
  destruct (forallb printable payload); cbn [res_bind].
  - specialize (Hascii eq_refl). split; [intros [= <-]; done|]. by intros (_ & _ & _ & ->).
  - destruct (utf8_valid payload); cbn [res_bind]; [|naive_solver].
    split; [intros [= <-]; done|]. by intros (_ & _ & _ & ->).
Qed.

Lemma printable_spec payload : forallb printable payload = true <-> all_printable payload.
Proof.
  unfold all_printable. rewrite forallb_forall, Forall_forall. unfold printable, byte_in.
  split; intros Hp b Hb; specialize (Hp b); rewrite list_elem_of_In in *; specialize (Hp Hb);
    rewrite ?andb_true_iff, ?Z.leb_le in *; lia.
Qed.

(** C35: an envelope is built exactly for the payloads that are not empty, are
    valid UTF-8 and have at most 1130 bytes; any other is a configuration error.
    It is 85 bytes longer than the payload, so at most 1215 bytes, and the layout
    the Solana app parses recovers every field: the signing domain, version 0, the
    application domain of 32 zero bytes, the format (0 for printable ASCII and 1
    for other UTF-8), one signer, the signer's key, the exact length and the
    payload.  Nothing is truncated. *)
Theorem ledger_envelope_roundtrip (pk : Pubkey) (payload : list byte) :
  match ledger_offchain_envelope pk payload with
  | Ok env =>
      payload ≠ [] /\ length payload <= 1130 /\ utf8_valid payload = true /\
      length env = 85 + length payload /\
      exists format, (format = x00 /\ all_printable payload \/ format = x01 /\ ~ all_printable payload) /\
        parse_envelope env = Some (mkEnvelope (arr_bytes SIGNING_DOMAIN) x00 (replicate 32 x00) format
                                     x01 (arr_bytes pk) (length payload) payload)
  | Err e => (payload = [] \/ 1130 < length payload \/ utf8_valid payload = false) /\ exists d, e = ConfigError d
  end.
Proof.
  destruct (ledger_offchain_envelope pk payload) as [env|e] eqn:E.
  - apply envelope_Ok in E as (Hne & Hlen & Hutf & ->). unfold MAX_OFFCHAIN_PAYLOAD_LEN, OFFCHAIN_HEADER_LEN_ONE_SIGNER in Hlen.
    destruct (u16_le_value (length payload)) as (lo & hi & Hu & Hv); [lia|]. rewrite Hu.
    pose proof (array_length SIGNING_DOMAIN) as HD. pose proof (array_length pk) as HK.
    generalize dependent (arr_bytes SIGNING_DOMAIN). intros dom HD.
    generalize dependent (arr_bytes pk). intros key HK.
    set (fmt := if forallb printable payload then x00 else x01).
    do 16 (destruct dom as [|? dom]; [done|]). destruct dom; [|done].
    do 32 (destruct key as [|? key]; [done|]). destruct key; [|done].
    split_and!; [done|lia|done|simpl; lia|]. exists fmt. split.
    { unfold fmt. rewrite <- printable_spec. destruct (forallb printable payload); auto. }
    unfold parse_envelope. cbn [app nth replicate]. rewrite Hv, Nat2Z.id.
    rewrite bool_decide_eq_true_2 by done. reflexivity.
  - unfold ledger_offchain_envelope in E. case_bool_decide; [split; [auto|]; injection E as <-; eauto|].
    destruct (Nat.ltb_spec MAX_OFFCHAIN_PAYLOAD_LEN (length payload)) as [Hl|Hl].
    { split; [right; left|injection E as <-; eauto]. exact Hl. }
    destruct (forallb printable payload); [done|]. destruct (utf8_valid payload); [done|].
    split; [auto|]. injection E as <-. eauto.
Qed.

End EnvelopeFacts.

(** ** Sessions *)

Section SessionFacts.
Context `{HID : Hid} `{!RemoteWallets}.

(** The errors that cost the session. *)
Definition costs_session (e : SignerError) : Prop := exists d, e = NotAvailable d \/ e = SigningFailed d.

(** The device reports that its user refused. *)
Definition user_declined (e : RemoteWalletError) : Prop := e = UserCancel \/ e = LedgerErr LedgerUserCancel.

(** The session a command runs on: the cached one if it is for the device asked
    for, or else a new one, if one can be had. *)
Definition runs_on (session : option Session) (host : option string) (path : DerivationPath) (d : Dev)
    (established : result Session) (d1 : Dev) : Prop :=
  (exists a, session = Some a /\ session_host a = host /\ established = Ok a /\ d1 = d) \/
  ((forall a, session = Some a -> session_host a ≠ host) /\
   match establish_session path false host d with
   | (Ok (w, _), d') => established = Ok (mkSession w host) /\ d1 = d'
   | (Err e, d') => established = Err e /\ d1 = d'
   end).

Lemma costs_session_action e : costs_session e <-> session_action e = DropSession.
Proof. split; [by intros (d & [-> | ->])|]. destruct e; try done; intros _; eexists; eauto. Qed.

(** C36: the life of a session.  A bad derivation path leaves the device alone and
    the cached session as it was, even one for another device.  Otherwise the
    command runs on the cached session if that is for the device asked for, and on
    a new one if not; if none can be had, that error is the answer and no session
    is cached.  The session the command ran on, which is for the device asked for,
    is cached afterwards exactly if the command succeeded or failed with an error
    other than [NotAvailable] and [SigningFailed]; of the device's own errors,
    those are all but the user's refusal, so a refusal keeps the session. *)
Theorem with_session_spec {T} (session : option Session) (path : string) (host : option string)
    (f : LedgerWallet -> DerivationPath -> D (result T)) (d : Dev) :
  (forall e, costs_session (map_rw_err e) <-> ~ user_declined e) /\
  let '(session', r, d') := with_session session path host f d in
  match parse_path path with
  | Err e => session' = session /\ r = Err e /\ d' = d
  | Ok p => exists established d1, runs_on session host p d established d1 /\
      match established with
      | Err e => session' = None /\ r = Err e /\ d' = d1
      | Ok a => session_host a = host /\ f (wallet a) p d1 = (r, d') /\
          (forall t, r = Ok t -> session' = Some a) /\
          (forall e, r = Err e -> costs_session e -> session' = None) /\
          (forall e, r = Err e -> ~ costs_session e -> session' = Some a)
      end
  end.
Proof.
  split.
  { intros e. unfold user_declined. rewrite costs_session_action.
    destruct e as [|[| |]| | | |]; cbn; repeat case_match; cbn; naive_solver. }
  unfold with_session. destruct (parse_path path) as [p|e]; [|done].
  set (est := match _ with Some active => dret (Ok active) | None => _ end).
  assert (runs_on session host p d (est d).1 (est d).2 /\ forall a, (est d).1 = Ok a -> session_host a = host) as [Hrun Hhost].
  { unfold est, runs_on. destruct session as [a|]; [case_bool_decide as Hb|].
    2: { split; [left; by exists a|]. by intros b [= <-]. }
    all: unfold dbind; destruct (establish_session p false host d) as [[[w k]|e] d1]; cbn;
      (split; [right; split; [by intros ? [= <-]|done]|by intros ? [= <-]]). }
  unfold dbind at 1. destruct (est d) as [[a|e] d1]; cbn [fst snd] in *; [|by exists (Err e), d1].
  unfold dbind. destruct (f (wallet a) p d1) as [[t|e] d2] eqn:Ef; cbn [dret].
  - exists (Ok a), d1. split_and!; [done|by apply Hhost|done..].
  - case_bool_decide as Ha; rewrite <- costs_session_action in Ha; cbn; exists (Ok a), d1;
      (split_and!; [done|by apply Hhost|done| | |]); intros ? [= <-]; done.
Qed.

End SessionFacts.
