(* ===== verification/LedgerActor.v ===== *)
(** * The claim on the Ledger device (src/rust/src/ledger/mod.rs)

    Any number of callers race for [DEVICE_BUSY], enqueue their commands and wait
    for a reply with a timeout; one device thread serves the queue.  The
    interleaving is a step relation over the flag, the claims in flight, the
    command channel, the command being served and the calls that still wait.
    The claim travels with its command, so a claimed command in the channel or on
    the device thread is a claim in flight. *)

From stdpp Require Import relations.
From S2P Require Import Prelude Errors World Externals Traits LedgerDashboard Ledger.

#[local] Open Scope keychain_scope.

(** The commands with a [claim] field. *)
Definition claims_device (cmd : DeviceCommand) : bool :=
  match cmd with IsAttached => false | _ => true end.

(** How a call ends: refused at the flag, or with a channel outcome. *)
Inductive CallOutcome := Refused | Answered (o : channel_outcome DeviceReply).

Section Actor.
Context `{HID : Hid} `{!RemoteWallets}.

(** The callers' side.  A call is known by its position in [issued]. *)
Record Callers := mkCallers {
  busy : bool;                            (* DEVICE_BUSY *)
  issued : list DeviceCommand;            (* the calls begun, oldest first *)
  holding : list (nat * DeviceCommand);   (* claim won, command not sent yet *)
  probing : list nat;                     (* is_attached past its busy check *)
  waiting : list nat;                     (* in recv_timeout *)
  outcomes : list (nat * CallOutcome)     (* finished calls, latest first *)
}.

(** The command taken off the channel, and whether its reply has been sent: the
    claim is dropped only after that. *)
Record Serving := mkServing { srv_call : nat; srv_cmd : DeviceCommand; srv_replied : bool }.

(** The channel and the device thread.  [log] has the commands served, oldest
    first, with the replies put into the callers' reply channels. *)
Record Thread := mkThread {
  queue : list (nat * DeviceCommand);
  serving : option Serving;
  alive : bool;
  session : option Session;
  dev : Dev;
  log : list (nat * DeviceCommand * DeviceReply)
}.

Definition Sys : Type := Callers * Thread.

Definition init (d : Dev) : Sys := (mkCallers false [] [] [] [] [], mkThread [] None true None d []).

(** ** Claims *)

Fixpoint count_claims (l : list (nat * DeviceCommand)) : nat :=
  match l with [] => 0 | x :: r => (if claims_device x.2 then 1 else 0) + count_claims r end.

Definition serving_cmd (v : option Serving) : list (nat * DeviceCommand) :=
  match v with Some x => [(srv_call x, srv_cmd x)] | None => [] end.

(** Claims that exist: held by a caller, in the channel, or on the thread. *)
Definition claims (s : Sys) : nat :=
  length (holding s.1) + count_claims (queue s.2) + count_claims (serving_cmd (serving s.2)).

(** Dropping [n] claims: each [Drop] stores [false]. *)
Definition drop_claims (n : nat) (b : bool) : bool := match n with 0 => b | S _ => false end.

(** Whether nothing can still write to the reply channel of call [i]. *)
Definition reply_unreachable (i : nat) (t : Thread) : bool :=
  negb (existsb (fun x => x.1 =? i) (queue t ++
          match serving t with Some (mkServing _ _ true) => [] | v => serving_cmd v end)) &&
  negb (existsb (fun x => x.1.1 =? i) (log t)).

(** ** Steps *)

Inductive step : Sys -> Sys -> Prop :=
  (** [DeviceClaim::acquire] or [try_acquire]: the compare-exchange. *)
  | acquire_ok iss h p w o t cmd :
      claims_device cmd = true ->
      step (mkCallers false iss h p w o, t)
           (mkCallers true (iss ++ [cmd]) ((length iss, cmd) :: h) p w o, t)
  | acquire_busy iss h p w o t cmd :
      claims_device cmd = true ->
      step (mkCallers true iss h p w o, t)
           (mkCallers true (iss ++ [cmd]) h p w ((length iss, Refused) :: o), t)
  (** The blocking task is lost before it runs, and the claim in it with it. *)
  | task_lost b iss h1 h2 p w o t i cmd e :
      step (mkCallers b iss (h1 ++ (i, cmd) :: h2) p w o, t)
           (mkCallers (drop_claims 1 b) iss (h1 ++ h2) p w ((i, Answered (JoinFailed e)) :: o), t)
  (** [cmd_tx.send(build(claim, reply_tx))]; on failure the command comes back
      and is dropped. *)
  | send_ok b iss h1 h2 p w o q v ss d l i cmd :
      step (mkCallers b iss (h1 ++ (i, cmd) :: h2) p w o, mkThread q v true ss d l)
           (mkCallers b iss (h1 ++ h2) p (i :: w) o, mkThread (q ++ [(i, cmd)]) v true ss d l)
  | send_err b iss h1 h2 p w o q v ss d l i cmd :
      step (mkCallers b iss (h1 ++ (i, cmd) :: h2) p w o, mkThread q v false ss d l)
           (mkCallers (drop_claims 1 b) iss (h1 ++ h2) p w ((i, Answered SendFailed) :: o),
            mkThread q v false ss d l)
  (** [is_attached]: the load of the flag and, later, a send without a claim. *)
  | probe_busy iss h p w o t :
      step (mkCallers true iss h p w o, t)
           (mkCallers true (iss ++ [IsAttached]) h p w ((length iss, Refused) :: o), t)
  | probe_free iss h p w o t :
      step (mkCallers false iss h p w o, t)
           (mkCallers false (iss ++ [IsAttached]) h (length iss :: p) w o, t)
  | probe_send b iss h p1 p2 w o q v ss d l i :
      step (mkCallers b iss h (p1 ++ i :: p2) w o, mkThread q v true ss d l)
           (mkCallers b iss h (p1 ++ p2) (i :: w) o, mkThread (q ++ [(i, IsAttached)]) v true ss d l)
  | probe_err b iss h p1 p2 w o q v ss d l i :
      step (mkCallers b iss h (p1 ++ i :: p2) w o, mkThread q v false ss d l)
           (mkCallers b iss h (p1 ++ p2) w ((i, Answered SendFailed) :: o), mkThread q v false ss d l)
  (** [recv_timeout]: gives up, finds the reply, or finds the sender gone. *)
  | recv_timed_out b iss h p w1 w2 o t i :
      step (mkCallers b iss h p (w1 ++ i :: w2) o, t)
           (mkCallers b iss h p (w1 ++ w2) ((i, Answered TimedOut) :: o), t)
  | recv_reply b iss h p w1 w2 o t i cmd r :
      (i, cmd, r) ∈ log t ->
      step (mkCallers b iss h p (w1 ++ i :: w2) o, t)
           (mkCallers b iss h p (w1 ++ w2) ((i, Answered (Replied r)) :: o), t)
  | recv_disconnected b iss h p w1 w2 o t i :
      reply_unreachable i t = true ->
      step (mkCallers b iss h p (w1 ++ i :: w2) o, t)
           (mkCallers b iss h p (w1 ++ w2) ((i, Answered Disconnected) :: o), t)
  (** [cmd_rx.recv()]. *)
  | dequeue c q ss d l i cmd :
      step (c, mkThread ((i, cmd) :: q) None true ss d l)
           (c, mkThread q (Some (mkServing i cmd false)) true ss d l)
  (** The arm's work, up to and including [let _ = reply.send(..)]. *)
  | serve c q ss d l i cmd ss' r d' :
      handle_command ss cmd d = ((ss', r), d') ->
      step (c, mkThread q (Some (mkServing i cmd false)) true ss d l)
           (c, mkThread q (Some (mkServing i cmd true)) true ss' d' (l ++ [(i, cmd, r)]))
  (** The end of the arm drops [_claim]. *)
  | release b iss h p w o q ss d l i cmd :
      step (mkCallers b iss h p w o, mkThread q (Some (mkServing i cmd true)) true ss d l)
           (mkCallers (drop_claims (count_claims [(i, cmd)]) b) iss h p w o, mkThread q None true ss d l)
  (** A panic unwinds the thread: the command served and the channel are dropped. *)
  | crash b iss h p w o q v ss d d' l :
      step (mkCallers b iss h p w o, mkThread q v true ss d l)
           (mkCallers (drop_claims (count_claims q + count_claims (serving_cmd v)) b) iss h p w o,
            mkThread [] None false None d' l).

Definition reachable (d : Dev) (s : Sys) : Prop := rtc step (init d) s.

(** ** The invariant *)

(** The commands that may still be served or have been, with their calls. *)
Definition in_flight (s : Sys) : list (nat * DeviceCommand) :=
  holding s.1 ++ map (fun i => (i, IsAttached)) (probing s.1) ++ queue s.2 ++
  (match serving s.2 with Some (mkServing _ _ true) => [] | v => serving_cmd v end) ++
  map fst (log s.2).

(** The log is a run of the sequential [device_thread]. *)
Definition sequential (d0 : Dev) (t : Thread) : Prop :=
  exists ss d, device_thread None (map (fun x => x.1.2) (log t)) d0 = ((ss, map snd (log t)), d) /\
               (alive t = true -> session t = ss /\ dev t = d).

Record inv (d0 : Dev) (s : Sys) : Prop := mk_inv {
  inv_claims : claims s = if busy s.1 then 1 else 0;
  inv_holding : Forall (fun x => claims_device x.2 = true) (holding s.1);
  inv_sequential : sequential d0 s.2;
  inv_issued : Forall (fun x => issued s.1 !! x.1 = Some x.2) (in_flight s);
  inv_once : NoDup (map fst (in_flight s));
  inv_replies : forall i r, (i, Answered (Replied r)) ∈ outcomes s.1 -> exists cmd, (i, cmd, r) ∈ log s.2;
  inv_dead : alive s.2 = false -> queue s.2 = [] /\ serving s.2 = None
}.

Lemma count_claims_app l1 l2 : count_claims (l1 ++ l2) = count_claims l1 + count_claims l2.
Proof. induction l1; simpl; lia. Qed.

Lemma device_thread_snoc session cmds cmd d s1 rs d1 s2 r d2 :
  device_thread session cmds d = ((s1, rs), d1) ->
  handle_command s1 cmd d1 = ((s2, r), d2) ->
  device_thread session (cmds ++ [cmd]) d = ((s2, rs ++ [r]), d2).
Proof.
  revert session d rs. induction cmds as [|c cmds IH]; intros session d rs; simpl.
  - intros [= -> <- <-] H2. unfold dbind, dret. rewrite H2. done.
  - unfold dbind, dret. destruct (handle_command session c d) as [[sa ra] da]. simpl.
    destruct (device_thread sa cmds da) as [[sb rb] db] eqn:E. intros [= -> <- ->] H2.
    by rewrite (IH _ _ _ E H2).
Qed.

(** A step serves nothing that was not in flight or freshly issued. *)
Lemma step_in_flight s s' :
  step s s' ->
  issued s'.1 = issued s.1 /\ in_flight s' ⊆+ in_flight s \/
  exists cmd, issued s'.1 = issued s.1 ++ [cmd] /\
              in_flight s' ⊆+ (length (issued s.1), cmd) :: in_flight s.
Proof.
  unfold in_flight. destruct 1; simpl;
    rewrite ?map_app; simpl; rewrite <-?(assoc (++)); simpl;
    first [left; split; [done|]; solve_submseteq | right; eexists; split; [done|]; solve_submseteq].
Qed.

Lemma step_claims s s' :
  Forall (fun x => claims_device x.2 = true) (holding s.1) ->
  claims s = (if busy s.1 then 1 else 0) -> step s s' ->
  claims s' = (if busy s'.1 then 1 else 0) /\ Forall (fun x => claims_device x.2 = true) (holding s'.1).
Proof.
  unfold claims. intros HF HC. destruct 1; simpl in *;
    rewrite ?Forall_app, ?Forall_cons, ?length_app, ?count_claims_app in *; simpl in *;
    destruct_and?; split; eauto;
    repeat match goal with
    | H : claims_device _ = _ |- _ => rewrite H
    | |- context [claims_device ?c] => destruct (claims_device c)
    | b : bool |- _ => destruct b
    end; simpl in *; try lia.
  all: destruct (count_claims q + count_claims (serving_cmd v)) eqn:E; simpl; lia.
Qed.

Lemma step_sequential d0 s s' : step s s' -> sequential d0 s.2 -> sequential d0 s'.2.
Proof.
  unfold sequential. destruct 1; simpl; try done; intros (ss0 & dd & Hrun & Hlive).
  - destruct (Hlive eq_refl) as [-> ->]. exists ss', d'.
    rewrite !map_app. split; [|done]. simpl. by eapply device_thread_snoc.
  - exists ss0, dd. by split.
Qed.

Lemma step_replies s s' :
  step s s' ->
  (forall i r, (i, Answered (Replied r)) ∈ outcomes s.1 -> exists cmd, (i, cmd, r) ∈ log s.2) ->
  forall i r, (i, Answered (Replied r)) ∈ outcomes s'.1 -> exists cmd, (i, cmd, r) ∈ log s'.2.
Proof. destruct 1; simpl; intros IH j r'; rewrite ?elem_of_cons; set_solver. Qed.

Lemma step_dead s s' :
  step s s' -> (alive s.2 = false -> queue s.2 = [] /\ serving s.2 = None) ->
  alive s'.2 = false -> queue s'.2 = [] /\ serving s'.2 = None.
Proof. destruct 1; simpl; auto; done. Qed.

Lemma inv_init d : inv d (init d).
Proof.
  split; simpl; try done; try by constructor.
  - exists None, d. done.
  - set_solver.
Qed.

Lemma submseteq_inherits (P : nat * DeviceCommand -> Prop) l k :
  l ⊆+ k -> Forall P k -> NoDup (map fst k) -> Forall P l /\ NoDup (map fst l).
Proof.
  intros [m Hm]%submseteq_Permutation HF HN. rewrite Hm, Forall_app in HF.
  apply (Permutation_map fst) in Hm. rewrite Hm, map_app, NoDup_app in HN. tauto.
Qed.

Lemma fresh_not_in_flight s :
  Forall (fun x => issued s.1 !! x.1 = Some x.2) (in_flight s) ->
  length (issued s.1) ∉ map fst (in_flight s).
Proof.
  intros HF (x & Hx & Hin)%list_elem_of_fmap. rewrite Forall_forall in HF.
  apply HF, lookup_lt_Some in Hin. lia.
Qed.

Lemma inv_step d s s' : inv d s -> step s s' -> inv d s'.
Proof.
  intros [Hc Hh Hs Hi Ho Hr Hd] Hst. destruct (step_claims _ _ Hh Hc Hst).
  assert (Forall (fun x => issued s'.1 !! x.1 = Some x.2) (in_flight s') /\ NoDup (map fst (in_flight s'))) as [? ?].
  { destruct (step_in_flight _ _ Hst) as [[-> Hsub]|(cmd & -> & Hsub)];
      apply (submseteq_inherits _ _ _ Hsub); [done..| |].
    - constructor; simpl; [by rewrite lookup_app_r, Nat.sub_diag by done|].
      eapply Forall_impl; [done|]. simpl. intros x. apply lookup_app_l_Some.
    - simpl. constructor; [by apply fresh_not_in_flight|done]. }
  split; eauto using step_sequential, step_replies, step_dead.
Qed.

Lemma reachable_inv d s : reachable d s -> inv d s.
Proof.
  intros Hr. generalize (inv_init d). revert Hr. unfold reachable. generalize (init d).
  induction 1; eauto using inv_step.
Qed.

(** C2: under every interleaving of callers, timeouts and crashes, at most
    one command that touches the device exists anywhere, held by a caller, in the
    channel or on the device thread; the busy flag is set exactly when one does,
    and no step taken while one is queued or served lets another caller claim
    the device, a timeout of the first one included. *)
Theorem device_claim_exclusive (d : Dev) (s : Sys) :
  reachable d s ->
  claims s <= 1 /\ (busy s.1 = true <-> claims s = 1) /\
  (1 <= count_claims (queue s.2) + count_claims (serving_cmd (serving s.2)) ->
   holding s.1 = [] /\ forall s', step s s' -> holding s'.1 = []).
Proof.
  intros Hr. pose proof (reachable_inv _ _ Hr) as Hi. pose proof (inv_claims _ _ Hi) as Hc.
  assert (Hh : 1 <= count_claims (queue s.2) + count_claims (serving_cmd (serving s.2)) -> holding s.1 = []).
  { intros Hl. unfold claims in Hc. destruct (holding s.1); [done|]. simpl in Hc. destruct (busy s.1); lia. }
  split_and!; [destruct (busy s.1); lia|destruct (busy s.1); split; (done || lia)|].
  intros Hl. specialize (Hh Hl). split; [done|]. intros s' Hst.
  unfold claims in Hc. rewrite Hh in Hc. destruct Hst; simpl in *; try done; try lia;
    by apply app_nil in Hh as [_ ?].
Qed.

(** C25: whatever the interleaving, the device sees one sequential run of the
    commands: the log is a run of [device_thread], each call is served at most
    once and with the command it issued, and a reply a call got is the one that
    run produced for its own command. *)
Theorem device_calls_linearised (d : Dev) (s : Sys) :
  reachable d s ->
  sequential d s.2 /\
  NoDup (map (fun x => x.1.1) (log s.2)) /\
  (forall i cmd r, (i, cmd, r) ∈ log s.2 -> issued s.1 !! i = Some cmd) /\
  (forall i r, (i, Answered (Replied r)) ∈ outcomes s.1 ->
     exists cmd, issued s.1 !! i = Some cmd /\ (i, cmd, r) ∈ log s.2).
Proof.
  intros Hr. destruct (reachable_inv _ _ Hr) as [_ _ Hs Hi Ho Hrep _].
  assert (Hlog : forall i cmd r, (i, cmd, r) ∈ log s.2 -> issued s.1 !! i = Some cmd).
  { intros i cmd r Hin. rewrite Forall_forall in Hi. apply (Hi (i, cmd)). unfold in_flight.
    rewrite !elem_of_app. do 4 right. apply list_elem_of_fmap. by exists (i, cmd, r). }
  split_and!; [done| |done|naive_solver].
  unfold in_flight in Ho. rewrite !map_app, !NoDup_app, !map_map in Ho. tauto.
Qed.

(** ** No claim is lost *)

Lemma serve_one c q v ss d l i cmd :
  v = Some (mkServing i cmd false) ->
  exists c' ss' d' l', rtc step (c, mkThread q v true ss d l) (c', mkThread q None true ss' d' l') /\
    holding c' = holding c /\ issued c' = issued c.
Proof.
  intros ->. destruct c as [b iss h p w o]. destruct (handle_command ss cmd d) as [[ss' r] d'] eqn:E.
  do 4 eexists. split; [eapply rtc_l; [by apply serve|]; apply rtc_once; apply release|done].
Qed.

Lemma drain c q v ss d l :
  exists c' ss' d' l', rtc step (c, mkThread q v true ss d l) (c', mkThread [] None true ss' d' l') /\
    holding c' = holding c /\ issued c' = issued c.
Proof.
  assert (Hnone : forall q c ss d l, exists c' ss' d' l',
    rtc step (c, mkThread q None true ss d l) (c', mkThread [] None true ss' d' l') /\
    holding c' = holding c /\ issued c' = issued c).
  { clear. induction q as [|[i cmd] q IH]; intros c ss d l; [by do 4 eexists|].
    destruct (serve_one c q _ ss d l i cmd eq_refl) as (c1 & ss1 & d1 & l1 & H1 & <- & <-).
    destruct (IH c1 ss1 d1 l1) as (c2 & ss2 & d2 & l2 & H2 & Heq). exists c2, ss2, d2, l2.
    split; [|done]. eapply rtc_l; [apply dequeue|]. by etrans. }
  destruct v as [[i cmd []]|]; [| |apply Hnone].
  - destruct c as [b iss h p w o].
    destruct (Hnone q (mkCallers (drop_claims (count_claims [(i, cmd)]) b) iss h p w o) ss d l)
      as (c2 & ss2 & d2 & l2 & H2 & Heq). exists c2, ss2, d2, l2. split; [|done].
    eapply rtc_l; [apply release|done].
  - destruct (serve_one c q _ ss d l i cmd eq_refl) as (c1 & ss1 & d1 & l1 & H1 & <- & <-).
    destruct (Hnone q c1 ss1 d1 l1) as (c2 & ss2 & d2 & l2 & H2 & Heq). exists c2, ss2, d2, l2.
    split; [|done]. by etrans.
Qed.

(** C26: no claim is ever lost.  From every reachable state, by serving and
    sending what is already there and without any new call, the system reaches a
    state in which the device is free again, whether the calls timed out, the
    tasks were lost or the thread died. *)
Theorem device_always_freed (d : Dev) (s : Sys) :
  reachable d s ->
  exists s', rtc step s s' /\ busy s'.1 = false /\ issued s'.1 = issued s.1.
Proof.
  intros Hr. assert (Hfree : forall c t, rtc step s (c, t) -> holding c = [] -> queue t = [] ->
    serving t = None -> busy c = false).
  { intros c t Hst Hh Hq Hv. assert (Hi : inv d (c, t)) by (apply reachable_inv; unfold reachable; by etrans).
    apply inv_claims in Hi. unfold claims in Hi. simpl in Hi. rewrite Hh, Hq, Hv in Hi.
    by destruct (busy c). }
  destruct s as [[b iss h p w o] [q v a ss dv l]].
  assert (Hh : h = [] \/ exists x, h = [x]).
  { pose proof (inv_claims _ _ (reachable_inv _ _ Hr)) as Hc. unfold claims in Hc. simpl in Hc.
    destruct h as [|x [|y h]]; eauto. simpl in Hc. destruct b; lia. }
  destruct a.
  - destruct Hh as [->|[[i cmd] ->]].
    + destruct (drain (mkCallers b iss [] p w o) q v ss dv l) as (c & ss' & d' & l' & Hst & Hh & Hiss).
      exists (c, mkThread [] None true ss' d' l'). eauto.
    + destruct (drain (mkCallers b iss [] p (i :: w) o) (q ++ [(i, cmd)]) v ss dv l)
        as (c & ss' & d' & l' & Hst & Hh & Hiss).
      assert (Hst' : rtc step (mkCallers b iss [(i, cmd)] p w o, mkThread q v true ss dv l)
                       (c, mkThread [] None true ss' d' l')).
      { eapply rtc_l; [apply (send_ok b iss [] [])|done]. }
      exists (c, mkThread [] None true ss' d' l'). eauto.
  - destruct (inv_dead _ _ (reachable_inv _ _ Hr) eq_refl) as [Hq Hv]. simpl in Hq, Hv. subst q v.
    destruct Hh as [->|[[i cmd] ->]]; [eexists; split; [apply rtc_refl|]; split; [by eapply Hfree; [apply rtc_refl|..]|done]|].
    eexists. split; [apply rtc_once, (send_err b iss [] [])|done].
Qed.

(** The reply is sent before the claim is dropped, so a caller that has
    its answer and alone uses the device can still find it busy on its next
    call. *)
Theorem reply_precedes_release (d : Dev) (cmd cmd' : DeviceCommand) :
  claims_device cmd = true -> claims_device cmd' = true ->
  exists s s' r, reachable d s /\ issued s.1 = [cmd] /\ outcomes s.1 = [(0, Answered (Replied r))] /\
    step s s' /\ issued s'.1 = [cmd; cmd'] /\ outcomes s'.1 = [(1, Refused); (0, Answered (Replied r))].
Proof.
  intros Hc Hc'. destruct (handle_command None cmd d) as [[ss r] d'] eqn:E.
  exists (mkCallers true [cmd] [] [] [] [(0, Answered (Replied r))],
          mkThread [] (Some (mkServing 0 cmd true)) true ss d' [(0, cmd, r)]).
  eexists _, r. split; [|split_and!; [done..|by apply acquire_busy|done|done]].
  eapply rtc_l; [by apply (acquire_ok [] [] [] [] [] _ cmd)|].
  eapply rtc_l; [apply (send_ok true [cmd] [] [])|].
  eapply rtc_l; [apply dequeue|]. eapply rtc_l; [by apply serve|].
  apply rtc_once. apply (recv_reply true [cmd] [] [] [] [] [] _ 0 cmd r). set_solver.
Qed.

End Actor.

(** ** A concrete device *)

Module LedgerDemo.

#[local] Existing Instance Loopback.loopback.

#[export] Instance demo_wallets : RemoteWallets := {|
  DerivationPath := string;
  from_absolute_path_str := fun s => if contains s "m/44'" then Ok s else Err "not a BIP-44 path";
  LedgerWallet := unit;
  initialize_wallet_manager := fun d => (true, d);
  update_devices := fun d => (Ok 1, d);
  list_devices := fun d => ([None; Some tt], d);
  device_info_path := fun _ _ => Some "/dev/hidraw3";
  get_pubkey := fun _ _ _ d => (Ok (array_repeat 32 x07), d);
  rw_sign_message := fun _ _ _ d => (Err UserCancel, d);
  rw_sign_offchain_message := fun _ _ m d => (Ok (take 64 m), d);
  RESOLVED_REMOTE_WALLET := "4.0.2"
|}.

Definition demo_dev : Dev := Loopback.mkState [] [].
Definition connect_cmd : DeviceCommand := Connect DEFAULT_DERIVATION_PATH false None false.
Definition probe_cmd : DeviceCommand := IsAvailable DEFAULT_DERIVATION_PATH None.

(** One caller's command waits in the channel; a second caller was refused. *)
Definition contended : Sys :=
  (mkCallers true [connect_cmd; probe_cmd] [] [] [0] [(1, Refused)],
   mkThread [(0, connect_cmd)] None true None demo_dev []).

Lemma contended_reachable : reachable demo_dev contended.
Proof.
  eapply rtc_l; [by apply (acquire_ok [] [] [] [] [] _ connect_cmd)|].
  eapply rtc_l; [by apply (acquire_busy [connect_cmd] _ [] [] [] _ probe_cmd)|].
  apply rtc_once. apply (send_ok true _ [] []).
Defined.

Lemma device_claim_exclusive_witness :
  claims contended = 1 /\ holding contended.1 = [] /\
  forall s', step contended s' -> holding s'.1 = [].
Proof.
  split; [reflexivity|].
  apply (device_claim_exclusive demo_dev contended contended_reachable). apply le_n.
Defined.

Lemma device_calls_linearised_witness : sequential demo_dev contended.2.
Proof. exact (proj1 (device_calls_linearised demo_dev contended contended_reachable)). Defined.

Lemma device_always_freed_witness :
  busy contended.1 = true /\
  exists s', rtc step contended s' /\ busy s'.1 = false /\ issued s'.1 = [connect_cmd; probe_cmd].
Proof. split; [reflexivity|]. exact (device_always_freed demo_dev contended contended_reachable). Defined.

Lemma reply_precedes_release_witness :
  exists s s' r, reachable demo_dev s /\ issued s.1 = [connect_cmd] /\
    outcomes s.1 = [(0, Answered (Replied r))] /\ step s s' /\ issued s'.1 = [connect_cmd; probe_cmd] /\
    outcomes s'.1 = [(1, Refused); (0, Answered (Replied r))].
Proof. apply (reply_precedes_release demo_dev connect_cmd probe_cmd); reflexivity. Defined.

End LedgerDemo.
