(* ===== verification/LedgerChannel.v ===== *)
(** * The channel to the device thread (src/rust/src/ledger/mod.rs)

    [DEVICE_THREAD] is a [OnceLock]: the first caller makes a channel and spawns
    the thread, callers that come meanwhile block, later ones clone the sender.
    A spawn that fails panics in the caller and leaves the lock empty, so that
    the next caller tries again.  A sender is known by its channel, and callers
    by a number; the interleaving is a step relation. *)

From stdpp Require Import relations.
From S2P Require Import Prelude World.

#[local] Open Scope keychain_scope.

(** The state of the [OnceLock]; the initialiser has a channel, and may have
    spawned the thread that receives from it. *)
Inductive OnceLock :=
  | Empty
  | Running (caller channel : nat) (spawned : bool)
  | Full (channel : nat).

Record Process := mkProcess {
  DEVICE_THREAD : OnceLock;
  channels : nat;                  (* [mpsc::channel()] calls so far *)
  threads : list nat;              (* the channel each spawned thread receives from *)
  calls : list (nat * run nat)     (* finished calls of [device_channel], oldest first *)
}.

Definition boot : Process := mkProcess Empty 0 [] [].

(** One call of [device_channel], uninterrupted; [spawns] is whether the operating
    system makes the thread.  While another call runs the closure, it blocks. *)
Definition device_channel (spawns : bool) (p : Process) : option (run nat * Process) :=
  match DEVICE_THREAD p with
  | Full tx => Some (Returned tx, p)
  | Running _ _ _ => None
  | Empty =>
      let cmd_tx := channels p in
      if spawns then Some (Returned cmd_tx, mkProcess (Full cmd_tx) (S cmd_tx) (threads p ++ [cmd_tx]) (calls p))
      else Some (Panicked, mkProcess Empty (S cmd_tx) (threads p) (calls p))
  end.

(** Outside of tests the channel of every command is [device_channel]. *)
Definition command_channel (spawns : bool) (p : Process) : option (run nat * Process) := device_channel spawns p.

(** ** Interleavings *)

Inductive chan_step : Process -> Process -> Prop :=
  (** [get_or_init] finds a value. *)
  | get c tx n ts cs : chan_step (mkProcess (Full tx) n ts cs) (mkProcess (Full tx) n ts (cs ++ [(c, Returned tx)]))
  (** It finds none: the caller runs the closure, first [mpsc::channel()]. *)
  | get_begin c n ts cs : chan_step (mkProcess Empty n ts cs) (mkProcess (Running c n false) (S n) ts cs)
  (** [spawn(move || device_thread(cmd_rx))] and its [expect]. *)
  | spawn_ok c tx n ts cs : chan_step (mkProcess (Running c tx false) n ts cs) (mkProcess (Running c tx true) n (ts ++ [tx]) cs)
  | spawn_err c tx n ts cs : chan_step (mkProcess (Running c tx false) n ts cs) (mkProcess Empty n ts (cs ++ [(c, Panicked)]))
  (** The sender is published. *)
  | publish c tx n ts cs : chan_step (mkProcess (Running c tx true) n ts cs) (mkProcess (Full tx) n ts (cs ++ [(c, Returned tx)])).

Definition chan_reachable (p : Process) : Prop := rtc chan_step boot p.

(** The calls first panic, then all return the one sender. *)
Definition calls_end (one : option nat) (cs : list (nat * run nat)) : Prop :=
  exists early late, cs = early ++ late /\ Forall (fun x => x.2 = Panicked) early /\
    match one with
    | Some tx => late ≠ [] /\ Forall (fun x => x.2 = Returned tx) late
    | None => late = []
    end.

Definition chan_inv (p : Process) : Prop :=
  match DEVICE_THREAD p with
  | Empty | Running _ _ false => threads p = [] /\ calls_end None (calls p)
  | Running _ tx true => threads p = [tx] /\ calls_end None (calls p)
  | Full tx => threads p = [tx] /\ calls_end (Some tx) (calls p)
  end.

Lemma calls_end_panic cs c : calls_end None cs -> calls_end None (cs ++ [(c, Panicked)]).
Proof.
  intros (early & late & -> & He & ->). exists (early ++ [(c, Panicked)]), []. rewrite !app_nil_r. split_and!; [done| |done].
  apply Forall_app. split; [done|by repeat constructor].
Qed.

Lemma calls_end_return one cs c tx :
  calls_end one cs -> (one = None \/ one = Some tx) -> calls_end (Some tx) (cs ++ [(c, Returned tx)]).
Proof.
  intros (early & late & -> & He & Hl) Hone. exists early, (late ++ [(c, Returned tx)]). rewrite (assoc_L (++)).
  split_and!; [done|done|by destruct late|]. apply Forall_app. split; [|by repeat constructor].
  destruct Hone as [->| ->]; [subst late; constructor|apply Hl].
Qed.

Lemma chan_step_inv p p' : chan_inv p -> chan_step p p' -> chan_inv p'.
Proof.
  intros Hp Hs. destruct Hs; cbn in *; destruct Hp as [Ht Hc].
  - split; [done|]. eapply calls_end_return; [exact Hc|auto].
  - done.
  - by rewrite Ht.
  - split; [done|]. by apply calls_end_panic.
  - split; [done|]. eapply calls_end_return; [exact Hc|auto].
Qed.

Lemma chan_reachable_inv p : chan_reachable p -> chan_inv p.
Proof.
  intros Hr. assert (forall a b, rtc chan_step a b -> chan_inv a -> chan_inv b) as Hgen.
  { induction 1; eauto using chan_step_inv. }
  apply (Hgen _ _ Hr). split; [done|]. by exists [], [].
Qed.

(** A call that is not interrupted is one of the interleavings. *)
Lemma device_channel_steps c spawns p r p' :
  device_channel spawns p = Some (r, p') ->
  rtc chan_step p (mkProcess (DEVICE_THREAD p') (channels p') (threads p') (calls p' ++ [(c, r)])).
Proof.
  destruct p as [[|d tx b|tx] n ts cs]; unfold device_channel; cbn; [|done|].
  - destruct spawns; intros [= <- <-]; cbn; (eapply rtc_l; [apply (get_begin c)|]).
    + eapply rtc_l; [apply spawn_ok|]. eapply rtc_l; [apply publish|]. apply rtc_refl.
    + eapply rtc_l; [apply spawn_err|]. apply rtc_refl.
  - intros [= <- <-]; cbn. eapply rtc_l; [apply (get c)|]. apply rtc_refl.
Qed.

(** C27: one device thread.  However many callers ask for the channel at once
    and however often the thread cannot be spawned, at most one thread is ever
    spawned; every call that returns, returns the sender of that thread's
    channel, and from then on no call panics: the panics of failed spawns all
    come before the first sender is handed out. *)
Theorem one_device_thread (p : Process) :
  chan_reachable p ->
  (forall c tx, (c, Returned tx) ∈ calls p -> threads p = [tx] /\
     forall spawns, command_channel spawns p = Some (Returned tx, p)) /\
  length (threads p) <= 1 /\
  exists early late, calls p = early ++ late /\ Forall (fun x => x.2 = Panicked) early /\
    Forall (fun x => exists tx, x.2 = Returned tx /\ threads p = [tx]) late.
Proof.
  intros Hp%chan_reachable_inv. unfold chan_inv in Hp.
  assert (exists one, calls_end one (calls p) /\
    forall tx, one = Some tx -> threads p = [tx] /\ DEVICE_THREAD p = Full tx) as (one & (early & late & Hc & He & Hl) & Hone).
  { destruct (DEVICE_THREAD p) as [|c tx []|tx] eqn:E; [exists None|exists None|exists None|exists (Some tx)];
      (split; [apply Hp|]); intros ? [=]; subst; by split; [apply Hp|]. }
  split_and!.
  - intros c tx Hin. rewrite Hc in Hin. apply elem_of_app in Hin as [Hin|Hin].
    { rewrite Forall_forall in He. by specialize (He _ Hin). }
    destruct one as [tx'|]; [|subst late; by apply not_elem_of_nil in Hin]. destruct Hl as [_ Hl]. rewrite Forall_forall in Hl.
    specialize (Hl _ Hin). cbn in Hl. injection Hl as ->. destruct (Hone _ eq_refl) as [Ht Hf]. split; [done|].
    intros spawns. unfold command_channel, device_channel. by rewrite Hf.
  - destruct (DEVICE_THREAD p) as [|? ? []|]; destruct Hp as [-> _]; cbn; lia.
  - exists early, late. split_and!; [done..|]. destruct one as [tx|]; [|by subst late].
    destruct Hl as [_ Hl], (Hone _ eq_refl) as [Ht _]. eapply Forall_impl; [exact Hl|]. intros x Hx. by exists tx.
Qed.

(** A failed spawn, a retry that works, and a later call. *)
Definition twice_asked : Process := mkProcess (Full 1) 2 [1] [(0, Panicked); (1, Returned 1); (2, Returned 1)].

Lemma twice_asked_reachable : chan_reachable twice_asked.
Proof.
  unfold chan_reachable. etrans; [by apply (device_channel_steps 0 false boot)|].
  etrans; [by apply (device_channel_steps 1 true (mkProcess Empty 1 [] [(0, Panicked)]))|].
  apply (device_channel_steps 2 false (mkProcess (Full 1) 2 [1] [(0, Panicked); (1, Returned 1)]) (Returned 1) (mkProcess (Full 1) 2 [1] [(0, Panicked); (1, Returned 1)])); done.
Qed.

Lemma one_device_thread_witness :
  threads twice_asked = [1] /\ command_channel false twice_asked = Some (Returned 1, twice_asked).
Proof.
  destruct (proj1 (one_device_thread twice_asked twice_asked_reachable) 2 1) as [Ht Hc].
  - set_solver.
  - split; [exact Ht|]. apply Hc.
Defined.
