(* ===== verification/Keychain.v ===== *)
(** * The unified signer (src/rust/src/lib.rs)

    [Signer] of a build with every backend, and the two ways it is used: through
    the [SolanaSigner] methods, which dispatch on the variant, and through
    [sign_and_send], which asks the variant what it can do.  A trait object is a
    type with its instance and a value of it. *)

From S2P Require Import Prelude Errors World Externals TransactionUtil SignatureUtil RemoteUtil Traits.
From S2P Require Import Memory Vault Privy Turnkey Kms Fireblocks WalletJwt Cdp Dfns Openfort Para Crossmint.
From S2P Require Import Utila Fordefi LedgerDashboard Ledger LedgerActor.

#[local] Open Scope keychain_scope.

(** The text of the [JoinError] of a blocking task that panicked. *)
Class Tokio := { join_error : string }.

(** [spawn_blocking(f).await], with the panic of [f] as a [JoinError]. *)
Definition spawn_blocking {A} `{Tokio} (on_panic : string -> SignerError) (f : M (result A)) : M (result A) :=
  fun w => match f w with
           | (Panicked, w') => (Returned (Err (on_panic join_error)), w')
           | r => r
           end.

(** ** Trait objects *)

Section Dyn.
Context `{SolanaSdk}.

Record DynTransactionSigner := DynTransaction {
  ts_type : Type; ts_inst : TransactionSigner ts_type; ts_value : ts_type }.
Record DynModifyingSigner := DynModifying {
  ms_type : Type; ms_inst : ModifyingSigner ms_type; ms_value : ms_type }.
Record DynSendingSigner := DynSending {
  ss_type : Type; ss_inst : SendingSigner ss_type; ss_value : ss_type }.

End Dyn.

Arguments DynTransaction {_ _ _} _.
Arguments DynModifying {_ _ _} _.
Arguments DynSending {_ _ _} _.

Section Keychain.
Context `{Codecs} `{SolanaSdk} `{Json} `{FileSystem} `{ClientBuild} `{UrlParser} `{Jwt} `{Dalek} `{StdText}.
Context `{BuildProfile} `{Ecdsa} `{JsonText} `{PrivyCodec} `{TurnkeyCodec} `{AwsSdk} `{GcpSdk} `{FireblocksCodec}.
Context `{HttpHeaders} `{CdpCodec} `{!PemKeys} `{DfnsCodec} `{OpenfortCodec} `{ParaCodec} `{CrossmintCodec}.
Context `{UtilaCodec} `{P256} `{FordefiCodec}.
Context `{OffchainCrate} `{HID : Hid} `{!RemoteWallets} `{DeviceThread} `{Tokio}.

Inductive Signer :=
  | Memory (s : MemorySigner)
  | Vault (s : VaultSigner)
  | Privy (s : PrivySigner)
  | Turnkey (s : TurnkeySigner)
  | AwsKms (s : Aws.AwsKmsSigner)
  | Fireblocks (s : FireblocksSigner)
  | GcpKms (s : Gcp.GcpKmsSigner)
  | Cdp (s : CdpSigner)
  | Dfns (s : DfnsSigner)
  | Openfort (s : OpenfortSigner)
  | Para (s : ParaSigner)
  | Crossmint (s : CrossmintSigner)
  | Utila (s : UtilaSigner)
  | FordefiBlackBox (s : FordefiBlackBoxSigner)
  | FordefiNativeAuto (s : FordefiNativeAutoSigner)
  | FordefiNativeManual (s : FordefiNativeManualSigner)
  | Ledger (s : LedgerSigner).

(** ** Construction *)

Definition from_memory (private_key : string) : run (result Signer) :=
  match MemorySigner.from_private_key_string private_key with
  | Returned (Ok s) => Returned (Ok (Memory s))
  | Returned (Err e) => Returned (Err e)
  | Panicked => Panicked
  | Dropped why => Dropped why
  end.

Definition from_memory_file (path : string) : result Signer :=
  let? s := MemorySigner.from_private_key_file path in Ok (Memory s).

Definition from_vault (vault_addr vault_token key_name pubkey : string)
    (http_client_config : option HttpClientConfig) : result Signer :=
  let? s := Vault.from_config (mkVaultSignerConfig vault_addr vault_token key_name pubkey http_client_config) in
  Ok (Vault s).

Definition from_privy (app_id app_secret wallet_id : string) (http_client_config : option HttpClientConfig)
    : M (result Signer) :=
  try signer := Privy.from_config (mkPrivySignerConfig app_id app_secret wallet_id None http_client_config None
                                     ExpiryDefault) in
  let! (signer, r) := Privy.init signer in
  try _ := r in
  ret (Ok (Privy signer)).

Definition from_turnkey (api_public_key api_private_key organization_id private_key_id public_key : string)
    (http_client_config : option HttpClientConfig) : result Signer :=
  let? s := Turnkey.from_config (mkTurnkeySignerConfig api_public_key api_private_key organization_id
                                   private_key_id public_key None http_client_config) in
  Ok (Turnkey s).

Definition from_aws_kms (key_id public_key : string) (region : option string) : M (result Signer) :=
  try! s := Aws.from_config (Aws.mkAwsKmsSignerConfig key_id public_key region) in
  ret (Ok (AwsKms s)).

Definition from_fireblocks (config : FireblocksSignerConfig) : M (result Signer) :=
  try signer := Fireblocks.new config in
  let! (signer, r) := Fireblocks.init signer in
  try _ := r in
  ret (Ok (Fireblocks signer)).

Definition from_gcp_kms (key_name public_key : string) : M (result Signer) :=
  try! s := Gcp.from_config (Gcp.mkGcpKmsSignerConfig key_name public_key) in
  ret (Ok (GcpKms s)).

Definition from_para (api_key wallet_id : string) (api_base_url : option string) : M (result Signer) :=
  try signer := Para.from_config (mkParaSignerConfig api_key wallet_id api_base_url) in
  let! (signer, r) := Para.init signer in
  try _ := r in
  ret (Ok (Para signer)).

Definition from_cdp (config : CdpSignerConfig) : result Signer :=
  let? s := Cdp.from_config config in Ok (Cdp s).

Definition from_dfns (config : DfnsSignerConfig) : M (result Signer) :=
  try signer := Dfns.new config in
  let! (signer, r) := Dfns.init signer in
  try _ := r in
  ret (Ok (Dfns signer)).

Definition from_crossmint (config : CrossmintSignerConfig) : M (result Signer) :=
  try signer := Crossmint.new config in
  let! (signer, r) := Crossmint.init signer in
  try _ := r in
  ret (Ok (Crossmint signer)).

Definition from_openfort (secret_key account_id wallet_secret : string)
    (http_client_config : option HttpClientConfig) : M (result Signer) :=
  try signer := Openfort.from_config (mkOpenfortSignerConfig secret_key account_id wallet_secret None
                                        http_client_config) in
  let! (signer, r) := Openfort.init signer in
  try _ := r in
  ret (Ok (Openfort signer)).

Definition from_utila (config : UtilaSignerConfig) : M (result Signer) :=
  try signer := Utila.new config in
  let! (signer, r) := Utila.init signer in
  try _ := r in
  ret (Ok (Utila signer)).

Definition from_fordefi (config : FordefiSignerConfig) : result Signer :=
  match cfg_chain config, cfg_push_mode config with
  | None, _ => let? s := BlackBox.from_config config in Ok (FordefiBlackBox s)
  | Some _, Some Manual => let? s := NativeManual.from_config config in Ok (FordefiNativeManual s)
  | Some _, _ => let? s := NativeAuto.from_config config in Ok (FordefiNativeAuto s)
  end.

Definition from_ledger (config : LedgerConfig) : M (result Signer) :=
  try! signer := spawn_blocking (fun e => Other ("Ledger connect task failed: " +:+ e)) (connect_with config) in
  ret (Ok (Ledger signer)).

(** ** Capabilities *)

Definition as_transaction_signer (self : Signer) : option DynTransactionSigner :=
  match self with
  | Memory s => Some (DynTransaction s)
  | Vault s => Some (DynTransaction s)
  | Privy s => Some (DynTransaction s)
  | Turnkey s => Some (DynTransaction s)
  | AwsKms s => Some (DynTransaction s)
  | Fireblocks s => Some (DynTransaction s)
  | GcpKms s => Some (DynTransaction s)
  | Cdp s => Some (DynTransaction s)
  | Dfns s => Some (DynTransaction s)
  | Openfort s => Some (DynTransaction s)
  | Para s => Some (DynTransaction s)
  | Utila s => Some (DynTransaction s)
  | FordefiBlackBox s => Some (DynTransaction s)
  | Ledger s => Some (DynTransaction s)
  | Crossmint _ => None
  | FordefiNativeAuto _ => None
  | FordefiNativeManual _ => None
  end.

Definition as_modifying_signer (self : Signer) : option DynModifyingSigner :=
  match self with FordefiNativeManual s => Some (DynModifying s) | _ => None end.

Definition as_sending_signer (self : Signer) : option DynSendingSigner :=
  match self with
  | Crossmint s => Some (DynSending s)
  | FordefiNativeAuto s => Some (DynSending s)
  | _ => None
  end.

Definition sign_and_send (self : Signer) (tx : VersionedTransaction) (send : string -> M (result Signature))
    : M (VersionedTransaction * result Signature) :=
  match as_sending_signer self with
  | Some d =>
      try! signature := @sign_and_send_transaction _ _ (ss_inst d) (ss_value d) tx keeping tx in
      ret (tx, require_broadcast_signature signature)
  | None =>
      match as_transaction_signer self with
      | Some d => @Traits.sign_and_send _ _ (ts_inst d) (ts_value d) tx send
      | None =>
          match as_modifying_signer self with
          | Some d => @modify_and_send _ _ (ms_inst d) (ms_value d) tx send
          | None => ret (tx, Err (SigningFailed
              "This signer supports neither sign_transaction nor sign_and_send_transaction"))
          end
      end
  end.

(** [dispatch_signer!]. *)
Definition dispatch {A} (self : Signer) (f : forall S, SolanaSigner S -> S -> A) : A :=
  match self with
  | Memory s => f _ _ s
  | Vault s => f _ _ s
  | Privy s => f _ _ s
  | Turnkey s => f _ _ s
  | AwsKms s => f _ _ s
  | Fireblocks s => f _ _ s
  | GcpKms s => f _ _ s
  | Cdp s => f _ _ s
  | Dfns s => f _ _ s
  | Openfort s => f _ _ s
  | Para s => f _ _ s
  | Crossmint s => f _ _ s
  | Utila s => f _ _ s
  | FordefiBlackBox s => f _ _ s
  | FordefiNativeAuto s => f _ _ s
  | FordefiNativeManual s => f _ _ s
  | Ledger s => f _ _ s
  end.

#[global] Instance signer_solana_signer : SolanaSigner Signer := {
  Traits.pubkey self := dispatch self (fun S _ s => Traits.pubkey s);
  Traits.sign_message self message := dispatch self (fun S _ s => Traits.sign_message s message);
  Traits.is_available self := dispatch self (fun S _ s => Traits.is_available s)
}.

(** ** Theorems *)

(** Fordefi lets the caller supply the code that signs its requests. *)
Definition own_code (self : Signer) : Prop :=
  match self with
  | FordefiBlackBox s => signs_locally (bb_core s)
  | FordefiNativeAuto s => signs_locally (na_core s)
  | FordefiNativeManual s => signs_locally (nm_core s)
  | _ => True
  end.

(** *** The providers that broadcast

    What a request of the crate asks for and what an answer says, as the two
    providers' APIs have it. *)

(** The request that submits the transaction, under its idempotency key. *)
Definition submits (self : Signer) (tx : VersionedTransaction) (req : HttpRequest) : Prop :=
  match self with
  | Crossmint s => crossmint_creates s tx req
  | FordefiNativeAuto s => fordefi_creates s tx req
  | _ => False
  end.

(** The provider took the transaction on under an id. *)
Definition takes_on (self : Signer) (id : string) (resp : HttpResponse) : Prop :=
  match self with
  | Crossmint _ => crossmint_accepts id resp
  | FordefiNativeAuto _ => fordefi_accepts id resp
  | _ => False
  end.

(** The provider says that a transaction landed, and [sg] identifies it. *)
Definition lands (self : Signer) (sg : Signature) (req : HttpRequest) (resp : HttpResponse) : Prop :=
  match self with
  | Crossmint s => crossmint_reports s sg req resp
  | FordefiNativeAuto s => fordefi_reports s sg req resp
  | _ => False
  end.

(** The key in the error of a call whose create was accepted. *)
Definition reported_key (self : Signer) (tx : VersionedTransaction) : option string :=
  match self with Crossmint s => Some (call_key s tx) | _ => None end.

(** The contract of [SendingSigner]: the signature returned identifies the
    transaction that, by the provider's last answer, landed; and a call that fails
    although its create, the first request it makes, was accepted says so in
    [BroadcastUnconfirmed], with the provider's id of the transaction. *)
Record sends_as_documented (self : Signer) (tx : VersionedTransaction) (m : M (result Signature)) : Prop := {
  landing_reported : forall w sg w', m w = (Returned (Ok sg), w') -> last_answered w' (lands self sg);
  create_first : own_code self -> forall w o w' tr req, m w = (o, w') -> first_request w w' tr req -> submits self tx req;
  accepted_reported : own_code self -> forall w e w' tr req resp id, m w = (Returned (Err e), w') ->
    first_request w w' tr req -> w_http w tr req = Reply resp -> takes_on self id resp ->
    exists d, e = BroadcastUnconfirmed (Some id) None (reported_key self tx) None d
}.

Lemma sending_documented (self : Signer) d tx :
  as_sending_signer self = Some d -> sends_as_documented self tx (@sign_and_send_transaction _ _ (ss_inst d) (ss_value d) tx).
Proof.
  destruct self; intros [= <-]; split; cbn [own_code submits takes_on lands reported_key ss_inst ss_value].
  - intros w sg w'. apply crossmint_landed_reported.
  - intros _ w o w' tr req HE Hf. exact (proj1 (crossmint_create_reported _ _ _ _ _ _ _ HE Hf)).
  - intros _ w e w' tr req resp id HE Hf Hh Ha. exact (proj2 (crossmint_create_reported _ _ _ _ _ _ _ HE Hf) _ _ _ Hh Ha eq_refl).
  - intros w sg w'. apply fordefi_landed_reported.
  - intros Hl w o w' tr req HE Hf. exact (proj1 (fordefi_create_reported _ _ _ _ _ _ _ Hl HE Hf)).
  - intros Hl w e w' tr req resp id HE Hf Hh Ha. exact (proj2 (fordefi_create_reported _ _ _ _ _ _ _ Hl HE Hf) _ _ _ Hh Ha eq_refl).
Qed.

(** C3: every variant has exactly one of the three capabilities, so
    [sign_and_send] never ends in its last branch; and whatever it exposes keeps
    the promise of that capability.  A transaction signer's result is the caller's
    message with the signer's own verified signature, under the key it reports, in
    its slot; a modifying signer's is the rewritten transaction, signed the same
    way, and the caller's if it fails.  A sending signer's first request, with the
    built-in request signer, submits the transaction under its idempotency key;
    the signature it returns is that of the transaction which the provider's last
    answer says has landed (with Crossmint, the fee payer's valid signature in the
    transaction the answer shows, or else the id it gives; with Fordefi, the fee
    payer's in the transaction shown, which the vault has signed too); and if it
    fails after the provider answered the submission with an id, the error is
    [BroadcastUnconfirmed] and carries that id. *)
Theorem signer_keeps_its_promise `{!SdkLaws} (self : Signer) (tx : VersionedTransaction) :
  match as_transaction_signer self, as_modifying_signer self, as_sending_signer self with
  | Some d, None, None =>
      returns (@Traits.sign_transaction _ _ (ts_inst d) (ts_value d) tx) (fun p =>
        match p.2 with
        | Ok res => exists pk, Traits.pubkey self = Returned pk /\ signed_as_given pk tx p.1 res
        | Err _ => message p.1 = message tx
        end)
  | None, Some d, None =>
      returns (@Traits.modify_and_sign_transaction _ _ (ms_inst d) (ms_value d) tx) (fun p =>
        match p.2 with
        | Ok res => exists pk, Traits.pubkey self = Returned pk /\ signed_rewritten pk p.1 res
        | Err _ => p.1 = tx
        end)
  | None, None, Some d =>
      sends_as_documented self tx (@Traits.sign_and_send_transaction _ _ (ss_inst d) (ss_value d) tx)
  | _, _, _ => False
  end.
Proof.
  destruct self; first [exact (sign_transaction_sound s tx) | exact (modify_and_sign_sound s tx) | by apply sending_documented].
Qed.

(** C5: whatever the backend, [sign_message] returns a signature only if it
    verifies, under the key the signer reports, over the message itself; for the
    Ledger over the off-chain envelope of the message. *)
Theorem signer_messages_verified `{!SdkLaws} (self : Signer) (m : list byte) :
  returns (Traits.sign_message self m) (on_ok (fun sg =>
    exists pk, Traits.pubkey self = Returned pk /\
      match self with
      | Ledger _ => exists env, ledger_offchain_envelope pk m = Ok env /\ verifies sg pk env = true
      | _ => verifies sg pk m = true
      end)).
Proof.
  destruct self; try exact (sign_message_sound s m).
  eapply returns_weaken; [exact (ledger_message_verified s m)|].
  intros [sg|e] Hs; [|done]. exists (Ledger.pubkey s). by split.
Qed.

(** The base URL of a backend that speaks HTTP through the crate's own client. *)
Definition base_url (self : Signer) : option string :=
  match self with
  | Vault s => Some (Vault.api_base_url s)
  | Privy s => Some (Privy.api_base_url s)
  | Turnkey s => Some (Turnkey.api_base_url s)
  | Fireblocks s => Some (Fireblocks.api_base_url s)
  | Cdp s => Some (Cdp.api_base_url s)
  | Dfns s => Some (Dfns.api_base_url s)
  | Openfort s => Some (Openfort.api_base_url s)
  | Para s => Some (Para.api_base_url s)
  | Crossmint s => Some (rendered_base_url s)
  | Utila s => Some (Utila.api_base_url s)
  | FordefiBlackBox s => Some (Fordefi.api_base_url (bb_core s))
  | FordefiNativeAuto s => Some (Fordefi.api_base_url (na_core s))
  | FordefiNativeManual s => Some (Fordefi.api_base_url (nm_core s))
  | Memory _ | AwsKms _ | GcpKms _ | Ledger _ => None
  end.

Lemma sends_provider d tx send (P Q : HttpRequest -> Prop) (self : Signer) :
  as_sending_signer self = Some d -> sends (@sign_and_send_transaction _ _ (ss_inst d) (ss_value d) tx) Q ->
  sends (sign_and_send self tx send) (fun r => Q r \/ P r).
Proof.
  intros Hd Hq. unfold sign_and_send. rewrite Hd. apply sends_keep_bind; [|intros; apply sends_ret].
  eapply sends_weaken; [exact Hq|auto].
Qed.

(** [init] of the backend a variant wraps, for those that have one: Privy,
    Fireblocks, Para, Dfns, Crossmint, Openfort and Utila fetch their key there.
    It is the one part of the [from_*] constructors that sends requests. *)
Definition init_as {S} (wrap : S -> Signer) (init : M (S * result unit)) : M (Signer * result unit) :=
  let! (s, r) := init in ret (wrap s, r).
Definition initialise (self : Signer) : M (Signer * result unit) :=
  match self with
  | Privy s => init_as Privy (Privy.init s)
  | Fireblocks s => init_as Fireblocks (Fireblocks.init s)
  | Para s => init_as Para (Para.init s)
  | Dfns s => init_as Dfns (Dfns.init s)
  | Crossmint s => init_as Crossmint (Crossmint.init s)
  | Openfort s => init_as Openfort (Openfort.init s)
  | Utila s => init_as Utila (Utila.init s)
  | Memory _ | Vault _ | Turnkey _ | AwsKms _ | GcpKms _ | Cdp _ | FordefiBlackBox _ | FordefiNativeAuto _
  | FordefiNativeManual _ | Ledger _ => ret (self, Ok tt)
  end.

Lemma init_as_under {S} (wrap : S -> Signer) (init : M (S * result unit)) base :
  sends init (under base) -> sends (init_as wrap init) (under base).
Proof. intros Hi. apply sends_bind_any; [done|]. intros [s r]. apply sends_ret. Qed.

Lemma init_as_keeps {S} (wrap : S -> Signer) (init : M (S * result unit)) base :
  returns init (fun p => base_url (wrap p.1) = Some base) -> returns (init_as wrap init) (fun p => base_url p.1 = Some base).
Proof. intros Hi. eapply returns_bind; [exact Hi|]. intros [s r] Hs. by apply returns_ret. Qed.

Lemma initialise_confined (self : Signer) base :
  base_url self = Some base ->
  sends (initialise self) (under base) /\ returns (initialise self) (fun p => base_url p.1 = Some base).
Proof.
  destruct self; cbn [base_url]; intros [= <-]; cbn [initialise];
    try (split; [apply sends_ret|by apply returns_ret]);
    (split; [apply init_as_under|apply init_as_keeps]).
  all: try first [apply privy_init_under|apply fireblocks_init_under|apply dfns_init_under|apply openfort_init_under
                 |apply para_init_under|apply crossmint_init_under|apply utila_init_under].
  - unfold Privy.init. by walk.
  - unfold Fireblocks.init. by walk.
  - unfold Dfns.init. by walk.
  - unfold Openfort.init. by walk.
  - unfold Para.init. by walk.
  - unfold Crossmint.init. by walk.
  - unfold Utila.init. by walk.
Qed.

(** C7: credentials stay with the provider.  Whatever the provider answers, the
    URL of every HTTP request of a signer is its configured base URL, a slash and
    a path: when it is initialised, which keeps the base URL, when it signs a
    message or a transaction and when it is probed; in [sign_and_send] the only
    others are those of the caller's [send].  For Fordefi this is of the built-in
    request signer: one that the caller supplies is the caller's code. *)
Theorem signer_requests_confined (self : Signer) (base : string) :
  base_url self = Some base -> own_code self ->
  (sends (initialise self) (under base) /\ returns (initialise self) (fun p => base_url p.1 = Some base)) /\
  (forall m, sends (Traits.sign_message self m) (under base)) /\
  sends (Traits.is_available self) (under base) /\
  forall tx send P, (forall e, sends (send e) P) ->
    sends (sign_and_send self tx send) (fun r => under base r \/ P r).
Proof.
  intros Hbase Hown. split; [by apply initialise_confined|]. revert Hbase Hown.
  destruct self; cbn [base_url own_code]; intros [= <-] Hown;
    match goal with s : ?T |- _ => first
      [ pose proof (vault_confined s) as HC | pose proof (privy_confined s) as HC
      | pose proof (turnkey_confined s) as HC | pose proof (fireblocks_confined s) as HC
      | pose proof (cdp_confined s) as HC | pose proof (dfns_confined s) as HC
      | pose proof (openfort_confined s) as HC | pose proof (para_confined s) as HC
      | pose proof (crossmint_confined s) as HC | pose proof (utila_confined s) as HC
      | pose proof (black_box_confined s Hown) as HC | pose proof (native_auto_confined s Hown) as HC
      | pose proof (native_manual_confined s Hown) as HC ] end;
    destruct HC as [Hm Ht Ha]; (split; [exact Hm|split; [exact Ha|]]); intros tx send P Hs;
    first [ apply sends_sign_and_send; [apply Ht|exact Hs]
          | apply sends_modify_and_send; [apply Ht|exact Hs]
          | eapply sends_provider; [reflexivity|apply Ht] ].
Qed.

(** ** Construction *)

Definition http_client (self : Signer) : option ClientBuilder :=
  match self with
  | Vault s => Some (Vault.client s)
  | Privy s => Some (Privy.client s)
  | Turnkey s => Some (Turnkey.client s)
  | Fireblocks s => Some (Fireblocks.client s)
  | Cdp s => Some (Cdp.client s)
  | Dfns s => Some (Dfns.client s)
  | Openfort s => Some (Openfort.client s)
  | Para s => Some (Para.client s)
  | Crossmint s => Some (Crossmint.client s)
  | Utila s => Some (Utila.client s)
  | FordefiBlackBox s => Some (Fordefi.client (bb_core s))
  | FordefiNativeAuto s => Some (Fordefi.client (na_core s))
  | FordefiNativeManual s => Some (Fordefi.client (nm_core s))
  | Memory _ | AwsKms _ | GcpKms _ | Ledger _ => None
  end.

(** A signer that knows its key and, if it uses HTTP, does so safely. *)
Definition ready (self : Signer) : Prop :=
  (exists pk, Traits.pubkey self = Returned pk) /\
  match http_client self with Some c => locked_down c | None => True end.

(** The [Signer::from_*] constructors of lib.rs.  The variants are public, so a
    caller can also wrap a backend by hand, initialised or not, and made with any
    of the backend's own constructors: see [unkeyed]. *)
Inductive construction : M (result Signer) -> Prop :=
  | via_memory k : construction (of_run (from_memory k))
  | via_memory_file p : construction (ret (from_memory_file p))
  | via_vault a t k p c : construction (ret (from_vault a t k p c))
  | via_privy i s w c : construction (from_privy i s w c)
  | via_turnkey a b o i p c : construction (ret (from_turnkey a b o i p c))
  | via_aws_kms k p r : construction (from_aws_kms k p r)
  | via_fireblocks c : construction (from_fireblocks c)
  | via_gcp_kms k p : construction (from_gcp_kms k p)
  | via_para k w u : construction (from_para k w u)
  | via_cdp c : construction (ret (from_cdp c))
  | via_dfns c : construction (from_dfns c)
  | via_crossmint c : construction (from_crossmint c)
  | via_openfort s a w c : construction (from_openfort s a w c)
  | via_utila c : construction (from_utila c)
  | via_ledger c : construction (from_ledger c)
  | via_fordefi c : construction (ret (from_fordefi c)).

(** A variant wrapped around a backend whose [init] has not succeeded. *)
Definition unkeyed (self : Signer) : Prop :=
  match self with
  | Privy s => Privy.public_key s = None
  | Fireblocks s => Fireblocks.public_key s = None
  | Dfns s => Dfns.public_key s = None
  | Openfort s => Openfort.public_key s = None
  | Para s => Para.public_key s = None
  | Crossmint s => Crossmint.public_key s = None
  | Utila s => Utila.public_key s = None
  | Memory _ | Vault _ | Turnkey _ | AwsKms _ | GcpKms _ | Cdp _ | FordefiBlackBox _ | FordefiNativeAuto _
  | FordefiNativeManual _ | Ledger _ => False
  end.

Lemma unkeyed_panics (self : Signer) : match Traits.pubkey self with Returned _ => ~ unkeyed self | _ => unkeyed self end.
Proof.
  destruct self; cbn; try tauto;
    unfold Privy.pubkey, Fireblocks.pubkey, Dfns.pubkey, Openfort.pubkey, Para.pubkey, Crossmint.pubkey, Utila.pubkey, expect_pubkey;
    match goal with |- context [match ?x with Some _ => _ | None => _ end] => by destruct x end.
Qed.

(** A backend that is made and then initialised: [init] sets the key and keeps
    the client. *)
Lemma made_and_initialised {S} (made : result S) (init : S -> M (S * result unit)) (wrap : S -> Signer)
    (client : S -> ClientBuilder) (public_key : S -> option Pubkey) :
  on_ok (fun s => locked_down (client s)) made ->
  (forall s, returns (init s) (fun p => client p.1 = client s /\
     match p.2 with Ok _ => exists pk, public_key p.1 = Some pk | Err _ => True end)) ->
  (forall s pk, public_key s = Some pk -> locked_down (client s) -> ready (wrap s)) ->
  returns (try signer := made in
           let! (signer, r) := init signer in
           try _ := r in
           ret (Ok (wrap signer))) (on_ok ready).
Proof.
  intros Hmade Hinit Hwrap. apply returns_try. intros s ->. simpl in Hmade.
  eapply returns_bind; [apply Hinit|]. intros [s' [u|e]] [Hc Hpk]; cbn [fst snd] in *; apply returns_ret; [|done].
  destruct Hpk as [pk Hpk]. eapply Hwrap; [exact Hpk|]. by rewrite Hc.
Qed.

Ltac key_known := intros ? ? ? ?; split; [|done]; eexists; cbn; unfold Privy.pubkey, Fireblocks.pubkey, Para.pubkey,
  Dfns.pubkey, Crossmint.pubkey, Openfort.pubkey, Utila.pubkey, expect_pubkey; by simplify_option_eq.

Ltac made_ready := split; [eexists; reflexivity|first [exact I|assumption]].

Ltac init_keeps := intros ?; walk; (split; [done|]; cbn; by eauto).

Lemma vault_locked config : on_ok (fun s => locked_down (Vault.client s)) (Vault.from_config config).
Proof. unfold Vault.from_config, Vault.with_client_builder. walk_ok; done. Qed.
Lemma privy_locked config : on_ok (fun s => locked_down (Privy.client s)) (Privy.from_config config).
Proof. unfold Privy.from_config. walk_ok; done. Qed.
Lemma turnkey_locked config : on_ok (fun s => locked_down (Turnkey.client s)) (Turnkey.from_config config).
Proof. unfold Turnkey.from_config. walk_ok; done. Qed.
Lemma fireblocks_locked config : on_ok (fun s => locked_down (Fireblocks.client s)) (Fireblocks.from_config config).
Proof. unfold Fireblocks.from_config. walk_ok; done. Qed.
Lemma cdp_locked config : on_ok (fun s => locked_down (Cdp.client s)) (Cdp.from_config config).
Proof. unfold Cdp.from_config. walk_ok; done. Qed.
Lemma dfns_locked config : on_ok (fun s => locked_down (Dfns.client s)) (Dfns.from_config config).
Proof. unfold Dfns.from_config. walk_ok; done. Qed.
Lemma openfort_locked config : on_ok (fun s => locked_down (Openfort.client s)) (Openfort.from_config config).
Proof. unfold Openfort.from_config. walk_ok; done. Qed.
Lemma para_locked config : on_ok (fun s => locked_down (Para.client s)) (Para.from_config config).
Proof. unfold Para.from_config. walk_ok; done. Qed.
Lemma crossmint_locked config : on_ok (fun s => locked_down (Crossmint.client s)) (Crossmint.new config).
Proof. unfold Crossmint.new. walk_ok; done. Qed.
Lemma utila_locked config : on_ok (fun s => locked_down (Utila.client s)) (Utila.new config).
Proof. unfold Utila.new. walk_ok; done. Qed.
Lemma fordefi_locked config : on_ok (fun core => locked_down (Fordefi.client core)) (Fordefi.build config).
Proof. unfold Fordefi.build. walk_ok; done. Qed.
#[local] Hint Resolve vault_locked turnkey_locked cdp_locked fordefi_locked : keychain.

Lemma black_box_locked config :
  on_ok (fun s => locked_down (Fordefi.client (bb_core s))) (BlackBox.from_config config).
Proof. unfold BlackBox.from_config. walk_ok; done. Qed.
Lemma native_auto_locked config :
  on_ok (fun s => locked_down (Fordefi.client (na_core s))) (NativeAuto.from_config config).
Proof. unfold NativeAuto.from_config. walk_ok; done. Qed.
Lemma native_manual_locked config :
  on_ok (fun s => locked_down (Fordefi.client (nm_core s))) (NativeManual.from_config config).
Proof. unfold NativeManual.from_config. walk_ok; done. Qed.
#[local] Hint Resolve black_box_locked native_auto_locked native_manual_locked : keychain.

Lemma construction_ready (m : M (result Signer)) : construction m -> returns m (on_ok ready).
Proof.
  destruct 1.
  - intros w r w' [= E ->]. unfold from_memory in E. repeat case_match; simplify_eq; [|done]. made_ready.
  - apply returns_ret. unfold from_memory_file. walk_ok. made_ready.
  - apply returns_ret. unfold from_vault. walk_ok. made_ready.
  - apply (made_and_initialised _ _ Privy Privy.client Privy.public_key); [apply privy_locked| |key_known].
    unfold Privy.init. init_keeps.
  - apply returns_ret. unfold from_turnkey. walk_ok. made_ready.
  - unfold from_aws_kms. walk. made_ready.
  - apply (made_and_initialised _ _ Fireblocks Fireblocks.client Fireblocks.public_key); [apply fireblocks_locked| |key_known].
    unfold Fireblocks.init. init_keeps.
  - unfold from_gcp_kms. walk. made_ready.
  - apply (made_and_initialised _ _ Para Para.client Para.public_key); [apply para_locked| |key_known].
    unfold Para.init. init_keeps.
  - apply returns_ret. unfold from_cdp. walk_ok. made_ready.
  - apply (made_and_initialised _ _ Dfns Dfns.client Dfns.public_key); [apply dfns_locked| |key_known].
    unfold Dfns.init. init_keeps.
  - apply (made_and_initialised _ _ Crossmint Crossmint.client Crossmint.public_key); [apply crossmint_locked| |key_known].
    unfold Crossmint.init. init_keeps.
  - apply (made_and_initialised _ _ Openfort Openfort.client Openfort.public_key); [apply openfort_locked| |key_known].
    unfold Openfort.init. init_keeps.
  - apply (made_and_initialised _ _ Utila Utila.client Utila.public_key); [apply utila_locked| |key_known].
    unfold Utila.init. init_keeps.
  - unfold from_ledger. walk. made_ready.
  - apply returns_ret. unfold from_fordefi. walk_ok; made_ready.
Qed.

Lemma init_as_keys {S} (wrap : S -> Signer) (init : M (S * result unit)) self :
  returns init (fun p => http_client (wrap p.1) = http_client self /\ (is_ok p.2 = true -> ~ unkeyed (wrap p.1))) ->
  returns (init_as wrap init) (fun p => http_client p.1 = http_client self /\ (is_ok p.2 = true -> ~ unkeyed p.1)).
Proof. intros Hi. eapply returns_bind; [exact Hi|]. intros [s r] Hs. by apply returns_ret. Qed.

Lemma initialise_keys (self : Signer) :
  returns (initialise self) (fun p => http_client p.1 = http_client self /\ (is_ok p.2 = true -> ~ unkeyed p.1)).
Proof.
  destruct self; cbn [initialise]; try (apply returns_ret; split; [done|by intros _ []]); apply init_as_keys.
  - unfold Privy.init. by walk.
  - unfold Fireblocks.init. by walk.
  - unfold Dfns.init. by walk.
  - unfold Openfort.init. by walk.
  - unfold Para.init. by walk.
  - unfold Crossmint.init. by walk.
  - unfold Utila.init. by walk.
Qed.

(** C14: the constructors make signers that can be used.  Every [Signer::from_*]
    constructor yields a signer whose [pubkey] does not panic and whose HTTP
    client, if it has one, refuses plain HTTP and redirects.  A variant wrapped
    around a backend by hand panics in [pubkey] exactly if that backend's [init]
    is needed and has not succeeded; whatever client it was made with, as for
    [VaultSigner::with_client_builder], [init] keeps. *)
Theorem constructed_signer_ready :
  (forall m, construction m -> returns m (on_ok ready)) /\
  (forall self, match Traits.pubkey self with Returned _ => ~ unkeyed self | _ => unkeyed self end) /\
  (forall self, returns (initialise self) (fun p => http_client p.1 = http_client self /\ (is_ok p.2 = true -> ~ unkeyed p.1))).
Proof.
  split_and!; [exact construction_ready|exact unkeyed_panics|exact initialise_keys].
Qed.

(** When the provider broadcasts, the caller's [send] is never used
    and the transaction handed in comes back untouched; a success carries a
    signature that is not the placeholder, and it is the one the provider
    reported. *)
Theorem provider_broadcasts_alone (self : Signer) (d : DynSendingSigner) (tx : VersionedTransaction)
    (send send' : string -> M (result Signature)) :
  as_sending_signer self = Some d ->
  sign_and_send self tx send = sign_and_send self tx send' /\
  forall w tx' r w', sign_and_send self tx send w = (Returned (tx', r), w') ->
    tx' = tx /\
    exists r0, @sign_and_send_transaction _ _ (ss_inst d) (ss_value d) tx w = (Returned r0, w') /\
      match r with
      | Ok sg => r0 = Ok sg /\ sg ≠ Signature_default
      | Err e => r0 = Err e \/ (r0 = Ok Signature_default /\ exists m, e = SigningFailed m)
      end.
Proof.
  intros Hd. unfold sign_and_send. rewrite Hd. split; [done|]. intros w tx' r w'.
  unfold keep_bind, bind. destruct (sign_and_send_transaction _ _ w) as [[[sg|e]| |] w1] eqn:E; [| |done..].
  - intros [= <- <- <-]. split; [done|]. exists (Ok sg). split; [done|].
    unfold require_broadcast_signature. case_bool_decide as Hs; [right|done]. subst. eauto.
  - intros [= <- <- <-]. split; [done|]. exists (Err e). auto.
Qed.

End Keychain.

(** ** Concrete signers *)

Module KeychainDemo.
Import Demo DemoJson DemoJwt DemoDalek DemoEcdsa DemoText DemoPem CrossmintDemo.

#[export] Instance demo_fs : FileSystem := {| read_to_string := fun _ => Err "no such file" |}.
#[export] Instance demo_offchain : OffchainCrate := {| SIGNING_DOMAIN := array_repeat 16 xff |}.
#[export] Existing Instance Loopback.loopback.
#[export] Existing Instance LedgerDemo.demo_wallets.
#[export] Existing Instance FireblocksDemo.demo_codec.
#[export] Existing Instance FordefiDemo.demo_p256.
#[export] Existing Instance FordefiDemo.demo_codec.
#[export] Existing Instance PrivyDemo.demo_codec.
#[export] Existing Instance KmsDemo.demo_aws.
#[export] Existing Instance KmsDemo.demo_gcp.
#[export] Existing Instance DfnsDemo.demo_codec.
#[export] Existing Instance UtilaDemo.demo_codec.
#[export] Instance demo_turnkey : TurnkeyCodec := {|
  activity_from_slice := fun _ => Err "no activity"; private_key_from_slice := fun _ => Err "no key" |}.
#[export] Instance demo_cdp : CdpCodec := {|
  Cdp.sign_transaction_response_from_slice := fun b => Ok (of_bytes b);
  Cdp.sign_message_response_from_slice := fun b => Ok (of_bytes b) |}.
#[export] Instance demo_openfort : OpenfortCodec := {|
  sign_response_from_slice := fun b => Ok (of_bytes b); account_info_from_slice := fun b => Ok (of_bytes b) |}.
#[export] Instance demo_para : ParaCodec := {|
  para_wallet_from_slice := fun _ => Err "no wallet"; sign_raw_response_from_slice := fun b => Ok (Some (of_bytes b)) |}.
#[export] Instance demo_tokio : Tokio := {| join_error := "task panicked" |}.
#[export] Instance unplugged : DeviceThread := {|
  claim_device := ret true;
  device_is_busy := ret false;
  exchange_pubkey _ _ := ret SendFailed;
  exchange_signature _ _ := ret SendFailed;
  exchange_bool _ _ := ret SendFailed
|}.

Definition in_memory : Signer := Memory MemoryDemo.demo_signer.
Definition at_crossmint : Signer := Crossmint demo_signer.

Lemma signer_keeps_its_promise_witness :
  returns (Traits.sign_transaction MemoryDemo.demo_signer MemoryDemo.demo_tx) (fun p =>
    match p.2 with
    | Ok res => exists pk, Traits.pubkey in_memory = Returned pk /\ signed_as_given pk MemoryDemo.demo_tx p.1 res
    | Err _ => message p.1 = message MemoryDemo.demo_tx
    end).
Proof. exact (signer_keeps_its_promise in_memory MemoryDemo.demo_tx). Defined.

Lemma signer_messages_verified_witness :
  returns (Traits.sign_message in_memory (as_bytes "hi")) (on_ok (fun sg =>
    exists pk, Traits.pubkey in_memory = Returned pk /\ verifies sg pk (as_bytes "hi") = true)).
Proof. exact (signer_messages_verified in_memory (as_bytes "hi")). Defined.

(** A signer whose provider answers everything, and a [send] that uses no HTTP. *)
Lemma signer_requests_confined_witness :
  base_url at_crossmint = Some "https://api" /\
  sends (sign_and_send at_crossmint demo_tx MemoryDemo.lost_answer) (fun r => under "https://api" r \/ False).
Proof.
  assert (E : base_url at_crossmint = Some "https://api") by (vm_compute; reflexivity).
  split; [exact E|].
  refine (proj2 (proj2 (proj2 (signer_requests_confined at_crossmint "https://api" E I))) demo_tx MemoryDemo.lost_answer
    (fun _ => False) _).
  intros e w. exists []. split; [by rewrite app_nil_r|constructor].
Defined.

Lemma constructed_signer_ready_witness :
  match from_vault "https://vault" "token" "key" (of_bytes (replicate 32 x01)) None with
  | Ok s => ready s
  | Err _ => False
  end.
Proof.
  pose proof (proj1 constructed_signer_ready _ (via_vault "https://vault" "token" "key" (of_bytes (replicate 32 x01)) None)
    idle_world _ idle_world eq_refl) as HR.
  destruct (from_vault _ _ _ _ _) as [s|e] eqn:E; [exact HR|vm_compute in E; discriminate E].
Defined.

Definition provider_run := sign_and_send at_crossmint demo_tx MemoryDemo.lost_answer (answering_world 200 (as_bytes "tx-1")).
Definition provider_result : VersionedTransaction * result Signature :=
  match provider_run.1 with Returned p => p | _ => (demo_tx, Err (Other "no run")) end.

Lemma provider_broadcasts_alone_witness :
  provider_result.1 = demo_tx /\ is_ok provider_result.2 = true.
Proof.
  split; [|vm_compute; reflexivity].
  refine (proj1 (proj2 (provider_broadcasts_alone at_crossmint (DynSending demo_signer) demo_tx
    MemoryDemo.lost_answer MemoryDemo.lost_answer eq_refl) (answering_world 200 (as_bytes "tx-1"))
    _ provider_result.2 provider_run.2 _)).
  vm_compute. reflexivity.
Defined.

End KeychainDemo.
