(* ===== verification/HonestMessages.v ===== *)
(** * Honest providers (messages)

    What the documented interface of each provider promises for a request to sign
    a message, and that signing then succeeds.  A promise is about every request
    of the documented form, whatever was exchanged before: the endpoint, the
    credentials, and a body that is the text of the documented document. *)

From stdpp Require Import sorting.
From S2P Require Import Prelude Errors World Externals JsonOrder TransactionUtil SignatureUtil RemoteUtil Traits Delivery Promises.
From S2P Require Import Memory Vault Privy Turnkey Kms Fireblocks WalletJwt Cdp Dfns Openfort Para Crossmint.
From S2P Require Import Utila Fordefi LedgerDashboard Ledger LedgerActor Keychain.

#[local] Open Scope keychain_scope.

(** ** Canonical JSON exists *)

(** [serde_json] quotes every string. *)
Class JsonQuotes `{JsonText} := { json_quotes : forall s, exists t, json_string s = Ok t }.

Section Canonical.
Context `{JsonText} `{!JsonQuotes}.

Lemma collect_total {A} (l : list (option A)) : Forall (fun o => exists a, o = Some a) l -> exists r, collect_options l = Some r.
Proof. induction 1 as [|o l [a ->] _ [r Hr]]; [by eexists|]. cbn. rewrite Hr. by eexists. Qed.

Fixpoint canonicalize_total (v : Value) : exists t, canonicalize_json v = Some t.
Proof.
  destruct v as [|b|n|s|l|m]; cbn [canonicalize_json]; try by eexists.
  - destruct (json_quotes s) as [t ->]. by eexists.
  - assert (Forall (fun o => exists a, o = Some a) (map canonicalize_json l)) as Hl.
    { induction l as [|v l IH]; constructor; [apply canonicalize_total|exact IH]. }
    destruct (collect_total _ Hl) as [r ->]. by eexists.
  - assert (Forall (fun e => exists a, e.2 = Some a) (map (fun e => (e.1, canonicalize_json e.2)) m)) as Hm.
    { induction m as [|[k v] m IH]; constructor; [apply canonicalize_total|exact IH]. }
    unfold sort_by_key. rewrite <- (merge_sort_Permutation key_le) in Hm.
    assert (Forall (fun o => exists a, o = Some a) (map canonical_entry (merge_sort key_le (map (fun e => (e.1, canonicalize_json e.2)) m)))) as He.
    { apply Forall_map. eapply Forall_impl; [exact Hm|]. intros [k o] [a Ha]. cbn in Ha. unfold compose, canonical_entry. cbn.
      rewrite Ha. destruct (json_quotes k) as [t ->]. by eexists. }
    destruct (collect_total _ He) as [r ->]. by eexists.
Qed.

End Canonical.

(** ** The backends *)

Section Backends.
Context `{Codecs} `{SolanaSdk} `{Json} `{FileSystem} `{ClientBuild} `{UrlParser} `{Jwt} `{Dalek} `{StdText}.
Context `{BuildProfile} `{Ecdsa} `{JsonText} `{PrivyCodec} `{TurnkeyCodec} `{AwsSdk} `{GcpSdk} `{FireblocksCodec}.
Context `{HttpHeaders} `{CdpCodec} `{!PemKeys} `{DfnsCodec} `{OpenfortCodec} `{ParaCodec} `{CrossmintCodec}.
Context `{UtilaCodec} `{P256} `{FordefiCodec}.
Context `{OffchainCrate} `{HID : Hid} `{!RemoteWallets} `{DeviceThread} `{Tokio}.
Context `{!CodecLaws} `{!JsonPrints} `{!JsonQuotes}.
Context (O : oracle).

(** *** Vault *)

Definition vault_signs (s : VaultSigner) (m : list byte) : Prop :=
  serves O
    (fun r => posts (Vault.api_base_url s +:+ "/v1/transit/sign/" +:+ key_name s)
                (JObject [("input", JString (base64_encode m))]) r /\ bears "X-Vault-Token" (token s) r)
    value_from_slice
    (fun v => exists version enc, version ≠ [] /\ forallb is_ascii_digit version = true /\
       value_index (value_index v "data") "signature" = JString ("vault:v" +:+ of_bytes version +:+ ":" +:+ enc) /\
       base64_signs (Vault.public_key s) m enc).

Lemma vault_delivers s m tr :
  vault_signs s m -> delivers O tr (Vault.sign_bytes s m) (yields (fun _ sg => signs (Vault.public_key s) m sg)).
Proof.
  intros HS. unfold Vault.sign_bytes, post_json. cbv zeta. eapply delivers_served_json; [exact HS|done|].
  intros b v (version & enc & Hne & Hd & -> & (sg & Hdec & Hsg)%base64_accepted). eapply delivers_try; [reflexivity|].
  eapply delivers_try; [by rewrite (proj1 (strip_vault_signature_prefix_spec version enc EmptyString) Hne Hd)|].
  by apply delivers_checked.
Qed.

(** *** Para and Openfort *)

Definition para_signs (s : ParaSigner) (pk : Pubkey) (m : list byte) : Prop :=
  serves O
    (fun r => posts (Para.api_base_url s +:+ "/v1/wallets/" +:+ Para.wallet_id s +:+ "/sign-raw")
                (sign_raw_request (hex_encode m)) r /\ bears "X-API-Key" (Para.api_key s) r)
    sign_raw_response_from_slice (fun o => exists enc, o = Some enc /\ hex_signs pk m enc).

Lemma para_delivers s pk m tr :
  Para.public_key s = Some pk -> para_signs s pk m ->
  delivers O tr (Para.sign_bytes s m) (yields (fun _ sg => signs pk m sg)).
Proof.
  intros Hpk HS. unfold Para.sign_bytes, Para.initialized_pubkey, post_json. rewrite Hpk.
  eapply delivers_try; [reflexivity|]. cbv zeta. eapply delivers_served_json; [exact HS|done|].
  intros b v (enc & -> & (sg & Hdec & Hsg)%hex_accepted). eapply delivers_try; [reflexivity|].
  eapply delivers_try; [exact Hdec|]. by apply delivers_checked.
Qed.

(** A key that signs tokens which are header values, behind a prefix. *)
Definition makes_tokens (alg prefix : string) (key : EncodingKey) : Prop :=
  forall header claims, exists t, jwt_encode alg header claims key = Ok t /\ header_value_ok (prefix +:+ t) = true.

Lemma req_hash_total body : exists h, compute_req_hash body = Ok h.
Proof.
  unfold compute_req_hash. destruct body as [v|]; [|by eexists].
  destruct (value_prints (sort_json v)) as [b Hb]. destruct v as [| | | | |[|]]; eexists; try done; by rewrite Hb.
Qed.

Lemma wallet_jwt_delivers provider key host method path body life tr :
  makes_tokens "ES256" EmptyString key ->
  delivers O tr (WalletJwt.create_wallet_jwt provider key host method path body life)
    (yields (fun _ t => header_value_ok t = true)).
Proof.
  intros Hk. unfold WalletJwt.create_wallet_jwt. eapply delivers_bind; [by apply delivers_utc with (Q := fun _ _ => True)|].
  intros tr1 now _. eapply delivers_bind; [by apply delivers_uuid with (Q := fun _ _ => True)|]. intros tr2 jti _.
  destruct (req_hash_total body) as [h Hh]. eapply delivers_try; [exact Hh|]. cbv zeta. apply delivers_ret.
  match goal with |- context [jwt_encode ?a ?h ?c ?k] => destruct (Hk h c) as (t & -> & Ht) end. exact Ht.
Qed.

Definition openfort_ready (s : OpenfortSigner) : Prop :=
  header_value_ok ("Bearer " +:+ secret_key s) = true /\
  exists key, wallet_secret_encoding_key (Openfort.wallet_secret s) = Ok key /\ makes_tokens "ES256" EmptyString key.

Definition openfort_signs (s : OpenfortSigner) (pk : Pubkey) (m : list byte) : Prop :=
  serves O
    (fun r => posts (Openfort.api_base_url s +:+ sign_path s) (sign_body m) r /\
       Openfort.authenticated s (sign_path s) (sign_body m) (req_headers r))
    sign_response_from_slice (hex_signs pk m).

Lemma openfort_headers_deliver s path body tr :
  openfort_ready s ->
  delivers O tr (build_sign_headers s path body) (yields (fun _ hs => Openfort.authenticated s path body hs)).
Proof.
  intros (Hb & key & Hkey & Htok).
  apply (delivers_some _ _ (fun _ _ => True)); [|apply sign_headers_returns].
  unfold build_sign_headers. eapply delivers_try; [exact Hkey|].
  eapply delivers_bind_res; [by apply wallet_jwt_delivers|]. intros tr' t Ht. rewrite Hb, Ht. by apply delivers_ret.
Qed.

Lemma openfort_delivers s pk m tr :
  Openfort.public_key s = Some pk -> openfort_ready s -> openfort_signs s pk m ->
  delivers O tr (Openfort.sign_bytes s m) (yields (fun _ sg => signs pk m sg)).
Proof.
  intros Hpk Hr HS. unfold Openfort.sign_bytes, Openfort.initialized_pubkey, call_sign. rewrite Hpk.
  eapply delivers_try; [reflexivity|]. cbv zeta.
  eapply (delivers_bind_res _ _ _ (fun _ => hex_signs pk m)).
  - eapply delivers_bind_res; [by apply openfort_headers_deliver|]. intros tr' hs Hhs.
    eapply delivers_weaken; [by eapply delivers_asked_json; [exact HS|done]|]. intros t [enc|e]; [|done]. by intros (b & _ & Hg).
  - intros tr' enc (sg & Hdec & Hsg)%hex_accepted. eapply delivers_try; [exact Hdec|]. by apply delivers_checked.
Qed.

(** *** CDP *)

Definition cdp_ready (s : CdpSigner) : Prop :=
  (exists key, auth_key (api_key_secret s) = Ok key /\ makes_tokens "EdDSA" "Bearer " key) /\
  exists key, wallet_key (Cdp.wallet_secret s) = Ok key /\ makes_tokens "ES256" EmptyString key.

(** An authenticated POST of a document below the base URL. *)
Definition cdp_asks (s : CdpSigner) (path : string) (doc : Value) (r : HttpRequest) : Prop :=
  posts (Cdp.api_base_url s +:+ path) doc r /\ Cdp.authenticated s "POST" path doc (req_headers r).

Definition cdp_signs (s : CdpSigner) (m : list byte) : Prop :=
  serves O (cdp_asks s (Cdp.account_path s +:+ "/sign/message") (JObject [("message", JString (of_bytes m))]))
    sign_message_response_from_slice (base58_signs (Cdp.public_key s) m).

Lemma cdp_auth_jwt_delivers s method path tr :
  cdp_ready s ->
  delivers O tr (Cdp.create_auth_jwt (api_key_id s) (api_key_secret s) (Cdp.api_host s) method path)
    (yields (fun _ t => header_value_ok ("Bearer " +:+ t) = true)).
Proof.
  intros [(key & Hkey & Htok) _]. unfold Cdp.create_auth_jwt.
  eapply delivers_bind; [by apply delivers_utc with (Q := fun _ _ => True)|]. intros tr1 now _. cbv zeta.
  eapply delivers_try; [exact Hkey|]. unfold random_nonce.
  eapply (delivers_bind _ _ _ (fun _ _ => True)).
  { eapply delivers_bind; [by apply delivers_uuid with (Q := fun _ _ => True)|]. intros tr2 id _. by apply delivers_ret. }
  intros tr2 nonce _. apply delivers_ret.
  match goal with |- context [jwt_encode ?a ?h ?c ?k] => destruct (Htok h c) as (t & -> & Ht) end. exact Ht.
Qed.

Lemma cdp_headers_deliver s method path body tr :
  cdp_ready s ->
  delivers O tr (build_auth_headers s method path (Some body)) (yields (fun _ hs => Cdp.authenticated s method path body hs)).
Proof.
  intros Hr. apply (delivers_some _ _ (fun _ _ => True)); [|apply auth_headers_returns].
  unfold build_auth_headers. eapply delivers_bind_res; [by apply cdp_auth_jwt_delivers|]. intros tr1 auth Ha.
  destruct Hr as [_ (key & Hkey & Htok)]. unfold Cdp.create_wallet_jwt.
  eapply delivers_bind_res; [eapply delivers_try; [exact Hkey|]; by apply wallet_jwt_delivers|]. intros tr2 wallet Hw.
  rewrite Ha, Hw. by apply delivers_ret.
Qed.

Lemma cdp_post_delivers {T} (f : list byte -> Result T string) (good : T -> Prop) s path body ctx tr :
  cdp_ready s -> serves O (cdp_asks s path body) f good ->
  delivers O tr (signed_post f s path body ctx) (yields (fun _ v => good v)).
Proof.
  intros Hr HS. unfold signed_post. cbv zeta. eapply delivers_bind_res; [by apply cdp_headers_deliver|]. intros tr' hs Hhs.
  eapply delivers_weaken; [by eapply delivers_asked_json; [exact HS|done]|]. intros t [v|e]; [|done]. by intros (b & _ & Hg).
Qed.

Lemma cdp_delivers s m tr :
  utf8_valid m = true -> cdp_ready s -> cdp_signs s m ->
  delivers O tr (Cdp.sign_bytes s m) (yields (fun _ sg => signs (Cdp.public_key s) m sg)).
Proof.
  intros Hu Hr HS. unfold Cdp.sign_bytes, call_sign_message. rewrite Hu. cbn [negb]. cbv zeta.
  eapply delivers_bind_res; [by eapply cdp_post_delivers|]. intros tr' enc (sg & Hdec & Hsg)%base58_accepted.
  eapply delivers_try; [exact Hdec|]. by apply delivers_checked.
Qed.

(** *** Turnkey *)

(** A stamped POST of a document. *)
Definition turnkey_asks (s : TurnkeySigner) (path : string) (doc : Value) (r : HttpRequest) : Prop :=
  posts (Turnkey.api_base_url s +:+ path) doc r /\
  exists stamp, create_stamp s (req_body r) = Ok stamp /\ bears "X-Stamp" stamp r.

(** The request of an activity, at some time. *)
Definition raw_payload_value (s : TurnkeySigner) (m : list byte) (now : Z) : Value :=
  sign_request_value "ACTIVITY_TYPE_SIGN_RAW_PAYLOAD_V2" (pretty now) (organization_id s)
    (mkSignParameters (private_key_id s) (hex_encode m) "PAYLOAD_ENCODING_HEXADECIMAL" "HASH_FUNCTION_NOT_APPLICABLE").

(** The halves of a signature, without some of their leading zeroes. *)
Definition halves_sign (pk : Pubkey) (m : list byte) (res : SignResult) : Prop :=
  exists r s sg, res = mkSignResult (hex_encode r) (hex_encode s) /\ length r <= 32 /\ length s <= 32 /\
    arr_bytes sg = (replicate (32 - length r) x00 ++ r) ++ replicate (32 - length s) x00 ++ s /\ signs pk m sg.

Definition turnkey_signs (s : TurnkeySigner) (m : list byte) : Prop :=
  serves O (fun r => exists now, turnkey_asks s "/public/v1/submit/sign_raw_payload" (raw_payload_value s m now) r)
    activity_from_slice
    (fun act => act_status act = Some "ACTIVITY_STATUS_COMPLETED" /\
       exists res, act_result act ≫= sign_raw_payload_result = Some res /\ halves_sign (Turnkey.public_key s) m res).

Lemma turnkey_post_delivers s path doc body (good : Activity -> Prop) tr asks :
  value_to_vec doc = Ok body -> (forall r, turnkey_asks s path doc r -> asks r) ->
  serves O asks activity_from_slice (fun act => act_status act = Some "ACTIVITY_STATUS_COMPLETED" /\ good act) ->
  delivers O tr (post_activity s path body) (yields (fun _ act => good act)).
Proof.
  intros Hb Has HS. unfold post_activity.
  assert (exists stamp, create_stamp s body = Ok stamp) as [stamp Hst].
  { unfold create_stamp. match goal with |- context [value_to_vec ?v] => destruct (value_prints v) as [x ->] end. by eexists. }
  eapply delivers_try; [exact Hst|].
  eapply delivers_served; [exact HS|apply Has; split; [done|by exists stamp]|].
  intros act [Hact Hg]. rewrite Hact. cbn [default from_option id]. unfold id. rewrite bool_decide_eq_false_2 by naive_solver.
  by apply delivers_ret.
Qed.

Lemma turnkey_delivers s m tr :
  turnkey_signs s m -> delivers O tr (Turnkey.sign_bytes s m) (yields (fun _ sg => signs (Turnkey.public_key s) m sg)).
Proof.
  intros HS. unfold Turnkey.sign_bytes. cbv zeta.
  eapply delivers_bind; [by apply delivers_utc_millis with (Q := fun _ _ => True)|]. intros tr1 now _.
  destruct (value_prints (raw_payload_value s m now)) as [body Hb].
  eapply delivers_try; [unfold raw_payload_value in Hb; by rewrite Hb|].
  eapply delivers_bind_res; [eapply turnkey_post_delivers; [exact Hb| |exact HS]; by exists now|].
  intros tr2 act (res & -> & r & t & sg & -> & Hr & Ht & Hsg & Hs). cbv beta iota.
  eapply (delivers_bind_res _ _ _ (fun _ x => x = sg)).
  - intros w Hw <-. destruct (signature_from_halves_spec r t w) as ([x|e] & E & Hx).
    + exists (Ok x), w. split_and!; [done..|]. apply array_eq. by rewrite Hsg, (proj2 (proj2 Hx)).
    + destruct Hx; lia.
  - intros tr3 ? ->. by apply delivers_checked.
Qed.

(** *** Cloud key management *)

Definition aws_signs (s : Aws.AwsKmsSigner) (m : list byte) : Prop :=
  forall tr, delivers O tr (aws_sign (Aws.client s) (Aws.key_id s) m "RAW" Aws.AWS_KMS_SIGNING_ALGORITHM)
    (yields (fun _ o => exists sg, o = Some (arr_bytes sg) /\ signs (Aws.public_key s) m sg)).

Lemma aws_delivers s m tr :
  aws_signs s m -> delivers O tr (Aws.sign_bytes s m) (yields (fun _ sg => signs (Aws.public_key s) m sg)).
Proof.
  intros HS. unfold Aws.sign_bytes. eapply delivers_bind_res; [apply delivers_fmap_err, HS|].
  intros tr' o (sg & -> & Hsg). eapply delivers_try; [reflexivity|]. eapply delivers_try; [by apply signature_from_bytes_Ok|].
  by apply delivers_checked.
Qed.

Definition gcp_signs (s : Gcp.GcpKmsSigner) (m : list byte) : Prop :=
  forall tr, delivers O tr (gcp_asymmetric_sign (Gcp.client s) (Gcp.key_name s) m)
    (yields (fun _ b => exists sg, b = arr_bytes sg /\ signs (Gcp.public_key s) m sg)).

Lemma gcp_delivers s m tr :
  gcp_signs s m -> delivers O tr (Gcp.sign_bytes s m) (yields (fun _ sg => signs (Gcp.public_key s) m sg)).
Proof.
  intros HS. unfold Gcp.sign_bytes. eapply delivers_bind_res; [apply delivers_fmap_err, HS|].
  intros tr' o (sg & -> & Hsg). eapply delivers_try; [by apply signature_from_bytes_Ok|]. by apply delivers_checked.
Qed.

(** *** Privy *)

(** An authorization context that can sign: its keys parse, its callbacks
    answer, and it has at least one signature to give. *)
Definition usable (ctx : PrivyAuthorizationContext) : Prop :=
  Forall (fun k => exists key, parse_p256_private_key k = Ok key) (authorization_private_keys ctx) /\
  Forall (fun f => forall payload, exists t, f payload = Ok t) (sign_fns ctx) /\
  0 < length (authorization_private_keys ctx) + length (ctx_signatures ctx) + length (sign_fns ctx).

(** In a debug build, an expiry that can be added to the time. *)
Definition privy_ready (s : PrivySigner) : Prop :=
  expiry_fits s /\
  match authorization_context s with
  | None => True
  | Some (Context ctx) => usable ctx
  | Some (Provider provider) => forall input, exists o, provider input = Ok o /\ forall ctx, o = Some ctx -> usable ctx
  end.

(** A wallet RPC; under a fixed context it carries the signatures over itself. *)
Definition privy_asks (s : PrivySigner) (doc : Value) (r : HttpRequest) : Prop :=
  let url := Privy.api_base_url s +:+ "/wallets/" +:+ encode_uri_component (Privy.wallet_id s) +:+ "/rpc" in
  posts url doc r /\ bears "Authorization" (get_privy_auth_header s) r /\ bears "privy-app-id" (app_id s) r /\
  forall ctx, authorization_context s = Some (Context ctx) -> exists h,
    authorizes (app_id s) ctx "POST" url doc h /\
    assoc_get (req_headers r) "privy-authorization-signature" = authorization_signature h.

Lemma push_all_total {A} (f : A -> result string) out l :
  Forall (fun x => exists t, f x = Ok t) l -> exists r, push_all f out l = Ok r /\ length r = length out + length l.
Proof.
  intros HF. revert out. induction HF as [|x l [t Ht] _ IH]; intros out; cbn [push_all length]; [eexists; split; [done|lia]|].
  rewrite Ht. cbn [res_bind]. destruct (IH (out ++ [t])) as (r & -> & Hl). eexists. split; [done|].
  rewrite Hl, length_app. cbn. lia.
Qed.

Lemma generate_total input ctx : usable ctx ->
  exists sigs, generate_privy_authorization_signatures input ctx = Ok sigs /\ sigs ≠ [].
Proof.
  intros (Hk & Hf & Hn). unfold generate_privy_authorization_signatures, format_privy_authorization_signature_payload. cbv zeta.
  destruct (canonicalize_total (request_input_value (blank_empty_body input))) as [t ->]. cbn [fmap option_fmap option_map ok_or res_bind].
  edestruct (push_all_total (fun k => generate_privy_authorization_signature k (as_bytes t)) (ctx_signatures ctx)) as (l1 & -> & Hl1).
  { eapply Forall_impl; [exact Hk|]. intros k [key Hkey]. unfold generate_privy_authorization_signature. rewrite Hkey. by eexists. }
  cbn [res_bind].
  edestruct (push_all_total (fun f : list byte -> result string => f (as_bytes t)) l1) as (l2 & -> & Hl2).
  { eapply Forall_impl; [exact Hf|]. intros f Hany. apply Hany. }
  eexists. split; [done|]. intros ->. cbn in Hl2. lia.
Qed.

Lemma current_time_delivers tr :
  delivers O tr current_time_millis (yields (fun _ now => overflow_checks = true -> now < 2 ^ 63)%Z).
Proof.
  unfold current_time_millis.
  eapply delivers_bind; [apply delivers_clock with (Q := fun _ o => exists now, o = Some now /\ (0 <= now)%Z /\ (overflow_checks = true -> now < 2 ^ 63)%Z); eauto|].
  intros ? ? (now & -> & Hpos & Hnow). apply delivers_ret. cbn. intros Ho. specialize (Hnow Ho). rewrite ?Z.mod_small; lia.
Qed.

Lemma privy_headers_deliver s url doc tr :
  privy_ready s ->
  delivers O tr (prepare_privy_authorization_headers (app_id s) (authorization_context s) "POST" url doc
                   (authorization_request_expiry_ms s)) (yields (fun _ _ => True)).
Proof.
  unfold privy_ready, prepare_privy_authorization_headers. intros [Hfit Hr]. unfold expiry_fits in Hfit. destruct (authorization_context s) as [cfg|]; [|by apply delivers_ret].
 eapply (delivers_bind_res _ _ _ (fun _ _ => True)).
  { destruct (authorization_request_expiry_ms s) as [ms|] eqn:Ems; [|by apply delivers_ret].
    eapply delivers_bind_res; [apply current_time_delivers|]. intros t now Hnow. cbv beta in Hnow.
    destruct (u64_add_fits now ms) as [c Hc]; [intros Ho; split; [by apply Hnow|by apply Hfit]|].
    eapply delivers_bind; [by apply delivers_of_run with (Q := fun _ _ => True) (1 := Hc)|]. intros. by apply delivers_ret. }
  intros tr1 expiry _. cbv zeta. set (input := mkRequestInput _ _ _ _ _).
  assert (exists o, match cfg with Context context => Ok (Some context) | Provider provider => provider input end = Ok o /\
            forall ctx, o = Some ctx -> usable ctx) as (o & Ho & Hu).
  { destruct cfg as [ctx|p]; [|apply Hr]. eexists. split; [done|]. by intros ? [= <-]. }
  eapply delivers_try; [exact Ho|]. destruct o as [ctx|]; [|by apply delivers_ret].
  destruct (generate_total input ctx (Hu _ eq_refl)) as (sigs & Hs & Hne). eapply delivers_try; [exact Hs|].
  rewrite bool_decide_eq_false_2 by done. by apply delivers_ret.
Qed.

Lemma privy_post_delivers {T} (decode : string -> Result T string) (good : T -> Prop) s doc tr :
  privy_ready s -> serves O (privy_asks s doc) (fun b => decode (from_utf8_lossy b)) good ->
  delivers O tr (post_rpc s doc) (yields (fun _ text => exists v, decode text = Ok v /\ good v)).
Proof.
  intros Hr HS. unfold post_rpc. cbv zeta.
  eapply (delivers_bind_res _ _ _ (fun _ h => forall ctx, authorization_context s = Some (Context ctx) ->
    authorizes (app_id s) ctx "POST" (Privy.api_base_url s +:+ "/wallets/" +:+ encode_uri_component (Privy.wallet_id s) +:+ "/rpc") doc h)).
  { eapply (delivers_some _ _ (fun _ _ => True) (fun h => forall ctx, _ -> authorizes _ _ _ _ _ h)); [by apply privy_headers_deliver|].
    destruct (authorization_context s) as [[ctx|p]|] eqn:E; [|intros w [h|e] w' _; [by intros|done]..].
    eapply returns_weaken; [apply prepare_headers_authorize|]. intros [h|e]; [|done]. by intros Hh ? [= <-]. }
  intros tr1 h Hh. destruct (value_prints doc) as [body Hb]. rewrite Hb. cbn [http_send_json].
  edestruct (HS tr1) as (b & v & (resp & HO & Hst & Hbody & Hl) & Hv & Hg); cycle 1.
  - eapply delivers_bind_res; [apply delivers_reply; exact HO|]. intros ? ? [-> ->]. rewrite Hst. cbn [negb].
    eapply delivers_bind_res; [by apply delivers_body|]. intros ? ? [-> ->]. apply delivers_ret. cbn. eauto.
  - split_and!; [done..|]. intros ctx Hctx. exists h. split; [by apply Hh|].
    cbn. by destruct (authorization_signature h), (request_expiry h).
Qed.

Definition privy_signs (s : PrivySigner) (pk : Pubkey) (m : list byte) : Prop :=
  serves O (privy_asks s (sign_message_request (base64_encode m)))
    (fun b => sign_message_response_from_str (from_utf8_lossy b)) (base64_signs pk m).

Lemma privy_delivers s pk m tr :
  Privy.public_key s = Some pk -> privy_ready s -> privy_signs s pk m ->
  delivers O tr (Privy.sign_bytes s m) (yields (fun _ sg => signs pk m sg)).
Proof.
  intros Hpk Hr HS. unfold Privy.sign_bytes, Privy.initialized_pubkey. rewrite Hpk. eapply delivers_try; [reflexivity|]. cbv zeta.
  eapply delivers_bind_res; [by eapply privy_post_delivers|]. intros tr' text (enc & Henc & (sg & Hdec & Hsg)%base64_accepted).
  eapply delivers_try; [by rewrite Henc|]. eapply delivers_try; [exact Hdec|]. by apply delivers_checked.
Qed.

(** *** Fireblocks *)

Definition fireblocks_ready (s : FireblocksSigner) : Prop :=
  forall claims, exists t, jwt_encode "RS256" [] claims (Fireblocks.signing_key s) = Ok t.

(** The request carries the API key and a token. *)
Definition fireblocks_auth (s : FireblocksSigner) (r : HttpRequest) : Prop :=
  bears "X-API-Key" (Fireblocks.api_key s) r /\
  exists t claims, bears "Authorization" ("Bearer " +:+ t) r /\ jwt_encode "RS256" [] claims (Fireblocks.signing_key s) = Ok t.

Definition fireblocks_status_url (s : FireblocksSigner) (c : CreateTransactionResponse) : string :=
  Fireblocks.api_base_url s +:+ "/v1/transactions/" +:+ created_id c.

(** A status that is neither final nor a failure. *)
Definition fireblocks_waits (mode : SigningMode) (v : Fireblocks.TransactionResponse) : Prop :=
  Fireblocks.tr_status v ∉ ["COMPLETED"; "FAILED"; "CANCELLED"; "REJECTED"; "BLOCKED"] /\
  (mode = ModeProgramCall -> Fireblocks.tr_status v ∉ ["SIGNED"; "BROADCASTING"; "CONFIRMING"]).

Definition fireblocks_runs (s : FireblocksSigner) (mode : SigningMode) (request : Fireblocks.CreateTransactionRequest)
    (fin : Fireblocks.TransactionResponse -> Prop) (patience : nat) : Prop :=
  runs_job O
    (fun r => posts (Fireblocks.api_base_url s +:+ "/v1/transactions") (Fireblocks.create_request_value request) r /\ fireblocks_auth s r)
    Fireblocks.create_response_from_slice (fun c => str_is_empty (trim (created_id c)) = false)
    (fireblocks_status_url s) (fun _ => fireblocks_auth s) transaction_response_from_slice
    (fun _ => fireblocks_waits mode) (fun _ => fin) patience.

Lemma fireblocks_token_delivers s uri body tr :
  fireblocks_ready s ->
  delivers O tr (create_auth_token s uri body) (yields (fun t' t => (exists evs, t' = tr ++ evs /\ Forall quiet evs) /\
    exists claims, jwt_encode "RS256" [] claims (Fireblocks.signing_key s) = Ok t)).
Proof.
  intros Hr. unfold create_auth_token, create_jwt.
  eapply delivers_bind; [by apply delivers_utc with (Q := fun t _ => t = tr ++ [EvClock])|]. intros ? now ->. cbv zeta.
  eapply delivers_bind; [by apply delivers_uuid with (Q := fun t _ => t = (tr ++ [EvClock]) ++ [EvUuid])|]. intros ? id ->.
  apply delivers_ret. match goal with |- context [jwt_encode _ _ ?c _] => destruct (Hr c) as [t Ht]; rewrite Ht end.
  cbn. split; [|eauto]. exists [EvClock; EvUuid]. split; [by rewrite <- (assoc_L (++))|by repeat constructor].
Qed.

Lemma fireblocks_classify mode id v :
  (Fireblocks.tr_status v = final_status mode -> classify_status mode id v = Ok (Done v)) /\
  (fireblocks_waits mode v -> classify_status mode id v = Ok Pending).
Proof.
  unfold classify_status, final_status. split.
  - intros ->. by destruct mode.
  - intros [Hf Hp]. cbv zeta. destruct mode.
    + rewrite !bool_decide_eq_false_2; [done|set_solver..].
    + specialize (Hp eq_refl). rewrite !bool_decide_eq_false_2; [done|set_solver..].
Qed.

(** However the job ends, the caller learns it. *)
Lemma fireblocks_runs_delivers s mode request fin patience tr :
  fireblocks_ready s -> patience < Fireblocks.max_poll_attempts s -> (forall id v, fin v -> classify_status mode id v ≠ Ok Pending) ->
  fireblocks_runs s mode request fin patience ->
  delivers O tr (try! created := Fireblocks.create_transaction s request in
                 poll_for_completion s (created_id created) mode)
    (fun t r => exists c v, fin v /\ told O (gets (fireblocks_status_url s c)) transaction_response_from_slice t v /\
       decides (classify_status mode (created_id c) v) r).
Proof.
  intros Hr Hn Hfin HJ. unfold Fireblocks.create_transaction. cbv zeta.
  destruct (value_prints (Fireblocks.create_request_value request)) as [body Hb].
  eapply (delivers_bind_res _ _ _ (fun t c => forall ext r', gets (fireblocks_status_url s c) r' -> fireblocks_auth s r' ->
    exists b' v, answers O (t ++ ext) r' b' /\ transaction_response_from_slice b' = Ok v /\
      (fin v \/ (fireblocks_waits mode v /\ polls (fireblocks_status_url s c) ext < patience)))).
  - eapply delivers_try; [by rewrite Hb|].
    eapply delivers_bind_res; [by apply fireblocks_token_delivers|]. intros tr1 t [_ [claims Ht]].
    edestruct (HJ tr1) as (b & c & Hans & Hc & Hid & Hst); [|eapply delivers_exchange; [exact Hans|exact Hc|]].
    { split; [done|]. split; [done|]. by exists t, claims. }
    rewrite Hid. apply delivers_ret. intros ext r' Hg Ha. rewrite <- (assoc_L (++)). by apply Hst.
  - intros tr1 c Hst. unfold poll_for_completion, poll_until.
    eapply delivers_weaken; [|intros t r Hv; exists c; exact Hv].
    apply (delivers_job_poll (fireblocks_status_url s) (fun _ => fireblocks_auth s) transaction_response_from_slice
      (fun _ => fireblocks_waits mode) (fun _ => fin) (classify_status mode (created_id c)) patience _ c);
      [done|by apply Hfin|by apply fireblocks_classify|exact Hst|].
    intros t R HR. unfold Fireblocks.poll_attempt, Fireblocks.get_transaction. cbv zeta.
    eapply (delivers_bind_res _ _ _ R).
    + eapply delivers_bind_res; [by apply fireblocks_token_delivers|]. intros ? tok [(evs & -> & Hev) [claims Ht]].
      edestruct (HR evs) as (b & v & Hans & Hv & HRv); [done| | |eapply delivers_ask; [exact Hans|exact Hv|]].
      * done.
      * split; [done|]. by exists tok, claims.
      * rewrite (assoc_L (++)) in HRv. done.
    + intros t' v HRv. apply delivers_ret. by exists v.
Qed.

(** The job of an honest provider. *)
Definition fireblocks_good (mode : SigningMode) (good : Fireblocks.TransactionResponse -> Prop)
    (v : Fireblocks.TransactionResponse) : Prop := Fireblocks.tr_status v = final_status mode /\ good v.

Lemma fireblocks_good_delivers s mode request good patience tr :
  fireblocks_ready s -> patience < Fireblocks.max_poll_attempts s -> fireblocks_runs s mode request (fireblocks_good mode good) patience ->
  delivers O tr (try! created := Fireblocks.create_transaction s request in
                 poll_for_completion s (created_id created) mode) (yields (fun _ v => good v)).
Proof.
  intros Hr Hn HJ. eapply delivers_weaken; [eapply fireblocks_runs_delivers; [done..| |exact HJ]|].
  - intros id v [Hv _]. by rewrite (proj1 (fireblocks_classify mode id v) Hv).
  - intros t r (c & v & [Hv Hg] & _ & Hd). rewrite (proj1 (fireblocks_classify mode _ v) Hv) in Hd. by destruct r; simplify_eq/=.
Qed.

Definition fireblocks_signs (s : FireblocksSigner) (pk : Pubkey) (m : list byte) : Prop :=
  exists patience, patience < Fireblocks.max_poll_attempts s /\
    fireblocks_runs s ModeRaw (raw_request s m) (fireblocks_good ModeRaw
      (fun v => exists enc rest, tr_signed_messages v = enc :: rest /\ hex_signs pk m enc)) patience.

Lemma fireblocks_delivers s pk m tr :
  Fireblocks.public_key s = Some pk -> fireblocks_ready s -> fireblocks_signs s pk m ->
  delivers O tr (sign_raw_bytes s m) (yields (fun _ sg => signs pk m sg)).
Proof.
  intros Hpk Hr (patience & Hn & HJ). unfold sign_raw_bytes, Fireblocks.initialized_pubkey. rewrite Hpk.
  eapply delivers_try; [reflexivity|]. apply delivers_assoc.
  eapply delivers_bind_res; [by eapply fireblocks_good_delivers|]. intros tr' v (enc & rest & Hm & (sg & Hdec & Hsg)%hex_accepted).
  unfold signature_from_signed_messages. rewrite Hm. eapply delivers_try; [exact Hdec|]. by apply delivers_checked.
Qed.

(** *** Fordefi *)

(** The request signer answers. *)
Definition fordefi_ready (core : FordefiCore) : Prop :=
  match request_signer core with
  | PemRequestSigner _ => True
  | CallerSigner sign => forall payload tr, delivers O tr (sign payload) (yields (fun _ _ => True))
  end.

(** The request carries the access token and a signature over path, time and body. *)
Definition fordefi_auth (core : FordefiCore) (r : HttpRequest) : Prop :=
  bears "Authorization" ("Bearer " +:+ access_token core) r /\
  exists ts signature, bears "x-timestamp" (pretty (ts : Z)) r /\ bears "x-signature" signature r /\
    forall k, request_signer core = PemRequestSigner k ->
      signature = base64_encode (p256_sign_der k
        (as_bytes ("/api/v1/transactions|" +:+ pretty ts +:+ "|" +:+ of_bytes (req_body r)))).

Definition fordefi_status_url (core : FordefiCore) (id : string) : string :=
  Fordefi.api_base_url core +:+ "/api/v1/transactions/" +:+ id.

Definition fordefi_final (pushable : bool) : list string := if pushable then ["completed"] else ["signed"; "completed"].
Definition fordefi_waits (pushable : bool) (v : TransactionStatusResponse) : Prop :=
  st_state v ∉ fordefi_final pushable /\ st_state v ∉ error_states.

Definition fordefi_runs (core : FordefiCore) (doc : Value) (pushable : bool) (fin : TransactionStatusResponse -> Prop)
    (patience : nat) : Prop :=
  runs_job O
    (fun r => posts (Fordefi.api_base_url core +:+ "/api/v1/transactions") doc r /\ fordefi_auth core r)
    Fordefi.create_response_from_slice (fun id => str_is_empty (trim id) = false)
    (fordefi_status_url core) (fun _ => bears "Authorization" ("Bearer " +:+ access_token core))
    status_from_slice (fun _ => fordefi_waits pushable) (fun _ => fin) patience.

(** What a submit leaves the poll with. *)
Definition fordefi_pollable (core : FordefiCore) (pushable : bool) (fin : TransactionStatusResponse -> Prop)
    (patience : nat) (tr : list Event) (id : string) : Prop :=
  forall ext r', gets (fordefi_status_url core id) r' -> bears "Authorization" ("Bearer " +:+ access_token core) r' ->
    exists b' v, answers O (tr ++ ext) r' b' /\ status_from_slice b' = Ok v /\
      (fin v \/ (fordefi_waits pushable v /\ polls (fordefi_status_url core id) ext < patience)).

Lemma fordefi_submit_delivers core doc pushable fin patience key managed tr :
  fordefi_ready core -> fordefi_runs core doc pushable fin patience ->
  delivers O tr (submit_request core doc key managed) (yields (fordefi_pollable core pushable fin patience)).
Proof.
  intros Hr HJ. unfold submit_request. cbv zeta. destruct (value_prints doc) as [body Hb].
  eapply delivers_try; [by rewrite Hb|].
  eapply (delivers_bind_res _ _ _ (fun _ _ => True)).
  { unfold timestamp_ms. eapply delivers_bind; [apply delivers_clock with (Q := fun _ o => o ≠ None); by intros|].
    intros ? [now|] Hnow; [|done]. by apply delivers_ret. }
  intros tr1 ts _.
  eapply (delivers_bind_res _ _ _ (fun _ sig => forall k, request_signer core = PemRequestSigner k ->
      sig = base64_encode (p256_sign_der k (as_bytes ("/api/v1/transactions|" +:+ pretty ts +:+ "|" +:+ of_bytes body))))).
  { unfold sign_request, request_signer_sign, fordefi_ready in *. destruct (request_signer core) as [k|f].
    - apply delivers_ret. by intros ? [= <-].
    - eapply delivers_weaken; [apply Hr|]. by intros t [sig|e]; [intros _ ? [=]|]. }
  intros tr2 sig Hsig.
  edestruct (HJ tr2) as (b & c & (resp & HO & Hst & Hbody & Hl) & Hc & Hid & Hpoll); cycle 1.
  - eapply delivers_bind_res; [apply delivers_reply; exact HO|]. intros ? ? [-> ->]. rewrite Hst. cbn [negb].
    eapply delivers_bind_res; [by apply delivers_fmap_err, delivers_body|]. intros ? ? [-> ->].
    eapply delivers_try; [by rewrite Hc|]. rewrite Hid. apply delivers_ret. intros ext r' Hg Ha.
    rewrite <- (assoc_L (++)). by apply Hpoll.
  - split; [done|]. split; [done|]. exists ts, sig. split_and!; [done..|exact Hsig].
Qed.

Lemma fordefi_classify id pushable v :
  (st_state v ∈ fordefi_final pushable -> classify_state id pushable v = Ok (Done v)) /\
  (fordefi_waits pushable v -> classify_state id pushable v = Ok Pending).
Proof.
  unfold classify_state, fordefi_waits, fordefi_final. cbv zeta. split.
  - intros Hs. destruct pushable; [|by rewrite bool_decide_eq_true_2]. rewrite bool_decide_eq_true_2 by set_solver. done.
  - intros [Hs He]. destruct pushable; rewrite !bool_decide_eq_false_2; try done; set_solver.
Qed.

(** However the job ends, the caller learns it. *)
Lemma fordefi_polls core pushable fin patience id tr :
  patience < Fordefi.max_poll_attempts core -> (forall v, fin v -> classify_state id pushable v ≠ Ok Pending) ->
  fordefi_pollable core pushable fin patience tr id ->
  delivers O tr (poll_for_result core id pushable) (fun t r => exists v, fin v /\
    told O (gets (fordefi_status_url core id)) status_from_slice t v /\ decides (classify_state id pushable v) r).
Proof.
  intros Hn Hfin Hst. unfold poll_for_result, poll_until.
  apply (delivers_job_poll (fordefi_status_url core) (fun _ => bears "Authorization" ("Bearer " +:+ access_token core))
    status_from_slice (fun _ => fordefi_waits pushable) (fun _ => fin) (classify_state id pushable) patience _ id);
    [done|by apply Hfin|by apply fordefi_classify|exact Hst|].
  intros t R HR. unfold Fordefi.poll_attempt. cbv zeta.
  edestruct (HR []) as (b & v & Hans & Hv & HRv);
    [done| | |rewrite app_nil_r in Hans; eapply delivers_exchange; [exact Hans|exact Hv|]]; [done..|]. apply delivers_ret. by exists v.
Qed.

(** The job of an honest provider. *)
Definition fordefi_good (pushable : bool) (good : TransactionStatusResponse -> Prop) (v : TransactionStatusResponse) : Prop :=
  st_state v ∈ fordefi_final pushable /\ good v.

Lemma fordefi_poll_delivers core pushable good patience id tr :
  patience < Fordefi.max_poll_attempts core -> fordefi_pollable core pushable (fordefi_good pushable good) patience tr id ->
  delivers O tr (poll_for_result core id pushable) (yields (fun _ v => good v)).
Proof.
  intros Hn Hst. eapply delivers_weaken; [eapply fordefi_polls; [exact Hn| |exact Hst]|].
  - intros v [Hv _]. by rewrite (proj1 (fordefi_classify id pushable v) Hv).
  - intros t r (v & [Hv Hg] & _ & Hd). rewrite (proj1 (fordefi_classify id pushable v) Hv) in Hd. by destruct r; simplify_eq/=.
Qed.

(** A signature request of either kind: submitted, polled, its first signature taken. *)
Definition fordefi_signs (core : FordefiCore) (doc : Value) (m : list byte) : Prop :=
  exists patience, patience < Fordefi.max_poll_attempts core /\
    fordefi_runs core doc false (fordefi_good false
      (fun v => exists enc rest, st_signatures v = Some (enc :: rest) /\ base64_signs (public_key core) m enc)) patience.

Lemma fordefi_signature_delivers core doc m tr :
  fordefi_ready core -> fordefi_signs core doc m ->
  delivers O tr (try! id := submit_request core doc None false in poll_for_signature core id)
    (yields (fun _ sg => signs (public_key core) m sg)).
Proof.
  intros Hr (patience & Hn & HJ). eapply delivers_bind_res; [by eapply fordefi_submit_delivers|]. intros tr1 id Hst.
  unfold poll_for_signature. eapply delivers_bind_res; [by eapply fordefi_poll_delivers|].
  intros tr2 v (enc & rest & Hv & (sg & Hdec & Hsg)%base64_accepted). apply delivers_ret.
  unfold extract_signature_from_result. rewrite Hv. cbn. by rewrite Hdec.
Qed.

Lemma fordefi_checked core tr sg m (Q : list Event -> Signature -> Prop) :
  signs (public_key core) m sg -> Q tr sg ->
  delivers O tr (try _ := verify_signature core sg m in ret (Ok sg)) (yields Q).
Proof.
  intros Hs HQ. unfold verify_signature. unfold signs in Hs. rewrite Hs. eapply delivers_try; [done|]. by apply delivers_ret.
Qed.

Definition black_box_value (core : FordefiCore) (m : list byte) : Value :=
  request_value (vault_id core) "black_box_signature" (black_box_details (base64_encode m)).
Definition solana_message_value (core : FordefiCore) (chain : SolanaChainUniqueId) (m : list byte) : Value :=
  request_value (vault_id core) "solana_message" (solana_message_details chain (base64_encode m)).

Lemma black_box_delivers core m tr :
  fordefi_ready core -> fordefi_signs core (black_box_value core m) m ->
  delivers O tr (try! sg := sign_black_box core m in try _ := verify_signature core sg m in ret (Ok sg))
    (yields (fun _ sg => signs (public_key core) m sg)).
Proof.
  intros Hr HS. eapply delivers_bind_res; [by eapply fordefi_signature_delivers|]. intros tr' sg Hsg. by apply fordefi_checked.
Qed.

Lemma native_message_delivers core chain m tr :
  fordefi_ready core -> fordefi_signs core (solana_message_value core chain m) m ->
  delivers O tr (native_sign_message core chain m) (yields (fun _ sg => signs (public_key core) m sg)).
Proof.
  intros Hr HS. unfold native_sign_message. apply delivers_assoc.
  eapply delivers_bind_res; [by eapply fordefi_signature_delivers|]. intros tr' sg Hsg. by apply fordefi_checked.
Qed.

(** *** Dfns *)

Definition dfns_ready (s : DfnsSigner) : Prop := forall data, exists sig, sign_challenge (private_key_pem s) data = Ok sig.

Definition dfns_bears (s : DfnsSigner) (r : HttpRequest) : Prop := bears "Authorization" ("Bearer " +:+ Dfns.auth_token s) r.

(** Hexadecimal, with or without the prefix. *)
Definition hex_text (b : list byte) (t : string) : Prop := t = hex_encode b \/ t = "0x" +:+ hex_encode b.

Definition dfns_good (pk : Pubkey) (m : list byte) (v : GenerateSignatureResponse) : Prop :=
  gs_status v = "Signed" /\ exists r s tr ts sg, gs_signature v = Some (mkComponents tr ts) /\
    hex_text r tr /\ hex_text s ts /\ arr_bytes sg = r ++ s /\ signs pk m sg.

(** The announcement of the request is answered with a challenge that allows the
    credential, a signed challenge with a token, and the request with such a
    token with the signature. *)
Definition dfns_signs (s : DfnsSigner) (doc : Value) (pk : Pubkey) (m : list byte) : Prop :=
  exists (posed : UserActionInitResponse -> Prop) (issued : string -> Prop),
    (forall b, value_to_vec doc = Ok b ->
       serves O (fun r => posts (Dfns.api_base_url s +:+ "/auth/action/init")
                            (user_action_init_value (of_bytes b) "POST" (signatures_path s) "Api") r /\ dfns_bears s r)
         init_response_from_slice (fun c => posed c /\ cred_id s ∈ ui_allow_credentials c)) /\
    serves O (fun r => exists c sig, posed c /\ sign_challenge (private_key_pem s) (client_data_bytes (ui_challenge c)) = Ok sig /\
                posts (Dfns.api_base_url s +:+ "/auth/action")
                  (user_action_sign_value (ui_challenge_identifier c) (cred_id s)
                     (base64_url_encode (client_data_bytes (ui_challenge c))) (base64_url_encode sig)) r /\ dfns_bears s r)
      user_action_from_slice issued /\
    serves O (fun r => exists t, issued t /\ posts (Dfns.api_base_url s +:+ signatures_path s) doc r /\
                bears "x-dfns-useraction" t r /\ dfns_bears s r)
      generated_from_slice (dfns_good pk m).

Lemma hex_text_decodes b t : hex_text b t -> hex_decode (default t (strip_prefix "0x" t)) = Ok b.
Proof.
  intros [->| ->]; [rewrite hex_unprefixed|rewrite (proj2 (strip_prefix_Some _ _ _) eq_refl)]; apply hex_decode_encode.
Qed.

Lemma dfns_accepts pk m v : dfns_good pk m v -> exists sg, accept_signature v = Ok sg /\ signs pk m sg.
Proof.
  intros (Hst & r & s & tr & ts & sg & Hv & Hr & Hs & Hb & Hsg). exists sg. split; [|done].
  unfold accept_signature, combine_signature. rewrite Hst, Hv. cbn [ok_or res_bind sc_r sc_s].
  rewrite !bool_decide_eq_false_2 by naive_solver. rewrite (hex_text_decodes r), (hex_text_decodes s) by done. cbn.
  by apply signature_from_bytes_Ok.
Qed.

Lemma dfns_request_delivers s request pk m tr :
  dfns_ready s -> dfns_signs s (signature_request_value request) pk m ->
  delivers O tr (send_signature_request s request) (yields (fun _ sg => signs pk m sg)).
Proof.
  intros Hr (posed & issued & Hinit & Hact & Hgen). unfold send_signature_request. cbv zeta.
  destruct (value_prints (signature_request_value request)) as [body Hb]. eapply delivers_try; [by rewrite Hb|].
  eapply (delivers_bind_res _ _ _ (fun _ => issued)).
  - unfold sign_user_action. cbv zeta. eapply delivers_served_json; [by apply Hinit|done|]. intros b c [Hc Hal].
    assert (existsb (fun x => bool_decide (x = cred_id s)) (ui_allow_credentials c) = true) as ->.
    { apply existsb_exists. exists (cred_id s). split; [by apply list_elem_of_In|by apply bool_decide_eq_true_2]. }
    cbn [negb]. destruct (Hr (client_data_bytes (ui_challenge c))) as [sig Hsig]. eapply delivers_try; [exact Hsig|].
    eapply delivers_weaken; [eapply delivers_asked_json; [exact Hact|]|].
    + intros b' Hb'. by exists c, sig.
    + intros t [token|e]; [|done]. by intros (? & _ & Ht).
  - intros tr' token Ht. eapply delivers_served; [exact Hgen|by exists token|]. intros v (sg & Hsg & Hs)%dfns_accepts.
    apply delivers_ret. by rewrite Hsg.
Qed.

Lemma dfns_delivers s pk m tr :
  Dfns.public_key s = Some pk -> dfns_ready s ->
  dfns_signs s (signature_request_value (Message ("0x" +:+ hex_encode m))) pk m ->
  delivers O tr (Dfns.sign_bytes s m) (yields (fun _ sg => signs pk m sg)).
Proof.
  intros Hpk Hr HS. unfold Dfns.sign_bytes, Dfns.initialized_pubkey. rewrite Hpk. cbv zeta. eapply delivers_try; [reflexivity|].
  eapply delivers_bind_res; [by apply dfns_request_delivers|]. intros tr' sg Hsg. by apply delivers_checked.
Qed.

(** *** Ledger *)

(** The device is free, and its reply to the command arrives in time. *)
Definition device_signs (s : LedgerSigner) (cmd : DeviceCommand) (m : list byte) : Prop :=
  (forall tr, delivers O tr claim_device (fun _ won => won = true)) /\
  forall tr, delivers O tr (exchange_signature cmd (signing_timeout s)) (fun _ o =>
    exists sg, o = Replied (Ok sg) /\ signs (Ledger.pubkey s) m sg).

Lemma device_delivers {B} s cmd m (k : Signature -> M (result B)) tr Q :
  device_signs s cmd m -> (forall tr' sg, signs (Ledger.pubkey s) m sg -> delivers O tr' (k sg) Q) ->
  delivers O tr (try! _ := acquire in let! outcome := exchange_signature cmd (signing_timeout s) in
                 try signature := request_on outcome in k signature) Q.
Proof.
  intros [Hc Hx] Hk. eapply (delivers_bind_res _ _ _ (fun _ _ => True)).
  { unfold acquire. eapply delivers_bind; [apply Hc|]. intros ? ? ->. by apply delivers_ret. }
  intros tr1 _ _. eapply delivers_bind; [apply Hx|]. intros tr2 ? (sg & -> & Hsg). eapply delivers_try; [reflexivity|]. auto.
Qed.

Lemma ledger_delivers s m env tr :
  ledger_offchain_envelope (Ledger.pubkey s) m = Ok env ->
  device_signs s (SignOffchainMessage (path_str s) env (host_device_path s)) env ->
  delivers O tr (Ledger.sign_message s m) (yields (fun _ sg => signs (Ledger.pubkey s) env sg)).
Proof.
  intros He HS. unfold Ledger.sign_message. eapply delivers_try; [exact He|].
  eapply device_delivers; [exact HS|]. intros. by apply delivers_checked.
Qed.

(** ** All backends *)

(** What makes signing the message [m] possible: the local secrets can be used
    and the provider, or the device, does what its interface documents. *)
Definition message_service (self : Signer) (m : list byte) : Prop :=
  match self with
  | Memory _ => True
  | Vault s => vault_signs s m
  | Privy s => exists pk, Privy.public_key s = Some pk /\ privy_ready s /\ privy_signs s pk m
  | Turnkey s => turnkey_signs s m
  | AwsKms s => aws_signs s m
  | Fireblocks s => exists pk, Fireblocks.public_key s = Some pk /\ fireblocks_ready s /\ fireblocks_signs s pk m
  | GcpKms s => gcp_signs s m
  | Cdp s => utf8_valid m = true /\ cdp_ready s /\ cdp_signs s m
  | Dfns s => exists pk, Dfns.public_key s = Some pk /\ dfns_ready s /\
                dfns_signs s (signature_request_value (Message ("0x" +:+ hex_encode m))) pk m
  | Openfort s => exists pk, Openfort.public_key s = Some pk /\ openfort_ready s /\ openfort_signs s pk m
  | Para s => exists pk, Para.public_key s = Some pk /\ para_signs s pk m
  | FordefiBlackBox s => fordefi_ready (bb_core s) /\ fordefi_signs (bb_core s) (black_box_value (bb_core s) m) m
  | FordefiNativeAuto s => fordefi_ready (na_core s) /\
      fordefi_signs (na_core s) (solana_message_value (na_core s) (na_chain s) m) m
  | FordefiNativeManual s => fordefi_ready (nm_core s) /\
      fordefi_signs (nm_core s) (solana_message_value (nm_core s) (nm_chain s) m) m
  | Ledger s => exists env, ledger_offchain_envelope (Ledger.pubkey s) m = Ok env /\
      device_signs s (SignOffchainMessage (path_str s) env (host_device_path s)) env
  | Crossmint _ | Utila _ => False
  end.

(** The bytes a message signature covers. *)
Definition covered (self : Signer) (pk : Pubkey) (m bytes : list byte) : Prop :=
  match self with
  | Ledger _ => ledger_offchain_envelope pk m = Ok bytes
  | _ => bytes = m
  end.

Lemma messages_deliver `{!SdkLaws} (self : Signer) (m : list byte) :
  message_service self m -> exists pk bytes, Traits.pubkey self = Returned pk /\ covered self pk m bytes /\
    forall tr, delivers O tr (Traits.sign_message self m) (yields (fun _ sg => signs pk bytes sg)).
Proof.
  destruct self as [s|s|s|s|s|s|s|s|s|s|s|s|s|s|s|s|s]; cbn [message_service]; intros HS; try done.
  - eexists _, m. split_and!; [reflexivity|done|]. intros tr. apply delivers_ret. apply memory_signature_verifies.
  - eexists _, m. split_and!; [reflexivity|done|]. intros tr. by apply vault_delivers.
  - destruct HS as (pk & Hpk & Hr & HS). exists pk, m. split_and!; [cbn; unfold Privy.pubkey; by rewrite Hpk|done|].
    intros tr. by apply privy_delivers.
  - eexists _, m. split_and!; [reflexivity|done|]. intros tr. by apply turnkey_delivers.
  - eexists _, m. split_and!; [reflexivity|done|]. intros tr. by apply aws_delivers.
  - destruct HS as (pk & Hpk & Hr & HS). exists pk, m. split_and!; [cbn; unfold Fireblocks.pubkey; by rewrite Hpk|done|].
    intros tr. by apply fireblocks_delivers.
  - eexists _, m. split_and!; [reflexivity|done|]. intros tr. by apply gcp_delivers.
  - destruct HS as (Hu & Hr & HS). eexists _, m. split_and!; [reflexivity|done|]. intros tr. by apply cdp_delivers.
  - destruct HS as (pk & Hpk & Hr & HS). exists pk, m. split_and!; [cbn; unfold Dfns.pubkey; by rewrite Hpk|done|].
    intros tr. by apply dfns_delivers.
  - destruct HS as (pk & Hpk & Hr & HS). exists pk, m. split_and!; [cbn; unfold Openfort.pubkey; by rewrite Hpk|done|].
    intros tr. by apply openfort_delivers.
  - destruct HS as (pk & Hpk & HS). exists pk, m. split_and!; [cbn; unfold Para.pubkey; by rewrite Hpk|done|].
    intros tr. by apply para_delivers.
  - destruct HS as [Hr HS]. eexists _, m. split_and!; [reflexivity|done|]. intros tr. by apply black_box_delivers.
  - destruct HS as [Hr HS]. eexists _, m. split_and!; [reflexivity|done|]. intros tr. by apply native_message_delivers.
  - destruct HS as [Hr HS]. eexists _, m. split_and!; [reflexivity|done|]. intros tr. by apply native_message_delivers.
  - destruct HS as (env & He & HS). eexists _, env. split_and!; [reflexivity|done|]. intros tr. by apply ledger_delivers.
Qed.

(** C6: honest providers get messages signed.  Where the provider answers
    requests of the documented form as documented, possibly after some pending
    polls but fewer than the configured attempts, and nobody cancels the call,
    [sign_message] of every backend that supports it terminates and returns a
    signature, which verifies under the reported key over the message, for the
    Ledger over its envelope. *)
Theorem honest_provider_signs_message `{!SdkLaws} (self : Signer) (m : list byte) (w : World) :
  fair O w -> message_service self m ->
  exists sg w' pk bytes, Traits.sign_message self m w = (Returned (Ok sg), w') /\
    Traits.pubkey self = Returned pk /\ covered self pk m bytes /\ verifies sg pk bytes = true.
Proof.
  intros Hw (pk & bytes & Hpk & Hc & Hd)%messages_deliver.
  destruct (Hd _ w Hw eq_refl) as ([sg|e] & w' & E & _ & Hsg); [|done]. by exists sg, w', pk, bytes.
Qed.

End Backends.

Module HonestDemo.
Import Demo DemoJson DemoJwt DemoDalek DemoEcdsa DemoText DemoPem CrossmintDemo KeychainDemo.

#[export] Instance demo_prints : JsonPrints.
Proof. split. intros v. cbn. destruct (as_str v); by eexists. Qed.
#[export] Instance demo_quotes : JsonQuotes.
Proof. split. intros s. by eexists. Qed.

Definition demo_pk : Pubkey := array_repeat 32 x01.
Definition answering (b : list byte) : World := answering_world 200 b.

Lemma answering_fair b : fair (w_http (answering b)) (answering b).
Proof. split; [done..|]. by split. Qed.

(** A wallet at Para, and a provider that signs a message. *)
Definition at_para : Signer :=
  Para (mkParaSigner "key" "wallet" "https://api" (client_builder (mkHttpClientConfig None None)) (Some demo_pk)).
Definition hello : list byte := as_bytes "hi".
Definition hello_signature : list byte := as_bytes (hex_encode (arr_bytes (demo_sign (arr_bytes demo_pk) hello))).

Lemma para_hello : para_signs (w_http (answering hello_signature))
  (mkParaSigner "key" "wallet" "https://api" (client_builder (mkHttpClientConfig None None)) (Some demo_pk)) demo_pk hello.
Proof.
  intros tr r _. exists hello_signature, (Some (of_bytes hello_signature)). split_and!.
  - eexists. split_and!; [reflexivity|reflexivity|reflexivity|]. apply Nat.leb_le. vm_compute. reflexivity.
  - reflexivity.
  - exists (of_bytes hello_signature). split; [reflexivity|]. exists (demo_sign (arr_bytes demo_pk) hello). split.
    + left. apply of_bytes_as_bytes.
    + vm_compute. reflexivity.
Qed.

Lemma honest_provider_signs_message_witness :
  exists sg w' pk bytes, Traits.sign_message at_para hello (answering hello_signature) = (Returned (Ok sg), w') /\
    Traits.pubkey at_para = Returned pk /\ covered at_para pk hello bytes /\ verifies sg pk bytes = true.
Proof.
  apply (honest_provider_signs_message (w_http (answering hello_signature)) at_para hello); [apply answering_fair|].
  exists demo_pk. split; [reflexivity|apply para_hello].
Defined.

End HonestDemo.
