(* ===== verification/HonestTransactions.v ===== *)
(** * Honest providers (transactions)

    The promises of the providers about transactions, and that signing a
    transaction then succeeds, for every backend but Crossmint ([HonestSends]). *)

From S2P Require Import Prelude Errors World Externals JsonOrder TransactionUtil SignatureUtil RemoteUtil Traits Delivery Promises.
From S2P Require Import Memory Vault Privy Turnkey Kms Fireblocks WalletJwt Cdp Dfns Openfort Para Crossmint.
From S2P Require Import Utila Fordefi LedgerDashboard Ledger LedgerActor Keychain HonestMessages.

#[local] Open Scope keychain_scope.

(** ** Transactions that can be signed *)

Section Signing.
Context `{Codecs} `{SolanaSdk} `{!CodecLaws}.

Definition message_bytes (tx : VersionedTransaction) : list byte := message_serialize (message tx).

(** The key is one of the signers and the transaction has a wire encoding. *)
Record signable (pk : Pubkey) (tx : VersionedTransaction) : Prop := {
  signable_slot : exists i, signs_at tx pk i;
  signable_wire : forall sigs, length sigs <= Nat.max (required_signatures tx) (length (signatures tx)) ->
    exists b, wire_serialize sigs (message tx) = Ok b
}.

Lemma signable_wired pk tx : signable pk tx -> exists wire, serialize_wire_transaction tx = Ok wire.
Proof. intros [_ Hw]. destruct (Hw (signatures tx)) as [b Hb]; [lia|]. exists b. unfold serialize_wire_transaction. by rewrite Hb. Qed.

(** The slot of the key holds the signature. *)
Definition carries (pk : Pubkey) (tx : VersionedTransaction) (sg : Signature) : Prop :=
  exists i, signs_at tx pk i /\ signatures tx !! i = Some sg /\ sg ≠ Signature_default.

(** A returned transaction that carries a signature of the key over [m]. *)
Definition returns_signed (pk : Pubkey) (m wire : list byte) : Prop :=
  exists tx sg, wire_serialize (signatures tx) (message tx) = Ok wire /\ carries pk tx sg /\ signs pk m sg.

(** One that carries a signature of the key over its own message. *)
Definition returns_rewritten (pk : Pubkey) (good : VersionedTransaction -> Prop) (wire : list byte) : Prop :=
  exists tx sg, wire_serialize (signatures tx) (message tx) = Ok wire /\ carries pk tx sg /\
    signs pk (message_bytes tx) sg /\ good tx.

Lemma wire_decodes `{!SdkLaws} tx wire :
  wire_serialize (signatures tx) (message tx) = Ok wire -> deserialize_wire_transaction wire = Ok tx.
Proof. intros Hw. unfold deserialize_wire_transaction. rewrite (wire_roundtrip _ _ _ Hw). by destruct tx. Qed.

Lemma returned_accepted `{!SdkLaws} pk m wire :
  returns_signed pk m wire -> exists sg, extract_and_verify_returned_signature wire pk m = Ok sg /\ signs pk m sg.
Proof.
  intros (tx & sg & Hw & Hc & Hsg). exists sg. split; [|done].
  unfold extract_and_verify_returned_signature. rewrite (wire_decodes _ _ Hw). cbn [res_bind].
  rewrite (proj2 (signature_at_signer_position_Ok _ _ _)) by exact Hc. cbn [res_bind]. by rewrite signs_accepted.
Qed.

Lemma rewritten_accepted `{!SdkLaws} pk good wire :
  returns_rewritten pk good wire -> exists tx sg, extract_and_verify_rewritten_transaction wire pk = Ok (tx, sg) /\
    serialize_wire_transaction tx = Ok wire /\ carries pk tx sg /\ signs pk (message_bytes tx) sg /\ good tx.
Proof.
  intros (tx & sg & Hw & Hc & Hsg & Hg). exists tx, sg. split_and!; [|unfold serialize_wire_transaction; by rewrite Hw|done..].
  unfold extract_and_verify_rewritten_transaction. rewrite (wire_decodes _ _ Hw). cbn [res_bind].
  rewrite (proj2 (signature_at_signer_position_Ok _ _ _)) by exact Hc. cbn [res_bind].
  rewrite signs_accepted by exact Hsg. done.
Qed.

(** What [sign_and_serialize] hands back when all is well. *)
Definition attaches (pk : Pubkey) (tx : VersionedTransaction) (_ : list Event)
    (p : VersionedTransaction * result SignedTransaction) : Prop :=
  exists st, p.2 = Ok st /\ signed_as_given pk tx p.1 (classify_signed_transaction p.1 st).

Definition signs_given (pk : Pubkey) (tx : VersionedTransaction) (_ : list Event)
    (p : VersionedTransaction * result SignTransactionResult) : Prop :=
  exists res, p.2 = Ok res /\ signed_as_given pk tx p.1 res.

Context `{BuildProfile} {O : oracle}.

Lemma attach_delivers pk tx sg tr :
  signable pk tx -> signs pk (message_bytes tx) sg ->
  delivers O tr (of_run (attach_and_serialize tx pk sg)) (attaches pk tx).
Proof.
  intros [[i Hi] Hw] Hsg.
  assert (exists p, attach_and_serialize tx pk sg = Returned p /\ exists st, p.2 = Ok st) as ([tx' r] & Hp & st & Hst).
  { unfold attach_and_serialize. rewrite (add_signature_Ok _ _ _ _ Hi). eexists. split; [reflexivity|]. cbn [snd].
    unfold serialize_transaction, serialize_wire_transaction. cbn [signatures message].
    match goal with |- context [wire_serialize ?l _] => destruct (Hw l) as [b ->] end; [|by eexists].
    by rewrite length_insert, length_filled_slots. }
  cbn in Hst. subst r. eapply delivers_of_run; [exact Hp|]. exists st. split; [done|]. by eapply attach_sound.
Qed.

Lemma keeping_delivers pk tx (m : M (result Signature)) tr :
  signable pk tx -> delivers O tr m (yields (fun _ => signs pk (message_bytes tx))) ->
  delivers O tr (try! sg := m keeping tx in of_run (attach_and_serialize tx pk sg)) (attaches pk tx).
Proof. intros Ht Hm. eapply delivers_keep_bind; [exact Hm|]. intros tr' sg Hsg. by apply attach_delivers. Qed.

Lemma classify_delivers pk tx (m : M (VersionedTransaction * result SignedTransaction)) tr :
  delivers O tr m (attaches pk tx) ->
  delivers O tr (mut! (tx, st) := m in ret (tx, Ok (classify_signed_transaction tx st))) (signs_given pk tx).
Proof.
  intros Hm. eapply delivers_bind; [exact Hm|]. intros tr' [tx' r] (st & Hst & Hs). cbn in Hst. subst r.
  apply delivers_ret. by eexists.
Qed.

End Signing.

(** ** The backends that sign the message bytes *)

Section Backends.
Context `{Codecs} `{SolanaSdk} `{Json} `{FileSystem} `{ClientBuild} `{UrlParser} `{Jwt} `{Dalek} `{StdText}.
Context `{BuildProfile} `{Ecdsa} `{JsonText} `{PrivyCodec} `{TurnkeyCodec} `{AwsSdk} `{GcpSdk} `{FireblocksCodec}.
Context `{HttpHeaders} `{CdpCodec} `{!PemKeys} `{DfnsCodec} `{OpenfortCodec} `{ParaCodec} `{CrossmintCodec}.
Context `{UtilaCodec} `{P256} `{FordefiCodec}.
Context `{OffchainCrate} `{HID : Hid} `{!RemoteWallets} `{DeviceThread} `{Tokio}.
Context `{!CodecLaws} `{!SdkLaws} `{!JsonPrints} `{!JsonQuotes}.
Context (O : oracle).

Lemma memory_transaction_delivers (s : MemorySigner) tx tr :
  signable (MemorySigner.pubkey s) tx ->
  delivers O tr (MemorySigner.sign_transaction s tx) (signs_given (MemorySigner.pubkey s) tx).
Proof. intros Ht. apply classify_delivers, attach_delivers; [done|]. apply memory_signature_verifies. Qed.

Lemma vault_transaction_delivers s tx tr :
  signable (Vault.public_key s) tx -> vault_signs O s (message_bytes tx) ->
  delivers O tr (Vault.sign_transaction s tx) (signs_given (Vault.public_key s) tx).
Proof. intros Ht HS. apply classify_delivers, keeping_delivers; [done|]. by apply vault_delivers. Qed.

Lemma aws_transaction_delivers s tx tr :
  signable (Aws.public_key s) tx -> aws_signs O s (message_bytes tx) ->
  delivers O tr (Aws.sign_transaction s tx) (signs_given (Aws.public_key s) tx).
Proof. intros Ht HS. apply classify_delivers, keeping_delivers; [done|]. by apply aws_delivers. Qed.

Lemma gcp_transaction_delivers s tx tr :
  signable (Gcp.public_key s) tx -> gcp_signs O s (message_bytes tx) ->
  delivers O tr (Gcp.sign_transaction s tx) (signs_given (Gcp.public_key s) tx).
Proof. intros Ht HS. apply classify_delivers, keeping_delivers; [done|]. by apply gcp_delivers. Qed.

Lemma para_transaction_delivers s pk tx tr :
  Para.public_key s = Some pk -> signable pk tx -> para_signs O s pk (message_bytes tx) ->
  delivers O tr (Para.sign_transaction s tx) (signs_given pk tx).
Proof.
  intros Hpk Ht HS. apply classify_delivers. unfold Para.sign_and_serialize.
  eapply delivers_keep_bind; [by apply para_delivers|]. intros tr' sg Hsg. unfold Para.pubkey. rewrite Hpk.
  eapply delivers_bind; [by eapply delivers_of_run with (Q := fun _ x => x = pk)|]. intros ? ? ->. by apply attach_delivers.
Qed.

Lemma openfort_transaction_delivers s pk tx tr :
  Openfort.public_key s = Some pk -> openfort_ready s -> signable pk tx -> openfort_signs O s pk (message_bytes tx) ->
  delivers O tr (Openfort.sign_transaction s tx) (signs_given pk tx).
Proof.
  intros Hpk Hr Ht HS. apply classify_delivers. eapply delivers_keep_try; [unfold Openfort.initialized_pubkey; by rewrite Hpk|].
  apply keeping_delivers; [done|]. by apply openfort_delivers.
Qed.

Lemma ledger_transaction_delivers s tx tr :
  signable (Ledger.pubkey s) tx ->
  device_signs O s (SignTransactionMessage (path_str s) (message_bytes tx) (host_device_path s)) (message_bytes tx) ->
  delivers O tr (Ledger.sign_transaction s tx) (signs_given (Ledger.pubkey s) tx).
Proof.
  intros Ht HS. apply classify_delivers, keeping_delivers; [done|]. unfold sign_on_device.
  eapply device_delivers; [exact HS|]. intros. by apply delivers_checked.
Qed.

(** ** The backends that are sent the transaction *)

(** Dfns answers with a signature. *)
Definition dfns_signs_transaction (s : DfnsSigner) (pk : Pubkey) (tx : VersionedTransaction) : Prop :=
  forall wire, serialize_wire_transaction tx = Ok wire ->
    dfns_signs O s (signature_request_value (Transaction ("0x" +:+ hex_encode wire) "Solana")) pk (message_bytes tx).

Lemma dfns_transaction_delivers s pk tx tr :
  Dfns.public_key s = Some pk -> dfns_ready s -> signable pk tx -> dfns_signs_transaction s pk tx ->
  delivers O tr (Dfns.sign_transaction s tx) (signs_given pk tx).
Proof.
  intros Hpk Hr Ht HS. destruct (signable_wired _ _ Ht) as [wire Hw].
  apply classify_delivers. unfold Dfns.sign_and_serialize, Dfns.initialized_pubkey. rewrite Hpk.
  apply (delivers_keep_bind _ _ _ _ (fun _ => signs pk (message_bytes tx)));
    [|intros tr' sg Hsg; eapply delivers_keep_try; [reflexivity|]; by apply attach_delivers].
  unfold Dfns.sign_transaction_bytes, Dfns.initialized_pubkey. rewrite Hpk.
  eapply delivers_try; [exact Hw|]. cbv zeta. eapply delivers_try; [reflexivity|].
  eapply delivers_bind_res; [by apply dfns_request_delivers; [|apply HS]|]. intros tr' sg Hsg. by apply delivers_checked.
Qed.

(** The others answer with a signed copy of it. *)
Definition base64_returned (pk : Pubkey) (m : list byte) (enc : string) : Prop :=
  exists wire, enc = base64_encode wire /\ returns_signed pk m wire.

Definition privy_signs_transaction (s : PrivySigner) (pk : Pubkey) (tx : VersionedTransaction) : Prop :=
  forall wire, serialize_wire_transaction tx = Ok wire ->
    serves O (privy_asks s (sign_transaction_request (base64_encode wire)))
      (fun b => sign_transaction_response_from_str (from_utf8_lossy b)) (base64_returned pk (message_bytes tx)).

Lemma privy_transaction_delivers s pk tx tr :
  Privy.public_key s = Some pk -> privy_ready s -> signable pk tx -> privy_signs_transaction s pk tx ->
  delivers O tr (Privy.sign_transaction s tx) (signs_given pk tx).
Proof.
  intros Hpk Hr Ht HS. destruct (signable_wired _ _ Ht) as [wire Hw].
  apply classify_delivers. eapply delivers_keep_try; [unfold Privy.initialized_pubkey; by rewrite Hpk|].
  apply keeping_delivers; [done|]. unfold Privy.obtain_signature. eapply delivers_try; [exact Hw|]. cbv zeta.
  eapply delivers_bind_res; [by eapply privy_post_delivers; [|apply HS]|].
  intros tr' text (enc & Henc & signed & -> & (sg & Hex & Hsg)%returned_accepted).
  eapply delivers_try; [by rewrite Henc|]. eapply delivers_try; [by rewrite base64_decode_encode|].
  apply delivers_ret. unfold message_bytes in *. by rewrite Hex.
Qed.

(** The request of an activity, at some time. *)
Definition sign_transaction_value (s : TurnkeySigner) (wire : list byte) (now : Z) : Value :=
  sign_transaction_request_value "ACTIVITY_TYPE_SIGN_TRANSACTION_V2" (pretty now) (organization_id s)
    (mkSignTransactionParameters (private_key_id s) "TRANSACTION_TYPE_SOLANA" (hex_encode wire)).

Definition turnkey_signs_transaction (s : TurnkeySigner) (tx : VersionedTransaction) : Prop :=
  forall wire, serialize_wire_transaction tx = Ok wire ->
    serves O (fun r => exists now, turnkey_asks s "/public/v1/submit/sign_transaction" (sign_transaction_value s wire now) r)
      activity_from_slice
      (fun act => act_status act = Some "ACTIVITY_STATUS_COMPLETED" /\
         exists signed, act_result act ≫= sign_transaction_result = Some (hex_encode signed) /\
           returns_signed (Turnkey.public_key s) (message_bytes tx) signed).

Lemma turnkey_transaction_delivers s tx tr :
  signable (Turnkey.public_key s) tx -> turnkey_signs_transaction s tx ->
  delivers O tr (Turnkey.sign_transaction s tx) (signs_given (Turnkey.public_key s) tx).
Proof.
  intros Ht HS. destruct (signable_wired _ _ Ht) as [wire Hw].
  apply classify_delivers, keeping_delivers; [done|]. unfold Turnkey.obtain_signature. eapply delivers_try; [exact Hw|].
  eapply delivers_bind; [by apply delivers_utc_millis with (Q := fun _ _ => True)|]. intros tr1 now _. cbv zeta.
  destruct (value_prints (sign_transaction_value s wire now)) as [body Hb].
  eapply delivers_try; [unfold sign_transaction_value in Hb; by rewrite Hb|].
  eapply delivers_bind_res; [eapply turnkey_post_delivers; [exact Hb| |by apply HS]; by exists now|].
  intros tr2 act (signed & -> & (sg & Hex & Hsg)%returned_accepted).
  eapply delivers_try; [reflexivity|]. eapply delivers_try; [by rewrite hex_decode_encode|].
  apply delivers_ret. unfold message_bytes in *. by rewrite Hex.
Qed.

(** A transaction with lookup tables needs a configured network. *)
Lemma cdp_lookups_ok (s : CdpSigner) tx :
  (forall n, lookup_count (message tx) = Some n -> n = 0 \/ Cdp.network s ≠ None) ->
  match lookup_count (message tx) with Some n => negb (n =? 0) | None => false end && bool_decide (Cdp.network s = None) = false.
Proof.
  intros Hn. destruct (lookup_count (message tx)) as [n|]; [|done]. destruct (Hn n eq_refl) as [->|Hne]; [done|].
  by rewrite bool_decide_eq_false_2, andb_false_r.
Qed.

Definition cdp_signs_transaction (s : CdpSigner) (tx : VersionedTransaction) : Prop :=
  (forall n, lookup_count (message tx) = Some n -> n = 0 \/ Cdp.network s ≠ None) /\
  forall wire, serialize_wire_transaction tx = Ok wire ->
    serves O (cdp_asks s (Cdp.account_path s +:+ "/sign/transaction") (transaction_body s (base64_encode wire)))
      Cdp.sign_transaction_response_from_slice (base64_returned (Cdp.public_key s) (message_bytes tx)).

Lemma cdp_transaction_delivers s tx tr :
  cdp_ready s -> signable (Cdp.public_key s) tx -> cdp_signs_transaction s tx ->
  delivers O tr (Cdp.sign_transaction s tx) (signs_given (Cdp.public_key s) tx).
Proof.
  intros Hr Ht [Hn HS]. destruct (signable_wired _ _ Ht) as [wire Hw].
  apply classify_delivers, keeping_delivers; [done|]. unfold Cdp.obtain_signature.
  rewrite (cdp_lookups_ok s tx Hn). cbv zeta. eapply delivers_try; [exact Hw|]. unfold call_sign_transaction. cbv zeta.
  eapply delivers_bind_res; [by eapply cdp_post_delivers; [|apply HS]|].
  intros tr' enc (signed & -> & (sg & Hex & Hsg)%returned_accepted).
  eapply delivers_try; [by rewrite base64_decode_encode|]. apply delivers_ret. unfold message_bytes in *. by rewrite Hex.
Qed.

(** ** Jobs *)

(** A PROGRAM_CALL is answered with a signature, or with the transaction's own. *)
Definition program_call_good (pk : Pubkey) (m : list byte) (v : Fireblocks.TransactionResponse) : Prop :=
  (exists enc rest, tr_signed_messages v = enc :: rest /\ hex_signs pk m enc) \/
  (tr_signed_messages v = [] /\ exists hash, tr_tx_hash v = Some hash /\ base58_signs pk m hash).

Definition fireblocks_signs_transaction (s : FireblocksSigner) (pk : Pubkey) (tx : VersionedTransaction) : Prop :=
  if use_program_call s then
    is_v1_message tx = false /\ forall data, serialize_transaction tx = Ok data ->
      exists patience, patience < Fireblocks.max_poll_attempts s /\
        fireblocks_runs O s ModeProgramCall (program_call_request s data)
          (fireblocks_good ModeProgramCall (program_call_good pk (message_bytes tx))) patience
  else fireblocks_signs O s pk (message_bytes tx).

Lemma fireblocks_transaction_delivers s pk tx tr :
  Fireblocks.public_key s = Some pk -> fireblocks_ready s -> signable pk tx -> fireblocks_signs_transaction s pk tx ->
  delivers O tr (Fireblocks.sign_transaction s tx) (signs_given pk tx).
Proof.
  intros Hpk Hr Ht HS. destruct (signable_wired _ _ Ht) as [wire Hw]. unfold fireblocks_signs_transaction in HS.
  apply classify_delivers. eapply delivers_keep_try; [unfold Fireblocks.initialized_pubkey; by rewrite Hpk|].
  cbv zeta. apply keeping_delivers; [done|]. destruct (use_program_call s); [|by apply fireblocks_delivers].
  destruct HS as [Hv HS]. unfold sign_program_call, Fireblocks.initialized_pubkey. rewrite Hpk, Hv. eapply delivers_try; [reflexivity|].
  assert (serialize_transaction tx = Ok (base64_encode wire)) as Hd by (unfold serialize_transaction; by rewrite Hw).
  eapply delivers_try; [exact Hd|]. destruct (HS _ Hd) as (patience & Hn & HJ). apply delivers_assoc.
  eapply delivers_bind_res; [by eapply fireblocks_good_delivers|]. intros tr' v Hgood.
  assert (exists sg, match signature_from_signed_messages v with
             | Ok sig => Ok sig
             | Err e => match tr_tx_hash v with Some h => signature_from_base58 h | None => Err e end
             end = Ok sg /\ signs pk (message_bytes tx) sg) as (sg & Hsig & Hsg).
  { unfold signature_from_signed_messages. destruct Hgood as [(enc & rest & -> & (sg & -> & Hsg)%hex_accepted)|
      (-> & h & -> & (sg & -> & Hsg)%base58_accepted)]; by exists sg. }
  eapply delivers_try; [exact Hsig|]. unfold message_bytes, signs in Hsg. rewrite Hsg. by apply delivers_ret.
Qed.

Lemma black_box_transaction_delivers s tx tr :
  fordefi_ready O (bb_core s) -> signable (public_key (bb_core s)) tx ->
  fordefi_signs O (bb_core s) (black_box_value (bb_core s) (message_bytes tx)) (message_bytes tx) ->
  delivers O tr (BlackBox.sign_transaction s tx) (signs_given (public_key (bb_core s)) tx).
Proof. intros Hr Ht HS. apply classify_delivers, keeping_delivers; [done|]. by apply black_box_delivers. Qed.

(** *** Utila *)

Definition utila_ready (s : UtilaSigner) : Prop :=
  forall claims, exists t, jwt_encode "RS256" [] claims (Utila.signing_key s) = Ok t.

Definition utila_auth (s : UtilaSigner) (r : HttpRequest) : Prop :=
  exists t claims, bears "Authorization" ("Bearer " +:+ t) r /\ jwt_encode "RS256" [] claims (Utila.signing_key s) = Ok t.

Definition utila_vault_url (s : UtilaSigner) (path : string) : string :=
  Utila.api_base_url s +:+ "/v2/vaults/" +:+ encode_uri_component (Utila.vault_id s) +:+ path.

Definition utila_initiate_value (s : UtilaSigner) (wire : list byte) : Value :=
  initiate_request_value (mkInitiate (Utila.network s) (base64_encode wire) false false false (designated_signers s)).

Definition utila_status_url (s : UtilaSigner) (id : string) : string :=
  utila_vault_url s ("/transactions/" +:+ encode_uri_component id +:+ "?view=FULL").

Definition utila_waits (v : UtilaTransaction) : Prop := ut_state v ≠ Signed /\ is_terminal_failure (ut_state v) = false.
Definition utila_done (pk : Pubkey) (m : list byte) (v : UtilaTransaction) : Prop :=
  ut_state v = Signed /\ exists enc, ut_solana_transaction v = Some (Some enc) /\ base64_returned pk m enc.

(** The initiated transaction, over already or not, names the job. *)
Definition utila_receipt (fin : UtilaTransaction -> Prop) (v : UtilaTransaction) : Prop :=
  (exists id, extract_transaction_id (ut_name v) = Ok id) /\ (fin v \/ utila_waits v).
Definition utila_job_url (s : UtilaSigner) (v : UtilaTransaction) : string :=
  match extract_transaction_id (ut_name v) with Ok id => utila_status_url s id | Err _ => EmptyString end.

Definition utila_runs (s : UtilaSigner) (wire : list byte) (fin : UtilaTransaction -> Prop) (patience : nat) : Prop :=
  runs_job O
    (fun r => posts (utila_vault_url s "/transactions:initiate") (utila_initiate_value s wire) r /\ utila_auth s r)
    utila_envelope_from_slice (utila_receipt fin) (utila_job_url s) (fun _ => utila_auth s)
    utila_envelope_from_slice (fun _ => utila_waits) (fun _ => fin) patience.

Definition utila_signs_transaction (s : UtilaSigner) (pk : Pubkey) (tx : VersionedTransaction) : Prop :=
  forall wire, serialize_wire_transaction tx = Ok wire ->
    exists patience, patience < Utila.max_poll_attempts s /\ utila_runs s wire (utila_done pk (message_bytes tx)) patience.

Lemma utila_token_delivers s tr :
  utila_ready s ->
  delivers O tr (create_access_token s) (yields (fun t' t => t' = tr ++ [EvClock] /\
    exists claims, jwt_encode "RS256" [] claims (Utila.signing_key s) = Ok t)).
Proof.
  intros Hr. unfold create_access_token.
  eapply delivers_bind; [by apply delivers_utc with (Q := fun t _ => t = tr ++ [EvClock])|]. intros ? now ->. cbv zeta.
  apply delivers_ret. match goal with |- context [jwt_encode _ _ ?c _] => destruct (Hr c) as [t Ht]; rewrite Ht end.
  cbn. eauto.
Qed.

(** How the loop ends at a transaction it need not wait for. *)
Definition utila_verdict (v : UtilaTransaction) : result UtilaTransaction :=
  if bool_decide (ut_state v = Signed) then Ok v
  else Err (SigningFailed ("Utila transaction reached terminal state " +:+ state_debug (ut_state v))).

Definition utila_ends (fin : UtilaTransaction -> Prop) (t : list Event) (r : result UtilaTransaction) : Prop :=
  exists v, fin v /\ told O (fun _ => True) utila_envelope_from_slice t v /\ r = utila_verdict v.

Section Loop.
Context (fin : UtilaTransaction -> Prop).
Hypothesis fin_over : forall v, fin v -> ~ utila_waits v.

(** One turn of the loop that looks at what it has. *)
Lemma utila_look_delivers s id n attempt v tr :
  told O (fun _ => True) utila_envelope_from_slice tr v -> fin v \/ utila_waits v ->
  (utila_waits v -> delivers O tr (Utila.poll_loop s id n attempt v) (utila_ends fin)) ->
  delivers O tr
    (if bool_decide (ut_state v = Signed) then ret (Ok v)
     else if is_terminal_failure (ut_state v) then
       ret (Err (SigningFailed ("Utila transaction reached terminal state " +:+ state_debug (ut_state v))))
     else Utila.poll_loop s id n attempt v) (utila_ends fin).
Proof.
  intros Ht Hv Hk. destruct Hv as [Hv|Hv].
  - pose proof (fin_over v Hv) as Hw. assert (utila_ends fin tr (utila_verdict v)) as Hend by (by exists v).
    unfold utila_verdict in Hend. destruct (bool_decide_reflect (ut_state v = Signed)); [by apply delivers_ret|].
    destruct (is_terminal_failure (ut_state v)) eqn:Ef; [by apply delivers_ret|]. by destruct Hw.
  - destruct Hv as [Hs Hf]. rewrite bool_decide_eq_false_2, Hf by done. by apply Hk.
Qed.

Lemma utila_loop_delivers s id patience base n attempt v ext :
  utila_ready s ->
  (forall ext r', gets (utila_status_url s id) r' -> utila_auth s r' ->
     exists b' v, answers O (base ++ ext) r' b' /\ utila_envelope_from_slice b' = Ok v /\
       (fin v \/ (utila_waits v /\ polls (utila_status_url s id) ext < patience))) ->
  0 < attempt -> patience < n + polls (utila_status_url s id) ext -> 0 < n ->
  delivers O (base ++ ext) (Utila.poll_loop s id n attempt v) (utila_ends fin).
Proof.
  intros Hr HJ. revert attempt v ext. induction n as [|n IH]; intros attempt v ext Ha Hn Hpos; [lia|]. cbn [Utila.poll_loop].
  rewrite (proj2 (Nat.ltb_lt 0 attempt) Ha).
  apply (delivers_bind_res _ _ _ (fun t v' => told O (fun _ => True) utila_envelope_from_slice t v' /\ exists ext', t = base ++ ext' /\
    polls (utila_status_url s id) ext' = S (polls (utila_status_url s id) ext) /\
    (fin v' \/ (utila_waits v' /\ polls (utila_status_url s id) ext < patience)))).
  - eapply delivers_bind; [by apply delivers_sleep with (Q := fun t _ => t = (base ++ ext) ++ [EvSleep (Utila.poll_interval_ms s)])|].
    intros ? _ ->. unfold Utila.get_transaction, Utila.get_json. cbv zeta.
    eapply delivers_bind_res; [by apply utila_token_delivers|]. intros ? tok [-> [claims Ht]].
    edestruct (HJ (ext ++ [EvSleep (Utila.poll_interval_ms s); EvClock])) as (b & v' & Hans & Hv & Hd); cycle 2.
    + rewrite (assoc_L (++)) in Hans. rewrite <- !(assoc_L (++)). rewrite <- !(assoc_L (++)) in Hans.
      eapply delivers_ask; [exact Hans|exact Hv|]. split; [by eexists _, _, b|].
      eexists (ext ++ [EvSleep (Utila.poll_interval_ms s); EvClock] ++ [EvHttp _]).
      rewrite <- !(assoc_L (++)). split; [reflexivity|].
      rewrite !polls_app in *. rewrite polls_one by done. cbn [polls] in *. rewrite (polls_quiet _ [_; _]) in * by (by repeat constructor).
      rewrite Nat.add_0_r in Hd. split; [lia|exact Hd].
    + done.
    + by exists tok, claims.
  - intros ? v' (Htold & ext' & -> & Hp & Hd). eapply utila_look_delivers; [done|naive_solver|].
    intros Hw. destruct Hd as [Hd%fin_over|[_ Hd]]; [done|]. apply IH; lia.
Qed.

Lemma utila_initiate_delivers s wire patience tr :
  utila_ready s -> utila_runs s wire fin patience ->
  delivers O tr (initiate_transaction s (base64_encode wire)) (yields (fun t v => utila_receipt fin v /\
    told O (fun _ => True) utila_envelope_from_slice t v /\
    forall ext r', gets (utila_job_url s v) r' -> utila_auth s r' ->
      exists b' v', answers O (t ++ ext) r' b' /\ utila_envelope_from_slice b' = Ok v' /\
        (fin v' \/ (utila_waits v' /\ polls (utila_job_url s v) ext < patience)))).
Proof.
  intros Hr HJ. unfold initiate_transaction, utila_post_json, post_json. cbv zeta.
  destruct (value_prints (utila_initiate_value s wire)) as [body Hb]. pose proof Hb as Hb'. unfold utila_initiate_value in Hb'.
  rewrite Hb'. cbn [http_send_json].
  eapply delivers_bind_res; [by apply utila_token_delivers|]. intros tr1 t [-> [claims Ht]].
  edestruct (HJ (tr ++ [EvClock])) as (b & v & Hans & Hv & Hrec & Hst); [|eapply delivers_ask; [exact Hans|exact Hv|]].
  { split; [done|]. by exists t, claims. }
  split; [done|]. split; [by eexists _, _, b|]. intros ext r' Hg Ha. rewrite <- (assoc_L (++) _ [_]). by apply Hst.
Qed.

(** However the job ends, the caller learns it. *)
Lemma utila_runs_delivers s wire patience tr :
  utila_ready s -> patience < Utila.max_poll_attempts s -> utila_runs s wire fin patience ->
  delivers O tr (try! initiated := initiate_transaction s (base64_encode wire) in poll_signed_transaction s initiated) (utila_ends fin).
Proof.
  intros Hr Hn HJ. eapply delivers_bind_res; [by eapply utila_initiate_delivers|]. intros tr1 v ([[id Hid] Hv] & Ht & Hst).
  unfold utila_job_url in Hst. rewrite Hid in Hst. unfold poll_signed_transaction. eapply delivers_try; [exact Hid|].
  cbn [Utila.poll_loop]. change (0 <? 0) with false. cbv iota. eapply delivers_try; [reflexivity|].
  eapply utila_look_delivers; [done|exact Hv|].
  intros _. rewrite <- (app_nil_r tr1). eapply utila_loop_delivers; [done|exact Hst|lia..].
Qed.

End Loop.

Lemma utila_transaction_delivers s pk tx tr :
  Utila.public_key s = Some pk -> utila_ready s -> signable pk tx -> utila_signs_transaction s pk tx ->
  delivers O tr (Utila.sign_transaction s tx) (signs_given pk tx).
Proof.
  intros Hpk Hr Ht HS. destruct (signable_wired _ _ Ht) as [wire Hw]. destruct (HS wire Hw) as (patience & Hn & HJ).
  apply classify_delivers. eapply delivers_keep_try; [unfold Utila.initialized_pubkey; by rewrite Hpk|].
  apply keeping_delivers; [done|]. unfold Utila.obtain_signature. cbv zeta. eapply delivers_try; [exact Hw|].
  apply delivers_assoc. apply (delivers_bind_res _ _ _ (fun _ => utila_done pk (message_bytes tx))).
  - eapply delivers_weaken; [eapply utila_runs_delivers; [|done|exact Hn|exact HJ]; by intros v [Hv _] []|].
    intros t r (v & Hv & _ & ->). unfold utila_verdict. by rewrite bool_decide_eq_true_2 by apply Hv.
  - intros tr2 signed [_ (enc & -> & b & -> & (sg & Hex & Hsg)%returned_accepted)]. eapply delivers_try; [reflexivity|].
    apply delivers_ret. unfold extract_signature_from_raw_transaction, Utila.initialized_pubkey. rewrite Hpk. cbn [ok_or res_bind].
    rewrite base64_decode_encode. cbn [map_err res_bind]. unfold message_bytes in *. by rewrite Hex.
Qed.

(** ** Fordefi's native signers *)

Definition solana_transaction_value (core : FordefiCore) (chain : SolanaChainUniqueId) (fee : option FordefiSolanaFee)
    (mode : FordefiPushMode) (m : list byte) : Value :=
  request_value (vault_id core) "solana_transaction" (solana_transaction_details chain (base64_encode m) mode fee).

(** A job whose result is a rewritten transaction. *)
Definition fordefi_rewrites (core : FordefiCore) (doc : Value) (pushable : bool) (good : VersionedTransaction -> Prop) : Prop :=
  exists patience, patience < Fordefi.max_poll_attempts core /\
    fordefi_runs O core doc pushable (fordefi_good pushable (fun v => exists wire, st_raw_transaction v = Some (base64_encode wire) /\
      returns_rewritten (public_key core) good wire)) patience.

Lemma decode_raw_encoded v wire : st_raw_transaction v = Some (base64_encode wire) -> decode_raw_transaction v = Ok wire.
Proof. unfold decode_raw_transaction. intros ->. cbn. by rewrite base64_decode_encode. Qed.

(** What [modify_and_sign_transaction] hands back when all is well. *)
Definition signs_rewritten (pk : Pubkey) (good : VersionedTransaction -> Prop) (_ : list Event)
    (p : VersionedTransaction * result SignTransactionResult) : Prop :=
  exists st, p.2 = Ok (classify_signed_transaction p.1 st) /\ serialize_transaction p.1 = Ok st.1 /\
    carries pk p.1 st.2 /\ signs pk (message_bytes p.1) st.2 /\ good p.1.

Lemma manual_transaction_delivers s tx good tr :
  head (static_account_keys (message tx)) = Some (public_key (nm_core s)) -> fordefi_ready O (nm_core s) ->
  fordefi_rewrites (nm_core s) (solana_transaction_value (nm_core s) (nm_chain s) (nm_fee s) Manual (message_bytes tx)) false good ->
  delivers O tr (NativeManual.modify_and_sign_transaction s tx) (signs_rewritten (public_key (nm_core s)) good).
Proof.
  intros Hfp Hr (patience & Hn & HJ).
  apply (delivers_bind _ _ _ (fun _ p => exists st, p.2 = Ok st /\ serialize_transaction p.1 = Ok st.1 /\
    carries (public_key (nm_core s)) p.1 st.2 /\ signs (public_key (nm_core s)) (message_bytes p.1) st.2 /\ good p.1)).
  - eapply delivers_keep_try; [unfold NativeManual.validate_transaction; by rewrite Hfp, bool_decide_eq_false_2 by (by intros [])|].
    cbv zeta. eapply delivers_keep_bind; [by eapply fordefi_submit_delivers|]. intros tr1 id Hst.
    eapply delivers_keep_bind; [by eapply fordefi_poll_delivers|].
    intros tr2 v (wire & Hraw & (tx' & sg & Hex & Hw & Hc & Hsg & Hg)%rewritten_accepted).
    eapply delivers_keep_try; [by apply decode_raw_encoded|]. eapply delivers_keep_try; [exact Hex|].
    assert (serialize_transaction tx' = Ok (base64_encode wire)) as Henc by (unfold serialize_transaction; by rewrite Hw).
    eapply delivers_keep_try; [exact Henc|]. apply delivers_ret. by exists (base64_encode wire, sg).
  - intros tr' [tx' r] (st & Hst & Hrest). cbn in Hst. subst r. apply delivers_ret. by exists st.
Qed.

(** A transaction its fee payer has signed. *)
Definition fee_payer_signed (sg : Signature) (tx : VersionedTransaction) : Prop :=
  exists fp, head (signatures tx) = Some sg /\ sg ≠ Signature_default /\
    head (static_account_keys (message tx)) = Some fp /\ signs fp (message_bytes tx) sg.

Lemma slot_delivers tr (slot : option nat) (f : nat -> M unit) (Q : list Event -> unit -> Prop) :
  (forall c, delivers O tr (f c) Q) -> Q tr tt ->
  delivers O tr (match slot with Some c => f c | None => ret tt end) Q.
Proof. intros Hf HQ. destruct slot; [done|by apply delivers_ret]. Qed.

(** The vault is the only signer, and nobody has signed. *)
Definition solely_signed_by (pk : Pubkey) (tx : VersionedTransaction) : Prop :=
  u8_nat (num_required_signatures (message tx)) = 1 /\ head (static_account_keys (message tx)) = Some pk /\
  Forall (eq Signature_default) (signatures tx).

Lemma auto_validates s tx :
  solely_signed_by (public_key (na_core s)) tx -> NativeAuto.validate_transaction s tx = Ok tt.
Proof.
  intros (H1s & Hfp & Hnone). unfold NativeAuto.validate_transaction. rewrite H1s, Hfp, bool_decide_eq_false_2 by (by intros []).
  cbn [Nat.eqb negb orb]. destruct (existsb _ (signatures tx)) eqn:E; [|reflexivity]. apply existsb_exists in E as (x & Hx & Hne).
  apply bool_decide_eq_true in Hne. apply list_elem_of_In in Hx. rewrite Forall_forall in Hnone. by destruct Hne; rewrite (Hnone _ Hx).
Qed.

Lemma auto_transaction_delivers s tx tr :
  solely_signed_by (public_key (na_core s)) tx -> fordefi_ready O (na_core s) ->
  fordefi_rewrites (na_core s) (solana_transaction_value (na_core s) (na_chain s) (na_fee s) Auto (message_bytes tx)) true
    (fun tx' => exists sg, fee_payer_signed sg tx') ->
  delivers O tr (NativeAuto.sign_and_broadcast s tx) (yields (fun _ sg => exists tx', fee_payer_signed sg tx')).
Proof.
  intros Ht Hr (patience & Hn & HJ). unfold NativeAuto.sign_and_broadcast. eapply delivers_try; [by apply auto_validates|].
  cbv zeta. eapply delivers_bind_res; [by eapply fordefi_submit_delivers|]. intros tr1 id Hst.
  eapply (delivers_bind _ _ _ (fun t _ => t = tr1)); [apply slot_delivers; [intros c; by apply delivers_pending_set|done]|].
  intros ? _ ->. eapply (delivers_bind _ _ _ (yields (fun _ sg => exists tx', fee_payer_signed sg tx'))).
  - apply delivers_fmap_err. unfold NativeAuto.finish_broadcast. eapply delivers_bind_res; [by eapply fordefi_poll_delivers|].
    intros tr2 v (wire & Hraw & (tx' & sg & Hex & Hw & Hc & Hsg & sg' & Hg)%rewritten_accepted). apply delivers_ret.
    unfold NativeAuto.identify_broadcast. rewrite (decode_raw_encoded _ _ Hraw). cbn [res_bind]. rewrite Hex. cbn [res_bind].
    pose proof Hg as (fp & Hh & Hne & Hk & Hs). rewrite Hh, bool_decide_eq_true_2 by done. cbn [ok_or res_bind].
    rewrite Hk. cbn [ok_or res_bind]. unfold message_bytes in Hs. rewrite signs_accepted by exact Hs. by exists tx'.
  - intros tr2 r Hres. eapply (delivers_bind _ _ _ (fun _ _ => True)); [apply slot_delivers; [intros c; by apply delivers_pending_clear|done]|].
    intros tr3 _ _. apply delivers_ret. exact Hres.
Qed.

End Backends.
