(* ===== verification/HonestSends.v ===== *)
(** * Honest providers (broadcasts)

    Crossmint's promise, and that [sign_and_send] of a signer whose provider
    keeps its promise, and whose network takes transactions, succeeds. *)

From S2P Require Import Prelude Errors World Externals JsonOrder TransactionUtil SignatureUtil RemoteUtil Traits Delivery Promises.
From S2P Require Import Memory Vault Privy Turnkey Kms Fireblocks WalletJwt Cdp Dfns Openfort Para Crossmint.
From S2P Require Import Utila Fordefi LedgerDashboard Ledger LedgerActor Keychain HonestMessages HonestTransactions.

#[local] Open Scope keychain_scope.

(** ** Crossmint *)

Section Managed.
Context `{BuildProfile} `{Codecs} `{SolanaSdk} `{Json} `{ClientBuild} `{UrlParser} `{Dalek} `{StdText} `{CrossmintCodec}.
Context `{!CodecLaws} `{!SdkLaws} `{!JsonPrints}.
Context (O : oracle).

(** The base URL is one, and these are the URLs under it. *)
Definition crossmint_ready (s : CrossmintSigner) : Prop :=
  exists base, url_parse (Crossmint.api_base_url s) = Ok base /\ url_cannot_be_a_base base = false.

Definition crossmint_url (s : CrossmintSigner) (segments : list string) (url : string) : Prop :=
  build_wallets_api_url s segments = Ok url.

(** A document that names the transaction and describes it. *)
Definition describes (good : Crossmint.TransactionResponse -> Prop) (doc : Value) : Prop :=
  (exists id, value_get doc "id" = Some (JString id) /\ str_is_empty (trim id) = false) /\
  exists v, transaction_from_value doc = Ok v /\ good v.

(** The same, of the bytes of an answer. *)
Definition transaction_in (b : list byte) : Result Crossmint.TransactionResponse string :=
  match value_from_slice b with Ok doc => transaction_from_value doc | Err e => Err e end.
Definition crossmint_told : list Event -> Crossmint.TransactionResponse -> Prop := told O (fun _ => True) transaction_in.

Definition crossmint_auth (s : CrossmintSigner) : HttpRequest -> Prop := bears "X-API-KEY" (Crossmint.api_key s).

Definition approval_value (sg : Signature) (locator : string) : Value :=
  JObject [("approvals", JArray [JObject [("signature", JString (bs58_encode (arr_bytes sg))); ("signer", JString locator)]])].

(** The transaction landed: it is named by its fee payer's signature, or comes with it. *)
Definition crossmint_done (sg : Signature) (v : Crossmint.TransactionResponse) : Prop :=
  tr_status v = "success" /\ sg ≠ Signature_default /\
  (tr_on_chain v = Some (mkOnChain None (Some (bs58_encode (arr_bytes sg)))) \/
   exists tx wire name, tr_on_chain v = Some (mkOnChain (Some (bs58_encode wire)) name) /\
     wire_serialize (signatures tx) (message tx) = Ok wire /\ fee_payer_signed sg tx /\
     u8_nat (num_required_signatures (message tx)) <= length (static_account_keys (message tx))).
Definition crossmint_landed (_ : string) (v : Crossmint.TransactionResponse) : Prop := exists sg, crossmint_done sg v.

(** Still in progress; if it waits for an approval, the signer can give it, for
    one of the messages the provider poses. *)
Definition crossmint_waits (s : CrossmintSigner) (posed : list byte -> Prop) (tx_id : string)
    (v : Crossmint.TransactionResponse) : Prop :=
  tr_id v = tx_id /\ tr_status v ∉ ["success"; "failed"] /\
  (tr_status v = "awaiting-approval" -> exists key locator p b,
     Crossmint.signing_key s = Some key /\ signer s = Some locator /\
     tr_approvals v ≫= find (fun p => bool_decide ((pa_signer p ≫= id) = Some locator)) = Some p /\
     pa_message p = Some (bs58_encode b) /\ posed b).

(** A signer that can approve may spend one turn of its loop on that. *)
Definition approval_turns (s : CrossmintSigner) : nat :=
  match Crossmint.signing_key s with Some _ => 1 | None => 0 end.

(** Jobs, by how they end, given their id: [crossmint_landed] if all is well. *)
Section Jobs.
Context (fin : string -> Crossmint.TransactionResponse -> Prop).

(** After the events [base], status requests are answered, with a pending status
    at most [patience] times, and so is an approval of a message that was posed. *)
Record crossmint_job (s : CrossmintSigner) (posed : list byte -> Prop) (tx_id : string)
    (patience : nat) (base : list Event) : Prop := {
  job_status : forall url ext r, crossmint_url s ["transactions"; tx_id] url -> gets url r -> crossmint_auth s r ->
    exists b doc, answers O (base ++ ext) r b /\ value_from_slice b = Ok doc /\
      describes (fun v => fin tx_id v \/ (crossmint_waits s posed tx_id v /\ polls url ext < patience)) doc;
  job_approval : forall url ext r m key locator, crossmint_url s ["transactions"; tx_id; "approvals"] url ->
    posed m -> Crossmint.signing_key s = Some key -> signer s = Some locator ->
    posts url (approval_value (dalek_sign key m) locator) r -> crossmint_auth s r ->
    exists b doc, answers O (base ++ ext) r b /\ value_from_slice b = Ok doc /\
      describes (fun v => fin tx_id v \/ crossmint_waits s posed tx_id v) doc
}.

(** A create, with its idempotency key, is answered with a job. *)
Definition crossmint_runs (s : CrossmintSigner) (tx : VersionedTransaction) (patience : nat) : Prop :=
  forall wire url tr r, serialize_wire_transaction tx = Ok wire -> crossmint_url s ["transactions"] url ->
    posts url (Crossmint.create_request_value (Crossmint.mkCreateRequest (bs58_encode wire) (signer s))) r ->
    crossmint_auth s r -> bears "x-idempotency-key" (call_key s tx) r ->
    exists posed tx_id b doc, answers O tr r b /\ value_from_slice b = Ok doc /\
      describes (fun v => tr_id v = tx_id /\ (fin tx_id v \/ crossmint_waits s posed tx_id v)) doc /\
      crossmint_job s posed tx_id patience (tr ++ [EvHttp r]).

Lemma describes_typed good doc status field ctx :
  describes good doc -> is_success status = true -> field = "id" ->
  exists v, value_to_typed transaction_from_value status doc field ctx = Ok v /\ good v.
Proof.
  intros [(id & Hid & Hne) (v & Hv & Hg)] Hs ->. exists v. split; [|done]. unfold value_to_typed.
  unfold is_success in Hs. apply andb_true_iff in Hs as [_ Hs%Z.ltb_lt].
  destruct (Z.leb_spec 400 status); [lia|]. cbv zeta. rewrite Hid. cbn [as_str]. by rewrite Hne, Hv.
Qed.

Lemma describes_decoded status doc field ctx v :
  is_success status = true -> value_to_typed transaction_from_value status doc field ctx = Ok v -> transaction_from_value doc = Ok v.
Proof.
  intros Hs Hv. unfold value_to_typed in Hv. unfold is_success in Hs. apply andb_true_iff in Hs as [_ Hs%Z.ltb_lt].
  destruct (Z.leb_spec 400 status); [lia|]. cbv zeta in Hv. destruct (transaction_from_value doc) as [x|e]; cbn in Hv.
  - repeat case_match; by simplify_eq.
  - exfalso. repeat case_match; by simplify_eq.
Qed.

Lemma value_delivers tr resp b doc :
  chunks_data (resp_chunks resp) = Some b -> length b <= MAX_RESPONSE_BYTES -> value_from_slice b = Ok doc ->
  delivers O tr (read_json_value resp) (yields (fun t x => t = tr /\ x = doc)).
Proof.
  intros Hb Hl Hd. unfold read_json_value. eapply delivers_bind_res; [by apply delivers_body|]. intros ? ? [-> ->].
  apply delivers_ret. by rewrite Hd.
Qed.

Lemma described_delivers tr r b doc good ctx :
  answers O tr r b -> value_from_slice b = Ok doc -> describes good doc ->
  delivers O tr (try! response := fmap_err from_reqwest_error (http_send r) in
                 parse_response_with_required_field transaction_from_value response "id" ctx)
    (yields (fun t v => t = tr ++ [EvHttp r] /\ good v /\ crossmint_told t v)).
Proof.
  intros Hans Hd Hg. pose proof Hans as (resp & HO & Hs & Hb & Hl). eapply delivers_bind_res; [by apply delivers_reply|]. intros ? ? [-> ->].
  unfold parse_response_with_required_field. cbv zeta. eapply delivers_bind_res; [by eapply value_delivers|]. intros ? ? [-> ->].
  destruct (describes_typed good doc (resp_status resp) "id" ctx Hg Hs eq_refl) as (v & Ev & Hv). rewrite Ev. apply delivers_ret.
  split_and!; [done..|]. eexists _, r, b. split_and!; [done..|]. unfold transaction_in. rewrite Hd. by eapply describes_decoded.
Qed.

Lemma crossmint_url_total s segments : crossmint_ready s -> exists url, build_wallets_api_url s segments = Ok url.
Proof. intros (base & Hb & Hc). unfold build_wallets_api_url. rewrite Hb. cbn. rewrite Hc. by eexists. Qed.

Lemma polls_post url r : req_method r = "POST" -> polls url [EvHttp r] = 0.
Proof. intros Hm. unfold polls. cbn. by rewrite Hm. Qed.

Lemma crossmint_status_delivers s posed tx_id patience base url ext :
  crossmint_job s posed tx_id patience base -> build_wallets_api_url s ["transactions"; tx_id] = Ok url ->
  delivers O (base ++ ext) (Crossmint.get_transaction s tx_id) (yields (fun t v => crossmint_told t v /\ exists ext', t = base ++ ext' /\
    polls url ext' = S (polls url ext) /\
    (fin tx_id v \/ (crossmint_waits s posed tx_id v /\ polls url ext < patience)))).
Proof.
  intros HJ Hu. unfold Crossmint.get_transaction. eapply delivers_try; [exact Hu|].
  edestruct (job_status _ _ _ _ _ HJ url ext) as (b & doc & Hans & Hd & Hg); [done| | |].
  3: { eapply delivers_weaken; [by eapply described_delivers|]. intros t [v|e]; [|done]. intros (-> & Hv & Ht).
       split; [exact Ht|]. eexists (ext ++ [_]). rewrite <- (assoc_L (++)). split_and!; [reflexivity| |exact Hv].
       rewrite polls_app, polls_one by done. lia. }
  all: done.
Qed.

Lemma crossmint_approval_delivers s posed tx_id patience base url ext v :
  crossmint_ready s -> crossmint_job s posed tx_id patience base -> crossmint_waits s posed tx_id v ->
  tr_status v = "awaiting-approval" ->
  delivers O (base ++ ext) (handle_awaiting_approval s v) (yields (fun t v => crossmint_told t v /\ exists ext', t = base ++ ext' /\
    polls url ext' = polls url ext /\ (fin tx_id v \/ crossmint_waits s posed tx_id v))).
Proof.
  intros Hr HJ (Hid & _ & Hap) Hst. destruct (Hap Hst) as (key & locator & p & m & Hk & Hl & Hf & Hm & Hp).
  unfold handle_awaiting_approval. rewrite Hk, Hl. eapply delivers_try; [by rewrite Hf|]. eapply delivers_try; [by rewrite Hm|].
  unfold submit_approval. eapply delivers_try; [by rewrite bs58_decode_encode|]. cbv zeta.
  destruct (crossmint_url_total s ["transactions"; tx_id; "approvals"] Hr) as [aurl Hu]. rewrite Hid.
  eapply delivers_try; [exact Hu|]. destruct (value_prints (approval_value (dalek_sign key m) locator)) as [body Hb].
  pose proof Hb as Hb'. unfold approval_value in Hb'. rewrite Hb'. cbn [http_send_json].
  edestruct (job_approval _ _ _ _ _ HJ aurl ext) as (b & doc & Hans & Hd & Hg); [done|exact Hp|exact Hk|exact Hl| | |].
  3: { eapply delivers_weaken; [by eapply described_delivers|]. intros t [v'|e]; [|done]. intros (-> & Hv & Ht).
       split; [exact Ht|]. eexists (ext ++ [_]). rewrite <- (assoc_L (++)). split_and!; [reflexivity| |exact Hv].
       rewrite polls_app, polls_post by done. lia. }
  all: done.
Qed.

(** How the loop ends at a transaction that is over. *)
Definition crossmint_verdict (v : Crossmint.TransactionResponse) : result Crossmint.TransactionResponse :=
  if bool_decide (tr_status v = "success") then Ok v else Err (transaction_failure v).

Definition crossmint_ends (tx_id : string) (t : list Event) (r : result Crossmint.TransactionResponse) : Prop :=
  exists v, fin tx_id v /\ crossmint_told t v /\ r = crossmint_verdict v.

Hypothesis fin_over : forall tx_id v, fin tx_id v -> tr_status v ∈ ["success"; "failed"].

(** A turn each for an approval, for the pending polls that are left and for the last one. *)
Lemma crossmint_loop_delivers s posed tx_id patience base url n (submitted : bool) v ext :
  crossmint_ready s -> crossmint_job s posed tx_id patience base ->
  build_wallets_api_url s ["transactions"; tx_id] = Ok url -> crossmint_told (base ++ ext) v ->
  fin tx_id v \/ (crossmint_waits s posed tx_id v /\
    (if submitted then 0 else approval_turns s) + (patience - polls url ext) < n) ->
  delivers O (base ++ ext) (Crossmint.poll_loop s n submitted v) (crossmint_ends tx_id).
Proof.
  intros Hr HJ Hu. revert submitted v ext. induction n as [|n IH]; intros submitted v ext Ht [Hd|[Hw Hlt]]; cbn [Crossmint.poll_loop].
  1,3: assert (crossmint_ends tx_id (base ++ ext) (crossmint_verdict v)) as Hend by (by exists v);
    unfold crossmint_verdict in Hend; pose proof (fin_over _ _ Hd) as Hover;
    destruct (bool_decide_reflect (tr_status v = "success")); [by apply delivers_ret|];
    rewrite bool_decide_eq_true_2 by set_solver; by apply delivers_ret.
  { lia. }
  pose proof Hw as (Hid & Hns & _). rewrite !(bool_decide_eq_false_2 (_ = "success")), !(bool_decide_eq_false_2 (_ = "failed")) by set_solver.
  destruct (bool_decide (tr_status v = "awaiting-approval") && negb submitted) eqn:Ea.
  - apply andb_true_iff in Ea as [Ea%bool_decide_eq_true Es%negb_true_iff]. subst submitted.
    assert (approval_turns s = 1) as Hturn.
    { destruct Hw as (_ & _ & Hap). destruct (Hap Ea) as (key & _ & _ & _ & Hk & _). unfold approval_turns. by rewrite Hk. }
    eapply delivers_bind_res; [by eapply crossmint_approval_delivers|].
    intros ? v' (Ht' & ext' & -> & Hp & Hv'). apply IH; [done|]. rewrite Hp. destruct Hv' as [?|?]; [by left|right]. split; [done|]. lia.
  - eapply delivers_bind; [by apply delivers_sleep with (Q := fun t _ => t = base ++ ext ++ [EvSleep (Crossmint.poll_interval_ms s)]);
      rewrite (assoc_L (++))|].
    intros ? _ ->. rewrite Hid. eapply delivers_bind_res; [by eapply crossmint_status_delivers|].
    intros ? v' (Ht' & ext' & -> & Hp & Hv'). rewrite polls_app, (polls_quiet _ [_]), Nat.add_0_r in Hp, Hv' by (by repeat constructor).
    apply IH; [done|]. rewrite Hp. destruct Hv' as [?|[? ?]]; [by left|right]. split; [done|]. lia.
Qed.

Lemma crossmint_create_delivers s tx wire patience tr :
  crossmint_ready s -> serialize_wire_transaction tx = Ok wire -> crossmint_runs s tx patience ->
  delivers O tr (Crossmint.create_transaction s (bs58_encode wire) (call_key s tx)) (yields (fun t v => exists posed,
    crossmint_told t v /\ (fin (tr_id v) v \/ crossmint_waits s posed (tr_id v) v) /\ crossmint_job s posed (tr_id v) patience t)).
Proof.
  intros Hr Hw HS. unfold Crossmint.create_transaction. destruct (crossmint_url_total s ["transactions"] Hr) as [url Hu].
  eapply delivers_try; [exact Hu|]. cbv zeta.
  destruct (value_prints (Crossmint.create_request_value (Crossmint.mkCreateRequest (bs58_encode wire) (signer s)))) as [body Hb].
  rewrite Hb. cbn [http_send_json].
  edestruct (HS wire url tr) as (posed & tx_id & b & doc & Hans & Hd & Hg & HJ); [done|done| | | |].
  4: { pose proof Hans as (resp & HO & Hs & Hbd & Hl). eapply delivers_bind_res; [apply delivers_reply; exact HO|]. intros ? ? [-> ->].
       eapply delivers_bind_res; [by apply delivers_fmap_err; eapply value_delivers|]. intros ? ? [-> ->].
       destruct (describes_typed _ doc (resp_status resp) "id" "create_transaction" Hg Hs eq_refl) as (v & Ev & <- & Hv).
       rewrite Ev. apply delivers_ret. cbn. exists posed. split_and!; [|done..].
       eexists _, _, b. split_and!; [done..|]. unfold transaction_in. rewrite Hd. by eapply describes_decoded. }
  all: done.
Qed.

(** However the job ends, the caller learns it. *)
Lemma crossmint_runs_delivers s pk tx patience tr (Q : list Event -> result Signature -> Prop) :
  Crossmint.public_key s = Some pk -> crossmint_ready s -> (exists wire, serialize_wire_transaction tx = Ok wire) ->
  patience + approval_turns s < Crossmint.max_poll_attempts s -> crossmint_runs s tx patience ->
  (forall tx_id v t, fin tx_id v -> crossmint_told t v -> Q t (map_err (fun e => BroadcastUnconfirmed (Some tx_id) None (Some (call_key s tx)) None (detail_string e))
       (let? v := crossmint_verdict v in extract_signature_from_response v))) ->
  delivers O tr (execute_managed_transaction s tx) Q.
Proof.
  intros Hpk Hr [wire Hw] Hn HS HQ. unfold execute_managed_transaction, Crossmint.initialized_pubkey. rewrite Hpk.
  eapply delivers_try; [reflexivity|]. eapply delivers_try; [exact Hw|]. cbv zeta.
  eapply delivers_bind_res; [by eapply crossmint_create_delivers|]. intros tr1 v (posed & Ht & Hv & HJ).
  eapply (delivers_bind _ _ _ (fun t _ => t = tr1)); [apply slot_delivers; [intros c; by apply delivers_pending_set|done]|].
  intros ? _ ->. eapply (delivers_bind _ _ _ Q).
  - unfold fmap_err, finish_managed_transaction, poll_transaction.
    destruct (crossmint_url_total s ["transactions"; tr_id v] Hr) as [url Hu].
    eapply (delivers_bind _ _ _ (fun t r => exists v', fin (tr_id v) v' /\ crossmint_told t v' /\
      r = let? v' := crossmint_verdict v' in extract_signature_from_response v')).
    + eapply delivers_bind; [rewrite <- (app_nil_r tr1); eapply crossmint_loop_delivers; [done|exact HJ|exact Hu|by rewrite app_nil_r|]|].
      * destruct Hv as [?|?]; [by left|right]. split; [done|]. change (polls url []) with 0. lia.
      * intros t r (v' & Hf & Ht' & ->). destruct (crossmint_verdict v') as [x|e] eqn:E; apply delivers_ret; exists v'; by rewrite E.
    + intros t r (v' & Hf & Ht' & ->). apply delivers_ret. by apply HQ.
  - intros tr2 r Hres. eapply (delivers_bind _ _ _ (fun t _ => t = tr2)); [apply slot_delivers; [intros c; by apply delivers_pending_clear|done]|].
    intros ? _ ->. by apply delivers_ret.
Qed.

End Jobs.

Definition crossmint_sends (s : CrossmintSigner) (tx : VersionedTransaction) (patience : nat) : Prop :=
  crossmint_runs crossmint_landed s tx patience.

Lemma crossmint_extract sg v : crossmint_done sg v -> extract_signature_from_response v = Ok sg.
Proof.
  intros (_ & Hne & [Hc|(tx & wire & name & Hc & Hw & (fp & Hh & _ & Hk & Hs) & Hl)]); unfold extract_signature_from_response; rewrite Hc.
  - cbn. by rewrite (proj1 (signature_decoders_roundtrip sg [])).
  - cbn [oc_transaction]. unfold fee_payer_signature_from_serialized_transaction. rewrite bs58_decode_encode. cbn [map_err res_bind].
    rewrite (wire_decodes _ _ Hw). cbn [map_err res_bind]. cbv zeta.
    destruct (Nat.ltb_spec (length (static_account_keys (message tx))) (u8_nat (num_required_signatures (message tx)))); [lia|].
    rewrite Hk. cbn [ok_or res_bind]. rewrite Hh, bool_decide_eq_true_2 by done. cbn [ok_or res_bind].
    unfold message_bytes in Hs. by rewrite signs_accepted.
Qed.

Lemma crossmint_transaction_delivers s pk tx patience tr :
  Crossmint.public_key s = Some pk -> crossmint_ready s -> (exists wire, serialize_wire_transaction tx = Ok wire) ->
  patience + approval_turns s < Crossmint.max_poll_attempts s -> crossmint_sends s tx patience ->
  delivers O tr (execute_managed_transaction s tx) (yields (fun _ sg => sg ≠ Signature_default)).
Proof.
  intros Hpk Hr Hw Hn HS. eapply (crossmint_runs_delivers crossmint_landed); [|exact Hpk|done..|].
  - intros tx_id v (sg & -> & _). set_solver.
  - intros tx_id v t (sg & Hd) _. unfold crossmint_verdict. rewrite bool_decide_eq_true_2 by apply Hd. cbn [res_bind].
    rewrite (crossmint_extract _ _ Hd). apply Hd.
Qed.

End Managed.

(** ** Broadcasting what was signed *)

Section Broadcast.
Context `{BuildProfile} `{Codecs} `{SolanaSdk} {O : oracle}.

(** The other signers have signed, and the placeholder is nobody's signature. *)
Record sendable (pk : Pubkey) (tx : VersionedTransaction) : Prop := {
  sendable_signable : signable pk tx;
  sendable_others : forall i j, signs_at tx pk i -> j ≠ i -> j < required_signatures tx ->
    exists sg, signatures tx !! j = Some sg /\ sg ≠ Signature_default;
  sendable_default : verifies Signature_default pk (message_bytes tx) = false
}.

(** The caller's [send] gets a complete transaction of this kind through, and
    answers with the signature that identifies it. *)
Definition network_takes (send : string -> M (result Signature)) (good : VersionedTransaction -> Prop) : Prop :=
  forall tx enc tr, good tx -> has_all_required_signatures tx = true -> serialize_transaction tx = Ok enc ->
    delivers O tr (send enc) (yields (fun _ sg => head (signatures tx) = Some sg)).

Definition sent (tx' : VersionedTransaction) (sg : Signature) : Prop :=
  has_all_required_signatures tx' = true /\ head (signatures tx') = Some sg /\ sg ≠ Signature_default.

Lemma signed_complete pk tx tx' res :
  sendable pk tx -> signed_as_given pk tx tx' res -> has_all_required_signatures tx' = true.
Proof.
  intros [_ Ho Hd] [Hatt Hv _ _]. apply has_all_required_spec.
  assert (required_signatures tx' = required_signatures tx) as -> by (unfold required_signatures; by rewrite (att_message _ _ _ _ Hatt)).
  split; [rewrite (att_length _ _ _ _ Hatt); lia|]. intros j Hj Hdef. destruct (att_slot _ _ _ _ Hatt) as (i & Hi & Hs).
  destruct (decide (j = i)) as [->|Hne].
  - rewrite Hs in Hdef. injection Hdef as Hdef. rewrite Hdef in Hv. unfold message_bytes in Hd. congruence.
  - destruct (Ho i j Hi Hne Hj) as (sg & Hsg & Hn). by rewrite (att_other _ _ _ _ Hatt i j sg Hi Hne Hsg) in Hdef; simplify_eq.
Qed.

Lemma broadcast_delivers tx st send good tr :
  has_all_required_signatures tx = true -> 0 < required_signatures tx -> serialize_transaction tx = Ok st.1 -> good tx ->
  network_takes send good ->
  delivers O tr (broadcast_complete (classify_signed_transaction tx st) (head (signatures tx)) send) (yields (fun _ => sent tx)).
Proof.
  intros Hall Hpos Henc Hg Hn. destruct (complete_fee_payer tx Hall Hpos) as (fp & Hfp & Hne).
  unfold broadcast_complete, classify_signed_transaction. rewrite Hall, Hfp. cbn [into_signed_transaction negb].
  rewrite bool_decide_eq_true_2 by done. eapply delivers_try; [reflexivity|]. apply delivers_fmap_err.
  eapply delivers_weaken; [by eapply Hn|]. intros t [sg|e]; [|done]. cbn. intros Hsg. split_and!; [done..|congruence].
Qed.

Lemma send_signed_delivers {S : Type} `{!TransactionSigner S} (s : S) pk tx send tr :
  sendable pk tx -> network_takes send (fun tx' => message tx' = message tx) ->
  delivers O tr (Traits.sign_transaction s tx) (signs_given pk tx) ->
  delivers O tr (Traits.sign_and_send s tx send) (fun _ p => message p.1 = message tx /\ exists sg, p.2 = Ok sg /\ sent p.1 sg).
Proof.
  intros Ht Hn Hs. eapply delivers_bind; [exact Hs|]. intros tr' [tx' r] (res & Hr & Hg). cbn in Hr. subst r. cbn [fst snd] in *.
  pose proof (signed_complete _ _ _ _ Ht Hg) as Hall. destruct Hg as [Hatt _ Henc Hcl].
  destruct (att_slot _ _ _ _ Hatt) as (i & [Hi _] & _). pose proof (att_message _ _ _ _ Hatt) as Hm.
  rewrite Hcl. eapply (delivers_bind _ _ _ (yields (fun _ => sent tx'))).
  - eapply (broadcast_delivers _ (into_signed_transaction res)); [done| |done| |exact Hn]; [|done].
    unfold required_signatures in *. rewrite Hm. lia.
  - intros t [sg|e] Hsg; [|done]. apply delivers_ret. split; [done|]. by exists sg.
Qed.

Lemma send_rewritten_delivers {S : Type} `{!ModifyingSigner S} (s : S) pk tx send good tr :
  (forall tx', good tx' -> has_all_required_signatures tx' = true) -> network_takes send good ->
  delivers O tr (Traits.modify_and_sign_transaction s tx) (signs_rewritten pk good) ->
  delivers O tr (modify_and_send s tx send) (fun _ p => exists sg, p.2 = Ok sg /\ sent p.1 sg).
Proof.
  intros Hall Hn Hs. eapply delivers_bind; [exact Hs|]. intros tr' [tx' r] (st & Hr & Henc & (i & [Hi _] & _) & _ & Hg).
  cbn in Hr. subst r. cbn [fst snd] in *. eapply (delivers_bind _ _ _ (yields (fun _ => sent tx'))).
  - eapply broadcast_delivers; [by apply Hall|lia|done|exact Hg|exact Hn].
  - intros t [sg|e] Hsg; [|done]. apply delivers_ret. by exists sg.
Qed.

End Broadcast.

(** ** All backends *)

Section AllBackends.
Context `{Codecs} `{SolanaSdk} `{Json} `{FileSystem} `{ClientBuild} `{UrlParser} `{Jwt} `{Dalek} `{StdText}.
Context `{BuildProfile} `{Ecdsa} `{JsonText} `{PrivyCodec} `{TurnkeyCodec} `{AwsSdk} `{GcpSdk} `{FireblocksCodec}.
Context `{HttpHeaders} `{CdpCodec} `{!PemKeys} `{DfnsCodec} `{OpenfortCodec} `{ParaCodec} `{CrossmintCodec}.
Context `{UtilaCodec} `{P256} `{FordefiCodec}.
Context `{OffchainCrate} `{HID : Hid} `{!RemoteWallets} `{DeviceThread} `{Tokio}.
Context `{!CodecLaws} `{!SdkLaws} `{!JsonPrints} `{!JsonQuotes}.
Context (O : oracle).

(** What makes signing the transaction possible, for the backends that hand it back. *)
Definition transaction_service (self : Signer) (pk : Pubkey) (tx : VersionedTransaction) : Prop :=
  let m := message_bytes tx in
  match self with
  | Memory s => pk = MemorySigner.pubkey s
  | Vault s => pk = Vault.public_key s /\ vault_signs O s m
  | Privy s => Privy.public_key s = Some pk /\ privy_ready s /\ privy_signs_transaction O s pk tx
  | Turnkey s => pk = Turnkey.public_key s /\ turnkey_signs_transaction O s tx
  | AwsKms s => pk = Aws.public_key s /\ aws_signs O s m
  | Fireblocks s => Fireblocks.public_key s = Some pk /\ fireblocks_ready s /\ fireblocks_signs_transaction O s pk tx
  | GcpKms s => pk = Gcp.public_key s /\ gcp_signs O s m
  | Cdp s => pk = Cdp.public_key s /\ cdp_ready s /\ cdp_signs_transaction O s tx
  | Dfns s => Dfns.public_key s = Some pk /\ dfns_ready s /\ dfns_signs_transaction O s pk tx
  | Openfort s => Openfort.public_key s = Some pk /\ openfort_ready s /\ openfort_signs O s pk m
  | Para s => Para.public_key s = Some pk /\ para_signs O s pk m
  | Utila s => Utila.public_key s = Some pk /\ utila_ready s /\ utila_signs_transaction O s pk tx
  | FordefiBlackBox s => pk = public_key (bb_core s) /\ fordefi_ready O (bb_core s) /\
      fordefi_signs O (bb_core s) (black_box_value (bb_core s) m) m
  | Ledger s => pk = Ledger.pubkey s /\ device_signs O s (SignTransactionMessage (path_str s) m (host_device_path s)) m
  | Crossmint _ | FordefiNativeAuto _ | FordefiNativeManual _ => False
  end.

(** What makes sending it possible: the transaction lacks nothing but what the
    signer adds, and the network, or the provider that broadcasts, takes it. *)
Definition send_service (self : Signer) (tx : VersionedTransaction) (send : string -> M (result Signature)) : Prop :=
  match self with
  | Crossmint s => exists pk patience, Crossmint.public_key s = Some pk /\ crossmint_ready s /\
      (exists wire, serialize_wire_transaction tx = Ok wire) /\
      patience + approval_turns s < Crossmint.max_poll_attempts s /\ crossmint_sends O s tx patience
  | FordefiNativeAuto s => solely_signed_by (public_key (na_core s)) tx /\ fordefi_ready O (na_core s) /\
      fordefi_rewrites O (na_core s)
        (solana_transaction_value (na_core s) (na_chain s) (na_fee s) Auto (message_bytes tx)) true
        (fun tx' => exists sg, fee_payer_signed sg tx')
  | FordefiNativeManual s => head (static_account_keys (message tx)) = Some (public_key (nm_core s)) /\
      fordefi_ready O (nm_core s) /\ exists good, (forall tx', good tx' -> has_all_required_signatures tx' = true) /\
        network_takes (O := O) send good /\ fordefi_rewrites O (nm_core s)
          (solana_transaction_value (nm_core s) (nm_chain s) (nm_fee s) Manual (message_bytes tx)) false good
  | _ => exists pk, sendable pk tx /\ network_takes (O := O) send (fun tx' => message tx' = message tx) /\
      transaction_service self pk tx
  end.

(** What the caller then holds: if the provider broadcasts, the signature that its
    last answer reports. *)
Definition went_out (self : Signer) (tx tx' : VersionedTransaction) (sg : Signature) (w' : World) : Prop :=
  match as_sending_signer self, as_modifying_signer self with
  | Some _, _ => tx' = tx /\ sg ≠ Signature_default /\ last_answered w' (lands self sg)
  | None, Some _ => sent tx' sg
  | None, None => message tx' = message tx /\ sent tx' sg
  end.

Lemma transactions_deliver (self : Signer) pk tx d tr :
  as_transaction_signer self = Some d -> signable pk tx -> transaction_service self pk tx ->
  delivers O tr (@Traits.sign_transaction _ _ (ts_inst d) (ts_value d) tx) (signs_given pk tx).
Proof.
  destruct self as [s|s|s|s|s|s|s|s|s|s|s|s|s|s|s|s|s]; cbn [transaction_service as_transaction_signer]; intros [= <-] Ht HS; cbv zeta in HS.
  - subst pk. by apply memory_transaction_delivers.
  - destruct HS as [-> HS]. by apply vault_transaction_delivers.
  - destruct HS as (Hpk & Hr & HS). by apply privy_transaction_delivers.
  - destruct HS as [-> HS]. by apply turnkey_transaction_delivers.
  - destruct HS as [-> HS]. by apply aws_transaction_delivers.
  - destruct HS as (Hpk & Hr & HS). by apply fireblocks_transaction_delivers.
  - destruct HS as [-> HS]. by apply gcp_transaction_delivers.
  - destruct HS as (-> & Hr & HS). by apply cdp_transaction_delivers.
  - destruct HS as (Hpk & Hr & HS). by apply dfns_transaction_delivers.
  - destruct HS as (Hpk & Hr & HS). by apply openfort_transaction_delivers.
  - destruct HS as (Hpk & HS). by apply para_transaction_delivers.
  - destruct HS as (Hpk & Hr & HS). by apply utila_transaction_delivers.
  - destruct HS as (-> & Hr & HS). by apply black_box_transaction_delivers.
  - destruct HS as [-> HS]. by apply ledger_transaction_delivers.
Qed.

(** A call that ends well, in a world that shows what went out. *)
Definition goes_out (self : Signer) (tx : VersionedTransaction) (m : M (VersionedTransaction * result Signature)) (tr : list Event) : Prop :=
  forall w, fair O w -> w_trace w = tr -> exists tx' sg w', m w = (Returned (tx', Ok sg), w') /\ went_out self tx tx' sg w'.

Lemma delivers_goes_out (self : Signer) tx m tr (Q : VersionedTransaction -> Signature -> Prop) :
  delivers O tr m (fun _ p => exists sg, p.2 = Ok sg /\ Q p.1 sg) ->
  (forall tx' sg w', Q tx' sg -> went_out self tx tx' sg w') -> goes_out self tx m tr.
Proof.
  intros Hm HQ w Hw Htr. destruct (Hm w Hw Htr) as ([tx' r] & w' & E & _ & sg & Hr & Hq). cbn in *. subst r.
  exists tx', sg, w'. auto.
Qed.

(** A provider that broadcasts answers with a signature. *)
Lemma provider_goes_out (self : Signer) d tx send tr Q :
  as_sending_signer self = Some d -> (forall sg, Q sg -> sg ≠ Signature_default) ->
  delivers O tr (@Traits.sign_and_send_transaction _ _ (ss_inst d) (ss_value d) tx) (yields (fun _ => Q)) ->
  goes_out self tx (Keychain.sign_and_send self tx send) tr.
Proof.
  intros Hd HQ Hs w Hw Htr. destruct (Hs w Hw Htr) as ([sg|e] & w' & E & _ & Hq); [|done].
  unfold Keychain.sign_and_send, went_out. rewrite Hd. exists tx, sg, w'. split_and!; [|done|by apply HQ|].
  - unfold keep_bind, bind. rewrite E. unfold require_broadcast_signature. cbn. by rewrite bool_decide_eq_false_2 by by apply HQ.
  - by eapply (landing_reported _ _ _ (sending_documented self d tx Hd)).
Qed.

Lemma sends_deliver (self : Signer) tx send tr :
  send_service self tx send -> goes_out self tx (Keychain.sign_and_send self tx send) tr.
Proof.
  intros HS. destruct self as [s|s|s|s|s|s|s|s|s|s|s|s|s|s|s|s|s];
    lazymatch goal with
    | |- goes_out (Crossmint ?s) _ _ _ => idtac
    | |- goes_out (FordefiNativeAuto ?s) _ _ _ => idtac
    | |- goes_out (FordefiNativeManual ?s) _ _ _ => idtac
    | |- goes_out ?self _ _ _ =>
        destruct HS as (pk & Ht & Hn & HS);
        pose proof (transactions_deliver self pk tx _ tr eq_refl (sendable_signable _ _ Ht) HS) as Hs;
        apply (delivers_goes_out _ _ _ _ (fun tx' sg => message tx' = message tx /\ sent tx' sg)); [|done];
        eapply delivers_weaken; [exact (send_signed_delivers _ _ _ _ _ Ht Hn Hs)|];
        intros t p (Hm & sg & Hp & Hsent); by exists sg
    end.
  - destruct HS as (pk & patience & Hpk & Hr & Hw & Hn & HS).
    eapply provider_goes_out; [reflexivity| |by eapply crossmint_transaction_delivers]. done.
  - destruct HS as (Ht & Hr & HS). eapply provider_goes_out; [reflexivity| |by eapply auto_transaction_delivers].
    by intros sg (tx' & fp & _ & Hne & _).
  - destruct HS as (Hfp & Hr & good & Hall & Hn & HS). apply (delivers_goes_out _ _ _ _ sent); [|done].
    exact (send_rewritten_delivers s _ tx send good tr Hall Hn (manual_transaction_delivers O s tx good tr Hfp Hr HS)).
Qed.

(** C4: honest providers get transactions sent.  Where the transaction lacks
    nothing but the signer's own signature, the provider answers requests of the
    documented form as documented, the network takes the completed transaction
    and nobody cancels the call, [sign_and_send] of every backend terminates with
    the signature that identifies the broadcast.  The provider may call the job
    pending fewer times than the configured attempts; for a Crossmint signer that
    can approve, one attempt fewer is available, since the approval takes a turn of
    the loop.  The signature is the fee payer's in the transaction handed back,
    which has every required signature and, unless the provider rewrites
    transactions, the caller's message.  A provider that broadcasts itself leaves
    the caller's transaction alone: the signature is then that of the transaction
    which the provider's last answer says has landed. *)
Theorem honest_provider_sends (self : Signer) (tx : VersionedTransaction) (send : string -> M (result Signature)) (w : World) :
  fair O w -> send_service self tx send ->
  exists tx' sg w', Keychain.sign_and_send self tx send w = (Returned (tx', Ok sg), w') /\ went_out self tx tx' sg w'.
Proof. intros Hw HS. exact (sends_deliver self tx send _ HS w Hw eq_refl). Qed.

End AllBackends.

Module SendDemo.
Import Demo DemoJson DemoJwt DemoDalek DemoEcdsa DemoText DemoPem CrossmintDemo KeychainDemo HonestDemo.

(** A provider that calls the transaction pending at first, and has broadcast it
    by the time it is asked again. *)
Definition slow_provider : oracle := fun _ r =>
  Reply (mkResponse 200 [Chunk (as_bytes (if bool_decide (req_method r = "GET") then "tx-1" else "stuck"))]).
Definition slow_world : World := mkWorld [] ∅ slow_provider (fun _ _ => None) (fun _ => 0%Z) (fun _ => "uuid").
Definition unused (encoded : string) : M (result Signature) := ret (Err (HttpError "not used")).

Lemma slow_answers tr r : answers slow_provider tr r (as_bytes (if bool_decide (req_method r = "GET") then "tx-1" else "stuck")).
Proof.
  eexists. split_and!; [reflexivity|reflexivity|cbn; by rewrite app_nil_r|]. apply Nat.leb_le. by destruct (bool_decide _).
Qed.

Lemma slow_done : describes (crossmint_done CrossmintDemo.landed) (JObject [("id", JString "tx-1")]).
Proof.
  split; [by exists "tx-1"|]. eexists. split; [reflexivity|]. split_and!; [reflexivity|by apply (bool_decide_unpack _)|left; reflexivity].
Qed.

Lemma slow_pending posed : describes (crossmint_waits demo_signer posed "stuck") (JObject [("id", JString "stuck")]).
Proof.
  split; [by exists "stuck"|]. eexists. split; [reflexivity|]. split_and!; [reflexivity|by apply (bool_decide_unpack _)|done].
Qed.

Lemma slow_sends : send_service slow_provider at_crossmint CrossmintDemo.demo_tx unused.
Proof.
  exists (array_repeat 32 x01), 0. split_and!; [reflexivity|by eexists|by eexists|cbn; lia|].
  intros wire url tr r _ _ (Hm & _) _ _. exists (fun _ => False), "stuck".
  eexists _, _. split_and!; [apply slow_answers|rewrite Hm; reflexivity| |].
  - destruct (slow_pending (fun _ => False)) as [Hi (v & Hv & Hw)]. split; [exact Hi|]. exists v. split; [exact Hv|].
    split; [apply Hw|by right].
  - split; [|by intros].
    intros url' ext r' _ [Hg _] _. eexists _, _. split_and!; [apply slow_answers|rewrite Hg; reflexivity|].
    destruct slow_done as [Hi (v & Hv & Hd)]. split; [exact Hi|]. exists v. split; [exact Hv|by left; eexists].
Qed.

(** A network that answers with the first signature of what it is sent. *)
Definition first_signature (encoded : string) : M (result Signature) :=
  ret (let? b := map_err SerializationError (base64_decode encoded) in
       let? tx := deserialize_wire_transaction b in
       ok_or (SigningFailed "unsigned") (head (signatures tx))).

Lemma first_signature_takes {O} good :
  (forall tx, good tx -> 0 < required_signatures tx) -> network_takes (O := O) first_signature good.
Proof.
  intros Hpos tx enc tr Hg Hall Henc. unfold first_signature. apply delivers_ret. unfold serialize_transaction, serialize_wire_transaction in Henc.
  destruct (wire_serialize _ _) as [b|] eqn:Hw; [|done]. assert (enc = base64_encode b) as -> by (by injection Henc as <-). rewrite base64_decode_encode. cbn [map_err res_bind].
  rewrite (wire_decodes _ _ Hw). cbn [res_bind]. destruct (complete_fee_payer tx Hall (Hpos _ Hg)) as (fp & -> & _). done.
Qed.

Definition hello_tx : VersionedTransaction := mkTransaction [] (DemoMessage x01 [demo_pk] hello false).

Lemma hello_sendable : sendable demo_pk hello_tx.
Proof.
  assert (signs_at hello_tx demo_pk 0) as Hat by (split_and!; [vm_compute; lia|vm_compute; lia|reflexivity|lia]).
  split; [split; [by exists 0|]| |vm_compute; reflexivity].
  - intros sigs Hl. change (length sigs <= 1) in Hl. eexists. cbn. unfold demo_wire_serialize.
    rewrite bool_decide_eq_true_2; [reflexivity|]. cbn. lia.
  - intros i j Hi Hne Hj. rewrite (signs_at_inj _ _ _ _ Hi Hat) in Hne. change (j < 1) in Hj. lia.
Qed.

Lemma para_sends : send_service (w_http (answering hello_signature)) at_para hello_tx first_signature.
Proof.
  exists demo_pk. split_and!; [apply hello_sendable| |split; [reflexivity|apply para_hello]].
  apply first_signature_takes. intros tx Hm. unfold required_signatures. rewrite Hm. vm_compute. lia.
Qed.

Lemma honest_provider_sends_witness :
  (exists tx' sg w', Keychain.sign_and_send at_crossmint CrossmintDemo.demo_tx unused slow_world = (Returned (tx', Ok sg), w') /\
     went_out at_crossmint CrossmintDemo.demo_tx tx' sg w') /\
  (exists tx' sg w', Keychain.sign_and_send at_para hello_tx first_signature (answering hello_signature) =
     (Returned (tx', Ok sg), w') /\ went_out at_para hello_tx tx' sg w').
Proof.
  split.
  - apply (honest_provider_sends slow_provider); [by split|apply slow_sends].
  - apply (honest_provider_sends (w_http (answering hello_signature))); [apply answering_fair|apply para_sends].
Defined.

End SendDemo.
