(* ===== verification/Rejection.v ===== *)
(** * A provider that says no

    A provider that turns every request away with a client error: the operation
    ends with that error after one request, nothing is broadcast, and the
    caller's transaction is as it was. *)

From S2P Require Import Prelude Errors World Externals JsonOrder TransactionUtil SignatureUtil RemoteUtil Traits Delivery Promises.
From S2P Require Import Memory Vault Privy Turnkey Kms Fireblocks WalletJwt Cdp Dfns Openfort Para Crossmint.
From S2P Require Import Utila Fordefi LedgerDashboard Ledger LedgerActor Keychain HonestMessages HonestTransactions HonestSends.

#[local] Open Scope keychain_scope.

(** ** The judgement *)

(** Every request is answered with a client error, other than a timeout, and a body. *)
Definition turns_away (O : oracle) : Prop :=
  forall tr r, exists resp b, O tr r = Reply resp /\ definite_rejection (Some (resp_status resp)) /\
    chunks_data (resp_chunks resp) = Some b /\ length b <= MAX_RESPONSE_BYTES.

(** One request since [tr], the last event. *)
Definition asked_once (tr t : list Event) : Prop := exists evs r, t = tr ++ evs ++ [EvHttp r] /\ Forall quiet evs.

Definition rejection (tr t : list Event) (e : SignerError) : Prop := asked_once tr t /\ exists d, e = remote_api d.

Lemma asked_once_after tr evs t : Forall quiet evs -> asked_once (tr ++ evs) t -> asked_once tr t.
Proof.
  intros Hq (evs' & r & -> & Hq'). exists (evs ++ evs'), r. rewrite <- !(assoc_L (++)). split; [done|]. by apply Forall_app.
Qed.

Lemma rejection_not_success s : definite_rejection (Some s) -> is_success s = false.
Proof. intros (x & [= <-] & Hr & _). unfold is_success. apply andb_false_iff. right. apply Z.ltb_ge. lia. Qed.

Section Rules.
Context `{BuildProfile} {O : oracle}.

Definition refused {A} (tr : list Event) (m : M (result A)) : Prop := delivers O tr m (errs (rejection tr)).

Lemma refused_bind {A B} tr (m : M (result A)) (k : A -> M (result B)) : refused tr m -> refused tr (bind_res m k).
Proof. apply errs_bind. Qed.

Lemma refused_try {A B} tr (r : result A) a (k : A -> M (result B)) :
  r = Ok a -> refused tr (k a) -> refused tr (bind_res (ret r) k).
Proof. intros Hr Hk. by eapply delivers_try. Qed.

(** Code that asks nobody, before the request. *)
Lemma refused_silent {A B} tr (m : M (result A)) (k : A -> M (result B)) R :
  delivers O tr m (yields R) -> sends m (fun _ => False) -> (forall t a, R t a -> refused t (k a)) -> refused tr (bind_res m k).
Proof.
  intros Hm Hs Hk. eapply (delivers_bind_res _ _ _ (fun t a => R t a /\ exists evs, t = tr ++ evs /\ Forall quiet evs)).
  - intros w Hw <-. destruct (Hm w Hw eq_refl) as ([a|e] & w' & E & Hw' & HR); [|done]. exists (Ok a), w'. split_and!; [done..|].
    split; [exact HR|]. destruct (Hs w) as (evs & Ht & Hq). rewrite E in Ht. exists evs. split; [exact Ht|].
    eapply Forall_impl; [exact Hq|]. by intros [].
  - intros t a [HR (evs & -> & Hq)]. eapply delivers_weaken; [by apply (Hk _ _ HR)|]. intros t [b|e]; [done|]. intros [Ht Hd].
    split; [by eapply asked_once_after|done].
Qed.

Context (away : turns_away O).

(** The request itself, its answer read as JSON. *)
Lemma refused_ask {T} tr (f : list byte -> Result T string) g c r :
  refused tr (try! response := fmap_err g (http_send r) in parse_json_response f response c).
Proof.
  destruct (away tr r) as (resp & b & HO & Hr & _). eapply delivers_bind_res; [by apply delivers_reply|]. intros ? ? [-> ->].
  unfold parse_json_response. rewrite rejection_not_success by done. apply delivers_ret.
  split; [by exists [], r|]. by eexists.
Qed.

Lemma refused_exchange {T B} tr (f : list byte -> Result T string) g c r (k : T -> M (result B)) :
  refused tr (try! response := fmap_err g (http_send r) in try! v := parse_json_response f response c in k v).
Proof.
  intros w Hw Htr. destruct (refused_bind _ _ k (refused_ask tr f g c r) w Hw Htr) as (a & w' & E & HQ). exists a, w'. split; [|done].
  rewrite <- E. unfold bind_res, bind. by destruct (fmap_err g (http_send r) w) as [[[]| |] w1].
Qed.

End Rules.

(** ** The backends *)

Section Backends.
Context `{Codecs} `{SolanaSdk} `{Json} `{FileSystem} `{ClientBuild} `{UrlParser} `{Jwt} `{Dalek} `{StdText}.
Context `{BuildProfile} `{Ecdsa} `{JsonText} `{PrivyCodec} `{TurnkeyCodec} `{AwsSdk} `{GcpSdk} `{FireblocksCodec}.
Context `{HttpHeaders} `{CdpCodec} `{!PemKeys} `{DfnsCodec} `{OpenfortCodec} `{ParaCodec} `{CrossmintCodec}.
Context `{UtilaCodec} `{P256} `{FordefiCodec}.
Context `{OffchainCrate} `{HID : Hid} `{!RemoteWallets} `{DeviceThread} `{Tokio}.
Context `{!JsonPrints} `{!JsonQuotes}.
Context (O : oracle) (away : turns_away O).

Lemma refused_exchange_json {T B} tr (f : list byte -> Result T string) g c doc mk (k : T -> M (result B)) :
  refused (O := O) tr (try! response := fmap_err g (http_send_json (value_to_vec doc) mk) in
                       try! v := parse_json_response f response c in k v).
Proof. destruct (value_prints doc) as [b ->]. cbn [http_send_json]. by apply refused_exchange. Qed.

Lemma refused_ask_json {T} tr (f : list byte -> Result T string) g c doc mk :
  refused (O := O) tr (try! response := fmap_err g (http_send_json (value_to_vec doc) mk) in parse_json_response f response c).
Proof. destruct (value_prints doc) as [b ->]. cbn [http_send_json]. by apply refused_ask. Qed.

Lemma vault_refused s m tr : refused (O := O) tr (Vault.sign_bytes s m).
Proof. unfold Vault.sign_bytes, post_json. cbv zeta. apply refused_exchange_json. Qed.

Lemma para_refused s pk m tr : Para.public_key s = Some pk -> refused (O := O) tr (Para.sign_bytes s m).
Proof.
  intros Hpk. unfold Para.sign_bytes, Para.initialized_pubkey, post_json. rewrite Hpk. eapply refused_try; [reflexivity|]. cbv zeta.
  apply refused_exchange_json.
Qed.

Lemma openfort_refused s pk m tr :
  Openfort.public_key s = Some pk -> openfort_ready s -> refused (O := O) tr (Openfort.sign_bytes s m).
Proof.
  intros Hpk Hr. unfold Openfort.sign_bytes, Openfort.initialized_pubkey, call_sign. rewrite Hpk. eapply refused_try; [reflexivity|].
  cbv zeta. apply refused_bind. eapply refused_silent; [by apply openfort_headers_deliver|apply sign_headers_silent|].
  intros t hs _. apply refused_ask_json.
Qed.

Lemma cdp_refused {T} (f : list byte -> Result T string) s path body ctx tr :
  cdp_ready s -> refused (O := O) tr (signed_post f s path body ctx).
Proof.
  intros Hr. unfold signed_post. cbv zeta. eapply refused_silent; [by apply cdp_headers_deliver|apply auth_headers_silent|].
  intros t hs _. apply refused_ask_json.
Qed.

Lemma turnkey_refused s path body tr : refused (O := O) tr (post_activity s path body).
Proof.
  unfold post_activity. assert (exists stamp, create_stamp s body = Ok stamp) as [stamp Hst].
  { unfold create_stamp. match goal with |- context [value_to_vec ?v] => destruct (value_prints v) as [x ->] end. by eexists. }
  eapply refused_try; [exact Hst|]. by apply refused_exchange.
Qed.

Lemma utc_millis_refused {A} (k : Z -> M (result A)) tr :
  (forall t now, refused (O := O) t (k now)) -> refused (O := O) tr (let! now := utc_timestamp_millis in k now).
Proof.
  intros Hk. eapply delivers_bind; [by apply delivers_utc_millis with (Q := fun t _ => t = tr ++ [EvClock])|]. intros ? now ->.
  eapply delivers_weaken; [apply Hk|]. intros t [a|e]; [done|]. intros [Ht Hd]. split; [|done]. eapply asked_once_after; [|exact Ht]. by repeat constructor.
Qed.

Lemma turnkey_message_refused s m tr : refused (O := O) tr (Turnkey.sign_bytes s m).
Proof.
  unfold Turnkey.sign_bytes. cbv zeta. apply utc_millis_refused. intros t now.
  match goal with |- context [value_to_vec ?v] => destruct (value_prints v) as [body Hb] end.
  eapply refused_try; [by rewrite Hb|]. apply refused_bind, turnkey_refused.
Qed.

Lemma privy_refused s doc tr : privy_ready s -> refused (O := O) tr (post_rpc s doc).
Proof.
  intros Hr. unfold post_rpc. cbv zeta. eapply refused_silent; [by apply privy_headers_deliver|apply prepare_headers_silent|].
  intros t h _. destruct (value_prints doc) as [body ->]. cbn [http_send_json].
  match goal with |- context [http_send ?r] => destruct (away t r) as (resp & b & HO & Hrej & _) end.
  eapply delivers_bind_res; [by apply delivers_reply|]. intros ? ? [-> ->]. rewrite rejection_not_success by done.
  apply delivers_ret. split; [by eexists [], _|]. by eexists.
Qed.

Lemma fireblocks_refused s request tr : fireblocks_ready s -> refused (O := O) tr (Fireblocks.create_transaction s request).
Proof.
  intros Hr. unfold Fireblocks.create_transaction. cbv zeta.
  destruct (value_prints (Fireblocks.create_request_value request)) as [body Hb]. eapply refused_try; [by rewrite Hb|].
  eapply refused_silent; [by apply fireblocks_token_delivers|apply auth_token_silent|]. intros t tok _. by apply refused_exchange.
Qed.

Lemma dfns_refused s request tr : refused (O := O) tr (send_signature_request s request).
Proof.
  unfold send_signature_request. cbv zeta. destruct (value_prints (signature_request_value request)) as [body Hb].
  eapply refused_try; [by rewrite Hb|]. apply refused_bind. unfold sign_user_action. cbv zeta. apply refused_exchange_json.
Qed.

Lemma utila_refused s raw tr : utila_ready s -> refused (O := O) tr (initiate_transaction s raw).
Proof.
  intros Hr. unfold initiate_transaction, utila_post_json, post_json. cbv zeta.
  eapply refused_silent; [by apply utila_token_delivers|apply access_token_silent|]. intros t tok _. apply refused_ask_json.
Qed.

Lemma api_error_delivers tr resp b ctx :
  chunks_data (resp_chunks resp) = Some b -> length b <= MAX_RESPONSE_BYTES ->
  delivers O tr (extract_api_error_with_transaction_id resp ctx) (fun t p => t = tr /\ exists d, p.1 = remote_api d).
Proof.
  intros Hb Hl. unfold extract_api_error_with_transaction_id, extract_api_error_with_body.
  eapply (delivers_bind _ _ _ (fun t p => t = tr /\ exists d, p.1 = remote_api d)).
  - eapply delivers_bind; [by eapply delivers_read_body with (Q := fun t _ => t = tr)|]. intros ? x ->. apply delivers_ret. by split; [|eexists].
  - intros t [e body] [-> Hd]. by apply delivers_ret.
Qed.

(** A submit, whether Fordefi would broadcast or not: it was rejected. *)
Lemma fordefi_refused core doc key managed tr :
  signs_locally core -> refused (O := O) tr (submit_request core doc key managed).
Proof.
  intros Hl. unfold submit_request. cbv zeta. destruct (value_prints doc) as [body Hb]. eapply refused_try; [by rewrite Hb|].
  eapply (refused_silent _ _ _ (fun _ _ => True)); [|apply timestamp_silent|].
  { unfold timestamp_ms. eapply delivers_bind; [apply delivers_clock with (Q := fun _ o => o ≠ None); by intros|].
    intros ? [now|] Hnow; [|done]. by apply delivers_ret. }
  intros t ts _. eapply (refused_silent _ _ _ (fun _ _ => True)); [|by apply sign_request_silent|].
  { unfold sign_request, request_signer_sign, signs_locally in *. destruct (request_signer core); [by apply delivers_ret|done]. }
  intros t' sig _. match goal with |- context [http_send ?r] => destruct (away t' r) as (resp & b & HO & Hrej & Hb' & Hl') end.
  eapply delivers_bind_res; [by apply delivers_reply|]. intros ? ? [-> ->]. rewrite rejection_not_success by done. cbn [negb].
  eapply delivers_bind; [by eapply api_error_delivers|]. intros ? [e id] [-> [d Hd]]. cbn in Hd. subst e. apply delivers_ret.
  split; [by eexists [], _|]. exists d.
  unfold classify_submit. destruct managed; [|done]. by rewrite (proj1 (unconfirmed_unless_rejected_spec _ _ _ _) Hrej).
Qed.

(** Crossmint's answer is read before its status is looked at. *)
Lemma crossmint_refused s raw key tr : crossmint_ready s -> refused (O := O) tr (Crossmint.create_transaction s raw key).
Proof.
  intros Hr. unfold Crossmint.create_transaction. destruct (crossmint_url_total s ["transactions"] Hr) as [url Hu].
  eapply refused_try; [exact Hu|]. cbv zeta.
  destruct (value_prints (Crossmint.create_request_value (Crossmint.mkCreateRequest raw (signer s)))) as [body ->].
  cbn [http_send_json]. match goal with |- context [http_send ?r] => destruct (away tr r) as (resp & b & HO & Hrej & Hb & Hl) end.
  eapply delivers_bind_res; [by apply delivers_reply|]. intros ? ? [-> ->].
  eapply (delivers_bind_res _ _ _ (fun t _ => t = tr ++ [EvHttp _])).
  { apply delivers_fmap_err. unfold read_json_value. eapply delivers_bind_res; [by apply delivers_body|].
    intros ? ? [-> ->]. by apply delivers_ret. }
  intros ? v ->. apply delivers_ret. unfold value_to_typed.
  assert ((400 <=? resp_status resp)%Z = true) as -> by (destruct Hrej as (x & [= <-] & ? & _); apply Z.leb_le; lia). cbn [map_err].
  split; [by eexists [], _|]. eexists. by rewrite (proj1 (unconfirmed_unless_rejected_spec _ _ _ _) Hrej).
Qed.

(** ** All backends *)

(** The signer can form its requests, and speaks HTTP itself. *)
Definition operational (self : Signer) : Prop :=
  match self with
  | Vault _ | Turnkey _ => True
  | Privy s => (exists pk, Privy.public_key s = Some pk) /\ privy_ready s
  | Fireblocks s => (exists pk, Fireblocks.public_key s = Some pk) /\ fireblocks_ready s
  | Cdp s => cdp_ready s
  | Dfns s => exists pk, Dfns.public_key s = Some pk
  | Openfort s => (exists pk, Openfort.public_key s = Some pk) /\ openfort_ready s
  | Para s => exists pk, Para.public_key s = Some pk
  | Crossmint s => (exists pk, Crossmint.public_key s = Some pk) /\ crossmint_ready s
  | Utila s => (exists pk, Utila.public_key s = Some pk) /\ utila_ready s
  | FordefiBlackBox s => signs_locally (bb_core s)
  | FordefiNativeAuto s => signs_locally (na_core s)
  | FordefiNativeManual s => signs_locally (nm_core s)
  | Memory _ | AwsKms _ | GcpKms _ | Ledger _ => False
  end.

(** The messages and transactions that are not refused before they are sent. *)
Definition message_applies (self : Signer) (m : list byte) : Prop :=
  match self with
  | Cdp _ => utf8_valid m = true
  | Crossmint _ | Utila _ => False
  | _ => True
  end.

Definition transaction_applies (self : Signer) (tx : VersionedTransaction) : Prop :=
  (exists wire, serialize_wire_transaction tx = Ok wire) /\
  match self with
  | Cdp s => forall n, lookup_count (message tx) = Some n -> n = 0 \/ Cdp.network s ≠ None
  | Fireblocks s => use_program_call s = true -> is_v1_message tx = false
  | FordefiNativeAuto s => solely_signed_by (public_key (na_core s)) tx
  | FordefiNativeManual s => head (static_account_keys (message tx)) = Some (public_key (nm_core s))
  | _ => True
  end.

Lemma message_refused (self : Signer) m tr :
  operational self -> message_applies self m -> refused (O := O) tr (Traits.sign_message self m).
Proof.
  destruct self as [s|s|s|s|s|s|s|s|s|s|s|s|s|s|s|s|s]; cbn [operational message_applies]; intros Hop Hm; try done.
  - apply vault_refused.
  - destruct Hop as [[pk Hpk] Hr]. cbn. unfold Privy.sign_bytes, Privy.initialized_pubkey. rewrite Hpk.
    eapply refused_try; [reflexivity|]. by apply refused_bind, privy_refused.
  - apply turnkey_message_refused.
  - destruct Hop as [[pk Hpk] Hr]. cbn. unfold sign_raw_bytes, Fireblocks.initialized_pubkey. rewrite Hpk.
    eapply refused_try; [reflexivity|]. by apply refused_bind, fireblocks_refused.
  - cbn. unfold Cdp.sign_bytes. rewrite Hm. by apply refused_bind, cdp_refused.
  - destruct Hop as [pk Hpk]. cbn. unfold Dfns.sign_bytes, Dfns.initialized_pubkey. rewrite Hpk. cbv zeta.
    eapply refused_try; [reflexivity|]. apply refused_bind, dfns_refused.
  - destruct Hop as [[pk Hpk] Hr]. by eapply openfort_refused.
  - destruct Hop as [pk Hpk]. by eapply para_refused.
  - by apply refused_bind, refused_bind, fordefi_refused.
  - by apply refused_bind, fordefi_refused.
  - by apply refused_bind, fordefi_refused.
Qed.

(** What signing and sending leave behind. *)
Definition leaves (tr : list Event) (tx : VersionedTransaction) {A} (t : list Event) (p : VersionedTransaction * result A) : Prop :=
  unchanged_errs tx (rejection tr) t p.

Lemma provider_refused (self : Signer) d tx send tr :
  as_sending_signer self = Some d -> refused (O := O) tr (@Traits.sign_and_send_transaction _ _ (ss_inst d) (ss_value d) tx) ->
  delivers O tr (Keychain.sign_and_send self tx send) (leaves tr tx).
Proof. intros Hd Hs. unfold Keychain.sign_and_send. rewrite Hd. by apply errs_keeping. Qed.

Lemma manual_refused s tx tr :
  signs_locally (nm_core s) -> head (static_account_keys (message tx)) = Some (public_key (nm_core s)) ->
  delivers O tr (NativeManual.modify_and_serialize s tx) (leaves tr tx).
Proof.
  intros Hl Hfp. eapply delivers_keep_try.
  { unfold NativeManual.validate_transaction. by rewrite Hfp, bool_decide_eq_false_2 by (by intros []). }
  cbv zeta. by apply errs_keeping, fordefi_refused.
Qed.

Lemma auto_refused s tx tr :
  signs_locally (na_core s) -> solely_signed_by (public_key (na_core s)) tx ->
  refused (O := O) tr (NativeAuto.sign_and_broadcast s tx).
Proof.
  intros Hl Ht. unfold NativeAuto.sign_and_broadcast. eapply refused_try; [by apply auto_validates|].
  cbv zeta. by apply refused_bind, fordefi_refused.
Qed.

Lemma cdp_obtain_refused s tx wire tr :
  cdp_ready s -> serialize_wire_transaction tx = Ok wire ->
  (forall n, lookup_count (message tx) = Some n -> n = 0 \/ Cdp.network s ≠ None) ->
  refused (O := O) tr (Cdp.obtain_signature s tx).
Proof.
  intros Hr Hw Hn. unfold Cdp.obtain_signature. rewrite (cdp_lookups_ok s tx Hn). cbv zeta.
  eapply refused_try; [exact Hw|]. by apply refused_bind, cdp_refused.
Qed.

Lemma fireblocks_obtain_refused s pk tx wire tr :
  Fireblocks.public_key s = Some pk -> fireblocks_ready s -> serialize_wire_transaction tx = Ok wire ->
  (use_program_call s = true -> is_v1_message tx = false) ->
  refused (O := O) tr (if use_program_call s then sign_program_call s tx (message_bytes tx) else sign_raw_bytes s (message_bytes tx)).
Proof.
  intros Hpk Hr Hw Hv. unfold sign_program_call, sign_raw_bytes, Fireblocks.initialized_pubkey. rewrite Hpk.
  destruct (use_program_call s); (eapply refused_try; [reflexivity|]).
  - rewrite Hv by done. eapply refused_try; [unfold serialize_transaction; by rewrite Hw|]. by apply refused_bind, fireblocks_refused.
  - by apply refused_bind, fireblocks_refused.
Qed.

Lemma transaction_refused (self : Signer) tx send tr :
  operational self -> transaction_applies self tx ->
  delivers O tr (Keychain.sign_and_send self tx send) (leaves tr tx).
Proof.
  intros Hop [[wire Hw] Ht]. destruct self as [s|s|s|s|s|s|s|s|s|s|s|s|s|s|s|s|s]; cbn [operational] in Hop; try done.
  - apply (errs_send s tx send tr _ (Vault.sign_and_serialize s tx)); [reflexivity|]. apply errs_keeping, vault_refused.
  - destruct Hop as [[pk Hpk] Hr]. apply (errs_send s tx send tr _ (Privy.sign_and_serialize s tx)); [reflexivity|].
    eapply delivers_keep_try; [unfold Privy.initialized_pubkey; by rewrite Hpk|]. apply errs_keeping.
    eapply refused_try; [exact Hw|]. by apply refused_bind, privy_refused.
  - apply (errs_send s tx send tr _ (Turnkey.sign_and_serialize s tx)); [reflexivity|]. apply errs_keeping. eapply refused_try; [exact Hw|]. apply utc_millis_refused. intros t now.
    cbv zeta. match goal with |- context [value_to_vec ?v] => destruct (value_prints v) as [body Hb] end.
    eapply refused_try; [by rewrite Hb|]. apply refused_bind, turnkey_refused.
  - destruct Hop as [[pk Hpk] Hr]. apply (errs_send s tx send tr _ (Fireblocks.sign_and_serialize s tx)); [reflexivity|].
    eapply delivers_keep_try; [unfold Fireblocks.initialized_pubkey; by rewrite Hpk|]. apply errs_keeping.
    by eapply fireblocks_obtain_refused.
  - apply (errs_send s tx send tr _ (Cdp.sign_and_serialize s tx)); [reflexivity|]. apply errs_keeping. by eapply cdp_obtain_refused.
  - destruct Hop as [pk Hpk]. apply (errs_send s tx send tr _ (Dfns.sign_and_serialize s tx)); [reflexivity|]. apply errs_keeping. unfold Dfns.sign_transaction_bytes, Dfns.initialized_pubkey.
    rewrite Hpk. eapply refused_try; [exact Hw|]. cbv zeta. eapply refused_try; [reflexivity|]. apply refused_bind, dfns_refused.
  - destruct Hop as [[pk Hpk] Hr]. apply (errs_send s tx send tr _ (Openfort.sign_and_serialize s tx)); [reflexivity|].
    eapply delivers_keep_try; [unfold Openfort.initialized_pubkey; by rewrite Hpk|]. by eapply errs_keeping, openfort_refused.
  - destruct Hop as [pk Hpk]. apply (errs_send s tx send tr _ (Para.sign_and_serialize s tx)); [reflexivity|]. by eapply errs_keeping, para_refused.
  - destruct Hop as [[pk Hpk] Hr]. eapply provider_refused; [reflexivity|]. cbn. unfold execute_managed_transaction, Crossmint.initialized_pubkey.
    rewrite Hpk. eapply refused_try; [reflexivity|]. eapply refused_try; [exact Hw|]. by apply refused_bind, crossmint_refused.
  - destruct Hop as [[pk Hpk] Hr]. apply (errs_send s tx send tr _ (Utila.sign_and_serialize s tx)); [reflexivity|].
    eapply delivers_keep_try; [unfold Utila.initialized_pubkey; by rewrite Hpk|]. apply errs_keeping.
    eapply refused_try; [exact Hw|]. by apply refused_bind, utila_refused.
  - apply (errs_send s tx send tr _ (BlackBox.sign_and_serialize s tx)); [reflexivity|]. apply errs_keeping. by apply refused_bind, refused_bind, fordefi_refused.
  - eapply provider_refused; [reflexivity|]. by apply auto_refused.
  - by apply errs_mut, errs_mut, manual_refused.
Qed.

(** C16: a rejection is reported as one.  If the provider answers with a client
    error (4xx other than 408), then on a signer that is initialised, with usable
    credentials, and an input that is not refused locally, [sign_message] and
    [sign_and_send] of every HTTP backend return that API error after a single
    request: nothing is polled, retried or broadcast, a broadcasting backend does
    not call the outcome unconfirmed, and the transaction is as it was. *)
Theorem rejection_reported (self : Signer) (w : World) :
  fair O w -> operational self ->
  (forall m, message_applies self m -> exists d w', Traits.sign_message self m w = (Returned (Err (remote_api d)), w') /\
     asked_once (w_trace w) (w_trace w')) /\
  (forall tx send, transaction_applies self tx -> exists d w',
     Keychain.sign_and_send self tx send w = (Returned (tx, Err (remote_api d)), w') /\ asked_once (w_trace w) (w_trace w')).
Proof.
  intros Hw Hop. split.
  - intros m Hm. destruct (message_refused self m _ Hop Hm w Hw eq_refl) as ([sg|e] & w' & E & _ & Hr); [done|].
    destruct Hr as [Ht [d ->]]. by exists d, w'.
  - intros tx send Ht. destruct (transaction_refused self tx send _ Hop Ht w Hw eq_refl) as ([tx' [sg|e]] & w' & E & _ & Htx & Hr); [done|].
    destruct Hr as [Ho [d ->]]. cbn in Htx. subst. by exists d, w'.
Qed.

End Backends.

Module RejectionDemo.
Import Demo DemoJson DemoJwt DemoDalek DemoEcdsa DemoText DemoPem CrossmintDemo KeychainDemo HonestDemo SendDemo.

Definition forbidding_world : World := answering_world 403 (as_bytes "no").

Lemma forbidding : turns_away (w_http forbidding_world).
Proof.
  intros tr r. eexists _, (as_bytes "no"). split_and!; [reflexivity|exists 403%Z; split_and!; [reflexivity|lia..]|reflexivity|].
  apply Nat.leb_le. vm_compute. reflexivity.
Qed.

Lemma rejection_reported_witness :
  exists d w', Keychain.sign_and_send at_crossmint CrossmintDemo.demo_tx unused forbidding_world =
    (Returned (CrossmintDemo.demo_tx, Err (remote_api d)), w') /\ asked_once (w_trace forbidding_world) (w_trace w').
Proof.
  apply (rejection_reported (w_http forbidding_world) forbidding at_crossmint forbidding_world).
  - by split; [..|split].
  - split; by eexists.
  - split; [by eexists|exact I].
Defined.

End RejectionDemo.
