(* ===== verification/FailedJobs.v ===== *)
(** * Jobs that fail

    Four providers sign by running a job: a request creates it and status
    requests follow it.  Where the provider accepts the job, has it pending for a
    while and then gives it up, the call ends at that answer and the caller is
    told what the provider said; where the provider broadcasts, with the id of
    the job. *)

From S2P Require Import Prelude Errors World Externals JsonOrder TransactionUtil SignatureUtil RemoteUtil Traits Delivery Promises.
From S2P Require Import Memory Vault Privy Turnkey Kms Fireblocks WalletJwt Cdp Dfns Openfort Para Crossmint.
From S2P Require Import Utila Fordefi LedgerDashboard Ledger LedgerActor Keychain HonestMessages HonestTransactions HonestSends.

#[local] Open Scope keychain_scope.

Section Backends.
Context `{Codecs} `{SolanaSdk} `{Json} `{FileSystem} `{ClientBuild} `{UrlParser} `{Jwt} `{Dalek} `{StdText}.
Context `{BuildProfile} `{Ecdsa} `{JsonText} `{PrivyCodec} `{TurnkeyCodec} `{AwsSdk} `{GcpSdk} `{FireblocksCodec}.
Context `{HttpHeaders} `{CdpCodec} `{!PemKeys} `{DfnsCodec} `{OpenfortCodec} `{ParaCodec} `{CrossmintCodec}.
Context `{UtilaCodec} `{P256} `{FordefiCodec}.
Context `{OffchainCrate} `{HID : Hid} `{!RemoteWallets} `{DeviceThread} `{Tokio}.
Context `{!CodecLaws} `{!SdkLaws} `{!JsonPrints} `{!JsonQuotes}.
Context (O : oracle).

#[local] Instance mode_eq_dec : EqDecision SigningMode.
Proof. solve_decision. Defined.

(** A loop that stops at an error reports it. *)
Lemma decides_err {T} (o : result (PollOutcome T)) r e : decides o r -> o = Err e -> r = Err e.
Proof. intros Hd ->. destruct r; [done|]. by rewrite Hd. Qed.

(** ** Fireblocks *)

Definition broadcast_statuses : list string := ["BROADCASTING"; "CONFIRMING"; "COMPLETED"].
Definition failed_statuses : list string := ["FAILED"; "CANCELLED"; "REJECTED"; "BLOCKED"].

(** The job is over without the signature that was asked for.  A PROGRAM_CALL
    was to be signed only: if it was broadcast, that is a failure too. *)
Definition fireblocks_gives_up (mode : SigningMode) (v : Fireblocks.TransactionResponse) : Prop :=
  Fireblocks.tr_status v ∈ failed_statuses \/ (mode = ModeProgramCall /\ Fireblocks.tr_status v ∈ broadcast_statuses).

Definition fireblocks_failure (mode : SigningMode) (id status : string) (e : SignerError) : Prop :=
  if bool_decide (mode = ModeProgramCall) && bool_decide (status ∈ broadcast_statuses)
  then exists d, e = BroadcastUnconfirmed (Some id) None None None d
  else e = SigningFailed ("Transaction " +:+ status +:+ ": " +:+ id).

Lemma fireblocks_gives_up_classified mode id v :
  fireblocks_gives_up mode v -> exists e, classify_status mode id v = Err e /\ fireblocks_failure mode id (Fireblocks.tr_status v) e.
Proof.
  unfold fireblocks_gives_up, classify_status, fireblocks_failure, failed_statuses, broadcast_statuses.
  intros Hv. cbv zeta. destruct v as [x st ? ? ?]. cbn [Fireblocks.tr_status] in *.
  destruct Hv as [Hv|[-> Hv]]; apply list_elem_of_In in Hv; cbn in Hv; destruct_or! Hv; try done; subst st;
    [destruct mode..| | |]; eexists; (split; [reflexivity|]); first [reflexivity|by eexists].
Qed.

(** The job of a request fails, as the last answer says. *)
Definition fireblocks_fails (s : FireblocksSigner) (mode : SigningMode) (request : Fireblocks.CreateTransactionRequest) : Prop :=
  fireblocks_ready s /\ exists patience, patience < Fireblocks.max_poll_attempts s /\
    fireblocks_runs O s mode request (fireblocks_gives_up mode) patience.

Definition fireblocks_reports (s : FireblocksSigner) (mode : SigningMode) (t : list Event) (e : SignerError) : Prop :=
  exists id v, told O (gets (Fireblocks.api_base_url s +:+ "/v1/transactions/" +:+ id)) transaction_response_from_slice t v /\
    fireblocks_gives_up mode v /\ fireblocks_failure mode id (Fireblocks.tr_status v) e.

Lemma fireblocks_job_fails s mode request {B} (k : Fireblocks.TransactionResponse -> M (result B)) tr :
  fireblocks_fails s mode request ->
  delivers O tr (try! created := Fireblocks.create_transaction s request in
                 try! v := poll_for_completion s (created_id created) mode in k v) (errs (fireblocks_reports s mode)).
Proof.
  intros (Hr & patience & Hn & HJ). apply delivers_assoc, errs_bind.
  eapply delivers_weaken; [eapply fireblocks_runs_delivers; [done..| |exact HJ]|].
  - intros id v Hv. by destruct (fireblocks_gives_up_classified mode id v Hv) as (e & -> & _).
  - intros t r (c & v & Hv & Ht & Hd). destruct (fireblocks_gives_up_classified mode (created_id c) v Hv) as (e & He & Hf).
    rewrite (decides_err _ _ _ Hd He). by exists (created_id c), v.
Qed.

(** ** Fordefi *)

Definition fordefi_fails (core : FordefiCore) (doc : Value) (pushable : bool) : Prop :=
  fordefi_ready O core /\ exists patience, patience < Fordefi.max_poll_attempts core /\
    fordefi_runs O core doc pushable (fun v => st_state v ∈ error_states) patience.

Definition fordefi_failure (id state : string) : SignerError :=
  SigningFailed ("Transaction " +:+ id +:+ " reached terminal state: " +:+ state).

Definition fordefi_reports (core : FordefiCore) (report : string -> SignerError -> SignerError) (t : list Event) (e : SignerError) : Prop :=
  exists id v, told O (gets (fordefi_status_url core id)) status_from_slice t v /\ st_state v ∈ error_states /\
    e = report id (fordefi_failure id (st_state v)).

Lemma fordefi_gives_up_classified pushable id v :
  st_state v ∈ error_states -> classify_state id pushable v = Err (fordefi_failure id (st_state v)).
Proof.
  unfold classify_state, fordefi_failure. intros Hv. cbv zeta. destruct v as [st ? ?]. cbn [st_state] in *.
  apply list_elem_of_In in Hv. cbn in Hv. destruct_or! Hv; try done; subst st; by destruct pushable.
Qed.

(** The poll of a job that fails. *)
Lemma fordefi_poll_fails core pushable patience id tr :
  patience < Fordefi.max_poll_attempts core ->
  fordefi_pollable O core pushable (fun v => st_state v ∈ error_states) patience tr id ->
  delivers O tr (poll_for_result core id pushable)
    (errs (fun t e => exists v, told O (gets (fordefi_status_url core id)) status_from_slice t v /\ st_state v ∈ error_states /\
       e = fordefi_failure id (st_state v))).
Proof.
  intros Hn Hst. eapply delivers_weaken; [eapply fordefi_polls; [exact Hn| |exact Hst]|].
  - intros v Hv. by rewrite (fordefi_gives_up_classified pushable id v Hv).
  - intros t r (v & Hv & Ht & Hd). rewrite (decides_err _ _ _ Hd (fordefi_gives_up_classified _ _ _ Hv)). by exists v.
Qed.

Lemma fordefi_signature_fails core doc tr :
  fordefi_fails core doc false ->
  delivers O tr (try! id := submit_request core doc None false in poll_for_signature core id)
    (errs (fordefi_reports core (fun _ e => e))).
Proof.
  intros (Hr & patience & Hn & HJ). eapply delivers_bind_res; [by eapply fordefi_submit_delivers|]. intros tr1 id Hst.
  apply errs_bind. eapply delivers_weaken; [by eapply fordefi_poll_fails|].
  intros t [sg|e]; [done|]. intros (v & Ht & Hv & ->). by exists id, v.
Qed.

(** Fordefi may have broadcast the transaction of an auto signer. *)
Definition unconfirmed_job (id : string) (e : SignerError) : SignerError :=
  BroadcastUnconfirmed (Some id) None None None (detail_string e).

Lemma auto_transaction_fails s tx tr :
  solely_signed_by (public_key (na_core s)) tx ->
  fordefi_fails (na_core s) (solana_transaction_value (na_core s) (na_chain s) (na_fee s) Auto (message_bytes tx)) true ->
  delivers O tr (NativeAuto.sign_and_broadcast s tx) (errs (fordefi_reports (na_core s) unconfirmed_job)).
Proof.
  intros Ht (Hr & patience & Hn & HJ). unfold NativeAuto.sign_and_broadcast. eapply delivers_try; [by apply auto_validates|].
  cbv zeta. eapply delivers_bind_res; [by eapply fordefi_submit_delivers|]. intros tr1 id Hst.
  eapply (delivers_bind _ _ _ (fun t _ => t = tr1)); [apply slot_delivers; [intros c; by apply delivers_pending_set|done]|].
  intros ? _ ->. eapply (delivers_bind _ _ _ (errs (fordefi_reports (na_core s) unconfirmed_job))).
  - eapply errs_fmap; [by eapply errs_bind, fordefi_poll_fails|]. intros t e (v & Htold & Hv & ->). by exists id, v.
  - intros tr2 r Hres. eapply (delivers_bind _ _ _ (fun t _ => t = tr2));
      [apply slot_delivers; [intros c; by apply delivers_pending_clear|done]|]. intros ? _ ->. by apply delivers_ret.
Qed.

Lemma manual_transaction_fails s tx tr :
  head (static_account_keys (message tx)) = Some (public_key (nm_core s)) ->
  fordefi_fails (nm_core s) (solana_transaction_value (nm_core s) (nm_chain s) (nm_fee s) Manual (message_bytes tx)) false ->
  delivers O tr (NativeManual.modify_and_serialize s tx) (unchanged_errs tx (fordefi_reports (nm_core s) (fun _ e => e))).
Proof.
  intros Hfp (Hr & patience & Hn & HJ). eapply delivers_keep_try.
  { unfold NativeManual.validate_transaction. by rewrite Hfp, bool_decide_eq_false_2 by (by intros []). }
  cbv zeta. eapply delivers_keep_bind; [by eapply fordefi_submit_delivers|]. intros tr1 id Hst. apply errs_keeping.
  eapply delivers_weaken; [by eapply fordefi_poll_fails|]. intros t [v|e]; [done|]. intros (v & Ht & Hv & ->). by exists id, v.
Qed.

(** ** Utila and Crossmint *)

Definition utila_reports (t : list Event) (e : SignerError) : Prop :=
  exists v, told O (fun _ => True) utila_envelope_from_slice t v /\ is_terminal_failure (ut_state v) = true /\
    e = SigningFailed ("Utila transaction reached terminal state " +:+ state_debug (ut_state v)).

Lemma utila_transaction_fails s wire patience tr {B} (k : UtilaTransaction -> M (result B)) :
  utila_ready s -> patience < Utila.max_poll_attempts s ->
  utila_runs O s wire (fun v => is_terminal_failure (ut_state v) = true) patience ->
  delivers O tr (try! initiated := initiate_transaction s (base64_encode wire) in
                 try! signed := poll_signed_transaction s initiated in k signed) (errs utila_reports).
Proof.
  intros Hr Hn HJ. apply delivers_assoc, errs_bind.
  eapply delivers_weaken; [eapply utila_runs_delivers; [|done|exact Hn|exact HJ]|].
  - intros v Hv [_ Hw]. congruence.
  - intros t r (v & Hv & Ht & ->). unfold utila_verdict. rewrite bool_decide_eq_false_2; [by exists v|].
    intros E. by rewrite E in Hv.
Qed.

Definition crossmint_failed (tx_id : string) (v : Crossmint.TransactionResponse) : Prop :=
  Crossmint.tr_id v = tx_id /\ Crossmint.tr_status v = "failed".

Definition crossmint_reports (s : CrossmintSigner) (tx : VersionedTransaction) (t : list Event) (e : SignerError) : Prop :=
  exists v, crossmint_told O t v /\ Crossmint.tr_status v = "failed" /\
    e = BroadcastUnconfirmed (Some (Crossmint.tr_id v)) None (Some (call_key s tx)) None (detail_string (transaction_failure v)).

Lemma crossmint_transaction_fails s pk tx patience tr :
  Crossmint.public_key s = Some pk -> crossmint_ready s -> (exists wire, serialize_wire_transaction tx = Ok wire) ->
  patience + approval_turns s < Crossmint.max_poll_attempts s -> crossmint_runs O crossmint_failed s tx patience ->
  delivers O tr (execute_managed_transaction s tx) (errs (crossmint_reports s tx)).
Proof.
  intros Hpk Hr Hw Hn HS. eapply (crossmint_runs_delivers O crossmint_failed); [|exact Hpk|done..|].
  - intros tx_id v [_ ->]. apply list_elem_of_In. cbn. auto.
  - intros tx_id v t [<- Hv] Ht. unfold crossmint_verdict. rewrite Hv. cbn. by exists v.
Qed.

(** ** All backends *)

(** What the caller asks for. *)
Inductive order := OfMessage (m : list byte) | OfTransaction (tx : VersionedTransaction).

Definition order_mode (s : FireblocksSigner) (o : order) : SigningMode :=
  match o with OfTransaction _ => if use_program_call s then ModeProgramCall else ModeRaw | OfMessage _ => ModeRaw end.

(** The signer can form its requests, the order is not refused locally, and the
    provider accepts the job and gives it up. *)
Definition job_fails (self : Signer) (o : order) : Prop :=
  match self, o with
  | Fireblocks s, OfMessage m =>
      (exists pk, Fireblocks.public_key s = Some pk) /\ fireblocks_fails s ModeRaw (raw_request s m)
  | Fireblocks s, OfTransaction tx =>
      (exists pk, Fireblocks.public_key s = Some pk) /\
      if use_program_call s then is_v1_message tx = false /\ exists data, serialize_transaction tx = Ok data /\
        fireblocks_fails s ModeProgramCall (program_call_request s data)
      else fireblocks_fails s ModeRaw (raw_request s (message_bytes tx))
  | Utila s, OfTransaction tx =>
      (exists pk, Utila.public_key s = Some pk) /\ utila_ready s /\ exists wire patience, serialize_wire_transaction tx = Ok wire /\
        patience < Utila.max_poll_attempts s /\ utila_runs O s wire (fun v => is_terminal_failure (ut_state v) = true) patience
  | Crossmint s, OfTransaction tx =>
      (exists pk, Crossmint.public_key s = Some pk) /\ crossmint_ready s /\ (exists wire, serialize_wire_transaction tx = Ok wire) /\
      exists patience, patience + approval_turns s < Crossmint.max_poll_attempts s /\ crossmint_runs O crossmint_failed s tx patience
  | FordefiBlackBox s, OfMessage m => fordefi_fails (bb_core s) (black_box_value (bb_core s) m) false
  | FordefiBlackBox s, OfTransaction tx => fordefi_fails (bb_core s) (black_box_value (bb_core s) (message_bytes tx)) false
  | FordefiNativeAuto s, OfMessage m => fordefi_fails (na_core s) (solana_message_value (na_core s) (na_chain s) m) false
  | FordefiNativeAuto s, OfTransaction tx => solely_signed_by (public_key (na_core s)) tx /\
      fordefi_fails (na_core s) (solana_transaction_value (na_core s) (na_chain s) (na_fee s) Auto (message_bytes tx)) true
  | FordefiNativeManual s, OfMessage m => fordefi_fails (nm_core s) (solana_message_value (nm_core s) (nm_chain s) m) false
  | FordefiNativeManual s, OfTransaction tx => head (static_account_keys (message tx)) = Some (public_key (nm_core s)) /\
      fordefi_fails (nm_core s) (solana_transaction_value (nm_core s) (nm_chain s) (nm_fee s) Manual (message_bytes tx)) false
  | _, _ => False
  end.

(** The error is the one of the state the last answer announces. *)
Definition reports (self : Signer) (o : order) (t : list Event) (e : SignerError) : Prop :=
  match self, o with
  | Fireblocks s, _ => fireblocks_reports s (order_mode s o) t e
  | Utila _, _ => utila_reports t e
  | Crossmint s, OfTransaction tx => crossmint_reports s tx t e
  | FordefiBlackBox s, _ => fordefi_reports (bb_core s) (fun _ e => e) t e
  | FordefiNativeAuto s, OfMessage _ => fordefi_reports (na_core s) (fun _ e => e) t e
  | FordefiNativeAuto s, OfTransaction _ => fordefi_reports (na_core s) unconfirmed_job t e
  | FordefiNativeManual s, _ => fordefi_reports (nm_core s) (fun _ e => e) t e
  | _, _ => False
  end.

Lemma messages_fail (self : Signer) m tr :
  job_fails self (OfMessage m) -> delivers O tr (Traits.sign_message self m) (errs (reports self (OfMessage m))).
Proof.
  destruct self as [s|s|s|s|s|s|s|s|s|s|s|s|s|s|s|s|s]; cbn [job_fails reports order_mode]; intros HJ; try done.
  - destruct HJ as [[pk Hpk] HJ]. cbn. unfold sign_raw_bytes, Fireblocks.initialized_pubkey. rewrite Hpk.
    eapply delivers_try; [reflexivity|]. by apply fireblocks_job_fails.
  - by apply errs_bind, fordefi_signature_fails.
  - by apply delivers_assoc, errs_bind, fordefi_signature_fails.
  - by apply delivers_assoc, errs_bind, fordefi_signature_fails.
Qed.

Lemma provider_fails (self : Signer) d tx send tr R :
  as_sending_signer self = Some d ->
  delivers O tr (@Traits.sign_and_send_transaction _ _ (ss_inst d) (ss_value d) tx) (errs R) ->
  delivers O tr (Keychain.sign_and_send self tx send) (unchanged_errs tx R).
Proof. intros Hd Hs. unfold Keychain.sign_and_send. rewrite Hd. by apply errs_keeping. Qed.

Lemma fireblocks_transaction_fails s pk tx tr :
  Fireblocks.public_key s = Some pk -> job_fails (Fireblocks s) (OfTransaction tx) ->
  delivers O tr (if use_program_call s then sign_program_call s tx (message_bytes tx) else sign_raw_bytes s (message_bytes tx))
    (errs (fireblocks_reports s (order_mode s (OfTransaction tx)))).
Proof.
  cbn [job_fails order_mode]. unfold sign_program_call, sign_raw_bytes, Fireblocks.initialized_pubkey. intros Hpk [_ HJ]. rewrite Hpk.
  destruct (use_program_call s); (eapply delivers_try; [reflexivity|]); [|by apply fireblocks_job_fails].
  destruct HJ as (Hv & data & Hd & HJ). rewrite Hv. eapply delivers_try; [exact Hd|]. by apply fireblocks_job_fails.
Qed.

Lemma transactions_fail (self : Signer) tx send tr :
  job_fails self (OfTransaction tx) ->
  delivers O tr (Keychain.sign_and_send self tx send) (unchanged_errs tx (reports self (OfTransaction tx))).
Proof.
  destruct self as [s|s|s|s|s|s|s|s|s|s|s|s|s|s|s|s|s]; intros HJ; try done; cbn [reports].
  - destruct HJ as [[pk Hpk] HJ]. apply (errs_send s tx send tr _ (Fireblocks.sign_and_serialize s tx)); [reflexivity|].
    eapply delivers_keep_try; [unfold Fireblocks.initialized_pubkey; by rewrite Hpk|]. apply errs_keeping.
    eapply fireblocks_transaction_fails; [exact Hpk|]. split; [by exists pk|exact HJ].
  - destruct HJ as ([pk Hpk] & Hr & Hw & patience & Hn & HJ). eapply provider_fails; [reflexivity|]. by eapply crossmint_transaction_fails.
  - destruct HJ as ([pk Hpk] & Hr & wire & patience & Hw & Hn & HJ).
    apply (errs_send s tx send tr _ (Utila.sign_and_serialize s tx)); [reflexivity|].
    eapply delivers_keep_try; [unfold Utila.initialized_pubkey; by rewrite Hpk|]. apply errs_keeping.
    unfold Utila.obtain_signature. cbv zeta. eapply delivers_try; [exact Hw|]. by eapply utila_transaction_fails.
  - apply (errs_send s tx send tr _ (BlackBox.sign_and_serialize s tx)); [reflexivity|].
    by apply errs_keeping, errs_bind, fordefi_signature_fails.
  - destruct HJ as [Ht HJ]. eapply provider_fails; [reflexivity|]. by apply auto_transaction_fails.
  - destruct HJ as [Hfp HJ]. by apply errs_mut, errs_mut, manual_transaction_fails.
Qed.

(** C17: a failed job is reported as what it is.  Where the provider accepts the
    job of a signing request, answers status requests with pending states fewer
    times than attempts are configured, and then announces a state in which it
    has given the job up, [sign_message] and [sign_and_send] of every backend
    that works by jobs end with that very answer: the last event is the request
    it answers, so nothing is slept for, polled or sent after it, whatever the
    caller's [send] would do; the error is made of the announced state and, for
    the backends that name the job in it, of the id the status was asked for; a
    backend whose provider may have broadcast reports the outcome as unconfirmed
    under that id; and the caller's transaction is as it was. *)
Theorem failed_job_reported (self : Signer) (w : World) :
  fair O w ->
  (forall m, job_fails self (OfMessage m) -> exists e w',
     Traits.sign_message self m w = (Returned (Err e), w') /\ reports self (OfMessage m) (w_trace w') e) /\
  (forall tx send, job_fails self (OfTransaction tx) -> exists e w',
     Keychain.sign_and_send self tx send w = (Returned (tx, Err e), w') /\ reports self (OfTransaction tx) (w_trace w') e).
Proof.
  intros Hw. split.
  - intros m HJ. destruct (messages_fail self m _ HJ w Hw eq_refl) as ([sg|e] & w' & E & _ & Hr); [done|]. by exists e, w'.
  - intros tx send HJ. destruct (transactions_fail self tx send _ HJ w Hw eq_refl) as ([tx' [sg|e]] & w' & E & _ & Htx & Hr); [done|].
    cbn in Htx. subst tx'. by exists e, w'.
Qed.

End Backends.

Module FailedJobsDemo.
Import Demo DemoJson DemoJwt DemoDalek DemoEcdsa DemoText DemoPem CrossmintDemo KeychainDemo HonestDemo SendDemo.

(** A provider that answers the first status request with a pending state, and
    all others with a failure. *)
Definition is_get (e : Event) : bool := match e with EvHttp q => bool_decide (req_method q = "GET") | _ => false end.
Definition status_text (tr : list Event) : string := if existsb is_get tr then "REJECTED" else "QUEUED".
Definition moody_provider : oracle := fun tr _ => Reply (mkResponse 200 [Chunk (as_bytes (status_text tr))]).
Definition moody_world : World := mkWorld [] ∅ moody_provider (fun _ _ => None) (fun _ => 0%Z) (fun _ => "uuid").
Definition at_fireblocks : Signer := Fireblocks FireblocksDemo.demo_signer.

Lemma moody_answers tr r : answers moody_provider tr r (as_bytes (status_text tr)).
Proof.
  eexists. split_and!; [reflexivity|reflexivity|cbn; by rewrite app_nil_r|]. apply Nat.leb_le. unfold status_text. by destruct (existsb _ _).
Qed.

Lemma moody_fails mode request : fireblocks_fails moody_provider FireblocksDemo.demo_signer mode request.
Proof.
  split; [by eexists|]. exists 1. split; [cbn; lia|]. intros tr r _. eexists _, _. split_and!; [apply moody_answers|reflexivity|reflexivity|].
  intros ext r' _ _. eexists _, _. split_and!; [apply moody_answers|reflexivity|].
  unfold status_text. destruct (existsb is_get _) eqn:E.
  - left. left. by apply (bool_decide_unpack _).
  - right. split; [split; [by apply (bool_decide_unpack _)|intros _; by apply (bool_decide_unpack _)]|].
    rewrite existsb_app in E. cbn [existsb] in E. rewrite !orb_false_iff in E. destruct E as (_ & _ & E).
    unfold polls. destruct (List.filter _ ext) as [|q l] eqn:F; [cbn; lia|].
    assert (In q (List.filter (is_poll (fireblocks_status_url FireblocksDemo.demo_signer (mkCreateResponse "tx-1" "SUBMITTED"))) ext)) as Hq
      by (rewrite F; by left).
    apply filter_In in Hq as [Hin Hq]. rewrite <- not_true_iff_false in E. destruct E. apply existsb_exists. exists q. split; [done|].
    unfold is_poll in Hq. destruct q; try done. by apply andb_true_iff in Hq as [? _].
Qed.

Lemma failed_job_reported_witness :
  (exists e w', Traits.sign_message at_fireblocks hello moody_world = (Returned (Err e), w') /\
     reports moody_provider at_fireblocks (OfMessage hello) (w_trace w') e) /\
  (exists e w', Keychain.sign_and_send at_fireblocks CrossmintDemo.demo_tx unused moody_world = (Returned (CrossmintDemo.demo_tx, Err e), w') /\
     reports moody_provider at_fireblocks (OfTransaction CrossmintDemo.demo_tx) (w_trace w') e).
Proof.
  assert (fair moody_provider moody_world) as Hw by (by split).
  split.
  - apply (failed_job_reported moody_provider at_fireblocks moody_world Hw). split; [by eexists|apply moody_fails].
  - apply (failed_job_reported moody_provider at_fireblocks moody_world Hw). split; [by eexists|].
    split; [reflexivity|]. eexists. split; [reflexivity|apply moody_fails].
Defined.

End FailedJobsDemo.
