(* ===== verification/NoPanic.v ===== *)
(** * No panic reaches the caller

    The judgement [safe] and the proof, backend by backend, that signing,
    probing and sending end with a value (or are dropped): an answer of a
    provider, however malformed, never unwinds the caller's task.  Indexing,
    slicing and [expect] are panics of the model where the source has them. *)

From S2P Require Import Prelude Errors World Externals TransactionUtil SignatureUtil RemoteUtil Traits.
From S2P Require Import Memory Vault Privy Turnkey Kms Fireblocks WalletJwt Cdp Dfns Openfort Para Crossmint.
From S2P Require Import Utila Fordefi LedgerDashboard Ledger LedgerActor Keychain.

#[local] Open Scope keychain_scope.

(** ** The judgement *)

Section Safe.
Context `{BuildProfile}.

(** In a world whose clock is after the epoch, no panic; and the clock stays so. *)
Definition safe {A} (m : M A) : Prop := forall w, sane w -> (m w).1 ≠ Panicked /\ sane (m w).2.

Lemma sane_outside w w' : outside w' = outside w -> sane w -> sane w'.
Proof. intros [= _ _ Hc _] [Hp Hs]. split; by rewrite Hc. Qed.

Lemma safe_calm {A} (m : M A) : calm m -> safe m.
Proof. intros Hm w Hw. destruct (Hm w) as (_ & Hp & Ho). split; [done|]. by eapply sane_outside. Qed.

Lemma safe_ret {A} (a : A) : safe (ret a).
Proof. done. Qed.

Lemma safe_of_run {A} (r : run A) : r ≠ Panicked -> safe (of_run r).
Proof. done. Qed.

Lemma safe_bind {A B} (m : M A) (k : A -> M B) : safe m -> (forall a, safe (k a)) -> safe (bind m k).
Proof.
  intros Hm Hk w Hw. destruct (Hm w Hw) as [Hp Hw1]. unfold bind. destruct (m w) as [[a| |why] w1]; [by apply Hk|done..].
Qed.

Lemma safe_bind_res {A B E} (m : M (Result A E)) (k : A -> M (Result B E)) :
  safe m -> (forall a, safe (k a)) -> safe (bind_res m k).
Proof. intros Hm Hk. apply safe_bind; [done|]. intros [a|e]; [apply Hk|apply safe_ret]. Qed.

(** The value of a step may matter for the rest. *)
Lemma safe_bind_returns {A B} (m : M A) (k : A -> M B) (R : A -> Prop) :
  safe m -> returns m R -> (forall a, R a -> safe (k a)) -> safe (bind m k).
Proof.
  intros Hm HR Hk w Hw. destruct (Hm w Hw) as [Hp Hw1]. unfold bind.
  destruct (m w) as [[a| |why] w1] eqn:E; [|done..]. eapply Hk; [|done]. eapply HR, E.
Qed.

Lemma safe_try {A B E} (r : Result A E) (k : A -> M (Result B E)) :
  (forall a, r = Ok a -> safe (k a)) -> safe (bind_res (ret r) k).
Proof. intros Hk w Hw. unfold bind_res, bind, ret. destruct r; [by apply Hk|done]. Qed.

Lemma safe_timeout {A} (m : M A) : safe m -> safe (timeout m).
Proof. intros Hm w Hw. destruct (Hm w Hw) as [Hp Hw1]. unfold timeout. by destruct (m w) as [[| |[]] ?]. Qed.

Lemma safe_fmap_err {A E F} (f : E -> F) (m : M (Result A E)) : safe m -> safe (fmap_err f m).
Proof. intros Hm. apply safe_bind; [done|]. intros r. apply safe_ret. Qed.

Lemma safe_get_slot c : safe (get_slot c).
Proof. done. Qed.

Lemma safe_put_slot c s : safe (put_slot c s).
Proof. intros w [Hp Hs]. by split; [|split]. Qed.

(** [Utc::now] is where the clock matters. *)
Lemma utc_now_sane w : sane w -> utc_now w = Returned (w_clock_ms w (w_trace w)).
Proof. intros [Hp _]. unfold utc_now. by rewrite (proj2 (Z.ltb_ge _ _) (Hp _)). Qed.

Lemma safe_utc : safe utc_timestamp.
Proof. intros w Hw. unfold utc_timestamp. rewrite (utc_now_sane _ Hw). split; [done|by apply (sane_outside w)]. Qed.

Lemma safe_utc_millis : safe utc_timestamp_millis.
Proof. intros w Hw. unfold utc_timestamp_millis. rewrite (utc_now_sane _ Hw). split; [done|by apply (sane_outside w)]. Qed.

(** Before the epoch it does panic. *)
Lemma utc_before_epoch w : (w_clock_ms w (w_trace w) < 0)%Z ->
  (utc_timestamp w).1 = Panicked /\ (utc_timestamp_millis w).1 = Panicked.
Proof. intros Hn. unfold utc_timestamp, utc_timestamp_millis, utc_now. by rewrite (proj2 (Z.ltb_lt _ _) Hn). Qed.

Lemma safe_poll_from {T} i n iv te (attempt : M (result (PollOutcome T))) :
  safe attempt -> safe (poll_from i n iv te attempt).
Proof.
  intros Ha. revert i. induction n as [|n IH]; intros i; cbn [poll_from]; [apply safe_ret|].
  apply safe_bind; [case_match; auto using safe_calm with keychain|]. intros _.
  apply safe_bind_res; [done|]. intros [v|]; [apply safe_ret|apply IH].
Qed.

Lemma safe_http_get u h : safe (http_get u h).
Proof. apply safe_calm, calm_http_send. Qed.

End Safe.

Section Attach.
Context `{BuildProfile} `{Codecs} `{SolanaSdk}.

Lemma safe_attach tx pk sg : safe (of_run (attach_and_serialize tx pk sg)).
Proof.
  apply safe_of_run. by destruct (attach_and_serialize_total tx pk sg) as (tx' & r & -> & _).
Qed.

Lemma safe_keep_bind {A B} tx (m : M (result A)) (k : A -> M (VersionedTransaction * result B)) :
  safe m -> (forall a, safe (k a)) -> safe (keep_bind tx m k).
Proof. intros Hm Hk. apply safe_bind; [done|]. intros [a|e]; [apply Hk|apply safe_ret]. Qed.

Lemma safe_mut_bind {A B} (m : M (VersionedTransaction * result A))
    (k : VersionedTransaction -> A -> M (VersionedTransaction * result B)) :
  safe m -> (forall tx a, safe (k tx a)) -> safe (mut_bind m k).
Proof. intros Hm Hk. apply safe_bind; [done|]. intros [tx [a|e]]; [apply Hk|apply safe_ret]. Qed.

(** Signing, sending and probing of one signer. *)
Record steady {S T : Type} `{!SolanaSigner S} (s : S) (act : VersionedTransaction -> M T) : Prop := {
  steady_message : forall m, safe (Traits.sign_message s m);
  steady_transaction : forall tx, safe (act tx);
  steady_availability : safe (Traits.is_available s)
}.

Lemma safe_broadcast res fp send : (forall e, safe (send e)) -> safe (broadcast_complete res fp send).
Proof.
  intros Hs. unfold broadcast_complete. cbv zeta. destruct (negb _); [apply safe_ret|].
  apply safe_try. intros sg _. apply safe_fmap_err, Hs.
Qed.

End Attach.

#[export] Hint Resolve safe_ret safe_fmap_err safe_timeout safe_get_slot safe_put_slot safe_attach safe_http_get safe_utc safe_utc_millis
  safe_poll_from safe_broadcast : keychain.
#[export] Hint Extern 4 (safe _) => solve [apply safe_calm; auto with keychain] : keychain.

(** Walk through code to the steps that could panic. *)
Ltac walk_safe :=
  repeat first
    [ progress cbv zeta
    | lazymatch goal with
      | |- safe (keep_bind _ _ _) => apply safe_keep_bind; [|intros ?]
      | |- safe (mut_bind _ _) => apply safe_mut_bind; [|intros ? ?]
      | |- safe (bind_res (ret _) _) => apply safe_try; intros ? ?
      | |- safe (bind_res _ _) => apply safe_bind_res; [|intros ?]
      | |- safe (bind _ _) => apply safe_bind; [|intros ?]
      | |- safe (timeout _) => apply safe_timeout
      | |- safe (fmap_err _ _) => apply safe_fmap_err
      | |- safe (poll_until _ _ _ _) => apply safe_poll_from
      | |- safe (match ?x with _ => _ end) => destruct x eqn:?
      end
    | solve [auto with keychain] ].

(** ** The backends *)

Section Backends.
Context `{Codecs} `{SolanaSdk} `{Json} `{FileSystem} `{ClientBuild} `{UrlParser} `{Jwt} `{Dalek} `{StdText}.
Context `{BuildProfile} `{Ecdsa} `{JsonText} `{PrivyCodec} `{TurnkeyCodec} `{AwsSdk} `{GcpSdk} `{FireblocksCodec}.
Context `{HttpHeaders} `{CdpCodec} `{!PemKeys} `{DfnsCodec} `{OpenfortCodec} `{ParaCodec} `{CrossmintCodec}.
Context `{UtilaCodec} `{P256} `{FordefiCodec}.
Context `{OffchainCrate} `{HID : Hid} `{!RemoteWallets} `{DeviceThread} `{Tokio}.

Ltac methods :=
  split; [cbn [Traits.sign_message]; intros m|intros tx|cbn [Traits.is_available]].

Lemma memory_steady (s : MemorySigner) : steady s (MemorySigner.sign_transaction s).
Proof.
  split; [intros m; apply safe_ret|intros tx|apply safe_ret]. unfold MemorySigner.sign_transaction. walk_safe.
Qed.

Lemma vault_steady (s : VaultSigner) : steady s (Vault.sign_transaction s).
Proof.
  methods; cbn; unfold Vault.sign_transaction, Vault.sign_and_serialize, Vault.sign_bytes, Vault.is_available; walk_safe.
Qed.

Lemma turnkey_halves_safe r : safe (signature_from_halves r).
Proof.
  unfold signature_from_halves. walk_safe. apply safe_of_run.
  match goal with E : (_ || _)%bool = false |- _ => apply orb_false_iff in E as [E1%Nat.ltb_ge E2%Nat.ltb_ge] end.
  by destruct (assemble_halves _ _ E1 E2) as (sg & -> & _).
Qed.
#[local] Hint Resolve turnkey_halves_safe : keychain.

Lemma turnkey_steady (s : TurnkeySigner) : steady s (Turnkey.sign_transaction s).
Proof.
  methods; cbn; unfold Turnkey.sign_transaction, Turnkey.sign_and_serialize, Turnkey.sign_bytes, Turnkey.obtain_signature,
    Turnkey.is_available, sign_with_matches_public_key, post_query, post_activity; walk_safe.
Qed.

(** The one checked sum: the expiry of a Privy request. *)
Lemma current_time_safe : safe current_time_millis.
Proof. unfold current_time_millis. walk_safe. Qed.

Lemma current_time_below w r w' :
  sane w -> current_time_millis w = (Returned (Ok r), w') -> overflow_checks = true -> (r < 2 ^ 63)%Z.
Proof.
  intros [_ Hs] E Ho. specialize (Hs Ho (w_trace w)). revert E. unfold current_time_millis, bind, clock_ms, ret.
  destruct (Z.ltb_spec (w_clock_ms w (w_trace w)) 0); intros [= <- _]. rewrite Z.mod_small; lia.
Qed.

Lemma prepare_headers_safe s method url body :
  expiry_fits s ->
  safe (prepare_privy_authorization_headers (app_id s) (authorization_context s) method url body (authorization_request_expiry_ms s)).
Proof.
  intros Hfit. unfold expiry_fits in Hfit. unfold prepare_privy_authorization_headers.
  destruct (authorization_context s) as [cfg|]; [|apply safe_ret]. apply safe_bind_res; [|intros expiry; walk_safe].
  destruct (authorization_request_expiry_ms s) as [ms|]; [|apply safe_ret].
  intros w Hw. destruct (current_time_safe w Hw) as [Hp Hw1]. unfold bind_res, bind.
  destruct (current_time_millis w) as [[[now|e]| |] w1] eqn:E; [|done..]. cbn [fst snd] in *.
  destruct (u64_add_fits now ms) as [c Hc]; [|by rewrite Hc].
  intros Ho. split; [by apply (current_time_below w _ w1)|by apply Hfit].
Qed.
#[local] Hint Resolve prepare_headers_safe : keychain.

Lemma privy_steady (s : PrivySigner) : expiry_fits s -> steady s (Privy.sign_transaction s).
Proof.
  intros Hfit. methods; cbn; unfold Privy.sign_transaction, Privy.sign_and_serialize, Privy.sign_bytes, Privy.obtain_signature,
    Privy.is_available, Privy.fetch_public_key, Privy.post_rpc; walk_safe.
Qed.

Lemma para_sign_safe (s : ParaSigner) data : safe (Para.sign_bytes s data).
Proof. unfold Para.sign_bytes. walk_safe. Qed.
#[local] Hint Resolve para_sign_safe : keychain.

(** [pubkey] is only reached with a signature, so after [initialized_pubkey] succeeded. *)
Lemma para_transaction_safe (s : ParaSigner) tx : safe (Para.sign_and_serialize s tx).
Proof.
  unfold Para.sign_and_serialize, keep_bind.
  eapply safe_bind_returns; [apply para_sign_safe|apply para_sign_bytes_verified|].
  intros [sg|e] Hs; [|apply safe_ret]. destruct Hs as (pk & Hpk & _).
  unfold Para.pubkey, expect_pubkey. rewrite Hpk. apply safe_bind; [done|]. intros k. apply safe_attach.
Qed.
#[local] Hint Resolve para_transaction_safe : keychain.

Lemma para_steady (s : ParaSigner) : steady s (Para.sign_transaction s).
Proof. methods; cbn; unfold Para.sign_transaction, Para.is_available, Para.fetch_wallet; walk_safe. Qed.

Lemma cdp_steady (s : CdpSigner) : steady s (Cdp.sign_transaction s).
Proof.
  methods; cbn; unfold Cdp.sign_transaction, Cdp.sign_and_serialize, Cdp.is_available, Cdp.sign_bytes, Cdp.obtain_signature,
    call_sign_transaction, call_sign_message, signed_post, Cdp.build_auth_headers, build_get_headers,
    Cdp.create_auth_jwt, Cdp.create_wallet_jwt, WalletJwt.create_wallet_jwt, random_nonce; walk_safe.
Qed.

Lemma dfns_request_safe s r : safe (send_signature_request s r).
Proof. unfold send_signature_request, sign_user_action. walk_safe. Qed.
#[local] Hint Resolve dfns_request_safe : keychain.

Lemma dfns_steady (s : DfnsSigner) : steady s (Dfns.sign_transaction s).
Proof.
  methods; cbn; unfold Dfns.sign_transaction, Dfns.sign_and_serialize, Dfns.sign_bytes, sign_transaction_bytes,
    Dfns.is_available, get_wallet; walk_safe.
Qed.

Lemma openfort_steady (s : OpenfortSigner) : steady s (Openfort.sign_transaction s).
Proof.
  methods; cbn; unfold Openfort.sign_transaction, Openfort.sign_and_serialize, Openfort.sign_bytes, Openfort.is_available,
    Openfort.call_sign, Openfort.fetch_public_key, build_sign_headers, WalletJwt.create_wallet_jwt; walk_safe.
Qed.

Lemma fireblocks_steady (s : FireblocksSigner) : steady s (Fireblocks.sign_transaction s).
Proof.
  methods; cbn; unfold Fireblocks.sign_transaction, Fireblocks.sign_and_serialize, Fireblocks.is_available,
   sign_program_call, sign_raw_bytes, check_availability, Fireblocks.create_transaction, poll_for_completion,
   Fireblocks.poll_attempt, Fireblocks.get_transaction, Fireblocks.fetch_public_key, auth_headers, create_auth_token, create_jwt; walk_safe.
Qed.

Lemma utila_get_safe (s : UtilaSigner) id : safe (Utila.get_transaction s id).
Proof. unfold Utila.get_transaction, get_json, Utila.create_access_token. walk_safe. Qed.
#[local] Hint Resolve utila_get_safe : keychain.

Lemma utila_poll_safe (s : UtilaSigner) id n i t : safe (Utila.poll_loop s id n i t).
Proof. revert i t. induction n as [|n IH]; intros i t; cbn [Utila.poll_loop]; walk_safe. Qed.
#[local] Hint Resolve utila_poll_safe : keychain.

Lemma utila_steady (s : UtilaSigner) : steady s (Utila.sign_transaction s).
Proof.
  methods; cbn; unfold Utila.sign_transaction, Utila.sign_and_serialize, Utila.is_available, Utila.obtain_signature,
    poll_signed_transaction, initiate_transaction, fetch_wallet_address, utila_post_json, get_json,
    Utila.create_access_token, Utila.sign_message; walk_safe.
Qed.

Lemma crossmint_poll_safe (s : CrossmintSigner) n sub r : safe (Crossmint.poll_loop s n sub r).
Proof. apply safe_calm, calm_poll_loop. Qed.

Lemma crossmint_field_safe {T} (f : Value -> Result T string) resp a b :
  safe (parse_response_with_required_field f resp a b).
Proof. apply safe_calm, calm_parse_required. Qed.
#[local] Hint Resolve crossmint_poll_safe crossmint_field_safe : keychain.

Lemma crossmint_steady (s : CrossmintSigner) : steady s (execute_managed_transaction s).
Proof.
  split; [intros m; apply safe_ret|intros tx|cbn].
  - unfold execute_managed_transaction, finish_managed_transaction, poll_transaction, Crossmint.create_transaction,
      Pending.set, Pending.clear, read_json_value, extract_api_error_with_transaction_id; walk_safe.
  - unfold Crossmint.is_available, Crossmint.fetch_wallet; walk_safe.
Qed.

(** The caller's own request signer is the one piece of Fordefi code the crate does not have. *)
Definition signs_safely (core : FordefiCore) : Prop := forall b, safe (request_signer_sign (request_signer core) b).

Lemma signs_locally_safely core : signs_locally core -> signs_safely core.
Proof. intros Hc b. unfold signs_locally in Hc. destruct (request_signer core); [apply safe_ret|done]. Qed.

Lemma fordefi_submit_safe core request key managed : signs_safely core -> safe (submit_request core request key managed).
Proof.
  intros Hc. unfold submit_request, timestamp_ms, sign_request, extract_api_error_with_transaction_id,
    extract_api_error_with_body. walk_safe.
Qed.

Lemma fordefi_poll_safe core id p : safe (poll_for_result core id p).
Proof. apply safe_calm, calm_poll. Qed.
#[local] Hint Resolve fordefi_submit_safe fordefi_poll_safe : keychain.

Lemma fordefi_core_available_safe core : signs_safely core -> safe (core_is_available core).
Proof.
  intros Hc. unfold core_is_available, readiness_check, fetch_vault, timestamp_ms, sign_request. walk_safe.
Qed.

Lemma fordefi_message_safe core chain m : signs_safely core -> safe (native_sign_message core chain m).
Proof. intros Hc. unfold native_sign_message, submit_solana_message, poll_for_signature. walk_safe. Qed.
#[local] Hint Resolve fordefi_core_available_safe fordefi_message_safe : keychain.

Lemma black_box_steady (s : FordefiBlackBoxSigner) : signs_safely (bb_core s) -> steady s (BlackBox.sign_transaction s).
Proof.
  intros Hc. methods; cbn; unfold BlackBox.sign_transaction, BlackBox.sign_and_serialize, BlackBox.sign_message,
    sign_black_box, poll_for_signature; walk_safe.
Qed.

Lemma native_auto_steady (s : FordefiNativeAutoSigner) :
  signs_safely (na_core s) -> steady s (NativeAuto.sign_and_broadcast s).
Proof.
  intros Hc. methods; cbn; unfold NativeAuto.sign_and_broadcast, NativeAuto.finish_broadcast, submit_solana_transaction,
    Pending.set, Pending.clear; walk_safe.
Qed.

Lemma native_manual_steady (s : FordefiNativeManualSigner) :
  signs_safely (nm_core s) -> steady s (NativeManual.modify_and_sign_transaction s).
Proof.
  intros Hc. methods; cbn; unfold NativeManual.modify_and_sign_transaction, NativeManual.modify_and_serialize,
    submit_solana_transaction; walk_safe.
Qed.

Lemma aws_steady (s : Aws.AwsKmsSigner) :
  (forall c k m t a, safe (aws_sign c k m t a)) -> (forall c k, safe (aws_get_public_key c k)) ->
  (forall c k, safe (aws_describe_key c k)) -> steady s (Aws.sign_transaction s).
Proof.
  intros Ha Hb Hd. methods; cbn; unfold Aws.sign_transaction, Aws.sign_and_serialize, Aws.sign_bytes, Aws.is_available,
    Aws.key_matches_configured_public_key; walk_safe.
Qed.

Lemma gcp_steady (s : Gcp.GcpKmsSigner) :
  (forall c k m, safe (gcp_asymmetric_sign c k m)) -> (forall c k, safe (gcp_get_public_key c k)) ->
  steady s (Gcp.sign_transaction s).
Proof.
  intros Ha Hb. methods; cbn; unfold Gcp.sign_transaction, Gcp.sign_and_serialize, Gcp.sign_bytes, Gcp.is_available; walk_safe.
Qed.

Lemma ledger_steady (s : LedgerSigner) :
  safe claim_device -> (forall c t, safe (exchange_signature c t)) -> (forall c t, safe (exchange_bool c t)) ->
  steady s (Ledger.sign_transaction s).
Proof.
  intros Ha Hb Hd. methods; cbn; unfold Ledger.sign_transaction, Ledger.sign_message, Ledger.is_available, sign_on_device,
    acquire; walk_safe.
Qed.

(** Code outside the crate that a signer calls: the cloud SDKs, the channel to
    the device thread, a caller's Fordefi request signer.  Of Privy, that a debug
    build can add the configured expiry to the time. *)
Definition outside_safe (self : Signer) : Prop :=
  match self with
  | Privy s => expiry_fits s
  | AwsKms _ => (forall c k m t a, safe (aws_sign c k m t a)) /\ (forall c k, safe (aws_get_public_key c k)) /\
                (forall c k, safe (aws_describe_key c k))
  | GcpKms _ => (forall c k m, safe (gcp_asymmetric_sign c k m)) /\ (forall c k, safe (gcp_get_public_key c k))
  | Ledger _ => safe claim_device /\ (forall c t, safe (exchange_signature c t)) /\
                (forall c t, safe (exchange_bool c t))
  | FordefiBlackBox s => signs_safely (bb_core s)
  | FordefiNativeAuto s => signs_safely (na_core s)
  | FordefiNativeManual s => signs_safely (nm_core s)
  | _ => True
  end.

Lemma safe_sign_and_send_transaction {S : Type} `{!TransactionSigner S} (s : S) tx send :
  safe (Traits.sign_transaction s tx) -> (forall e, safe (send e)) -> safe (Traits.sign_and_send s tx send).
Proof. intros Ht Hs. unfold Traits.sign_and_send. walk_safe. Qed.

Lemma safe_modify_and_send {S : Type} `{!ModifyingSigner S} (s : S) tx send :
  safe (Traits.modify_and_sign_transaction s tx) -> (forall e, safe (send e)) -> safe (modify_and_send s tx send).
Proof. intros Ht Hs. unfold modify_and_send. walk_safe. Qed.

Lemma safe_provider_send d tx send (self : Signer) :
  as_sending_signer self = Some d -> safe (@sign_and_send_transaction _ _ (ss_inst d) (ss_value d) tx) ->
  safe (Keychain.sign_and_send self tx send).
Proof. intros Hd Ht. unfold Keychain.sign_and_send. rewrite Hd. walk_safe. Qed.

(** C8: no panic reaches the caller.  With a clock that is set to after the Unix
    epoch ([Utc::now] panics before it), and whatever a provider or a device
    answers, signing a message, probing and [sign_and_send] of every backend end
    with a value or are dropped, even on a signer whose [init] never ran.  In a
    build with overflow checks the clock must also be less than 2^63 milliseconds
    after the epoch, and the expiry configured for Privy at most that.  The other
    assumptions are on the code the caller hands in, on the cloud SDKs and on the
    exchange with the device thread, which runs in a blocking task whose panics
    are errors: they do not panic, nor set the clock back.  [pubkey] of an
    uninitialised signer is not covered: it panics. *)
Theorem signer_never_panics (self : Signer) :
  outside_safe self ->
  (forall m, safe (Traits.sign_message self m)) /\
  safe (Traits.is_available self) /\
  forall tx send, (forall e, safe (send e)) -> safe (Keychain.sign_and_send self tx send).
Proof.
  destruct self; cbn [outside_safe]; intros Hout;
    match goal with s : ?T |- _ => first
      [ pose proof (memory_steady s) as HS | pose proof (vault_steady s) as HS | pose proof (privy_steady s Hout) as HS
      | pose proof (turnkey_steady s) as HS | pose proof (fireblocks_steady s) as HS
      | pose proof (cdp_steady s) as HS | pose proof (dfns_steady s) as HS | pose proof (openfort_steady s) as HS
      | pose proof (para_steady s) as HS | pose proof (crossmint_steady s) as HS | pose proof (utila_steady s) as HS
      | pose proof (black_box_steady s Hout) as HS | pose proof (native_auto_steady s Hout) as HS
      | pose proof (native_manual_steady s Hout) as HS
      | pose proof (aws_steady s (proj1 Hout) (proj1 (proj2 Hout)) (proj2 (proj2 Hout))) as HS
      | pose proof (gcp_steady s (proj1 Hout) (proj2 Hout)) as HS
      | pose proof (ledger_steady s (proj1 Hout) (proj1 (proj2 Hout)) (proj2 (proj2 Hout))) as HS ] end;
    destruct HS as [Hm Ht Ha]; (split; [exact Hm|split; [exact Ha|]]); intros tx send Hs;
    first [ apply safe_sign_and_send_transaction; [apply Ht|exact Hs]
          | apply safe_modify_and_send; [apply Ht|exact Hs]
          | eapply safe_provider_send; [reflexivity|apply Ht] ].
Qed.

End Backends.

Module NoPanicDemo.
Import Demo DemoJson DemoJwt DemoDalek DemoEcdsa DemoText DemoPem CrossmintDemo KeychainDemo.

(** A Ledger signer whose device thread is gone. *)
Definition on_ledger : Signer := Ledger (mkLedgerSigner (array_repeat 32 x01) "m/44'/501'" None 60000).

Lemma signer_never_panics_witness :
  outside_safe on_ledger /\ sane idle_world /\ (Traits.sign_message on_ledger (as_bytes "hi") idle_world).1 ≠ Panicked.
Proof.
  assert (Hout : outside_safe on_ledger) by (split_and!; intros; intros w Hw; (split; [discriminate|exact Hw])).
  assert (Hw : sane idle_world) by (split; intros; vm_compute; first [reflexivity|discriminate]).
  split; [exact Hout|]. split; [exact Hw|].
  exact (proj1 (proj1 (signer_never_panics on_ledger Hout) (as_bytes "hi") idle_world Hw)).
Defined.

End NoPanicDemo.
