(* ===== verification/Effort.v ===== *)
(** * How long a call can take

    Every backend waits for a remote party.  A cost is a measure of events (a
    request, a millisecond slept); [within] bounds what a computation adds to it,
    however it ends.  One walk through each backend bounds every cost at once. *)

From S2P Require Import Prelude Errors World Externals TransactionUtil SignatureUtil RemoteUtil Traits.
From S2P Require Import Memory Vault Privy Turnkey Kms Fireblocks WalletJwt Cdp Dfns Openfort Para Crossmint.
From S2P Require Import Utila Fordefi LedgerDashboard Ledger LedgerActor Keychain.

#[local] Open Scope keychain_scope.

Definition spent (cost : Event -> nat) (w : World) : nat := sum_list_with cost (w_trace w).

Definition within {A} (cost : Event -> nat) (n : nat) (m : M A) : Prop :=
  forall w, spent cost (m w).2 <= spent cost w + n.

(** The two costs: requests, and milliseconds slept. *)
Definition request_cost (e : Event) : nat := if is_http e then 1 else 0.
Definition wait_cost (e : Event) : nat := match e with EvSleep ms => Z.to_nat ms | _ => 0 end.

Section Cost.
Context (cost : Event -> nat) (h : nat).

(** Reading the clock or drawing an id is free, a request costs at most [h]. *)
Class Costing : Prop := {
  cost_clock : cost EvClock = 0;
  cost_uuid : cost EvUuid = 0;
  cost_http : forall r, cost (EvHttp r) <= h
}.
Context `{!Costing}.

Lemma spent_push e w : spent cost (push_event e w) = spent cost w + cost e.
Proof. unfold spent. cbn. rewrite sum_list_with_app. cbn. lia. Qed.

Lemma within_ret {A} n (a : A) : within cost n (ret a).
Proof. intros w. cbn. lia. Qed.

Lemma within_of_run {A} n (r : run A) : within cost n (of_run r).
Proof. intros w. cbn. lia. Qed.

Lemma within_weaken {A} n k (m : M A) : within cost n m -> n <= k -> within cost k m.
Proof. intros Hm Hk w. specialize (Hm w). lia. Qed.

(** Spend [a] on the first step, the rest on what follows. *)
Lemma within_bind {A B} a n (m : M A) (k : A -> M B) :
  within cost a m -> a <= n -> (forall x, within cost (n - a) (k x)) -> within cost n (bind m k).
Proof.
  intros Hm Ha Hk w. specialize (Hm w). unfold bind. destruct (m w) as [[x| |] w1]; cbn [snd] in *; [|lia..].
  specialize (Hk x w1). lia.
Qed.

Lemma within_bind_res {A B E} a n (m : M (Result A E)) (k : A -> M (Result B E)) :
  within cost a m -> a <= n -> (forall x, within cost (n - a) (k x)) -> within cost n (bind_res m k).
Proof. intros Hm Ha Hk. eapply within_bind; [done..|]. intros [x|e]; [apply Hk|apply within_ret]. Qed.

Lemma within_try {A B E} n (r : Result A E) (k : A -> M (Result B E)) :
  (forall x, r = Ok x -> within cost n (k x)) -> within cost n (bind_res (ret r) k).
Proof. intros Hk w. unfold bind_res, bind, ret. destruct r; [by apply Hk|cbn; lia]. Qed.

Lemma within_fmap_err {A E F} n (f : E -> F) (m : M (Result A E)) : within cost n m -> within cost n (fmap_err f m).
Proof. intros Hm. eapply within_bind; [exact Hm|lia|]. intros r. apply within_ret. Qed.

Lemma within_timeout {A} n (m : M A) : within cost n m -> within cost n (timeout m).
Proof. intros Hm w. specialize (Hm w). unfold timeout. by destruct (m w) as [[| |[]] ?]. Qed.

Lemma within_http_send r : within cost h (http_send r).
Proof.
  intros w. pose proof (cost_http r). unfold http_send. case_match; cbn [snd]; rewrite spent_push; lia.
Qed.

Lemma within_http_get u hd : within cost h (http_get u hd).
Proof. apply within_http_send. Qed.

Lemma within_send_json b mk : within cost h (http_send_json b mk).
Proof. unfold http_send_json. case_match; [apply within_http_send|apply within_ret]. Qed.

Lemma within_post_json u hd b : within cost h (post_json u hd b).
Proof. apply within_send_json. Qed.

Lemma within_sleep ms : within cost (cost (EvSleep ms)) (sleep_ms ms).
Proof. intros w. unfold sleep_ms. case_match; cbn [snd]; rewrite spent_push; lia. Qed.

Lemma within_clock : within cost 0 clock_ms.
Proof. intros w. cbn [snd clock_ms]. by rewrite spent_push, cost_clock. Qed.

Lemma within_utc : within cost 0 utc_timestamp.
Proof. intros w. cbn [snd utc_timestamp]. by rewrite spent_push, cost_clock. Qed.

Lemma within_utc_millis : within cost 0 utc_timestamp_millis.
Proof. intros w. cbn [snd utc_timestamp_millis]. by rewrite spent_push, cost_clock. Qed.

Lemma within_uuid : within cost 0 uuid_v4.
Proof. intros w. cbn [snd uuid_v4]. by rewrite spent_push, cost_uuid. Qed.

Lemma within_get_slot c : within cost 0 (get_slot c).
Proof. intros w. cbn. lia. Qed.

Lemma within_put_slot c s : within cost 0 (put_slot c s).
Proof. intros w. unfold spent. cbn. lia. Qed.

Lemma within_read_body r : within cost 0 (read_body_capped r).
Proof. intros w. rewrite read_body_keeps. lia. Qed.

Lemma within_parse_json {T} (f : list byte -> Result T string) r c : within cost 0 (parse_json_response f r c).
Proof.
  unfold parse_json_response. case_match; [apply within_ret|].
  eapply within_bind_res; [apply within_read_body|lia|]. intros b. apply within_ret.
Qed.

(** A poll of [n] attempts sleeps between them only. *)
Lemma within_poll_from {T} a i n iv te (attempt : M (result (PollOutcome T))) :
  within cost a attempt -> within cost (n * a + (if 0 <? i then n else n - 1) * cost (EvSleep iv)) (poll_from i n iv te attempt).
Proof.
  intros Ha. revert i. induction n as [|n IH]; intros i; cbn [poll_from]; [apply within_ret|].
  replace (S n - 1) with n by lia. cbn [Nat.mul]. set (s := cost (EvSleep iv)) in *.
  apply (within_bind (if 0 <? i then s else 0)).
  { destruct (0 <? i); [apply within_sleep|apply within_ret]. }
  { destruct (0 <? i); cbn [Nat.mul]; lia. }
  intros _. eapply within_bind_res; [exact Ha|destruct (0 <? i); cbn [Nat.mul]; lia|].
  intros [v|]; [apply within_ret|]. eapply within_weaken; [apply IH|]. change (0 <? S i) with true. cbv iota.
  destruct (0 <? i); cbn [Nat.mul]; lia.
Qed.

Section Transactions.
Context `{SolanaSdk}.

Lemma within_keep_bind {A B} a n tx (m : M (result A)) (k : A -> M (VersionedTransaction * result B)) :
  within cost a m -> a <= n -> (forall x, within cost (n - a) (k x)) -> within cost n (keep_bind tx m k).
Proof. intros Hm Ha Hk. eapply within_bind; [done..|]. intros [x|e]; [apply Hk|apply within_ret]. Qed.

Lemma within_mut_bind {A B} a n (m : M (VersionedTransaction * result A))
    (k : VersionedTransaction -> A -> M (VersionedTransaction * result B)) :
  within cost a m -> a <= n -> (forall tx x, within cost (n - a) (k tx x)) -> within cost n (mut_bind m k).
Proof. intros Hm Ha Hk. eapply within_bind; [done..|]. intros [tx [x|e]]; [apply Hk|apply within_ret]. Qed.

End Transactions.
End Cost.
Arguments Costing : clear implicits.

#[export] Hint Resolve within_clock within_utc within_utc_millis within_uuid within_get_slot
  within_put_slot within_read_body within_parse_json within_http_send within_http_get within_send_json
  within_post_json within_fmap_err within_timeout : effort.

(** Pay for a known step, or leave the whole budget to the first of two parts. *)
Ltac spend lem := first
  [ eapply lem; [solve [eauto with effort]|lia|intros]
  | lazymatch goal with |- within _ ?n _ => eapply lem with (a := n); [|lia|intros; rewrite Nat.sub_diag] end ].

(** Walk through code, paying for each step. *)
Ltac walk_effort :=
  repeat first
    [ progress cbv zeta
    | apply within_ret
    | apply within_of_run
    | solve [eapply within_weaken; [solve [eauto with effort]|lia]]
    | lazymatch goal with
      | |- within _ _ (bind_res (ret _) _) => apply within_try; intros ? ?
      | |- within _ _ (keep_bind _ (ret _) _) =>
          eapply within_keep_bind with (a := 0); [apply within_ret|lia|intros; rewrite Nat.sub_0_r]
      | |- within _ _ (keep_bind _ _ _) => spend within_keep_bind
      | |- within _ _ (mut_bind _ _) => spend within_mut_bind
      | |- within _ _ (bind_res _ _) => spend within_bind_res
      | |- within _ _ (bind _ _) => spend within_bind
      | |- within _ _ (timeout _) => apply within_timeout
      | |- within _ _ (fmap_err _ _) => apply within_fmap_err
      | |- within _ _ (match ?x with _ => _ end) => destruct x eqn:?
      end ].

Section Backends.
Context `{Codecs} `{SolanaSdk} `{Json} `{FileSystem} `{ClientBuild} `{UrlParser} `{Jwt} `{Dalek} `{StdText}.
Context `{BuildProfile} `{Ecdsa} `{JsonText} `{PrivyCodec} `{TurnkeyCodec} `{AwsSdk} `{GcpSdk} `{FireblocksCodec}.
Context `{HttpHeaders} `{CdpCodec} `{!PemKeys} `{DfnsCodec} `{OpenfortCodec} `{ParaCodec} `{CrossmintCodec}.
Context `{UtilaCodec} `{P256} `{FordefiCodec}.
Context `{OffchainCrate} `{HID : Hid} `{!RemoteWallets} `{DeviceThread} `{Tokio}.
Context (cost : Event -> nat) (h : nat) `{Hcost : !Costing cost h}.

Lemma vault_effort s tx : within cost h (Vault.sign_transaction s tx).
Proof. unfold Vault.sign_transaction, Vault.sign_and_serialize, Vault.sign_bytes. walk_effort. Qed.

Lemma turnkey_effort s tx : within cost h (Turnkey.sign_transaction s tx).
Proof.
  unfold Turnkey.sign_transaction, Turnkey.sign_and_serialize, Turnkey.obtain_signature, post_activity. walk_effort.
Qed.

Lemma para_effort s tx : within cost h (Para.sign_transaction s tx).
Proof. unfold Para.sign_transaction, Para.sign_and_serialize, Para.sign_bytes. walk_effort. Qed.

Lemma privy_headers_free app cfg method url body expiry_ms :
  within cost 0 (prepare_privy_authorization_headers app cfg method url body expiry_ms).
Proof. unfold prepare_privy_authorization_headers, current_time_millis. walk_effort. Qed.
#[local] Hint Resolve privy_headers_free : effort.

Lemma privy_effort s tx : within cost h (Privy.sign_transaction s tx).
Proof. unfold Privy.sign_transaction, Privy.sign_and_serialize, Privy.obtain_signature, Privy.post_rpc. walk_effort. Qed.

Lemma cdp_auth_free id secret host method path : within cost 0 (Cdp.create_auth_jwt id secret host method path).
Proof. unfold Cdp.create_auth_jwt, random_nonce. walk_effort. Qed.
Lemma wallet_jwt_free t key host method path body ttl : within cost 0 (WalletJwt.create_wallet_jwt t key host method path body ttl).
Proof. unfold WalletJwt.create_wallet_jwt. walk_effort. Qed.
#[local] Hint Resolve cdp_auth_free wallet_jwt_free : effort.
Lemma cdp_headers_free s method path body : within cost 0 (Cdp.build_auth_headers s method path body).
Proof. unfold Cdp.build_auth_headers, Cdp.create_wallet_jwt. walk_effort. Qed.
#[local] Hint Resolve cdp_headers_free : effort.

Lemma cdp_effort s tx : within cost h (Cdp.sign_transaction s tx).
Proof.
  unfold Cdp.sign_transaction, Cdp.sign_and_serialize, Cdp.obtain_signature, call_sign_transaction, signed_post. walk_effort.
Qed.

Lemma openfort_headers_free s path body : within cost 0 (build_sign_headers s path body).
Proof. unfold build_sign_headers. walk_effort. Qed.
#[local] Hint Resolve openfort_headers_free : effort.

Lemma openfort_effort s tx : within cost h (Openfort.sign_transaction s tx).
Proof. unfold Openfort.sign_transaction, Openfort.sign_and_serialize, Openfort.sign_bytes, call_sign. walk_effort. Qed.

Lemma dfns_action_effort url tok cred pem method path body :
  within cost (h + h) (sign_user_action url tok cred pem method path body).
Proof. unfold sign_user_action. walk_effort. Qed.
#[local] Hint Resolve dfns_action_effort : effort.

Lemma dfns_effort s tx : within cost (3 * h) (Dfns.sign_transaction s tx).
Proof.
  unfold Dfns.sign_transaction, Dfns.sign_and_serialize, sign_transaction_bytes, send_signature_request. walk_effort.
Qed.

(** Polling: one request per attempt, and the interval between two. *)
Definition poll_effort (n : nat) (iv : Z) : nat := h + n * h + n * cost (EvSleep iv).

Lemma within_poll {T} n iv te (attempt : M (result (PollOutcome T))) :
  within cost h attempt -> within cost (n * h + n * cost (EvSleep iv)) (poll_until n iv te attempt).
Proof. intros Ha. eapply within_weaken; [by apply (within_poll_from cost h)|]. cbn. nia. Qed.

Lemma fireblocks_jwt_free k key uri body : within cost 0 (create_jwt k key uri body).
Proof. unfold create_jwt. walk_effort. Qed.
#[local] Hint Resolve fireblocks_jwt_free : effort.

Lemma fireblocks_poll_effort s id mode :
  within cost (Fireblocks.max_poll_attempts s * h + Fireblocks.max_poll_attempts s * cost (EvSleep (Fireblocks.poll_interval_ms s)))
    (poll_for_completion s id mode).
Proof.
  apply within_poll. unfold Fireblocks.poll_attempt, Fireblocks.get_transaction, auth_headers, create_auth_token. walk_effort.
Qed.
#[local] Hint Resolve fireblocks_poll_effort : effort.

Lemma fireblocks_create_effort s request : within cost h (Fireblocks.create_transaction s request).
Proof. unfold Fireblocks.create_transaction, auth_headers, create_auth_token. walk_effort. Qed.
#[local] Hint Resolve fireblocks_create_effort : effort.

Lemma fireblocks_effort s tx :
  within cost (poll_effort (Fireblocks.max_poll_attempts s) (Fireblocks.poll_interval_ms s)) (Fireblocks.sign_transaction s tx).
Proof.
  unfold poll_effort, Fireblocks.sign_transaction, Fireblocks.sign_and_serialize, sign_program_call, sign_raw_bytes.
  walk_effort.
Qed.

Lemma utila_token_free s : within cost 0 (Utila.create_access_token s).
Proof. unfold Utila.create_access_token. walk_effort. Qed.
#[local] Hint Resolve utila_token_free : effort.

Lemma utila_get_effort s id : within cost h (Utila.get_transaction s id).
Proof. unfold Utila.get_transaction, get_json. walk_effort. Qed.
Lemma utila_initiate_effort s b : within cost h (initiate_transaction s b).
Proof. unfold initiate_transaction, utila_post_json. walk_effort. Qed.
#[local] Hint Resolve utila_get_effort utila_initiate_effort : effort.

Lemma utila_loop_effort s id n i t :
  within cost (n * (h + cost (EvSleep (Utila.poll_interval_ms s)))) (Utila.poll_loop s id n i t).
Proof.
  revert i t. induction n as [|n IH]; intros i t; cbn [Utila.poll_loop]; [apply within_ret|].
  cbn [Nat.mul]. set (c := cost (EvSleep _)) in *. eapply (within_bind_res _ (h + c)); [|lia|].
  - destruct (0 <? i); [|apply within_ret].
    eapply (within_bind _ c); [apply within_sleep|lia|]. intros _. eapply within_weaken; [apply utila_get_effort|lia].
  - intros x. replace (h + c + n * (h + c) - (h + c)) with (n * (h + c)) by lia. walk_effort.
Qed.

(** The transaction that was just initiated is looked at without a request. *)
Lemma utila_poll_effort s t :
  within cost (Utila.max_poll_attempts s * h + Utila.max_poll_attempts s * cost (EvSleep (Utila.poll_interval_ms s)))
    (poll_signed_transaction s t).
Proof.
  unfold poll_signed_transaction. apply within_try. intros id _. cbn [Utila.poll_loop Nat.ltb Nat.leb].
  apply within_try. intros t' _. pose proof (utila_loop_effort s id (Utila.max_poll_attempts s) 1 t') as HL.
  rewrite Nat.mul_add_distr_l in HL. walk_effort.
Qed.
#[local] Hint Resolve utila_poll_effort : effort.

Lemma utila_effort s tx :
  within cost (poll_effort (Utila.max_poll_attempts s) (Utila.poll_interval_ms s)) (Utila.sign_transaction s tx).
Proof.
  unfold poll_effort, Utila.sign_transaction, Utila.sign_and_serialize, Utila.obtain_signature. walk_effort.
Qed.

Lemma crossmint_parse_free {T} (f : Value -> Result T string) resp a b :
  within cost 0 (parse_response_with_required_field f resp a b).
Proof. unfold parse_response_with_required_field, read_json_value. walk_effort. Qed.
#[local] Hint Resolve crossmint_parse_free : effort.

Lemma crossmint_step_effort s r id :
  within cost h (handle_awaiting_approval s r) /\ within cost h (Crossmint.get_transaction s id).
Proof. unfold handle_awaiting_approval, submit_approval, Crossmint.get_transaction. split; walk_effort. Qed.

Lemma crossmint_loop_effort s n sub r :
  within cost (n * h + n * cost (EvSleep (Crossmint.poll_interval_ms s))) (Crossmint.poll_loop s n sub r).
Proof.
  revert sub r. induction n as [|n IH]; intros sub r; cbn [Crossmint.poll_loop]; [apply within_ret|].
  cbn [Nat.mul]. set (c := cost (EvSleep _)) in *. repeat case_match; try apply within_ret.
  - eapply within_bind_res; [apply (crossmint_step_effort s r EmptyString)|lia|]. intros x.
    eapply within_weaken; [apply IH|lia].
  - eapply (within_bind _ c); [apply within_sleep|lia|]. intros _.
    eapply within_bind_res; [apply (crossmint_step_effort s r)|lia|]. intros x.
    eapply within_weaken; [apply IH|lia].
Qed.
#[local] Hint Resolve crossmint_loop_effort : effort.

Lemma crossmint_create_effort s tx key : within cost h (Crossmint.create_transaction s tx key).
Proof. unfold Crossmint.create_transaction, read_json_value. walk_effort. Qed.
#[local] Hint Resolve crossmint_create_effort : effort.

Lemma slot_effort o (f : nat -> M unit) : (forall c, within cost 0 (f c)) ->
  within cost 0 (match o with Some c => f c | None => ret tt end).
Proof. intros Hf. destruct o; [apply Hf|apply within_ret]. Qed.

Lemma pending_free c id : within cost 0 (Pending.set c id) /\ within cost 0 (Pending.clear c id).
Proof. unfold Pending.set, Pending.clear. split; walk_effort. Qed.

(** The bracket that keeps the id in the shared slot costs what is inside it. *)
Lemma bracket_effort {A} n (o : option nat) id (f : SignerError -> SignerError) (m : M (result A)) :
  within cost n m ->
  within cost n
    (let! _ := match o with Some c => Pending.set c id | None => ret tt end in
     let! r := fmap_err f m in
     let! _ := match o with Some c => Pending.clear c id | None => ret tt end in
     ret r).
Proof.
  intros Hm. eapply within_bind with (a := 0); [apply slot_effort; intros c; apply pending_free|lia|]. intros _.
  eapply within_bind with (a := n); [by apply within_fmap_err|lia|]. intros r.
  eapply within_bind with (a := 0); [apply slot_effort; intros c; apply pending_free|lia|]. intros _. apply within_ret.
Qed.

Lemma crossmint_effort s tx :
  within cost (poll_effort (Crossmint.max_poll_attempts s) (Crossmint.poll_interval_ms s)) (execute_managed_transaction s tx).
Proof.
  unfold poll_effort, execute_managed_transaction, finish_managed_transaction, poll_transaction. cbv zeta.
  do 2 (apply within_try; intros ? _).
  eapply within_bind_res; [apply crossmint_create_effort|lia|]. intros r. apply bracket_effort. walk_effort.
Qed.

Lemma fordefi_poll_effort core id p :
  within cost (max_poll_attempts core * h + max_poll_attempts core * cost (EvSleep (poll_interval_ms core)))
    (poll_for_result core id p).
Proof. apply within_poll. unfold poll_attempt. walk_effort. Qed.

Lemma fordefi_timestamp_free : within cost 0 timestamp_ms.
Proof. unfold timestamp_ms. walk_effort. Qed.
#[local] Hint Resolve fordefi_timestamp_free : effort.

Lemma fordefi_submit_effort core request key managed :
  signs_locally core -> within cost h (submit_request core request key managed).
Proof.
  unfold signs_locally, submit_request, sign_request, request_signer_sign,
    extract_api_error_with_transaction_id, extract_api_error_with_body. intros Hc.
  destruct (request_signer core); [|done]. walk_effort.
Qed.
#[local] Hint Resolve fordefi_poll_effort fordefi_submit_effort : effort.

Definition core_effort (core : FordefiCore) : nat := poll_effort (max_poll_attempts core) (poll_interval_ms core).

Lemma black_box_effort s tx : signs_locally (bb_core s) -> within cost (core_effort (bb_core s)) (BlackBox.sign_transaction s tx).
Proof.
  intros Hc. unfold core_effort, poll_effort, BlackBox.sign_transaction, BlackBox.sign_and_serialize, sign_black_box,
    poll_for_signature. walk_effort.
Qed.

Lemma native_manual_effort s tx :
  signs_locally (nm_core s) -> within cost (core_effort (nm_core s)) (NativeManual.modify_and_sign_transaction s tx).
Proof.
  intros Hc. unfold core_effort, poll_effort, NativeManual.modify_and_sign_transaction, NativeManual.modify_and_serialize,
    submit_solana_transaction. walk_effort.
Qed.

Lemma native_auto_effort s tx :
  signs_locally (na_core s) -> within cost (core_effort (na_core s)) (NativeAuto.sign_and_broadcast s tx).
Proof.
  intros Hc. unfold core_effort, poll_effort, NativeAuto.sign_and_broadcast, NativeAuto.finish_broadcast,
    submit_solana_transaction. cbv zeta. apply within_try. intros ? _.
  eapply within_bind_res; [by apply fordefi_submit_effort|lia|]. intros id. apply bracket_effort. walk_effort.
Qed.

(** ** The unified signer *)

(** The budget of one call: the requests it may make, and how long it may sleep. *)
Definition effort (self : Signer) : nat :=
  match self with
  | Memory _ | AwsKms _ | GcpKms _ | Ledger _ => 0
  | Vault _ | Privy _ | Turnkey _ | Cdp _ | Openfort _ | Para _ => h
  | Dfns _ => 3 * h
  | Fireblocks s => poll_effort (Fireblocks.max_poll_attempts s) (Fireblocks.poll_interval_ms s)
  | Crossmint s => poll_effort (Crossmint.max_poll_attempts s) (Crossmint.poll_interval_ms s)
  | Utila s => poll_effort (Utila.max_poll_attempts s) (Utila.poll_interval_ms s)
  | FordefiBlackBox s => core_effort (bb_core s)
  | FordefiNativeAuto s => core_effort (na_core s)
  | FordefiNativeManual s => core_effort (nm_core s)
  end.

Lemma within_broadcast n res fp send : (forall e, within cost n (send e)) -> within cost n (broadcast_complete res fp send).
Proof.
  intros Hs. unfold broadcast_complete. cbv zeta. destruct (negb _); [apply within_ret|].
  apply within_try. intros sg _. apply within_fmap_err, Hs.
Qed.

Lemma within_sign_and_send {S : Type} `{!TransactionSigner S} a n (s : S) tx send :
  within cost a (Traits.sign_transaction s tx) -> (forall e, within cost n (send e)) ->
  within cost (a + n) (Traits.sign_and_send s tx send).
Proof.
  intros Ht Hs. eapply within_mut_bind; [exact Ht|lia|]. intros tx' res. replace (a + n - a) with n by lia.
  eapply within_bind; [by apply within_broadcast|lia|]. intros r. apply within_ret.
Qed.

Lemma within_modify_and_send {S : Type} `{!ModifyingSigner S} a n (s : S) tx send :
  within cost a (Traits.modify_and_sign_transaction s tx) -> (forall e, within cost n (send e)) ->
  within cost (a + n) (modify_and_send s tx send).
Proof.
  intros Ht Hs. eapply within_mut_bind; [exact Ht|lia|]. intros tx' res. replace (a + n - a) with n by lia.
  eapply within_bind; [by apply within_broadcast|lia|]. intros r. apply within_ret.
Qed.

Lemma within_provider_send d tx send a n (self : Signer) :
  as_sending_signer self = Some d -> within cost a (@sign_and_send_transaction _ _ (ss_inst d) (ss_value d) tx) ->
  within cost (a + n) (Keychain.sign_and_send self tx send).
Proof.
  intros Hd Ht. unfold Keychain.sign_and_send. rewrite Hd. eapply within_keep_bind; [exact Ht|lia|]. intros x. apply within_ret.
Qed.

Lemma sign_and_send_effort (self : Signer) base tx send n :
  base_url self = Some base -> own_code self -> (forall e, within cost n (send e)) ->
  within cost (effort self + n) (Keychain.sign_and_send self tx send).
Proof.
  intros Hb Hown Hs. destruct self; try discriminate Hb; cbn [own_code] in Hown;
    first [ apply within_sign_and_send; [|exact Hs] | apply within_modify_and_send; [|exact Hs]
          | eapply within_provider_send; [reflexivity|] ].
  - apply vault_effort. - apply privy_effort. - apply turnkey_effort. - apply fireblocks_effort. - apply cdp_effort.
  - apply dfns_effort. - apply openfort_effort. - apply para_effort. - apply crossmint_effort. - apply utila_effort.
  - by apply black_box_effort. - by apply native_auto_effort. - by apply native_manual_effort.
Qed.

End Backends.

#[global] Instance request_costing : Costing request_cost 1.
Proof. by split. Qed.
#[global] Instance wait_costing : Costing wait_cost 0.
Proof. by split. Qed.

Section Limits.
Context `{Codecs} `{SolanaSdk} `{Json} `{FileSystem} `{ClientBuild} `{UrlParser} `{Jwt} `{Dalek} `{StdText}.
Context `{BuildProfile} `{Ecdsa} `{JsonText} `{PrivyCodec} `{TurnkeyCodec} `{AwsSdk} `{GcpSdk} `{FireblocksCodec}.
Context `{HttpHeaders} `{CdpCodec} `{!PemKeys} `{DfnsCodec} `{OpenfortCodec} `{ParaCodec} `{CrossmintCodec}.
Context `{UtilaCodec} `{P256} `{FordefiCodec}.
Context `{OffchainCrate} `{HID : Hid} `{!RemoteWallets} `{DeviceThread} `{Tokio}.

(** The configured attempts and interval of a backend that polls. *)
Definition polling (self : Signer) : option (nat * Z) :=
  match self with
  | Fireblocks s => Some (Fireblocks.max_poll_attempts s, Fireblocks.poll_interval_ms s)
  | Crossmint s => Some (Crossmint.max_poll_attempts s, Crossmint.poll_interval_ms s)
  | Utila s => Some (Utila.max_poll_attempts s, Utila.poll_interval_ms s)
  | FordefiBlackBox s => Some (max_poll_attempts (bb_core s), poll_interval_ms (bb_core s))
  | FordefiNativeAuto s => Some (max_poll_attempts (na_core s), poll_interval_ms (na_core s))
  | FordefiNativeManual s => Some (max_poll_attempts (nm_core s), poll_interval_ms (nm_core s))
  | _ => None
  end.

Definition request_limit (self : Signer) : nat :=
  match polling self with
  | Some (attempts, _) => 1 + attempts
  | None => match self with Dfns _ => 3 | _ => 1 end
  end.

Definition wait_limit (self : Signer) : nat :=
  match polling self with
  | Some (attempts, interval_ms) => attempts * Z.to_nat interval_ms
  | None => 0
  end.

(** C11: one [sign_and_send] through a remote backend is bounded, whatever
    the provider answers and however the call ends.  Beside what the caller's own
    [send] does, it makes one request and at most one per polling attempt (three
    for Dfns, one for a backend that does not poll), and it sleeps at most the
    configured interval times the configured attempts. *)
Theorem sign_and_send_bounded (self : Signer) (base : string) (tx : VersionedTransaction)
    (send : string -> M (result Signature)) (sent slept : nat) :
  base_url self = Some base -> own_code self ->
  (forall e, within request_cost sent (send e)) -> (forall e, within wait_cost slept (send e)) ->
  within request_cost (request_limit self + sent) (Keychain.sign_and_send self tx send) /\
  within wait_cost (wait_limit self + slept) (Keychain.sign_and_send self tx send).
Proof.
  intros Hb Hown Hr Hw. split.
  - eapply within_weaken; [by eapply (sign_and_send_effort request_cost 1)|].
    destruct self; cbn; unfold core_effort, poll_effort; cbn; lia.
  - eapply within_weaken; [by eapply (sign_and_send_effort wait_cost 0)|].
    destruct self; cbn; unfold core_effort, poll_effort; cbn; lia.
Qed.

End Limits.

Module EffortDemo.
Import Demo DemoJson DemoJwt DemoDalek DemoEcdsa DemoText DemoPem CrossmintDemo KeychainDemo.

Lemma sign_and_send_bounded_witness :
  request_limit at_crossmint = 3 /\
  within request_cost (3 + 0) (Keychain.sign_and_send at_crossmint demo_tx MemoryDemo.lost_answer) /\
  within wait_cost (wait_limit at_crossmint + 0) (Keychain.sign_and_send at_crossmint demo_tx MemoryDemo.lost_answer).
Proof.
  split; [vm_compute; reflexivity|].
  refine (sign_and_send_bounded at_crossmint "https://api" demo_tx MemoryDemo.lost_answer 0 0 _ I _ _).
  - vm_compute. reflexivity.
  - intros e. apply within_ret.
  - intros e. apply within_ret.
Defined.

End EffortDemo.
