(* ===== verification/Availability.v ===== *)
(** * What an available signer has shown

    [is_available] of most backends asks the provider for the key it would sign
    with.  [hears] relates a computation to what the provider answered: the
    oracle of HTTP replies never changes during a run, so a value can be traced
    back to an answer of the configured provider. *)

From S2P Require Import Prelude Errors World Externals TransactionUtil SignatureUtil RemoteUtil Traits Delivery.
From S2P Require Import Memory Vault Privy Turnkey Kms Fireblocks WalletJwt Cdp Dfns Openfort Para Crossmint.
From S2P Require Import Utila Fordefi LedgerDashboard Ledger LedgerActor Keychain.

#[local] Open Scope keychain_scope.

(** ** Answers *)

(** The provider under [base] answered some request with success and the body [b]. *)
Definition answered (O : oracle) (base : string) (b : list byte) : Prop :=
  exists tr r resp, under base r /\ O tr r = Reply resp /\ is_success (resp_status resp) = true /\
    chunks_data (resp_chunks resp) = Some b.

(** [m] leaves the oracle alone and a value it returns satisfies [Q]. *)
Definition hears {A} (O : oracle) (m : M A) (Q : A -> Prop) : Prop :=
  forall w, w_http w = O -> w_http (m w).2 = O /\ forall a, (m w).1 = Returned a -> Q a.

Lemma hears_ret {A} O (a : A) (Q : A -> Prop) : Q a -> hears O (ret a) Q.
Proof. intros HQ w HO. split; [done|]. by intros a' [= <-]. Qed.

Lemma hears_bind {A B} O (m : M A) (k : A -> M B) (R : A -> Prop) Q :
  hears O m R -> (forall a, R a -> hears O (k a) Q) -> hears O (bind m k) Q.
Proof.
  intros Hm Hk w HO. destruct (Hm w HO) as [HO1 Ha]. unfold bind. destruct (m w) as [[a| |] w1]; [|done..].
  apply Hk; [by apply Ha|done].
Qed.

Lemma hears_weaken {A} O (m : M A) (P Q : A -> Prop) : hears O m P -> (forall a, P a -> Q a) -> hears O m Q.
Proof. intros Hm HPQ w HO. destruct (Hm w HO) as [H1 H2]. auto. Qed.

Lemma hears_bind_res {A B E} O (m : M (Result A E)) (k : A -> M (Result B E)) (R : A -> Prop) Q :
  hears O m (on_ok R) -> (forall a, R a -> hears O (k a) (on_ok Q)) -> hears O (bind_res m k) (on_ok Q).
Proof.
  intros Hm Hk. eapply hears_bind; [exact Hm|]. intros [a|e] Ha; [by apply Hk|by apply hears_ret].
Qed.

Lemma hears_try {A B E} O (r : Result A E) (k : A -> M (Result B E)) Q :
  (forall a, r = Ok a -> hears O (k a) (on_ok Q)) -> hears O (bind_res (ret r) k) (on_ok Q).
Proof. intros Hk. apply (hears_bind_res _ _ _ (fun a => r = Ok a)); [|done]. apply hears_ret. by destruct r. Qed.

Lemma hears_fmap_err {A E F} O (f : E -> F) (m : M (Result A E)) (Q : A -> Prop) :
  hears O m (on_ok Q) -> hears O (fmap_err f m) (on_ok Q).
Proof. intros Hm. eapply hears_bind; [exact Hm|]. intros [a|e] Ha; by apply hears_ret. Qed.

Lemma hears_timeout {A} O (m : M A) (Q : A -> Prop) :
  hears O m Q -> hears O (timeout m) (fun o => match o with Some a => Q a | None => True end).
Proof.
  intros Hm w HO. destruct (Hm w HO) as [HO1 Ha]. unfold timeout.
  destruct (m w) as [[a| |[]] w1]; (split; [done|]); intros o [= <-]; [by apply Ha|done].
Qed.

(** A step that only records an event. *)
Lemma hears_event {A} O (m : M A) (Q : A -> Prop) :
  (forall w, w_http (m w).2 = w_http w /\ forall a, (m w).1 = Returned a -> Q a) -> hears O m Q.
Proof. intros Hm w HO. destruct (Hm w) as [-> ?]. done. Qed.

Lemma hears_http_send O r :
  hears O (http_send r) (on_ok (fun resp => exists tr, O tr r = Reply resp)).
Proof.
  intros w HO. unfold http_send. destruct (w_http w (w_trace w) r) eqn:E; (split; [done|]); intros o [= <-]; [|done].
  exists (w_trace w). by rewrite <- HO.
Qed.

Lemma hears_http_get O u hd :
  hears O (http_get u hd) (on_ok (fun resp => exists tr, O tr (mkRequest "GET" u hd []) = Reply resp)).
Proof. apply hears_http_send. Qed.

Lemma hears_read_body O resp :
  hears O (read_body_capped resp) (on_ok (fun b => chunks_data (resp_chunks resp) = Some b)).
Proof.
  intros w HO. rewrite read_body_keeps. split; [done|]. intros r Hr.
  assert (E : read_body_capped resp w = (Returned r, w)).
  { rewrite <- (read_body_keeps resp w) at 2. destruct (read_body_capped resp w). cbn in *. congruence. }
  apply read_chunks_spec in E as [_ E]. destruct r as [b|e]; [|done]. destruct E as (d & -> & ->). done.
Qed.

(** A parsed answer to a request under the base URL. *)
Lemma hears_parse {T} O (f : list byte -> Result T string) c base r tr resp :
  under base r -> O tr r = Reply resp ->
  hears O (parse_json_response f resp c) (on_ok (fun v => exists b, answered O base b /\ f b = Ok v)).
Proof.
  intros Hr Hresp. unfold parse_json_response. destruct (is_success _) eqn:Hs; cbn [negb]; [|by apply hears_ret].
  eapply hears_bind_res; [apply hears_read_body|]. intros b Hb. apply hears_ret.
  destruct (f b) as [v|e] eqn:Hf; [|done]. exists b. split; [|done]. by exists tr, r, resp.
Qed.

(** Ask, parse the answer, look at the value. *)
Lemma hears_exchange {T B} O (f : list byte -> Result T string) g c base r (k : T -> M (result B)) Q :
  under base r -> (forall b v, answered O base b -> f b = Ok v -> hears O (k v) (on_ok Q)) ->
  hears O (try! response := fmap_err g (http_send r) in
           try! v := parse_json_response f response c in k v) (on_ok Q).
Proof.
  intros Hr Hk. eapply hears_bind_res; [apply hears_fmap_err, hears_http_send|]. intros resp [tr Hresp].
  eapply hears_bind_res; [by eapply hears_parse|]. intros v (b & Hb & Hv). by eapply Hk.
Qed.

(** ** The backends *)

Section Backends.
Context `{Codecs} `{SolanaSdk} `{Json} `{FileSystem} `{ClientBuild} `{UrlParser} `{Jwt} `{Dalek} `{StdText}.
Context `{BuildProfile} `{Ecdsa} `{JsonText} `{PrivyCodec} `{TurnkeyCodec} `{AwsSdk} `{GcpSdk} `{FireblocksCodec}.
Context `{HttpHeaders} `{CdpCodec} `{!PemKeys} `{DfnsCodec} `{OpenfortCodec} `{ParaCodec} `{CrossmintCodec}.
Context `{UtilaCodec} `{P256} `{FordefiCodec}.
Context `{OffchainCrate} `{HID : Hid} `{!RemoteWallets} `{DeviceThread} `{Tokio}.

(** A body in which the provider names the key [pk]. *)
Definition privy_names (pk : Pubkey) (b : list byte) : Prop :=
  exists address, privy_wallet_from_slice b = Ok address /\ pubkey_from_str address = Ok pk.
Definition openfort_names (pk : Pubkey) (b : list byte) : Prop :=
  exists address, account_info_from_slice b = Ok address /\ pubkey_from_str address = Ok pk.
Definition utila_names (pk : Pubkey) (b : list byte) : Prop :=
  exists address, utila_wallet_from_slice b = Ok (Some address) /\ pubkey_from_str address = Ok pk.
Definition fordefi_names (pk : Pubkey) (b : list byte) : Prop :=
  exists v, vault_from_slice b = Ok v /\
    ((exists address, vault_address v = Some address /\ bs58_decode address = Ok (arr_bytes pk)) \/
     (vault_address v = None /\ exists enc, vault_public_key_compressed v = Some enc /\ base64_decode enc = Ok (arr_bytes pk))).
Definition turnkey_names (s : TurnkeySigner) (b : list byte) : Prop :=
  exists info, private_key_from_slice b = Ok info /\
    ((exists e, e ∈ pki_addresses info /\ pka_format e = Some TURNKEY_SOLANA_ADDRESS_FORMAT /\
                pka_address e = Some (pubkey_to_string (Turnkey.public_key s))) \/
     (exists enc, pki_public_key info = Some enc /\ hex_decode enc = Ok (arr_bytes (Turnkey.public_key s)))).
Definition vault_names (pk : Pubkey) (b : list byte) : Prop :=
  exists v version enc, value_from_slice b = Ok v /\
    as_bool (value_index (value_index v "data") "supports_signing") = Some true /\
    as_str (value_index (value_index v "data") "type") = Some "ed25519" /\
    as_u64 (value_index (value_index v "data") "latest_version") = Some version /\
    as_str (value_index (value_index (value_index (value_index v "data") "keys") (pretty version)) "public_key") = Some enc /\
    base64_decode enc = Ok (arr_bytes pk).

(** A body in which the provider shows a usable wallet, of whatever key. *)
Definition para_serves (b : list byte) : Prop :=
  exists v, para_wallet_from_slice b = Ok v /\ eq_ignore_ascii_case (wr_wallet_type v) "SOLANA" = true /\
    (eq_ignore_ascii_case (wr_status v) "ACTIVE" = true \/ eq_ignore_ascii_case (wr_status v) "READY" = true).
Definition dfns_serves (b : list byte) : Prop :=
  exists v, dfns_wallet_from_slice b = Ok v /\ gw_status v = "Active" /\
    sk_scheme (gw_signing_key v) = "EdDSA" /\ sk_curve (gw_signing_key v) = "ed25519".
Definition crossmint_serves (b : list byte) : Prop :=
  exists v address wallet, value_from_slice b = Ok v /\ value_get v "address" = Some address /\
    wallet_from_value v = Ok wallet.

(** What a positive answer of [is_available] rests on. *)
Definition attests (O : oracle) (self : Signer) : Prop :=
  match self with
  | Vault s => exists b, answered O (Vault.api_base_url s) b /\ vault_names (Vault.public_key s) b
  | Privy s => exists pk b, Privy.public_key s = Some pk /\ answered O (Privy.api_base_url s) b /\ privy_names pk b
  | Openfort s => exists pk b, Openfort.public_key s = Some pk /\ answered O (Openfort.api_base_url s) b /\ openfort_names pk b
  | Utila s => exists pk b, Utila.public_key s = Some pk /\ answered O (Utila.api_base_url s) b /\ utila_names pk b
  | Turnkey s => private_key_id s = pubkey_to_string (Turnkey.public_key s) \/
                 exists b, answered O (Turnkey.api_base_url s) b /\ turnkey_names s b
  | FordefiBlackBox s => exists b, answered O (Fordefi.api_base_url (bb_core s)) b /\ fordefi_names (public_key (bb_core s)) b
  | FordefiNativeAuto s => exists b, answered O (Fordefi.api_base_url (na_core s)) b /\ fordefi_names (public_key (na_core s)) b
  | FordefiNativeManual s => exists b, answered O (Fordefi.api_base_url (nm_core s)) b /\ fordefi_names (public_key (nm_core s)) b
  | Cdp s => exists tr hd resp, O tr (mkRequest "GET" (Cdp.api_base_url s +:+ Cdp.account_path s) hd []) = Reply resp /\
               is_success (resp_status resp) = true
  | Fireblocks s => exists pk, Fireblocks.public_key s = Some pk
  | Para s => exists b, answered O (Para.api_base_url s) b /\ para_serves b
  | Dfns s => exists b, answered O (Dfns.api_base_url s) b /\ dfns_serves b
  | Crossmint s => exists tr r resp b, under (rendered_base_url s) r /\ O tr r = Reply resp /\
                     (resp_status resp < 400)%Z /\ chunks_data (resp_chunks resp) = Some b /\ crossmint_serves b
  | _ => True
  end.

Definition if_true (P : Prop) (b : bool) : Prop := b = true -> P.

Lemma hears_pubkey_check O (m : M (result Pubkey)) pk (P : Pubkey -> Prop) :
  hears O m (on_ok P) ->
  hears O (let! fetched := m in ret (match fetched with Ok k => bool_decide (k = pk) | Err _ => false end))
    (if_true (P pk)).
Proof.
  intros Hm. eapply hears_bind; [exact Hm|]. intros [k|e] Hk; apply hears_ret; [|done].
  by intros ->%bool_decide_eq_true.
Qed.

Lemma privy_attests O s : hears O (Privy.is_available s) (if_true (attests O (Privy s))).
Proof.
  unfold Privy.is_available. destruct (Privy.public_key s) as [pk|] eqn:Hpk; [|by apply hears_ret].
  eapply hears_weaken.
  - apply hears_pubkey_check with (P := fun k => exists b, answered O (Privy.api_base_url s) b /\ privy_names k b).
    unfold Privy.fetch_public_key. cbv zeta. apply (hears_exchange _ _ _ _ (Privy.api_base_url s)); [auto with keychain|].
    intros b v Hb Hv. apply hears_ret. destruct (pubkey_from_str v) eqn:E; [|done]. exists b. split; [done|]. by exists v.
  - intros r Hr (b & Hb & Hn)%Hr. by exists pk, b.
Qed.

Lemma openfort_attests O s : hears O (Openfort.is_available s) (if_true (attests O (Openfort s))).
Proof.
  unfold Openfort.is_available. destruct (Openfort.public_key s) as [pk|] eqn:Hpk; [|by apply hears_ret].
  eapply hears_weaken.
  - apply hears_pubkey_check with (P := fun k => exists b, answered O (Openfort.api_base_url s) b /\ openfort_names k b).
    unfold Openfort.fetch_public_key. cbv zeta. apply (hears_exchange _ _ _ _ (Openfort.api_base_url s)); [unfold account_path; auto with keychain|].
    intros b v Hb Hv. apply hears_ret. destruct (pubkey_from_str v) eqn:E; [|done]. exists b. split; [done|]. by exists v.
  - intros r Hr (b & Hb & Hn)%Hr. by exists pk, b.
Qed.

Lemma utila_token_quiet O s : hears O (Utila.create_access_token s) (fun _ => True).
Proof.
  apply hears_event. intros w. split; [|done]. unfold Utila.create_access_token, bind, utc_timestamp. by destruct (utc_now w).
Qed.

Lemma utila_attests O s : hears O (Utila.is_available s) (if_true (attests O (Utila s))).
Proof.
  unfold Utila.is_available, Utila.initialized_pubkey.
  destruct (Utila.public_key s) as [pk|] eqn:Hpk; cbn [ok_or]; [|by apply hears_ret].
  eapply hears_bind.
  - apply hears_timeout with (Q := on_ok (fun a => exists b, answered O (Utila.api_base_url s) b /\
      utila_wallet_from_slice b = Ok (Some a))).
    unfold fetch_wallet_address, get_json. cbv zeta.
    eapply (hears_bind_res _ _ _ (fun v => exists b, answered O (Utila.api_base_url s) b /\ utila_wallet_from_slice b = Ok v)).
    + eapply (hears_bind_res _ _ _ (fun _ => True)); [eapply hears_weaken; [apply utila_token_quiet|by intros []]|].
      intros tok _. eapply hears_bind_res; [apply hears_fmap_err, hears_http_send|]. intros resp [tr Hresp].
      eapply hears_parse; [|exact Hresp]. unfold build_url; auto with keychain.
    + intros v (b & Hb & Hv). apply hears_ret. destruct v; [|done]. by exists b.
  - intros [[a|e]|] Ha; apply hears_ret; [|done..]. destruct Ha as (b & Hb & Hv).
    destruct (pubkey_from_str a) eqn:E; [|done]. intros ->%bool_decide_eq_true. exists pk, b. split_and!; [done..|]. by exists a.
Qed.

Lemma vault_attests O s : hears O (Vault.is_available s) (if_true (attests O (Vault s))).
Proof.
  unfold Vault.is_available. cbv zeta. eapply hears_bind; [apply hears_http_get|].
  intros [resp|e] Hresp; [|by apply hears_ret]. destruct Hresp as [tr Hresp].
  destruct (is_success (resp_status resp)) eqn:Hs; cbn [negb]; [|by apply hears_ret].
  eapply hears_bind; [apply hears_read_body|]. intros [b|e] Hb; [|by apply hears_ret].
  destruct (value_from_slice b) as [v|] eqn:Hv; apply hears_ret; [|done].
  intros [[Hsup%bool_decide_eq_true Hty%bool_decide_eq_true]%andb_true_iff Hk]%andb_true_iff. exists b. split.
  - eexists tr, _, resp. split_and!; [|exact Hresp|done..]. auto with keychain.
  - unfold latest_key_matches_public_key in Hk. destruct (as_u64 _) as [version|] eqn:Hver; [|done].
    destruct (as_str (value_index (value_index (value_index _ _) _) _)) as [enc|] eqn:Henc; [|done].
    destruct (base64_decode enc) as [key|] eqn:Hd; [|done]. apply bool_decide_eq_true in Hk as ->. by exists v, version, enc.
Qed.

Lemma turnkey_query_hears O s path body :
  hears O (post_query s path body) (fun o => match o with
    | Some resp => exists tr st, O tr (stamped s path st body) = Reply resp
    | None => True end).
Proof.
  unfold post_query. destruct (create_stamp s body); [|by apply hears_ret].
  eapply hears_bind; [apply hears_http_send|]. intros [resp|e] Hr; apply hears_ret; [|done].
  destruct Hr as [tr Hr]. destruct (is_success _); [by eauto|done].
Qed.

Lemma turnkey_attests O s : hears O (Turnkey.is_available s) (if_true (attests O (Turnkey s))).
Proof.
  unfold Turnkey.is_available. destruct (value_to_vec _); [|by apply hears_ret].
  eapply hears_bind; [apply turnkey_query_hears|]. intros [resp0|] _; [|by apply hears_ret].
  unfold sign_with_matches_public_key. case_bool_decide as Hid; [apply hears_ret; by left|].
  destruct (value_to_vec _); [|by apply hears_ret].
  eapply hears_bind; [apply turnkey_query_hears|]. intros [resp|] Hr; [|by apply hears_ret].
  destruct Hr as (tr & st & Hr). eapply hears_bind; [eapply (hears_parse _ _ _ (Turnkey.api_base_url s)); [|exact Hr]|].
  { unfold stamped. auto with keychain. }
  intros [info|e] Hi; apply hears_ret; [|done]. destruct Hi as (b & Hb & Hi). intros Hm. right. exists b. split; [done|].
  exists info. split; [done|]. destruct (existsb _ _) eqn:Hx.
  - left. apply existsb_exists in Hx as (e & He & [Hf%bool_decide_eq_true Ha%bool_decide_eq_true]%andb_true_iff).
    exists e. split; [by apply list_elem_of_In|done].
  - right. destruct (pki_public_key info) as [enc|]; cbn in Hm; [|done].
    destruct (hex_decode enc) as [k|] eqn:Hk; cbn in Hm; [|done]. apply bool_decide_eq_true in Hm as ->. eauto.
Qed.

Lemma fordefi_core_attests O core :
  signs_locally core ->
  hears O (core_is_available core)
    (if_true (exists b, answered O (Fordefi.api_base_url core) b /\ fordefi_names (public_key core) b)).
Proof.
  intros Hl. unfold core_is_available. eapply hears_bind.
  - apply hears_timeout with (Q := on_ok (fun _ => exists b, answered O (Fordefi.api_base_url core) b /\ fordefi_names (public_key core) b)).
    unfold readiness_check, fetch_vault. cbv zeta.
    eapply (hears_bind_res _ _ _ (fun v => exists b, answered O (Fordefi.api_base_url core) b /\ vault_from_slice b = Ok v)).
    + eapply hears_bind_res; [apply hears_fmap_err, hears_http_send|]. intros resp [tr Hresp].
      eapply hears_parse; [|exact Hresp]. auto with keychain.
    + intros v (b & Hb & Hv). destruct (vault_matches_public_key core v) eqn:Hm; cbn [negb]; [|by apply hears_ret].
      eapply (hears_bind_res _ _ _ (fun _ => True)); [apply hears_event; intros w; split; [done|by intros []]|]. intros t _.
      eapply (hears_bind_res _ _ _ (fun _ => True)).
      { unfold sign_request, request_signer_sign. unfold signs_locally in Hl. cbv zeta.
        destruct (request_signer core); [by apply hears_ret|done]. }
      intros _ _. apply hears_ret. exists b. split; [done|]. exists v. split; [done|]. unfold vault_matches_public_key in Hm.
      destruct (vault_address v) as [address|] eqn:Ha.
      * left. destruct (bs58_decode address) as [key|] eqn:Hd; [|done]. apply bool_decide_eq_true in Hm as ->. eauto.
      * right. destruct (vault_public_key_compressed v) as [enc|] eqn:He; [|done].
        destruct (base64_decode enc) as [key|] eqn:Hd; [|done]. apply bool_decide_eq_true in Hm as ->. eauto.
  - intros [[u|e]|] Hu; apply hears_ret; [by intros _|done..].
Qed.

Lemma cdp_headers_quiet O s path : hears O (build_get_headers s path) (fun _ => True).
Proof.
  apply hears_event. intros w. split; [|done].
  unfold build_get_headers, Cdp.create_auth_jwt, random_nonce, bind_res, bind, ret. cbn. repeat case_match; cbn in *; simplify_eq; done.
Qed.

Lemma cdp_attests O s : hears O (Cdp.is_available s) (if_true (attests O (Cdp s))).
Proof.
  unfold Cdp.is_available. cbv zeta. eapply hears_bind; [apply cdp_headers_quiet|]. intros [hd|e] _; [|by apply hears_ret].
  eapply hears_bind; [apply hears_http_get|]. intros [resp|e] Hr; apply hears_ret; [|done].
  destruct Hr as [tr Hr]. intros Hs. by exists tr, hd, resp.
Qed.

Lemma fireblocks_attests O s w w' :
  Fireblocks.is_available s w = (Returned true, w') -> attests O (Fireblocks s).
Proof.
  unfold Fireblocks.is_available, check_availability. destruct (Fireblocks.public_key s) as [pk|] eqn:E; [intros _; by exists pk|].
  done.
Qed.

Lemma para_attests O s : hears O (Para.is_available s) (if_true (attests O (Para s))).
Proof.
  unfold Para.is_available. eapply hears_bind.
  - apply hears_timeout with (Q := on_ok (fun v => exists b, answered O (Para.api_base_url s) b /\ para_wallet_from_slice b = Ok v)).
    unfold Para.fetch_wallet. eapply hears_bind_res; [apply hears_fmap_err, hears_http_send|]. intros resp [tr Hresp].
    eapply hears_parse; [|exact Hresp]. auto with keychain.
  - intros [[v|e]|] Hv; apply hears_ret; [|done..]. destruct Hv as (b & Hb & Hv).
    intros [Ht Hst%orb_true_iff]%andb_true_iff. exists b. split; [done|]. by exists v.
Qed.

Lemma dfns_attests O s : hears O (Dfns.is_available s) (if_true (attests O (Dfns s))).
Proof.
  unfold Dfns.is_available. eapply hears_bind.
  - unfold get_wallet. cbv zeta. eapply hears_bind_res; [apply hears_fmap_err, hears_http_send|]. intros resp [tr Hresp].
    eapply (hears_parse _ _ _ (Dfns.api_base_url s)); [|exact Hresp]. auto with keychain.
  - intros [v|e] Hv; apply hears_ret; [|done]. destruct Hv as (b & Hb & Hv).
    intros [[Hst%bool_decide_eq_true Hsc%bool_decide_eq_true]%andb_true_iff Hcu%bool_decide_eq_true]%andb_true_iff.
    exists b. split; [done|]. by exists v.
Qed.

Lemma crossmint_attests O s : hears O (Crossmint.is_available s) (if_true (attests O (Crossmint s))).
Proof.
  unfold Crossmint.is_available. eapply hears_bind.
  - apply hears_timeout with (Q := on_ok (fun _ => attests O (Crossmint s))).
    unfold Crossmint.fetch_wallet. apply hears_try. intros url Hurl.
    eapply hears_bind_res; [apply hears_fmap_err, hears_http_send|]. intros resp [tr Hresp].
    eapply (hears_bind_res _ _ _ (fun v => exists b, chunks_data (resp_chunks resp) = Some b /\
      v = match value_from_slice b with Ok v => v | Err _ => JNull end)).
    + eapply hears_bind_res; [apply hears_read_body|]. intros b Hb. apply hears_ret. by exists b.
    + intros v (b & Hb & Hv). apply hears_ret. unfold value_to_typed. destruct (Z.leb_spec 400 (resp_status resp)); [done|].
      destruct (value_get v "address") as [a|] eqn:Ha; [|by destruct (extract_error_message v)].
      match goal with |- context [if ?c then _ else _] => destruct c end; [by destruct (extract_error_message v)|].
      destruct (wallet_from_value v) as [wal|] eqn:Hw; cbn; [|done].
      eexists tr, _, resp, b. split_and!; [|exact Hresp|lia|exact Hb|].
      * by eapply wallets_url_under.
      * exists v, a, wal. destruct (value_from_slice b) as [v'|]; by subst.
  - intros [[u|e]|] Hu; apply hears_ret; [by intros _|done..].
Qed.

(** C12: what an available signer has shown.  A Vault, Privy, Openfort, Utila,
    Turnkey or Fordefi signer that reports available has heard, from its configured
    provider, an answer that names exactly the key the signer reports: Vault's
    latest key version, of an Ed25519 key that supports signing, decodes to it;
    the address of the Privy wallet, Openfort account or Utila wallet parses to
    it; Turnkey's key record has it as its Solana address or public key, unless the
    signer is configured with the address itself; Fordefi's vault has it as its
    address or, without one, as its compressed public key.  The others have shown
    less.  CDP has answered a request for the account at that key's address with
    success, whatever the body; Para and Dfns have shown an active wallet of the
    right kind, and Crossmint some wallet, without comparing its key; Fireblocks
    only shows that [init] ran.  For the local, KMS and Ledger signers nothing is
    claimed; for Fordefi, with the built-in request signer. *)
Theorem available_signer_attests (self : Signer) (w w' : World) :
  own_code self -> Traits.is_available self w = (Returned true, w') -> attests (w_http w) self.
Proof.
  assert (Hh : forall A (m : M A) (Q : A -> Prop) a, hears (w_http w) m Q -> m w = (Returned a, w') -> Q a).
  { intros A m Q a Hm E. destruct (Hm w eq_refl) as [_ Ha]. apply Ha. by rewrite E. }
  intros Hown HR. destruct self; cbn [own_code] in Hown; try exact I; cbn in HR.
  - by eapply (Hh _ _ (if_true _)); [apply vault_attests|exact HR|].
  - by eapply (Hh _ _ (if_true _)); [apply privy_attests|exact HR|].
  - by eapply (Hh _ _ (if_true _)); [apply turnkey_attests|exact HR|].
  - by eapply fireblocks_attests.
  - by eapply (Hh _ _ (if_true _)); [apply cdp_attests|exact HR|].
  - by eapply (Hh _ _ (if_true _)); [apply dfns_attests|exact HR|].
  - by eapply (Hh _ _ (if_true _)); [apply openfort_attests|exact HR|].
  - by eapply (Hh _ _ (if_true _)); [apply para_attests|exact HR|].
  - by eapply (Hh _ _ (if_true _)); [apply crossmint_attests|exact HR|].
  - by eapply (Hh _ _ (if_true _)); [apply utila_attests|exact HR|].
  - by eapply (Hh _ _ (if_true _)); [by apply (fordefi_core_attests (w_http w) (bb_core s))|exact HR|].
  - by eapply (Hh _ _ (if_true _)); [by apply (fordefi_core_attests (w_http w) (na_core s))|exact HR|].
  - by eapply (Hh _ _ (if_true _)); [by apply (fordefi_core_attests (w_http w) (nm_core s))|exact HR|].
Qed.

End Backends.

Module AvailabilityDemo.
Import Demo DemoJson DemoJwt DemoDalek DemoEcdsa DemoText DemoPem CrossmintDemo KeychainDemo.

(** A Privy signer whose provider names its key. *)
Definition at_privy : Signer := Privy PrivyDemo.demo_signer.
Definition naming_world : World := answering_world 200 (replicate 32 x01).

Lemma available_signer_attests_witness :
  exists w', Traits.is_available at_privy naming_world = (Returned true, w') /\
    exists pk b, Privy.public_key PrivyDemo.demo_signer = Some pk /\
      answered (w_http naming_world) "https://api" b /\ privy_names pk b.
Proof.
  eexists. split; [vm_compute; reflexivity|].
  exact (available_signer_attests at_privy naming_world _ I eq_refl).
Defined.

(** Crossmint reports available before [init], and cannot sign then. *)
Definition crossmint_unready : CrossmintSigner :=
  mkCrossmintSigner "key" "wallet" None "https://api" (client_builder (mkHttpClientConfig None None)) None 1000 2 None None.

Lemma crossmint_available_before_init :
  let w := mkWorld [] ∅ (fun _ _ => Reply (mkResponse 200 [Chunk (as_bytes "{}")])) (fun _ _ => None)
             (fun _ => 0%Z) (fun _ => EmptyString) in
  (exists v, value_get v "address" = Some (JString "a") /\
     let _ : Json := {| value_from_slice := fun _ => Ok v; value_to_vec := fun _ => Ok []; vec_u8_from_str := fun _ => Ok [] |} in
     (Crossmint.is_available crossmint_unready w).1 = Returned true) /\
  (execute_managed_transaction crossmint_unready demo_tx w).1 =
    Returned (Err (ConfigError "CrossmintSigner is not initialized; call init() before signing")).
Proof.
  intros w. split; [|vm_compute; reflexivity].
  exists (JObject [("address", JString "a")]). split; [reflexivity|]. vm_compute. reflexivity.
Qed.

End AvailabilityDemo.
