(* ===== verification/HonestHealth.v ===== *)
(** * Honest providers (availability and set-up)

    The converse of [Availability]: a signer whose provider shows a usable key of
    the kind the probe asks for reports itself available.  And the constructors
    that ask the provider for the key succeed when it names one. *)

From S2P Require Import Prelude Errors World Externals JsonOrder TransactionUtil SignatureUtil RemoteUtil Traits Delivery Promises.
From S2P Require Import Memory Vault Privy Turnkey Kms Fireblocks WalletJwt Cdp Dfns Openfort Para Crossmint.
From S2P Require Import Utila Fordefi LedgerDashboard Ledger LedgerActor Keychain Availability HonestMessages HonestTransactions HonestSends.

#[local] Open Scope keychain_scope.

(** ** Probes *)

Section Probes.
Context `{BuildProfile} `{SolanaSdk} {O : oracle}.

(** The provider answers with success, whatever the body. *)
Definition accepts (O : oracle) (asks : HttpRequest -> Prop) : Prop :=
  forall tr r, asks r -> exists resp, O tr r = Reply resp /\ is_success (resp_status resp) = true.

(** A probe that says yes. *)
Definition reports (tr : list Event) (m : M bool) : Prop := delivers O tr m (fun _ b => b = true).

Lemma reports_fetch {A} tr (m : M (result A)) (good : A -> Prop) (check : A -> bool) :
  delivers O tr m (yields (fun _ => good)) -> (forall a, good a -> check a = true) ->
  reports tr (let! fetched := m in ret (match fetched with Ok a => check a | Err _ => false end)).
Proof. intros Hm Hc. eapply delivers_bind; [exact Hm|]. intros t [a|e] Ha; [|done]. apply delivers_ret. auto. Qed.

Lemma reports_timed {A} tr (m : M (result A)) (good : A -> Prop) (check : option (result A) -> bool) :
  delivers O tr m (yields (fun _ => good)) -> (forall a, good a -> check (Some (Ok a)) = true) ->
  reports tr (let! r := timeout m in ret (check r)).
Proof.
  intros Hm Hc. eapply (delivers_bind _ _ _ (fun _ r => exists a, r = Some (Ok a) /\ good a)).
  - apply delivers_timeout. eapply delivers_weaken; [exact Hm|]. intros t [a|e]; [|done]. by exists a.
  - intros t ? (a & -> & Ha). apply delivers_ret. auto.
Qed.

(** A GET whose answer is parsed, and maybe turned into a key. *)
Lemma fetch_delivers {T B} tr asks (f : list byte -> Result T string) good g c r (k : T -> result B) (Q : B -> Prop) :
  serves O asks f good -> asks r -> (forall v, good v -> exists a, k v = Ok a /\ Q a) ->
  delivers O tr (try! response := fmap_err g (http_send r) in try! v := parse_json_response f response c in ret (k v))
    (yields (fun _ => Q)).
Proof.
  intros HS Hr Hk. eapply delivers_served; [exact HS|exact Hr|]. intros v (a & -> & Ha)%Hk. by apply delivers_ret.
Qed.

Lemma asked_delivers {T} tr asks (f : list byte -> Result T string) (good : T -> Prop) g c r :
  serves O asks f good -> asks r ->
  delivers O tr (try! response := fmap_err g (http_send r) in parse_json_response f response c) (yields (fun _ => good)).
Proof.
  intros HS Hr. eapply delivers_weaken; [by eapply delivers_asked|]. intros t [v|e]; [|done]. by intros [_ Hv].
Qed.

Lemma accepts_delivers tr asks r :
  accepts O asks -> asks r ->
  delivers O tr (http_send r) (yields (fun _ resp => is_success (resp_status resp) = true)).
Proof. intros HA Hr. destruct (HA tr r Hr) as (resp & HO & Hs). by eapply delivers_http_send. Qed.

End Probes.

Arguments reports {_ _} _ _ : assert.

(** ** The backends *)

Section Backends.
Context `{Codecs} `{SolanaSdk} `{Json} `{FileSystem} `{ClientBuild} `{UrlParser} `{Jwt} `{Dalek} `{StdText}.
Context `{BuildProfile} `{Ecdsa} `{JsonText} `{PrivyCodec} `{TurnkeyCodec} `{AwsSdk} `{GcpSdk} `{FireblocksCodec}.
Context `{HttpHeaders} `{CdpCodec} `{!PemKeys} `{DfnsCodec} `{OpenfortCodec} `{ParaCodec} `{CrossmintCodec}.
Context `{UtilaCodec} `{P256} `{FordefiCodec}.
Context `{OffchainCrate} `{HID : Hid} `{!RemoteWallets} `{DeviceThread} `{Tokio}.
Context `{!CodecLaws} `{!JsonPrints}.
Context (O : oracle).

(** *** Providers that name the key *)

Definition vault_healthy (s : VaultSigner) : Prop :=
  serves O (fun r => gets (Vault.api_base_url s +:+ "/v1/transit/keys/" +:+ key_name s) r /\ bears "X-Vault-Token" (token s) r)
    value_from_slice
    (fun v => let data := value_index v "data" in
       as_bool (value_index data "supports_signing") = Some true /\ value_index data "type" = JString "ed25519" /\
       exists n, as_u64 (value_index data "latest_version") = Some n /\
         value_index (value_index (value_index data "keys") (pretty n)) "public_key" =
           JString (base64_encode (arr_bytes (Vault.public_key s)))).

Lemma vault_reports s tr : vault_healthy s -> reports (O := O) tr (Vault.is_available s).
Proof.
  intros HS. unfold reports, Vault.is_available. cbv zeta.
  edestruct (HS tr) as (b & v & (resp & HO & Hs & Hb & Hl) & Hv & Hsup & Hty & n & Hn & Hk); cycle 1.
  - eapply delivers_bind; [by eapply delivers_http_send with (Q := fun t x => x = Ok resp)|]. intros t ? ->. rewrite Hs. cbn [negb].
    eapply delivers_bind; [by eapply delivers_read_body with (Q := fun _ x => x = Ok b)|]. intros t' ? ->. rewrite Hv.
    apply delivers_ret. cbv zeta in Hsup, Hty, Hn, Hk. unfold latest_key_matches_public_key. rewrite Hsup, Hty, Hn, Hk.
    cbn [as_str]. rewrite base64_decode_encode, !bool_decide_eq_true_2 by done. done.
  - done.
Qed.

Definition privy_healthy (s : PrivySigner) (pk : Pubkey) : Prop :=
  serves O (fun r => gets (Privy.api_base_url s +:+ "/wallets/" +:+ encode_uri_component (Privy.wallet_id s)) r /\
              bears "Authorization" (get_privy_auth_header s) r /\ bears "privy-app-id" (app_id s) r)
    privy_wallet_from_slice (fun address => pubkey_from_str address = Ok pk).

Lemma privy_reports s pk tr :
  Privy.public_key s = Some pk -> privy_healthy s pk -> reports (O := O) tr (Privy.is_available s).
Proof.
  intros Hpk HS. unfold Privy.is_available. rewrite Hpk. apply (reports_fetch _ _ (eq pk)); [|intros; by apply bool_decide_eq_true_2].
  eapply fetch_delivers; [exact HS|done|]. intros v ->. by exists pk.
Qed.

Definition openfort_healthy (s : OpenfortSigner) (pk : Pubkey) : Prop :=
  serves O (fun r => gets (Openfort.api_base_url s +:+ Openfort.account_path s) r /\
              bears "authorization" ("Bearer " +:+ secret_key s) r)
    account_info_from_slice (fun address => pubkey_from_str address = Ok pk).

Lemma openfort_reports s pk tr :
  Openfort.public_key s = Some pk -> openfort_healthy s pk -> reports (O := O) tr (Openfort.is_available s).
Proof.
  intros Hpk HS. unfold Openfort.is_available. rewrite Hpk. apply (reports_fetch _ _ (eq pk)); [|intros; by apply bool_decide_eq_true_2].
  eapply fetch_delivers; [exact HS|done|]. intros v ->. by exists pk.
Qed.

Definition utila_healthy (s : UtilaSigner) (pk : Pubkey) : Prop :=
  serves O (fun r => gets (utila_vault_url s ("/wallets/" +:+ encode_uri_component (Utila.wallet_id s))) r /\ utila_auth s r)
    utila_wallet_from_slice (fun o => exists address, o = Some address /\ pubkey_from_str address = Ok pk).

Lemma utila_address_delivers s pk tr :
  utila_ready s -> utila_healthy s pk ->
  delivers O tr (fetch_wallet_address s) (yields (fun _ address => pubkey_from_str address = Ok pk)).
Proof.
  intros Hr HS. unfold fetch_wallet_address, Utila.get_json. cbv zeta.
  eapply delivers_bind_res with (R := fun _ o => exists address, o = Some address /\ pubkey_from_str address = Ok pk).
  - eapply delivers_bind_res; [by apply utila_token_delivers|]. intros ? t [-> [claims Ht]].
    eapply asked_delivers; [exact HS|]. split; [done|]. by exists t, claims.
  - intros t o (a & -> & Ha). by apply delivers_ret.
Qed.

Lemma utila_reports s pk tr :
  Utila.public_key s = Some pk -> utila_ready s -> utila_healthy s pk -> reports (O := O) tr (Utila.is_available s).
Proof.
  intros Hpk Hr HS. unfold Utila.is_available, Utila.initialized_pubkey. rewrite Hpk. cbn [ok_or].
  eapply (reports_timed _ _ (fun address => pubkey_from_str address = Ok pk)
    (fun r => match r with Some (Ok a) => match pubkey_from_str a with Ok k => bool_decide (k = pk) | Err _ => false end | _ => false end)).
  - by apply utila_address_delivers.
  - intros a ->. by apply bool_decide_eq_true_2.
Qed.

Definition fordefi_healthy (core : FordefiCore) : Prop :=
  serves O (fun r => gets (Fordefi.api_base_url core +:+ "/api/v1/vaults/" +:+ vault_id core) r /\
              bears "Authorization" ("Bearer " +:+ access_token core) r)
    vault_from_slice (fun v =>
      vault_address v = Some (bs58_encode (arr_bytes (public_key core))) \/
      (vault_address v = None /\ vault_public_key_compressed v = Some (base64_encode (arr_bytes (public_key core))))).

Lemma fordefi_reports core tr :
  fordefi_ready O core -> fordefi_healthy core -> reports (O := O) tr (core_is_available core).
Proof.
  intros Hr HS. unfold core_is_available.
  apply (reports_timed _ _ (fun _ => True) (fun r => match r with Some (Ok _) => true | _ => false end)); [|done].
  unfold readiness_check, fetch_vault. cbv zeta. eapply delivers_bind_res; [by eapply asked_delivers|].
  intros t v Hv. assert (vault_matches_public_key core v = true) as ->.
  { unfold vault_matches_public_key. destruct Hv as [->|[-> ->]]; rewrite ?bs58_decode_encode, ?base64_decode_encode; by apply bool_decide_eq_true_2. }
  cbn [negb]. eapply (delivers_bind_res _ _ _ (fun _ _ => True)).
  { unfold timestamp_ms. eapply delivers_bind; [apply delivers_clock with (Q := fun _ o => o ≠ None); by intros|].
    intros ? [now|] Hnow; [|done]. by apply delivers_ret. }
  intros t' ts _. eapply (delivers_bind_res _ _ _ (fun _ _ => True)); [|intros; by apply delivers_ret].
  unfold sign_request, request_signer_sign, fordefi_ready in *. destruct (request_signer core); [by apply delivers_ret|apply Hr].
Qed.

(** Turnkey is configured with the address itself, or has it on record. *)
Definition turnkey_records (s : TurnkeySigner) (info : PrivateKeyInfo) : Prop :=
  (exists e, e ∈ pki_addresses info /\ pka_format e = Some TURNKEY_SOLANA_ADDRESS_FORMAT /\
     pka_address e = Some (pubkey_to_string (Turnkey.public_key s))) \/
  pki_public_key info = Some (hex_encode (arr_bytes (Turnkey.public_key s))).

Definition turnkey_healthy (s : TurnkeySigner) : Prop :=
  accepts O (turnkey_asks s "/public/v1/query/whoami" (JObject [("organizationId", JString (organization_id s))])) /\
  (private_key_id s = pubkey_to_string (Turnkey.public_key s) \/
   serves O (turnkey_asks s "/public/v1/query/get_private_key"
               (JObject [("organizationId", JString (organization_id s)); ("privateKeyId", JString (private_key_id s))]))
     private_key_from_slice (turnkey_records s)).

Lemma stamp_total (s : TurnkeySigner) body : exists stamp, create_stamp s body = Ok stamp.
Proof.
  unfold create_stamp. match goal with |- context [value_to_vec ?v] => destruct (value_prints v) as [x ->] end. by eexists.
Qed.

Lemma turnkey_query_delivers s path doc body (P : HttpResponse -> Prop) tr :
  value_to_vec doc = Ok body ->
  (forall r, turnkey_asks s path doc r -> exists resp, O tr r = Reply resp /\ is_success (resp_status resp) = true /\ P resp) ->
  delivers O tr (post_query s path body) (fun _ o => exists resp, o = Some resp /\ is_success (resp_status resp) = true /\ P resp).
Proof.
  intros Hb HO. unfold post_query. destruct (stamp_total s body) as [stamp Hst]. rewrite Hst.
  destruct (HO (stamped s path stamp body)) as (resp & Hresp & Hs & HP); [split; [done|by exists stamp]|].
  eapply delivers_bind; [eapply delivers_http_send with (Q := fun _ x => x = Ok resp); [exact Hresp|done]|].
  intros t ? ->. rewrite Hs. apply delivers_ret. eauto.
Qed.

Lemma turnkey_reports s tr : turnkey_healthy s -> reports (O := O) tr (Turnkey.is_available s).
Proof.
  intros [HA HK]. unfold reports, Turnkey.is_available.
  destruct (value_prints (JObject [("organizationId", JString (organization_id s))])) as [body Hb]. rewrite Hb.
  eapply delivers_bind; [eapply (turnkey_query_delivers _ _ _ _ (fun _ => True)); [exact Hb|]|].
  { intros r Hr. destruct (HA tr r Hr) as (resp & ? & ?). eauto. }
  intros tr1 ? (resp0 & -> & _). unfold sign_with_matches_public_key. case_bool_decide as Hid; [by apply delivers_ret|].
  destruct HK as [?|HK]; [done|].
  destruct (value_prints (JObject [("organizationId", JString (organization_id s)); ("privateKeyId", JString (private_key_id s))]))
    as [body' Hb']. rewrite Hb'.
  eapply delivers_bind; [eapply (turnkey_query_delivers _ _ _ _ (fun resp => exists b v,
    chunks_data (resp_chunks resp) = Some b /\ length b <= MAX_RESPONSE_BYTES /\ private_key_from_slice b = Ok v /\ turnkey_records s v));
    [exact Hb'|]|].
  { intros r Hr. destruct (HK tr1 r Hr) as (b & v & (resp & ? & ? & ? & ?) & ? & ?). eauto 10. }
  intros tr2 ? (resp & -> & Hs & b & v & Hbd & Hl & Hv & Hrec).
  eapply delivers_bind; [by eapply (delivers_parse _ _ _ _ _ v (fun _ x => x = Ok v))|]. intros tr3 ? ->. apply delivers_ret.
  destruct Hrec as [(e & He & Hf & Ha)|Hk].
  - match goal with |- (if ?c then _ else _) = true => assert (c = true) as -> end; [|done].
    apply existsb_exists. exists e. split; [by apply list_elem_of_In|]. by rewrite !bool_decide_eq_true_2.
  - rewrite Hk. cbn. rewrite hex_decode_encode. cbn. rewrite bool_decide_eq_true_2 by done. by case_match.
Qed.

Definition aws_healthy (s : Aws.AwsKmsSigner) : Prop :=
  (forall tr, delivers O tr (aws_describe_key (Aws.client s) (Aws.key_id s)) (yields (fun _ o =>
     o = Some (mkKeyMetadata (Some Aws.AWS_KMS_KEY_SPEC) true (Some Aws.AWS_KMS_KEY_USAGE))))) /\
  forall tr, delivers O tr (aws_get_public_key (Aws.client s) (Aws.key_id s)) (yields (fun _ o =>
     o = Some (ED25519_SPKI_PREFIX ++ arr_bytes (Aws.public_key s)))).

Lemma aws_reports s tr : aws_healthy s -> reports (O := O) tr (Aws.is_available s).
Proof.
  intros [HD HK]. unfold reports, Aws.is_available. eapply delivers_bind; [apply HD|]. intros tr1 [o|e]; [|done]. cbn. intros ->.
  cbn [km_key_spec km_enabled km_key_usage]. rewrite !bool_decide_eq_false_2 by (by intros []). cbn [negb].
  eapply delivers_bind; [apply HK|]. intros tr2 [o|e]; [|done]. cbn. intros ->. apply delivers_ret.
  apply bool_decide_eq_true_2. by apply spki_der_exact.
Qed.

Definition gcp_healthy (s : Gcp.GcpKmsSigner) : Prop :=
  forall tr, delivers O tr (gcp_get_public_key (Gcp.client s) (Gcp.key_name s)) (yields (fun _ key =>
    gk_is_ec_sign_ed25519 key = true /\ ed25519_key_from_spki_pem (gk_pem key) = Some (Gcp.public_key s))).

Lemma gcp_reports s tr : gcp_healthy s -> reports (O := O) tr (Gcp.is_available s).
Proof.
  intros HK. unfold reports, Gcp.is_available. eapply delivers_bind; [apply HK|]. intros tr1 [k|e]; [|done]. intros [Ht Hp].
  apply delivers_ret. by rewrite Ht, bool_decide_eq_true_2.
Qed.

(** *** Providers that show a wallet *)

Definition para_healthy (s : ParaSigner) : Prop :=
  serves O (fun r => gets (Para.api_base_url s +:+ "/v1/wallets/" +:+ Para.wallet_id s) r /\ bears "X-API-Key" (Para.api_key s) r)
    para_wallet_from_slice (fun v => wr_wallet_type v = "SOLANA" /\ wr_status v ∈ ["ACTIVE"; "READY"]).

Lemma para_reports s tr : para_healthy s -> reports (O := O) tr (Para.is_available s).
Proof.
  intros HS. unfold Para.is_available.
  eapply (reports_timed _ _ (fun v => wr_wallet_type v = "SOLANA" /\ wr_status v ∈ ["ACTIVE"; "READY"])
    (fun r => match r with Some (Ok w) => eq_ignore_ascii_case (wr_wallet_type w) "SOLANA" &&
       (eq_ignore_ascii_case (wr_status w) "ACTIVE" || eq_ignore_ascii_case (wr_status w) "READY") | _ => false end)).
  - unfold Para.fetch_wallet. by eapply asked_delivers.
  - intros v [-> Hs]. rewrite !elem_of_cons in Hs. by destruct Hs as [->|[->|[]%not_elem_of_nil]].
Qed.

Definition dfns_healthy (s : DfnsSigner) : Prop :=
  serves O (fun r => gets (Dfns.api_base_url s +:+ "/wallets/" +:+ encode_uri_component (Dfns.wallet_id s)) r /\ dfns_bears s r)
    dfns_wallet_from_slice (fun v => gw_status v = "Active" /\ sk_scheme (gw_signing_key v) = "EdDSA" /\
      sk_curve (gw_signing_key v) = "ed25519").

Lemma dfns_reports s tr : dfns_healthy s -> reports (O := O) tr (Dfns.is_available s).
Proof.
  intros HS. unfold Dfns.is_available. eapply (reports_fetch _ _ (fun v => gw_status v = "Active" /\
      sk_scheme (gw_signing_key v) = "EdDSA" /\ sk_curve (gw_signing_key v) = "ed25519")).
  - unfold get_wallet. cbv zeta. by eapply asked_delivers.
  - intros v (Ha & Hb & Hc). by rewrite Ha, Hb, Hc, !bool_decide_eq_true_2.
Qed.

(** The wallet document names an address and describes a wallet. *)
Definition crossmint_shows (s : CrossmintSigner) (good : Crossmint.WalletResponse -> Prop) : Prop :=
  forall url, crossmint_url s [] url ->
    serves O (fun r => gets url r /\ crossmint_auth s r) value_from_slice
      (fun doc => exists a wallet, value_get doc "address" = Some (JString a) /\ str_is_empty (trim a) = false /\
         wallet_from_value doc = Ok wallet /\ good wallet).

Lemma crossmint_wallet_delivers s good tr :
  crossmint_ready s -> crossmint_shows s good -> delivers O tr (Crossmint.fetch_wallet s) (yields (fun _ => good)).
Proof.
  intros Hr HS. unfold Crossmint.fetch_wallet. destruct (crossmint_url_total s [] Hr) as [url Hu]. eapply delivers_try; [exact Hu|].
  edestruct (HS url Hu tr) as (b & doc & (resp & HO & Hs & Hb & Hl) & Hd & a & wallet & Ha & Hne & Hw & Hg); cycle 1.
  - eapply delivers_bind_res; [apply delivers_reply; exact HO|]. intros ? ? [-> ->].
    unfold parse_response_with_required_field. cbv zeta. eapply delivers_bind_res; [by eapply value_delivers|]. intros ? ? [-> ->].
    apply delivers_ret. unfold value_to_typed. unfold is_success in Hs. apply andb_true_iff in Hs as [_ Hs%Z.ltb_lt].
    destruct (Z.leb_spec 400 (resp_status resp)); [lia|]. cbv zeta. rewrite Ha. cbn [as_str]. by rewrite Hne, Hw.
  - done.
Qed.

Lemma crossmint_reports s tr :
  crossmint_ready s -> crossmint_shows s (fun _ => True) -> reports (O := O) tr (Crossmint.is_available s).
Proof.
  intros Hr HS. unfold Crossmint.is_available.
  apply (reports_timed _ _ (fun _ => True) (fun r => match r with Some (Ok _) => true | _ => false end)); [|done].
  by apply crossmint_wallet_delivers.
Qed.

(** *** Providers that only answer *)

Definition fireblocks_healthy (s : FireblocksSigner) : Prop :=
  accepts O (fun r => gets (Fireblocks.api_base_url s +:+ "/v1/vault/accounts/" +:+ vault_account_id s) r /\ fireblocks_auth s r).

Lemma fireblocks_reports s pk tr :
  Fireblocks.public_key s = Some pk -> fireblocks_ready s -> fireblocks_healthy s ->
  reports (O := O) tr (Fireblocks.is_available s).
Proof.
  intros Hpk Hr HA. unfold reports, Fireblocks.is_available, check_availability. rewrite Hpk. cbv zeta.
  eapply (delivers_bind _ _ _ (fun _ o => o = Some true)); [|intros t ? ->; by apply delivers_ret].
  apply delivers_timeout. eapply delivers_bind; [by apply fireblocks_token_delivers|]. intros tr1 [t|e]; [|done].
  intros [_ [claims Ht]]. eapply delivers_bind.
  - eapply accepts_delivers; [exact HA|]. split; [done|]. split; [done|]. by exists t, claims.
  - intros tr2 [resp|e]; [|done]. intros Hs. apply delivers_ret. cbn in Hs. by rewrite Hs.
Qed.

Definition cdp_healthy (s : CdpSigner) : Prop :=
  accepts O (fun r => gets (Cdp.api_base_url s +:+ Cdp.account_path s) r /\
    exists t, bears "authorization" ("Bearer " +:+ t) r).

Lemma cdp_reports s tr : cdp_ready s -> cdp_healthy s -> reports (O := O) tr (Cdp.is_available s).
Proof.
  intros Hr HA. unfold reports, Cdp.is_available. cbv zeta.
  eapply (delivers_bind _ _ _ (yields (fun _ hs => exists t, hs = [("authorization", "Bearer " +:+ t)]))).
  - unfold build_get_headers. eapply delivers_bind_res; [by apply cdp_auth_jwt_delivers|]. intros tr1 t Ht. rewrite Ht.
    apply delivers_ret. by exists t.
  - intros tr1 [hs|e]; [|done]. intros [t ->]. eapply delivers_bind.
    + eapply accepts_delivers; [exact HA|]. split; [done|]. by exists t.
    + intros tr2 [resp|e]; [|done]. intros Hs. apply delivers_ret. exact Hs.
Qed.

(** ** All backends *)

Definition healthy (self : Signer) : Prop :=
  match self with
  | Memory _ => True
  | Vault s => vault_healthy s
  | Privy s => exists pk, Privy.public_key s = Some pk /\ privy_healthy s pk
  | Turnkey s => turnkey_healthy s
  | AwsKms s => aws_healthy s
  | Fireblocks s => (exists pk, Fireblocks.public_key s = Some pk) /\ fireblocks_ready s /\ fireblocks_healthy s
  | GcpKms s => gcp_healthy s
  | Cdp s => cdp_ready s /\ cdp_healthy s
  | Dfns s => dfns_healthy s
  | Openfort s => exists pk, Openfort.public_key s = Some pk /\ openfort_healthy s pk
  | Para s => para_healthy s
  | Crossmint s => crossmint_ready s /\ crossmint_shows s (fun _ => True)
  | Utila s => exists pk, Utila.public_key s = Some pk /\ utila_ready s /\ utila_healthy s pk
  | FordefiBlackBox s => fordefi_ready O (bb_core s) /\ fordefi_healthy (bb_core s)
  | FordefiNativeAuto s => fordefi_ready O (na_core s) /\ fordefi_healthy (na_core s)
  | FordefiNativeManual s => fordefi_ready O (nm_core s) /\ fordefi_healthy (nm_core s)
  | Ledger s => (forall tr, delivers O tr claim_device (fun _ won => won = true)) /\
      forall tr, delivers O tr (exchange_bool (IsAvailable (path_str s) (host_device_path s)) OPS_TIMEOUT)
        (fun _ o => o = Replied true)
  end.

(** C13: honest providers make signers available.  Where the provider shows
    the configured key as its probe asks for it, an enabled Ed25519 signing key,
    an active Solana wallet, the vault or account of that key, or for Fireblocks
    and CDP answers with success, and nobody cancels the call, [is_available]
    terminates and reports the signer available, for every backend. *)
Theorem honest_provider_available (self : Signer) (w : World) :
  fair O w -> healthy self -> exists w', Traits.is_available self w = (Returned true, w').
Proof.
  intros Hw HH. assert (reports (O := O) (w_trace w) (Traits.is_available self)) as HR.
  2: { destruct (HR w Hw eq_refl) as (b & w' & E & _ & ->). by exists w'. }
  destruct self as [s|s|s|s|s|s|s|s|s|s|s|s|s|s|s|s|s]; cbn [healthy] in HH.
  - by apply delivers_ret.
  - by apply vault_reports.
  - destruct HH as (pk & Hpk & HH). by eapply privy_reports.
  - by apply turnkey_reports.
  - by apply aws_reports.
  - destruct HH as ([pk Hpk] & Hr & HH). by eapply fireblocks_reports.
  - by apply gcp_reports.
  - destruct HH. by apply cdp_reports.
  - by apply dfns_reports.
  - destruct HH as (pk & Hpk & HH). by eapply openfort_reports.
  - by apply para_reports.
  - destruct HH. by apply crossmint_reports.
  - destruct HH as (pk & Hpk & Hr & HH). by eapply utila_reports.
  - destruct HH. by apply fordefi_reports.
  - destruct HH. by apply fordefi_reports.
  - destruct HH. by apply fordefi_reports.
  - destruct HH as [Hc Hx]. unfold reports. cbn. unfold Ledger.is_available.
    eapply delivers_bind; [apply Hc|]. intros t ? ->. cbn [negb].
    eapply delivers_bind; [apply Hx|]. intros t' ? ->. by apply delivers_ret.
Qed.

(** ** Opening a signer *)

(** [init] sets the key. *)
Definition keyed {S : Type} (key : S -> option Pubkey) (pk : Pubkey) (_ : list Event) (p : S * result unit) : Prop :=
  p.2 = Ok tt /\ key p.1 = Some pk.

Lemma keyed_fetch {S : Type} (key : S -> option Pubkey) pk (s : S) (m : M (result Pubkey)) (set : Pubkey -> S) tr :
  delivers O tr m (yields (fun _ => eq pk)) -> key (set pk) = Some pk ->
  delivers O tr (let! fetched := m in match fetched with Ok k => ret (set k, Ok tt) | Err e => ret (s, Err e) end) (keyed key pk).
Proof. intros Hm Hk. eapply delivers_bind; [exact Hm|]. intros t [k|e]; [|done]. cbn. intros <-. by apply delivers_ret. Qed.

(** *** The providers' answers to [init] *)

Definition fireblocks_opens (s : FireblocksSigner) (pk : Pubkey) : Prop :=
  serves O (fun r => gets (Fireblocks.api_base_url s +:+ "/v1/vault/accounts/" +:+ vault_account_id s +:+ "/" +:+
                             Fireblocks.asset_id s +:+ "/addresses_paginated") r /\ fireblocks_auth s r)
    vault_addresses_from_slice (fun l => exists a, pubkey_from_str a = Ok pk /\
      (exists e, e ∈ l /\ eligible s e) /\ forall e, e ∈ l -> eligible s e -> address e = a).

Definition dfns_opens (s : DfnsSigner) (pk : Pubkey) : Prop :=
  serves O (fun r => gets (Dfns.api_base_url s +:+ "/wallets/" +:+ encode_uri_component (Dfns.wallet_id s)) r /\ dfns_bears s r)
    dfns_wallet_from_slice (fun v => gw_status v = "Active" /\ sk_scheme (gw_signing_key v) = "EdDSA" /\
      sk_curve (gw_signing_key v) = "ed25519" /\ sk_public_key (gw_signing_key v) = hex_encode (arr_bytes pk)).

Definition para_opens (s : ParaSigner) (pk : Pubkey) : Prop :=
  serves O (fun r => gets (Para.api_base_url s +:+ "/v1/wallets/" +:+ Para.wallet_id s) r /\ bears "X-API-Key" (Para.api_key s) r)
    para_wallet_from_slice (fun v => wr_wallet_type v = "SOLANA" /\ exists a, wr_address v = Some a /\ pubkey_from_str a = Ok pk).

Definition crossmint_opens (s : CrossmintSigner) (pk : Pubkey) : Prop :=
  crossmint_shows s (fun wallet => chain_type wallet = "solana" /\ wallet_type wallet ∈ ["smart"; "mpc"] /\
    pubkey_from_str (wallet_address wallet) = Ok pk).

Lemma privy_init_delivers s pk tr : privy_healthy s pk -> delivers O tr (Privy.init s) (keyed Privy.public_key pk).
Proof.
  intros HS. apply (keyed_fetch _ _ _ _ (fun k => Privy.with_fields s (Some k) (authorization_context s) (authorization_request_expiry_ms s)));
    [|done]. eapply fetch_delivers; [exact HS|done|]. intros v ->. by exists pk.
Qed.

Lemma openfort_init_delivers s pk tr : openfort_healthy s pk -> delivers O tr (Openfort.init s) (keyed Openfort.public_key pk).
Proof.
  intros HS. apply (keyed_fetch _ _ _ _ (Openfort.with_public_key s)); [|done].
  eapply fetch_delivers; [exact HS|done|]. intros v ->. by exists pk.
Qed.

Lemma fireblocks_init_delivers s pk tr :
  fireblocks_ready s -> fireblocks_opens s pk -> delivers O tr (Fireblocks.init s) (keyed Fireblocks.public_key pk).
Proof.
  intros Hr HS. apply (keyed_fetch _ _ _ _ (Fireblocks.with_public_key s)); [|done].
  unfold Fireblocks.fetch_public_key. cbv zeta. eapply delivers_bind_res; [by apply fireblocks_token_delivers|].
  intros tr1 t [_ [claims Ht]].
  eapply delivers_served; [exact HS|split; [done|]; split; [done|]; by exists t, claims|].
  intros l (a & Ha & (e & He & Hel) & Hall).
  eapply delivers_try; [by apply select_vault_address_spec; split; [exists e; split_and!; auto|]|].
  apply delivers_ret. by rewrite Ha.
Qed.

Lemma dfns_init_delivers s pk tr : dfns_opens s pk -> delivers O tr (Dfns.init s) (keyed Dfns.public_key pk).
Proof.
  intros HS. unfold Dfns.init. eapply delivers_bind; [unfold get_wallet; cbv zeta; by eapply asked_delivers|].
  intros t [v|e]; [|done]. intros (Hst & Hsc & Hcu & Hk). unfold Dfns.wallet_pubkey.
  cbv zeta. rewrite Hst, Hsc, Hcu, Hk, !bool_decide_eq_false_2 by (by intros []). rewrite hex_decode_encode. cbn [map_err res_bind].
  rewrite array_try_from_bytes. cbn [ok_or]. by apply delivers_ret.
Qed.

Lemma para_init_delivers s pk tr : para_opens s pk -> delivers O tr (Para.init s) (keyed Para.public_key pk).
Proof.
  intros HS. unfold Para.init. eapply delivers_bind; [unfold Para.fetch_wallet; by eapply asked_delivers|].
  intros t [v|e]; [|done]. intros (Hty & a & Ha & Hpk). unfold Para.wallet_pubkey. rewrite Hty, Ha. cbn. rewrite Hpk. cbn. by apply delivers_ret.
Qed.

Lemma utila_init_delivers s pk tr :
  utila_ready s -> utila_healthy s pk -> delivers O tr (Utila.init s) (keyed Utila.public_key pk).
Proof.
  intros Hr HS. unfold Utila.init. eapply (delivers_bind _ _ _ (yields (fun _ a => pubkey_from_str a = Ok pk))).
  - by apply utila_address_delivers.
  - intros t [a|e]; [|done]. cbn. intros ->. by apply delivers_ret.
Qed.

Lemma crossmint_init_delivers s pk tr :
  crossmint_ready s -> crossmint_opens s pk -> delivers O tr (Crossmint.init s) (keyed Crossmint.public_key pk).
Proof.
  intros Hr HS. unfold Crossmint.init. eapply delivers_bind; [by eapply crossmint_wallet_delivers|].
  intros t [v|e]; [|done]. intros (Hc & Hty & Hpk). rewrite Hc. cbn [negb].
  assert (eq_ignore_ascii_case (wallet_type v) "smart" || eq_ignore_ascii_case (wallet_type v) "mpc" = true) as Ht.
  { rewrite !elem_of_cons in Hty. by destruct Hty as [->|[->|[]%not_elem_of_nil]]. }
  rewrite <- negb_orb, Ht. change (eq_ignore_ascii_case "solana" "solana") with true. cbn [negb]. rewrite Hpk. by apply delivers_ret.
Qed.

(** The constructors that ask a provider or a device, and what they rely on. *)
Inductive opening : M (result Signer) -> Pubkey -> Prop :=
  | open_privy i k w c s pk : Privy.from_config (mkPrivySignerConfig i k w None c None ExpiryDefault) = Ok s ->
      privy_healthy s pk -> opening (from_privy i k w c) pk
  | open_fireblocks c s pk : Fireblocks.new c = Ok s -> fireblocks_ready s -> fireblocks_opens s pk ->
      opening (from_fireblocks c) pk
  | open_para k w u s pk : Para.from_config (mkParaSignerConfig k w u) = Ok s -> para_opens s pk -> opening (from_para k w u) pk
  | open_dfns c s pk : Dfns.new c = Ok s -> dfns_opens s pk -> opening (from_dfns c) pk
  | open_crossmint c s pk : Crossmint.new c = Ok s -> crossmint_ready s -> crossmint_opens s pk -> opening (from_crossmint c) pk
  | open_openfort k a w c s pk : Openfort.from_config (mkOpenfortSignerConfig k a w None c) = Ok s -> openfort_healthy s pk ->
      opening (from_openfort k a w c) pk
  | open_utila c s pk : Utila.new c = Ok s -> utila_ready s -> utila_healthy s pk -> opening (from_utila c) pk.

Lemma init_delivers {S : Type} (key : S -> option Pubkey) (C : S -> Signer) (made : result S) s (init : S -> M (S * result unit)) pk tr :
  made = Ok s -> (forall s, Traits.pubkey (C s) = expect_pubkey (key s)) -> delivers O tr (init s) (keyed key pk) ->
  delivers O tr (try signer := made in let! (signer, r) := init signer in try _ := r in ret (Ok (C signer)))
    (yields (fun _ self => Traits.pubkey self = Returned pk)).
Proof.
  intros Hm HC Hi. eapply delivers_try; [exact Hm|]. eapply delivers_bind; [exact Hi|]. intros t [s' r] [Hr Hk]. cbn in Hr, Hk. subst r.
  eapply delivers_try; [reflexivity|]. apply delivers_ret. unfold yields. by rewrite HC, Hk.
Qed.

(** C15: honest providers open signers.  Where the configuration is accepted
    and the provider answers the wallet request of [init] with a Solana wallet of
    the key [pk] (for Fireblocks with addresses of which exactly one belongs to
    the asset), the constructors [Signer::from_*] that initialise terminate with
    a signer that reports [pk]. *)
Theorem honest_provider_opens (m : M (result Signer)) (pk : Pubkey) (w : World) :
  fair O w -> opening m pk -> exists self w', m w = (Returned (Ok self), w') /\ Traits.pubkey self = Returned pk.
Proof.
  intros Hw Ho. assert (delivers O (w_trace w) m (yields (fun _ self => Traits.pubkey self = Returned pk))) as HD.
  2: { destruct (HD w Hw eq_refl) as ([self|e] & w' & E & _ & Hpk); [|done]. by exists self, w'. }
  destruct Ho.
  - eapply (init_delivers Privy.public_key); [done|done|by apply privy_init_delivers].
  - eapply (init_delivers Fireblocks.public_key); [done|done|by apply fireblocks_init_delivers].
  - eapply (init_delivers Para.public_key); [done|done|by apply para_init_delivers].
  - eapply (init_delivers Dfns.public_key); [done|done|by apply dfns_init_delivers].
  - eapply (init_delivers Crossmint.public_key); [done|done|by apply crossmint_init_delivers].
  - eapply (init_delivers Openfort.public_key); [done|done|by apply openfort_init_delivers].
  - eapply (init_delivers Utila.public_key); [done|done|by apply utila_init_delivers].
Qed.

End Backends.

Module HealthDemo.
Import Demo DemoJson DemoJwt DemoDalek DemoEcdsa DemoText DemoPem CrossmintDemo KeychainDemo HonestDemo AvailabilityDemo.

Lemma naming_fair : fair (w_http naming_world) naming_world.
Proof. by split; [..|split]. Qed.

(** Any wallet request is answered with the key. *)
Lemma naming_healthy s : privy_healthy (w_http naming_world) s demo_pk.
Proof.
  intros tr r _. exists (replicate 32 x01). eexists. split_and!.
  - eexists. split_and!; [reflexivity|reflexivity|reflexivity|]. apply Nat.leb_le. vm_compute. reflexivity.
  - reflexivity.
  - cbv beta. vm_compute. f_equal. apply array_eq. reflexivity.
Qed.

Lemma honest_provider_available_witness : exists w', Traits.is_available at_privy naming_world = (Returned true, w').
Proof.
  apply (honest_provider_available (w_http naming_world)); [apply naming_fair|].
  exists demo_pk. split; [reflexivity|apply naming_healthy].
Defined.

Lemma honest_provider_opens_witness :
  exists self w', from_privy "app" "secret" "wallet" None naming_world = (Returned (Ok self), w') /\
    Traits.pubkey self = Returned demo_pk.
Proof.
  apply (honest_provider_opens (w_http naming_world)); [apply naming_fair|].
  eapply open_privy; [reflexivity|apply naming_healthy].
Defined.

End HealthDemo.
