(* ===== verification/WellFormed.v ===== *)
(** * Well-formed signers

    The invariants the constructors establish and every operation on a signer
    keeps: polling that makes progress, base URLs that paths can be appended to,
    a client that does not follow redirects, and the coherence of fields that
    later code reads together.  [reachable] collects every way the crate makes or
    changes a backend object. *)

From S2P Require Import Prelude Errors World Externals TransactionUtil SignatureUtil RemoteUtil Traits.
From S2P Require Import Memory Vault Privy Turnkey Kms Fireblocks WalletJwt Cdp Dfns Openfort Para Crossmint.
From S2P Require Import Utila Fordefi LedgerDashboard Ledger LedgerActor Keychain.

#[local] Open Scope keychain_scope.

(** ** The invariants *)

(** A path that begins with a slash may be appended. *)
Definition joinable (base_url : string) : Prop := last (as_bytes base_url) ≠ Some x2f.

(** Polling waits between attempts and makes at least one. *)
Definition polls (interval_ms : Z) (attempts : nat) : Prop := interval_ms ≠ 0%Z /\ attempts ≠ 0.

Definition no_redirects (c : ClientBuilder) : Prop := cb_redirect c = no_redirect_policy.

(** The scheme was checked by the constructor. *)
Definition https `{UrlParser} (base_url : string) : Prop :=
  exists u, url_parse base_url = Ok u /\ url_scheme u = "https".

Lemma normalized_joinable u : joinable (normalize_base_url u).
Proof. intros [l Hl]%last_Some. by eapply trim_end_matches_last. Qed.
#[local] Hint Resolve normalized_joinable : keychain.

Section Invariant.
Context `{Codecs} `{SolanaSdk} `{Json} `{FileSystem} `{ClientBuild} `{UrlParser} `{Jwt} `{Dalek} `{StdText}.
Context `{BuildProfile} `{Ecdsa} `{JsonText} `{PrivyCodec} `{TurnkeyCodec} `{AwsSdk} `{GcpSdk} `{FireblocksCodec}.
Context `{HttpHeaders} `{CdpCodec} `{!PemKeys} `{DfnsCodec} `{OpenfortCodec} `{ParaCodec} `{CrossmintCodec}.
Context `{UtilaCodec} `{P256} `{FordefiCodec}.
Context `{OffchainCrate} `{HID : Hid} `{!RemoteWallets} `{DeviceThread} `{Tokio}.

Definition fordefi_formed (core : FordefiCore) : Prop :=
  access_token core ≠ EmptyString /\ vault_id core ≠ EmptyString /\
  joinable (Fordefi.api_base_url core) /\ https (Fordefi.api_base_url core) /\ no_redirects (Fordefi.client core) /\
  polls (poll_interval_ms core) (max_poll_attempts core).

Definition well_formed (self : Signer) : Prop :=
  match self with
  | Vault s => joinable (Vault.api_base_url s) /\ no_redirects (Vault.client s)
  | Privy s => joinable (Privy.api_base_url s) /\ no_redirects (Privy.client s)
  | Turnkey s => joinable (Turnkey.api_base_url s) /\ no_redirects (Turnkey.client s)
  | Fireblocks s => joinable (Fireblocks.api_base_url s) /\ no_redirects (Fireblocks.client s) /\
                    polls (Fireblocks.poll_interval_ms s) (Fireblocks.max_poll_attempts s)
  | Cdp s => joinable (Cdp.api_base_url s) /\ no_redirects (Cdp.client s) /\
             Cdp.network s ∈ [None; Some CDP_NETWORK_MAINNET; Some CDP_NETWORK_DEVNET]
  | Dfns s => joinable (Dfns.api_base_url s) /\ no_redirects (Dfns.client s)
  | Openfort s => joinable (Openfort.api_base_url s) /\ https (Openfort.api_base_url s) /\ no_redirects (Openfort.client s) /\
                  Openfort.account_id s ≠ EmptyString
  | Para s => joinable (Para.api_base_url s) /\ no_redirects (Para.client s) /\
              is_valid_uuid (Para.wallet_id s) = true /\ starts_with "sk_" (Para.api_key s) = true
  (** A derived signing key comes with the locator its approvals are looked up by. *)
  | Crossmint s => joinable (Crossmint.api_base_url s) /\ https (Crossmint.api_base_url s) /\ no_redirects (Crossmint.client s) /\
                   polls (Crossmint.poll_interval_ms s) (Crossmint.max_poll_attempts s) /\
                   wallet_locator s ≠ EmptyString /\
                   (forall k, Crossmint.signing_key s = Some k -> exists locator, signer s = Some locator)
  | Utila s => joinable (Utila.api_base_url s) /\ https (Utila.api_base_url s) /\ no_redirects (Utila.client s) /\
               polls (Utila.poll_interval_ms s) (Utila.max_poll_attempts s)
  | FordefiBlackBox s => fordefi_formed (bb_core s)
  | FordefiNativeAuto s => fordefi_formed (na_core s)
  | FordefiNativeManual s => fordefi_formed (nm_core s)
  | Memory _ | AwsKms _ | GcpKms _ | Ledger _ => True
  end.

(** Every way a signer comes to be, and every operation that changes one: the
    constructors of the backends, [init], and the [with_] methods. *)
Inductive reachable : Signer -> Prop :=
  | memory_made s : reachable (Memory s)
  | aws_made s : reachable (AwsKms s)
  | gcp_made s : reachable (GcpKms s)
  | ledger_made s : reachable (Ledger s)
  | vault_made c s : Vault.from_config c = Ok s -> reachable (Vault s)
  | vault_built b u t k p s : Vault.with_client_builder b u t k p = Ok s -> reachable (Vault s)
  | privy_made c s : Privy.from_config c = Ok s -> reachable (Privy s)
  | privy_init s w s' r w' : reachable (Privy s) -> Privy.init s w = (Returned (s', r), w') -> reachable (Privy s')
  | privy_context s c : reachable (Privy s) -> reachable (Privy (with_authorization_context s c))
  | privy_expiry s ms : reachable (Privy s) -> reachable (Privy (with_authorization_request_expiry_ms s ms))
  | privy_no_expiry s : reachable (Privy s) -> reachable (Privy (without_authorization_request_expiry s))
  | turnkey_made c s : Turnkey.from_config c = Ok s -> reachable (Turnkey s)
  | fireblocks_made c s : Fireblocks.new c = Ok s -> reachable (Fireblocks s)
  | fireblocks_init s w s' r w' :
      reachable (Fireblocks s) -> Fireblocks.init s w = (Returned (s', r), w') -> reachable (Fireblocks s')
  | cdp_made c s : Cdp.from_config c = Ok s -> reachable (Cdp s)
  | dfns_made c s : Dfns.new c = Ok s -> reachable (Dfns s)
  | dfns_init s w s' r w' : reachable (Dfns s) -> Dfns.init s w = (Returned (s', r), w') -> reachable (Dfns s')
  | openfort_made c s : Openfort.from_config c = Ok s -> reachable (Openfort s)
  | openfort_init s w s' r w' :
      reachable (Openfort s) -> Openfort.init s w = (Returned (s', r), w') -> reachable (Openfort s')
  | para_made c s : Para.from_config c = Ok s -> reachable (Para s)
  | para_init s w s' r w' : reachable (Para s) -> Para.init s w = (Returned (s', r), w') -> reachable (Para s')
  | crossmint_made c s : Crossmint.new c = Ok s -> reachable (Crossmint s)
  | crossmint_init s w s' r w' :
      reachable (Crossmint s) -> Crossmint.init s w = (Returned (s', r), w') -> reachable (Crossmint s')
  | crossmint_slot s p : reachable (Crossmint s) -> reachable (Crossmint (Crossmint.with_pending_transaction_id s p))
  | utila_made c s : Utila.new c = Ok s -> reachable (Utila s)
  | utila_init s w s' r w' : reachable (Utila s) -> Utila.init s w = (Returned (s', r), w') -> reachable (Utila s')
  | black_box_made c s : BlackBox.from_config c = Ok s -> reachable (FordefiBlackBox s)
  | native_auto_made c s : NativeAuto.from_config c = Ok s -> reachable (FordefiNativeAuto s)
  | native_auto_slot s p :
      reachable (FordefiNativeAuto s) -> reachable (FordefiNativeAuto (NativeAuto.with_pending_transaction_id s p))
  | native_manual_made c s : NativeManual.from_config c = Ok s -> reachable (FordefiNativeManual s).

(** ** The constructors establish them *)

(** Follow a constructor to its result, keeping what each check found. *)
Ltac made E := repeat (first
  [ match type of E with
    | res_bind ?r _ = Ok _ => let H := fresh "Hr" in destruct r eqn:H; cbn [res_bind] in E; [|discriminate E]
    | match ?x with _ => _ end = Ok _ => let H := fresh "Hm" in destruct x eqn:H; try discriminate E
    end ]; cbv zeta in E); injection E as <-; cbn.

Lemma build_client_redirects c b : build_client c = Ok b -> no_redirects b.
Proof. unfold build_client. intros E. made E. done. Qed.
#[local] Hint Resolve build_client_redirects : keychain.

Lemma empty_false s : str_is_empty s = false -> s ≠ EmptyString.
Proof. apply bool_decide_eq_false_1. Qed.

Lemma polls_checked i n : (i =? 0)%Z = false -> (n =? 0) = false -> polls i n.
Proof. intros Hi Hn. split; [lia|]. by apply Nat.eqb_neq. Qed.
#[local] Hint Resolve empty_false polls_checked : keychain.

Lemma https_checked u p : url_parse u = Ok p -> bool_decide (url_scheme p ≠ "https") = false -> https u.
Proof. intros Hp Hs. exists p. split; [done|]. apply bool_decide_eq_false in Hs. by apply dec_stable. Qed.

Lemma https_validated u x : validate_https_url u = Ok x -> https u.
Proof.
  unfold validate_https_url. destruct (url_parse u) as [p|e] eqn:Hp; cbn; [|done].
  destruct (bool_decide _) eqn:Hs; [done|]. intros _. by eapply https_checked.
Qed.

Lemma url_parsed (e : string -> SignerError) u p : map_err e (url_parse u) = Ok p -> url_parse u = Ok p.
Proof. destruct (url_parse u); cbn; congruence. Qed.
#[local] Hint Resolve https_checked https_validated url_parsed : keychain.

Lemma vault_formed b u t k p s : Vault.with_client_builder b u t k p = Ok s -> well_formed (Vault s).
Proof. unfold Vault.with_client_builder. intros E. made E. split; auto with keychain. done. Qed.

Lemma privy_formed c s : Privy.from_config c = Ok s -> well_formed (Privy s).
Proof. unfold Privy.from_config. intros E. made E; split; eauto with keychain. Qed.

Lemma turnkey_formed c s : Turnkey.from_config c = Ok s -> well_formed (Turnkey s).
Proof. unfold Turnkey.from_config. intros E. made E; split; eauto with keychain. Qed.

Lemma fireblocks_formed c s : Fireblocks.new c = Ok s -> well_formed (Fireblocks s).
Proof. unfold Fireblocks.new, Fireblocks.from_config. intros E. made E; split_and!; eauto with keychain. Qed.

Lemma dfns_formed c s : Dfns.new c = Ok s -> well_formed (Dfns s).
Proof. unfold Dfns.new, Dfns.from_config. intros E. made E; split_and!; eauto with keychain. done. Qed.

Lemma openfort_formed c s : Openfort.from_config c = Ok s -> well_formed (Openfort s).
Proof. unfold Openfort.from_config. intros E. made E; split_and!; eauto with keychain. Qed.

Lemma cdp_formed c s : Cdp.from_config c = Ok s -> well_formed (Cdp s).
Proof.
  unfold Cdp.from_config. intros E. made E; split_and!; eauto with keychain.
  match goal with Hn : match Cdp.cfg_network c with _ => _ end = false |- _ => revert Hn end.
  destruct (Cdp.cfg_network c) as [n|]; [|constructor].
  intros [Hn%bool_decide_eq_false|Hn%bool_decide_eq_false]%andb_false_iff; apply dec_stable in Hn; subst; set_solver.
Qed.

Lemma para_formed c s : Para.from_config c = Ok s -> well_formed (Para s).
Proof.
  unfold Para.from_config. intros E. made E; split_and!; eauto with keychain; by apply negb_false_iff.
Qed.

Lemma crossmint_formed c s : Crossmint.new c = Ok s -> well_formed (Crossmint s).
Proof.
  unfold Crossmint.new. intros E. made E; split_and!; eauto with keychain. intros k ->.
  match goal with Hn : match cfg_signer_secret c with _ => _ end = Ok _ |- _ => revert Hn end.
  destruct (cfg_signer_secret c); [|done]. destruct (derive_signing_key _ _); cbn; [|done]. intros [= <- <-]. eauto.
Qed.

Lemma utila_url_formed u b : normalize_api_base_url u = Ok b -> joinable b /\ https b.
Proof. unfold normalize_api_base_url. intros E. made E. split; eauto with keychain. Qed.

Lemma utila_formed c s : Utila.new c = Ok s -> well_formed (Utila s).
Proof.
  unfold Utila.new. intros E. made E; split_and!; eauto with keychain; by eapply utila_url_formed.
Qed.

Lemma core_formed c core : Fordefi.build c = Ok core -> fordefi_formed core.
Proof. unfold Fordefi.build. intros E. made E; split_and!; eauto with keychain. Qed.
#[local] Hint Resolve core_formed : keychain.

Lemma black_box_formed c s : BlackBox.from_config c = Ok s -> well_formed (FordefiBlackBox s).
Proof. unfold BlackBox.from_config. intros E. made E; eauto with keychain. Qed.

Lemma native_auto_formed c s : NativeAuto.from_config c = Ok s -> well_formed (FordefiNativeAuto s).
Proof. unfold NativeAuto.from_config. intros E. made E; eauto with keychain. Qed.

Lemma native_manual_formed c s : NativeManual.from_config c = Ok s -> well_formed (FordefiNativeManual s).
Proof. unfold NativeManual.from_config. intros E. made E; eauto with keychain. Qed.

#[local] Hint Resolve vault_formed privy_formed turnkey_formed fireblocks_formed dfns_formed openfort_formed cdp_formed
  para_formed crossmint_formed utila_formed black_box_formed native_auto_formed native_manual_formed : keychain.

(** ** The operations keep them *)

Lemma init_formed {S} (init : S -> M (S * result unit)) (wrap : S -> Signer) s w s' r w' :
  returns (init s) (fun p => well_formed (wrap s) -> well_formed (wrap p.1)) ->
  well_formed (wrap s) -> init s w = (Returned (s', r), w') -> well_formed (wrap s').
Proof. intros Hi Hs E. exact (Hi _ _ _ E Hs). Qed.

Ltac init_done := intros Hs; first [exact Hs | cbn in *; exact Hs].


End Invariant.

Module WellFormedDemo.
Import Demo DemoJson DemoJwt DemoDalek DemoEcdsa DemoText DemoPem CrossmintDemo KeychainDemo.

Definition demo_config : CrossmintSignerConfig :=
  Crossmint.mkConfig "sk_staging_abc" "wallet" None (Some "server:x") (Some " https://api/ ") (Some 250%Z) (Some 3).
Definition configured : result CrossmintSigner := Crossmint.new demo_config.


(** The ids of a Utila signer are checked before their resource prefix is cut
    off, so they may end up empty. *)
Lemma utila_ids_may_be_empty :
  exists s, Utila.new (mkUtilaSignerConfig "me@x" "pem" "vaults/" "vaults//wallets/" "net" None None None None None) = Ok s /\
    Utila.vault_id s = EmptyString /\ Utila.wallet_id s = EmptyString.
Proof. eexists. split; [vm_compute; reflexivity|]. split; reflexivity. Qed.

End WellFormedDemo.
