(* ===== verification/Redaction.v ===== *)
(** * Debug output

    The [Debug] implementations of the signers: each names the fields it shows
    and ends with an ellipsis.  Credentials are in none of them. *)

From S2P Require Import Prelude Errors World Externals TransactionUtil SignatureUtil RemoteUtil Traits.
From S2P Require Import Memory Vault Privy Turnkey Kms Fireblocks WalletJwt Cdp Dfns Openfort Para Crossmint.
From S2P Require Import Utila Fordefi LedgerDashboard Ledger LedgerActor Keychain.

(** [{:?}] of a [Pubkey] and of a [str]. *)
Class DebugText := {
  debug_pubkey : Pubkey -> string;
  debug_str : string -> string
}.

(** [f.debug_struct(name).field(..)...finish_non_exhaustive()]. *)
Definition debug_struct (name : string) (shown : list (string * string)) : string :=
  name +:+ of_bytes [x20; x7b; x20] +:+
  str_join EmptyString (map (fun f => f.1 +:+ ": " +:+ f.2 +:+ ", ") shown) +:+ ".." +:+ of_bytes [x20; x7d].

Definition debug_option (o : option string) : string :=
  match o with Some s => "Some(" +:+ s +:+ ")" | None => "None" end.
Definition debug_bool (b : bool) : string := if b then "true" else "false".

Section Debug.
Context `{Codecs} `{SolanaSdk} `{Json} `{FileSystem} `{ClientBuild} `{UrlParser} `{Jwt} `{Dalek} `{StdText}.
Context `{BuildProfile} `{Ecdsa} `{JsonText} `{PrivyCodec} `{TurnkeyCodec} `{AwsSdk} `{GcpSdk} `{FireblocksCodec}.
Context `{HttpHeaders} `{CdpCodec} `{!PemKeys} `{DfnsCodec} `{OpenfortCodec} `{ParaCodec} `{CrossmintCodec}.
Context `{UtilaCodec} `{P256} `{FordefiCodec}.
Context `{OffchainCrate} `{HID : Hid} `{!RemoteWallets} `{DeviceThread} `{Tokio} `{DebugText}.

Definition debug_key (pk : option Pubkey) : string := debug_option (debug_pubkey <$> pk).

Definition memory_debug (self : MemorySigner) : string :=
  debug_struct "MemorySigner" [("pubkey", debug_pubkey (keypair_pubkey (keypair self)))].
Definition vault_debug (self : VaultSigner) : string :=
  debug_struct "VaultSigner" [("public_key", debug_pubkey (Vault.public_key self))].
Definition privy_debug (self : PrivySigner) : string :=
  debug_struct "PrivySigner" [("public_key", debug_key (Privy.public_key self))].
Definition turnkey_debug (self : TurnkeySigner) : string :=
  debug_struct "TurnkeySigner" [("public_key", debug_pubkey (Turnkey.public_key self))].
Definition aws_kms_debug (self : Aws.AwsKmsSigner) : string :=
  debug_struct "AwsKmsSigner" [("key_id", debug_str (Aws.key_id self)); ("public_key", debug_pubkey (Aws.public_key self))].
Definition gcp_kms_debug (self : Gcp.GcpKmsSigner) : string :=
  debug_struct "GcpKmsSigner" [("key_name", debug_str (Gcp.key_name self)); ("public_key", debug_pubkey (Gcp.public_key self))].
Definition fireblocks_debug (self : FireblocksSigner) : string :=
  debug_struct "FireblocksSigner"
    [("public_key", debug_key (Fireblocks.public_key self)); ("vault_account_id", debug_str (vault_account_id self));
     ("asset_id", debug_str (asset_id self)); ("use_program_call", debug_bool (use_program_call self))].
Definition cdp_debug (self : CdpSigner) : string :=
  debug_struct "CdpSigner"
    [("public_key", debug_pubkey (Cdp.public_key self)); ("api_base_url", debug_str (Cdp.api_base_url self))].
Definition dfns_debug (self : DfnsSigner) : string :=
  debug_struct "DfnsSigner"
    [("public_key", debug_key (Dfns.public_key self)); ("wallet_id", debug_str (Dfns.wallet_id self));
     ("key_id", debug_str (Dfns.key_id self))].
Definition openfort_debug (self : OpenfortSigner) : string :=
  debug_struct "OpenfortSigner"
    [("account_id", debug_str (account_id self)); ("public_key", debug_key (Openfort.public_key self));
     ("api_base_url", debug_str (Openfort.api_base_url self))].
Definition para_debug (self : ParaSigner) : string :=
  debug_struct "ParaSigner" [("public_key", debug_key (Para.public_key self))].
Definition crossmint_debug (self : CrossmintSigner) : string :=
  debug_struct "CrossmintSigner"
    [("public_key", debug_key (Crossmint.public_key self)); ("wallet_locator", debug_str (wallet_locator self))].
Definition utila_debug (self : UtilaSigner) : string :=
  debug_struct "UtilaSigner"
    [("public_key", debug_key (Utila.public_key self)); ("vault_id", debug_str (Utila.vault_id self));
     ("wallet_id", debug_str (Utila.wallet_id self)); ("network", debug_str (Utila.network self))].
Definition fordefi_core_debug (self : FordefiCore) : string :=
  debug_struct "FordefiCore" [("public_key", debug_pubkey (public_key self))].
Definition black_box_debug (self : FordefiBlackBoxSigner) : string :=
  debug_struct "FordefiBlackBoxSigner" [("public_key", debug_pubkey (public_key (bb_core self)))].
Definition native_auto_debug (self : FordefiNativeAutoSigner) : string :=
  debug_struct "FordefiNativeAutoSigner" [("public_key", debug_pubkey (public_key (na_core self)))].
Definition native_manual_debug (self : FordefiNativeManualSigner) : string :=
  debug_struct "FordefiNativeManualSigner" [("public_key", debug_pubkey (public_key (nm_core self)))].
Definition ledger_debug (self : LedgerSigner) : string :=
  debug_struct "LedgerSigner" [("pubkey", debug_pubkey (Ledger.pubkey self))].

(** The text of the backend inside a [Signer]. *)
Definition signer_debug (self : Signer) : string :=
  match self with
  | Memory s => memory_debug s
  | Vault s => vault_debug s
  | Privy s => privy_debug s
  | Turnkey s => turnkey_debug s
  | AwsKms s => aws_kms_debug s
  | Fireblocks s => fireblocks_debug s
  | GcpKms s => gcp_kms_debug s
  | Cdp s => cdp_debug s
  | Dfns s => dfns_debug s
  | Openfort s => openfort_debug s
  | Para s => para_debug s
  | Crossmint s => crossmint_debug s
  | Utila s => utila_debug s
  | FordefiBlackBox s => black_box_debug s
  | FordefiNativeAuto s => native_auto_debug s
  | FordefiNativeManual s => native_manual_debug s
  | Ledger s => ledger_debug s
  end.

(** Two Fordefi cores that differ in their token and request-signing key. *)
Definition core_with (core : FordefiCore) (t : string) (k : RequestSigner) : FordefiCore :=
  mkCore t (vault_id core) k (Fordefi.api_base_url core) (Fordefi.client core) (public_key core)
    (poll_interval_ms core) (max_poll_attempts core).

(** Two signers of one backend that differ in their credentials only. *)
Inductive same_but_credentials : Signer -> Signer -> Prop :=
  | sbc_memory k k' : keypair_pubkey k = keypair_pubkey k' ->
      same_but_credentials (Memory (mkMemorySigner k)) (Memory (mkMemorySigner k'))
  | sbc_vault c u t t' n pk : same_but_credentials (Vault (mkVaultSigner c u t n pk)) (Vault (mkVaultSigner c u t' n pk))
  | sbc_privy i s s' w u c pk a a' e :
      same_but_credentials (Privy (mkPrivySigner i s w u c pk a e)) (Privy (mkPrivySigner i s' w u c pk a' e))
  | sbc_turnkey o i p p' k k' pk u c :
      same_but_credentials (Turnkey (mkTurnkeySigner o i p k pk u c)) (Turnkey (mkTurnkeySigner o i p' k' pk u c))
  | sbc_aws c c' k pk : same_but_credentials (AwsKms (Aws.mkAwsKmsSigner c k pk)) (AwsKms (Aws.mkAwsKmsSigner c' k pk))
  | sbc_gcp c c' k pk : same_but_credentials (GcpKms (Gcp.mkGcpKmsSigner c k pk)) (GcpKms (Gcp.mkGcpKmsSigner c' k pk))
  | sbc_fireblocks a a' k k' v n pk u c i m p :
      same_but_credentials (Fireblocks (mkFireblocksSigner a k v n pk u c i m p))
                           (Fireblocks (mkFireblocksSigner a' k' v n pk u c i m p))
  | sbc_cdp i i' s s' ws ws' n pk u h c :
      same_but_credentials (Cdp (mkCdpSigner i s ws n pk u h c)) (Cdp (mkCdpSigner i' s' ws' n pk u h c))
  | sbc_dfns t t' r r' p p' w k pk u c :
      same_but_credentials (Dfns (mkDfnsSigner t r p w k pk u c)) (Dfns (mkDfnsSigner t' r' p' w k pk u c))
  | sbc_openfort s s' a ws ws' pk u h c :
      same_but_credentials (Openfort (mkOpenfortSigner s a ws pk u h c)) (Openfort (mkOpenfortSigner s' a ws' pk u h c))
  | sbc_para a a' w u c pk : same_but_credentials (Para (mkParaSigner a w u c pk)) (Para (mkParaSigner a' w u c pk))
  | sbc_crossmint a a' w l u c pk i m k k' p :
      same_but_credentials (Crossmint (mkCrossmintSigner a w l u c pk i m k p))
                           (Crossmint (mkCrossmintSigner a' w l u c pk i m k' p))
  | sbc_utila e k k' v w n u c pk i m d :
      same_but_credentials (Utila (mkUtilaSigner e k v w n u c pk i m d)) (Utila (mkUtilaSigner e k' v w n u c pk i m d))
  | sbc_black_box core t k :
      same_but_credentials (FordefiBlackBox (mkBlackBox core)) (FordefiBlackBox (mkBlackBox (core_with core t k)))
  | sbc_native_auto core t k ch f p :
      same_but_credentials (FordefiNativeAuto (mkNativeAuto core ch f p))
                           (FordefiNativeAuto (mkNativeAuto (core_with core t k) ch f p))
  | sbc_native_manual core t k ch f :
      same_but_credentials (FordefiNativeManual (mkNativeManual core ch f))
                           (FordefiNativeManual (mkNativeManual (core_with core t k) ch f))
  | sbc_ledger pk p d d' t : same_but_credentials (Ledger (mkLedgerSigner pk p d t)) (Ledger (mkLedgerSigner pk p d' t)).

(** Printing a signer reveals no credential.  Two signers of one backend
    that differ only in tokens, API keys, secrets, PEM texts, signing keys,
    authorization contexts, cloud clients or the path of the device print the
    same. *)
Theorem debug_hides_credentials (a b : Signer) : same_but_credentials a b -> signer_debug a = signer_debug b.
Proof. destruct 1 as [k k' Hk| | | | | | | | | | | | | | | |]; cbn; [|reflexivity..]. unfold memory_debug. cbn. by rewrite Hk. Qed.

End Debug.

Module RedactionDemo.
Import Demo DemoJson DemoJwt DemoDalek DemoEcdsa DemoText DemoPem CrossmintDemo KeychainDemo.

#[export] Instance demo_debug : DebugText := {| debug_pubkey := fun _ => "key"; debug_str := fun s => s |}.

Definition with_token (t : string) : Signer :=
  Vault (mkVaultSigner (client_builder (mkHttpClientConfig None None)) "https://vault" t "key" (array_repeat 32 x01)).

Lemma debug_hides_credentials_witness :
  with_token "hvs.secret" ≠ with_token "other" /\
  signer_debug (with_token "hvs.secret") = signer_debug (with_token "other") /\
  signer_debug (with_token "other") = "VaultSigner " +:+ of_bytes [x7b] +:+ " public_key: key, .. " +:+ of_bytes [x7d].
Proof.
  split; [discriminate|]. split; [|vm_compute; reflexivity].
  apply debug_hides_credentials. apply sbc_vault.
Defined.

End RedactionDemo.
