(* ===== verification/SdkAdapter.v ===== *)
(** * The SDK adapter (src/rust/src/sdk_adapter)

    The crate builds against one of three versions of the Solana SDK, chosen by
    a feature.  What differs between the adapters is how a key pair is parsed and
    what the error says; the versions of the SDK themselves are parameters. *)

From S2P Require Import Prelude Errors World Externals TransactionUtil SignatureUtil RemoteUtil Traits Memory.
From S2P Require Import WalletJwt Cdp.

#[local] Open Scope keychain_scope.

(** A version of [solana_sdk]: its key pairs, with errors of its own type. *)
Record SdkCrate := mkSdkCrate {
  CrateKeypair : Type;
  CrateError : Type;
  error_to_string : CrateError -> string;
  (** [Keypair::from_bytes] in v2, [Keypair::try_from] in v3 and v4. *)
  crate_parse : list byte -> Result CrateKeypair CrateError;
  crate_from_seed : list byte -> Result CrateKeypair CrateError;
  crate_pubkey : CrateKeypair -> Pubkey;
  crate_sign_message : CrateKeypair -> list byte -> Signature
}.

Inductive Version := V2 | V3 | V4.

(** ** mod.rs: exactly one feature *)

Definition selected (sdk_v2 sdk_v3 sdk_v4 : bool) : Result Version string :=
  if (sdk_v2 && sdk_v3) || (sdk_v2 && sdk_v4) || (sdk_v3 && sdk_v4) then
    Err "Cannot enable more than one of sdk-v2, sdk-v3, sdk-v4. Choose one."
  else if negb (sdk_v2 || sdk_v3 || sdk_v4) then
    Err "Must enable one of sdk-v2, sdk-v3, or sdk-v4 feature."
  else Ok (if sdk_v2 then V2 else if sdk_v3 then V3 else V4).

(** ** v2.rs, v3.rs, v4.rs *)

Module AdapterV2.
Definition keypair_from_bytes (c : SdkCrate) (bytes : list byte) : Result (CrateKeypair c) string :=
  map_err (error_to_string c) (crate_parse c bytes).
Definition keypair_pubkey (c : SdkCrate) : CrateKeypair c -> Pubkey := crate_pubkey c.
Definition keypair_from_seed (c : SdkCrate) (seed : list byte) : Result (CrateKeypair c) string :=
  map_err (error_to_string c) (crate_from_seed c seed).
Definition keypair_sign_message (c : SdkCrate) : CrateKeypair c -> list byte -> Signature := crate_sign_message c.
End AdapterV2.

Module AdapterV3.
Definition keypair_from_bytes (c : SdkCrate) (bytes : list byte) : Result (CrateKeypair c) string :=
  map_err (fun e => "Invalid keypair bytes: " +:+ error_to_string c e) (crate_parse c bytes).
Definition keypair_pubkey (c : SdkCrate) : CrateKeypair c -> Pubkey := crate_pubkey c.
Definition keypair_from_seed (c : SdkCrate) (seed : list byte) : Result (CrateKeypair c) string :=
  map_err (error_to_string c) (crate_from_seed c seed).
Definition keypair_sign_message (c : SdkCrate) : CrateKeypair c -> list byte -> Signature := crate_sign_message c.
End AdapterV3.

Module AdapterV4.
Definition keypair_from_bytes (c : SdkCrate) (bytes : list byte) : Result (CrateKeypair c) string :=
  map_err (fun e => "Invalid keypair bytes: " +:+ error_to_string c e) (crate_parse c bytes).
Definition keypair_pubkey (c : SdkCrate) : CrateKeypair c -> Pubkey := crate_pubkey c.
Definition keypair_from_seed (c : SdkCrate) (seed : list byte) : Result (CrateKeypair c) string :=
  map_err (error_to_string c) (crate_from_seed c seed).
Definition keypair_sign_message (c : SdkCrate) : CrateKeypair c -> list byte -> Signature := crate_sign_message c.
End AdapterV4.

(** The rest of the crate sees the adapter of the selected version. *)
Definition adapted_from_bytes (v : Version) : forall c : SdkCrate, list byte -> Result (CrateKeypair c) string :=
  match v with
  | V2 => AdapterV2.keypair_from_bytes
  | V3 => AdapterV3.keypair_from_bytes
  | V4 => AdapterV4.keypair_from_bytes
  end.
Definition adapted_from_seed (v : Version) : forall c : SdkCrate, list byte -> Result (CrateKeypair c) string :=
  match v with
  | V2 => AdapterV2.keypair_from_seed
  | V3 => AdapterV3.keypair_from_seed
  | V4 => AdapterV4.keypair_from_seed
  end.

Definition adapter (v : Version) (c : SdkCrate) (sdk : SolanaSdk) : SolanaSdk := {|
  VersionedMessage := @VersionedMessage sdk;
  num_required_signatures := @num_required_signatures sdk;
  static_account_keys := @static_account_keys sdk;
  message_serialize := @message_serialize sdk;
  is_v1 := @is_v1 sdk;
  lookup_count := @lookup_count sdk;
  wire_serialize := @wire_serialize sdk;
  wire_deserialize := @wire_deserialize sdk;
  pubkey_from_str := @pubkey_from_str sdk;
  pubkey_to_string := @pubkey_to_string sdk;
  VerificationKey := @VerificationKey sdk;
  zebra_key := @zebra_key sdk;
  zebra_verify := @zebra_verify sdk;
  Keypair := CrateKeypair c;
  keypair_from_bytes := adapted_from_bytes v c;
  keypair_from_seed := adapted_from_seed v c;
  keypair_pubkey := crate_pubkey c;
  keypair_sign_message := crate_sign_message c
|}.

(** ** What the versions have in common *)

(** An error whose text the caller drops is the same for every adapter. *)
Lemma parse_same_ok v v' c bytes (e : SignerError) :
  map_err (fun _ => e) (adapted_from_bytes v c bytes) = map_err (fun _ => e) (adapted_from_bytes v' c bytes).
Proof.
  destruct v, v'; cbn; unfold AdapterV2.keypair_from_bytes, AdapterV3.keypair_from_bytes, AdapterV4.keypair_from_bytes;
    by destruct (crate_parse c bytes).
Qed.

Section Versions.
Context `{Codecs} `{Json} `{FileSystem} `{Jwt}.
Context (sdk : SolanaSdk) (c : SdkCrate) (v v' : Version).

Lemma keypair_or_invalid_same bytes :
  @keypair_or_invalid (adapter v c sdk) bytes = @keypair_or_invalid (adapter v' c sdk) bytes.
Proof. exact (parse_same_ok v v' c bytes _). Qed.

Lemma u8_array_string_same key :
  @from_u8_array_string (adapter v c sdk) key = @from_u8_array_string (adapter v' c sdk) key.
Proof.
  unfold from_u8_array_string. repeat (case_match; try done). f_equal. apply keypair_or_invalid_same.
Qed.

Lemma base58_same key : @from_base58_safe _ (adapter v c sdk) key = @from_base58_safe _ (adapter v' c sdk) key.
Proof.
  unfold from_base58_safe. destruct (bs58_decode key); cbn; [|done]. case_match; [done|]. apply keypair_or_invalid_same.
Qed.

Lemma json_keypair_same json : @from_json_keypair (adapter v c sdk) _ json = @from_json_keypair (adapter v' c sdk) _ json.
Proof. unfold from_json_keypair. repeat (case_match; try done). apply keypair_or_invalid_same. Qed.

(** The versions of the SDK are interchangeable.  Every feature selection
    with exactly one version, and no other, builds; and whichever it is, a key in
    any of its formats is parsed to the same key pair or the same error, and the
    API key of CDP is accepted or refused alike. *)
Theorem adapters_agree (key path secret : string) :
  @Memory.from_private_key_string _ (adapter v c sdk) key = @Memory.from_private_key_string _ (adapter v' c sdk) key /\
  @Memory.from_private_key_file (adapter v c sdk) _ _ path = @Memory.from_private_key_file (adapter v' c sdk) _ _ path /\
  @auth_key _ (adapter v c sdk) _ secret = @auth_key _ (adapter v' c sdk) _ secret /\
  (forall b2 b3 b4, is_ok (selected b2 b3 b4) = true <-> exists u, selected b2 b3 b4 = Ok u /\
     (b2, b3, b4) = match u with V2 => (true, false, false) | V3 => (false, true, false) | V4 => (false, false, true) end).
Proof.
  split_and!.
  - unfold Memory.from_private_key_string. destruct (_ && _); [apply u8_array_string_same|f_equal; apply base58_same].
  - unfold Memory.from_private_key_file. destruct (read_to_string path); cbn; [apply json_keypair_same|done].
  - by destruct v, v'.
  - intros [] [] []; cbn; split; try done; try (intros _; eexists; split; reflexivity); by intros (u & [=] & _).
Qed.

End Versions.
