(* ===== verification/BuildScript.v ===== *)
(** * The build script (src/rust/build.rs)

    It finds the version of the remote-wallet crate in the lock file above the
    manifest and prints directives for cargo.  A directory is the list of the
    components of its path; files and environment variables are functions. *)

From S2P Require Import Prelude.

#[local] Open Scope keychain_scope.

Definition quote : string := of_bytes [x22].
Definition quoted (s : string) : string := quote +:+ s +:+ quote.

(** [str::lines]: pieces between line feeds, without a last empty one, each
    without a trailing carriage return. *)
Definition drop_cr (l : list byte) : list byte :=
  match reverse l with x0d :: r => reverse r | _ => l end.
Definition str_lines (text : string) : list string :=
  let pieces := split_char x0a (as_bytes text) in
  let pieces := match reverse pieces with [] :: r => reverse r | _ => pieces end in
  map (fun l => of_bytes (drop_cr l)) pieces.

(** [str::strip_suffix] of one character. *)
Definition strip_suffix_char (c : byte) (s : string) : option string :=
  match reverse (as_bytes s) with
  | b :: r => if bool_decide (b = c) then Some (of_bytes (reverse r)) else None
  | [] => None
  end.

Definition PACKAGE : string := "[[package]]".
Definition TARGET : string := "solana-remote-wallet".
Definition name_line (name : string) : string := "name = " +:+ quoted name.

(** The scan of one lock file, line by line. *)
Fixpoint scan_lock (in_target : bool) (lines : list string) : option string :=
  match lines with
  | [] => None
  | line :: rest =>
      let line := trim line in
      if bool_decide (line = PACKAGE) then scan_lock false rest
      else if bool_decide (line = name_line TARGET) then scan_lock true rest
      else if in_target then
        match strip_prefix ("version = " +:+ quote) line ≫= strip_suffix_char x22 with
        | Some v => Some v
        | None => scan_lock in_target rest
        end
      else scan_lock in_target rest
  end.

(** ** The environment of the script *)

Record BuildEnv := mkBuildEnv {
  env_var : string -> option string;
  (** [PathBuf::from] of an environment value, as components. *)
  path_of : string -> list string;
  display_path : list string -> string;
  read_file : list string -> option string
}.

(** [Path::ancestors]: the path, then without its last component, to the root. *)
Fixpoint ancestors_rev (r : list string) : list (list string) :=
  reverse r :: match r with [] => [] | _ :: r' => ancestors_rev r' end.
Definition ancestors (p : list string) : list (list string) := ancestors_rev (reverse p).

(** The loop over the directories: the version, and the directives printed. *)
Fixpoint search_lock (env : BuildEnv) (dirs : list (list string)) : string * list string :=
  match dirs with
  | [] => ("unknown", [])
  | dir :: rest =>
      let lock := dir ++ ["Cargo.lock"] in
      match read_file env lock with
      | None => search_lock env rest
      | Some text =>
          (default "not-in-graph" (scan_lock false (str_lines text)),
           ["cargo:rerun-if-changed=" +:+ display_path env lock])
      end
  end.

Definition resolved_remote_wallet_version (env : BuildEnv) : string * list string :=
  match env_var env "CARGO_MANIFEST_DIR" with
  | None => ("unknown", [])
  | Some dir => search_lock env (take 6 (ancestors (path_of env dir)))
  end.

Definition wasm_warning : string :=
  "cargo:warning=solana-keychain: building for wasm32-unknown-unknown without a getrandom 0.3 backend. " +:+
  "Set RUSTFLAGS='--cfg getrandom_backend=" +:+ quoted "wasm_js" +:+ "' in the final binary's build, " +:+
  "otherwise getrandom will fail to compile.".

(** [main]: everything printed, in order. *)
Definition main (env : BuildEnv) : list string :=
  let (version, directives) := resolved_remote_wallet_version env in
  let target_is_browser_wasm :=
    bool_decide (env_var env "CARGO_CFG_TARGET_ARCH" = Some "wasm32") &&
    bool_decide (env_var env "CARGO_CFG_TARGET_OS" = Some "unknown") in
  let js_backend_selected := bool_decide (env_var env "CARGO_CFG_GETRANDOM_BACKEND" = Some "wasm_js") in
  directives ++ ["cargo:rustc-env=SOLANA_REMOTE_WALLET_VERSION=" +:+ version] ++
  (if target_is_browser_wasm && negb js_backend_selected then [wasm_warning] else []).

(** ** Lock files *)

Record Package := mkPackage { pkg_name : string; pkg_version : string; pkg_rest : list string }.

(** A block as cargo writes it: the name, the version, further lines. *)
Definition block (p : Package) : list string :=
  PACKAGE :: name_line (pkg_name p) :: ("version = " +:+ quoted (pkg_version p)) :: pkg_rest p.

Definition lock_lines (header : list string) (pkgs : list Package) : list string := header ++ concat (map block pkgs).
Definition newline : string := of_bytes [x0a].
Definition lock_text (lines : list string) : string := of_bytes (concat (map (fun l => as_bytes l ++ [x0a]) lines)).

(** A line that is neither a block header nor a name nor a version. *)
Definition inert (l : string) : Prop :=
  x0a ∉ as_bytes l /\ last (as_bytes l) ≠ Some x0d /\
  trim l ≠ PACKAGE /\ (forall n, trim l ≠ name_line n) /\ strip_prefix ("version = " +:+ quote) (trim l) = None.

Definition one_line (s : string) : Prop := x0a ∉ as_bytes s.

Record well_formed_package (p : Package) : Prop := {
  wp_name : one_line (pkg_name p);
  wp_version : one_line (pkg_version p);
  wp_rest : Forall inert (pkg_rest p)
}.

Definition locked_version (pkgs : list Package) : option string :=
  pkg_version <$> find (fun p => bool_decide (pkg_name p = TARGET)) pkgs.

(** ** Lemmas *)

(** A visible ASCII character begins no whitespace and ends none. *)
Definition visible (b : byte) : bool := negb (ws1 b) && (u8_val b <? 128)%Z.

Lemma visible_not_multi b : visible b = true -> ws1 b = false /\ b ∉ [xc2; xe1; xe2; xe3] /\
  b ∉ [x85; xa0; x80; x81; x82; x83; x84; x86; x87; x88; x89; x8a; xa8; xa9; xaf; x9f].
Proof. destruct b; intros Hv; try discriminate Hv; (split; [reflexivity|]); split; apply (bool_decide_unpack _); vm_compute; exact I. Qed.

Lemma drop_ws_visible b l : visible b = true -> drop_ws (b :: l) = b :: l.
Proof.
  intros (H1 & H2 & _)%visible_not_multi. cbn [drop_ws]. rewrite H1. destruct l as [|c l]; [done|].
  unfold ws2. rewrite bool_decide_eq_false_2 by set_solver. destruct l as [|d l]; [done|].
  unfold ws3. rewrite bool_decide_eq_false_2 by set_solver. done.
Qed.

Lemma drop_ws_rev_visible b l : visible b = true -> drop_ws_rev (b :: l) = b :: l.
Proof.
  intros (H1 & _ & H2)%visible_not_multi. cbn [drop_ws_rev]. rewrite H1. destruct l as [|c l]; [done|].
  unfold ws2. rewrite bool_decide_eq_false_2 by set_solver. destruct l as [|d l]; [done|].
  unfold ws3. rewrite bool_decide_eq_false_2 by set_solver. done.
Qed.

Lemma trim_framed s a l z : as_bytes s = a :: l -> last (as_bytes s) = Some z -> visible a = true -> visible z = true ->
  trim s = s.
Proof.
  intros Hs Hz Ha Hv. apply last_Some in Hz as [m Hm]. unfold trim, trim_start, trim_end.
  rewrite as_bytes_of_bytes, Hs, (drop_ws_visible a l Ha), <- Hs, Hm, reverse_snoc, (drop_ws_rev_visible z _ Hv).
  rewrite <- reverse_snoc, reverse_involutive, <- Hm. apply of_bytes_as_bytes.
Qed.

Lemma split_from_line cur l r : x0a ∉ l -> split_from x0a cur (l ++ x0a :: r) = (reverse cur ++ l) :: split_from x0a [] r.
Proof.
  revert cur. induction l as [|b l IH]; intros cur Hl; cbn [app split_from].
  - rewrite bool_decide_eq_true_2 by done. by rewrite app_nil_r.
  - rewrite bool_decide_eq_false_2 by set_solver. rewrite IH by set_solver. by rewrite reverse_cons, <- (assoc_L (++)).
Qed.

Lemma split_lock_text ls : Forall (fun l => x0a ∉ as_bytes l) ls ->
  split_char x0a (concat (map (fun l => as_bytes l ++ [x0a]) ls)) = map as_bytes ls ++ [[]].
Proof.
  unfold split_char. induction 1 as [|l ls Hl _ IH]; [done|]. cbn [map concat].
  rewrite <- (assoc_L (++)). cbn [app]. rewrite split_from_line by done. by rewrite IH.
Qed.

Lemma drop_cr_id l : last l ≠ Some x0d -> drop_cr l = l.
Proof.
  intros Hl. unfold drop_cr. destruct (reverse l) as [|b r] eqn:E; [done|].
  assert (last l = Some b) as Hb. { rewrite <- (reverse_involutive l), E, reverse_cons. apply last_snoc. }
  destruct b; try done; congruence.
Qed.

Lemma str_lines_lock_text ls :
  Forall (fun l => x0a ∉ as_bytes l /\ last (as_bytes l) ≠ Some x0d) ls -> str_lines (lock_text ls) = ls.
Proof.
  intros HF. unfold str_lines, lock_text. rewrite as_bytes_of_bytes, split_lock_text.
  2: { eapply Forall_impl; [exact HF|]. by intros l [? _]. }
  rewrite reverse_snoc, reverse_involutive, map_map.
  rewrite <- (map_id ls) at 2. apply map_ext_in. intros l Hl.
  rewrite Forall_forall in HF. rewrite drop_cr_id by (apply HF; by apply list_elem_of_In). apply of_bytes_as_bytes.
Qed.

Lemma last_quoted p s : last (as_bytes (p +:+ quoted s)) = Some x22.
Proof.
  unfold quoted. rewrite !as_bytes_app. change (as_bytes quote) with [x22]. rewrite !(assoc_L (++)). apply last_snoc.
Qed.

Lemma trim_name n : trim (name_line n) = name_line n.
Proof.
  eapply (trim_framed _ x6e _ x22); [|apply last_quoted|reflexivity..]. unfold name_line. by rewrite as_bytes_app.
Qed.

Lemma trim_version v : trim ("version = " +:+ quoted v) = "version = " +:+ quoted v.
Proof. eapply (trim_framed _ x76 _ x22); [|apply last_quoted|reflexivity..]. by rewrite as_bytes_app. Qed.

Lemma quoted_inj a b : quoted a = quoted b -> a = b.
Proof.
  unfold quoted. intros E. apply (f_equal as_bytes) in E. rewrite !as_bytes_app in E. change (as_bytes quote) with [x22] in E.
  cbn [app] in E. injection E as E. apply app_inj_2 in E as [E _]; [|done].
  by apply as_bytes_inj.
Qed.

Lemma name_line_inj a b : name_line a = name_line b -> a = b.
Proof.
  unfold name_line. intros E. apply (f_equal as_bytes) in E. rewrite !as_bytes_app in E.
  apply app_inv_head in E. apply quoted_inj. by apply as_bytes_inj.
Qed.

(** The first byte tells a header, a name line and a version line apart. *)
Lemma lines_differ n v :
  name_line n ≠ PACKAGE /\ "version = " +:+ quoted v ≠ PACKAGE /\ "version = " +:+ quoted v ≠ name_line n.
Proof. split_and!; intros E; apply (f_equal as_bytes) in E; unfold name_line in E; rewrite ?as_bytes_app in E; discriminate E. Qed.

Lemma version_found v : strip_prefix ("version = " +:+ quote) ("version = " +:+ quoted v) ≫= strip_suffix_char x22 = Some v.
Proof.
  assert (strip_prefix ("version = " +:+ quote) ("version = " +:+ quoted v) = Some (v +:+ quote)) as ->.
  { apply strip_prefix_Some. apply as_bytes_inj. unfold quoted. by rewrite !as_bytes_app, <- !(assoc_L (++)). }
  change (strip_suffix_char x22 (v +:+ quote) = Some v). unfold strip_suffix_char. rewrite as_bytes_app. change (as_bytes quote) with [x22]. rewrite reverse_snoc.
  rewrite bool_decide_eq_true_2, reverse_involutive, of_bytes_as_bytes by done. done.
Qed.

Lemma scan_inert ls r : Forall inert ls -> scan_lock false (ls ++ r) = scan_lock false r.
Proof.
  induction 1 as [|l ls (_ & _ & Hp & Hn & _) _ IH]; [done|]. cbn [app scan_lock].
  rewrite !bool_decide_eq_false_2 by auto. exact IH.
Qed.

Lemma scan_block p r : well_formed_package p ->
  scan_lock false (block p ++ r) =
    if bool_decide (pkg_name p = TARGET) then Some (pkg_version p) else scan_lock false r.
Proof.
  intros [_ _ Hrest]. destruct (lines_differ (pkg_name p) (pkg_version p)) as (D1 & D2 & D3).
  unfold block. cbn [app scan_lock]. change (trim PACKAGE) with PACKAGE at 1.
  rewrite (bool_decide_eq_true_2 (PACKAGE = PACKAGE)) by done.
  rewrite trim_name, (bool_decide_eq_false_2 _ D1).
  assert (Ht : name_line (pkg_name p) = name_line TARGET <-> pkg_name p = TARGET).
  { split; [apply name_line_inj|by intros ->]. }
  rewrite (bool_decide_ext _ _ Ht).
  rewrite trim_version, (bool_decide_eq_false_2 _ D2), (bool_decide_eq_false_2 (_ = name_line TARGET)).
  2: { apply (proj2 (proj2 (lines_differ TARGET (pkg_version p)))). }
  case_bool_decide; [by rewrite version_found|]. by apply scan_inert.
Qed.

Lemma scan_blocks pkgs : Forall well_formed_package pkgs ->
  scan_lock false (concat (map block pkgs)) = locked_version pkgs.
Proof.
  induction 1 as [|p pkgs Hp _ IH]; [done|]. cbn [map concat]. rewrite scan_block by done.
  unfold locked_version in *. cbn [find]. case_bool_decide; [done|exact IH].
Qed.

Lemma block_lines p : well_formed_package p ->
  Forall (fun l => x0a ∉ as_bytes l /\ last (as_bytes l) ≠ Some x0d) (block p).
Proof.
  intros [Hn Hv Hr]. unfold one_line in *. unfold block, name_line. repeat constructor.
  1: apply (bool_decide_unpack _); vm_compute; exact I.
  1: discriminate.
  5: { eapply Forall_impl; [exact Hr|]. intros l (? & ? & _). done. }
  2, 4: rewrite last_quoted; discriminate.
  all: unfold quoted; rewrite !as_bytes_app; change (as_bytes quote) with [x22];
    rewrite !not_elem_of_app; split_and!; try done; apply (bool_decide_unpack _); vm_compute; exact I.
Qed.

(** The line scan reads lock files as cargo writes them.  On the text of
    any lock file, made of a header and package blocks, the build script reports
    the version of the first package named solana-remote-wallet, [not-in-graph] if
    there is none; and it reads the nearest lock file at or above the manifest,
    looking at six directories, [unknown] if none of them has one. *)
Theorem resolved_version_spec (env : BuildEnv) (dir : string) :
  env_var env "CARGO_MANIFEST_DIR" = Some dir ->
  let dirs := take 6 (ancestors (path_of env dir)) in
  match position (fun d => bool_decide (read_file env (d ++ ["Cargo.lock"]) ≠ None)) dirs with
  | None => (resolved_remote_wallet_version env).1 = "unknown"
  | Some i => exists d, dirs !! i = Some d /\
      forall header pkgs, Forall inert header -> Forall well_formed_package pkgs ->
        read_file env (d ++ ["Cargo.lock"]) = Some (lock_text (lock_lines header pkgs)) ->
        (resolved_remote_wallet_version env).1 = default "not-in-graph" (locked_version pkgs)
  end.
Proof.
  intros Hdir dirs. unfold resolved_remote_wallet_version. rewrite Hdir. fold dirs. generalize dirs. clear Hdir dirs.
  intros dirs. induction dirs as [|d dirs IH]; [done|]. cbn [position search_lock].
  case_bool_decide as Hd.
  - exists d. split; [done|]. intros header pkgs Hh Hp ->. cbn [fst]. rewrite str_lines_lock_text.
    + unfold lock_lines. by rewrite scan_inert, scan_blocks.
    + unfold lock_lines. apply Forall_app. split.
      * eapply Forall_impl; [exact Hh|]. intros l (? & ? & _). done.
      * apply Forall_concat, Forall_map. eapply Forall_impl; [exact Hp|]. apply block_lines.
  - rewrite Hd. destruct (position _ dirs) as [i|]; cbn; [|exact IH]. exact IH.
Qed.

Module BuildScriptDemo.

Definition demo_header : list string := ["# This file is generated"; "version = 4"; EmptyString].
Definition demo_packages : list Package :=
  [mkPackage "other" "9.9.9" ["dependencies = ["; " " +:+ quoted TARGET +:+ ","; "]"; EmptyString];
   mkPackage TARGET "3.1.2" [EmptyString]].

(** Only the parent directory has a lock file. *)
Definition demo_env : BuildEnv :=
  mkBuildEnv (fun v => if bool_decide (v = "CARGO_MANIFEST_DIR") then Some "/repo/rust" else None)
    (fun _ => ["repo"; "rust"]) (str_join "/")
    (fun p => if bool_decide (p = ["repo"; "Cargo.lock"]) then Some (lock_text (lock_lines demo_header demo_packages)) else None).

Ltac by_evaluation := apply (bool_decide_unpack _); vm_compute; exact I.

Lemma not_a_name l : head (as_bytes (trim l)) ≠ Some x6e -> forall n, trim l ≠ name_line n.
Proof. intros Hl n E. apply Hl. rewrite E. unfold name_line. by rewrite as_bytes_app. Qed.

Lemma inert_line l :
  bool_decide (x0a ∉ as_bytes l /\ last (as_bytes l) ≠ Some x0d /\ trim l ≠ PACKAGE /\
    head (as_bytes (trim l)) ≠ Some x6e /\ strip_prefix ("version = " +:+ quote) (trim l) = None) = true -> inert l.
Proof. intros (? & ? & ? & Hn & ?)%bool_decide_eq_true. split_and!; [done..| |done]. by apply not_a_name. Qed.

Lemma resolved_version_spec_witness :
  (resolved_remote_wallet_version demo_env).1 = "3.1.2".
Proof.
  destruct (resolved_version_spec demo_env "/repo/rust" eq_refl) as (d & Hd & Hall).
  vm_compute in Hd. injection Hd as <-.
  refine (Hall demo_header demo_packages _ _ eq_refl).
  - repeat (apply Forall_cons; split; [apply inert_line; vm_compute; reflexivity|]). apply Forall_nil. exact I.
  - apply Forall_cons. split; [|apply Forall_cons; split; [|apply Forall_nil; exact I]].
    all: split; [by_evaluation|by_evaluation|].
    all: repeat (apply Forall_cons; split; [apply inert_line; vm_compute; reflexivity|]); apply Forall_nil; exact I.
Defined.

End BuildScriptDemo.
